(* ===== verification/_CoqProject ===== *)
-Q . S2P
Prelude.v
Host.v
SimKvm.v
Resource.v
Memory.v
Vcpu.v
PortIo.v
MmioDev.v
Cpuid.v
Msr.v
Dispatcher.v
Reentrant.v
Machine.v
System.v
Ownership.v
Handles.v
Trapper.v
Counters.v
Events.v
Progress.v
Loader.v
Text.v
Boot.v
Plans.v
LoadErrors.v
Vmi.v
Agents.v
Summary.v
Main.v
MainSafe.v
Protocol.v
Report.v
Account.v
Device.v
Guest.v
Rounds.v
Tests.v
