(* ===== verification/Prelude.v ===== *)
(** * minBp: a verification library for a minimal KVM hypervisor

    minBp (sources under src/src and src/include/hv) is a user-space hypervisor
    on the Linux KVM API: it creates a machine, gives it memory and a vCPU,
    runs the vCPU in a loop, answers the exits the guest causes through
    registered callbacks, publishes them on an event bus, records them with an
    introspection agent, and rewinds the machine to a snapshot between runs.
    This library translates every class of it, the demo's main and the unit
    tests into executable definitions and proves what makes them correct.

    ** The parts and the files

    The language and the world:
    - Prelude: fixed-width integers as [Z] with explicit truncation ([u8] to
      [u64]), the monad [M S A] of state passing with faults ([AssertFailed],
      [OutOfBounds], [NullDeref], [UseAfterFree], [LengthError]) and its
      pre/postconditions ([triple]), [std::expected] as [expected],
      little-endian bytes, slices and splices of byte strings, checked loads and
      stores.
    - Host: the register files and ioctl arguments of linux/kvm.h, the kernel as
      an interface ([Kernel]: system calls, KVM_RUN, clock, CPUID), what KVM and
      POSIX document of it (the classes of laws below), and the state of the
      process ([Host]: mapped blocks, descriptors, errno, the trace of calls,
      diagnostics, standard output). A computation runs in a [World]: the
      process, and the environment [E] that callbacks capture. [idle] computations
      leave nothing an observer sees; the logics of observation ([silent] of Events,
      [mute] of Protocol, [still] of Account) build on them.
    - SimKvm: a small executable kernel that satisfies all the laws; the
      witnesses run on it.
    - Resource: descriptors and mappings as resources, [owned] multisets of them,
      and specifications [spec P X m Y Q] of what an operation consumes and
      yields.

    The classes:
    - Memory (MemoryRegion.h, MemoryRegion.cpp), Vcpu (VCpu), Machine
      (VirtualMachine), System (KvmSystem): the RAII wrappers. A C++ method
      [Class::method] is the definition [Class_method], or [method] where the
      name is free. A move gives the new object and what is left of the old one;
      pointers to elements of a vector are indices.
    - PortIo (IoPortHandler), MmioDev (MmioHandler), Cpuid (CpuidHandler), Msr
      (MsrHandler): the exit handlers. The kvm_run page is a block of bytes that
      is decoded at the offsets of the KVM ABI ([field] in Host), and the
      handlers write their answers into it.
    - Dispatcher (EventDispatcher): events, subscriptions, publication, and the
      abstract bus it implements. Reentrant: the same bus as a shared object,
      with handlers that call it back while it delivers.
    - Trapper (InstructionTrapper): the dispatch of every exit reason and the
      run loop; the handlers and the bus are fields of its state. Counters: a run
      as a sequence of exits, and what the seven counters make of it.
    - Loader (GuestLoader): register setup, page tables, the two load functions,
      and the processor's page walk they are checked against.
    - Text: what the output streams print (decimal, hexadecimal, dumps), and a
      lexer and parser of JSON. Vmi (VmiAgent): the agent, its records, its JSON
      log. Agents and machines are objects in a store keyed by address, because
      the agent's handler captures the agent by address. Summary: a reader of the
      agent's summaries and of the whole log. Agents: programs over any number of
      agents on one bus, as lists of commands, and the roll they refine.
    - Main (main.cpp): the demo's callbacks and device, the CPUID table, the
      fuzzing loop, the whole program with its destructors and what it prints.
    - Tests (tests/testHypervisor.cpp): the five unit tests.

    The program as a whole:
    - Ownership: the holdings of every class ([Holder]) and a [spec] for each of
      its operations, on every branch. Handles: arbitrary programs over the four
      classes, as lists of commands on a store of objects.
    - Progress: the run loop never faults and ends when the guest does, for any
      invariant the callbacks keep ([Order], [quiet], [serves]). Events: what the
      run loop publishes, for any invariant of the world and the bus ([carries]).
    - Boot: what loading a guest acquires on every branch. Plans: what a load asks
      of the kernel, as plans of system calls in which each call depends on the
      answers before it, and the parts of the loader that follow them. LoadErrors:
      the outcomes of [loadBytes] and [load] are those of their plans.
    - MainSafe, Report, Account: the theorems on [main], composed from the above.
      Account tells the program's three runs as sequences of exits ([series]) and
      has a logic of what a computation adds to the agent's log ([tells]) or does
      not touch ([still]). Protocol:
      the order of system calls the KVM API prescribes, as an automaton, a logic
      for traces of calls ([drives], [keeps]), and [main]'s trace. Device:
      the board of devices the demo is meant to be to its guest, a labelled
      transition system, and the passes of the loop as its steps. Guest
      (guests/simpleGuest.asm): the guest program on a small real-mode processor, its
      runs by the exits it causes, and the guest on the board. Rounds: the fuzzing
      loop with that guest in every run.

    ** How the parts interact

    [Main.main] opens a [KvmSystem], creates a [VirtualMachine], loads the guest
    with [loadBytes], subscribes an agent and a logger to the dispatcher, takes a
    snapshot, and calls [runLoop] on a trapper that owns the handlers and the
    dispatcher. [step] issues KVM_RUN on the vCPU and [dispatchExit] hands the
    page to the handler of the exit; the handler runs the callback in the world
    and answers through the page or the registers; then an event is published,
    and [deliver] runs the subscribers in order, the agent's [handleHvEvent]
    among them, which reads the registers and guest memory and appends to its
    log.

    ** What the theorems show

    The numbers are those of the doc comments of the theorems.
    - The program (MainSafe, Protocol, Report, Account, Device): [main] never faults, whatever the
      calls return and the guest does, and leaves no descriptor or mapping behind
      (C5); it returns when the guest stops (C6); it issues its system calls
      in the order of the API, whatever path it takes (C13); its log, its printed
      lines and its totals tell the same events, each with the payload its
      type announces except for a shutdown, which carries an empty [CpuidEvent] (C11); these are the events of the exits the guest took, in order, and the exits
      it reports are the calls of KVM_RUN it made (C12); and to the guest it is a board of devices (C7).
    - The guest (Guest, Rounds): the guest program and the passes that serve it are the guest
      on the board, with one end from any device state (C9); the runs of [main]
      add up on the device (C8).
    - Ownership (Handles): along any program over the four classes each
      descriptor and mapping has exactly one owner (C4). [region_ownership] of
      Memory is the same for regions alone, with their contents.
    - Snapshots and machines (Machine): a restore undoes any run (C1); machines
      are built with the slots and mappings that makes this applicable (C20); the
      order of destruction ([vm_destroy_unregisters_after_close]).
    - The loop (Trapper): [runLoop] characterised by sequences of passes (C2),
      its termination under a limit (C21), the classification of exits ([exit_verdicts]),
      its counters (Counters, C14), the
      events of IN and MMIO exits (C31, C32; of CPUID exits,
      [cpuid_event_leaf]), and that it does not stop on unhandled exits (C40).
    - The bus (Dispatcher): refinement to a finite map (C3);
      [subscribe_unsubscribe]. The shared bus (Reentrant): what a completed delivery
      has not done ([completed_delivery_stable]; [once_faults]), when nested publication ends
      (C23; [echo_never_returns]), and that handlers which leave the bus
      alone make it the bus of Dispatcher ([plain_bus_is_dispatcher]).
    - Memory (Memory): reading back what was written (C33); [write_assert_wraps].
    - The handlers: IN and OUT (C27, C28), MMIO (C29, C30), CPUID (C34), MSR
      (reads, C35; writes, which are served as reads, C36). [installFilter_indices], [io_in_rep_first_only], [mmio_refuses],
      [cpuid_register_errors], [installFilter_allows_everything] and
      [msr_writes_unreachable] are their further branches.
    - The loader (Loader, LoadErrors): the page tables are the identity on the
      first GiB under the processor's walk (C17), whole loads (C19, C25), every
      outcome of [loadBytes] and [load], its calls, error code, machine and memory
      (C15, C16), 64-bit mode ([setup64_runs_64bit]), images
      whose end wraps (C39); [page_tables_overrun]. The CPUID buffer round trip is C26
      (Vcpu).
    - The agent (Vmi): records (C22), guest reads (C24), the JSON
      log parsed back ([dump_is_json]) and, with its summaries, into the events it is a
      log of (Summary, C18); [vmi_move_unsubscribes]. Any number of agents on
      one bus (Agents): the class refines a roll of who listens and what each has heard
      (C37), so without moves an agent hears exactly the events since its
      construction (C10); one agent alone ([vmi_lifetime]), ids that wrap
      ([wrapped_agent_dangles]). [KvmSystem] (System): no descriptor
      leaks from open ([open_no_leak]); [assign_into_empty_is_lost].
    - The demo (Main, Tests): runs start from the snapshot (C38), the unit
      tests ([unit_tests_pass]), the device protocol ([device_status]), the CPUID table
      ([table_is_unmasked]).

    ** Hypotheses about code outside the sources

    The kernel is a parameter of everything. Where a theorem needs more than its
    type, it asks for classes of laws, and [SimKvm] has an instance of each:
    - [KvmLaws], [VcpuLaws]: register ioctls read and write the register files,
      bit 1 of RFLAGS reads as one, a new vCPU has registers;
    - [MmapLaws], [FdLaws]: mmap and the calls that open descriptors return
      unused ones, and only munmap and close end their use; [ErrnoLaws]: a
      failing call sets errno;
    - [PageLaws], [RunLaws]: the mapping of a vCPU's descriptor is its run page,
      KVM_RUN leaves a documented exit there and unmaps nothing;
    - [HaltLaws bound]: the guest stops by itself, at most [bound] exits after
      its special registers were last set. Only C6 asks for it.
    The file system is a function from paths to contents, the order in which an
    unordered map is walked is a function on its keys, and [assert] is switched
    by the parameter [ndebug].

    ** Fuel and bounds

    The run loop is the only loop of the sources that need not end: [runLoop]
    takes fuel and answers [None] when it runs out; C21 shows that [max + 1] is
    enough under a limit, C6 that [bound + 1] is enough for each run of the demo
    on a kernel with [HaltLaws bound], C40 that no fuel is enough in general
    without a limit. The stack of nested publications is the other fuel: [bus_publish] answers
    [None] when the calls nest deeper, C23 says how deep is enough.
    Printing a number takes 64 digits of fuel, which is enough
    for 64 bits in any base ([fuel_enough]); the JSON parser takes the number of
    tokens. Everything else is structural.

    ** What is not modelled

    The build files; the encoding of the guest (Guest has its instructions, not the
    bytes nasm makes of them, and that KVM runs them as written is the hypothesis
    [guest_run] on the exits); exhaustion of host memory by the C++ allocator;
    concurrency and signals (the program has one thread; the signal handler,
    [sigint_handler], sets a flag nothing reads, and is never delivered here); the
    texts of [error_code::message]. The effect of KVM_RUN on the page and on guest
    memory is whatever the kernel does. Callbacks given to an agent run in the
    user's part of the environment, so they cannot re-enter the agent.

    ** Left open

    Callbacks that register ports while the handler that runs them serves an exit,
    and agents whose callbacks call the bus, would need the handlers as shared
    objects, as Reentrant does for the bus. The 64-bit load is verified up to the
    vCPU it leaves, no 64-bit guest is run; CPUID exits are not requests of the
    board. *)

From stdpp Require Import base list gmap numbers strings.
From Stdlib Require Import ZArith Lia.

Open Scope Z_scope.

(** ** Notations, hint databases *)

Declare Scope hv_scope.
Delimit Scope hv_scope with hv.

Create HintDb hv.

(** ** Fixed-width unsigned integers

    An unsigned C++ integer is a [Z]; every conversion to a w-bit type and
    every arithmetic operation that can leave the range is followed by the
    truncation of that type. *)

Definition u8 (x : Z) : Z := x mod 2 ^ 8.
Definition u16 (x : Z) : Z := x mod 2 ^ 16.
Definition u32 (x : Z) : Z := x mod 2 ^ 32.
Definition u64 (x : Z) : Z := x mod 2 ^ 64.

Definition is_u8 (x : Z) : Prop := 0 <= x < 2 ^ 8.
Definition is_u16 (x : Z) : Prop := 0 <= x < 2 ^ 16.
Definition is_u32 (x : Z) : Prop := 0 <= x < 2 ^ 32.
Definition is_u64 (x : Z) : Prop := 0 <= x < 2 ^ 64.

Lemma u8_range x : is_u8 (u8 x).
Proof. apply Z.mod_pos_bound; lia. Qed.

Lemma u16_range x : is_u16 (u16 x).
Proof. apply Z.mod_pos_bound; lia. Qed.

Lemma u32_range x : is_u32 (u32 x).
Proof. apply Z.mod_pos_bound; lia. Qed.

Lemma u64_range x : is_u64 (u64 x).
Proof. apply Z.mod_pos_bound; lia. Qed.

Lemma u8_small x : is_u8 x -> u8 x = x.
Proof. apply Z.mod_small. Qed.

Lemma u16_small x : is_u16 x -> u16 x = x.
Proof. apply Z.mod_small. Qed.

Lemma u32_small x : is_u32 x -> u32 x = x.
Proof. apply Z.mod_small. Qed.

Lemma u64_small x : is_u64 x -> u64 x = x.
Proof. apply Z.mod_small. Qed.

#[export] Hint Resolve u8_range u16_range u32_range u64_range : hv.
#[export] Hint Resolve u8_small u16_small u32_small u64_small : hv.

(** ** Faults and the outcome of a computation

    A fault is a run that leaves the behaviour the language defines, or that
    terminates the process: an [assert] that fails, an access outside the
    block a pointer points into, a null dereference, a use of an object after
    its lifetime, [std::length_error]. *)

Inductive fault :=
| AssertFailed
| OutOfBounds
| NullDeref
| UseAfterFree
| LengthError.

Inductive outcome (A : Type) :=
| Ok (a : A)
| Fault (f : fault).
Arguments Ok {A} a.
Arguments Fault {A} f.

#[export] Instance fault_eq_dec : EqDecision fault.
Proof. solve_decision. Defined.

(** [std::expected<A, std::error_code>]: the codes are of the generic
    category, so a code is its [errno] value. *)
Inductive expected (A : Type) :=
| Value (a : A)
| Unexpected (ec : Z).
Arguments Value {A} a.
Arguments Unexpected {A} ec.

(** [std::error_code]'s conversion to [bool]. *)
Definition ec_failed (ec : Z) : bool := negb (ec =? 0).

(** [std::expected::value_or]. *)
Definition value_or {A} (e : expected A) (d : A) : A :=
  match e with Value a => a | Unexpected _ => d end.

(** ** The state-and-fault monad of the whole development *)

Definition M (S A : Type) : Type := S -> outcome (A * S).

Definition ret {S A} (a : A) : M S A := fun s => Ok (a, s).

Definition bind {S A B} (m : M S A) (k : A -> M S B) : M S B :=
  fun s => match m s with
           | Ok (a, s') => k a s'
           | Fault f => Fault f
           end.

Definition fail {S A} (f : fault) : M S A := fun _ => Fault f.
Definition get {S} : M S S := fun s => Ok (s, s).
Definition put {S} (s : S) : M S unit := fun _ => Ok (tt, s).
Definition lift {S A} (o : outcome A) : M S A :=
  fun s => match o with Ok a => Ok (a, s) | Fault f => Fault f end.

Notation "'let*' x := m 'in' k" := (bind m (fun x => k))
  (at level 10, x pattern, m at level 200, k at level 200) : hv_scope.
Notation "m ;;; k" := (bind m (fun _ => k))
  (at level 100, k at level 200, right associativity) : hv_scope.
Open Scope hv_scope.

Lemma bind_ret_l {S A B} (a : A) (k : A -> M S B) s : bind (ret a) k s = k a s.
Proof. reflexivity. Qed.

Lemma bind_Ok {S A B} (m : M S A) (k : A -> M S B) s a s' :
  m s = Ok (a, s') -> bind m k s = k a s'.
Proof. unfold bind. by intros ->. Qed.

Lemma bind_inv {S A B} (m : M S A) (k : A -> M S B) s b s'' :
  bind m k s = Ok (b, s'') -> exists a s', m s = Ok (a, s') /\ k a s' = Ok (b, s'').
Proof. unfold bind. destruct (m s) as [[a s']|]; [eauto | done]. Qed.

(** Invert every [bind _ _ _ = Ok _] of the context. *)
Ltac binv :=
  repeat match goal with
  | H : bind _ _ _ = Ok _ |- _ =>
      let a := fresh "a" in let s := fresh "s" in let E := fresh "E" in
      apply bind_inv in H; destruct H as (a & s & E & H)
  end.

(** ** Total correctness

    [triple P m Q]: from every state that satisfies [P], [m] returns without a
    fault, in a state and with a result that satisfy [Q]. *)

Definition triple {S A} (P : S -> Prop) (m : M S A) (Q : A -> S -> Prop) : Prop :=
  forall s, P s -> exists a s', m s = Ok (a, s') /\ Q a s'.

Section Triples.

Context {S : Type}.
Implicit Types (P : S -> Prop).

Lemma triple_ret {A} (a : A) (Q : A -> S -> Prop) : triple (Q a) (ret a) Q.
Proof. intros s Hs. by exists a, s. Qed.

Lemma triple_bind {A B} P (m : M S A) Q (k : A -> M S B) R :
  triple P m Q -> (forall a, triple (Q a) (k a) R) -> triple P (bind m k) R.
Proof.
  intros Hm Hk s Hs. destruct (Hm s Hs) as (a & s1 & E & Ha).
  rewrite (bind_Ok _ _ _ _ _ E). by apply Hk.
Qed.

Lemma triple_conseq {A} P P' (m : M S A) Q Q' :
  triple P' m Q' -> (forall s, P s -> P' s) -> (forall a s, Q' a s -> Q a s) -> triple P m Q.
Proof. intros Hm HP HQ s Hs. destruct (Hm s (HP s Hs)) as (a & s1 & E & Ha). eauto. Qed.

Lemma triple_pre {A} P P' (m : M S A) Q :
  triple P' m Q -> (forall s, P s -> P' s) -> triple P m Q.
Proof. intros Hm HP. by eapply triple_conseq. Qed.

Lemma triple_post {A} P (m : M S A) Q Q' :
  triple P m Q' -> (forall a s, Q' a s -> Q a s) -> triple P m Q.
Proof. intros Hm HQ. by eapply triple_conseq. Qed.

(** A fact that does not depend on the state can be assumed. *)
Lemma triple_pure {A} (X : Prop) P (m : M S A) Q :
  (X -> triple P m Q) -> triple (fun s => X /\ P s) m Q.
Proof. intros Hm s [Hx Hs]. by apply Hm. Qed.

Lemma triple_exists {A T} (P : T -> S -> Prop) (m : M S A) Q :
  (forall x, triple (P x) m Q) -> triple (fun s => exists x, P x s) m Q.
Proof. intros Hm s [x Hs]. by eapply Hm. Qed.

Lemma triple_if {A} (b : bool) P (m1 m2 : M S A) Q :
  (b = true -> triple P m1 Q) -> (b = false -> triple P m2 Q) ->
  triple P (if b then m1 else m2) Q.
Proof. destruct b; auto. Qed.

End Triples.

(** Split the innermost discriminee of the goal or of a hypothesis. *)
Ltac split_match :=
  match goal with
  | |- context [match ?x with _ => _ end] =>
      lazymatch x with context [match _ with _ => _ end] => fail | _ => destruct x eqn:? end
  | H : context [match ?x with _ => _ end] |- _ =>
      lazymatch x with context [match _ with _ => _ end] => fail | _ => destruct x eqn:? end
  end.

(** Turn the boolean comparisons of the context into propositions. *)
Ltac boolify :=
  repeat match goal with
  | H : (_ <=? _) = true |- _ => apply Z.leb_le in H
  | H : (_ <=? _) = false |- _ => apply Z.leb_gt in H
  | H : (_ <? _) = true |- _ => apply Z.ltb_lt in H
  | H : (_ <? _) = false |- _ => apply Z.ltb_ge in H
  | H : (_ =? _) = true |- _ => apply Z.eqb_eq in H
  | H : (_ =? _) = false |- _ => apply Z.eqb_neq in H
  | H : (_ && _)%bool = true |- _ => apply andb_true_iff in H; destruct H
  | H : (_ || _)%bool = false |- _ => apply orb_false_iff in H; destruct H
  | H : negb _ = true |- _ => apply negb_true_iff in H
  | H : negb _ = false |- _ => apply negb_false_iff in H
  end.

(** ** Little-endian byte strings

    Memory is a list of bytes, each a [Z] below 256. *)

Definition is_byte (b : Z) : Prop := 0 <= b < 256.

Definition bytesb : list Z -> bool := forallb (fun b => (0 <=? b) && (b <? 256)).

Lemma bytesb_ok l : bytesb l = true -> Forall is_byte l.
Proof.
  induction l as [|b l IH]; [constructor|]. cbn. intros Hb. boolify.
  constructor; [split; lia | auto].
Qed.

Fixpoint le_decode (bs : list Z) : Z :=
  match bs with
  | [] => 0
  | b :: bs' => b + 256 * le_decode bs'
  end.

Fixpoint le_encode (n : nat) (z : Z) : list Z :=
  match n with
  | O => []
  | S n' => z mod 256 :: le_encode n' (z / 256)
  end.

Lemma length_le_encode n z : length (le_encode n z) = n.
Proof. revert z; induction n; simpl; auto. Qed.

Lemma le_encode_bytes n z : Forall is_byte (le_encode n z).
Proof.
  revert z; induction n; intros z; constructor; auto.
  apply Z.mod_pos_bound; lia.
Qed.

Lemma le_decode_bound bs :
  Forall is_byte bs -> 0 <= le_decode bs < 256 ^ Z.of_nat (length bs).
Proof.
  induction 1 as [|b bs Hb _ IH]; [done|].
  cbn [le_decode length]. rewrite Nat2Z.inj_succ, Z.pow_succ_r by lia.
  unfold is_byte in Hb; nia.
Qed.

Lemma le_decode_encode n z : le_decode (le_encode n z) = z mod 256 ^ Z.of_nat n.
Proof.
  revert z; induction n as [|n IH]; intros z.
  - by rewrite Z.mod_1_r.
  - cbn [le_decode le_encode]. rewrite IH, Nat2Z.inj_succ, Z.pow_succ_r by lia.
    rewrite Z.rem_mul_r by lia. lia.
Qed.

Lemma le_encode_decode bs :
  Forall is_byte bs -> le_encode (length bs) (le_decode bs) = bs.
Proof.
  induction 1 as [|b bs Hb _ IH]; [done|]. cbn [le_decode le_encode length].
  unfold is_byte in Hb.
  rewrite (Z.mul_comm 256), Z.mod_add, Z.div_add, Z.mod_small, Z.div_small by lia.
  by rewrite Z.add_0_l, IH.
Qed.

Lemma take_le_encode m n z : (m <= n)%nat -> take m (le_encode n z) = le_encode m z.
Proof.
  revert n z; induction m as [|m IH]; intros [|n] z H; simpl; try done; [lia|].
  f_equal. apply IH. lia.
Qed.

Lemma le_encode_mod n z : le_encode n (z mod 256 ^ Z.of_nat n) = le_encode n z.
Proof.
  rewrite <-le_decode_encode.
  rewrite <-(length_le_encode n z) at 1. apply le_encode_decode, le_encode_bytes.
Qed.

Lemma le_decode_zeros n : le_decode (replicate n 0) = 0.
Proof. induction n; simpl; lia. Qed.

Lemma le_decode_app bs cs :
  le_decode (bs ++ cs) = le_decode bs + 256 ^ Z.of_nat (length bs) * le_decode cs.
Proof.
  induction bs as [|b bs IH]; [simpl; lia|].
  cbn [le_decode length app]. rewrite IH, Nat2Z.inj_succ, Z.pow_succ_r by lia. lia.
Qed.

#[export] Hint Resolve le_encode_bytes : hv.

(** ** Reading and overwriting a range of a byte string *)

Definition slice {A} (off n : nat) (l : list A) : list A := take n (drop off l).

Definition splice {A} (off : nat) (bs l : list A) : list A :=
  take off l ++ bs ++ drop (off + length bs) l.

Lemma length_slice {A} off n (l : list A) :
  (off + n <= length l)%nat -> length (slice off n l) = n.
Proof. intros. unfold slice. rewrite length_take, length_drop. lia. Qed.

Lemma length_splice {A} off (bs l : list A) :
  (off + length bs <= length l)%nat -> length (splice off bs l) = length l.
Proof. intros. unfold splice. rewrite !length_app, length_take, length_drop. lia. Qed.

Lemma lookup_splice_lt {A} off (bs l : list A) i :
  (off + length bs <= length l)%nat -> (i < off)%nat -> splice off bs l !! i = l !! i.
Proof.
  intros. unfold splice. rewrite lookup_app_l by (rewrite length_take; lia).
  by apply lookup_take_lt.
Qed.

Lemma lookup_splice_mid {A} off (bs l : list A) i :
  (off + length bs <= length l)%nat -> (i < length bs)%nat ->
  splice off bs l !! (off + i)%nat = bs !! i.
Proof.
  intros. unfold splice.
  rewrite lookup_app_r by (rewrite length_take; lia).
  rewrite length_take, lookup_app_l by lia. f_equal. lia.
Qed.

Lemma lookup_splice_ge {A} off (bs l : list A) i :
  (off + length bs <= length l)%nat -> (off + length bs <= i)%nat ->
  splice off bs l !! i = l !! i.
Proof.
  intros. unfold splice.
  rewrite !lookup_app_r by (rewrite ?length_take; lia).
  rewrite length_take, lookup_drop. f_equal. lia.
Qed.

Lemma slice_splice_eq {A} off (bs l : list A) :
  (off + length bs <= length l)%nat -> slice off (length bs) (splice off bs l) = bs.
Proof.
  intros. unfold slice, splice.
  rewrite drop_app_length' by (rewrite length_take; lia).
  by rewrite take_app_length.
Qed.

Lemma slice_splice_eq' {A} off n (bs l : list A) :
  n = length bs -> (off + n <= length l)%nat -> slice off n (splice off bs l) = bs.
Proof. intros ->. apply slice_splice_eq. Qed.

Lemma lookup_slice {A} off n (l : list A) i :
  (i < n)%nat -> slice off n l !! i = l !! (off + i)%nat.
Proof. intros. unfold slice. rewrite lookup_take_lt by done. apply lookup_drop. Qed.

Lemma slice_ext {A} off n (l l' : list A) :
  (forall i, (off <= i < off + n)%nat -> l !! i = l' !! i) -> slice off n l = slice off n l'.
Proof.
  intros H. apply list_eq. intros i. destruct (decide (i < n)%nat) as [Hi|Hi].
  - rewrite !lookup_slice by done. apply H. lia.
  - unfold slice. by rewrite !lookup_take_ge by lia.
Qed.

Lemma slice_splice_ne {A} off (bs l : list A) off' n :
  (off + length bs <= length l)%nat ->
  (off' + n <= off \/ off + length bs <= off')%nat ->
  slice off' n (splice off bs l) = slice off' n l.
Proof.
  intros Hl Hd. apply slice_ext. intros i Hi. destruct Hd.
  - apply lookup_splice_lt; lia.
  - apply lookup_splice_ge; lia.
Qed.

Lemma splice_slice_id {A} off n (l : list A) :
  (off + n <= length l)%nat -> splice off (slice off n l) l = l.
Proof.
  intros. unfold splice. rewrite length_slice by done. unfold slice.
  rewrite <-drop_drop, take_drop. apply take_drop.
Qed.

Lemma Forall_splice {A} (P : A -> Prop) off bs l :
  Forall P bs -> Forall P l -> Forall P (splice off bs l).
Proof.
  intros. unfold splice. rewrite !Forall_app. eauto using Forall_take, Forall_drop.
Qed.

Lemma Forall_slice {A} (P : A -> Prop) off n l : Forall P l -> Forall P (slice off n l).
Proof. unfold slice. eauto using Forall_take, Forall_drop. Qed.

#[export] Hint Resolve Forall_splice Forall_slice : hv.

(** Checked accesses: an access outside the block is a fault. The offsets are
    byte distances from the start of the block. *)

Definition in_block (l : list Z) (off n : Z) : bool :=
  (0 <=? off) && (0 <=? n) && (off + n <=? Z.of_nat (length l)).

Definition load_bytes (l : list Z) (off n : Z) : outcome (list Z) :=
  if in_block l off n then Ok (slice (Z.to_nat off) (Z.to_nat n) l) else Fault OutOfBounds.

Definition store_bytes (l : list Z) (off : Z) (bs : list Z) : outcome (list Z) :=
  if in_block l off (Z.of_nat (length bs)) then Ok (splice (Z.to_nat off) bs l)
  else Fault OutOfBounds.

Lemma in_block_spec l off n :
  in_block l off n = true <-> 0 <= off /\ 0 <= n /\ off + n <= Z.of_nat (length l).
Proof. unfold in_block. rewrite !andb_true_iff, !Z.leb_le. tauto. Qed.

Lemma load_bytes_ok l off n :
  0 <= off -> 0 <= n -> off + n <= Z.of_nat (length l) ->
  load_bytes l off n = Ok (slice (Z.to_nat off) (Z.to_nat n) l).
Proof. intros. unfold load_bytes. by rewrite (proj2 (in_block_spec _ _ _)). Qed.

Lemma store_bytes_ok l off bs :
  0 <= off -> off + Z.of_nat (length bs) <= Z.of_nat (length l) ->
  store_bytes l off bs = Ok (splice (Z.to_nat off) bs l).
Proof.
  intros. unfold store_bytes. rewrite (proj2 (in_block_spec _ _ _)); [done|lia].
Qed.

Lemma load_bytes_inv l off n bs :
  load_bytes l off n = Ok bs ->
  0 <= off /\ 0 <= n /\ off + n <= Z.of_nat (length l) /\
  bs = slice (Z.to_nat off) (Z.to_nat n) l.
Proof.
  unfold load_bytes. destruct (in_block l off n) eqn:E; [|done].
  apply in_block_spec in E. intros [= <-]. tauto.
Qed.

Lemma store_bytes_inv l off bs l' :
  store_bytes l off bs = Ok l' ->
  0 <= off /\ off + Z.of_nat (length bs) <= Z.of_nat (length l) /\
  l' = splice (Z.to_nat off) bs l.
Proof.
  unfold store_bytes. destruct (in_block _ _ _) eqn:E; [|done].
  apply in_block_spec in E. intros [= <-]. tauto.
Qed.

(** Iterate a monadic action over a list, left to right. *)
Fixpoint mapM_ {S A} (f : A -> M S unit) (l : list A) : M S unit :=
  match l with
  | [] => ret tt
  | a :: l' => f a ;;; mapM_ f l'
  end.

Lemma mapM_app {S A} (f : A -> M S unit) l1 l2 s :
  mapM_ f (l1 ++ l2) s = bind (mapM_ f l1) (fun _ => mapM_ f l2) s.
Proof.
  revert s; induction l1 as [|a l1 IH]; intros s; [done|].
  cbn [mapM_ app]. unfold bind in *. destruct (f a s) as [[[] s']|]; [apply IH | done].
Qed.
