(* ===== verification/Host.v ===== *)
(** * The host: the KVM ABI, the kernel interface, and the process state

    The hypervisor is a user-space process; everything it does to a guest goes
    through system calls and through memory it shares with the kernel.  This
    file fixes the data types of [linux/kvm.h] the sources use, the interface
    the kernel offers ([Kernel], a parameter of every component), what KVM
    documents about register access ([KvmLaws]), and the state of the process
    ([Host]): the blocks of memory it has mapped, [errno], the system calls it
    has issued, and the diagnostics it has printed. *)

From S2P Require Import Prelude.
From stdpp Require Import base list gmap strings.
From Stdlib Require Import ZArith Lia.
Open Scope Z_scope.
Open Scope hv_scope.

(** ** errno values *)

Definition EINTR : Z := 4.
Definition EBADF : Z := 9.
Definition ENOMEM : Z := 12.
Definition ENONET : Z := 64.
Definition ENOTSUP : Z := 95.

(** ** Register files of [linux/kvm.h] *)

Record kvm_regs := mk_regs {
  rax : Z; rbx : Z; rcx : Z; rdx : Z;
  rsi : Z; rdi : Z; rsp : Z; rbp : Z;
  r8 : Z; r9 : Z; r10 : Z; r11 : Z;
  r12 : Z; r13 : Z; r14 : Z; r15 : Z;
  rip : Z; rflags : Z }.

(** [kvm_regs regs{}]. *)
Definition zero_regs : kvm_regs := mk_regs 0 0 0 0 0 0 0 0 0 0 0 0 0 0 0 0 0 0.

Record kvm_segment := mk_segment {
  seg_base : Z; seg_limit : Z; seg_selector : Z; seg_type : Z;
  seg_present : Z; seg_dpl : Z; seg_db : Z; seg_s : Z;
  seg_l : Z; seg_g : Z; seg_avl : Z; seg_unusable : Z }.

Definition zero_segment : kvm_segment := mk_segment 0 0 0 0 0 0 0 0 0 0 0 0.

Record kvm_dtable := mk_dtable { dt_base : Z; dt_limit : Z }.

Record kvm_sregs := mk_sregs {
  cs : kvm_segment; ds : kvm_segment; es : kvm_segment;
  fs : kvm_segment; gs : kvm_segment; ss : kvm_segment;
  tr : kvm_segment; ldt : kvm_segment;
  gdt : kvm_dtable; idt : kvm_dtable;
  cr0 : Z; cr2 : Z; cr3 : Z; cr4 : Z; cr8 : Z;
  efer : Z; apic_base : Z; interrupt_bitmap : list Z }.

Definition zero_sregs : kvm_sregs :=
  mk_sregs zero_segment zero_segment zero_segment zero_segment zero_segment zero_segment
           zero_segment zero_segment (mk_dtable 0 0) (mk_dtable 0 0)
           0 0 0 0 0 0 0 [0; 0; 0; 0].

(** ** Arguments of the other ioctls *)

Record kvm_userspace_memory_region := mk_umr {
  umr_slot : Z; umr_flags : Z; umr_guest_phys_addr : Z;
  umr_memory_size : Z; umr_userspace_addr : Z }.

Record kvm_msr_filter_range := mk_msr_range {
  fr_flags : Z; fr_nmsrs : Z; fr_base : Z; fr_bitmap : list Z }.

Record kvm_msr_filter := mk_msr_filter {
  mf_flags : Z; mf_ranges : list kvm_msr_filter_range }.

Inductive ioctl_req :=
| KVM_GET_API_VERSION
| KVM_CREATE_VM
| KVM_GET_VCPU_MMAP_SIZE
| KVM_CHECK_EXTENSION (cap : Z)
| KVM_CREATE_VCPU (vcpu_id : Z)
| KVM_SET_USER_MEMORY_REGION (region : kvm_userspace_memory_region)
| KVM_RUN
| KVM_GET_REGS
| KVM_SET_REGS (regs : kvm_regs)
| KVM_GET_SREGS
| KVM_SET_SREGS (sregs : kvm_sregs)
| KVM_SET_GUEST_DEBUG (control : Z)
| KVM_SET_CPUID2 (buf : list Z)
| KVM_IRQ_LINE (irq level : Z)
| KVM_CREATE_IRQCHIP
| KVM_CREATE_PIT2 (flags : Z)
| KVM_ENABLE_CAP (cap arg0 : Z)
| KVM_X86_SET_MSR_FILTER (filter : kvm_msr_filter).

Definition KVM_API_VERSION : Z := 12.
Definition KVM_GUESTDBG_ENABLE : Z := 1.
Definition KVM_GUESTDBG_SINGLESTEP : Z := 2.
Definition KVM_CAP_EXIT_ON_EMULATION_FAILURE : Z := 204.

(** [MAP_FAILED] is the pointer made from -1. *)
Definition MAP_FAILED : Z := -1.
Definition nullptr : Z := 0.

(** System calls. [Sys_mmap len (-1)] is the anonymous mapping of
    [MemoryRegion::create], [Sys_mmap len fd] the mapping of a vCPU's file. *)
Inductive syscall :=
| Sys_open (path : string)
| Sys_close (fd : Z)
| Sys_ioctl (fd : Z) (req : ioctl_req)
| Sys_mmap (len fd : Z)
| Sys_munmap (addr len : Z)
| Sys_madvise (addr len : Z).

(** The calls that hand out a descriptor. *)
Definition yields_fd (c : syscall) : bool :=
  match c with
  | Sys_open _ | Sys_ioctl _ KVM_CREATE_VM | Sys_ioctl _ (KVM_CREATE_VCPU _) => true
  | _ => false
  end.

(** What an ioctl writes through its pointer argument. *)
Inductive sys_out :=
| OutNone
| OutRegs (r : kvm_regs)
| OutSregs (s : kvm_sregs).

(** ** The [kvm_run] page

    The structure a vCPU shares with the process, read at the offsets of the
    KVM ABI: the exit reason at 8, the union of the exit-specific members at
    32, and, for port I/O, a data area at an offset the page itself gives. *)

Definition field (off n : nat) (page : list Z) : Z := le_decode (slice off n page).

Definition run_exit_reason : list Z -> Z := field 8 4.

Definition io_direction : list Z -> Z := field 32 1.
Definition io_size : list Z -> Z := field 33 1.
Definition io_port : list Z -> Z := field 34 2.
Definition io_count : list Z -> Z := field 36 4.
Definition io_data_offset : list Z -> Z := field 40 8.
Definition KVM_EXIT_IO_IN : Z := 0.
Definition KVM_EXIT_IO_OUT : Z := 1.

Definition mmio_phys_addr : list Z -> Z := field 32 8.
Definition mmio_data_off : Z := 40.
Definition mmio_len : list Z -> Z := field 48 4.
Definition mmio_is_write : list Z -> Z := field 52 1.

Definition hw_hardware_exit_reason : list Z -> Z := field 32 8.
Definition internal_suberror : list Z -> Z := field 32 4.
Definition KVM_INTERNAL_ERROR_EMULATION : Z := 1.

Definition msr_reason : list Z -> Z := field 40 4.
Definition msr_index : list Z -> Z := field 44 4.
Definition msr_data : list Z -> Z := field 48 8.

(** The fixed part of the structure, up to the end of the union. *)
Definition kvm_run_header : Z := 288.

(** A page as KVM hands it out: bytes, at least the fixed part. *)
Definition page_ok (page : list Z) : Prop :=
  Forall is_byte page /\ kvm_run_header <= Z.of_nat (length page).

Lemma field_bound off n page :
  Forall is_byte page -> 0 <= field off n page < 256 ^ Z.of_nat n.
Proof.
  intros Hp. unfold field.
  pose proof (le_decode_bound (slice off n page) (Forall_slice _ _ _ _ Hp)) as Hb.
  split; [lia|]. eapply Z.lt_le_trans; [apply Hb|]. apply Z.pow_le_mono_r; [lia|].
  unfold slice. rewrite length_take. lia.
Qed.

Lemma field_splice off n o bs page :
  (o + length bs <= length page)%nat -> (off + n <= o \/ o + length bs <= off)%nat ->
  field off n (splice o bs page) = field off n page.
Proof. intros. unfold field. by rewrite slice_splice_ne. Qed.

(** The data area of an I/O exit: where KVM puts the operand, after the fixed
    part of the structure and inside the mapping. *)
Definition io_width (page : list Z) : Z := Z.min (io_size page) 4.

Definition io_data_ok (page : list Z) : Prop :=
  kvm_run_header <= io_data_offset page /\
  io_data_offset page + io_width page <= Z.of_nat (length page).

(** A page as KVM_RUN leaves it: of an I/O exit the data area is in place. *)
Definition KVM_EXIT_IO : Z := 2.
Definition KVM_EXIT_HLT : Z := 5.
Definition KVM_EXIT_SHUTDOWN : Z := 8.

Definition exit_ok (page : list Z) : Prop :=
  page_ok page /\ (run_exit_reason page = KVM_EXIT_IO -> io_data_ok page).

(** ** The kernel interface *)

(** Host memory: the mapped blocks, by the address [mmap] returned. *)
Abbreviation memory := (gmap Z (list Z)).

Record kresult (K : Type) := KRes {
  kr_ret : Z; kr_errno : Z; kr_out : sys_out; kr_kern : K }.
Arguments KRes {K} _ _ _ _.
Arguments kr_ret {K} _.
Arguments kr_errno {K} _.
Arguments kr_out {K} _.
Arguments kr_kern {K} _.

(** [K] is the state the kernel keeps.  [k_run] is [KVM_RUN], the only call
    that lets the guest execute and so the only one that changes mapped
    memory; [k_clock] is the steady clock, [k_cpuid] the CPUID instruction of
    the host processor. *)
Class Kernel (K : Type) := {
  k_syscall : syscall -> K -> kresult K;
  k_run : Z -> K -> memory -> kresult K * memory;
  k_clock : K -> Z * K;
  k_cpuid : Z -> Z -> K -> (Z * Z * Z * Z) * K }.

(** Registers as KVM hands them out: bit 1 of RFLAGS always reads as one. *)
Definition canonical_regs (r : kvm_regs) : Prop := Z.testbit (rflags r) 1 = true.

(** What KVM documents of the register ioctls of a vCPU: [k_regs k fd] and
    [k_sregs k fd] are the register files of the vCPU behind [fd]; reading
    returns them and changes nothing, writing a register file KVM could have
    returned replaces it and leaves the other one alone; reading the clock is
    not an access to either. *)
Class KvmLaws (K : Type) `{Kernel K} := {
  k_regs : K -> Z -> option kvm_regs;
  k_sregs : K -> Z -> option kvm_sregs;
  k_valid_sregs : kvm_sregs -> Prop;
  law_get_regs k fd r :
    k_regs k fd = Some r -> k_syscall (Sys_ioctl fd KVM_GET_REGS) k = KRes 0 0 (OutRegs r) k;
  law_get_sregs k fd s :
    k_sregs k fd = Some s -> k_syscall (Sys_ioctl fd KVM_GET_SREGS) k = KRes 0 0 (OutSregs s) k;
  law_regs_canonical k fd r : k_regs k fd = Some r -> canonical_regs r;
  law_sregs_valid k fd s : k_sregs k fd = Some s -> k_valid_sregs s;
  law_set_regs k fd r :
    is_Some (k_regs k fd) -> canonical_regs r ->
    exists k', k_syscall (Sys_ioctl fd (KVM_SET_REGS r)) k = KRes 0 0 OutNone k' /\
      k_regs k' fd = Some r /\ k_sregs k' fd = k_sregs k fd;
  law_set_sregs k fd s :
    is_Some (k_sregs k fd) -> k_valid_sregs s ->
    exists k', k_syscall (Sys_ioctl fd (KVM_SET_SREGS s)) k = KRes 0 0 OutNone k' /\
      k_sregs k' fd = Some s /\ k_regs k' fd = k_regs k fd;
  law_clock k fd :
    k_regs (snd (k_clock k)) fd = k_regs k fd /\ k_sregs (snd (k_clock k)) fd = k_sregs k fd }.

(** What POSIX documents of [mmap] and [munmap]: without [MAP_FIXED] the kernel
    picks an address that is not in use, and unmapping one that is in use succeeds.
    [k_mapped k a] says that [a] is in use. *)
Class MmapLaws (K : Type) `{Kernel K} := {
  k_mapped : K -> Z -> Prop;
  law_mmap k len fd :
    let r := k_syscall (Sys_mmap len fd) k in
    kr_ret r = MAP_FAILED \/ (0 < kr_ret r /\ ~ k_mapped k (kr_ret r) /\
                              k_mapped (kr_kern r) (kr_ret r));
  law_munmap k addr len : k_mapped k addr -> 0 <= kr_ret (k_syscall (Sys_munmap addr len) k);
  law_mapped_mono k c a :
    k_mapped k a -> (forall len, c <> Sys_munmap a len) ->
    k_mapped (kr_kern (k_syscall c k)) a }.

(** What POSIX documents of descriptors: a new one is not one of the open ones,
    and only [close] closes one. *)
Class FdLaws (K : Type) `{Kernel K} := {
  k_open : K -> Z -> Prop;
  law_fd k c :
    yields_fd c = true ->
    let r := k_syscall c k in
    kr_ret r < 0 \/ (~ k_open k (kr_ret r) /\ k_open (kr_kern r) (kr_ret r));
  law_open_mono k c fd :
    k_open k fd -> c <> Sys_close fd -> k_open (kr_kern (k_syscall c k)) fd }.

(** What POSIX documents of [errno]: a call that fails sets it to a positive
    number. *)
Class ErrnoLaws (K : Type) `{Kernel K} := {
  law_errno k c : kr_ret (k_syscall c k) < 0 -> 0 < kr_errno (k_syscall c k) }.

(** What KVM documents of a vCPU's shared page: [k_page k fd a] says that the
    block at [a] is the mapping of the file of [fd]; it stays that until one of
    the two is released. *)
Class PageLaws (K : Type) `{Kernel K} := {
  k_page : K -> Z -> Z -> Prop;
  law_mmap_page k len fd :
    let r := k_syscall (Sys_mmap len fd) k in
    kr_ret r <> MAP_FAILED -> k_page (kr_kern r) fd (kr_ret r);
  law_page_mono k c fd a :
    k_page k fd a -> c <> Sys_close fd -> (forall len, c <> Sys_munmap a len) ->
    k_page (kr_kern (k_syscall c k)) fd a }.

(** The bytes of every block. *)
Definition mem_bytes (m : memory) : Prop := map_Forall (fun _ l => Forall is_byte l) m.

(** [stays k k']: what was in use in [k] is in use in [k'], and run pages are
    still run pages. *)
Definition stays {K} `{Kernel K} `{!MmapLaws K} `{!FdLaws K} `{!PageLaws K} (k k' : K) : Prop :=
  (forall a, k_mapped k a -> k_mapped k' a) /\ (forall fd, k_open k fd -> k_open k' fd) /\
  (forall fd a, k_page k fd a -> k_page k' fd a).

(** What KVM documents of running a vCPU: KVM_RUN writes bytes into the mapped
    blocks in place, and when it reports an exit the vCPU's page is well formed;
    it maps, unmaps, opens and closes nothing, and neither does reading the
    clock or executing CPUID; the page is at least as large as its fixed part. *)
Class RunLaws (K : Type) `{Kernel K} `{!MmapLaws K} `{!FdLaws K} `{!PageLaws K} := {
  law_run_mem k fd m :
    let m' := snd (k_run fd k m) in
    length <$> m' = length <$> m /\ (mem_bytes m -> mem_bytes m');
  law_run_page k fd m a page :
    let '(r, m') := k_run fd k m in
    k_page k fd a -> mem_bytes m -> m !! a = Some page -> 0 <= kr_ret r ->
    exists page', m' !! a = Some page' /\ exit_ok page';
  law_run_stays k fd m : stays k (kr_kern (fst (k_run fd k m)));
  law_clock_stays k : stays k (snd (k_clock k));
  law_cpuid_stays k leaf subleaf : stays k (snd (k_cpuid leaf subleaf k));
  law_mmap_size k fd :
    let r := k_syscall (Sys_ioctl fd KVM_GET_VCPU_MMAP_SIZE) k in
    kr_ret r < 0 \/ kvm_run_header <= kr_ret r < 2 ^ 31 }.

(** A guest that stops by itself: [k_left k] bounds the exits until KVM_RUN
    reports HLT, SHUTDOWN or an error that is no interruption, and only setting
    the special registers can start it over, with at most [bound] exits to go. *)
Class HaltLaws (K : Type) (bound : nat) `{Kernel K} `{!PageLaws K} := {
  k_left : K -> nat;
  law_left_run k fd m a page :
    let '(r, m') := k_run fd k m in
    k_page k fd a -> m' !! a = Some page ->
    (kr_ret r < 0 -> kr_errno r = EINTR) ->
    (0 <= kr_ret r -> run_exit_reason page <> KVM_EXIT_HLT /\ run_exit_reason page <> KVM_EXIT_SHUTDOWN) ->
    (k_left (kr_kern r) < k_left k)%nat;
  law_left_call k c :
    (k_left (kr_kern (k_syscall c k)) <= Nat.max (k_left k)
       match c with Sys_ioctl _ (KVM_SET_SREGS _) => bound | _ => 0 end)%nat;
  law_left_run_le k fd m : (k_left (kr_kern (fst (k_run fd k m))) <= k_left k)%nat;
  law_left_clock k : (k_left (snd (k_clock k)) <= k_left k)%nat;
  law_left_cpuid k leaf subleaf : (k_left (snd (k_cpuid leaf subleaf k)) <= k_left k)%nat }.

(** What KVM documents of a new vCPU: the descriptor [KVM_CREATE_VCPU] returns
    has both register files; mapping memory is not an access to them. *)
Class VcpuLaws (K : Type) `{KvmLaws K} := {
  law_create_vcpu k fd id :
    let r := k_syscall (Sys_ioctl fd (KVM_CREATE_VCPU id)) k in
    0 <= kr_ret r ->
    is_Some (k_regs (kr_kern r) (kr_ret r)) /\ is_Some (k_sregs (kr_kern r) (kr_ret r));
  law_mmap_regs k len mfd fd :
    let k' := kr_kern (k_syscall (Sys_mmap len mfd) k) in
    k_regs k' fd = k_regs k fd /\ k_sregs k' fd = k_sregs k fd }.

(** ** Process state

    The state of the kernel, the mapped blocks, the open descriptors, [errno],
    the system calls issued, what was printed on standard error and what was
    printed on standard output. *)

Record Host (K : Type) := mk_host {
  h_kern : K;
  h_mem : memory;
  h_fds : gset Z;
  h_errno : Z;
  h_trace : list syscall;
  h_diag : list (string * Z);
  h_out : list string }.
Arguments mk_host {K} _ _ _ _ _ _ _.
Arguments h_kern {K} _.
Arguments h_mem {K} _.
Arguments h_fds {K} _.
Arguments h_errno {K} _.
Arguments h_trace {K} _.
Arguments h_diag {K} _.
Arguments h_out {K} _.

(** The world a computation runs in: the process, and whatever the callbacks
    of the program capture by reference. *)
Record World (K E : Type) := mk_world { w_host : Host K; w_env : E }.
Arguments mk_world {K E} _ _.
Arguments w_host {K E} _.
Arguments w_env {K E} _.

(** ** Primitive operations of the process *)

Section Primitives.

Context {K : Type} `{Kernel K} {E : Type}.

Definition set_kern (k : K) (h : Host K) : Host K :=
  mk_host k (h_mem h) (h_fds h) (h_errno h) (h_trace h) (h_diag h) (h_out h).

Definition set_mem (m : memory) (h : Host K) : Host K :=
  mk_host (h_kern h) m (h_fds h) (h_errno h) (h_trace h) (h_diag h) (h_out h).

Definition set_errno (e : Z) (h : Host K) : Host K :=
  mk_host (h_kern h) (h_mem h) (h_fds h) e (h_trace h) (h_diag h) (h_out h).

Definition log_call (c : syscall) (h : Host K) : Host K :=
  mk_host (h_kern h) (h_mem h) (h_fds h) (h_errno h) (h_trace h ++ [c]) (h_diag h) (h_out h).

Definition log_diag (d : string * Z) (h : Host K) : Host K :=
  mk_host (h_kern h) (h_mem h) (h_fds h) (h_errno h) (h_trace h) (h_diag h ++ [d]) (h_out h).

Definition log_out (text : string) (h : Host K) : Host K :=
  mk_host (h_kern h) (h_mem h) (h_fds h) (h_errno h) (h_trace h) (h_diag h) (h_out h ++ [text]).

Definition on_host (f : Host K -> Host K) (w : World K E) : World K E :=
  mk_world (f (w_host w)) (w_env w).

(** The effect of a successful [mmap] or [munmap] on the blocks. *)
Definition map_effect (c : syscall) (ret : Z) (m : memory) : memory :=
  match c with
  | Sys_mmap len _ =>
      if ret =? MAP_FAILED then m else <[ret := replicate (Z.to_nat len) 0]> m
  | Sys_munmap addr _ => if ret <? 0 then m else delete addr m
  | _ => m
  end.

(** The effect of a call on the open descriptors: the calls that hand out a
    descriptor add it; [close] releases the number whatever it returns. *)
Definition fd_effect (c : syscall) (ret : Z) (fds : gset Z) : gset Z :=
  match c with
  | Sys_close fd => fds ∖ {[fd]}
  | _ => if yields_fd c && (0 <=? ret) then {[ret]} ∪ fds else fds
  end.

(** [errno] changes when a call fails and is left alone when it succeeds. *)
Definition finish (c : syscall) (r : kresult K) (m : memory) (h : Host K) : Host K :=
  mk_host (kr_kern r) m (fd_effect c (kr_ret r) (h_fds h))
          (if kr_ret r <? 0 then kr_errno r else h_errno h)
          (h_trace h ++ [c]) (h_diag h) (h_out h).

Definition do_syscall (c : syscall) : M (World K E) (Z * sys_out) :=
  fun w =>
    let h := w_host w in
    let r := k_syscall c (h_kern h) in
    Ok ((kr_ret r, kr_out r),
        on_host (finish c r (map_effect c (kr_ret r) (h_mem h))) w).

Definition ioctl (fd : Z) (req : ioctl_req) : M (World K E) (Z * sys_out) :=
  do_syscall (Sys_ioctl fd req).

Definition ioctl_run (fd : Z) : M (World K E) Z :=
  fun w =>
    let h := w_host w in
    let '(r, m) := k_run fd (h_kern h) (h_mem h) in
    Ok (kr_ret r, on_host (finish (Sys_ioctl fd KVM_RUN) r m) w).

Definition errno : M (World K E) Z := fun w => Ok (h_errno (w_host w), w).

Definition sys_open (path : string) : M (World K E) Z :=
  let* (r, _) := do_syscall (Sys_open path) in ret r.
Definition sys_close (fd : Z) : M (World K E) unit :=
  do_syscall (Sys_close fd) ;;; ret tt.
Definition sys_mmap (len fd : Z) : M (World K E) Z :=
  let* (r, _) := do_syscall (Sys_mmap len fd) in ret r.
Definition sys_munmap (addr len : Z) : M (World K E) unit :=
  do_syscall (Sys_munmap addr len) ;;; ret tt.
Definition sys_madvise (addr len : Z) : M (World K E) unit :=
  do_syscall (Sys_madvise addr len) ;;; ret tt.

(** [std::chrono::steady_clock::now()], in nanoseconds since its epoch. *)
Definition steady_now : M (World K E) Z :=
  fun w =>
    let '(t, k) := k_clock (h_kern (w_host w)) in
    Ok (t, on_host (set_kern k) w).

Definition host_cpuid (leaf subleaf : Z) : M (World K E) (Z * Z * Z * Z) :=
  fun w =>
    let '(r, k) := k_cpuid leaf subleaf (h_kern (w_host w)) in
    Ok (r, on_host (set_kern k) w).

(** [std::println(std::cerr, ...)] of an error code. *)
Definition report (msg : string) (ec : Z) : M (World K E) unit :=
  fun w => Ok (tt, on_host (log_diag (msg, ec)) w).

(** [std::print] and [std::println] on standard output. *)
Definition printed (text : string) (w : World K E) : World K E := on_host (log_out text) w.
Definition print (text : string) : M (World K E) unit := fun w => Ok (tt, printed text w).

(** Accesses through a pointer into a mapped block. *)
Definition block_at (ptr : Z) : M (World K E) (list Z) :=
  fun w =>
    if ptr =? nullptr then Fault NullDeref
    else match h_mem (w_host w) !! ptr with
         | Some l => Ok (l, w)
         | None => Fault OutOfBounds
         end.

Definition mem_load (ptr off n : Z) : M (World K E) (list Z) :=
  let* l := block_at ptr in lift (load_bytes l off n).

Definition mem_store (ptr off : Z) (bs : list Z) : M (World K E) unit :=
  let* l := block_at ptr in
  let* l' := lift (store_bytes l off bs) in
  fun w => Ok (tt, on_host (fun h => set_mem (<[ptr := l']> (h_mem h)) h) w).

(** The world after a call that touches no mapping. *)
Lemma do_syscall_mem c w r o w' :
  do_syscall c w = Ok ((r, o), w') ->
  r = kr_ret (k_syscall c (h_kern (w_host w))) /\
  h_kern (w_host w') = kr_kern (k_syscall c (h_kern (w_host w))) /\
  h_mem (w_host w') = map_effect c r (h_mem (w_host w)) /\
  h_trace (w_host w') = h_trace (w_host w) ++ [c] /\
  h_errno (w_host w') = (if r <? 0 then kr_errno (k_syscall c (h_kern (w_host w)))
                         else h_errno (w_host w)) /\
  w_env w' = w_env w.
Proof. unfold do_syscall. intros [= <- _ <-]. done. Qed.

Lemma mem_load_ok ptr l off n w :
  ptr <> nullptr -> h_mem (w_host w) !! ptr = Some l ->
  0 <= off -> 0 <= n -> off + n <= Z.of_nat (length l) ->
  mem_load ptr off n w = Ok (slice (Z.to_nat off) (Z.to_nat n) l, w).
Proof.
  intros Hp Hl ???. unfold mem_load, bind, block_at.
  rewrite (proj2 (Z.eqb_neq _ _) Hp), Hl. unfold lift. by rewrite load_bytes_ok.
Qed.

Lemma mem_store_ok ptr l off bs w :
  ptr <> nullptr -> h_mem (w_host w) !! ptr = Some l ->
  0 <= off -> off + Z.of_nat (length bs) <= Z.of_nat (length l) ->
  mem_store ptr off bs w =
  Ok (tt, on_host (fun h => set_mem (<[ptr := splice (Z.to_nat off) bs l]> (h_mem h)) h) w).
Proof.
  intros Hp Hl ??. unfold mem_store, bind, block_at.
  rewrite (proj2 (Z.eqb_neq _ _) Hp), Hl. unfold lift. by rewrite store_bytes_ok.
Qed.

Lemma mem_load_inv ptr off n w bs w' :
  mem_load ptr off n w = Ok (bs, w') ->
  w' = w /\ exists l, h_mem (w_host w) !! ptr = Some l /\
  0 <= off /\ 0 <= n /\ off + n <= Z.of_nat (length l) /\
  bs = slice (Z.to_nat off) (Z.to_nat n) l.
Proof.
  unfold mem_load, bind, block_at. destruct (ptr =? nullptr); [done|].
  destruct (h_mem (w_host w) !! ptr) as [l|] eqn:Hl; [|done]. unfold lift.
  destruct (load_bytes l off n) eqn:El; [|done]. intros [= <- <-].
  apply load_bytes_inv in El. split; [done|]. exists l. tauto.
Qed.

Lemma mem_load_oob ptr l off n w :
  ptr <> nullptr -> h_mem (w_host w) !! ptr = Some l ->
  Z.of_nat (length l) < off + n -> mem_load ptr off n w = Fault OutOfBounds.
Proof.
  intros Hp Hl Hn. unfold mem_load, bind, block_at.
  rewrite (proj2 (Z.eqb_neq _ _) Hp), Hl. unfold lift, load_bytes.
  destruct (in_block l off n) eqn:Eb; [|done].
  apply in_block_spec in Eb. lia.
Qed.

Lemma mem_store_oob ptr l off bs w :
  ptr <> nullptr -> h_mem (w_host w) !! ptr = Some l ->
  Z.of_nat (length l) < off + Z.of_nat (length bs) ->
  mem_store ptr off bs w = Fault OutOfBounds.
Proof.
  intros Hp Hl Hn. unfold mem_store, bind, block_at.
  rewrite (proj2 (Z.eqb_neq _ _) Hp), Hl. unfold lift, store_bytes.
  destruct (in_block l off _) eqn:Eb; [|done].
  apply in_block_spec in Eb. lia.
Qed.

End Primitives.

(** ** Computations the outside does not see

    No call is issued, nothing is printed, and the environment of the callbacks
    is as before.  The logics of what a computation is observed to do, each with
    an observation of its own, start from these. *)

Section Idle.

Context {K : Type} `{Kernel K} {E : Type}.
Implicit Types w : World K E.

Definition idle {A} (m : M (World K E) A) : Prop :=
  forall w a w', m w = Ok (a, w') ->
    w_env w' = w_env w /\ h_out (w_host w') = h_out (w_host w) /\ h_trace (w_host w') = h_trace (w_host w).

Lemma idle_ret {A} (a : A) : idle (ret a).
Proof. by intros w b w' [= <- <-]. Qed.

Lemma idle_fail {A} f : idle (fail (A := A) f).
Proof. done. Qed.

Lemma idle_bind {A B} (m : M (World K E) A) (k : A -> M (World K E) B) :
  idle m -> (forall a, idle (k a)) -> idle (bind m k).
Proof.
  intros Hm Hk w b w' Hb. apply bind_inv in Hb as (a & w1 & E1 & Hb).
  destruct (Hm _ _ _ E1) as (<- & <- & <-). by eapply Hk.
Qed.

Lemma idle_lift {A} (x : outcome A) : idle (lift x).
Proof. intros w a w'. unfold lift. destruct x; [|done]. by intros [= <- <-]. Qed.

Lemma idle_errno : idle errno.
Proof. by intros w a w' [= <- <-]. Qed.

Lemma idle_report msg ec : idle (report msg ec).
Proof. by intros w a w' [= <- <-]. Qed.

Lemma idle_now : idle steady_now.
Proof. intros w a w'. unfold steady_now. destruct (k_clock _). by intros [= <- <-]. Qed.

Lemma idle_host_cpuid leaf subleaf : idle (host_cpuid leaf subleaf).
Proof. intros w a w'. unfold host_cpuid. destruct (k_cpuid _ _ _). by intros [= <- <-]. Qed.

Lemma idle_block ptr : idle (block_at ptr).
Proof.
  intros w a w'. unfold block_at. destruct (ptr =? nullptr); [done|].
  destruct (_ !! _); [|done]. by intros [= <- <-].
Qed.

Lemma idle_load ptr off n : idle (mem_load ptr off n).
Proof. apply idle_bind; [apply idle_block|]. intros l. apply idle_lift. Qed.

Lemma idle_store ptr off bs : idle (mem_store ptr off bs).
Proof.
  apply idle_bind; [apply idle_block|]. intros l. apply idle_bind; [apply idle_lift|].
  by intros l' w a w' [= <- <-].
Qed.

End Idle.

Create HintDb idle.

#[export] Hint Resolve idle_ret idle_fail idle_lift idle_errno idle_report idle_now idle_host_cpuid idle_block idle_load
  idle_store : idle.
