(* ===== verification/SimKvm.v ===== *)
(** * A small executable kernel

    A concrete instance of [Kernel] that satisfies [KvmLaws].  The theorems of
    the library hold for every kernel; this one shows that their hypotheses can
    be met and gives the examples something to run on.  It keeps a table of
    live descriptors, the register files of the vCPUs, and a script: the
    effects of the next [KVM_RUN] calls on memory, with their results.  A
    scripted write that is not one KVM could make (bytes inside a block, a
    well-formed page) is not made. *)

From S2P Require Import Prelude Host.
From stdpp Require Import base list gmap strings.
From Stdlib Require Import ZArith Lia.
Open Scope Z_scope.
Open Scope hv_scope.

(** One scripted [KVM_RUN]: return value, errno, and the bytes it writes, as
    (block, offset, bytes). *)
Record sim_exit := mk_exit {
  sx_ret : Z; sx_errno : Z; sx_writes : list (Z * Z * list Z) }.

Record SimK := mk_simk {
  sk_next : Z;                      (* next descriptor *)
  sk_addr : Z;                      (* next mapping address *)
  sk_live : gset Z;                 (* open descriptors *)
  sk_regs : gmap Z kvm_regs;
  sk_sregs : gmap Z kvm_sregs;
  sk_pages : list (Z * Z);          (* mappings of descriptors: descriptor, address *)
  sk_script : list sim_exit;
  sk_time : Z }.

(** KVM forces bit 1 of RFLAGS. *)
Definition fix_rflags (r : kvm_regs) : kvm_regs :=
  mk_regs (rax r) (rbx r) (rcx r) (rdx r) (rsi r) (rdi r) (rsp r) (rbp r)
          (r8 r) (r9 r) (r10 r) (r11 r) (r12 r) (r13 r) (r14 r) (r15 r)
          (rip r) (Z.lor (rflags r) 2).

Definition sim_regs (k : SimK) (fd : Z) : option kvm_regs :=
  if decide (fd ∈ sk_live k) then fix_rflags <$> (sk_regs k !! fd) else None.

Definition sim_sregs (k : SimK) (fd : Z) : option kvm_sregs :=
  if decide (fd ∈ sk_live k) then sk_sregs k !! fd else None.

Definition sim_fail (e : Z) (k : SimK) : kresult SimK := KRes (-1) e OutNone k.

(** The next number; its errno only counts if the numbers are used up. *)
Definition sim_new_fd (k : SimK) : kresult SimK :=
  KRes (sk_next k) ENOMEM OutNone
    (mk_simk (sk_next k + 1) (sk_addr k) ({[sk_next k]} ∪ sk_live k)
             (sk_regs k) (sk_sregs k) (sk_pages k) (sk_script k) (sk_time k)).

Definition sim_ioctl (fd : Z) (req : ioctl_req) (k : SimK) : kresult SimK :=
  if decide (fd ∈ sk_live k) then
    match req with
    | KVM_GET_API_VERSION => KRes KVM_API_VERSION 0 OutNone k
    | KVM_GET_VCPU_MMAP_SIZE => KRes 4160 0 OutNone k
    | KVM_CHECK_EXTENSION _ => KRes 1 0 OutNone k
    | KVM_CREATE_VM => sim_new_fd k
    | KVM_CREATE_VCPU _ =>
        let n := sk_next k in
        KRes n ENOMEM OutNone
          (mk_simk (n + 1) (sk_addr k) ({[n]} ∪ sk_live k)
                   (<[n := zero_regs]> (sk_regs k)) (<[n := zero_sregs]> (sk_sregs k))
                   (sk_pages k) (sk_script k) (sk_time k))
    | KVM_GET_REGS =>
        match sim_regs k fd with
        | Some r => KRes 0 0 (OutRegs r) k | None => sim_fail EBADF k end
    | KVM_GET_SREGS =>
        match sim_sregs k fd with
        | Some r => KRes 0 0 (OutSregs r) k | None => sim_fail EBADF k end
    | KVM_SET_REGS r =>
        if decide (is_Some (sk_regs k !! fd)) then
          KRes 0 0 OutNone
            (mk_simk (sk_next k) (sk_addr k) (sk_live k) (<[fd := r]> (sk_regs k))
                     (sk_sregs k) (sk_pages k) (sk_script k) (sk_time k))
        else sim_fail EBADF k
    | KVM_SET_SREGS s =>
        if decide (is_Some (sk_sregs k !! fd)) then
          KRes 0 0 OutNone
            (mk_simk (sk_next k) (sk_addr k) (sk_live k) (sk_regs k)
                     (<[fd := s]> (sk_sregs k)) (sk_pages k) (sk_script k) (sk_time k))
        else sim_fail EBADF k
    | _ => KRes 0 0 OutNone k
    end
  else sim_fail EBADF k.

Definition sim_syscall (c : syscall) (k : SimK) : kresult SimK :=
  match c with
  | Sys_open _ => sim_new_fd k
  | Sys_close fd =>
      if decide (fd ∈ sk_live k) then
        KRes 0 0 OutNone
          (mk_simk (sk_next k) (sk_addr k) (sk_live k ∖ {[fd]})
                   (sk_regs k) (sk_sregs k) (sk_pages k) (sk_script k) (sk_time k))
      else sim_fail EBADF k
  | Sys_ioctl fd req => sim_ioctl fd req k
  | Sys_mmap _ fd =>
      if decide (0 < sk_addr k) then
        KRes (sk_addr k) 0 OutNone
          (mk_simk (sk_next k) (sk_addr k + 2 ^ 32) (sk_live k)
                   (sk_regs k) (sk_sregs k) ((fd, sk_addr k) :: sk_pages k) (sk_script k) (sk_time k))
      else sim_fail ENOMEM k
  | Sys_munmap _ _ | Sys_madvise _ _ => KRes 0 0 OutNone k
  end.

Definition sim_write (m : memory) (x : Z * Z * list Z) : memory :=
  let '(ptr, off, bs) := x in
  match m !! ptr with
  | Some l =>
      if in_block l off (Z.of_nat (length bs)) && bytesb bs
      then <[ptr := splice (Z.to_nat off) bs l]> m else m
  | None => m
  end.

(** Whether the page at [a], if it is mapped, is what KVM_RUN may leave. *)
Definition sim_page_ok (m : memory) (a : Z) : bool :=
  match m !! a with
  | None => true
  | Some page =>
      (kvm_run_header <=? Z.of_nat (length page)) &&
      (negb (run_exit_reason page =? KVM_EXIT_IO) ||
       (kvm_run_header <=? io_data_offset page) &&
       (io_data_offset page + io_width page <=? Z.of_nat (length page)))
  end.

Definition sim_run (fd : Z) (k : SimK) (m : memory) : kresult SimK * memory :=
  if decide (fd ∈ sk_live k) then
    match sk_script k with
    | [] => (sim_fail EBADF k, m)
    | x :: xs =>
        let k' := mk_simk (sk_next k) (sk_addr k) (sk_live k) (sk_regs k) (sk_sregs k)
                          (sk_pages k) xs (sk_time k) in
        let m' := fold_left sim_write (sx_writes x) m in
        if forallb (fun p => negb (p.1 =? fd) || sim_page_ok m' p.2) (sk_pages k)
        then (KRes (sx_ret x) (sx_errno x) OutNone k', m')
        else (sim_fail EBADF k', m)
    end
  else (sim_fail EBADF k, m).

#[export] Instance SimKernel : Kernel SimK := {
  k_syscall := sim_syscall;
  k_run := sim_run;
  k_clock k := (sk_time k,
    mk_simk (sk_next k) (sk_addr k) (sk_live k) (sk_regs k) (sk_sregs k)
            (sk_pages k) (sk_script k) (sk_time k + 1000000));
  k_cpuid leaf subleaf k :=
    ((u32 (leaf + 22), u32 (subleaf + 1), 2 ^ 31 + 3, 5), k) }.

Lemma fix_rflags_canonical r : canonical_regs (fix_rflags r).
Proof. unfold canonical_regs, fix_rflags; cbn [rflags]. by rewrite Z.lor_spec, orb_true_r. Qed.

Lemma lor_2_id f : Z.testbit f 1 = true -> Z.lor f 2 = f.
Proof.
  intros Hf. apply Z.bits_inj'. intros n Hn. rewrite Z.lor_spec.
  destruct (decide (n = 1)) as [->|]; [by rewrite Hf|].
  change 2 with (2 ^ 1). rewrite Z.pow2_bits_false by lia. apply orb_false_r.
Qed.

Lemma fix_rflags_id r : canonical_regs r -> fix_rflags r = r.
Proof. intros Hr. unfold fix_rflags. rewrite lor_2_id by done. by destruct r. Qed.

Lemma sim_set_regs k fd r :
  is_Some (sim_regs k fd) -> canonical_regs r ->
  exists k', sim_ioctl fd (KVM_SET_REGS r) k = KRes 0 0 OutNone k' /\
    sim_regs k' fd = Some r /\ sim_sregs k' fd = sim_sregs k fd.
Proof.
  unfold sim_ioctl, sim_regs, sim_sregs. intros Hs Hr. case_decide; [|by destruct Hs].
  rewrite fmap_is_Some in Hs. rewrite decide_True by done.
  eexists; split_and!; [reflexivity| |]; cbn [sk_live sk_regs sk_sregs].
  - rewrite decide_True, lookup_insert_eq by done. simpl. by rewrite fix_rflags_id.
  - by rewrite decide_True.
Qed.

Lemma sim_set_sregs k fd s :
  is_Some (sim_sregs k fd) ->
  exists k', sim_ioctl fd (KVM_SET_SREGS s) k = KRes 0 0 OutNone k' /\
    sim_sregs k' fd = Some s /\ sim_regs k' fd = sim_regs k fd.
Proof.
  unfold sim_ioctl, sim_regs, sim_sregs. intros Hs. case_decide; [|by destruct Hs].
  rewrite decide_True by done.
  eexists; split_and!; [reflexivity| |]; cbn [sk_live sk_regs sk_sregs].
  - by rewrite decide_True, lookup_insert_eq.
  - by rewrite decide_True.
Qed.

#[export] Program Instance SimLaws : KvmLaws SimK := {
  k_regs := sim_regs;
  k_sregs := sim_sregs;
  k_valid_sregs _ := True }.
Next Obligation.
  intros k fd r Hr. simpl. unfold sim_ioctl. rewrite Hr.
  unfold sim_regs in Hr. by case_decide.
Qed.
Next Obligation.
  intros k fd s Hs. simpl. unfold sim_ioctl. rewrite Hs.
  unfold sim_sregs in Hs. by case_decide.
Qed.
Next Obligation.
  intros k fd r. unfold sim_regs. case_decide; [|done].
  destruct (sk_regs k !! fd); [|done]. intros [= <-]. apply fix_rflags_canonical.
Qed.
Next Obligation. done. Qed.
Next Obligation. intros k fd r. apply sim_set_regs. Qed.
Next Obligation. intros k fd s Hs _. by apply sim_set_sregs. Qed.
Next Obligation. done. Qed.

#[export] Program Instance SimVcpu : VcpuLaws SimK := {}.
Next Obligation.
  intros k fd id. simpl. unfold sim_ioctl, sim_regs, sim_sregs. case_decide; [|cbn; lia].
  cbn [kr_ret kr_kern sk_live sk_regs sk_sregs]. intros _.
  rewrite !decide_True, !lookup_insert_eq by set_solver. by split; eexists.
Qed.
Next Obligation. intros k len mfd fd. simpl. by case_decide. Qed.

Lemma sim_addr_mono c k : sk_addr k <= sk_addr (kr_kern (sim_syscall c k)).
Proof.
  destruct c as [| |fd req| | |]; simpl; unfold sim_ioctl, sim_new_fd, sim_fail;
    repeat (case_decide || case_match); simpl; lia.
Qed.

#[export] Program Instance SimMmap : MmapLaws SimK := { k_mapped k a := a < sk_addr k }.
Next Obligation.
  intros k len fd. simpl. case_decide; simpl; [right; lia | by left].
Qed.
Next Obligation. done. Qed.
Next Obligation. intros k c a Ha _. eapply Z.lt_le_trans; [exact Ha | apply sim_addr_mono]. Qed.

Lemma sim_next_mono c k : sk_next k <= sk_next (kr_kern (sim_syscall c k)).
Proof.
  destruct c as [| |fd req| | |]; simpl; unfold sim_ioctl, sim_new_fd, sim_fail;
    repeat (case_decide || case_match); simpl; lia.
Qed.

#[export] Program Instance SimFd : FdLaws SimK := { k_open k fd := fd < sk_next k }.
Next Obligation.
  intros k c Hc. destruct c as [| |fd req| | |]; try done; simpl.
  - right. lia.
  - destruct req; try done; unfold sim_ioctl; case_decide; simpl; lia.
Qed.
Next Obligation. intros k c fd Hfd _. eapply Z.lt_le_trans; [exact Hfd | apply sim_next_mono]. Qed.

#[export] Program Instance SimErrno : ErrnoLaws SimK.
Next Obligation.
  intros k c. destruct c as [| |fd req| | |]; simpl; unfold sim_ioctl, sim_new_fd, sim_fail;
    repeat (case_decide || case_match); simpl; try done; lia.
Qed.

#[export] Program Instance SimPage : PageLaws SimK := { k_page k fd a := (fd, a) ∈ sk_pages k }.
Next Obligation. intros k len fd. simpl. case_decide; simpl; [intros _; by left | done]. Qed.
Next Obligation.
  intros k c fd a Hin _ _. destruct c as [| |fd' req| | |]; simpl; unfold sim_ioctl, sim_new_fd, sim_fail;
    repeat (case_decide || case_match); simpl; try done. by right.
Qed.

Lemma sim_write_mem m x :
  length <$> sim_write m x = length <$> m /\ (mem_bytes m -> mem_bytes (sim_write m x)).
Proof.
  destruct x as [[ptr off] bs]. unfold sim_write. destruct (m !! ptr) as [l|] eqn:Hl; [|done].
  destruct (in_block l off _ && bytesb bs) eqn:Hg; [|done]. boolify.
  apply in_block_spec in H as (? & ? & ?). apply bytesb_ok in H0. split.
  - apply map_eq. intros a. rewrite !lookup_fmap. destruct (decide (a = ptr)) as [->|].
    + rewrite lookup_insert_eq, Hl. cbn. by rewrite length_splice by lia.
    + by rewrite lookup_insert_ne.
  - intros Hm. apply map_Forall_insert_2; [|done]. apply Forall_splice; [done|]. by apply (Hm ptr).
Qed.

Lemma sim_writes_mem xs m :
  length <$> fold_left sim_write xs m = length <$> m /\
  (mem_bytes m -> mem_bytes (fold_left sim_write xs m)).
Proof.
  revert m. induction xs as [|x xs IH]; intros m; [done|]. cbn [fold_left].
  destruct (IH (sim_write m x)) as [IH1 IH2], (sim_write_mem m x) as [H1 H2].
  split; [congruence|auto].
Qed.

Lemma sim_page_ok_spec m a page :
  sim_page_ok m a = true -> m !! a = Some page -> Forall is_byte page -> exit_ok page.
Proof.
  unfold sim_page_ok. intros Hg Hp Hb. rewrite Hp in Hg. boolify. split; [by split|]. intros Hr.
  apply orb_true_iff in H0 as [H0|H0]; boolify; [done|]. by split.
Qed.

#[export] Program Instance SimRun : RunLaws SimK.
Next Obligation.
  intros k fd m. simpl. unfold sim_run. repeat (case_decide || case_match); try done. apply sim_writes_mem.
Qed.
Next Obligation.
  intros k fd m a page. simpl. unfold sim_run. case_decide; [|done].
  destruct (sk_script k) as [|x xs]; [done|]. destruct (forallb _ _) eqn:Hg; [|done].
  intros Hin Hb Hp _. destruct (sim_writes_mem (sx_writes x) m) as [Hl Hbs].
  apply (f_equal (lookup a)) in Hl. rewrite !lookup_fmap, Hp in Hl. cbn in Hl.
  destruct (fold_left sim_write (sx_writes x) m !! a) as [page'|] eqn:Hp'; [|done].
  exists page'. split; [done|]. apply (sim_page_ok_spec (fold_left sim_write (sx_writes x) m) a); [|done|].
  - rewrite List.forallb_forall in Hg. apply list_elem_of_In in Hin. specialize (Hg _ Hin). cbn in Hg.
    by rewrite Z.eqb_refl in Hg.
  - by apply (Hbs Hb a).
Qed.
Next Obligation.
  intros k fd m. simpl. unfold sim_run. repeat (case_decide || case_match); by repeat split.
Qed.
Next Obligation. done. Qed.
Next Obligation. done. Qed.
Next Obligation.
  intros k fd. simpl. unfold sim_ioctl, kvm_run_header. case_decide; simpl; lia.
Qed.

(** The script is what is left, whatever is done to the registers. *)
#[export] Program Instance SimHalt bound : HaltLaws SimK bound := { k_left k := length (sk_script k) }.
Next Obligation.
  intros bound k fd m a page. simpl. unfold sim_run.
  case_decide; [|simpl; intros _ _ He _; by specialize (He ltac:(done))].
  destruct (sk_script k) as [|x xs]; [simpl; intros _ _ He _; by specialize (He ltac:(done))|].
  destruct (forallb _ _); simpl; [lia|]. intros _ _ He _. by specialize (He ltac:(done)).
Qed.
Next Obligation.
  intros bound k c. destruct c as [| |fd' req| | |]; simpl; unfold sim_ioctl, sim_new_fd, sim_fail;
    repeat (case_decide || case_match); simpl; lia.
Qed.
Next Obligation.
  intros bound k fd m. simpl. unfold sim_run. case_decide; [|done].
  destruct (sk_script k) as [|x xs] eqn:Hs; [simpl; by rewrite Hs|]. destruct (forallb _ _); simpl; lia.
Qed.
Next Obligation. done. Qed.
Next Obligation. done. Qed.

(** A kernel in which nothing is open yet. *)
Definition sim_init (script : list sim_exit) : SimK :=
  mk_simk 3 (2 ^ 32) ∅ ∅ ∅ [] script 1000000000.

Definition sim_world {E} (k : SimK) (m : memory) (e : E) : World SimK E :=
  mk_world (mk_host k m ∅ 0 [] [] []) e.

(** A kernel with one vCPU behind descriptor 5, whose run page is block 8192
    and whose guest memory is block 4096. *)
Definition sim_vcpu (script : list sim_exit) : SimK :=
  mk_simk 6 (2 ^ 32) {[3; 4; 5]} {[5 := zero_regs]} {[5 := zero_sregs]} [] script 0.
