(* ===== verification/Resource.v ===== *)
(** * Resources of the process: descriptors and mappings

    The classes of the program are handles: each object stands for descriptors
    it will close and mappings it will release.  This file counts them: a
    multiset of resources is owned when it lists everything the process holds,
    each once, and a specification [spec] of an operation says which resources
    it consumes and which it yields, leaving every other one alone with its
    contents. *)

From S2P Require Import Prelude Host SimKvm.
From stdpp Require Import base list gmap gmultiset strings.
From Stdlib Require Import ZArith Lia.
Open Scope Z_scope.
Open Scope hv_scope.

Inductive resource :=
| RFd (fd : Z)
| RMap (addr : Z).

#[export] Instance resource_eq_dec : EqDecision resource.
Proof. solve_decision. Defined.

#[export] Program Instance resource_countable : Countable resource :=
  inj_countable' (fun r => match r with RFd fd => inl fd | RMap a => inr a end)
                 (fun x => match x with inl fd => RFd fd | inr a => RMap a end) _.
Next Obligation. by intros []. Qed.

Abbreviation resources := (gmultiset resource).

Section Resources.

Context {K : Type} `{Kernel K} `{!MmapLaws K} `{!FdLaws K} `{!PageLaws K} {E : Type}.
Implicit Types (w : World K E) (L F : resources).

(** What the process holds now. *)
Definition present w (x : resource) : bool :=
  match x with
  | RFd fd => bool_decide (fd ∈ h_fds (w_host w))
  | RMap a => bool_decide (is_Some (h_mem (w_host w) !! a))
  end.

(** Whatever is present is in use in the kernel. *)
Definition in_use w (x : resource) : Prop :=
  match x with
  | RFd fd => k_open (h_kern (w_host w)) fd
  | RMap a => k_mapped (h_kern (w_host w)) a
  end.

(** [L] lists everything the process holds, each resource once; the mapped
    blocks are bytes. *)
Record owned w L : Prop := {
  ow_holds x : multiplicity x L = if present w x then 1%nat else 0%nat;
  ow_in_use x : present w x = true -> in_use w x;
  ow_bytes : mem_bytes (h_mem (w_host w)) }.

(** One kernel state reached from the other by system calls. *)
Inductive calls : K -> K -> Prop :=
| calls_none k : calls k k
| calls_more c k k' : calls (kr_kern (k_syscall c k)) k' -> calls k k'.

Lemma calls_trans k1 k2 k3 : calls k1 k2 -> calls k2 k3 -> calls k1 k3.
Proof. induction 1; [done|]. intros ?. eapply calls_more. eauto. Qed.

(** What every system call keeps. *)
Lemma calls_keep (G : K -> Prop) k k' :
  (forall c k1, G k1 -> G (kr_kern (k_syscall c k1))) -> calls k k' -> G k -> G k'.
Proof. intros HG. induction 1; eauto. Qed.

(** What an operation guarantees for the resources [F] it does not touch. *)
Record kept F w w' : Prop := {
  kp_calls : calls (h_kern (w_host w)) (h_kern (w_host w'));
  kp_env : w_env w' = w_env w;
  kp_mem a : RMap a ∈ F -> h_mem (w_host w') !! a = h_mem (w_host w) !! a;
  kp_page fd a : RFd fd ∈ F -> RMap a ∈ F ->
    k_page (h_kern (w_host w)) fd a -> k_page (h_kern (w_host w')) fd a }.

Lemma kept_refl F w : kept F w w.
Proof. split; [constructor|done..]. Qed.

Lemma kept_trans F w1 w2 w3 : kept F w1 w2 -> kept F w2 w3 -> kept F w1 w3.
Proof.
  intros [C1 E1 M1 P1] [C2 E2 M2 P2]. split.
  - by eapply calls_trans.
  - congruence.
  - intros a Ha. by rewrite M2, M1.
  - eauto.
Qed.

Lemma kept_sub F G w w' : G ⊆ F -> kept F w w' -> kept G w w'.
Proof.
  intros Hs [C1 E1 M1 P1]. split; [done|done| |]; intros.
  - apply M1. by eapply gmultiset_elem_of_subseteq.
  - apply P1; [by eapply gmultiset_elem_of_subseteq..|done].
Qed.

(** [spec P X m Y Q]: with the resources [X] and [P], [m] returns without a
    fault, with the resources [Y] and [Q]; all others are kept. *)
Definition spec {A} (P : World K E -> Prop) (X : resources) (m : M (World K E) A)
  (Y : A -> resources) (Q : A -> World K E -> Prop) : Prop :=
  forall F w, owned w (X ⊎ F) -> P w ->
  exists a w', m w = Ok (a, w') /\ owned w' (Y a ⊎ F) /\ kept F w w' /\ Q a w'.

Lemma spec_ret {A} (a : A) (Y : A -> resources) Q : spec (Q a) (Y a) (ret a) Y Q.
Proof. intros F w Ho HP. exists a, w. eauto using kept_refl. Qed.

Lemma spec_bind {A B} P X (m : M (World K E) A) Y Q (k : A -> M (World K E) B) Z R :
  spec P X m Y Q -> (forall a, spec (Q a) (Y a) (k a) Z R) -> spec P X (bind m k) Z R.
Proof.
  intros Hm Hk F w Ho HP. destruct (Hm F w Ho HP) as (a & w1 & E1 & Ho1 & Hk1 & HQ).
  destruct (Hk a F w1 Ho1 HQ) as (b & w2 & E2 & Ho2 & Hk2 & HR).
  exists b, w2. rewrite (bind_Ok _ _ _ _ _ E1). eauto using kept_trans.
Qed.

Lemma spec_conseq {A} P P' X X' (m : M (World K E) A) Y Y' Q Q' :
  spec P' X' m Y' Q' -> (forall w, P w -> P' w) -> X = X' -> (forall a, Y' a = Y a) ->
  (forall a w, Q' a w -> Q a w) -> spec P X m Y Q.
Proof.
  intros Hm HP -> HY HQ F w Ho HPw. destruct (Hm F w Ho (HP w HPw)) as (a & w1 & E1 & Ho1 & Hk1 & HQ1).
  exists a, w1. rewrite <-HY. auto.
Qed.

(** The frame rule. *)
Lemma spec_frame {A} P X (m : M (World K E) A) Y Q G :
  spec P X m Y Q -> spec P (X ⊎ G) m (fun a => Y a ⊎ G) Q.
Proof.
  intros Hm F w Ho HP. destruct (Hm (G ⊎ F) w) as (a & w1 & E1 & Ho1 & Hk1 & HQ); [|done|].
  { replace (X ⊎ (G ⊎ F)) with (X ⊎ G ⊎ F) by multiset_solver. done. }
  exists a, w1. split; [done|]. split; [|split; [|done]].
  - replace (Y a ⊎ G ⊎ F) with (Y a ⊎ (G ⊎ F)) by multiset_solver. done.
  - eapply kept_sub; [|exact Hk1]. multiset_solver.
Qed.

Lemma spec_true {A} P X (m : M (World K E) A) Y Q :
  spec P X m Y Q -> spec P X m Y (fun _ _ => True).
Proof. intros Hm. by eapply spec_conseq. Qed.

(** ** The system calls *)

Lemma present_fd w fd : present w (RFd fd) = true <-> fd ∈ h_fds (w_host w).
Proof. apply bool_decide_eq_true. Qed.

Lemma present_map w a : present w (RMap a) = true <-> is_Some (h_mem (w_host w) !! a).
Proof. apply bool_decide_eq_true. Qed.

Lemma owned_elem w L x : owned w L -> x ∈ L <-> present w x = true.
Proof.
  intros [Hh _ _]. rewrite elem_of_multiplicity, Hh.
  destruct (present w x); naive_solver lia.
Qed.

Lemma owned_eq w L L' : owned w L -> L = L' -> owned w L'.
Proof. by intros ? <-. Qed.

(** What is listed once is not listed again. *)
Lemma owned_present w x F : owned w ({[+ x +]} ⊎ F) -> present w x = true.
Proof.
  intros [Hh _ _]. specialize (Hh x). rewrite multiplicity_disj_union, multiplicity_singleton_eq in Hh.
  by destruct (present w x).
Qed.

Lemma owned_unique w x F : owned w ({[+ x +]} ⊎ F) -> x ∉ F.
Proof.
  intros [Hh _ _] Hin. specialize (Hh x).
  rewrite multiplicity_disj_union, multiplicity_singleton_eq in Hh.
  rewrite elem_of_multiplicity in Hin. destruct (present w x); simpl in Hh; lia.
Qed.

(** A call that is none of the four kinds changes no resource. *)
Definition neutral (c : syscall) : Prop :=
  yields_fd c = false /\
  match c with Sys_close _ | Sys_mmap _ _ | Sys_munmap _ _ => False | _ => True end.

Definition after_call (c : syscall) w : World K E :=
  let r := k_syscall c (h_kern (w_host w)) in
  on_host (finish c r (map_effect c (kr_ret r) (h_mem (w_host w)))) w.

Lemma call_bytes c w : mem_bytes (h_mem (w_host w)) -> mem_bytes (h_mem (w_host (after_call c w))).
Proof.
  intros Hb. destruct c as [| | |len fd|a len|]; try exact Hb; cbn.
  - destruct (_ =? MAP_FAILED); [done|]. apply map_Forall_insert_2; [|done].
    apply Forall_replicate. unfold is_byte. lia.
  - destruct (_ <? 0); [done|]. by apply map_Forall_delete.
Qed.

(** The three effects of a call on what is present: nothing, one more, one
    fewer. *)
Lemma call_same c w L :
  owned w L -> (forall x, present (after_call c w) x = present w x) ->
  (forall fd, c <> Sys_close fd) -> (forall a len, c <> Sys_munmap a len) ->
  owned (after_call c w) L.
Proof.
  intros [Hh Hu Hb] Hp Hc Hm. split; [| |by apply call_bytes]; intros x; rewrite Hp; [apply Hh|]. intros Hx.
  specialize (Hu x Hx). destruct x; cbn in *.
  - by apply law_open_mono.
  - by apply law_mapped_mono.
Qed.

Lemma call_add c w L x0 :
  owned w L -> present w x0 = false -> in_use (after_call c w) x0 ->
  (forall x, present (after_call c w) x = bool_decide (x = x0) || present w x) ->
  (forall fd, c <> Sys_close fd) -> (forall a len, c <> Sys_munmap a len) ->
  owned (after_call c w) ({[+ x0 +]} ⊎ L).
Proof.
  intros [Hh Hu Hb] Hno Hn Hp Hc Hm. split; [| |by apply call_bytes]; intros x; rewrite Hp.
  - rewrite multiplicity_disj_union, multiplicity_singleton, Hh.
    destruct (decide (x = x0)) as [->|Hne].
    + by rewrite bool_decide_eq_true_2, Hno by done.
    + by rewrite bool_decide_eq_false_2 by done.
  - case_bool_decide; [by subst|]. cbn. intros Hx. specialize (Hu x Hx). destruct x; cbn in *.
    + by apply law_open_mono.
    + by apply law_mapped_mono.
Qed.

Lemma call_drop c w L x0 :
  owned w ({[+ x0 +]} ⊎ L) ->
  (forall x, present (after_call c w) x = negb (bool_decide (x = x0)) && present w x) ->
  (forall fd, c = Sys_close fd -> x0 = RFd fd) ->
  (forall a len, c = Sys_munmap a len -> x0 = RMap a) ->
  owned (after_call c w) L.
Proof.
  intros [Hh Hu Hb] Hp Hc Hm. split; [| |by apply call_bytes]; intros x; rewrite Hp.
  - specialize (Hh x). rewrite multiplicity_disj_union, multiplicity_singleton in Hh.
    destruct (decide (x = x0)) as [->|Hne].
    + rewrite bool_decide_eq_true_2 by done. cbn. destruct (present w x0); lia.
    + by rewrite bool_decide_eq_false_2 by done.
  - case_bool_decide as Hne; [done|]. cbn. intros Hx. specialize (Hu x Hx).
    destruct x as [fd|a]; cbn in *.
    + apply law_open_mono; [done|]. intros ->. by rewrite (Hc fd) in Hne.
    + apply law_mapped_mono; [done|]. intros len ->. by rewrite (Hm a len) in Hne.
Qed.

Lemma call_kept c w F :
  (forall fd, c = Sys_close fd -> RFd fd ∉ F) ->
  (forall a len, c = Sys_munmap a len -> RMap a ∉ F) ->
  (forall a, RMap a ∈ F ->
     map_effect c (kr_ret (k_syscall c (h_kern (w_host w)))) (h_mem (w_host w)) !! a
     = h_mem (w_host w) !! a) ->
  kept F w (after_call c w).
Proof.
  intros Hc Hm Hmem. split; [eapply calls_more, calls_none|done|done|]. intros fd a Hfd Ha Hp. cbn.
  apply law_page_mono; [done| |].
  - intros ->. by eapply Hc.
  - intros len ->. by eapply Hm.
Qed.

Lemma do_syscall_eq c w :
  do_syscall c w =
  Ok ((kr_ret (k_syscall c (h_kern (w_host w))), kr_out (k_syscall c (h_kern (w_host w)))), after_call c w).
Proof. reflexivity. Qed.

Lemma spec_neutral c : neutral c -> spec (fun _ => True) ∅ (do_syscall c) (fun _ => ∅) (fun _ _ => True).
Proof.
  intros [Hy Hn] F w Ho _. do 2 eexists. split; [apply do_syscall_eq|].
  split; [|split; [|done]].
  - apply call_same; [done|..].
    + intros []; cbn; destruct c; try done; cbn in *; by rewrite ?Hy.
    + by intros fd ->.
    + by intros a len ->.
  - apply call_kept; [by intros fd ->|by intros a len ->|]. by destruct c.
Qed.

Lemma spec_yield c :
  yields_fd c = true ->
  spec (fun _ => True) ∅ (do_syscall c)
       (fun r => if r.1 <? 0 then ∅ else {[+ RFd r.1 +]}) (fun _ _ => True).
Proof.
  intros Hy F w Ho _. rewrite (left_id_L ∅ (⊎)) in Ho.
  assert (forall fd, c <> Sys_close fd) as Hc by (by intros fd ->).
  assert (forall a len, c <> Sys_munmap a len) as Hm by (by intros a len ->).
  set (r := k_syscall c (h_kern (w_host w))).
  assert (h_mem (w_host (after_call c w)) = h_mem (w_host w)) as Hmem by (by destruct c).
  assert (h_fds (w_host (after_call c w)) =
          if 0 <=? kr_ret r then {[kr_ret r]} ∪ h_fds (w_host w) else h_fds (w_host w)) as Hfds.
  { subst r. destruct c as [| |fd req| | |]; try done. by destruct req. }
  do 2 eexists. split; [apply do_syscall_eq|]. cbn [fst]. fold r.
  split; [|split; [|done]]; [|apply call_kept; [by intros fd ->|by intros a len ->|by destruct c]].
  destruct (kr_ret r <? 0) eqn:Er; boolify.
  - rewrite (left_id_L ∅ (⊎)). apply call_same; [done| |done|done].
    rewrite (proj2 (Z.leb_gt _ _)) in Hfds by done.
    intros []; unfold present; by rewrite ?Hfds, ?Hmem.
  - rewrite (proj2 (Z.leb_le _ _)) in Hfds by done.
    destruct (law_fd (h_kern (w_host w)) c Hy) as [Hneg|[Hfresh Hopen]]; [fold r in Hneg; lia|].
    fold r in Hfresh, Hopen. apply call_add; [done| |done| |done|done].
    + apply not_true_is_false. intros Hp. by apply Hfresh, (ow_in_use _ _ Ho (RFd _)).
    + intros x. unfold present at 1. destruct x as [fd|a].
      * rewrite Hfds. cbn [present]. repeat case_bool_decide; set_solver.
      * rewrite Hmem. by rewrite (bool_decide_eq_false_2 (RMap a = _)).
Qed.

Lemma spec_mmap len fd :
  spec (fun _ => True) ∅ (sys_mmap len fd)
       (fun r => if r =? MAP_FAILED then ∅ else {[+ RMap r +]})
       (fun r w => r <> MAP_FAILED ->
          0 < r /\ h_mem (w_host w) !! r = Some (replicate (Z.to_nat len) 0) /\
          k_page (h_kern (w_host w)) fd r).
Proof.
  intros F w Ho _. rewrite (left_id_L ∅ (⊎)) in Ho. set (c := Sys_mmap len fd).
  set (r := k_syscall c (h_kern (w_host w))).
  exists (kr_ret r), (after_call c w). split; [reflexivity|].
  assert (h_fds (w_host (after_call c w)) = h_fds (w_host w)) as Hfds by done.
  destruct (law_mmap (h_kern (w_host w)) len fd) as [Hf|(Hpos & Hfresh & Hmap)].
  - fold c r in Hf. rewrite Hf. cbn [Z.eqb MAP_FAILED Pos.eqb].
    assert (h_mem (w_host (after_call c w)) = h_mem (w_host w)) as Hmem.
    { change (map_effect c (kr_ret r) (h_mem (w_host w)) = h_mem (w_host w)). by rewrite Hf. }
    rewrite (left_id_L ∅ (⊎)). split; [|split; [|done]].
    + apply call_same; [done|by intros []; unfold present; rewrite ?Hfds, ?Hmem|done|done].
    + apply call_kept; [done|done|]. intros a _. fold r. change (h_mem (w_host (after_call c w)) !! a = h_mem (w_host w) !! a). by rewrite Hmem.
  - fold c r in Hpos, Hfresh, Hmap.
    assert ((kr_ret r =? MAP_FAILED) = false) as Hne by (apply Z.eqb_neq; unfold MAP_FAILED; lia).
    assert (h_mem (w_host (after_call c w)) =
            <[kr_ret r := replicate (Z.to_nat len) 0]> (h_mem (w_host w))) as Hmem.
    { change (map_effect c (kr_ret r) (h_mem (w_host w)) = <[kr_ret r := replicate (Z.to_nat len) 0]> (h_mem (w_host w))).
      cbn [c map_effect]. by rewrite Hne. }
    rewrite Hne.
    assert (present w (RMap (kr_ret r)) = false) as Hno.
    { apply not_true_is_false. intros Hp. by apply Hfresh, (ow_in_use _ _ Ho (RMap _)). }
    split; [|split].
    + apply call_add; [done|done|done| |done|done].
      intros x. unfold present at 1. destruct x as [fd'|a].
      * rewrite Hfds. by rewrite (bool_decide_eq_false_2 (RFd fd' = _)).
      * rewrite Hmem. cbn [present].
        destruct (decide (a = kr_ret r)) as [->|Hna].
        -- rewrite lookup_insert_eq, !bool_decide_eq_true_2 by eauto. done.
        -- rewrite lookup_insert_ne by done. rewrite (bool_decide_eq_false_2 (RMap a = _)) by congruence.
           done.
    + apply call_kept; [done|done|]. intros a Ha.
      change (h_mem (w_host (after_call c w)) !! a = h_mem (w_host w) !! a).
      rewrite Hmem, lookup_insert_ne; [done|]. intros <-.
      apply (owned_elem _ _ _ Ho) in Ha. congruence.
    + intros _. split; [done|]. split; [by rewrite Hmem, lookup_insert_eq|].
      change (h_kern (w_host (after_call c w))) with (kr_kern r). apply law_mmap_page. fold c r. by apply Z.eqb_neq.
Qed.

Lemma spec_close fd :
  spec (fun _ => True) {[+ RFd fd +]} (sys_close fd) (fun _ => ∅) (fun _ _ => True).
Proof.
  intros F w Ho _. exists tt, (after_call (Sys_close fd) w). split; [reflexivity|].
  rewrite (left_id_L ∅ (⊎)). split; [|split; [|done]].
  - apply (call_drop _ _ _ (RFd fd)); [done| |by intros ? [= ->]|done].
    intros x. unfold present. destruct x as [fd'|a].
    + cbn. repeat case_bool_decide; set_solver.
    + by rewrite (bool_decide_eq_false_2 (RMap a = _)).
  - apply call_kept; [|done|done]. intros ? [= <-]. by apply (owned_unique w).
Qed.

Lemma spec_munmap a len :
  spec (fun _ => True) {[+ RMap a +]} (sys_munmap a len) (fun _ => ∅) (fun _ _ => True).
Proof.
  intros F w Ho _. exists tt, (after_call (Sys_munmap a len) w). split; [reflexivity|].
  assert (h_mem (w_host (after_call (Sys_munmap a len) w)) = delete a (h_mem (w_host w))) as Hmem.
  { cbn. rewrite (proj2 (Z.ltb_ge _ _)); [done|]. apply law_munmap. apply (ow_in_use w _ Ho (RMap a)).
    by apply (owned_present w _ F). }
  rewrite (left_id_L ∅ (⊎)). split; [|split; [|done]].
  - apply (call_drop _ _ _ (RMap a)); [done| |done|by intros ? ? [= ->]].
    intros x. unfold present at 1. destruct x as [fd'|a'].
    + by rewrite (bool_decide_eq_false_2 (RFd fd' = _)).
    + rewrite Hmem. cbn [present]. destruct (decide (a' = a)) as [->|Hne].
      * rewrite lookup_delete_eq, (bool_decide_eq_true_2 (RMap a = _)) by done.
        reflexivity.
      * rewrite lookup_delete_ne by done. by rewrite (bool_decide_eq_false_2 (RMap a' = _)) by congruence.
  - assert (RMap a ∉ F) as Hnot by (by apply (owned_unique w)).
    apply call_kept; [done|by intros ? ? [= <-]|]. intros a' Ha'.
    change (h_mem (w_host (after_call (Sys_munmap a len) w)) !! a' = h_mem (w_host w) !! a').
    rewrite Hmem, lookup_delete_ne; [done|]. by intros ->.
Qed.

End Resources.
