(* ===== verification/Memory.v ===== *)
(** * Guest memory regions (MemoryRegion.h, MemoryRegion.cpp)

    A region owns an anonymous host mapping that is registered as a KVM slot.
    The section [MemoryRegionModel] has the operations of the class; the
    lemmas after it give the outcome of [read] and [write] on every branch and
    the ownership of the mapping across creation, moves and destruction. *)

From S2P Require Import Prelude Host SimKvm.
From stdpp Require Import base list gmap strings.
From Stdlib Require Import ZArith Lia.
Open Scope Z_scope.
Open Scope hv_scope.

Record MemoryRegion := mk_MemoryRegion {
  mr_vmFd : Z;
  mr_slot : Z;
  mr_guestPhysAddr : Z;
  mr_size : Z;
  mr_hostAddr : Z }.

Definition MemoryRegion_new (vm_fd slot guest_phys_addr size host_addr : Z) : MemoryRegion :=
  mk_MemoryRegion vm_fd slot guest_phys_addr size host_addr.

Section MemoryRegionModel.

Context {K : Type} `{Kernel K} {E : Type}.

Definition MemoryRegion_create (vm_fd slot guest_phys_addr size_bytes flags : Z)
  : M (World K E) (expected MemoryRegion) :=
  let* host_name := sys_mmap size_bytes (-1) in
  if host_name =? MAP_FAILED then
    let* e := errno in
    ret (Unexpected e)
  else
    sys_madvise host_name size_bytes ;;;
    let region := mk_umr slot flags guest_phys_addr size_bytes host_name in
    let* (r, _) := ioctl vm_fd (KVM_SET_USER_MEMORY_REGION region) in
    if r <? 0 then
      let* err := errno in
      sys_munmap host_name size_bytes ;;;
      ret (Unexpected err)
    else
      ret (Value (MemoryRegion_new vm_fd slot guest_phys_addr size_bytes host_name)).

(** [m_hostAddr != nullptr && m_hostAddr != MAP_FAILED]. *)
Definition MemoryRegion_owns (r : MemoryRegion) : bool :=
  negb (mr_hostAddr r =? nullptr) && negb (mr_hostAddr r =? MAP_FAILED).

(** Unregister the slot, then drop the mapping: the destructor and the first
    half of the move assignment. *)
Definition MemoryRegion_release (r : MemoryRegion) : M (World K E) unit :=
  if MemoryRegion_owns r then
    let region := mk_umr (mr_slot r) 0 0 0 0 in
    ioctl (mr_vmFd r) (KVM_SET_USER_MEMORY_REGION region) ;;;
    sys_munmap (mr_hostAddr r) (mr_size r)
  else ret tt.

Definition MemoryRegion_destroy (r : MemoryRegion) : M (World K E) unit :=
  MemoryRegion_release r.

(** The move constructor: the new object and what is left of [other]. *)
Definition MemoryRegion_move (other : MemoryRegion) : MemoryRegion * MemoryRegion :=
  (mk_MemoryRegion (mr_vmFd other) (mr_slot other) (mr_guestPhysAddr other)
                   (mr_size other) (mr_hostAddr other),
   mk_MemoryRegion (mr_vmFd other) (mr_slot other) (mr_guestPhysAddr other)
                   (mr_size other) nullptr).

(** Move assignment between two distinct objects: [*this] and [other] after
    it.  A self-assignment ([same]) does nothing. *)
Definition MemoryRegion_assign (same : bool) (this other : MemoryRegion)
  : M (World K E) (MemoryRegion * MemoryRegion) :=
  if same then ret (this, other)
  else
    MemoryRegion_release this ;;;
    ret (MemoryRegion_move other).

(** [assert] is compiled out when [NDEBUG] is defined. *)
Definition cassert (ndebug b : bool) : M (World K E) unit :=
  if ndebug || b then ret tt else fail AssertFailed.

Definition MemoryRegion_write (ndebug : bool) (r : MemoryRegion) (guest_offset : Z)
  (data : list Z) : M (World K E) unit :=
  cassert ndebug (u64 (guest_offset + Z.of_nat (length data)) <=? mr_size r) ;;;
  mem_store (mr_hostAddr r) guest_offset data.

Definition MemoryRegion_read (ndebug : bool) (r : MemoryRegion) (guest_offset : Z)
  (out_size : Z) : M (World K E) (list Z) :=
  cassert ndebug (u64 (guest_offset + out_size) <=? mr_size r) ;;;
  mem_load (mr_hostAddr r) guest_offset out_size.

Definition MemoryRegion_hostAddr (r : MemoryRegion) : Z := mr_hostAddr r.
Definition MemoryRegion_guestPhysAddr (r : MemoryRegion) : Z := mr_guestPhysAddr r.
Definition MemoryRegion_size (r : MemoryRegion) : Z := mr_size r.

(** ** Well-formed regions: the mapping is there and has the region's size *)

Definition region_ok (r : MemoryRegion) (m : memory) : Prop :=
  mr_hostAddr r <> nullptr /\ 0 <= mr_size r < 2 ^ 64 /\
  exists l, m !! mr_hostAddr r = Some l /\ Z.of_nat (length l) = mr_size r.

(** The bytes of a region. *)
Definition region_bytes (r : MemoryRegion) (m : memory) : list Z :=
  default [] (m !! mr_hostAddr r).

(** The world after the bytes of [r] have been replaced. *)
Definition with_bytes (r : MemoryRegion) (l : list Z) (w : World K E) : World K E :=
  on_host (fun h => set_mem (<[mr_hostAddr r := l]> (h_mem h)) h) w.

Lemma region_ok_bytes r m :
  region_ok r m ->
  m !! mr_hostAddr r = Some (region_bytes r m) /\
  Z.of_nat (length (region_bytes r m)) = mr_size r.
Proof. intros (_ & _ & l & Hl & Hn). unfold region_bytes. by rewrite Hl. Qed.

Lemma region_ok_insert r m l :
  region_ok r m -> Z.of_nat (length l) = mr_size r ->
  region_ok r (<[mr_hostAddr r := l]> m).
Proof. intros (? & ? & _) ?. split; [done|]. split; [done|]. exists l. by rewrite lookup_insert_eq. Qed.

Lemma region_bytes_insert r m l : region_bytes r (<[mr_hostAddr r := l]> m) = l.
Proof. unfold region_bytes. by rewrite lookup_insert_eq. Qed.

(** The outcome of [write] on every branch: the bytes are spliced in when they
    fit; otherwise the assertion stops the process, unless it is compiled out
    or the 64-bit sum it tests has wrapped around. *)
Lemma write_outcome ndebug r off data w :
  region_ok r (h_mem (w_host w)) -> is_u64 off -> is_u64 (Z.of_nat (length data)) ->
  MemoryRegion_write ndebug r off data w =
    if off + Z.of_nat (length data) <=? mr_size r then
      Ok (tt, with_bytes r (splice (Z.to_nat off) data (region_bytes r (h_mem (w_host w)))) w)
    else if negb ndebug && (mr_size r <? u64 (off + Z.of_nat (length data))) then
      Fault AssertFailed
    else Fault OutOfBounds.
Proof.
  intros Hr Hoff Hlen. destruct (region_ok_bytes _ _ Hr) as [Hl Hn].
  destruct Hr as (Hnz & Hsz & _). unfold is_u64 in *.
  unfold MemoryRegion_write, cassert. set (n := Z.of_nat (length data)) in *.
  destruct (off + n <=? mr_size r) eqn:Efit; boolify.
  - unfold u64. rewrite Z.mod_small, (proj2 (Z.leb_le _ _)), orb_true_r by lia.
    unfold bind, ret. rewrite (mem_store_ok _ _ _ _ _ Hnz Hl) by lia. done.
  - rewrite Z.ltb_antisym, <-negb_orb.
    destruct (ndebug || (u64 (off + n) <=? mr_size r)); simpl; [|done].
    unfold bind, ret. apply (mem_store_oob _ _ _ _ _ Hnz Hl). lia.
Qed.

Lemma read_outcome ndebug r off n w :
  region_ok r (h_mem (w_host w)) -> is_u64 off -> is_u64 n ->
  MemoryRegion_read ndebug r off n w =
    if off + n <=? mr_size r then
      Ok (slice (Z.to_nat off) (Z.to_nat n) (region_bytes r (h_mem (w_host w))), w)
    else if negb ndebug && (mr_size r <? u64 (off + n)) then Fault AssertFailed
    else Fault OutOfBounds.
Proof.
  intros Hr Hoff Hlen. destruct (region_ok_bytes _ _ Hr) as [Hl Hn].
  destruct Hr as (Hnz & Hsz & _). unfold is_u64 in *.
  unfold MemoryRegion_read, cassert.
  destruct (off + n <=? mr_size r) eqn:Efit; boolify.
  - unfold u64. rewrite Z.mod_small, (proj2 (Z.leb_le _ _)), orb_true_r by lia.
    unfold bind, ret. rewrite (mem_load_ok _ _ _ _ _ Hnz Hl) by lia. done.
  - rewrite Z.ltb_antisym, <-negb_orb.
    destruct (ndebug || (u64 (off + n) <=? mr_size r)); simpl; [|done].
    unfold bind, ret. apply (mem_load_oob _ _ _ _ _ Hnz Hl). lia.
Qed.

End MemoryRegionModel.

(** ** Ownership of mappings across the lifetime of regions

    Objects of the class live in a store; a step creates one (which may fail),
    move-constructs, move-assigns or destroys.  [base] are the mappings of the
    rest of the process. *)

Section Ownership.

Context {K : Type} `{Kernel K} `{!MmapLaws K} {E : Type}.
Implicit Types (w : World K E) (st : gmap nat MemoryRegion).

Inductive region_step : gmap nat MemoryRegion * World K E ->
                        gmap nat MemoryRegion * World K E -> Prop :=
| rs_create st w x fd slot gpa size flags r w' :
    st !! x = None ->
    MemoryRegion_create fd slot gpa size flags w = Ok (Value r, w') ->
    region_step (st, w) (<[x := r]> st, w')
| rs_create_fail st w fd slot gpa size flags ec w' :
    MemoryRegion_create fd slot gpa size flags w = Ok (Unexpected ec, w') ->
    region_step (st, w) (st, w')
| rs_move st w x y r :
    st !! x = None -> st !! y = Some r ->
    region_step (st, w)
      (<[y := snd (MemoryRegion_move r)]> (<[x := fst (MemoryRegion_move r)]> st), w)
| rs_assign st w x y rx ry rx' ry' w' :
    st !! x = Some rx -> st !! y = Some ry ->
    MemoryRegion_assign (bool_decide (x = y)) rx ry w = Ok ((rx', ry'), w') ->
    region_step (st, w) (<[y := ry']> (<[x := rx']> st), w')
| rs_destroy st w x r w' :
    st !! x = Some r ->
    MemoryRegion_destroy r w = Ok (tt, w') ->
    region_step (st, w) (delete x st, w').

(** Every mapping is the rest of the process's or owned by exactly one object. *)
Record regions_inv (base : gset Z) (s : gmap nat MemoryRegion * World K E) : Prop := {
  ri_mapped a : is_Some (h_mem (w_host s.2) !! a) -> k_mapped (h_kern (w_host s.2)) a;
  ri_owned x r : s.1 !! x = Some r -> MemoryRegion_owns r = true ->
    is_Some (h_mem (w_host s.2) !! mr_hostAddr r) /\ mr_hostAddr r ∉ base;
  ri_unique x y rx ry : s.1 !! x = Some rx -> s.1 !! y = Some ry ->
    MemoryRegion_owns rx = true -> MemoryRegion_owns ry = true ->
    mr_hostAddr rx = mr_hostAddr ry -> x = y;
  ri_all a : is_Some (h_mem (w_host s.2) !! a) ->
    a ∈ base \/ exists x r, s.1 !! x = Some r /\ MemoryRegion_owns r = true /\ mr_hostAddr r = a;
  ri_base a : a ∈ base -> is_Some (h_mem (w_host s.2) !! a) }.

(** The blocks and the kernel after a release. *)
Lemma release_effect r w :
  (MemoryRegion_owns r = true -> k_mapped (h_kern (w_host w)) (mr_hostAddr r)) ->
  exists w', MemoryRegion_release r w = Ok (tt, w') /\
    h_mem (w_host w') = (if MemoryRegion_owns r then delete (mr_hostAddr r) (h_mem (w_host w))
                         else h_mem (w_host w)) /\
    (forall a, (MemoryRegion_owns r = true -> a <> mr_hostAddr r) ->
       k_mapped (h_kern (w_host w)) a -> k_mapped (h_kern (w_host w')) a).
Proof.
  intros Hmap. unfold MemoryRegion_release. destruct (MemoryRegion_owns r); [|by exists w].
  eexists; split; [reflexivity|]. split.
  - cbn. rewrite (proj2 (Z.ltb_ge _ _)); [done|]. apply law_munmap, law_mapped_mono; auto.
  - intros a Ha Hm. cbn. apply law_mapped_mono; [apply law_mapped_mono; [done|] | ]; [done|].
    intros len [= He]. by apply Ha.
Qed.

(** The blocks after [create]: one fresh block, or exactly what there was. *)
Lemma create_effect fd slot gpa size flags w res w' :
  (forall a, is_Some (h_mem (w_host w) !! a) -> k_mapped (h_kern (w_host w)) a) ->
  MemoryRegion_create fd slot gpa size flags w = Ok (res, w') ->
  (forall a, is_Some (h_mem (w_host w) !! a) -> k_mapped (h_kern (w_host w')) a) /\
  match res with
  | Value r =>
      r = mk_MemoryRegion fd slot gpa size (mr_hostAddr r) /\
      MemoryRegion_owns r = true /\ h_mem (w_host w) !! mr_hostAddr r = None /\
      k_mapped (h_kern (w_host w')) (mr_hostAddr r) /\
      h_mem (w_host w') = <[mr_hostAddr r := replicate (Z.to_nat size) 0]> (h_mem (w_host w))
  | Unexpected _ => h_mem (w_host w') = h_mem (w_host w)
  end.
Proof.
  intros Hm. unfold MemoryRegion_create, sys_mmap, sys_madvise, sys_munmap, ioctl, errno, bind.
  unfold do_syscall, ret. cbn.
  destruct (law_mmap (h_kern (w_host w)) size (-1)) as [Hf|(Hpos & Hfresh & Hmap)].
  { rewrite Hf. cbn. intros [= <- <-]. cbn. split; [|done].
    intros a Ha. by apply law_mapped_mono; [apply Hm|]. }
  set (r0 := k_syscall (Sys_mmap size (-1)) (h_kern (w_host w))) in *.
  assert (h_mem (w_host w) !! kr_ret r0 = None) as Hnone.
  { apply eq_None_not_Some. intros Hs. by apply Hfresh, Hm. }
  rewrite (proj2 (Z.eqb_neq (kr_ret r0) MAP_FAILED)) by (unfold MAP_FAILED; lia).
  set (r1 := k_syscall (Sys_madvise _ _) _). set (r2 := k_syscall (Sys_ioctl _ _) _).
  assert (forall a, is_Some (h_mem (w_host w) !! a) -> k_mapped (kr_kern r2) a) as Hmono.
  { intros a Ha. do 3 (apply law_mapped_mono; [|done]). by apply Hm. }
  destruct (kr_ret r2 <? 0) eqn:E2; intros [= <- <-]; cbn; split.
  - intros a Ha. apply law_mapped_mono; [by apply Hmono|].
    intros len [= <-]. rewrite Hnone in Ha. by destruct Ha.
  - rewrite (proj2 (Z.ltb_ge _ _)); [by rewrite delete_insert_id|].
    apply law_munmap. do 2 (apply law_mapped_mono; [|done]). done.
  - done.
  - split_and!; try done.
    + unfold MemoryRegion_owns, nullptr, MAP_FAILED; cbn.
      by rewrite !(proj2 (Z.eqb_neq _ _)) by lia.
    + do 2 (apply law_mapped_mono; [|done]). done.
Qed.

Lemma inv_create base st w x fd slot gpa size flags r w' :
  regions_inv base (st, w) -> st !! x = None ->
  MemoryRegion_create fd slot gpa size flags w = Ok (Value r, w') ->
  regions_inv base (<[x := r]> st, w').
Proof.
  intros [Hmp Ho Hu Ha Hb] Hx Hc; cbn in *.
  apply create_effect in Hc as (Hmono & _ & Hown & Hnone & Hmr & Hmem); [|done].
  split; cbn; rewrite ?Hmem.
  - intros a. rewrite lookup_insert_is_Some. intros [<-|[_ Hs]]; auto.
  - intros y ry. rewrite lookup_insert_Some, lookup_insert_is_Some'.
    intros [[<- <-]|[Hne Hy]] Hoy.
    + split; [by left|]. intros Hin. apply Hb in Hin. rewrite Hnone in Hin. by destruct Hin.
    + destruct (Ho _ _ Hy Hoy). auto.
  - intros y z ry rz. rewrite !lookup_insert_Some.
    intros [[<- <-]|[? Hy]] [[<- <-]|[? Hz]] Hoy Hoz He; eauto.
    + destruct (Ho _ _ Hz Hoz) as [Hs _]. rewrite <-He, Hnone in Hs. by destruct Hs.
    + destruct (Ho _ _ Hy Hoy) as [Hs _]. rewrite He, Hnone in Hs. by destruct Hs.
  - intros a. rewrite lookup_insert_is_Some. intros [<-|[_ Hs]].
    + right. exists x, r. by rewrite lookup_insert_eq.
    + destruct (Ha _ Hs) as [|(y & ry & Hy & ?)]; [by left|right].
      exists y, ry. rewrite lookup_insert_ne; [done|congruence].
  - intros a Hin. rewrite lookup_insert_is_Some'. auto.
Qed.

Lemma inv_create_fail base st w fd slot gpa size flags ec w' :
  regions_inv base (st, w) ->
  MemoryRegion_create fd slot gpa size flags w = Ok (Unexpected ec, w') ->
  regions_inv base (st, w').
Proof.
  intros [Hmp Ho Hu Ha Hb] Hc; cbn in *.
  apply create_effect in Hc as (Hmono & Hmem); [|done].
  split; cbn; rewrite ?Hmem; auto.
Qed.

(** Releasing what [x] owns, leaving [x] with an object that owns nothing. *)
Lemma inv_release base st w x r st' w' :
  regions_inv base (st, w) -> st !! x = Some r ->
  MemoryRegion_release r w = Ok (tt, w') ->
  (forall y ry, st' !! y = Some ry -> MemoryRegion_owns ry = true ->
                y <> x /\ st !! y = Some ry) ->
  (forall y ry, st !! y = Some ry -> y <> x -> st' !! y = Some ry) ->
  regions_inv base (st', w').
Proof.
  intros [Hmp Ho Hu Ha Hb] Hx Hr Hsub Hsup; cbn in *.
  destruct (release_effect r w) as (w1 & Hr1 & Hmem & Hmono); [intros Hor; apply Hmp, (Ho x r Hx Hor)|].
  rewrite Hr in Hr1. injection Hr1 as <-.
  assert (forall a, is_Some (h_mem (w_host w') !! a) <->
            is_Some (h_mem (w_host w) !! a) /\
            (MemoryRegion_owns r = true -> a <> mr_hostAddr r)) as Hdom.
  { intros a. rewrite Hmem. destruct (MemoryRegion_owns r).
    - rewrite lookup_delete_is_Some. naive_solver.
    - naive_solver. }
  split; cbn.
  - intros a [Hs Hne]%Hdom. by apply Hmono; [|apply Hmp].
  - intros y ry Hy Hoy. destruct (Hsub _ _ Hy Hoy) as [Hne Hy'].
    destruct (Ho _ _ Hy' Hoy). split; [|done]. apply Hdom. split; [done|].
    intros Hor He. by apply Hne, (Hu y x ry r).
  - intros y z ry rz Hy Hz Hoy Hoz He.
    destruct (Hsub _ _ Hy Hoy), (Hsub _ _ Hz Hoz). eauto.
  - intros a [Hs Hne]%Hdom. destruct (Ha _ Hs) as [|(y & ry & Hy & Hoy & <-)]; [by left|right].
    exists y, ry. split_and!; try done. apply Hsup; [done|]. intros ->.
    assert (ry = r) as -> by congruence. by apply Hne.
  - intros a Hin. apply Hdom. split; [auto|]. intros Hor ->. by apply (Ho x r).
Qed.

(** Handing what [y] owns to [x], which owned nothing. *)
Lemma inv_transfer base st w x y ry :
  regions_inv base (st, w) -> st !! y = Some ry -> x <> y ->
  (forall rx, st !! x = Some rx -> MemoryRegion_owns rx = false) ->
  regions_inv base
    (<[y := snd (MemoryRegion_move ry)]> (<[x := fst (MemoryRegion_move ry)]> st), w).
Proof.
  intros [Hmp Ho Hu Ha Hb] Hy Hxy Hx; cbn in *.
  set (st' := <[y := _]> _).
  assert (forall z rz, st' !! z = Some rz -> MemoryRegion_owns rz = true ->
            exists z', st !! z' = Some rz /\ (z = x /\ z' = y \/ z = z' /\ z <> x /\ z <> y)) as Hpre.
  { intros z rz. unfold st'. rewrite !lookup_insert_Some.
    intros [[<- <-]|[Hzy [[<- <-]|[Hzx Hz]]]] Hoz; [done| |].
    - exists y. split; [by destruct ry|by left].
    - exists z. auto. }
  split; cbn; auto.
  - intros z rz Hz Hoz. destruct (Hpre _ _ Hz Hoz) as (z' & Hz' & _). eauto.
  - intros z1 z2 r1 r2 H1 H2 Ho1 Ho2 He.
    destruct (Hpre _ _ H1 Ho1) as (a & Ha1 & C1), (Hpre _ _ H2 Ho2) as (b & Hb1 & C2).
    assert (a = b) by eauto. naive_solver.
  - intros a Hs. destruct (Ha _ Hs) as [|(z & rz & Hz & Hoz & <-)]; [by left|right].
    destruct (decide (z = y)) as [->|Hzy].
    + assert (rz = ry) as -> by congruence. exists x, ry. split_and!; [|done|done].
      unfold st'. rewrite lookup_insert_ne, lookup_insert_eq by done. by destruct ry.
    + exists z, rz. split_and!; [|done|done]. unfold st'.
      rewrite !lookup_insert_ne; [done| |done]. intros <-. by rewrite (Hx _ Hz) in Hoz.
Qed.

Lemma inv_assign base st w x y rx ry rx' ry' w' :
  regions_inv base (st, w) -> st !! x = Some rx -> st !! y = Some ry ->
  MemoryRegion_assign (bool_decide (x = y)) rx ry w = Ok ((rx', ry'), w') ->
  regions_inv base (<[y := ry']> (<[x := rx']> st), w').
Proof.
  intros Hinv Hx Hy. unfold MemoryRegion_assign. case_bool_decide as Hxy.
  - intros [= <- <- <-]. subst y. assert (ry = rx) as -> by congruence.
    by rewrite !insert_id by (by rewrite ?insert_id).
  - intros Ha. binv. destruct a. injection Ha as <- <- <-.
    set (dead := mk_MemoryRegion 0 0 0 0 nullptr).
    rewrite <-(insert_insert_eq st x _ dead).
    apply inv_transfer; [|by rewrite lookup_insert_ne|done|].
    + eapply inv_release; [done|exact Hx|done| |].
      * intros z rz. rewrite lookup_insert_Some. intros [[_ <-]|]; [done|naive_solver].
      * intros z rz Hz Hne. by rewrite lookup_insert_ne.
    + intros rz. rewrite lookup_insert_eq. by intros [= <-].
Qed.

Lemma region_step_inv base s s' :
  regions_inv base s -> region_step s s' -> regions_inv base s'.
Proof.
  intros Hinv Hs. destruct Hs.
  - by eapply inv_create.
  - by eapply inv_create_fail.
  - apply inv_transfer; [done|done|congruence|congruence].
  - by eapply inv_assign.
  - eapply inv_release; [done|done|done| |].
    + intros z rz. rewrite lookup_delete_Some. naive_solver.
    + intros z rz Hz Hne. by rewrite lookup_delete_ne.
Qed.

Lemma region_steps_inv base s s' :
  regions_inv base s -> rtc region_step s s' -> regions_inv base s'.
Proof. intros Hi Hr. induction Hr; eauto using region_step_inv. Qed.

End Ownership.

(** ** Properties *)

(** C33. Writing bytes that fit into a region and reading the same range back
    returns them, whether or not assertions are compiled in; the region stays
    well-formed, every disjoint range of it reads as before, and no other
    mapping changes. *)
Theorem write_read_roundtrip {K} `{Kernel K} {E} ndebug r off data (w : World K E) :
  region_ok r (h_mem (w_host w)) -> 0 <= off -> off + Z.of_nat (length data) <= mr_size r ->
  exists w', MemoryRegion_write ndebug r off data w = Ok (tt, w') /\
    region_ok r (h_mem (w_host w')) /\
    MemoryRegion_read ndebug r off (Z.of_nat (length data)) w' = Ok (data, w') /\
    (forall off' n, 0 <= off' -> 0 <= n -> off' + n <= mr_size r ->
       off' + n <= off \/ off + Z.of_nat (length data) <= off' ->
       exists bs, MemoryRegion_read ndebug r off' n w = Ok (bs, w) /\
                  MemoryRegion_read ndebug r off' n w' = Ok (bs, w')) /\
    (forall a, a <> mr_hostAddr r -> h_mem (w_host w') !! a = h_mem (w_host w) !! a).
Proof.
  intros Hr Hoff Hfit. destruct (region_ok_bytes _ _ Hr) as [Hl Hn].
  destruct (Hr) as (_ & Hsz & _).
  set (bytes := region_bytes r (h_mem (w_host w))) in *.
  exists (with_bytes r (splice (Z.to_nat off) data bytes) w).
  assert (region_ok r (h_mem (w_host (with_bytes r (splice (Z.to_nat off) data bytes) w)))) as Hr'.
  { apply region_ok_insert; [done|]. rewrite length_splice by lia. done. }
  split_and!.
  - by rewrite write_outcome, (proj2 (Z.leb_le _ _)) by (done || unfold is_u64; lia).
  - done.
  - rewrite read_outcome, (proj2 (Z.leb_le _ _)) by (done || unfold is_u64; lia).
    cbn. rewrite region_bytes_insert, Nat2Z.id, slice_splice_eq by lia. done.
  - intros off' n ????. eexists. split.
    + rewrite read_outcome, (proj2 (Z.leb_le _ _)) by (done || unfold is_u64; lia). done.
    + rewrite read_outcome, (proj2 (Z.leb_le _ _)) by (done || unfold is_u64; lia).
      cbn. rewrite region_bytes_insert, slice_splice_ne by lia. done.
  - intros a Ha. cbn. by rewrite lookup_insert_ne.
Qed.

Definition demo_region : MemoryRegion := mk_MemoryRegion 4 0 0 16 4096.
Definition demo_world : World SimK unit :=
  sim_world (sim_vcpu []) {[4096 := replicate 16 0]} tt.

Lemma demo_region_ok : region_ok demo_region (h_mem (w_host demo_world)).
Proof. split; [done|]. split; [done|]. by exists (replicate 16 0). Qed.

Lemma write_read_roundtrip_witness :
  exists w', MemoryRegion_write false demo_region 3 [7; 8; 9] demo_world = Ok (tt, w') /\
             MemoryRegion_read false demo_region 3 3 w' = Ok ([7; 8; 9], w').
Proof.
  destruct (write_read_roundtrip false demo_region 3 [7; 8; 9] demo_world)
    as (w' & Hw & _ & Hr & _); [apply demo_region_ok | done | done |].
  exists w'. split; [exact Hw | exact Hr].
Defined.

(** Of the writes that do not fit, the ones the assertion lets through to
    the copy, which then runs outside the mapping, are exactly those whose
    64-bit end offset wraps around to at most the region's size. *)
Lemma write_assert_wraps {K} `{Kernel K} {E} r off data (w : World K E) :
  region_ok r (h_mem (w_host w)) -> is_u64 off -> is_u64 (Z.of_nat (length data)) ->
  mr_size r < off + Z.of_nat (length data) ->
  (MemoryRegion_write false r off data w = Fault OutOfBounds <->
   off + Z.of_nat (length data) - 2 ^ 64 <= mr_size r /\ 2 ^ 64 <= off + Z.of_nat (length data)).
Proof.
  intros Hr Hoff Hlen Hbig. rewrite write_outcome by done.
  destruct Hr as (_ & Hsz & _). unfold is_u64 in *.
  rewrite (proj2 (Z.leb_gt _ _) Hbig). simpl. unfold u64.
  destruct (Z.ltb_spec (mr_size r) ((off + Z.of_nat (length data)) mod 2 ^ 64)) as [Hm|Hm].
  - split; [done|]. intros [Hw1 Hw2]. exfalso.
    rewrite <-(Z.mod_unique (off + Z.of_nat (length data)) (2 ^ 64) 1
      (off + Z.of_nat (length data) - 2 ^ 64)) in Hm by lia. lia.
  - split; [|done]. intros _.
    destruct (decide (2 ^ 64 <= off + Z.of_nat (length data))) as [Hge|Hlt].
    + split; [|done].
      rewrite <-(Z.mod_unique (off + Z.of_nat (length data)) (2 ^ 64) 1
        (off + Z.of_nat (length data) - 2 ^ 64)) in Hm by lia. lia.
    + rewrite Z.mod_small in Hm by lia. lia.
Qed.

Lemma write_assert_wraps_witness :
  MemoryRegion_write false demo_region (2 ^ 64 - 1) [1; 2] demo_world = Fault OutOfBounds.
Proof.
  apply (write_assert_wraps demo_region (2 ^ 64 - 1) [1; 2] demo_world);
    [apply demo_region_ok | done | done | done | done].
Defined.

(** Whatever sequence of creations (successful or not), move
    constructions, move assignments and destructions regions go through, each
    live region that owns a mapping owns one that exists and that no other
    region owns; and once every region is destroyed the mappings of the
    process are exactly those there were: nothing leaks, nothing that is not
    the class's own is unmapped. *)
Lemma region_ownership {K} `{Kernel K} `{!MmapLaws K} {E} (w : World K E) st' w' :
  (forall a, is_Some (h_mem (w_host w) !! a) -> k_mapped (h_kern (w_host w)) a) ->
  rtc region_step (∅, w) (st', w') ->
  (forall x r, st' !! x = Some r -> MemoryRegion_owns r = true ->
     is_Some (h_mem (w_host w') !! mr_hostAddr r) /\
     h_mem (w_host w) !! mr_hostAddr r = None) /\
  (forall x y rx ry, st' !! x = Some rx -> st' !! y = Some ry ->
     MemoryRegion_owns rx = true -> MemoryRegion_owns ry = true ->
     mr_hostAddr rx = mr_hostAddr ry -> x = y) /\
  (st' = ∅ -> dom (h_mem (w_host w')) = dom (h_mem (w_host w))).
Proof.
  intros Hm Hs.
  assert (regions_inv (dom (h_mem (w_host w))) (∅, w)) as Hi.
  { split; cbn; try done; intros a; rewrite elem_of_dom; auto. }
  destruct (region_steps_inv _ _ _ Hi Hs) as [_ Ho Hu Ha Hb]; cbn in *.
  split_and!; [|done|].
  - intros x r Hx Hr. destruct (Ho _ _ Hx Hr) as [? Hn]. split; [done|].
    by apply not_elem_of_dom.
  - intros ->. apply set_eq. intros a. rewrite (elem_of_dom (h_mem (w_host w'))). split.
    + intros Hs'. destruct (Ha _ Hs') as [|(? & ? & ? & _)]; [done|].
      by rewrite lookup_empty in *.
    + auto.
Qed.

(** A region is created, moved into another, and both objects are destroyed. *)
Lemma region_ownership_witness :
  exists w' : World SimK unit, rtc region_step (∅, demo_world) (∅, w') /\
    length (h_trace (w_host w')) = 5%nat /\
    dom (h_mem (w_host w')) = dom (h_mem (w_host demo_world)).
Proof.
  assert (exists w' : World SimK unit, rtc region_step (∅, demo_world) (∅, w') /\
            length (h_trace (w_host w')) = 5%nat) as (w' & Hs & Hn).
  { eexists. split.
    - eapply rtc_l; [eapply (rs_create _ _ 0%nat 4 0 0 16 0); vm_compute; reflexivity|].
      eapply rtc_l; [eapply (rs_move _ _ 1%nat 0%nat); vm_compute; reflexivity|].
      eapply rtc_l; [eapply (rs_destroy _ _ 0%nat); vm_compute; reflexivity|].
      eapply rtc_l; [eapply (rs_destroy _ _ 1%nat); vm_compute; reflexivity|].
      match goal with |- rtc _ (?s, _) _ => replace s with (∅ : gmap nat MemoryRegion) end;
        [apply rtc_refl | vm_compute; reflexivity].
    - vm_compute. reflexivity. }
  exists w'. split; [exact Hs|]. split; [exact Hn|].
  refine (proj2 (proj2 (region_ownership demo_world ∅ w' _ Hs)) eq_refl).
  cbn. intros a Ha. apply lookup_singleton_is_Some in Ha as <-. done.
Defined.
