(* ===== verification/Vcpu.v ===== *)
(** * The vCPU wrapper (VCpu.h, VCpu.cpp)

    A [VCpu] owns a descriptor and the mapping of its [kvm_run] page, which is
    read at the offsets of the KVM ABI ([field] in Host). *)

From S2P Require Import Prelude Host SimKvm.
From stdpp Require Import base list gmap strings.
From Stdlib Require Import ZArith Lia.
Open Scope Z_scope.
Open Scope hv_scope.

(** ** Exit reasons; [RawExit] is a value of the enumeration's underlying type
    that no enumerator names. *)

Inductive ExitReason :=
| Unknown | Io | Hypercall | Debug | Hlt | Mmio | IrqWindowOpen | Shutdown
| FailEntry | Intr | SetTpr | TprAccess | S390Sieic | S390Reset | Dcr | Nmi
| InternalError | Osi | PaprHcall | SystemEvent
| RawExit (z : Z).

#[export] Instance ExitReason_eq_dec : EqDecision ExitReason.
Proof. solve_decision. Defined.

(** [static_cast<ExitReason>] of the [exit_reason] word. *)
Definition ExitReason_of (z : Z) : ExitReason :=
  match z with
  | 0 => Unknown | 2 => Io | 3 => Hypercall | 4 => Debug | 5 => Hlt | 6 => Mmio
  | 7 => IrqWindowOpen | 8 => Shutdown | 9 => FailEntry | 10 => Intr
  | 11 => SetTpr | 12 => TprAccess | 13 => S390Sieic | 14 => S390Reset
  | 15 => Dcr | 16 => Nmi | 17 => InternalError | 18 => Osi | 19 => PaprHcall
  | 24 => SystemEvent
  | _ => RawExit z
  end.

(** ** CPUID table entries *)

Record kvm_cpuid_entry2 := mk_cpuid_entry2 {
  e_function : Z; e_index : Z; e_flags : Z;
  e_eax : Z; e_ebx : Z; e_ecx : Z; e_edx : Z; e_padding : Z * Z * Z }.

Definition cpuid_entry_words (e : kvm_cpuid_entry2) : list Z :=
  let '(p0, p1, p2) := e_padding e in
  [e_function e; e_index e; e_flags e; e_eax e; e_ebx e; e_ecx e; e_edx e; p0; p1; p2].

(** The 40 bytes of an entry in memory. *)
Definition cpuid_entry_bytes (e : kvm_cpuid_entry2) : list Z :=
  concat (map (le_encode 4) (cpuid_entry_words e)).

Definition sizeof_kvm_cpuid2 : Z := 8.
Definition sizeof_kvm_cpuid_entry2 : Z := 40.

(** The buffer [installCpuid] builds: zeroed, the entry count at 0, the entries
    copied after the 8-byte header. *)
Definition cpuid2_buffer (entries : list kvm_cpuid_entry2) : list Z :=
  let n := Z.of_nat (length entries) in
  let size := sizeof_kvm_cpuid2 + n * sizeof_kvm_cpuid_entry2 in
  let buf := replicate (Z.to_nat size) 0 in
  let buf := splice 0 (le_encode 4 (u32 n)) buf in
  splice (Z.to_nat sizeof_kvm_cpuid2) (concat (map cpuid_entry_bytes entries)) buf.

(** ** The class *)

Record VCpu := mk_VCpu {
  vc_fd : Z;
  vc_id : Z;
  vc_runPage : Z;
  vc_mmapSize : Z }.

Definition VCpu_new (fd id run_page mmap_size : Z) : VCpu := mk_VCpu fd id run_page mmap_size.

Section VCpuModel.

Context {K : Type} `{Kernel K} {E : Type}.

Definition VCpu_create (vm_fd vcpu_id mmap_size : Z) : M (World K E) (expected VCpu) :=
  let* (fd, _) := ioctl vm_fd (KVM_CREATE_VCPU vcpu_id) in
  if fd <? 0 then
    let* e := errno in ret (Unexpected e)
  else
    let* run_page := sys_mmap (u64 mmap_size) fd in
    if run_page =? MAP_FAILED then
      let* err := errno in
      sys_close fd ;;;
      ret (Unexpected err)
    else
      ret (Value (VCpu_new fd vcpu_id run_page (u64 mmap_size))).

Definition VCpu_release (v : VCpu) : M (World K E) unit :=
  (if negb (vc_runPage v =? nullptr) && negb (vc_runPage v =? MAP_FAILED)
   then sys_munmap (vc_runPage v) (vc_mmapSize v) else ret tt) ;;;
  (if 0 <=? vc_fd v then sys_close (vc_fd v) else ret tt).

Definition VCpu_destroy (v : VCpu) : M (World K E) unit := VCpu_release v.

Definition VCpu_move (other : VCpu) : VCpu * VCpu :=
  (mk_VCpu (vc_fd other) (vc_id other) (vc_runPage other) (vc_mmapSize other),
   mk_VCpu (-1) (vc_id other) nullptr (vc_mmapSize other)).

Definition VCpu_assign (same : bool) (this other : VCpu) : M (World K E) (VCpu * VCpu) :=
  if same then ret (this, other)
  else
    VCpu_release this ;;;
    ret (VCpu_move other).

(** The structure behind a [kvm_run*]. *)
Definition kvm_run_at (run : Z) : M (World K E) (list Z) :=
  let* page := block_at run in
  if kvm_run_header <=? Z.of_nat (length page) then ret page else fail OutOfBounds.

Definition VCpu_run (v : VCpu) : M (World K E) (expected ExitReason) :=
  let* r := ioctl_run (vc_fd v) in
  if r <? 0 then
    let* e := errno in
    if e =? EINTR then ret (Value Intr)
    else let* e' := errno in ret (Unexpected e')
  else
    let* page := kvm_run_at (vc_runPage v) in
    ret (Value (ExitReason_of (run_exit_reason page))).

Definition VCpu_getRegs (v : VCpu) : M (World K E) (expected kvm_regs) :=
  let* (r, o) := ioctl (vc_fd v) KVM_GET_REGS in
  if r <? 0 then let* e := errno in ret (Unexpected e)
  else ret (Value (match o with OutRegs regs => regs | _ => zero_regs end)).

Definition VCpu_setRegs (v : VCpu) (regs : kvm_regs) : M (World K E) Z :=
  let* (r, _) := ioctl (vc_fd v) (KVM_SET_REGS regs) in
  if r <? 0 then errno else ret 0.

Definition VCpu_getSregs (v : VCpu) : M (World K E) (expected kvm_sregs) :=
  let* (r, o) := ioctl (vc_fd v) KVM_GET_SREGS in
  if r <? 0 then let* e := errno in ret (Unexpected e)
  else ret (Value (match o with OutSregs sregs => sregs | _ => zero_sregs end)).

Definition VCpu_setSregs (v : VCpu) (sregs : kvm_sregs) : M (World K E) Z :=
  let* (r, _) := ioctl (vc_fd v) (KVM_SET_SREGS sregs) in
  if r <? 0 then errno else ret 0.

Definition VCpu_setSingleStep (v : VCpu) (enable : bool) : M (World K E) Z :=
  let control :=
    if enable then Z.lor KVM_GUESTDBG_ENABLE KVM_GUESTDBG_SINGLESTEP else 0 in
  let* (r, _) := ioctl (vc_fd v) (KVM_SET_GUEST_DEBUG control) in
  if r <? 0 then errno else ret 0.

Definition VCpu_installCpuid (v : VCpu) (entries : list kvm_cpuid_entry2) : M (World K E) Z :=
  let* (r, _) := ioctl (vc_fd v) (KVM_SET_CPUID2 (cpuid2_buffer entries)) in
  if r <? 0 then errno else ret 0.

Definition VCpu_kvmRun (v : VCpu) : Z := vc_runPage v.
Definition VCpu_fd_of (v : VCpu) : Z := vc_fd v.
Definition VCpu_id_of (v : VCpu) : Z := vc_id v.

(** [page_at run page w]: [run] points to a readable [kvm_run] page. *)
Definition page_at (run : Z) (page : list Z) (w : World K E) : Prop :=
  run <> nullptr /\ h_mem (w_host w) !! run = Some page /\ page_ok page.

Lemma kvm_run_at_ok run page w : page_at run page w -> kvm_run_at run w = Ok (page, w).
Proof.
  intros (Hn & Hp & _ & Hl). unfold kvm_run_at, bind, block_at.
  rewrite (proj2 (Z.eqb_neq _ _) Hn), Hp. by rewrite (proj2 (Z.leb_le _ _) Hl).
Qed.

(** The world after the page behind [run] has been replaced. *)
Definition with_page (run : Z) (page : list Z) (w : World K E) : World K E :=
  on_host (fun h => set_mem (<[run := page]> (h_mem h)) h) w.

Lemma page_at_with run page page' w :
  page_at run page w -> page_ok page' -> page_at run page' (with_page run page' w).
Proof. intros (Hn & _) Hp. split; [done|]. split; [|done]. cbn. by rewrite lookup_insert_eq. Qed.

(** ** Register access under the laws *)

(** The world after a call that changes nothing but the trace. *)
Definition traced (c : syscall) (w : World K E) : World K E := on_host (log_call c) w.

Context `{!KvmLaws K}.

Lemma getRegs_ok v r w :
  k_regs (h_kern (w_host w)) (vc_fd v) = Some r ->
  VCpu_getRegs v w = Ok (Value r, traced (Sys_ioctl (vc_fd v) KVM_GET_REGS) w).
Proof.
  intros Hr. unfold VCpu_getRegs, ioctl, bind, do_syscall.
  rewrite (law_get_regs _ _ _ Hr). cbn. unfold traced, on_host, finish, log_call.
  by destruct w as [[]].
Qed.

Lemma getSregs_ok v s w :
  k_sregs (h_kern (w_host w)) (vc_fd v) = Some s ->
  VCpu_getSregs v w = Ok (Value s, traced (Sys_ioctl (vc_fd v) KVM_GET_SREGS) w).
Proof.
  intros Hr. unfold VCpu_getSregs, ioctl, bind, do_syscall.
  rewrite (law_get_sregs _ _ _ Hr). cbn. unfold traced, on_host, finish, log_call.
  by destruct w as [[]].
Qed.

Lemma setRegs_ok v r w :
  is_Some (k_regs (h_kern (w_host w)) (vc_fd v)) -> canonical_regs r ->
  exists k', VCpu_setRegs v r w =
      Ok (0, traced (Sys_ioctl (vc_fd v) (KVM_SET_REGS r)) (on_host (set_kern k') w)) /\
    k_regs k' (vc_fd v) = Some r /\
    k_sregs k' (vc_fd v) = k_sregs (h_kern (w_host w)) (vc_fd v).
Proof.
  intros Hs Hc. destruct (law_set_regs _ _ _ Hs Hc) as (k' & Hk & ? & ?).
  exists k'. split; [|done]. unfold VCpu_setRegs, ioctl, bind, do_syscall.
  by rewrite Hk.
Qed.

Lemma setSregs_ok v s w :
  is_Some (k_sregs (h_kern (w_host w)) (vc_fd v)) -> k_valid_sregs s ->
  exists k', VCpu_setSregs v s w =
      Ok (0, traced (Sys_ioctl (vc_fd v) (KVM_SET_SREGS s)) (on_host (set_kern k') w)) /\
    k_sregs k' (vc_fd v) = Some s /\
    k_regs k' (vc_fd v) = k_regs (h_kern (w_host w)) (vc_fd v).
Proof.
  intros Hs Hc. destruct (law_set_sregs _ _ _ Hs Hc) as (k' & Hk & ? & ?).
  exists k'. split; [|done]. unfold VCpu_setSregs, ioctl, bind, do_syscall.
  by rewrite Hk.
Qed.

End VCpuModel.

Lemma idle_page {K} `{Kernel K} {E} run : idle (K := K) (E := E) (kvm_run_at run).
Proof. apply idle_bind; [apply idle_block|]. intros l. destruct (_ <=? _); [apply idle_ret|apply idle_fail]. Qed.

#[export] Hint Resolve idle_page : idle.

(** ** What the kernel reads from the CPUID buffer

    KVM_SET_CPUID2 takes the count from the header and then that many 40-byte
    entries of ten 32-bit words. *)

Fixpoint words4 (n : nat) (bs : list Z) : list Z :=
  match n with
  | O => []
  | S n' => le_decode (take 4 bs) :: words4 n' (drop 4 bs)
  end.

Definition entry_of_words (ws : list Z) : option kvm_cpuid_entry2 :=
  match ws with
  | [f; i; fl; a; b; c; d; p0; p1; p2] => Some (mk_cpuid_entry2 f i fl a b c d (p0, p1, p2))
  | _ => None
  end.

Fixpoint decode_entries (n : nat) (bs : list Z) : option (list kvm_cpuid_entry2) :=
  match n with
  | O => Some []
  | S n' =>
      match entry_of_words (words4 10 bs), decode_entries n' (drop 40 bs) with
      | Some e, Some es => Some (e :: es)
      | _, _ => None
      end
  end.

Definition cpuid2_decode (buf : list Z) : option (list kvm_cpuid_entry2) :=
  decode_entries (Z.to_nat (field 0 4 buf)) (drop 8 buf).

Definition entry_ok (e : kvm_cpuid_entry2) : Prop := Forall is_u32 (cpuid_entry_words e).

Lemma words4_concat ws rest :
  Forall is_u32 ws ->
  words4 (length ws) (concat (map (le_encode 4) ws) ++ rest) = ws.
Proof.
  induction 1 as [|x ws Hx _ IH]; [done|].
  cbn [map concat length words4]. rewrite <-app_assoc.
  rewrite take_app_length', drop_app_length' by (by rewrite length_le_encode).
  rewrite IH, le_decode_encode. f_equal. by apply u32_small.
Qed.

Lemma length_cpuid_entry_bytes e : length (cpuid_entry_bytes e) = 40%nat.
Proof.
  unfold cpuid_entry_bytes, cpuid_entry_words. destruct (e_padding e) as [[??]?].
  cbn [map concat]. by rewrite !length_app, !length_le_encode.
Qed.

Lemma length_entries es :
  length (concat (map cpuid_entry_bytes es)) = (40 * length es)%nat.
Proof.
  induction es as [|e es IH]; [done|].
  cbn [map concat length]. rewrite length_app, length_cpuid_entry_bytes, IH. lia.
Qed.

Lemma decode_entries_concat es :
  Forall entry_ok es ->
  decode_entries (length es) (concat (map cpuid_entry_bytes es)) = Some es.
Proof.
  induction 1 as [|e es He _ IH]; [done|]. cbn [map concat length decode_entries].
  rewrite drop_app_length' by (by rewrite length_cpuid_entry_bytes). rewrite IH.
  assert (length (cpuid_entry_words e) = 10%nat) as Hn.
  { unfold cpuid_entry_words. by destruct (e_padding e) as [[??]?]. }
  unfold cpuid_entry_bytes. rewrite <-Hn at 1. rewrite (words4_concat _ _ He).
  unfold cpuid_entry_words. destruct e as [??????? [[??]?]]. done.
Qed.

Lemma cpuid2_buffer_shape es :
  cpuid2_buffer es =
  le_encode 4 (u32 (Z.of_nat (length es))) ++ replicate 4 0 ++ concat (map cpuid_entry_bytes es).
Proof.
  unfold cpuid2_buffer, sizeof_kvm_cpuid2, sizeof_kvm_cpuid_entry2.
  set (body := concat _). assert (length body = (40 * length es)%nat) as Hb by apply length_entries.
  replace (Z.to_nat (8 + Z.of_nat (length es) * 40)) with (8 + length body)%nat by lia.
  unfold splice at 2. rewrite take_0, length_le_encode. cbn [app Nat.add].
  rewrite drop_replicate. unfold splice. change (Z.to_nat 8) with 8%nat.
  rewrite take_app_ge, drop_app_ge by (rewrite length_le_encode; lia).
  rewrite length_le_encode, take_replicate, drop_replicate.
  replace (S (S (S (S (S (S (S (S (length body)))))))) - 4 - (8 + length body - 4))%nat
    with 0%nat by lia.
  rewrite app_nil_r, <-app_assoc. by do 2 f_equal.
Qed.

(** C26. The buffer [installCpuid] passes to KVM_SET_CPUID2 decodes, the way
    the kernel reads it, to exactly the table it was given, entry for entry. *)
Theorem installCpuid_table (es : list kvm_cpuid_entry2) :
  Forall entry_ok es -> Z.of_nat (length es) < 2 ^ 32 ->
  cpuid2_decode (cpuid2_buffer es) = Some es.
Proof.
  intros Hes Hn. unfold cpuid2_decode. rewrite cpuid2_buffer_shape.
  unfold field, slice. rewrite drop_0, take_app_length' by (by rewrite length_le_encode).
  rewrite le_decode_encode.
  rewrite app_assoc, drop_app_length' by (rewrite length_app, length_le_encode; done).
  rewrite (u32_small (Z.of_nat _)) by (unfold is_u32; lia).
  rewrite Z.mod_small, Nat2Z.id by lia. by apply decode_entries_concat.
Qed.

Lemma installCpuid_table_witness :
  let e := mk_cpuid_entry2 1 0 0 10 20 30 40 (0, 0, 0) in
  cpuid2_decode (cpuid2_buffer [e; e]) = Some [e; e].
Proof.
  intros e. apply (installCpuid_table [e; e]); [|done].
  repeat constructor; done.
Defined.
