(* ===== verification/PortIo.v ===== *)
(** * Port I/O exits (IoPortHandler.h, IoPortHandler.cpp) *)

From S2P Require Import Prelude Host SimKvm Vcpu.
From stdpp Require Import base list gmap strings.
From Stdlib Require Import ZArith Lia.
Open Scope Z_scope.
Open Scope hv_scope.

Record InContext := mk_InContext { ic_port : Z; ic_size : Z; ic_count : Z }.
Record OutContext := mk_OutContext { oc_port : Z; oc_size : Z; oc_value : Z; oc_count : Z }.

(** [std::function] callbacks run in the world they capture. *)
Abbreviation InCallback K E := (InContext -> M (World K E) Z).
Abbreviation OutCallback K E := (OutContext -> M (World K E) unit).

Record IoPortHandler (K E : Type) := mk_IoPortHandler {
  io_inCallbacks : gmap Z (InCallback K E);
  io_outCallbacks : gmap Z (OutCallback K E);
  io_inCount : Z;
  io_outCount : Z }.
Arguments mk_IoPortHandler {K E} _ _ _ _.
Arguments io_inCallbacks {K E} _.
Arguments io_outCallbacks {K E} _.
Arguments io_inCount {K E} _.
Arguments io_outCount {K E} _.

Section IoPortModel.

Context {K : Type} `{Kernel K} {E : Type}.
Implicit Types (h : IoPortHandler K E) (w : World K E).

Definition IoPortHandler_new : IoPortHandler K E := mk_IoPortHandler ∅ ∅ 0 0.

Definition registerInPort (port : Z) (cb : InCallback K E) h : IoPortHandler K E :=
  mk_IoPortHandler (<[port := cb]> (io_inCallbacks h)) (io_outCallbacks h)
                   (io_inCount h) (io_outCount h).

Definition registerOutPort (port : Z) (cb : OutCallback K E) h : IoPortHandler K E :=
  mk_IoPortHandler (io_inCallbacks h) (<[port := cb]> (io_outCallbacks h))
                   (io_inCount h) (io_outCount h).

Definition io_count_out h : IoPortHandler K E :=
  mk_IoPortHandler (io_inCallbacks h) (io_outCallbacks h)
                   (io_inCount h) (u64 (io_outCount h + 1)).

Definition io_count_in h : IoPortHandler K E :=
  mk_IoPortHandler (io_inCallbacks h) (io_outCallbacks h)
                   (u64 (io_inCount h + 1)) (io_outCount h).

(** The callback of an OUT port, if there is one. *)
Definition run_out h (port : Z) (ctx : OutContext) : M (World K E) unit :=
  match io_outCallbacks h !! port with
  | Some cb => cb ctx
  | None => ret tt
  end.

(** The value an IN port delivers: the callback's, or all ones. *)
Definition run_in h (port : Z) (ctx : InContext) : M (World K E) Z :=
  match io_inCallbacks h !! port with
  | Some cb => let* v := cb ctx in ret (u32 v)
  | None => ret 0xFFFFFFFF
  end.

Definition IoPortHandler_handle h (vcpu : VCpu) (run : Z)
  : M (World K E) (bool * IoPortHandler K E) :=
  let* page := kvm_run_at run in
  let port := io_port page in
  let size := io_size page in
  let count := io_count page in
  if io_direction page =? KVM_EXIT_IO_OUT then
    let* data := lift (load_bytes page (io_data_offset page) (Z.min size 4)) in
    let value := le_decode data in
    run_out h port (mk_OutContext port size value count) ;;;
    ret (true, io_count_out h)
  else
    let* result := run_in h port (mk_InContext port size count) in
    let* page' := kvm_run_at run in
    mem_store run (io_data_offset page') (take (Z.to_nat (Z.min size 4)) (le_encode 4 result)) ;;;
    ret (true, io_count_in h).

Definition inCount h : Z := io_inCount h.
Definition outCount h : Z := io_outCount h.

(** ** The operand in the data area of a page *)

Definition io_operand (page : list Z) : list Z :=
  slice (Z.to_nat (io_data_offset page)) (Z.to_nat (io_width page)) page.

Lemma io_width_range page : page_ok page -> 0 <= io_width page <= 4.
Proof. intros [Hb _]. pose proof (field_bound 33 1 page Hb). unfold io_width, io_size. lia. Qed.

(** The page after an IN delivered [v]. *)
Definition io_deliver (page : list Z) (v : Z) : list Z :=
  splice (Z.to_nat (io_data_offset page)) (le_encode (Z.to_nat (io_width page)) v) page.

Lemma io_deliver_facts page v :
  page_ok page -> io_data_ok page ->
  length (io_deliver page v) = length page /\ page_ok (io_deliver page v) /\
  (forall off n, (off + n <= 288)%nat -> field off n (io_deliver page v) = field off n page) /\
  io_operand (io_deliver page v) = le_encode (Z.to_nat (io_width page)) v /\
  (forall i, (i < Z.to_nat (io_data_offset page) \/
              Z.to_nat (io_data_offset page + io_width page) <= i)%nat ->
     io_deliver page v !! i = page !! i).
Proof.
  intros Hp [Hlo Hhi]. pose proof (io_width_range page Hp) as Hw.
  unfold kvm_run_header in *.
  assert (length (io_deliver page v) = length page) as Hlen.
  { unfold io_deliver. apply length_splice. rewrite length_le_encode. lia. }
  assert (forall off n, (off + n <= 288)%nat ->
            field off n (io_deliver page v) = field off n page) as Hf.
  { intros off n Hn. apply field_splice; rewrite length_le_encode; lia. }
  split; [exact Hlen|]. split; [|split; [exact Hf|split]].
  - destruct Hp as [Hb Hl]. split; [|by rewrite Hlen].
    apply Forall_splice; [apply le_encode_bytes | done].
  - unfold io_operand, io_width, io_size, io_data_offset in *. rewrite !Hf by lia.
    apply slice_splice_eq'; [by rewrite length_le_encode | unfold io_data_offset, field in *; lia].
  - intros i [Hi|Hi]; unfold io_deliver.
    + apply lookup_splice_lt; rewrite ?length_le_encode; lia.
    + apply lookup_splice_ge; rewrite ?length_le_encode; lia.
Qed.

(** The whole handler on an OUT exit. *)
Lemma handle_out h vcpu run page w :
  page_at run page w -> io_data_ok page -> io_direction page = KVM_EXIT_IO_OUT ->
  IoPortHandler_handle h vcpu run w =
  bind (run_out h (io_port page)
          (mk_OutContext (io_port page) (io_size page) (le_decode (io_operand page)) (io_count page)))
       (fun _ => ret (true, io_count_out h)) w.
Proof.
  intros Hp [Hlo Hhi] Hd. pose proof (io_width_range page (proj2 (proj2 Hp))).
  unfold IoPortHandler_handle. rewrite (bind_Ok _ _ _ _ _ (kvm_run_at_ok _ _ _ Hp)), Hd.
  cbn [Z.eqb KVM_EXIT_IO_OUT Pos.eqb]. unfold io_width, kvm_run_header in *.
  rewrite load_bytes_ok by lia. reflexivity.
Qed.

(** The whole handler on an IN exit whose callback leaves the page alone. *)
Lemma handle_in h vcpu run page v w w1 :
  page_at run page w -> io_data_ok page -> io_direction page <> KVM_EXIT_IO_OUT ->
  run_in h (io_port page) (mk_InContext (io_port page) (io_size page) (io_count page)) w
    = Ok (v, w1) ->
  page_at run page w1 ->
  IoPortHandler_handle h vcpu run w =
  Ok ((true, io_count_in h), with_page run (io_deliver page v) w1).
Proof.
  intros Hp [Hlo Hhi] Hd Hv Hp1. pose proof (io_width_range page (proj2 (proj2 Hp))).
  unfold IoPortHandler_handle. rewrite (bind_Ok _ _ _ _ _ (kvm_run_at_ok _ _ _ Hp)).
  rewrite (proj2 (Z.eqb_neq _ _) Hd), (bind_Ok _ _ _ _ _ Hv).
  rewrite (bind_Ok _ _ _ _ _ (kvm_run_at_ok _ _ _ Hp1)).
  unfold io_width, kvm_run_header in *. rewrite take_le_encode by lia.
  unfold bind. rewrite (mem_store_ok _ page) by (rewrite ?length_le_encode; solve [apply Hp1 | lia]).
  reflexivity.
Qed.

End IoPortModel.

Lemma le_encode_ones n : (n <= 4)%nat -> le_encode n 0xFFFFFFFF = replicate n 255.
Proof. intros Hn. do 5 (destruct n as [|n]; [reflexivity|]). lia. Qed.

(** ** Properties *)

(** C27. On an IN exit the handler succeeds and counts one IN; the value of the
    port (the callback's, or all ones when none is registered) lands in the
    operand of the page, truncated to the operand's width, and no other byte of
    the page changes. *)
Theorem io_in_delivers {K} `{Kernel K} {E} (h : IoPortHandler K E) vcpu run page v w w1 :
  page_at run page w -> io_data_ok page -> io_direction page <> KVM_EXIT_IO_OUT ->
  run_in h (io_port page) (mk_InContext (io_port page) (io_size page) (io_count page)) w
    = Ok (v, w1) ->
  page_at run page w1 ->
  exists page' h', IoPortHandler_handle h vcpu run w = Ok ((true, h'), with_page run page' w1) /\
    inCount h' = u64 (inCount h + 1) /\ outCount h' = outCount h /\
    le_decode (io_operand page') = v mod 256 ^ io_width page /\
    (io_inCallbacks h !! io_port page = None ->
       w1 = w /\ io_operand page' = replicate (Z.to_nat (io_width page)) 255) /\
    (forall i, (i < Z.to_nat (io_data_offset page) \/
                Z.to_nat (io_data_offset page + io_width page) <= i)%nat ->
       page' !! i = page !! i).
Proof.
  intros Hp Hd Hdir Hv Hp1. pose proof (io_width_range page (proj2 (proj2 Hp))) as Hw.
  destruct (io_deliver_facts page v (proj2 (proj2 Hp)) Hd) as (_ & _ & _ & Hop & Hout).
  exists (io_deliver page v), (io_count_in h).
  split; [by apply handle_in|]. split; [done|]. split; [done|]. split.
  { by rewrite Hop, le_decode_encode, Z2Nat.id by lia. }
  split; [|exact Hout]. intros Hnone. unfold run_in in Hv. rewrite Hnone in Hv.
  injection Hv as <- <-. split; [done|]. rewrite Hop. apply le_encode_ones. lia.
Qed.

(** A one-byte IN from port 0x60 with the keyboard callback of the demo. *)
Definition io_page_in : list Z :=
  replicate 8 0 ++ le_encode 4 2 ++ replicate 20 0 ++
  [0; 1] ++ le_encode 2 0x60 ++ le_encode 4 1 ++ le_encode 8 288 ++ replicate 240 0 ++ [7; 8; 9].

Definition io_demo : IoPortHandler SimK unit :=
  registerInPort 0x60 (fun _ => ret 0x1A) IoPortHandler_new.

Definition io_demo_world (page : list Z) : World SimK unit :=
  sim_world (sim_vcpu []) {[8192 := page]} tt.

Lemma io_page_in_ok : page_ok io_page_in.
Proof. split; [by apply bytesb_ok; vm_compute | done]. Qed.

Lemma io_demo_page_at page : page_ok page -> page_at 8192 page (io_demo_world page).
Proof. intros Hp. split; [done|]. split; [|done]. cbn. by rewrite lookup_singleton_eq. Qed.

Definition demo_vcpu : VCpu := mk_VCpu 5 0 8192 512.

Lemma io_in_delivers_witness :
  exists page' h', IoPortHandler_handle io_demo demo_vcpu 8192 (io_demo_world io_page_in)
      = Ok ((true, h'), with_page 8192 page' (io_demo_world io_page_in)) /\
    inCount h' = 1 /\ le_decode (io_operand page') = 0x1A.
Proof.
  destruct (io_in_delivers io_demo demo_vcpu 8192 io_page_in 0x1A
              (io_demo_world io_page_in) (io_demo_world io_page_in))
    as (page' & h' & Hh & Hin & _ & Hop & _).
  - apply io_demo_page_at, io_page_in_ok.
  - split; vm_compute; discriminate.
  - vm_compute; discriminate.
  - vm_compute; reflexivity.
  - apply io_demo_page_at, io_page_in_ok.
  - exists page', h'. split; [exact Hh|]. split; [exact Hin|].
    rewrite Hop. vm_compute. reflexivity.
Defined.

(** A string IN (REP INS) with several elements only gets its first
    element: every byte of the later elements of the data area is left as it
    was when the guest exited. *)
Lemma io_in_rep_first_only {K} `{Kernel K} {E} (h : IoPortHandler K E) vcpu run page v w w1 j :
  page_at run page w -> io_direction page <> KVM_EXIT_IO_OUT ->
  kvm_run_header <= io_data_offset page ->
  io_data_offset page + io_size page * io_count page <= Z.of_nat (length page) ->
  io_size page <= j < io_size page * io_count page ->
  run_in h (io_port page) (mk_InContext (io_port page) (io_size page) (io_count page)) w
    = Ok (v, w1) ->
  page_at run page w1 ->
  exists page' h', IoPortHandler_handle h vcpu run w = Ok ((true, h'), with_page run page' w1) /\
    page' !! Z.to_nat (io_data_offset page + j) = page !! Z.to_nat (io_data_offset page + j).
Proof.
  intros Hp Hdir Hlo Hhi Hj Hv Hp1.
  pose proof (io_width_range page (proj2 (proj2 Hp))) as Hw.
  assert (io_width page <= io_size page) by (unfold io_width; lia).
  assert (io_data_ok page) as Hd by (split; lia).
  destruct (io_deliver_facts page v (proj2 (proj2 Hp)) Hd) as (_ & _ & _ & _ & Hout).
  exists (io_deliver page v), (io_count_in h). split; [by apply handle_in|].
  apply Hout. right. lia.
Qed.

(** REP INSB of three bytes: the second byte keeps the value 8. *)
Definition io_page_rep : list Z := splice 36 (le_encode 4 3) io_page_in.

Lemma io_in_rep_first_only_witness :
  exists page' h', IoPortHandler_handle io_demo demo_vcpu 8192 (io_demo_world io_page_rep)
      = Ok ((true, h'), with_page 8192 page' (io_demo_world io_page_rep)) /\
    page' !! 289%nat = Some 8.
Proof.
  assert (page_ok io_page_rep) as Hok
    by (split; [apply bytesb_ok; vm_compute; reflexivity | vm_compute; discriminate]).
  destruct (io_in_rep_first_only io_demo demo_vcpu 8192 io_page_rep 0x1A
              (io_demo_world io_page_rep) (io_demo_world io_page_rep) 1)
    as (page' & h' & Hh & Hop).
  - by apply io_demo_page_at.
  - vm_compute; discriminate.
  - vm_compute; discriminate.
  - vm_compute; discriminate.
  - split; [vm_compute; discriminate | vm_compute; reflexivity].
  - vm_compute; reflexivity.
  - by apply io_demo_page_at.
  - exists page', h'. split; [exact Hh|]. exact Hop.
Defined.

(** C28. On an OUT exit whose operand holds [x], the handler passes [x] to the
    port's callback, once, before anything else; without a callback the value
    is dropped; either way it reports success and counts one OUT. *)
Theorem io_out_decodes {K} `{Kernel K} {E} (h : IoPortHandler K E) vcpu run page x w :
  page_at run page w -> io_data_ok page -> io_direction page = KVM_EXIT_IO_OUT ->
  io_operand page = le_encode (Z.to_nat (io_width page)) x -> 0 <= x < 256 ^ io_width page ->
  IoPortHandler_handle h vcpu run w =
    match io_outCallbacks h !! io_port page with
    | Some cb =>
        match cb (mk_OutContext (io_port page) (io_size page) x (io_count page)) w with
        | Ok (_, w1) => Ok ((true, io_count_out h), w1)
        | Fault f => Fault f
        end
    | None => Ok ((true, io_count_out h), w)
    end /\
  outCount (io_count_out h) = u64 (outCount h + 1) /\ inCount (io_count_out h) = inCount h.
Proof.
  intros Hp Hd Hdir Hop Hx. pose proof (io_width_range page (proj2 (proj2 Hp))) as Hw.
  split; [|done]. rewrite (handle_out _ _ _ _ _ Hp Hd Hdir), Hop, le_decode_encode.
  rewrite Z2Nat.id, Z.mod_small by lia. unfold bind, run_out.
  by destruct (io_outCallbacks h !! io_port page).
Qed.

(** OUT 0x80, AX with AX = 0x0908. *)
Definition io_page_out : list Z :=
  splice 32 ([1; 2] ++ le_encode 2 0x80) (splice 288 (le_encode 2 0x0908) io_page_in).

Lemma io_out_decodes_witness :
  IoPortHandler_handle (E := Z)
    (registerOutPort 0x80 (fun ctx w => Ok (tt, mk_world (w_host w) (oc_value ctx)))
       IoPortHandler_new) demo_vcpu 8192 (sim_world (sim_vcpu []) {[8192 := io_page_out]} 0) =
  Ok ((true, io_count_out (registerOutPort 0x80
                (fun ctx w => Ok (tt, mk_world (w_host w) (oc_value ctx))) IoPortHandler_new)),
      sim_world (sim_vcpu []) {[8192 := io_page_out]} 0x0908).
Proof.
  refine (proj1 (io_out_decodes _ demo_vcpu 8192 io_page_out 0x0908 _ _ _ _ _ _)).
  - split; [done|]. split; [apply lookup_singleton_eq|].
    split; [apply bytesb_ok; vm_compute; reflexivity | vm_compute; discriminate].
  - split; vm_compute; discriminate.
  - vm_compute; reflexivity.
  - vm_compute; reflexivity.
  - split; [vm_compute; discriminate | vm_compute; reflexivity].
Defined.
