(* ===== verification/MmioDev.v ===== *)
(** * Memory-mapped I/O exits (MmioHandler.h, MmioHandler.cpp) *)

From S2P Require Import Prelude Host SimKvm Vcpu.
From stdpp Require Import base list gmap strings.
From Stdlib Require Import ZArith Lia.
Open Scope Z_scope.
Open Scope hv_scope.

Record ReadContext := mk_ReadContext { rc_addr : Z; rc_size : Z }.
Record WriteContext := mk_WriteContext { wc_addr : Z; wc_size : Z; wc_value : Z }.

Abbreviation MmioReadCallback K E := (ReadContext -> M (World K E) Z).
Abbreviation MmioWriteCallback K E := (WriteContext -> M (World K E) unit).

Record MmioHandler (K E : Type) := mk_MmioHandler {
  mm_readCallbacks : gmap Z (MmioReadCallback K E);
  mm_writeCallbacks : gmap Z (MmioWriteCallback K E);
  mm_readCount : Z;
  mm_writeCount : Z }.
Arguments mk_MmioHandler {K E} _ _ _ _.
Arguments mm_readCallbacks {K E} _.
Arguments mm_writeCallbacks {K E} _.
Arguments mm_readCount {K E} _.
Arguments mm_writeCount {K E} _.

Section MmioModel.

Context {K : Type} `{Kernel K} {E : Type}.
Implicit Types (h : MmioHandler K E) (w : World K E).

Definition MmioHandler_new : MmioHandler K E := mk_MmioHandler ∅ ∅ 0 0.

Definition MmioHandler_registerRead (addr : Z) (cb : MmioReadCallback K E) h : MmioHandler K E :=
  mk_MmioHandler (<[addr := cb]> (mm_readCallbacks h)) (mm_writeCallbacks h)
                 (mm_readCount h) (mm_writeCount h).

Definition MmioHandler_registerWrite (addr : Z) (cb : MmioWriteCallback K E) h : MmioHandler K E :=
  mk_MmioHandler (mm_readCallbacks h) (<[addr := cb]> (mm_writeCallbacks h))
                 (mm_readCount h) (mm_writeCount h).

Definition mmio_count_write h : MmioHandler K E :=
  mk_MmioHandler (mm_readCallbacks h) (mm_writeCallbacks h)
                 (mm_readCount h) (u64 (mm_writeCount h + 1)).

Definition mmio_count_read h : MmioHandler K E :=
  mk_MmioHandler (mm_readCallbacks h) (mm_writeCallbacks h)
                 (u64 (mm_readCount h + 1)) (mm_writeCount h).

Definition run_mmio_write h (ctx : WriteContext) : M (World K E) unit :=
  match mm_writeCallbacks h !! wc_addr ctx with
  | Some cb => cb ctx
  | None => ret tt
  end.

Definition run_mmio_read h (ctx : ReadContext) : M (World K E) Z :=
  match mm_readCallbacks h !! rc_addr ctx with
  | Some cb => let* v := cb ctx in ret (u64 v)
  | None => ret 0xFFFFFFFFFFFFFFFF
  end.

(** [len] is a 32-bit field that the handler narrows to [uint8_t]. *)
Definition MmioHandler_handle h (run : Z) : M (World K E) (bool * MmioHandler K E) :=
  let* page := kvm_run_at run in
  let addr := mmio_phys_addr page in
  let size := u8 (mmio_len page) in
  if (size =? 0) || (8 <? size) then ret (false, h)
  else if negb (mmio_is_write page =? 0) then
    let* data := lift (load_bytes page mmio_data_off (Z.min size 8)) in
    let value := le_decode data in
    run_mmio_write h (mk_WriteContext addr size value) ;;;
    ret (true, mmio_count_write h)
  else
    let* value := run_mmio_read h (mk_ReadContext addr size) in
    mem_store run mmio_data_off (take (Z.to_nat size) (le_encode 8 value)) ;;;
    ret (true, mmio_count_read h).

Definition readCount h : Z := mm_readCount h.
Definition writeCount h : Z := mm_writeCount h.

(** The width the handler works with, and the operand in the page. *)
Definition mmio_width (page : list Z) : Z := u8 (mmio_len page).

Definition mmio_operand (page : list Z) : list Z :=
  slice 40 (Z.to_nat (mmio_width page)) page.

Definition mmio_deliver (page : list Z) (v : Z) : list Z :=
  splice 40 (le_encode (Z.to_nat (mmio_width page)) v) page.

Lemma mmio_deliver_facts page v :
  page_ok page -> 1 <= mmio_width page <= 8 ->
  page_ok (mmio_deliver page v) /\
  mmio_operand (mmio_deliver page v) = le_encode (Z.to_nat (mmio_width page)) v /\
  (forall off n, (off + n <= 40 \/ 48 <= off)%nat ->
     field off n (mmio_deliver page v) = field off n page) /\
  (forall i, (i < 40 \/ 40 + Z.to_nat (mmio_width page) <= i)%nat ->
     mmio_deliver page v !! i = page !! i).
Proof.
  intros [Hb Hl] Hw. unfold kvm_run_header in Hl.
  set (n := Z.to_nat (mmio_width page)). assert (n <= 8)%nat by lia.
  assert (length (mmio_deliver page v) = length page) as Hlen.
  { apply length_splice. rewrite length_le_encode. fold n. lia. }
  assert (forall off m, (off + m <= 40 \/ 48 <= off)%nat ->
            field off m (mmio_deliver page v) = field off m page) as Hf.
  { intros off m Hm. apply field_splice; rewrite length_le_encode; fold n; lia. }
  split; [|split; [|split; [exact Hf|]]].
  - split; [|unfold kvm_run_header; lia].
    apply Forall_splice; [apply le_encode_bytes | done].
  - unfold mmio_operand, mmio_width, mmio_len. rewrite Hf by lia.
    apply slice_splice_eq'; [by rewrite length_le_encode | fold (mmio_len page)].
    fold (mmio_width page). fold n. lia.
  - intros i [Hi|Hi].
    + apply lookup_splice_lt; rewrite ?length_le_encode; fold n; lia.
    + apply lookup_splice_ge; rewrite ?length_le_encode; fold n; lia.
Qed.

(** The guard of the handler. *)
Lemma mmio_guard page :
  1 <= mmio_width page <= 8 -> (mmio_width page =? 0) || (8 <? mmio_width page) = false.
Proof. intros. apply orb_false_iff. rewrite Z.eqb_neq, Z.ltb_ge. lia. Qed.

Lemma mmio_handle_write h run page w :
  page_at run page w -> 1 <= mmio_width page <= 8 -> mmio_is_write page <> 0 ->
  MmioHandler_handle h run w =
  bind (run_mmio_write h (mk_WriteContext (mmio_phys_addr page) (mmio_width page)
                                          (le_decode (mmio_operand page))))
       (fun _ => ret (true, mmio_count_write h)) w.
Proof.
  intros Hp Hw Hd. unfold MmioHandler_handle.
  rewrite (bind_Ok _ _ _ _ _ (kvm_run_at_ok _ _ _ Hp)). fold (mmio_width page).
  rewrite (mmio_guard _ Hw), (proj2 (Z.eqb_neq _ _) Hd). cbn [negb].
  destruct Hp as (_ & _ & _ & Hl). unfold kvm_run_header, mmio_data_off in *.
  rewrite Z.min_l, load_bytes_ok by lia. reflexivity.
Qed.

Lemma mmio_handle_read h run page v w w1 :
  page_at run page w -> 1 <= mmio_width page <= 8 -> mmio_is_write page = 0 ->
  run_mmio_read h (mk_ReadContext (mmio_phys_addr page) (mmio_width page)) w = Ok (v, w1) ->
  page_at run page w1 ->
  MmioHandler_handle h run w =
  Ok ((true, mmio_count_read h), with_page run (mmio_deliver page v) w1).
Proof.
  intros Hp Hw Hd Hv Hp1. unfold MmioHandler_handle.
  rewrite (bind_Ok _ _ _ _ _ (kvm_run_at_ok _ _ _ Hp)). fold (mmio_width page).
  rewrite (mmio_guard _ Hw), Hd. cbn [negb Z.eqb].
  rewrite (bind_Ok _ _ _ _ _ Hv). destruct Hp1 as (Hn & Hm & _ & Hl).
  unfold kvm_run_header in Hl. rewrite take_le_encode by lia. unfold bind.
  rewrite (mem_store_ok _ page) by (rewrite ?length_le_encode; unfold mmio_data_off; done || lia).
  reflexivity.
Qed.

End MmioModel.

(** ** Properties *)

(** C29. An MMIO read of 1 to 8 bytes succeeds and counts one read: the value
    registered for the address (all ones when there is none) lands in the data
    bytes of the page, truncated to the access width, and nothing else of the
    page changes. *)
Theorem mmio_read_delivers {K} `{Kernel K} {E} (h : MmioHandler K E) run page v w w1 :
  page_at run page w -> 1 <= mmio_width page <= 8 -> mmio_is_write page = 0 ->
  run_mmio_read h (mk_ReadContext (mmio_phys_addr page) (mmio_width page)) w = Ok (v, w1) ->
  page_at run page w1 ->
  exists page', MmioHandler_handle h run w =
      Ok ((true, mmio_count_read h), with_page run page' w1) /\
    readCount (mmio_count_read h) = u64 (readCount h + 1) /\
    writeCount (mmio_count_read h) = writeCount h /\
    le_decode (mmio_operand page') = v mod 256 ^ mmio_width page /\
    (mm_readCallbacks h !! mmio_phys_addr page = None ->
       w1 = w /\ le_decode (mmio_operand page') = 256 ^ mmio_width page - 1) /\
    (forall i, (i < 40 \/ 40 + Z.to_nat (mmio_width page) <= i)%nat -> page' !! i = page !! i).
Proof.
  intros Hp Hw Hd Hv Hp1.
  destruct (mmio_deliver_facts page v (proj2 (proj2 Hp)) Hw) as (_ & Hop & _ & Hout).
  exists (mmio_deliver page v). split; [by apply mmio_handle_read|].
  split; [done|]. split; [done|].
  assert (le_decode (mmio_operand (mmio_deliver page v)) = v mod 256 ^ mmio_width page) as Hval
    by (by rewrite Hop, le_decode_encode, Z2Nat.id by lia).
  split; [exact Hval|]. split; [|exact Hout].
  intros Hnone. unfold run_mmio_read in Hv. cbn [rc_addr] in Hv. rewrite Hnone in Hv.
  injection Hv as <- <-. split; [done|]. rewrite Hval.
  assert (exists n, mmio_width page = n /\ 1 <= n <= 8) as (n & -> & Hn) by eauto.
  assert (n = 1 \/ n = 2 \/ n = 3 \/ n = 4 \/ n = 5 \/ n = 6 \/ n = 7 \/ n = 8) as Hc by lia.
  destruct Hc as [->|[->|[->|[->|[->|[->|[->| ->]]]]]]]; reflexivity.
Qed.

(** The page of the unit test: a 4-byte read of 0xFEE00030. *)
Definition mmio_page (addr len is_write : Z) (data : list Z) : list Z :=
  replicate 8 0 ++ le_encode 4 6 ++ replicate 20 0 ++
  le_encode 8 addr ++ data ++ le_encode 4 len ++ [is_write] ++ replicate 240 0.

Definition mmio_world {E} (page : list Z) (e : E) : World SimK E :=
  sim_world (sim_vcpu []) {[8192 := page]} e.

Lemma mmio_world_at {E} page (e : E) :
  bytesb page = true -> kvm_run_header <= Z.of_nat (length page) ->
  page_at 8192 page (mmio_world page e).
Proof.
  intros Hb Hl. split; [done|]. split; [apply lookup_singleton_eq|].
  split; [by apply bytesb_ok | done].
Qed.

Definition mmio_test_reader : MmioHandler SimK unit :=
  MmioHandler_registerRead 0xFEE00030 (fun _ => ret 0x11223344) MmioHandler_new.

Lemma mmio_read_delivers_witness :
  let page := mmio_page 0xFEE00030 4 0 (replicate 8 0) in
  exists page', MmioHandler_handle mmio_test_reader 8192 (mmio_world page tt) =
      Ok ((true, mmio_count_read mmio_test_reader), with_page 8192 page' (mmio_world page tt)) /\
    le_decode (mmio_operand page') = 0x11223344.
Proof.
  intros page.
  destruct (mmio_read_delivers mmio_test_reader 8192 page 0x11223344
              (mmio_world page tt) (mmio_world page tt)) as (page' & Hh & _ & _ & Hv & _).
  - apply mmio_world_at; vm_compute; [reflexivity | discriminate].
  - split; vm_compute; discriminate.
  - vm_compute; reflexivity.
  - vm_compute; reflexivity.
  - apply mmio_world_at; vm_compute; [reflexivity | discriminate].
  - exists page'. split; [exact Hh|]. rewrite Hv. vm_compute. reflexivity.
Defined.

(** C30. An MMIO write of [x], 1 to 8 bytes wide, reaches the callback of its
    address with exactly that value; without a callback it is dropped; either
    way the handler reports success and counts one write. *)
Theorem mmio_write_decodes {K} `{Kernel K} {E} (h : MmioHandler K E) run page x w :
  page_at run page w -> 1 <= mmio_width page <= 8 -> mmio_is_write page <> 0 ->
  mmio_operand page = le_encode (Z.to_nat (mmio_width page)) x -> 0 <= x < 256 ^ mmio_width page ->
  MmioHandler_handle h run w =
    match mm_writeCallbacks h !! mmio_phys_addr page with
    | Some cb =>
        match cb (mk_WriteContext (mmio_phys_addr page) (mmio_width page) x) w with
        | Ok (_, w1) => Ok ((true, mmio_count_write h), w1)
        | Fault f => Fault f
        end
    | None => Ok ((true, mmio_count_write h), w)
    end /\
  writeCount (mmio_count_write h) = u64 (writeCount h + 1) /\
  readCount (mmio_count_write h) = readCount h.
Proof.
  intros Hp Hw Hd Hop Hx. split; [|done].
  rewrite (mmio_handle_write _ _ _ _ Hp Hw Hd), Hop, le_decode_encode.
  rewrite Z2Nat.id, Z.mod_small by lia. unfold bind, run_mmio_write. cbn [wc_addr].
  by destruct (mm_writeCallbacks h !! mmio_phys_addr page).
Qed.

(** The write test: the callback stores what it receives. *)
Definition mmio_test_writer : MmioHandler SimK (Z * Z * Z) :=
  MmioHandler_registerWrite 0xFEE00040
    (fun ctx w => Ok (tt, mk_world (w_host w) (wc_addr ctx, wc_size ctx, wc_value ctx)))
    MmioHandler_new.

Lemma mmio_write_decodes_witness :
  let page := mmio_page 0xFEE00040 8 1 (le_encode 8 0xAABBCCDD11223344) in
  MmioHandler_handle mmio_test_writer 8192 (mmio_world page (0, 0, 0)) =
  Ok ((true, mmio_count_write mmio_test_writer),
      mmio_world page (0xFEE00040, 8, 0xAABBCCDD11223344)).
Proof.
  intros page.
  refine (proj1 (mmio_write_decodes mmio_test_writer 8192 page 0xAABBCCDD11223344 _ _ _ _ _ _)).
  - apply mmio_world_at; vm_compute; [reflexivity | discriminate].
  - split; vm_compute; discriminate.
  - vm_compute; discriminate.
  - vm_compute; reflexivity.
  - split; [vm_compute; discriminate | vm_compute; reflexivity].
Defined.

(** The handler refuses an access exactly when the low byte of its length
    is 0 or above 8, and a refused access runs no callback, counts nothing and
    changes nothing. *)
Lemma mmio_refuses {K} `{Kernel K} {E} (h : MmioHandler K E) run page w :
  page_at run page w ->
  (u8 (mmio_len page) = 0 \/ 8 < u8 (mmio_len page) ->
     MmioHandler_handle h run w = Ok ((false, h), w)) /\
  (forall h' w', MmioHandler_handle h run w = Ok ((false, h'), w') ->
     u8 (mmio_len page) = 0 \/ 8 < u8 (mmio_len page)).
Proof.
  intros Hp. unfold MmioHandler_handle.
  rewrite (bind_Ok _ _ _ _ _ (kvm_run_at_ok _ _ _ Hp)). split.
  - intros Hc. assert ((u8 (mmio_len page) =? 0) || (8 <? u8 (mmio_len page)) = true) as ->; [|done].
    apply orb_true_iff. rewrite Z.eqb_eq, Z.ltb_lt. tauto.
  - intros h' w'. destruct (_ || _) eqn:Eg.
    + intros _. apply orb_true_iff in Eg. rewrite Z.eqb_eq, Z.ltb_lt in Eg. tauto.
    + destruct (negb _); intros Hr; binv; done.
Qed.

Lemma mmio_refuses_witness :
  let page := mmio_page 0xFEE00040 9 1 (replicate 8 0) in
  MmioHandler_handle mmio_test_writer 8192 (mmio_world page (0, 0, 0)) =
  Ok ((false, mmio_test_writer), mmio_world page (0, 0, 0)).
Proof.
  intros page. apply (mmio_refuses mmio_test_writer 8192 page).
  - apply mmio_world_at; vm_compute; [reflexivity | discriminate].
  - right. vm_compute. reflexivity.
Defined.
