(* ===== verification/Cpuid.v ===== *)
(** * CPUID exits (CpuidHandler.h, CpuidHandler.cpp) *)

From S2P Require Import Prelude Host SimKvm Vcpu.
From stdpp Require Import base list gmap strings.
From Stdlib Require Import ZArith Lia.
Open Scope Z_scope.
Open Scope hv_scope.

Record LeafResult := mk_LeafResult { lr_eax : Z; lr_ebx : Z; lr_ecx : Z; lr_edx : Z }.

Abbreviation LeafCallback K E := (Z -> Z -> M (World K E) LeafResult).

Record CpuidHandler (K E : Type) := mk_CpuidHandler {
  cp_leafCallbacks : gmap Z (LeafCallback K E);
  cp_handledCount : Z }.
Arguments mk_CpuidHandler {K E} _ _.
Arguments cp_leafCallbacks {K E} _.
Arguments cp_handledCount {K E} _.

(** A result as the 32-bit fields of the struct hold it. *)
Definition leaf_u32 (r : LeafResult) : LeafResult :=
  mk_LeafResult (u32 (lr_eax r)) (u32 (lr_ebx r)) (u32 (lr_ecx r)) (u32 (lr_edx r)).

(** The registers CPUID writes; every other register is kept. *)
Definition set_abcd (regs : kvm_regs) (a b c d : Z) : kvm_regs :=
  mk_regs a b c d (rsi regs) (rdi regs) (rsp regs) (rbp regs)
          (r8 regs) (r9 regs) (r10 regs) (r11 regs) (r12 regs) (r13 regs) (r14 regs) (r15 regs)
          (rip regs) (rflags regs).

Section CpuidModel.

Context {K : Type} `{Kernel K} {E : Type}.
Implicit Types (h : CpuidHandler K E) (w : World K E).

Definition CpuidHandler_new : CpuidHandler K E := mk_CpuidHandler ∅ 0.

Definition registerLeaf (leaf : Z) (callback : LeafCallback K E) h : CpuidHandler K E :=
  mk_CpuidHandler (<[leaf := callback]> (cp_leafCallbacks h)) (cp_handledCount h).

Definition executeHostCpuid (leaf subleaf : Z) : M (World K E) LeafResult :=
  let* (a, b, c, d) := host_cpuid leaf subleaf in
  ret (leaf_u32 (mk_LeafResult a b c d)).

(** The leaf's callback, or the host's CPUID. *)
Definition run_leaf h (leaf subleaf : Z) : M (World K E) LeafResult :=
  match cp_leafCallbacks h !! leaf with
  | Some cb => let* r := cb leaf subleaf in ret (leaf_u32 r)
  | None => executeHostCpuid leaf subleaf
  end.

Definition CpuidHandler_handle h (vcpu : VCpu) : M (World K E) (bool * CpuidHandler K E) :=
  let* regs_result := VCpu_getRegs vcpu in
  match regs_result with
  | Unexpected _ => ret (false, h)
  | Value regs =>
      let leaf := u32 (rax regs) in
      let subleaf := u32 (rcx regs) in
      let* result := run_leaf h leaf subleaf in
      let regs' := set_abcd regs (lr_eax result) (lr_ebx result) (lr_ecx result) (lr_edx result) in
      let* ec := VCpu_setRegs vcpu regs' in
      if ec_failed ec then ret (false, h)
      else ret (true, mk_CpuidHandler (cp_leafCallbacks h) (u64 (cp_handledCount h + 1)))
  end.

Definition handledCount h : Z := cp_handledCount h.

(** The handler after one more exit. *)
Definition cpuid_counted h : CpuidHandler K E :=
  mk_CpuidHandler (cp_leafCallbacks h) (u64 (cp_handledCount h + 1)).

Lemma cpuid_handle_ok `{!KvmLaws K} h vcpu r res w w1 :
  k_regs (h_kern (w_host w)) (vc_fd vcpu) = Some r ->
  run_leaf h (u32 (rax r)) (u32 (rcx r)) (traced (Sys_ioctl (vc_fd vcpu) KVM_GET_REGS) w)
    = Ok (res, w1) ->
  is_Some (k_regs (h_kern (w_host w1)) (vc_fd vcpu)) ->
  let r' := set_abcd r (lr_eax res) (lr_ebx res) (lr_ecx res) (lr_edx res) in
  exists k', CpuidHandler_handle h vcpu w =
      Ok ((true, cpuid_counted h),
          traced (Sys_ioctl (vc_fd vcpu) (KVM_SET_REGS r')) (on_host (set_kern k') w1)) /\
    k_regs k' (vc_fd vcpu) = Some r'.
Proof.
  intros Hr Hrun Hlive r'.
  assert (canonical_regs r') as Hc by (by apply law_regs_canonical in Hr).
  destruct (setRegs_ok vcpu r' w1 Hlive Hc) as (k' & Hset & Hk' & _).
  exists k'. split; [|done].
  unfold CpuidHandler_handle. rewrite (bind_Ok _ _ _ _ _ (getRegs_ok _ _ _ Hr)).
  rewrite (bind_Ok _ _ _ _ _ Hrun). fold r'. by rewrite (bind_Ok _ _ _ _ _ Hset).
Qed.

End CpuidModel.

(** ** Properties *)

(** C34. When the vCPU's registers can be accessed, the handler looks up the
    leaf in EAX and the sub-leaf in ECX, and leaves the guest with the result
    (the callback's, or the host's own CPUID for a leaf without one) in RAX,
    RBX, RCX and RDX; it counts one exit.  No other register changes: the
    instruction pointer still points at the CPUID instruction. *)
Theorem cpuid_injects {K} `{KvmLaws K} {E} (h : CpuidHandler K E) vcpu r res w w1 :
  k_regs (h_kern (w_host w)) (vc_fd vcpu) = Some r ->
  run_leaf h (u32 (rax r)) (u32 (rcx r)) (traced (Sys_ioctl (vc_fd vcpu) KVM_GET_REGS) w)
    = Ok (res, w1) ->
  is_Some (k_regs (h_kern (w_host w1)) (vc_fd vcpu)) ->
  exists h' w', CpuidHandler_handle h vcpu w = Ok ((true, h'), w') /\
    handledCount h' = u64 (handledCount h + 1) /\
    h_mem (w_host w') = h_mem (w_host w1) /\ w_env w' = w_env w1 /\
    exists r', k_regs (h_kern (w_host w')) (vc_fd vcpu) = Some r' /\
      (rax r', rbx r', rcx r', rdx r') = (lr_eax res, lr_ebx res, lr_ecx res, lr_edx res) /\
      r' = set_abcd r (rax r') (rbx r') (rcx r') (rdx r') /\
      rip r' = rip r.
Proof.
  intros Hr Hrun Hlive.
  destruct (cpuid_handle_ok h vcpu r res w w1 Hr Hrun Hlive) as (k' & Hh & Hk').
  do 2 eexists. split; [exact Hh|]. split; [done|]. split; [done|]. split; [done|].
  eexists. split; [exact Hk'|]. auto.
Qed.

Definition cpuid_regs : kvm_regs := mk_regs 1 0 0 0 0 0 0 0 0 0 0 0 0 0 0 0 0x1004 2.

(** The callback the demo registers for leaf 1: the CPUID results it reads are
    not copied into the struct it returns. *)
Definition masked_leaf : LeafCallback SimK unit :=
  fun leaf sub =>
    let* _ := host_cpuid leaf sub in ret (mk_LeafResult 0 0 0 0).

Definition cpuid_world : World SimK unit :=
  sim_world (mk_simk 6 (2 ^ 32) {[5]} {[5 := cpuid_regs]} {[5 := zero_sregs]} [] [] 0) ∅ tt.

Lemma cpuid_injects_witness :
  exists h' w', CpuidHandler_handle (registerLeaf 1 masked_leaf CpuidHandler_new)
                  (mk_VCpu 5 0 8192 512) cpuid_world = Ok ((true, h'), w') /\
    handledCount h' = 1.
Proof.
  destruct (cpuid_injects (registerLeaf 1 masked_leaf CpuidHandler_new)
    (mk_VCpu 5 0 8192 512) cpuid_regs (mk_LeafResult 0 0 0 0) cpuid_world
    (traced (Sys_ioctl 5 KVM_GET_REGS) cpuid_world)) as (h' & w' & Hh & Hn & _).
  - vm_compute; reflexivity.
  - vm_compute; reflexivity.
  - vm_compute. eauto.
  - exists h', w'. split; [exact Hh | exact Hn].
Defined.

(** When reading the registers fails, the handler reports failure before
    any callback runs: the count, the environment, the kernel state beyond that
    one call and memory are as they were.  When only writing them back fails it
    also reports failure and does not count the exit. *)
Lemma cpuid_register_errors {K} `{Kernel K} {E} (h : CpuidHandler K E) vcpu (w : World K E) :
  let r := k_syscall (Sys_ioctl (vc_fd vcpu) KVM_GET_REGS) (h_kern (w_host w)) in
  (kr_ret r < 0 ->
     exists w', CpuidHandler_handle h vcpu w = Ok ((false, h), w') /\
       w_env w' = w_env w /\ h_mem (w_host w') = h_mem (w_host w) /\
       h_kern (w_host w') = kr_kern r /\ h_errno (w_host w') = kr_errno r /\
       h_trace (w_host w') = h_trace (w_host w) ++ [Sys_ioctl (vc_fd vcpu) KVM_GET_REGS]) /\
  (forall h' w', CpuidHandler_handle h vcpu w = Ok ((false, h'), w') -> h' = h).
Proof.
  intros r. split.
  - intros Hneg. unfold CpuidHandler_handle, VCpu_getRegs, ioctl, do_syscall, bind. fold r. cbn.
    rewrite (proj2 (Z.ltb_lt _ _) Hneg). eexists. split; [reflexivity|]. cbn.
    by rewrite (proj2 (Z.ltb_lt _ _) Hneg).
  - intros h' w' Hh. unfold CpuidHandler_handle in Hh. binv.
    destruct a; binv; [destruct (ec_failed _)|]; unfold ret in Hh; by simplify_eq.
Qed.

Lemma cpuid_register_errors_witness :
  exists w', CpuidHandler_handle CpuidHandler_new (mk_VCpu 7 0 8192 512) cpuid_world
               = Ok ((false, CpuidHandler_new), w') /\ h_errno (w_host w') = EBADF.
Proof.
  destruct (cpuid_register_errors CpuidHandler_new (mk_VCpu 7 0 8192 512) cpuid_world)
    as [Herr _].
  destruct Herr as (w' & Hh & _ & _ & _ & He & _); [vm_compute; reflexivity|].
  exists w'. split; [exact Hh|]. rewrite He. vm_compute. reflexivity.
Defined.
