(* ===== verification/Msr.v ===== *)
(** * MSR exits and the MSR filter (MsrHandler.h, MsrHandler.cpp) *)

From S2P Require Import Prelude Host SimKvm Vcpu Cpuid.
From stdpp Require Import base list gmap strings sorting.
From Stdlib Require Import ZArith Lia.
Open Scope Z_scope.
Open Scope hv_scope.

Abbreviation MsrReadCallback K E := (Z -> M (World K E) Z).
Abbreviation MsrWriteCallback K E := (Z -> Z -> M (World K E) unit).

Record MsrHandler (K E : Type) := mk_MsrHandler {
  ms_readCallbacks : gmap Z (MsrReadCallback K E);
  ms_writeCallbacks : gmap Z (MsrWriteCallback K E);
  ms_readCount : Z;
  ms_writeCount : Z }.
Arguments mk_MsrHandler {K E} _ _ _ _.
Arguments ms_readCallbacks {K E} _.
Arguments ms_writeCallbacks {K E} _.
Arguments ms_readCount {K E} _.
Arguments ms_writeCount {K E} _.

Definition KVM_MSR_EXIT_REASON_INVAL : Z := 1.
Definition KVM_MSR_EXIT_REASON_UNKNOWN : Z := 2.
Definition KVM_MSR_EXIT_REASON_FILTER : Z := 4.
Definition KVM_MSR_EXIT_REASON_VALID_MASK : Z := 7.

(** The exit reasons of the two accesses. *)
Definition KVM_EXIT_X86_RDMSR : Z := 29.
Definition KVM_EXIT_X86_WRMSR : Z := 30.

(** The page of an MSR exit of one kind: KVM gives one reason for it. *)
Definition msr_exit (kind : Z) (page : list Z) : Prop :=
  run_exit_reason page = kind /\
  msr_reason page ∈ [KVM_MSR_EXIT_REASON_INVAL; KVM_MSR_EXIT_REASON_UNKNOWN; KVM_MSR_EXIT_REASON_FILTER].

Definition KVM_MSR_FILTER_READ : Z := 1.
Definition KVM_MSR_FILTER_WRITE : Z := 2.
Definition KVM_MSR_FILTER_DEFAULT_ALLOW : Z := 0.
Definition KVM_MSR_FILTER_DEFAULT_DENY : Z := 1.
Definition KVM_MSR_FILTER_MAX_RANGES : nat := 16.

Definition zero_range : kvm_msr_filter_range := mk_msr_range 0 0 0 [].

Section MsrModel.

Context {K : Type} `{Kernel K} {E : Type}.
Implicit Types (h : MsrHandler K E) (w : World K E).

(** The order in which an [unordered_map] enumerates its keys. *)
Context (order : list Z -> list Z).

Definition keys {A} (m : gmap Z A) : list Z := order (map_to_list m).*1.

Definition MsrHandler_new : MsrHandler K E := mk_MsrHandler ∅ ∅ 0 0.

Definition MsrHandler_registerRead (idx : Z) (cb : MsrReadCallback K E) h : MsrHandler K E :=
  mk_MsrHandler (<[idx := cb]> (ms_readCallbacks h)) (ms_writeCallbacks h)
                (ms_readCount h) (ms_writeCount h).

Definition MsrHandler_registerWrite (idx : Z) (cb : MsrWriteCallback K E) h : MsrHandler K E :=
  mk_MsrHandler (ms_readCallbacks h) (<[idx := cb]> (ms_writeCallbacks h))
                (ms_readCount h) (ms_writeCount h).

(** Append the keys that [std::ranges::find] does not find yet. *)
Definition add_missing (indices : list Z) (idx : Z) : list Z :=
  if decide (idx ∈ indices) then indices else indices ++ [idx].

Definition filter_indices h : list Z :=
  fold_left add_missing (keys (ms_writeCallbacks h)) (keys (ms_readCallbacks h)).

(** One range per index, its bitmap one 64-bit word with bit 0 set. *)
Definition filter_range (idx : Z) : kvm_msr_filter_range :=
  mk_msr_range (Z.lor KVM_MSR_FILTER_READ KVM_MSR_FILTER_WRITE) 1 idx (le_encode 8 1).

(** The ranges array of the filter: the first sixteen, the rest zeroed. *)
Definition filter_of (indices : list Z) : kvm_msr_filter :=
  let ranges := filter_range <$> indices in
  let n := length ranges in
  let range_count := Nat.min n KVM_MSR_FILTER_MAX_RANGES in
  mk_msr_filter KVM_MSR_FILTER_DEFAULT_ALLOW
    (take range_count ranges ++ replicate (KVM_MSR_FILTER_MAX_RANGES - range_count) zero_range).

Definition MsrHandler_installFilter h (vm_fd : Z) : M (World K E) Z :=
  let indices := filter_indices h in
  match indices with
  | [] => ret 0
  | _ =>
      let* (r, _) := ioctl vm_fd (KVM_X86_SET_MSR_FILTER (filter_of indices)) in
      if r <? 0 then errno else ret 0
  end.

Definition run_msr_write h (idx value : Z) : M (World K E) unit :=
  match ms_writeCallbacks h !! idx with
  | Some cb => cb idx value
  | None => ret tt
  end.

Definition run_msr_read h (idx : Z) : M (World K E) Z :=
  match ms_readCallbacks h !! idx with
  | Some cb => let* v := cb idx in ret (u64 v)
  | None => ret 0
  end.

(** EAX and EDX of RDMSR. *)
Definition set_eax_edx (regs : kvm_regs) (result : Z) : kvm_regs :=
  set_abcd regs (Z.land result 0xFFFFFFFF) (rbx regs) (rcx regs)
           (Z.land (Z.shiftr result 32) 0xFFFFFFFF).

Definition MsrHandler_handle h (vcpu : VCpu) (run : Z) : M (World K E) (bool * MsrHandler K E) :=
  let* page := kvm_run_at run in
  let idx := msr_index page in
  let is_write := msr_reason page =? KVM_MSR_EXIT_REASON_VALID_MASK in
  if is_write then
    run_msr_write h idx (msr_data page) ;;;
    ret (true, mk_MsrHandler (ms_readCallbacks h) (ms_writeCallbacks h)
                             (ms_readCount h) (u64 (ms_writeCount h + 1)))
  else
    let* result := run_msr_read h idx in
    let* regs_result := VCpu_getRegs vcpu in
    match regs_result with
    | Unexpected _ => ret (false, h)
    | Value regs =>
        let* ec := VCpu_setRegs vcpu (set_eax_edx regs result) in
        if ec_failed ec then ret (false, h)
        else ret (true, mk_MsrHandler (ms_readCallbacks h) (ms_writeCallbacks h)
                                      (u64 (ms_readCount h + 1)) (ms_writeCount h))
    end.

Definition msr_readCount h : Z := ms_readCount h.
Definition msr_writeCount h : Z := ms_writeCount h.

(** The handler with another write table. *)
Definition with_writes (m : gmap Z (MsrWriteCallback K E)) h : MsrHandler K E :=
  mk_MsrHandler (ms_readCallbacks h) m (ms_readCount h) (ms_writeCount h).

End MsrModel.

(** ** What KVM documents of a filter

    An access to [idx] is looked up in the ranges whose flags name its kind; a
    range that covers it decides by its bitmap, where a set bit allows the
    access; an access no range covers is decided by the default.  Denied
    accesses are the ones that leave the guest. *)

Definition range_covers (kind idx : Z) (r : kvm_msr_filter_range) : bool :=
  negb (Z.land (fr_flags r) kind =? 0) && (fr_base r <=? idx) && (idx <? fr_base r + fr_nmsrs r).

Definition bitmap_bit (bm : list Z) (i : Z) : bool := Z.testbit (le_decode bm) i.

Definition msr_allowed (f : kvm_msr_filter) (kind idx : Z) : bool :=
  match List.find (range_covers kind idx) (mf_ranges f) with
  | Some r => bitmap_bit (fr_bitmap r) (idx - fr_base r)
  | None => Z.land (mf_flags f) KVM_MSR_FILTER_DEFAULT_DENY =? 0
  end.

(** ** Indices of the filter *)

Lemma fold_add_missing ws rs :
  forall idx, idx ∈ fold_left add_missing ws rs <-> idx ∈ rs \/ idx ∈ ws.
Proof.
  revert rs. induction ws as [|x ws IH]; intros rs idx; cbn [fold_left].
  - set_solver.
  - rewrite IH. unfold add_missing. case_decide; set_solver.
Qed.

Lemma fold_add_missing_NoDup ws rs : NoDup rs -> NoDup (fold_left add_missing ws rs).
Proof.
  revert rs. induction ws as [|x ws IH]; intros rs Hrs; [done|]. cbn [fold_left].
  apply IH. unfold add_missing. case_decide; [done|]. apply NoDup_app. split; [done|].
  split; [set_solver | apply NoDup_singleton].
Qed.

(** ** Properties *)

(** The filter is installed for exactly the MSRs with a read or a write
    callback, each once, whatever order the hash tables enumerate their keys
    in; the ioctl is skipped when there is none. *)
Lemma installFilter_indices {K} `{Kernel K} {E} (order : list Z -> list Z) (h : MsrHandler K E) :
  (forall l, Permutation (order l) l) ->
  NoDup (filter_indices order h) /\
  (forall idx, idx ∈ filter_indices order h <->
     is_Some (ms_readCallbacks h !! idx) \/ is_Some (ms_writeCallbacks h !! idx)) /\
  (forall fd (w : World K E), filter_indices order h = [] ->
     MsrHandler_installFilter order h fd w = Ok (0, w)).
Proof.
  intros Hord.
  assert (forall A (m : gmap Z A) idx, idx ∈ keys order m <-> is_Some (m !! idx)) as Hk.
  { intros A m idx. unfold keys. rewrite (Hord _), list_elem_of_fmap. split.
    - intros ([i a] & -> & Hin). apply elem_of_map_to_list in Hin. by exists a.
    - intros [a Ha]. exists (idx, a). split; [done|]. by apply elem_of_map_to_list. }
  split; [|split].
  - apply fold_add_missing_NoDup. unfold keys. rewrite (Hord _). apply NoDup_fst_map_to_list.
  - intros idx. unfold filter_indices. by rewrite fold_add_missing, !Hk.
  - intros fd w He. unfold MsrHandler_installFilter. by rewrite He.
Qed.

Definition msr_demo : MsrHandler SimK unit :=
  MsrHandler_registerWrite 0x10 (fun _ _ => ret tt)
    (MsrHandler_registerWrite 0xC0000080 (fun _ _ => ret tt)
       (MsrHandler_registerRead 0xC0000080 (fun _ => ret 0x500) MsrHandler_new)).

Lemma installFilter_indices_witness :
  NoDup (filter_indices (@rev Z) msr_demo) /\ filter_indices (@rev Z) msr_demo = [0xC0000080; 0x10].
Proof.
  split; [|vm_compute; reflexivity].
  refine (proj1 (installFilter_indices (@rev Z) msr_demo _)).
  intros l. symmetry. apply Permutation_rev.
Defined.

(** The filter denies nothing: under KVM's reading of it, every access to
    every MSR, the registered ones included, is allowed and so handled in the
    kernel without an exit. *)
Lemma installFilter_allows_everything (indices : list Z) (kind idx : Z) :
  kind = KVM_MSR_FILTER_READ \/ kind = KVM_MSR_FILTER_WRITE ->
  msr_allowed (filter_of indices) kind idx = true.
Proof.
  intros Hkind. unfold msr_allowed.
  destruct (List.find _ _) as [r|] eqn:Ef; [|done].
  apply List.find_some in Ef as [Hin Hc]. unfold range_covers in Hc. boolify.
  apply in_app_or in Hin as [Hin|Hin].
  - apply list_elem_of_In, elem_of_take in Hin as (i & Hi & _).
    rewrite list_lookup_fmap in Hi. apply fmap_Some in Hi as (x & _ & ->).
    cbn in *. assert (idx - x = 0) as -> by lia. reflexivity.
  - apply list_elem_of_In, elem_of_replicate in Hin as [-> _]. done.
Qed.

Lemma installFilter_allows_everything_witness :
  msr_allowed (filter_of [0xC0000080; 0x10]) KVM_MSR_FILTER_WRITE 0xC0000080 = true.
Proof. apply (installFilter_allows_everything [0xC0000080; 0x10]). right. reflexivity. Defined.

Lemma eax_edx_split v :
  is_u64 v ->
  Z.land v 0xFFFFFFFF + 2 ^ 32 * Z.land (Z.shiftr v 32) 0xFFFFFFFF = v /\
  is_u32 (Z.land v 0xFFFFFFFF) /\ is_u32 (Z.land (Z.shiftr v 32) 0xFFFFFFFF).
Proof.
  intros Hv. unfold is_u64, is_u32 in *. change 0xFFFFFFFF with (Z.ones 32).
  rewrite !Z.land_ones, Z.shiftr_div_pow2 by lia.
  assert (0 <= v / 2 ^ 32 < 2 ^ 32)
    by (split; [apply Z.div_pos; lia | apply Z.div_lt_upper_bound; lia]).
  rewrite (Z.mod_small (v / 2 ^ 32)) by lia.
  pose proof (Z.mod_pos_bound v (2 ^ 32)). pose proof (Z.div_mod v (2 ^ 32)). lia.
Qed.

Lemma run_msr_read_u64 {K} `{Kernel K} {E} (h : MsrHandler K E) idx w v w1 :
  run_msr_read h idx w = Ok (v, w1) -> is_u64 v.
Proof.
  unfold run_msr_read. destruct (ms_readCallbacks h !! idx); intros Hr.
  - binv. injection Hr as <- <-. apply u64_range.
  - by injection Hr as <- <-.
Qed.

Lemma msr_exit_reason kind page : msr_exit kind page -> msr_reason page <> KVM_MSR_EXIT_REASON_VALID_MASK.
Proof.
  intros [_ Hr] Heq. rewrite Heq in Hr. by apply list_elem_of_In in Hr as [|[|[|[]]]].
Qed.

(** The guest's RAX and RDX hold the two halves of [v]. *)
Definition injected (v : Z) (r r' : kvm_regs) : Prop :=
  rax r' + 2 ^ 32 * rdx r' = v /\ is_u32 (rax r') /\ is_u32 (rdx r') /\
  r' = set_abcd r (rax r') (rbx r) (rcx r) (rdx r').

(** The branch of the handler that is not [is_write]. *)
Lemma msr_serves_read {K} `{KvmLaws K} {E} (h : MsrHandler K E) vcpu run page v r w w1 :
  page_at run page w -> msr_reason page <> KVM_MSR_EXIT_REASON_VALID_MASK ->
  run_msr_read h (msr_index page) w = Ok (v, w1) ->
  k_regs (h_kern (w_host w1)) (vc_fd vcpu) = Some r ->
  exists w' r',
    (forall wcbs, MsrHandler_handle (with_writes wcbs h) vcpu run w
       = Ok ((true, mk_MsrHandler (ms_readCallbacks h) wcbs (u64 (ms_readCount h + 1)) (ms_writeCount h)), w')) /\
    k_regs (h_kern (w_host w')) (vc_fd vcpu) = Some r' /\ injected v r r' /\
    h_mem (w_host w') = h_mem (w_host w1) /\ w_env w' = w_env w1.
Proof.
  intros Hp Hreason Hv Hr. pose proof (run_msr_read_u64 _ _ _ _ _ Hv) as Hu.
  destruct (eax_edx_split v Hu) as (Hsum & Hlo & Hhi).
  set (w2 := traced (Sys_ioctl (vc_fd vcpu) KVM_GET_REGS) w1).
  assert (canonical_regs (set_eax_edx r v)) as Hc by (by apply law_regs_canonical in Hr).
  destruct (setRegs_ok vcpu (set_eax_edx r v) w2) as (k' & Hset & Hk' & _);
    [by exists r | done |].
  eexists _, (set_eax_edx r v). split.
  - intros wcbs. unfold MsrHandler_handle. rewrite (bind_Ok _ _ _ _ _ (kvm_run_at_ok _ _ _ Hp)).
    rewrite (proj2 (Z.eqb_neq _ _) Hreason).
    change (run_msr_read (with_writes wcbs h)) with (run_msr_read h). rewrite (bind_Ok _ _ _ _ _ Hv).
    rewrite (bind_Ok _ _ _ _ _ (getRegs_ok _ _ _ Hr)). by rewrite (bind_Ok _ _ _ _ _ Hset).
  - split; [exact Hk'|]. split; [|done]. split; [exact Hsum|]. by split; [exact Hlo|].
Qed.

Lemma with_writes_same {K E} (h : MsrHandler K E) : with_writes (ms_writeCallbacks h) h = h.
Proof. by destruct h. Qed.

(** C35. On a RDMSR exit, when the registers can be accessed, the guest is left
    with the callback's value (0 without one) in EDX:EAX, low half in RAX and high
    half in RDX, every other register unchanged, and one read counted.  The run
    page is left as the callback left it: the value is not put into the data
    field of the exit. *)
Theorem msr_read_injects {K} `{KvmLaws K} {E} (h : MsrHandler K E) vcpu run page v r w w1 :
  page_at run page w -> msr_exit KVM_EXIT_X86_RDMSR page ->
  run_msr_read h (msr_index page) w = Ok (v, w1) ->
  k_regs (h_kern (w_host w1)) (vc_fd vcpu) = Some r ->
  exists h' w' r', MsrHandler_handle h vcpu run w = Ok ((true, h'), w') /\
    msr_readCount h' = u64 (msr_readCount h + 1) /\ msr_writeCount h' = msr_writeCount h /\
    k_regs (h_kern (w_host w')) (vc_fd vcpu) = Some r' /\ injected v r r' /\
    (ms_readCallbacks h !! msr_index page = None -> v = 0) /\
    h_mem (w_host w') = h_mem (w_host w1).
Proof.
  intros Hp Hx Hv Hr. destruct (msr_serves_read h vcpu run page v r w w1 Hp (msr_exit_reason _ _ Hx) Hv Hr)
    as (w' & r' & Hh & Hk & Hi & Hm & _).
  eexists _, w', r'. split; [by rewrite <- (Hh (ms_writeCallbacks h)), with_writes_same|]. split; [done|].
  split; [done|]. split; [done|]. split; [done|]. split; [|done].
  intros Hnone. unfold run_msr_read in Hv. rewrite Hnone in Hv. by injection Hv.
Qed.

(** C36. A WRMSR exit is served as a read.  The value the guest writes reaches no
    callback (the outcome is the same whatever write callbacks are registered) and
    no write is counted; instead the read callback runs, its value overwrites the
    guest's RAX and RDX, and a read is counted. *)
Theorem msr_write_served_as_read {K} `{KvmLaws K} {E} (h : MsrHandler K E) vcpu run page v r w w1 :
  page_at run page w -> msr_exit KVM_EXIT_X86_WRMSR page ->
  run_msr_read h (msr_index page) w = Ok (v, w1) ->
  k_regs (h_kern (w_host w1)) (vc_fd vcpu) = Some r ->
  exists w' r',
    (forall wcbs, exists h', MsrHandler_handle (with_writes wcbs h) vcpu run w = Ok ((true, h'), w') /\
       msr_readCount h' = u64 (msr_readCount h + 1) /\ msr_writeCount h' = msr_writeCount h) /\
    w_env w' = w_env w1 /\ k_regs (h_kern (w_host w')) (vc_fd vcpu) = Some r' /\ injected v r r'.
Proof.
  intros Hp Hx Hv Hr. destruct (msr_serves_read h vcpu run page v r w w1 Hp (msr_exit_reason _ _ Hx) Hv Hr)
    as (w' & r' & Hh & Hk & Hi & _ & He).
  exists w', r'. split; [|done]. intros wcbs. eexists. by split; [apply Hh|].
Qed.

(** An exit for MSR 0xC0000080 that the filter made, carrying the value [data]. *)
Definition msr_page (kind data : Z) : list Z :=
  replicate 8 0 ++ le_encode 4 kind ++ replicate 20 0 ++ replicate 8 0 ++
  le_encode 4 KVM_MSR_EXIT_REASON_FILTER ++ le_encode 4 0xC0000080 ++ le_encode 8 data ++
  replicate 240 0.

Definition msr_world (kind data : Z) : World SimK unit :=
  sim_world (sim_vcpu []) {[8192 := msr_page kind data]} tt.

Lemma msr_page_at kind : kind = KVM_EXIT_X86_RDMSR \/ kind = KVM_EXIT_X86_WRMSR ->
  page_at 8192 (msr_page kind 9) (msr_world kind 9) /\ msr_exit kind (msr_page kind 9).
Proof.
  intros Hk. split.
  - split; [done|]. split; [apply lookup_singleton_eq|].
    destruct Hk as [->| ->]; (split; [by apply bytesb_ok; vm_compute | done]).
  - destruct Hk as [->| ->]; (split; [reflexivity|]; apply list_elem_of_In; vm_compute; tauto).
Qed.

Lemma msr_read_injects_witness :
  exists h' w' r', MsrHandler_handle msr_demo (mk_VCpu 5 0 8192 512) 8192 (msr_world KVM_EXIT_X86_RDMSR 9)
      = Ok ((true, h'), w') /\
    sim_regs (h_kern (w_host w')) 5 = Some r' /\ rax r' + 2 ^ 32 * rdx r' = 0x500.
Proof.
  destruct (msr_page_at KVM_EXIT_X86_RDMSR) as [Hp Hx]; [by left|].
  destruct (msr_read_injects msr_demo (mk_VCpu 5 0 8192 512) 8192 (msr_page KVM_EXIT_X86_RDMSR 9) 0x500
              (fix_rflags zero_regs) (msr_world KVM_EXIT_X86_RDMSR 9) (msr_world KVM_EXIT_X86_RDMSR 9) Hp Hx)
    as (h' & w' & r' & Hh & _ & _ & Hk & [Hv _] & _).
  - vm_compute; reflexivity.
  - vm_compute; reflexivity.
  - exists h', w', r'. split; [exact Hh|]. split; [exact Hk | exact Hv].
Defined.

(** A guest that writes 9 to MSR 0xC0000080 finds 0x500 in EAX. *)
Lemma msr_write_served_as_read_witness :
  exists h' w' r', MsrHandler_handle msr_demo (mk_VCpu 5 0 8192 512) 8192 (msr_world KVM_EXIT_X86_WRMSR 9)
      = Ok ((true, h'), w') /\ msr_writeCount h' = 0 /\
    sim_regs (h_kern (w_host w')) 5 = Some r' /\ rax r' + 2 ^ 32 * rdx r' = 0x500.
Proof.
  destruct (msr_page_at KVM_EXIT_X86_WRMSR) as [Hp Hx]; [by right|].
  destruct (msr_write_served_as_read msr_demo (mk_VCpu 5 0 8192 512) 8192 (msr_page KVM_EXIT_X86_WRMSR 9) 0x500
              (fix_rflags zero_regs) (msr_world KVM_EXIT_X86_WRMSR 9) (msr_world KVM_EXIT_X86_WRMSR 9) Hp Hx)
    as (w' & r' & Hh & _ & Hk & Hv & _).
  - vm_compute; reflexivity.
  - vm_compute; reflexivity.
  - destruct (Hh (ms_writeCallbacks msr_demo)) as (h' & Hh' & _ & Hc).
    exists h', w', r'. split; [exact Hh'|]. split; [exact Hc|]. split; [exact Hk | exact Hv].
Defined.

(** No exit KVM reports is taken for a write: with the reason an access
    that is invalid, unknown or filtered has, the handler behaves the same
    whatever write callbacks are registered, and never counts a write. *)
Lemma msr_writes_unreachable {K} `{Kernel K} {E} (h h' : MsrHandler K E) vcpu run page w b w' wcbs :
  page_at run page w ->
  msr_reason page ∈ [KVM_MSR_EXIT_REASON_INVAL; KVM_MSR_EXIT_REASON_UNKNOWN;
                     KVM_MSR_EXIT_REASON_FILTER] ->
  MsrHandler_handle h vcpu run w = Ok ((b, h'), w') ->
  msr_writeCount h' = msr_writeCount h /\
  MsrHandler_handle (with_writes wcbs h) vcpu run w = Ok ((b, with_writes wcbs h'), w').
Proof.
  intros Hp Hreason Hh.
  assert (msr_reason page <> KVM_MSR_EXIT_REASON_VALID_MASK) as Hne.
  { unfold KVM_MSR_EXIT_REASON_VALID_MASK. intros Heq. rewrite Heq in Hreason.
    by apply list_elem_of_In in Hreason as [|[|[|[]]]]. }
  unfold MsrHandler_handle in *. rewrite (bind_Ok _ _ _ _ _ (kvm_run_at_ok _ _ _ Hp)) in Hh.
  rewrite (bind_Ok _ _ _ _ _ (kvm_run_at_ok _ _ _ Hp)).
  rewrite (proj2 (Z.eqb_neq _ _) Hne) in *. binv.
  unfold run_msr_read in *. cbn [with_writes ms_readCallbacks].
  rewrite (bind_Ok _ _ _ _ _ E0), (bind_Ok _ _ _ _ _ E1).
  destruct a0; binv.
  - rewrite (bind_Ok _ _ _ _ _ E2). destruct (ec_failed _); unfold ret in *; by simplify_eq.
  - unfold ret in *. by simplify_eq.
Qed.

Lemma msr_writes_unreachable_witness :
  exists w', MsrHandler_handle (with_writes ∅ msr_demo) (mk_VCpu 5 0 8192 512) 8192 (msr_world KVM_EXIT_X86_WRMSR 9)
    = Ok ((true, with_writes ∅ (mk_MsrHandler (ms_readCallbacks msr_demo)
                                  (ms_writeCallbacks msr_demo) 1 0)), w').
Proof.
  assert (exists w', MsrHandler_handle msr_demo (mk_VCpu 5 0 8192 512) 8192 (msr_world KVM_EXIT_X86_WRMSR 9)
    = Ok ((true, mk_MsrHandler (ms_readCallbacks msr_demo) (ms_writeCallbacks msr_demo) 1 0), w'))
    as (w' & Hw) by (eexists; vm_compute; reflexivity).
  exists w'.
  apply (msr_writes_unreachable msr_demo _ _ _ (msr_page KVM_EXIT_X86_WRMSR 9) _ _ _ ∅) in Hw as [_ Hw];
    [exact Hw | apply msr_page_at; by right |].
  vm_compute. by do 2 right; left.
Defined.
