(* ===== verification/Dispatcher.v ===== *)
(** * Events and the event bus (EventDispatcher.h, EventDispatcher.cpp)

    Subscriptions are kept in a vector in the order they were made and carry an
    id; [publish] walks the vector and calls the handlers whose filter matches.
    The abstract view of the bus is a finite map from ids to subscriptions. *)

From S2P Require Import Prelude Host SimKvm.
From stdpp Require Import base list gmap strings sorting.
From Stdlib Require Import ZArith Lia.
Open Scope Z_scope.
Open Scope hv_scope.

Inductive EventType :=
| CpuidAccess | IoRead | IoWrite | MsrRead | MsrWrite | MemAccess | GuestHalt | GuestShutdown.

#[export] Instance EventType_eq_dec : EqDecision EventType.
Proof. solve_decision. Defined.

Record CpuidEvent := mk_CpuidEvent {
  ce_leaf : Z; ce_subleaf : Z; ce_eax : Z; ce_ebx : Z; ce_ecx : Z; ce_edx : Z }.
Record IoEvent := mk_IoEvent { ie_port : Z; ie_size : Z; ie_value : Z; ie_isWrite : bool }.
Record MsrEvent := mk_MsrEvent { me_index : Z; me_value : Z; me_isWrite : bool }.
Record MmioEvent := mk_MmioEvent {
  xe_guest_phys_addr : Z; xe_size : Z; xe_value : Z; xe_isWrite : bool }.

Inductive EventPayload :=
| PCpuid (e : CpuidEvent)
| PIo (e : IoEvent)
| PMsr (e : MsrEvent)
| PMmio (e : MmioEvent)
| PMono.

Record HvEvent := mk_HvEvent {
  ev_type : EventType; ev_vcpu_id : Z; ev_rip : Z; ev_timestamp : Z; ev_payload : EventPayload }.

Abbreviation Handler K E := (HvEvent -> M (World K E) unit).

Record Subscription (K E : Type) := mk_Subscription {
  sub_id : Z; sub_filter : option EventType; sub_handler : Handler K E }.
Arguments mk_Subscription {K E} _ _ _.
Arguments sub_id {K E} _.
Arguments sub_filter {K E} _.
Arguments sub_handler {K E} _.

Record EventDispatcher (K E : Type) := mk_EventDispatcher {
  ed_subscriptions : list (Subscription K E);
  ed_nextId : Z;
  ed_publishedCount : Z }.
Arguments mk_EventDispatcher {K E} _ _ _.
Arguments ed_subscriptions {K E} _.
Arguments ed_nextId {K E} _.
Arguments ed_publishedCount {K E} _.

Section DispatcherModel.

Context {K : Type} `{Kernel K} {E : Type}.
Implicit Types (d : EventDispatcher K E) (w : World K E).

Definition EventDispatcher_new : EventDispatcher K E := mk_EventDispatcher [] 1 0.

(** [m_nextId++] on a [uint32_t], then [push_back]. *)
Definition add_subscription (f : option EventType) (handler : Handler K E) d
  : Z * EventDispatcher K E :=
  let id := ed_nextId d in
  (id, mk_EventDispatcher (ed_subscriptions d ++ [mk_Subscription id f handler])
                          (u32 (ed_nextId d + 1)) (ed_publishedCount d)).

Definition subscribe (type : EventType) (handler : Handler K E) d : Z * EventDispatcher K E :=
  add_subscription (Some type) handler d.

Definition subscribeAll (handler : Handler K E) d : Z * EventDispatcher K E :=
  add_subscription None handler d.

(** [std::erase_if]. *)
Definition unsubscribe (id : Z) d : EventDispatcher K E :=
  mk_EventDispatcher (List.filter (fun s => negb (sub_id s =? id)) (ed_subscriptions d))
                     (ed_nextId d) (ed_publishedCount d).

Definition sub_matches (ev : HvEvent) (s : Subscription K E) : bool :=
  match sub_filter s with
  | None => true
  | Some t => bool_decide (t = ev_type ev)
  end.

Fixpoint deliver (ev : HvEvent) (subs : list (Subscription K E)) : M (World K E) unit :=
  match subs with
  | [] => ret tt
  | s :: subs' =>
      (if sub_matches ev s then sub_handler s ev else ret tt) ;;;
      deliver ev subs'
  end.

Definition publish d (ev : HvEvent) : M (World K E) (EventDispatcher K E) :=
  let d' := mk_EventDispatcher (ed_subscriptions d) (ed_nextId d)
                               (u64 (ed_publishedCount d + 1)) in
  deliver ev (ed_subscriptions d') ;;;
  ret d'.

Definition publishedCount d : Z := ed_publishedCount d.

(** ** Invariant: ids are positive, strictly increasing along the vector, and
    below the next one. *)

Definition sub_ids d : list Z := sub_id <$> ed_subscriptions d.

Definition dispatcher_ok d : Prop :=
  StronglySorted Z.lt (sub_ids d) /\
  Forall (fun i => 1 <= i < ed_nextId d) (sub_ids d) /\ 1 <= ed_nextId d < 2 ^ 32.

Inductive disp_op :=
| OpSubscribe (f : option EventType) (handler : Handler K E)
| OpUnsubscribe (id : Z).

Definition apply_op d (o : disp_op) : EventDispatcher K E :=
  match o with
  | OpSubscribe f handler => snd (add_subscription f handler d)
  | OpUnsubscribe id => unsubscribe id d
  end.

Definition count_subscribes (ops : list disp_op) : Z :=
  Z.of_nat (length (List.filter (fun o => match o with OpSubscribe _ _ => true | _ => false end) ops)).

Lemma StronglySorted_snoc l x :
  StronglySorted Z.lt l -> Forall (fun y => y < x) l -> StronglySorted Z.lt (l ++ [x]).
Proof.
  intros Hs Hx. apply StronglySorted_app_2; [|done|repeat constructor].
  intros y z Hy ->%list_elem_of_singleton. rewrite Forall_forall in Hx. by apply Hx.
Qed.

Lemma subscribe_ok f handler d :
  dispatcher_ok d -> ed_nextId d + 1 < 2 ^ 32 ->
  dispatcher_ok (snd (add_subscription f handler d)) /\
  ed_nextId (snd (add_subscription f handler d)) = ed_nextId d + 1.
Proof.
  intros (Hs & Hf & Hn) Hlt. unfold dispatcher_ok, sub_ids in *; cbn [snd add_subscription
    ed_subscriptions ed_nextId]. rewrite fmap_app. cbn [fmap list_fmap sub_id].
  rewrite u32_small by (unfold is_u32; lia). split_and!; try lia.
  - apply StronglySorted_snoc; [done|]. eapply Forall_impl; [exact Hf|]. cbn. lia.
  - apply Forall_app. split; [eapply Forall_impl; [exact Hf|]; cbn; lia|].
    repeat constructor; lia.
Qed.

Lemma filter_ids (p : Z -> bool) (l : list (Subscription K E)) :
  sub_id <$> List.filter (fun s => p (sub_id s)) l = List.filter p (sub_id <$> l).
Proof.
  induction l as [|s l IH]; [done|]. cbn. destruct (p (sub_id s)); cbn; by rewrite ?IH.
Qed.

Lemma StronglySorted_filter (p : Z -> bool) l :
  StronglySorted Z.lt l -> StronglySorted Z.lt (List.filter p l).
Proof.
  induction 1 as [|x l Hs IH Hx]; [constructor|]. cbn. destruct (p x); [|done].
  constructor; [done|]. apply List.Forall_forall. intros y [Hy _]%List.filter_In.
  rewrite List.Forall_forall in Hx. by apply Hx.
Qed.

Lemma unsubscribe_ok id d :
  dispatcher_ok d -> dispatcher_ok (unsubscribe id d) /\ ed_nextId (unsubscribe id d) = ed_nextId d.
Proof.
  intros (Hs & Hf & Hn). split; [|done]. unfold dispatcher_ok, sub_ids in *. cbn.
  rewrite (filter_ids (fun i => negb (i =? id))). split_and!; try lia.
  - by apply StronglySorted_filter.
  - rewrite List.Forall_forall in *. intros y [Hy _]%List.filter_In. by apply Hf.
Qed.

Lemma apply_ops_ok ops d :
  dispatcher_ok d -> ed_nextId d + count_subscribes ops < 2 ^ 32 ->
  dispatcher_ok (fold_left apply_op ops d) /\
  ed_nextId (fold_left apply_op ops d) = ed_nextId d + count_subscribes ops.
Proof.
  revert d. induction ops as [|o ops IH]; intros d Hd Hn.
  - unfold count_subscribes in *. cbn in *. split; [done|lia].
  - cbn [fold_left]. destruct o as [f hd|id]; unfold count_subscribes in *; cbn in Hn |- *.
    + destruct (subscribe_ok f hd d Hd) as [Hd' Hn']; [lia|]. cbn in Hn'.
      destruct (IH _ Hd') as [H1 H2]; cbn in *; [lia|]. split; [done|lia].
    + destruct (unsubscribe_ok id d Hd) as [Hd' Hn'].
      destruct (IH _ Hd') as [H1 H2]; cbn in *; [lia|]. split; [done|lia].
Qed.

Lemma dispatcher_new_ok : dispatcher_ok EventDispatcher_new.
Proof. split_and!; try constructor; cbn; lia. Qed.

(** Unsubscribing the id that was just handed out gives the old vector back. *)
Lemma filter_keep_all (l : list (Subscription K E)) id :
  Forall (fun i => i < id) (sub_id <$> l) ->
  List.filter (fun s => negb (sub_id s =? id)) l = l.
Proof.
  induction l as [|s l IH]; [done|]. cbn. rewrite Forall_cons. intros [Hlt Hl].
  rewrite (proj2 (Z.eqb_neq _ _)) by lia. cbn. by rewrite IH.
Qed.

Lemma deliver_filter ev subs w :
  deliver ev subs w = mapM_ (fun s => sub_handler s ev) (List.filter (sub_matches ev) subs) w.
Proof.
  revert w. induction subs as [|s subs IH]; intros w; [done|]. cbn [deliver List.filter].
  destruct (sub_matches ev s); unfold bind.
  - cbn [mapM_]. unfold bind. destruct (sub_handler s ev w) as [[??]|]; [apply IH|done].
  - apply IH.
Qed.

End DispatcherModel.
Arguments disp_op K E : clear implicits.

(** ** The abstract bus: a finite map from ids to subscriptions *)

Section Refinement.

Context {K : Type} `{Kernel K} {E : Type}.
Implicit Types (d : EventDispatcher K E) (w : World K E).

Definition bus_entry : Type := option EventType * Handler K E.
Abbreviation bus := (gmap Z bus_entry).

Definition bus_op (s : bus * Z) (o : disp_op K E) : bus * Z :=
  match o with
  | OpSubscribe f handler => (<[s.2 := (f, handler)]> s.1, s.2 + 1)
  | OpUnsubscribe id => (delete id s.1, s.2)
  end.

Definition id_le (x y : Z * bus_entry) : Prop := x.1 <= y.1.
#[local] Instance id_le_dec : RelDecision id_le.
Proof. intros x y. unfold id_le. apply _. Defined.
#[local] Instance id_le_total : Total id_le.
Proof. intros x y. unfold id_le. lia. Qed.
#[local] Instance id_le_trans : Transitive id_le.
Proof. intros x y z. unfold id_le. lia. Qed.

(** Deliver to the entries that match, in the order of their ids. *)
Definition bus_deliver (b : bus) (ev : HvEvent) : M (World K E) unit :=
  mapM_ (fun e : Z * bus_entry =>
           if sub_matches ev (mk_Subscription e.1 e.2.1 e.2.2) then e.2.2 ev else ret tt)
        (merge_sort id_le (map_to_list b)).

Definition entry_of (s : Subscription K E) : Z * bus_entry :=
  (sub_id s, (sub_filter s, sub_handler s)).

Definition abs_bus d : bus := list_to_map (entry_of <$> ed_subscriptions d).

Lemma entry_ids (l : list (Subscription K E)) : (entry_of <$> l).*1 = sub_id <$> l.
Proof. rewrite <-list_fmap_compose. done. Qed.

Lemma sorted_NoDup l : StronglySorted Z.lt l -> NoDup l.
Proof.
  induction 1 as [|x l Hs IH Hx]; constructor; [|done].
  intros Hin. rewrite Forall_forall in Hx. specialize (Hx _ Hin). lia.
Qed.

Lemma sorted_entries (l : list (Subscription K E)) :
  StronglySorted Z.lt (sub_id <$> l) -> StronglySorted id_le (entry_of <$> l).
Proof.
  induction l as [|s l IH]; [constructor|]. cbn. intros Hs.
  apply StronglySorted_inv in Hs as [Hs Hx]. constructor; [auto|].
  rewrite Forall_fmap in Hx. apply Forall_fmap. eapply Forall_impl; [exact Hx|].
  unfold id_le; cbn. lia.
Qed.

Lemma abs_unsubscribe (l : list (Subscription K E)) id :
  list_to_map (M := bus) (entry_of <$> List.filter (fun s => negb (sub_id s =? id)) l)
  = delete id (list_to_map (M := bus) (entry_of <$> l)).
Proof.
  induction l as [|s l IH]; cbn; [by rewrite delete_empty|].
  destruct (Z.eqb_spec (sub_id s) id) as [<-|Hne]; cbn; rewrite IH.
  - by rewrite delete_insert_eq.
  - by rewrite delete_insert_ne.
Qed.

Lemma abs_step d o :
  dispatcher_ok d -> ed_nextId d + 1 < 2 ^ 32 ->
  (abs_bus (apply_op d o), ed_nextId (apply_op d o)) = bus_op (abs_bus d, ed_nextId d) o.
Proof.
  intros Hd Hn. destruct o as [f hd|id]; cbn; unfold abs_bus; cbn.
  - rewrite fmap_app, u32_small by (destruct Hd as (_ & _ & ?); unfold is_u32; lia).
    cbn [fmap list_fmap]. unfold entry_of at 2. cbn [sub_id sub_filter sub_handler].
    rewrite list_to_map_snoc; [done|]. rewrite entry_ids.
    destruct Hd as (_ & Hf & _). intros Hin. rewrite Forall_forall in Hf.
    specialize (Hf _ Hin). cbn in Hf. lia.
  - by rewrite abs_unsubscribe.
Qed.

Lemma abs_steps ops d :
  dispatcher_ok d -> ed_nextId d + count_subscribes ops < 2 ^ 32 - 1 ->
  (abs_bus (fold_left apply_op ops d), ed_nextId (fold_left apply_op ops d))
  = fold_left bus_op ops (abs_bus d, ed_nextId d).
Proof.
  revert d. induction ops as [|o ops IH]; intros d Hd Hn; [done|]. cbn [fold_left].
  assert (ed_nextId d + 1 < 2 ^ 32) by (unfold count_subscribes in Hn; lia).
  assert (count_subscribes (o :: ops) = count_subscribes [o] + count_subscribes ops) as Hc.
  { unfold count_subscribes. destruct o; cbn; lia. }
  destruct (apply_ops_ok [o] d Hd) as [Hd' Hn']; [unfold count_subscribes in *; lia|].
  cbn [fold_left] in Hd', Hn'. rewrite IH by (done || lia). by rewrite abs_step.
Qed.

Lemma abs_deliver d ev w :
  dispatcher_ok d -> deliver ev (ed_subscriptions d) w = bus_deliver (abs_bus d) ev w.
Proof.
  intros (Hs & _). unfold bus_deliver, abs_bus.
  assert (merge_sort id_le (map_to_list (list_to_map (M := bus) (entry_of <$> ed_subscriptions d)))
          = entry_of <$> ed_subscriptions d) as ->.
  { assert (NoDup (entry_of <$> ed_subscriptions d).*1) as Hnd
      by (rewrite entry_ids; by apply sorted_NoDup).
    assert (Permutation (merge_sort id_le (map_to_list (list_to_map (M := bus)
              (entry_of <$> ed_subscriptions d)))) (entry_of <$> ed_subscriptions d)) as Hp.
    { rewrite merge_sort_Permutation. by apply map_to_list_to_map. }
    apply (StronglySorted_unique_strong id_le); [| |by apply sorted_entries|done].
    - intros x1 x2 H1 H2 H12 H21. rewrite Hp in H1.
      destruct x1 as [i a], x2 as [j b]. unfold id_le in *; cbn in *.
      assert (i = j) as -> by lia. f_equal.
      apply (elem_of_list_to_map_1 (M := gmap Z)) in H1, H2; [|done|done]. congruence.
    - apply (StronglySorted_merge_sort id_le). }
  generalize (ed_subscriptions d). clear Hs. intros l. revert w.
  induction l as [|s l IH]; intros w; [done|]. cbn. unfold bind.
  destruct s as [i f hd]; cbn.
  destruct (if sub_matches _ _ then _ else _) as [[[] w']|]; [apply IH|done].
Qed.

End Refinement.

(** ** Properties *)

(** C3. After any sequence of subscribe, subscribeAll and unsubscribe calls
    (fewer than 2^32 - 2 of them subscriptions), the dispatcher is the finite
    map those calls describe, where a subscription gets the next fresh id and
    unsubscribing deletes its entry, and publishing an event calls the
    handlers of the matching entries in the order of their ids, each once,
    stopping only at a fault, and adds one to the published count. *)
Theorem dispatcher_refines_bus {K} `{Kernel K} {E} (ops : list (disp_op K E)) ev (w : World K E) :
  count_subscribes ops < 2 ^ 32 - 2 ->
  let d := fold_left apply_op ops EventDispatcher_new in
  abs_bus d = (fold_left bus_op ops (∅, 1)).1 /\
  publish d ev w =
    match bus_deliver (abs_bus d) ev w with
    | Ok (_, w') => Ok (mk_EventDispatcher (ed_subscriptions d) (ed_nextId d)
                          (u64 (publishedCount d + 1)), w')
    | Fault f => Fault f
    end.
Proof.
  intros Hn d.
  pose proof (abs_steps ops EventDispatcher_new dispatcher_new_ok) as Ha. cbn in Ha.
  rewrite <-Ha by lia. split; [done|].
  destruct (apply_ops_ok ops EventDispatcher_new dispatcher_new_ok) as [Hd _]; [cbn; lia|].
  fold d in Hd. unfold publish, bind. cbn [ed_subscriptions].
  rewrite (abs_deliver d ev w Hd). by destruct (bus_deliver _ _ _) as [[]|].
Qed.

(** The first unit test: one IoRead subscriber, one catch-all; the counters
    they increment are the environment. *)
Definition count_io : Handler SimK (Z * Z) :=
  fun _ w => Ok (tt, mk_world (w_host w) ((w_env w).1 + 1, (w_env w).2)).
Definition count_all : Handler SimK (Z * Z) :=
  fun _ w => Ok (tt, mk_world (w_host w) ((w_env w).1, (w_env w).2 + 1)).
Definition test_bus : list (disp_op SimK (Z * Z)) :=
  [OpSubscribe (Some IoRead) count_io; OpSubscribe None count_all].
Definition test_io_event : HvEvent :=
  mk_HvEvent IoRead 0 0x1000 0 (PIo (mk_IoEvent 0x60 1 0x41 false)).

Lemma dispatcher_refines_bus_witness :
  let d := fold_left apply_op test_bus EventDispatcher_new in
  abs_bus d = (fold_left bus_op test_bus (∅, 1)).1 /\
  publish d test_io_event (sim_world (sim_init []) ∅ (0, 0)) =
  Ok (mk_EventDispatcher (ed_subscriptions d) 3 1, sim_world (sim_init []) ∅ (1, 1)).
Proof.
  intros d.
  destruct (dispatcher_refines_bus test_bus test_io_event (sim_world (sim_init []) ∅ (0, 0)))
    as [Ha Hp]; [vm_compute; reflexivity|].
  split; [exact Ha|]. fold d in Hp. rewrite Hp. vm_compute. reflexivity.
Defined.

(** Unsubscribing with the id a subscription call returned restores
    exactly the subscriptions there were before the call, for every dispatcher
    reachable with fewer than 2^32 - 2 subscriptions: no other subscriber is
    affected and none of the old ones shares the id. *)
Lemma subscribe_unsubscribe {K} `{Kernel K} {E} (ops : list (disp_op K E)) f handler :
  count_subscribes ops < 2 ^ 32 - 2 ->
  let d := fold_left apply_op ops EventDispatcher_new in
  let '(id, d') := add_subscription f handler d in
  ed_subscriptions (unsubscribe id d') = ed_subscriptions d /\
  (id ∉ sub_ids d) /\ id <> 0 /\ sub_ids d' = sub_ids d ++ [id].
Proof.
  intros Hn d. cbn.
  destruct (apply_ops_ok ops EventDispatcher_new dispatcher_new_ok) as [Hd _]; [cbn; lia|].
  fold d in Hd. destruct Hd as (_ & Hf & Hid).
  assert (Forall (fun i => i < ed_nextId d) (sub_ids d)) as Hlt
    by (eapply Forall_impl; [exact Hf|]; cbn; lia).
  split; [|split; [|split]].
  - rewrite List.filter_app. cbn. rewrite Z.eqb_refl. cbn. rewrite app_nil_r.
    by apply filter_keep_all.
  - intros Hin. rewrite Forall_forall in Hlt. specialize (Hlt _ Hin). lia.
  - lia.
  - unfold sub_ids. cbn. by rewrite fmap_app.
Qed.

Lemma subscribe_unsubscribe_witness :
  let d := fold_left apply_op test_bus EventDispatcher_new in
  ed_subscriptions (unsubscribe 3 (snd (add_subscription (Some GuestHalt) count_io d)))
  = ed_subscriptions d.
Proof.
  intros d.
  apply (subscribe_unsubscribe test_bus (Some GuestHalt) count_io). vm_compute. reflexivity.
Defined.
