(* ===== verification/Reentrant.v ===== *)
(** * Handlers that call the bus back

    In Dispatcher a handler acts on the world and not on the bus it is called
    from.  In C++ it may: handlers run inside [publish], on the same object.
    Here the bus is a shared object and a handler is a script of what it does to
    it: publish, subscribe, unsubscribe, and act on what it captures.  A nested
    [publish] runs depth first.  A call that changes the vector of
    subscriptions while a loop is walking it invalidates that loop's iterators
    (at least the end, which is compared on every pass), so the loop faults at
    its next step. *)

From S2P Require Import Prelude Host SimKvm Dispatcher.
From stdpp Require Import base list gmap strings.
From Stdlib Require Import ZArith Lia.
Open Scope Z_scope.
Open Scope hv_scope.

Section Bus.

(** What handlers capture besides the bus. *)
Context {U : Type}.

Inductive script :=
| Stop
| Act (f : U -> U) (k : script)
| Look (k : U -> script)
| Publish (ev : HvEvent) (k : script)
| Subscribe (f : option EventType) (h : HvEvent -> script) (k : Z -> script)
| Unsubscribe (id : Z) (k : script).

Record entry := mk_entry {
  en_id : Z;
  en_filter : option EventType;
  en_handler : HvEvent -> script }.

(** The dispatcher, and how often its vector has been changed. *)
Record SharedBus := mk_bus {
  b_subs : list entry;
  b_nextId : Z;
  b_count : Z;
  b_changes : nat }.

Implicit Types (b : SharedBus) (s : SharedBus * U) (p : script).

Definition bus_subscribe (f : option EventType) (h : HvEvent -> script) b : Z * SharedBus :=
  (b_nextId b, mk_bus (b_subs b ++ [mk_entry (b_nextId b) f h]) (u32 (b_nextId b + 1)) (b_count b)
                      (S (b_changes b))).

(** [std::erase_if] invalidates iterators only if it removes something. *)
Definition bus_unsubscribe (id : Z) b : SharedBus :=
  let keep := List.filter (fun e => negb (en_id e =? id)) (b_subs b) in
  mk_bus keep (b_nextId b) (b_count b)
         (if (length keep =? length (b_subs b))%nat then b_changes b else S (b_changes b)).

Definition matches (ev : HvEvent) (e : entry) : bool :=
  match en_filter e with
  | None => true
  | Some t => bool_decide (t = ev_type ev)
  end.

(** [None] says that the calls nest deeper than the stack that was given. *)
Definition result : Type := outcome (option (SharedBus * U)).

Definition and_then (r : result) (k : SharedBus * U -> result) : result :=
  match r with
  | Ok (Some s) => k s
  | r => r
  end.

(** A handler runs; [pub] is the nested [publish]. *)
Fixpoint perform (pub : HvEvent -> SharedBus * U -> result) p s : result :=
  match p with
  | Stop => Ok (Some s)
  | Act f k => perform pub k (s.1, f s.2)
  | Look k => perform pub (k s.2) s
  | Publish ev k => and_then (pub ev s) (perform pub k)
  | Subscribe f h k => let '(id, b) := bus_subscribe f h s.1 in perform pub (k id) (b, s.2)
  | Unsubscribe id k => perform pub k (bus_unsubscribe id s.1, s.2)
  end.

(** The loop over the vector, begun when it had been changed [n] times. *)
Fixpoint bus_walk (pub : HvEvent -> SharedBus * U -> result) (ev : HvEvent) (n : nat) (es : list entry) s : result :=
  match es with
  | [] => Ok (Some s)
  | e :: es' =>
      and_then (if matches ev e then perform pub (en_handler e ev) s else Ok (Some s))
               (fun s' => if (b_changes s'.1 =? n)%nat then bus_walk pub ev n es' s' else Fault UseAfterFree)
  end.

Definition counted b : SharedBus := mk_bus (b_subs b) (b_nextId b) (u64 (b_count b + 1)) (b_changes b).

(** [publish], with a stack for [depth] nested calls. *)
Fixpoint bus_publish (depth : nat) (ev : HvEvent) s : result :=
  match depth with
  | O => Ok None
  | S depth' =>
      let b := counted s.1 in
      bus_walk (bus_publish depth') ev (b_changes b) (b_subs b) (b, s.2)
  end.

(** ** A delivery that completes has left the subscriptions alone *)

(** Nothing but the count differs. *)
Definition same_subs b b' : Prop := b_subs b' = b_subs b /\ b_nextId b' = b_nextId b.

(** The number of changes only grows, and if it has not grown, nothing has
    changed. *)
Definition grows b b' : Prop :=
  (b_changes b <= b_changes b')%nat /\ (b_changes b' = b_changes b -> same_subs b b').

Lemma grows_refl b : grows b b.
Proof. by repeat split. Qed.

Lemma grows_trans b1 b2 b3 : grows b1 b2 -> grows b2 b3 -> grows b1 b3.
Proof.
  intros [H1 H2] [H3 H4]. split; [lia|]. intros He.
  destruct (H2 ltac:(lia)), (H4 ltac:(lia)). split; congruence.
Qed.

Lemma filter_all (q : entry -> bool) l : length (List.filter q l) = length l -> List.filter q l = l.
Proof.
  induction l as [|e l IH]; [done|]. cbn. pose proof (List.filter_length_le q l).
  destruct (q e); cbn; intros Hl; [by rewrite IH by lia|lia].
Qed.

Lemma unsubscribe_grows id b : grows b (bus_unsubscribe id b).
Proof.
  unfold bus_unsubscribe. destruct (_ =? _)%nat eqn:El; split; cbn; try lia.
  intros _. apply Nat.eqb_eq in El. split; [by apply filter_all|done].
Qed.

Lemma subscribe_grows f h b : grows b (bus_subscribe f h b).2.
Proof. split; cbn; lia. Qed.

Definition pub_grows (pub : HvEvent -> SharedBus * U -> result) : Prop :=
  forall ev s s', pub ev s = Ok (Some s') -> grows s.1 s'.1.

Lemma and_then_inv r k s : and_then r k = Ok (Some s) -> exists s1, r = Ok (Some s1) /\ k s1 = Ok (Some s).
Proof. destruct r as [[s1|]|]; cbn; [eauto|done|done]. Qed.

Lemma perform_grows pub p s s' :
  pub_grows pub -> perform pub p s = Ok (Some s') -> grows s.1 s'.1.
Proof.
  intros Hpub. revert s. induction p as [|f k IH|k IH|ev k IH|f h _ k IH|id k IH]; intros s Hp; cbn [perform] in Hp.
  - injection Hp as <-. apply grows_refl.
  - by apply IH in Hp.
  - by apply IH in Hp.
  - apply and_then_inv in Hp as (s1 & E1 & Hp). eapply grows_trans; [by eapply Hpub|by apply IH].
  - apply IH in Hp. eapply grows_trans; [apply (subscribe_grows f h)|exact Hp].
  - apply IH in Hp. eapply grows_trans; [apply (unsubscribe_grows id)|exact Hp].
Qed.

Lemma walk_grows pub ev n es s s' :
  pub_grows pub -> bus_walk pub ev n es s = Ok (Some s') -> b_changes s.1 = n ->
  grows s.1 s'.1 /\ b_changes s'.1 = n.
Proof.
  intros Hpub. revert s. induction es as [|e es IH]; intros s Hw Hn; cbn [bus_walk] in Hw.
  - injection Hw as <-. split; [apply grows_refl|done].
  - apply and_then_inv in Hw as (s1 & E1 & Hw). destruct (_ =? n)%nat eqn:En; [|done]. apply Nat.eqb_eq in En.
    destruct (IH s1 Hw En) as [Hg H1]. split; [|done]. eapply grows_trans; [|exact Hg].
    destruct (matches ev e); [by eapply perform_grows|]. injection E1 as <-. apply grows_refl.
Qed.

Lemma publish_grows depth : pub_grows (bus_publish depth).
Proof.
  induction depth as [|depth IH]; intros ev s s' Hp; [done|]. cbn [bus_publish] in Hp.
  apply walk_grows in Hp as [Hg _]; [exact Hg|exact IH|done].
Qed.

Lemma publish_stable depth ev s s' :
  bus_publish depth ev s = Ok (Some s') ->
  same_subs s.1 s'.1 /\ b_changes s'.1 = b_changes s.1.
Proof.
  destruct depth as [|depth]; [done|]. intros Hp. cbn [bus_publish] in Hp.
  apply walk_grows in Hp as [[_ Hs] Hn]; [|apply publish_grows|done]. cbn in Hs, Hn. auto.
Qed.

(** Every matching handler of a completed delivery ran between two states whose
    vector is the one the loop walks. *)
Lemma walk_member pub ev n es s s' e :
  pub_grows pub -> bus_walk pub ev n es s = Ok (Some s') -> b_changes s.1 = n -> e ∈ es -> matches ev e = true ->
  exists s1 s2, perform pub (en_handler e ev) s1 = Ok (Some s2) /\
    b_changes s1.1 = n /\ b_changes s2.1 = n /\ same_subs s.1 s1.1.
Proof.
  intros Hpub. revert s. induction es as [|e0 es IH]; intros s Hw Hn He Hm; [by apply elem_of_nil in He|].
  cbn [bus_walk] in Hw. apply and_then_inv in Hw as (s1 & E1 & Hw).
  destruct (_ =? n)%nat eqn:En; [|done]. apply Nat.eqb_eq in En.
  apply elem_of_cons in He as [->|He].
  - rewrite Hm in E1. exists s, s1. split; [done|]. split; [done|]. split; [done|]. by split.
  - destruct (IH s1 Hw En He Hm) as (s2 & s3 & H1 & H2 & H3 & [H4 H5]). exists s2, s3.
    split; [done|]. split; [done|]. split; [done|].
    assert (grows s.1 s1.1) as [_ Hg].
    { destruct (matches ev e0); [by eapply perform_grows|]. injection E1 as <-. apply grows_refl. }
    destruct Hg as [H6 H7]; [congruence|]. split; congruence.
Qed.

(** A script that begins by changing the vector [es]. *)
Definition meddles (es : list entry) (p : script) : bool :=
  match p with
  | Subscribe _ _ _ => true
  | Unsubscribe id _ => existsb (fun e => en_id e =? id) es
  | _ => false
  end.

Lemma unsubscribe_changes id b :
  existsb (fun e => en_id e =? id) (b_subs b) = true -> b_changes (bus_unsubscribe id b) = S (b_changes b).
Proof.
  intros He. unfold bus_unsubscribe. destruct (_ =? _)%nat eqn:El; [|done]. exfalso.
  apply Nat.eqb_eq, filter_all in El. apply List.existsb_exists in He as (e & Hin & Hid).
  rewrite <-El in Hin. apply List.filter_In in Hin as [_ Hn]. by rewrite Hid in Hn.
Qed.

Lemma meddling_grows pub p s s' :
  pub_grows pub -> meddles (b_subs s.1) p = true -> perform pub p s = Ok (Some s') ->
  (b_changes s.1 < b_changes s'.1)%nat.
Proof.
  intros Hpub Hm Hp. destruct p as [| | | |f h k|id k]; try done; cbn [perform meddles] in *.
  - apply perform_grows in Hp as [Hp _]; [|done]. cbn in Hp. lia.
  - apply perform_grows in Hp as [Hp _]; [|done]. cbn [fst] in Hp. rewrite unsubscribe_changes in Hp by done. lia.
Qed.

Lemma publish_meddler depth ev s s' e :
  bus_publish depth ev s = Ok (Some s') -> e ∈ b_subs s.1 -> matches ev e = true ->
  meddles (b_subs s.1) (en_handler e ev) = false.
Proof.
  destruct depth as [|depth]; [done|]. cbn [bus_publish]. intros Hp He Hm.
  destruct (walk_member _ _ _ _ _ _ e (publish_grows depth) Hp eq_refl He Hm) as (s1 & s2 & H1 & H2 & H3 & [H4 _]).
  destruct (meddles _ _) eqn:Ed; [|done]. cbn in H4. rewrite <-H4 in Ed.
  apply meddling_grows in H1; [lia|apply publish_grows|done].
Qed.

(** ** More stack changes nothing *)

(** [r'] is [r], unless [r] ran out of stack. *)
Definition extends (r r' : result) : Prop := r = Ok None \/ r' = r.

Lemma extends_refl r : extends r r.
Proof. by right. Qed.

Lemma extends_and_then r r' k k' :
  extends r r' -> (forall s, extends (k s) (k' s)) -> extends (and_then r k) (and_then r' k').
Proof.
  intros [->| ->] Hk; [by left|]. destruct r as [[s|]|f]; cbn; [apply Hk|by left|by right].
Qed.

Lemma perform_extends pub pub' p s :
  (forall ev s, extends (pub ev s) (pub' ev s)) -> extends (perform pub p s) (perform pub' p s).
Proof.
  intros Hpub. revert s. induction p as [|f k IH|k IH|ev k IH|f h _ k IH|id k IH]; intros s; cbn [perform];
    try apply IH; [by right|]. by apply extends_and_then.
Qed.

Lemma walk_extends pub pub' ev n es s :
  (forall ev s, extends (pub ev s) (pub' ev s)) -> extends (bus_walk pub ev n es s) (bus_walk pub' ev n es s).
Proof.
  intros Hpub. revert s. induction es as [|e es IH]; intros s; cbn [bus_walk]; [by right|].
  apply extends_and_then; [destruct (matches ev e); [by apply perform_extends|by right]|].
  intros s'. destruct (_ =? n)%nat; [apply IH|by right].
Qed.

Lemma publish_extends depth depth' ev s :
  (depth <= depth')%nat -> extends (bus_publish depth ev s) (bus_publish depth' ev s).
Proof.
  revert depth' ev s. induction depth as [|depth IH]; intros depth' ev s Hd; [by left|].
  destruct depth' as [|depth']; [lia|]. cbn [bus_publish]. apply walk_extends.
  intros ev' s'. apply IH. lia.
Qed.

(** ** Handlers that publish events of a lower rank only *)

Section Ranked.

Context (rank : HvEvent -> nat).

(** A script that leaves the subscriptions alone and publishes events of a rank
    below [n]. *)
Inductive tame (n : nat) : script -> Prop :=
| tame_stop : tame n Stop
| tame_act f k : tame n k -> tame n (Act f k)
| tame_look k : (forall u, tame n (k u)) -> tame n (Look k)
| tame_publish ev k : (rank ev < n)%nat -> tame n k -> tame n (Publish ev k).

(** A handler of a matching event publishes below it. *)
Definition stratified (es : list entry) : Prop :=
  Forall (fun e => forall ev, matches ev e = true -> tame (rank ev) (en_handler e ev)) es.

(** A publication that completes, from any state with these subscriptions. *)
Definition completes (es : list entry) (r : SharedBus * U -> result) : Prop :=
  forall s, b_subs s.1 = es ->
  exists s', r s = Ok (Some s') /\ b_subs s'.1 = es /\ b_changes s'.1 = b_changes s.1.

Lemma perform_completes es pub n p :
  (forall ev, (rank ev < n)%nat -> completes es (pub ev)) -> tame n p -> completes es (perform pub p).
Proof.
  intros Hpub Hp. induction Hp as [|f k Hk IH|k Hk IH|ev k Hr Hk IH]; intros s Hs; cbn [perform].
  - by exists s.
  - by apply (IH (s.1, f s.2)).
  - by apply IH.
  - destruct (Hpub ev Hr s Hs) as (s1 & -> & H1 & H2). cbn [and_then].
    destruct (IH s1 H1) as (s2 & -> & H3 & H4). exists s2. split; [done|]. split; [done|]. congruence.
Qed.

Lemma walk_completes all pub ev es :
  (forall ev', (rank ev' < rank ev)%nat -> completes all (pub ev')) -> stratified es ->
  forall s, b_subs s.1 = all ->
  exists s', bus_walk pub ev (b_changes s.1) es s = Ok (Some s') /\ b_subs s'.1 = all /\ b_changes s'.1 = b_changes s.1.
Proof.
  intros Hpub Hes. induction Hes as [|e es He _ IH]; intros s Hs; cbn [bus_walk]; [by exists s|].
  assert (exists s1, (if matches ev e then perform pub (en_handler e ev) s else Ok (Some s)) = Ok (Some s1) /\
    b_subs s1.1 = all /\ b_changes s1.1 = b_changes s.1) as (s1 & -> & H1 & H2).
  { destruct (matches ev e) eqn:Em; [|by exists s].
    by apply (perform_completes all pub (rank ev)); [|apply He|]. }
  cbn [and_then]. rewrite H2, Nat.eqb_refl. destruct (IH s1 H1) as (s2 & E2 & H3 & H4).
  rewrite H2 in E2. exists s2. split; [done|]. split; [done|]. congruence.
Qed.

Lemma publish_completes es depth ev :
  stratified es -> (rank ev < depth)%nat -> completes es (bus_publish depth ev).
Proof.
  intros Hes. revert ev. induction depth as [|depth IH]; intros ev Hr s Hs; [lia|]. cbn [bus_publish].
  destruct (walk_completes es (bus_publish depth) ev (b_subs (counted s.1))) with (s := (counted s.1, s.2))
    as (s' & E & H1 & H2); [|by rewrite <-Hs in Hes|done|by exists s'].
  intros ev' Hr'. apply IH. lia.
Qed.

End Ranked.

(** ** Handlers that leave the bus alone *)

(** A script that does not call the bus, and what it does. *)
Inductive plain : script -> Prop :=
| plain_stop : plain Stop
| plain_act f k : plain k -> plain (Act f k)
| plain_look k : (forall u, plain (k u)) -> plain (Look k).

Fixpoint effect p (u : U) : U :=
  match p with
  | Act f k => effect k (f u)
  | Look k => effect (k u) u
  | _ => u
  end.

Lemma perform_plain pub p s : plain p -> perform pub p s = Ok (Some (s.1, effect p s.2)).
Proof.
  intros Hp. revert s. induction Hp as [|f k Hk IH|k Hk IH]; intros s; cbn [perform effect].
  - by destruct s.
  - by rewrite IH.
  - by rewrite IH.
Qed.

Context {K : Type} `{Kernel K}.

(** The dispatcher of Dispatcher, its handlers acting on what they capture. *)
Definition as_handler (h : HvEvent -> script) : Handler K U :=
  fun ev w => Ok (tt, mk_world (w_host w) (effect (h ev) (w_env w))).

Definition as_subscription (e : entry) : Subscription K U :=
  mk_Subscription (en_id e) (en_filter e) (as_handler (en_handler e)).

Definition as_dispatcher b : EventDispatcher K U :=
  mk_EventDispatcher (as_subscription <$> b_subs b) (b_nextId b) (b_count b).

Lemma walk_plain pub ev b es u (w : World K U) :
  Forall (fun e => forall ev, plain (en_handler e ev)) es -> w_env w = u ->
  exists u', bus_walk pub ev (b_changes b) es (b, u) = Ok (Some (b, u')) /\
    deliver ev (as_subscription <$> es) w = Ok (tt, mk_world (w_host w) u').
Proof.
  intros Hes. revert u w. induction Hes as [|e es He _ IH]; intros u w Hw.
  { exists u. split; [done|]. subst u. by destruct w. }
  cbn [bus_walk fmap list_fmap deliver]. unfold bind.
  change (sub_matches ev (as_subscription e)) with (matches ev e). destruct (matches ev e).
  - rewrite perform_plain by done. cbn [and_then fst snd]. rewrite Nat.eqb_refl.
    destruct (IH (effect (en_handler e ev) u) (mk_world (w_host w) (effect (en_handler e ev) u)) eq_refl)
      as (u' & H1 & H2).
    exists u'. split; [done|]. cbn [as_subscription sub_handler as_handler]. rewrite Hw. exact H2.
  - cbn [and_then fst snd]. rewrite Nat.eqb_refl. exact (IH u w Hw).
Qed.

End Bus.
Arguments script U : clear implicits.
Arguments entry U : clear implicits.
Arguments SharedBus U : clear implicits.

(** ** Properties *)

(** A delivery that completes has left the subscriptions as they were:
    however deep the calls nest and whatever else the handlers do, the vector and
    the next id are the same afterwards, and no handler that was called began by
    subscribing or by unsubscribing a live id.  So a handler that does is called
    only by deliveries that do not complete: they walk on with invalid
    iterators, which is a use after free. *)
Lemma completed_delivery_stable {U} depth ev (b b' : SharedBus U) (u u' : U) :
  bus_publish depth ev (b, u) = Ok (Some (b', u')) ->
  b_subs b' = b_subs b /\ b_nextId b' = b_nextId b /\
  Forall (fun e => matches ev e = true -> meddles (b_subs b) (en_handler e ev) = false) (b_subs b).
Proof.
  intros Hp. destruct (publish_stable depth ev (b, u) (b', u') Hp) as [[H1 H2] _].
  split; [done|]. split; [done|]. apply Forall_forall. intros e He Hm. exact (publish_meddler _ _ _ _ e Hp He Hm).
Qed.

(** A subscriber that counts its events, and one that wants to see one only. *)
Definition counter (ev : HvEvent) : script nat := Act S Stop.
Definition once (id : Z) (ev : HvEvent) : script nat := Act S (Unsubscribe id Stop).
Definition halt_event : HvEvent := mk_HvEvent GuestHalt 0 0 0 PMono.
Definition io_event : HvEvent := mk_HvEvent IoRead 0 0 0 (PIo (mk_IoEvent 0x60 1 0 false)).
Definition counting_bus : SharedBus nat := mk_bus [mk_entry 1 None counter; mk_entry 2 (Some GuestHalt) counter] 3 0 2.

Lemma completed_delivery_stable_witness :
  bus_publish 1 halt_event (counting_bus, O) = Ok (Some (counted counting_bus, 2%nat)) /\
  b_subs (counted counting_bus) = b_subs counting_bus.
Proof.
  split; [reflexivity|].
  apply (completed_delivery_stable 1 halt_event counting_bus (counted counting_bus) O 2%nat). reflexivity.
Defined.

(** The subscriber that unsubscribes itself faults, even as the last of the
    vector. *)
Lemma once_faults depth :
  bus_publish (S depth) halt_event (mk_bus [mk_entry 1 None (once 1)] 2 0 1, O) = Fault UseAfterFree.
Proof. reflexivity. Qed.

(** A subscriber that publishes the event it is called for never comes back. *)
Lemma echo_never_returns {U} depth (u : U) b :
  b_subs b = [mk_entry 1 None (fun ev => Publish ev Stop)] ->
  bus_publish depth halt_event (b, u) = Ok None.
Proof.
  revert b u. induction depth as [|depth IH]; intros b u Hb; [done|]. cbn [bus_publish fst snd].
  cbn [counted b_subs b_changes]. rewrite Hb. cbn [bus_walk matches en_filter en_handler perform]. by rewrite IH.
Qed.

(** C23. Nested publication terminates where it is stratified: if the handlers
    of an event publish events of a lower rank only, and leave the subscriptions
    alone, then [publish] completes with as much stack as the rank of its event
    needs, and more stack does not change what it does. *)
Theorem stratified_publish_completes {U} (rank : HvEvent -> nat) ev (b : SharedBus U) (u : U) :
  stratified rank (b_subs b) ->
  exists b' u', b_subs b' = b_subs b /\ b_nextId b' = b_nextId b /\
    forall depth, (rank ev < depth)%nat -> bus_publish depth ev (b, u) = Ok (Some (b', u')).
Proof.
  intros Hs. destruct (publish_completes rank (b_subs b) (S (rank ev)) ev Hs ltac:(lia) (b, u) eq_refl)
    as ([b' u'] & Hp & _). exists b', u'.
  destruct (publish_stable _ _ _ _ Hp) as [[H1 H2] _]. split; [done|]. split; [done|].
  intros depth Hd. destruct (publish_extends (S (rank ev)) depth ev (b, u) ltac:(lia)) as [He|He]; congruence.
Qed.

(** A monitor that turns every I/O event into a halt: two levels. *)
Definition monitor (ev : HvEvent) : script nat := Publish halt_event (Act S Stop).
Definition monitored_bus : SharedBus nat := mk_bus [mk_entry 1 (Some IoRead) monitor; mk_entry 2 (Some GuestHalt) counter] 3 0 2.
Definition io_rank (ev : HvEvent) : nat := match ev_type ev with IoRead => 1%nat | _ => O end.

Lemma stratified_publish_completes_witness :
  exists b' u', b_subs b' = b_subs monitored_bus /\
    bus_publish 2 io_event (monitored_bus, O) = Ok (Some (b', u')) /\ u' = 2%nat /\ b_count b' = 2.
Proof.
  destruct (stratified_publish_completes io_rank io_event monitored_bus O) as (b' & u' & Hs & _ & Hp).
  - apply List.Forall_cons; [|apply List.Forall_cons; [|constructor]]; intros ev Hm.
    + constructor; [|repeat constructor]. unfold matches in Hm. cbn in Hm. apply bool_decide_eq_true in Hm.
      unfold io_rank. rewrite <-Hm. cbn. lia.
    + repeat constructor.
  - specialize (Hp 2%nat ltac:(cbn; lia)). exists b', u'. split; [exact Hs|]. split; [exact Hp|].
    vm_compute in Hp. by injection Hp as <- <-.
Defined.

(** Where no handler calls the bus, the shared bus is the dispatcher of
    Dispatcher: subscribing and unsubscribing are the same on both, and
    publishing, with any stack at all, calls the same handlers in the same
    order with the same effect and advances the same count. *)
Lemma plain_bus_is_dispatcher {K} `{Kernel K} {U} (b : SharedBus U) ev (w : World K U) :
  Forall (fun e => forall ev, plain (en_handler e ev)) (b_subs b) ->
  (forall f h, add_subscription f (as_handler h) (as_dispatcher b)
               = ((bus_subscribe f h b).1, as_dispatcher (K := K) (bus_subscribe f h b).2)) /\
  (forall id, unsubscribe id (as_dispatcher (K := K) b) = as_dispatcher (bus_unsubscribe id b)) /\
  (forall depth, (0 < depth)%nat -> exists u',
     bus_publish depth ev (b, w_env w) = Ok (Some (counted b, u')) /\
     publish (as_dispatcher b) ev w = Ok (as_dispatcher (counted b), mk_world (w_host w) u')).
Proof.
  intros Hp. split; [|split].
  - intros f h. unfold add_subscription, as_dispatcher. cbn. by rewrite fmap_app.
  - intros id. unfold unsubscribe, as_dispatcher, bus_unsubscribe. cbn. f_equal.
    induction (b_subs b) as [|e es IH]; [done|]. cbn. inversion Hp; subst. rewrite IH by done.
    by destruct (negb _).
  - intros [|depth] Hd; [lia|]. cbn [bus_publish fst snd].
    destruct (walk_plain (bus_publish depth) ev (counted b) (b_subs b) (w_env w) w Hp eq_refl) as (u' & H1 & H2).
    exists u'. split; [exact H1|]. unfold publish, as_dispatcher. cbn [ed_subscriptions counted b_subs].
    by rewrite (bind_Ok _ _ _ _ _ H2).
Qed.

Lemma plain_bus_is_dispatcher_witness :
  exists u', bus_publish 1 halt_event (counting_bus, O) = Ok (Some (counted counting_bus, u')) /\
    publish (as_dispatcher counting_bus) halt_event (sim_world (E := nat) (sim_vcpu []) ∅ O)
    = Ok (as_dispatcher (counted counting_bus), mk_world (w_host (sim_world (E := nat) (sim_vcpu []) ∅ O)) u').
Proof.
  apply (plain_bus_is_dispatcher counting_bus halt_event (sim_world (E := nat) (sim_vcpu []) ∅ O)); [|lia].
  apply List.Forall_cons; [|apply List.Forall_cons; [|constructor]]; intros ev; repeat constructor.
Defined.
