(* ===== verification/Machine.v ===== *)
(** * The virtual machine (VirtualMachine.h, VirtualMachine.cpp)

    A [VirtualMachine] owns the VM descriptor, its memory regions and its
    vCPUs.  Pointers to elements of its vectors are modelled by their index. *)

From S2P Require Import Prelude Host SimKvm Memory Vcpu.
From stdpp Require Import base list gmap strings.
From Stdlib Require Import ZArith Lia.
Open Scope Z_scope.
Open Scope hv_scope.

Record VmSnapShot := mk_VmSnapShot {
  sn_regs : kvm_regs; sn_sregs : kvm_sregs; sn_memoryRegions : list (list Z) }.

Record VirtualMachine := mk_VirtualMachine {
  vm_fd : Z;
  vm_vcpuMmapSize : Z;
  vm_nextSlot : Z;
  vm_memoryRegions : list MemoryRegion;
  vm_vcpus : list VCpu }.

Section VirtualMachineModel.

Context {K : Type} `{Kernel K} {E : Type}.
Implicit Types (w : World K E) (vm : VirtualMachine).

Definition VirtualMachine_new (fd vcpu_mmap_size : Z) : VirtualMachine :=
  mk_VirtualMachine fd vcpu_mmap_size 0 [] [].

Definition close_vm_fd (fd : Z) : M (World K E) unit :=
  if 0 <=? fd then sys_close fd else ret tt.

(** The destructor's body runs before the members are destroyed, and those are
    destroyed in the reverse of their declaration order. *)
Definition VirtualMachine_destroy vm : M (World K E) unit :=
  close_vm_fd (vm_fd vm) ;;;
  mapM_ VCpu_destroy (vm_vcpus vm) ;;;
  mapM_ MemoryRegion_destroy (vm_memoryRegions vm).

Definition moved_vm vm : VirtualMachine :=
  mk_VirtualMachine (-1) (vm_vcpuMmapSize vm) (vm_nextSlot vm) [] [].

Definition VirtualMachine_move (other : VirtualMachine) : VirtualMachine * VirtualMachine :=
  (mk_VirtualMachine (vm_fd other) (vm_vcpuMmapSize other) (vm_nextSlot other)
                     (vm_memoryRegions other) (vm_vcpus other),
   moved_vm other).

(** Move assignment: moving into a vector destroys the elements it had. *)
Definition VirtualMachine_assign (same : bool) (this other : VirtualMachine)
  : M (World K E) (VirtualMachine * VirtualMachine) :=
  if same then ret (this, other)
  else
    close_vm_fd (vm_fd this) ;;;
    mapM_ MemoryRegion_destroy (vm_memoryRegions this) ;;;
    mapM_ VCpu_destroy (vm_vcpus this) ;;;
    ret (VirtualMachine_move other).

(** [push_back(std::move( *result))], after which the moved-from temporary
    goes out of scope. *)
Definition addMemoryRegion vm (guest_phys_addr size_bytes flags : Z)
  : M (World K E) (expected nat * VirtualMachine) :=
  let* result := MemoryRegion_create (vm_fd vm) (vm_nextSlot vm) guest_phys_addr size_bytes flags in
  match result with
  | Unexpected ec => ret (Unexpected ec, vm)
  | Value r =>
      let '(moved, rest) := MemoryRegion_move r in
      MemoryRegion_destroy rest ;;;
      ret (Value (length (vm_memoryRegions vm)),
           mk_VirtualMachine (vm_fd vm) (vm_vcpuMmapSize vm) (u32 (vm_nextSlot vm + 1))
                             (vm_memoryRegions vm ++ [moved]) (vm_vcpus vm))
  end.

Definition addVCpu vm (vcpu_id : Z) : M (World K E) (expected nat * VirtualMachine) :=
  let* result := VCpu_create (vm_fd vm) vcpu_id (vm_vcpuMmapSize vm) in
  match result with
  | Unexpected ec => ret (Unexpected ec, vm)
  | Value v =>
      let '(moved, rest) := VCpu_move v in
      VCpu_destroy rest ;;;
      ret (Value (length (vm_vcpus vm)),
           mk_VirtualMachine (vm_fd vm) (vm_vcpuMmapSize vm) (vm_nextSlot vm)
                             (vm_memoryRegions vm) (vm_vcpus vm ++ [moved]))
  end.

Definition vm_ioctl vm (req : ioctl_req) : M (World K E) Z :=
  let* (r, _) := ioctl (vm_fd vm) req in
  if r <? 0 then errno else ret 0.

Definition setIrqLine vm (irq level : Z) : M (World K E) Z :=
  vm_ioctl vm (KVM_IRQ_LINE irq (u32 level)).
Definition createIrqChip vm : M (World K E) Z := vm_ioctl vm KVM_CREATE_IRQCHIP.
Definition createPit2 vm : M (World K E) Z := vm_ioctl vm (KVM_CREATE_PIT2 0).
Definition enableEmulationExits vm : M (World K E) Z :=
  vm_ioctl vm (KVM_ENABLE_CAP KVM_CAP_EXIT_ON_EMULATION_FAILURE 1).

Definition VirtualMachine_fd vm : Z := vm_fd vm.
Definition vcpus vm : list VCpu := vm_vcpus vm.
Definition memoryRegions vm : list MemoryRegion := vm_memoryRegions vm.

(** [vm.vcpus()[0]] of an empty vector is out of bounds. *)
Definition vcpu_at vm (i : nat) : M (World K E) VCpu :=
  match vm_vcpus vm !! i with
  | Some v => ret v
  | None => fail OutOfBounds
  end.

Fixpoint snapshot_regions (regions : list MemoryRegion) : M (World K E) (list (list Z)) :=
  match regions with
  | [] => ret []
  | r :: rs =>
      let* bytes := (if mr_hostAddr r =? nullptr then ret []
                     else mem_load (mr_hostAddr r) 0 (mr_size r)) in
      let* rest := snapshot_regions rs in
      ret (bytes :: rest)
  end.

Definition takeSnapShot vm : M (World K E) VmSnapShot :=
  let* vcpu := vcpu_at vm 0 in
  let* regs := VCpu_getRegs vcpu in
  let* sregs := VCpu_getSregs vcpu in
  let* mem := snapshot_regions (vm_memoryRegions vm) in
  ret (mk_VmSnapShot (value_or regs zero_regs) (value_or sregs zero_sregs) mem).

(** The copy back: the i-th region takes [region.size()] bytes of the i-th
    saved vector; a region without a mapping or without saved bytes is left. *)
Fixpoint restore_regions (regions : list MemoryRegion) (saved : list (list Z))
  : M (World K E) unit :=
  match regions, saved with
  | [], _ => ret tt
  | _ :: rs, [] => restore_regions rs []
  | r :: rs, s :: ss =>
      (if (mr_hostAddr r =? nullptr) || (match s with [] => true | _ => false end) then ret tt
       else
         let* bytes := lift (load_bytes s 0 (mr_size r)) in
         mem_store (mr_hostAddr r) 0 bytes) ;;;
      restore_regions rs ss
  end.

Definition restoreSnapshot vm (snapshot : VmSnapShot) : M (World K E) unit :=
  let* vcpu := vcpu_at vm 0 in
  let* codeRegs := VCpu_setRegs vcpu (sn_regs snapshot) in
  (if ec_failed codeRegs then report "Failed to restore vCPU registers" codeRegs else ret tt) ;;;
  let* codeSregs := VCpu_setSregs vcpu (sn_sregs snapshot) in
  (if ec_failed codeSregs
   then report "Failed to restore vCPU special registers" codeSregs else ret tt) ;;;
  restore_regions (vm_memoryRegions vm) (sn_memoryRegions snapshot).

(** ** Memory regions of a machine, together *)

Definition regions_ok (rs : list MemoryRegion) (m : memory) : Prop :=
  Forall (fun r => region_ok r m) rs /\ NoDup (mr_hostAddr <$> rs).

Lemma regions_ok_cons r rs m :
  regions_ok (r :: rs) m ->
  region_ok r m /\ regions_ok rs m /\ mr_hostAddr r ∉ mr_hostAddr <$> rs.
Proof.
  intros [Hf Hn]. apply Forall_cons in Hf as [? ?]. cbn in Hn.
  apply NoDup_cons in Hn as [? ?]. split; [done|]. by split; [split|].
Qed.

Lemma regions_ok_frame rs m a l :
  regions_ok rs m -> a ∉ mr_hostAddr <$> rs -> regions_ok rs (<[a := l]> m).
Proof.
  intros [Hf Hn] Ha. split; [|done]. rewrite Forall_forall in *. intros r Hr.
  destruct (Hf r Hr) as (? & ? & l' & Hl' & ?). split; [done|]. split; [done|].
  exists l'. split; [|done]. rewrite lookup_insert_ne; [done|].
  intros ->. apply Ha. by apply list_elem_of_fmap_2.
Qed.

Lemma region_load_all r w :
  region_ok r (h_mem (w_host w)) ->
  mem_load (mr_hostAddr r) 0 (mr_size r) w = Ok (region_bytes r (h_mem (w_host w)), w).
Proof.
  intros Hr. destruct (region_ok_bytes _ _ Hr) as [Hl Hn]. destruct Hr as (? & ? & _).
  rewrite (mem_load_ok _ _ _ _ _ ltac:(done) Hl) by lia.
  unfold slice. rewrite drop_0, take_ge by lia. done.
Qed.

Lemma snapshot_regions_ok rs w :
  Forall (fun r => region_ok r (h_mem (w_host w))) rs ->
  snapshot_regions rs w = Ok ((fun r => region_bytes r (h_mem (w_host w))) <$> rs, w).
Proof.
  induction 1 as [|r rs Hr _ IH]; [done|]. cbn [snapshot_regions].
  rewrite (proj2 (Z.eqb_neq _ _)) by apply Hr.
  rewrite (bind_Ok _ _ _ _ _ (region_load_all r w Hr)), (bind_Ok _ _ _ _ _ IH). done.
Qed.

Lemma splice_all (l bytes : list Z) : length bytes = length l -> splice 0 bytes l = bytes.
Proof. intros Hl. unfold splice. cbn. rewrite drop_ge by lia. apply app_nil_r. Qed.

(** What [restore_regions] does to a machine whose regions were saved. *)
Lemma restore_regions_ok rs saved w :
  regions_ok rs (h_mem (w_host w)) ->
  Forall2 (fun r s => Z.of_nat (length s) = mr_size r) rs saved ->
  exists m', restore_regions rs saved w = Ok (tt, on_host (set_mem m') w) /\
    Forall2 (fun r s => mr_size r = 0 \/ m' !! mr_hostAddr r = Some s) rs saved /\
    regions_ok rs m' /\
    (forall a, a ∉ mr_hostAddr <$> rs -> m' !! a = h_mem (w_host w) !! a).
Proof.
  revert saved w. induction rs as [|r rs IH]; intros saved w Hok H2.
  { apply Forall2_nil_inv_l in H2 as ->. exists (h_mem (w_host w)).
    split; [by destruct w as [[]]|]. auto. }
  apply Forall2_cons_inv_l in H2 as (s & ss & Hs & H2 & ->).
  apply regions_ok_cons in Hok as (Hr & Hrs & Hfresh). cbn [restore_regions].
  destruct (region_ok_bytes _ _ Hr) as [Hl Hn]. pose proof Hr as (Hnz & Hsz & _).
  rewrite (proj2 (Z.eqb_neq _ _) Hnz). cbn [orb].
  destruct s as [|b s'] eqn:Es.
  - destruct (IH ss w Hrs H2) as (m' & Hr' & Hf & Hok' & Hout).
    exists m'. unfold bind, ret. split; [exact Hr'|]. split; [|split].
    + constructor; [left; cbn in Hs; lia | done].
    + destruct Hok' as [Hok' Hnd]. split; [|by constructor].
      constructor; [|done]. split; [done|]. split; [done|].
      eexists. rewrite Hout by done. eauto.
    + intros a Ha. apply Hout. cbn in Ha. set_solver.
  - rewrite <-Es in *. clear Es b s'. rewrite load_bytes_ok by lia.
    unfold slice. rewrite drop_0, take_ge by lia.
    set (w1 := with_bytes r s w).
    assert (bind (lift (Ok s)) (fun bytes => mem_store (mr_hostAddr r) 0 bytes) w = Ok (tt, w1)) as Hst.
    { unfold bind, lift. rewrite (mem_store_ok _ _ _ _ _ Hnz Hl) by lia.
      change (Z.to_nat 0) with 0%nat. rewrite splice_all by lia. done. }
    rewrite (bind_Ok _ _ _ _ _ Hst).
    destruct (IH ss w1) as (m' & Hr' & Hf & Hok' & Hout);
      [by apply regions_ok_frame | done |].
    assert (m' !! mr_hostAddr r = Some s) as Hm' by (rewrite Hout by done; apply lookup_insert_eq).
    exists m'. split; [exact Hr'|]. split; [by constructor; [right|]|]. split.
    + destruct Hok' as [Hok' Hnd]. split; [|by constructor].
      constructor; [|done]. split; [done|]. split; [done|]. by exists s.
    + intros a Ha. cbn in Ha. rewrite Hout by set_solver. cbn.
      apply lookup_insert_ne. set_solver.
Qed.

End VirtualMachineModel.

(** ** Properties *)

Lemma restored_bytes rs saved (m m' : memory) :
  regions_ok rs m' ->
  Forall2 (fun r s => mr_size r = 0 \/ m' !! mr_hostAddr r = Some s) rs saved ->
  saved = (fun r => region_bytes r m) <$> rs ->
  Forall (fun r => region_ok r m) rs ->
  Forall (fun r => region_bytes r m' = region_bytes r m) rs.
Proof.
  intros [Hok _] H2 ->. induction rs as [|r rs IH]; [constructor|]. intros Hm. cbn in H2.
  apply Forall2_cons in H2 as [Hr H2]. apply Forall_cons in Hok as [Hrok Hok].
  apply Forall_cons in Hm as [Hrm Hm]. constructor; [|auto].
  destruct Hr as [Hz|Hs]; [|unfold region_bytes at 1; by rewrite Hs].
  destruct (region_ok_bytes _ _ Hrok) as [_ H1], (region_ok_bytes _ _ Hrm) as [_ H3].
  rewrite (nil_length_inv (region_bytes r m')), (nil_length_inv (region_bytes r m)) by lia. done.
Qed.

(** Taking a snapshot of a live machine. *)
Lemma takeSnapShot_ok {K} `{KvmLaws K} {E} vm v vs r s (w : World K E) :
  vm_vcpus vm = v :: vs ->
  k_regs (h_kern (w_host w)) (vc_fd v) = Some r ->
  k_sregs (h_kern (w_host w)) (vc_fd v) = Some s ->
  regions_ok (vm_memoryRegions vm) (h_mem (w_host w)) ->
  takeSnapShot vm w =
  Ok (mk_VmSnapShot r s ((fun reg => region_bytes reg (h_mem (w_host w))) <$> vm_memoryRegions vm),
      traced (Sys_ioctl (vc_fd v) KVM_GET_SREGS) (traced (Sys_ioctl (vc_fd v) KVM_GET_REGS) w)).
Proof.
  intros Hv Hr Hs Hok. unfold takeSnapShot, vcpu_at. rewrite Hv. cbn [lookup list_lookup].
  rewrite bind_ret_l. rewrite (bind_Ok _ _ _ _ _ (getRegs_ok v r w Hr)).
  set (w1 := traced _ w). rewrite (bind_Ok _ _ _ _ _ (getSregs_ok v s w1 Hs)).
  by rewrite (bind_Ok _ _ _ _ _ (snapshot_regions_ok _ (traced _ w1) (proj1 Hok))).
Qed.

(** Restoring registers KVM could have returned, and memory vectors of the
    sizes of the regions. *)
Lemma restoreSnapshot_ok {K} `{KvmLaws K} {E} vm v vs r s saved (w : World K E) :
  vm_vcpus vm = v :: vs -> canonical_regs r -> k_valid_sregs s ->
  is_Some (k_regs (h_kern (w_host w)) (vc_fd v)) ->
  is_Some (k_sregs (h_kern (w_host w)) (vc_fd v)) ->
  regions_ok (vm_memoryRegions vm) (h_mem (w_host w)) ->
  Forall2 (fun reg l => Z.of_nat (length l) = mr_size reg) (vm_memoryRegions vm) saved ->
  exists w', restoreSnapshot vm (mk_VmSnapShot r s saved) w = Ok (tt, w') /\
    k_regs (h_kern (w_host w')) (vc_fd v) = Some r /\
    k_sregs (h_kern (w_host w')) (vc_fd v) = Some s /\
    Forall2 (fun reg l => mr_size reg = 0 \/ h_mem (w_host w') !! mr_hostAddr reg = Some l)
            (vm_memoryRegions vm) saved /\
    regions_ok (vm_memoryRegions vm) (h_mem (w_host w')) /\
    (forall a, a ∉ mr_hostAddr <$> vm_memoryRegions vm ->
       h_mem (w_host w') !! a = h_mem (w_host w) !! a) /\
    w_env w' = w_env w /\ h_diag (w_host w') = h_diag (w_host w).
Proof.
  intros Hv Hc Hval Hr Hs Hok Hlen.
  destruct (setRegs_ok v r w Hr Hc) as (k3 & Hset & Hk3 & Hs3). set (wa := traced _ _) in Hset.
  destruct (setSregs_ok v s wa) as (k4 & Hset' & Hk4 & Hr4); [cbn; by rewrite Hs3 | done |].
  set (wb := traced _ _) in Hset'.
  destruct (restore_regions_ok (vm_memoryRegions vm) saved wb) as (m' & Hres & Hf & Hok' & Hout);
    [done..|].
  exists (on_host (set_mem m') wb). split.
  { unfold restoreSnapshot, vcpu_at. rewrite Hv. cbn [lookup list_lookup]. rewrite bind_ret_l.
    rewrite (bind_Ok _ _ _ _ _ Hset). cbn [ec_failed Z.eqb negb]. rewrite bind_ret_l.
    rewrite (bind_Ok _ _ _ _ _ Hset'). cbn [ec_failed Z.eqb negb]. rewrite bind_ret_l.
    exact Hres. }
  split; [cbn; by rewrite Hr4|]. by split_and!.
Qed.

(** C1. Restoring a snapshot brings the machine back: whatever has happened to
    it since (guest runs, register writes, memory writes), as long as its vCPU
    still answers and its regions are still mapped, the registers, the special
    registers and every byte of every region are afterwards what they were when
    the snapshot was taken; other mappings, the environment and the list of
    diagnostics are untouched, and taking the snapshot changed nothing. *)
Theorem snapshot_roundtrip {K} `{KvmLaws K} {E} vm v vs r s (w w2 : World K E) :
  vm_vcpus vm = v :: vs ->
  k_regs (h_kern (w_host w)) (vc_fd v) = Some r ->
  k_sregs (h_kern (w_host w)) (vc_fd v) = Some s ->
  regions_ok (vm_memoryRegions vm) (h_mem (w_host w)) ->
  is_Some (k_regs (h_kern (w_host w2)) (vc_fd v)) ->
  is_Some (k_sregs (h_kern (w_host w2)) (vc_fd v)) ->
  regions_ok (vm_memoryRegions vm) (h_mem (w_host w2)) ->
  exists snap w1 w3,
    takeSnapShot vm w = Ok (snap, w1) /\
    h_mem (w_host w1) = h_mem (w_host w) /\ h_kern (w_host w1) = h_kern (w_host w) /\
    w_env w1 = w_env w /\
    restoreSnapshot vm snap w2 = Ok (tt, w3) /\
    k_regs (h_kern (w_host w3)) (vc_fd v) = Some r /\
    k_sregs (h_kern (w_host w3)) (vc_fd v) = Some s /\
    Forall (fun reg => region_bytes reg (h_mem (w_host w3)) = region_bytes reg (h_mem (w_host w)))
           (vm_memoryRegions vm) /\
    (forall a, a ∉ mr_hostAddr <$> vm_memoryRegions vm ->
       h_mem (w_host w3) !! a = h_mem (w_host w2) !! a) /\
    w_env w3 = w_env w2 /\ h_diag (w_host w3) = h_diag (w_host w2).
Proof.
  intros Hv Hr Hs Hok Hr2 Hs2 Hok2.
  pose proof (takeSnapShot_ok vm v vs r s w Hv Hr Hs Hok) as Htake.
  set (saved := (fun reg => region_bytes reg (h_mem (w_host w))) <$> vm_memoryRegions vm) in *.
  destruct (restoreSnapshot_ok vm v vs r s saved w2)
    as (w3 & Hres & Hr3 & Hs3 & Hf & Hok3 & Hout & Henv & Hdiag); try done.
  { by eapply law_regs_canonical. }
  { by eapply law_sregs_valid. }
  { unfold saved. apply Forall2_fmap_r, Forall_Forall2_diag.
    eapply Forall_impl; [apply Hok|]. intros reg Hreg. by apply region_ok_bytes in Hreg as [_ ?]. }
  do 3 eexists. split; [exact Htake|]. split_and!; try done.
  by apply (restored_bytes (vm_memoryRegions vm) saved (h_mem (w_host w)) (h_mem (w_host w3)));
    [..|apply Hok].
Qed.

Definition snap_region : MemoryRegion := mk_MemoryRegion 4 0 0 4 4096.
Definition snap_vm : VirtualMachine :=
  mk_VirtualMachine 4 4160 1 [snap_region] [mk_VCpu 5 0 8192 4160].
Definition snap_before : World SimK unit :=
  sim_world (sim_vcpu []) {[4096 := [1; 2; 3; 4]]} tt.
(** The guest has run: other registers, other memory. *)
Definition snap_after : World SimK unit :=
  sim_world (mk_simk 6 (2 ^ 32) {[3; 4; 5]} {[5 := mk_regs 9 9 9 9 9 9 9 9 9 9 9 9 9 9 9 9 9 2]}
                     {[5 := zero_sregs]} [] [] 7) {[4096 := [9; 9; 9; 9]]} tt.

Lemma snap_regions_ok l :
  length l = 4%nat -> regions_ok [snap_region] ({[4096 := l]} : memory).
Proof.
  intros Hl. split; [|apply NoDup_singleton]. repeat constructor; try done.
  exists l. split; [apply lookup_singleton_eq|]. by rewrite Hl.
Qed.

Lemma snapshot_roundtrip_witness :
  exists snap w1 w3, takeSnapShot snap_vm snap_before = Ok (snap, w1) /\
    restoreSnapshot snap_vm snap snap_after = Ok (tt, w3) /\
    sim_regs (h_kern (w_host w3)) 5 = Some (fix_rflags zero_regs) /\
    region_bytes snap_region (h_mem (w_host w3)) = [1; 2; 3; 4].
Proof.
  destruct (snapshot_roundtrip snap_vm (mk_VCpu 5 0 8192 4160) [] (fix_rflags zero_regs)
              zero_sregs snap_before snap_after)
    as (snap & w1 & w3 & Ht & _ & _ & _ & Hr & Hregs & _ & Hb & _).
  - reflexivity.
  - vm_compute; reflexivity.
  - vm_compute; reflexivity.
  - by apply snap_regions_ok.
  - vm_compute; eauto.
  - vm_compute; eauto.
  - by apply snap_regions_ok.
  - exists snap, w1, w3. split; [exact Ht|]. split; [exact Hr|]. split; [exact Hregs|].
    apply Forall_cons in Hb as [Hb _]. rewrite Hb. vm_compute. reflexivity.
Defined.

(** ** Destruction *)

Definition region_calls (r : MemoryRegion) : list syscall :=
  if MemoryRegion_owns r then
    [Sys_ioctl (mr_vmFd r) (KVM_SET_USER_MEMORY_REGION (mk_umr (mr_slot r) 0 0 0 0));
     Sys_munmap (mr_hostAddr r) (mr_size r)]
  else [].

Definition vcpu_calls (v : VCpu) : list syscall :=
  (if negb (vc_runPage v =? nullptr) && negb (vc_runPage v =? MAP_FAILED)
   then [Sys_munmap (vc_runPage v) (vc_mmapSize v)] else []) ++
  (if 0 <=? vc_fd v then [Sys_close (vc_fd v)] else []).

Section Destruction.

Context {K : Type} `{Kernel K} {E : Type}.
Implicit Types w : World K E.

Definition issues {A} (m : M (World K E) A) (a : A) (calls : list syscall) : Prop :=
  forall w, exists w', m w = Ok (a, w') /\ h_trace (w_host w') = h_trace (w_host w) ++ calls.

Lemma issues_ret {A} (a : A) : issues (ret a) a [].
Proof. intros w. exists w. by rewrite app_nil_r. Qed.

Lemma issues_seq {A B} (m : M (World K E) A) a (k : A -> M (World K E) B) b c1 c2 :
  issues m a c1 -> issues (k a) b c2 -> issues (bind m k) b (c1 ++ c2).
Proof.
  intros Hm Hk w. destruct (Hm w) as (w1 & H1 & T1), (Hk w1) as (w2 & H2 & T2).
  exists w2. rewrite (bind_Ok _ _ _ _ _ H1), H2, T2, T1. by rewrite app_assoc.
Qed.

Lemma issues_close fd : issues (sys_close fd) tt [Sys_close fd].
Proof. intros w. eexists. split; reflexivity. Qed.

Lemma issues_region r : issues (MemoryRegion_destroy r) tt (region_calls r).
Proof.
  unfold MemoryRegion_destroy, MemoryRegion_release, region_calls.
  destruct (MemoryRegion_owns r); [|apply issues_ret].
  intros w. eexists. split; [reflexivity|]. cbn. by rewrite <-app_assoc.
Qed.

Lemma issues_vcpu v : issues (VCpu_destroy v) tt (vcpu_calls v).
Proof.
  unfold VCpu_destroy, VCpu_release, vcpu_calls. apply (issues_seq _ tt).
  - destruct (negb _ && _); [|apply issues_ret]. intros w. eexists. split; reflexivity.
  - destruct (0 <=? vc_fd v); [apply issues_close|apply issues_ret].
Qed.

Lemma issues_mapM {A} (f : A -> M (World K E) unit) (g : A -> list syscall) l :
  (forall a, issues (f a) tt (g a)) -> issues (mapM_ f l) tt (concat (map g l)).
Proof.
  intros Hf. induction l as [|a l IH]; [apply issues_ret|]. cbn. by apply (issues_seq _ tt).
Qed.

Lemma issues_vm vm :
  issues (VirtualMachine_destroy vm) tt
    ((if 0 <=? vm_fd vm then [Sys_close (vm_fd vm)] else []) ++
     concat (map vcpu_calls (vm_vcpus vm)) ++ concat (map region_calls (vm_memoryRegions vm))).
Proof.
  apply (issues_seq _ tt); [|apply (issues_seq _ tt)].
  - unfold close_vm_fd. destruct (0 <=? vm_fd vm); [apply issues_close|apply issues_ret].
  - apply issues_mapM, issues_vcpu.
  - apply issues_mapM, issues_region.
Qed.

End Destruction.

(** Destroying a machine first closes its descriptor and only then, through
    its members, unregisters the memory slots: every
    KVM_SET_USER_MEMORY_REGION of the destructor is issued on a descriptor that
    an earlier call of the same destructor has closed. *)
Lemma vm_destroy_unregisters_after_close {K} `{Kernel K} {E} vm (w : World K E) :
  0 <= vm_fd vm -> Forall (fun r => mr_vmFd r = vm_fd vm) (vm_memoryRegions vm) ->
  exists w' after, VirtualMachine_destroy vm w = Ok (tt, w') /\
    h_trace (w_host w') = h_trace (w_host w) ++ Sys_close (vm_fd vm) :: after /\
    (forall r, r ∈ vm_memoryRegions vm -> MemoryRegion_owns r = true ->
       Sys_ioctl (vm_fd vm) (KVM_SET_USER_MEMORY_REGION (mk_umr (mr_slot r) 0 0 0 0)) ∈ after).
Proof.
  intros Hfd Hrs. destruct (issues_vm vm w) as (w' & Hd & Ht).
  rewrite (proj2 (Z.leb_le _ _) Hfd) in Ht. do 2 eexists. split; [exact Hd|].
  split; [exact Ht|]. intros r Hr Ho. apply elem_of_app. right.
  apply list_elem_of_In, in_concat. exists (region_calls r). split.
  - apply in_map. by apply list_elem_of_In.
  - unfold region_calls. rewrite Ho. rewrite Forall_forall in Hrs.
    rewrite (Hrs r Hr). by left.
Qed.

Lemma vm_destroy_unregisters_after_close_witness :
  exists w' after, VirtualMachine_destroy snap_vm snap_before = Ok (tt, w') /\
    h_trace (w_host w') = [] ++ Sys_close 4 :: after /\
    Sys_ioctl 4 (KVM_SET_USER_MEMORY_REGION (mk_umr 0 0 0 0 0)) ∈ after.
Proof.
  destruct (vm_destroy_unregisters_after_close snap_vm snap_before) as (w' & after & Hd & Ht & Hin).
  - done.
  - by repeat constructor.
  - exists w', after. split; [exact Hd|]. split; [exact Ht|].
    apply (Hin snap_region); [by left | reflexivity].
Defined.

(** ** Building a machine *)

Inductive vm_op :=
| AddRegion (guest_phys_addr size_bytes flags : Z)
| AddVCpu (vcpu_id : Z).

Section Building.

Context {K : Type} `{Kernel K} `{!MmapLaws K} {E : Type}.
Implicit Types (w : World K E) (vm : VirtualMachine).

Definition vm_apply vm (o : vm_op) : M (World K E) VirtualMachine :=
  match o with
  | AddRegion gpa size flags => let* (_, vm') := addMemoryRegion vm gpa size flags in ret vm'
  | AddVCpu id => let* (_, vm') := addVCpu vm id in ret vm'
  end.

Fixpoint vm_build vm (ops : list vm_op) : M (World K E) VirtualMachine :=
  match ops with
  | [] => ret vm
  | o :: ops' => let* vm' := vm_apply vm o in vm_build vm' ops'
  end.

Definition mapped_inv w : Prop :=
  forall a, is_Some (h_mem (w_host w) !! a) -> k_mapped (h_kern (w_host w)) a.

(** Slot [i] is the slot of the [i]-th region, and every region is mapped. *)
Record vm_ok vm w : Prop := {
  vo_slots : mr_slot <$> vm_memoryRegions vm = Z.of_nat <$> seq 0 (length (vm_memoryRegions vm));
  vo_next : vm_nextSlot vm = Z.of_nat (length (vm_memoryRegions vm));
  vo_fd : Forall (fun r => mr_vmFd r = vm_fd vm) (vm_memoryRegions vm);
  vo_regions : regions_ok (vm_memoryRegions vm) (h_mem (w_host w));
  vo_mapped : mapped_inv w }.

Lemma vcpu_create_effect fd id sz w res w' :
  mapped_inv w -> VCpu_create fd id sz w = Ok (res, w') ->
  mapped_inv w' /\ exists a, h_mem (w_host w) !! a = None /\
  (h_mem (w_host w') = h_mem (w_host w) \/
   exists l, h_mem (w_host w') = <[a := l]> (h_mem (w_host w))).
Proof.
  intros Hm. unfold VCpu_create, ioctl, sys_mmap, sys_close, errno, bind, do_syscall, ret. cbn.
  set (r0 := k_syscall (Sys_ioctl _ _) _).
  assert (forall a, is_Some (h_mem (w_host w) !! a) -> k_mapped (kr_kern r0) a) as H0.
  { intros a Ha. apply law_mapped_mono; [by apply Hm | done]. }
  assert (exists a : Z, h_mem (w_host w) !! a = None) as [a0 Ha0].
  { exists (fresh (dom (h_mem (w_host w)))). apply not_elem_of_dom, is_fresh. }
  destruct (kr_ret r0 <? 0); [intros [= <- <-]; split; eauto|].
  cbn. set (r1 := k_syscall (Sys_mmap _ _) _).
  assert (forall a, is_Some (h_mem (w_host w) !! a) -> k_mapped (kr_kern r1) a) as H1.
  { intros a Ha. apply law_mapped_mono; [by apply H0 | done]. }
  destruct (law_mmap (kr_kern r0) (u64 sz) (kr_ret r0)) as [Hf|(Hpos & Hfresh & Hmap)].
  - fold r1 in Hf. rewrite Hf. cbn. intros [= <- <-]. split; [|eauto].
    intros a Ha. apply law_mapped_mono; [by apply H1 | done].
  - fold r1 in Hpos, Hfresh, Hmap.
    rewrite (proj2 (Z.eqb_neq (kr_ret r1) MAP_FAILED)) by (unfold MAP_FAILED; lia).
    intros [= <- <-]. split.
    + intros a. cbn. rewrite lookup_insert_is_Some. intros [<-|[_ Ha]]; auto.
    + exists (kr_ret r1). split; [|right; eauto].
      apply eq_None_not_Some. intros Hs. by apply Hfresh, H0.
Qed.

(** Neither call faults: a failing system call is an error value. *)
Lemma add_region_total vm gpa size flags w :
  exists res vm' w', addMemoryRegion vm gpa size flags w = Ok ((res, vm'), w').
Proof.
  unfold addMemoryRegion, MemoryRegion_create, sys_mmap, sys_madvise, sys_munmap, ioctl, errno,
    MemoryRegion_destroy, MemoryRegion_release, bind, do_syscall, ret. cbn.
  repeat (case_match; cbn; simplify_eq); eauto.
Qed.

Lemma add_vcpu_total vm id w :
  exists res vm' w', addVCpu vm id w = Ok ((res, vm'), w').
Proof.
  unfold addVCpu, VCpu_create, sys_mmap, sys_close, ioctl, errno, VCpu_destroy, VCpu_release,
    bind, do_syscall, ret. cbn.
  repeat (case_match; cbn; simplify_eq); eauto.
Qed.

Lemma add_region_effect vm gpa size flags w res vm' w' :
  mapped_inv w -> addMemoryRegion vm gpa size flags w = Ok ((res, vm'), w') ->
  mapped_inv w' /\
  match res with
  | Unexpected _ => vm' = vm /\ h_mem (w_host w') = h_mem (w_host w)
  | Value i =>
      exists addr, let r := mk_MemoryRegion (vm_fd vm) (vm_nextSlot vm) gpa size addr in
      i = length (vm_memoryRegions vm) /\ addr <> nullptr /\ h_mem (w_host w) !! addr = None /\
      h_mem (w_host w') = <[addr := replicate (Z.to_nat size) 0]> (h_mem (w_host w)) /\
      vm' = mk_VirtualMachine (vm_fd vm) (vm_vcpuMmapSize vm) (u32 (vm_nextSlot vm + 1))
                              (vm_memoryRegions vm ++ [r]) (vm_vcpus vm)
  end.
Proof.
  intros Hm Ha. unfold addMemoryRegion in Ha. binv.
  destruct (create_effect _ _ _ _ _ _ _ _ Hm E0) as (Hmono & Heff). destruct a as [r|ec].
  - destruct Heff as (Hrec & Hown & Hnone & Hmr & Hmem). binv. injection Ha as <- <- <-.
    destruct r as [rfd rslot rgpa rsize addr]. cbn in *. injection Hrec as -> -> -> ->.
    split.
    + intros a. rewrite Hmem, lookup_insert_is_Some. intros [<-|[_ Hx]]; auto.
    + exists addr. split_and!; try done. unfold MemoryRegion_owns in Hown. cbn in Hown. by boolify.
  - injection Ha as <- <- <-. split; [|done]. intros a. rewrite Heff. apply Hmono.
Qed.

Lemma add_vcpu_effect vm id w res vm' w' :
  mapped_inv w -> addVCpu vm id w = Ok ((res, vm'), w') ->
  mapped_inv w' /\
  (forall a l, h_mem (w_host w) !! a = Some l -> h_mem (w_host w') !! a = Some l) /\
  match res with
  | Unexpected _ => vm' = vm
  | Value i =>
      exists v, i = length (vm_vcpus vm) /\ vc_id v = id /\
      vm' = mk_VirtualMachine (vm_fd vm) (vm_vcpuMmapSize vm) (vm_nextSlot vm)
                              (vm_memoryRegions vm) (vm_vcpus vm ++ [v])
  end.
Proof.
  intros Hm Ha. unfold addVCpu in Ha. binv.
  destruct (vcpu_create_effect _ _ _ _ _ _ Hm E0) as (Hm' & a1 & Hnone & Hmem).
  assert (forall a l, h_mem (w_host w) !! a = Some l -> h_mem (w_host s) !! a = Some l) as Hkeep.
  { intros a' l Hl. destruct Hmem as [->|[l' ->]]; [done|].
    rewrite lookup_insert_ne; [done|]. intros ->. congruence. }
  destruct a as [v|ec].
  - binv. injection Ha as <- <- <-. split; [done|]. split; [done|].
    eexists. split; [done|]. split; [|done]. cbn.
    unfold VCpu_create, bind in E0. repeat (case_match; simplify_eq; try done).
    all: unfold ret in E0; by simplify_eq.
  - by injection Ha as <- <- <-.
Qed.

Lemma vm_ok_add_region vm gpa size flags w vm' w' :
  vm_ok vm w -> 0 <= size < 2 ^ 64 ->
  Z.of_nat (length (vm_memoryRegions vm)) + 1 < 2 ^ 32 ->
  vm_apply vm (AddRegion gpa size flags) w = Ok (vm', w') -> vm_ok vm' w'.
Proof.
  intros [Hs Hn Hfd [Hr Hnd] Hm] Hsz Hlt Ha. unfold vm_apply in Ha.
  apply bind_inv in Ha as ([res vm1] & w1 & Ha & [= <- <-]).
  destruct (add_region_effect _ _ _ _ _ _ _ _ Hm Ha) as (Hm' & Heff). destruct res as [i|ec].
  - destruct Heff as (addr & -> & Hnz & Hnone & Hmem & ->).
    assert (addr ∉ mr_hostAddr <$> vm_memoryRegions vm) as Hfr.
    { intros (r0 & Heq & Hin)%list_elem_of_fmap. rewrite Forall_forall in Hr.
      destruct (Hr _ Hin) as (_ & _ & l & Hl & _). rewrite Heq in Hnone. congruence. }
    split; cbn; [..|done].
    + rewrite fmap_app, length_app, seq_app, fmap_app, Hs. cbn. by rewrite Hn.
    + rewrite length_app, Hn, u32_small by (unfold is_u32; lia). cbn. lia.
    + apply Forall_app. split; [done|]. by repeat constructor.
    + rewrite Hmem. split.
      * apply Forall_app. split; [apply (regions_ok_frame (vm_memoryRegions vm)); [by split|done]|].
        constructor; [|constructor]. split; [done|]. split; [done|].
        exists (replicate (Z.to_nat size) 0). cbn. rewrite lookup_insert_eq, length_replicate.
        split; [done|]. lia.
      * rewrite fmap_app. apply NoDup_app. split; [done|]. split; [|apply NoDup_singleton].
        intros x Hx ->%list_elem_of_singleton. by apply Hfr.
  - destruct Heff as [-> Hmem]. split; try done. by rewrite Hmem.
Qed.

Lemma vm_ok_add_vcpu vm id w vm' w' :
  vm_ok vm w -> vm_apply vm (AddVCpu id) w = Ok (vm', w') -> vm_ok vm' w'.
Proof.
  intros [Hs Hn Hfd Hr Hm] Ha. unfold vm_apply in Ha.
  apply bind_inv in Ha as ([res vm1] & w1 & Ha & [= <- <-]).
  destruct (add_vcpu_effect _ _ _ _ _ _ Hm Ha) as (Hm' & Hkeep & Heff).
  assert (regions_ok (vm_memoryRegions vm) (h_mem (w_host w1))) as Hr'.
  { destruct Hr as [Hr Hnd]. split; [|done]. eapply Forall_impl; [exact Hr|].
    intros r0 (? & ? & l & Hl & ?). split; [done|]. split; [done|]. eauto. }
  destruct res as [i|ec]; [destruct Heff as (v & _ & _ & ->) | subst vm1]; by split.
Qed.

Lemma vm_build_total ops vm w : exists vm' w', vm_build vm ops w = Ok (vm', w').
Proof.
  revert vm w. induction ops as [|o ops IH]; intros vm w; [by eexists _, _|]. cbn [vm_build].
  assert (exists vm1 w1, vm_apply vm o w = Ok (vm1, w1)) as (vm1 & w1 & Ho).
  { destruct o as [gpa size flags|id]; unfold vm_apply.
    - destruct (add_region_total vm gpa size flags w) as (res & vm1 & w1 & Hr).
      rewrite (bind_Ok _ _ _ _ _ Hr). by eexists _, _.
    - destruct (add_vcpu_total vm id w) as (res & vm1 & w1 & Hr).
      rewrite (bind_Ok _ _ _ _ _ Hr). by eexists _, _. }
  rewrite (bind_Ok _ _ _ _ _ Ho). apply IH.
Qed.

Lemma vm_build_ok ops vm w vm' w' :
  vm_ok vm w ->
  Forall (fun o => match o with AddRegion _ size _ => 0 <= size < 2 ^ 64 | _ => True end) ops ->
  Z.of_nat (length (vm_memoryRegions vm)) + Z.of_nat (length ops) < 2 ^ 32 ->
  vm_build vm ops w = Ok (vm', w') -> vm_ok vm' w'.
Proof.
  revert vm w. induction ops as [|o ops IH]; intros vm w Hok Hsz Hn Hb.
  { by injection Hb as <- <-. }
  cbn [vm_build] in Hb. apply bind_inv in Hb as (vm1 & w1 & Ho & Hb).
  apply Forall_cons in Hsz as [Hsz Hszs]. cbn [length] in Hn.
  destruct o as [gpa size flags|id].
  - assert (length (vm_memoryRegions vm1) <= S (length (vm_memoryRegions vm)))%nat as Hl.
    { unfold vm_apply, addMemoryRegion in Ho. binv. destruct a. injection Ho as <- <-.
      destruct a0; [binv|]; injection E0 as <- <- <-; cbn; rewrite ?length_app; cbn; lia. }
    eapply IH; [by eapply vm_ok_add_region; [..|exact Ho]; try lia | done | lia | done].
  - assert (vm_memoryRegions vm1 = vm_memoryRegions vm) as Hl.
    { unfold vm_apply, addVCpu in Ho. binv. destruct a. injection Ho as <- <-.
      destruct a0; [binv|]; by injection E0 as <- <- <-. }
    eapply IH; [by eapply vm_ok_add_vcpu | done | rewrite Hl; lia | done].
Qed.

End Building.

(** C20. Any sequence of addMemoryRegion and addVCpu calls on an empty machine,
    some of which may fail, runs without a fault, and the machine it builds has its regions in slots 0, 1,
    2, ... in the order they were added (a failed call consumes no slot), all
    registered with its own descriptor, and every region's host mapping exists,
    has the region's size and is not shared with another region: the machine is
    one whose snapshots restore. *)
Theorem vm_build_slots {K} `{Kernel K} `{!MmapLaws K} {E} fd sz ops (w : World K E) :
  mapped_inv w ->
  Forall (fun o => match o with AddRegion _ size _ => 0 <= size < 2 ^ 64 | _ => True end) ops ->
  Z.of_nat (length ops) < 2 ^ 32 ->
  exists vm' w', vm_build (VirtualMachine_new fd sz) ops w = Ok (vm', w') /\
  (forall i r, vm_memoryRegions vm' !! i = Some r -> mr_slot r = Z.of_nat i /\ mr_vmFd r = vm_fd vm') /\
  vm_nextSlot vm' = Z.of_nat (length (vm_memoryRegions vm')) /\
  regions_ok (vm_memoryRegions vm') (h_mem (w_host w')).
Proof.
  intros Hm Hsz Hn.
  destruct (vm_build_total ops (VirtualMachine_new fd sz) w) as (vm' & w' & Hb).
  exists vm', w'. split; [exact Hb|].
  assert (vm_ok (VirtualMachine_new fd sz) w) as Hok
    by (split; try done; split; constructor).
  destruct (vm_build_ok _ _ _ _ _ Hok Hsz ltac:(done) Hb) as [Hs Hnx Hfd Hr _].
  split; [|done]. intros i r Hi. split.
  - assert ((mr_slot <$> vm_memoryRegions vm') !! i = Some (mr_slot r)) as Hl
      by (by rewrite list_lookup_fmap, Hi).
    rewrite Hs, list_lookup_fmap, lookup_seq_lt in Hl by (by eapply lookup_lt_Some).
    by injection Hl.
  - rewrite Forall_forall in Hfd. apply Hfd, list_elem_of_lookup. eauto.
Qed.

Lemma vm_build_slots_witness :
  exists vm' w', vm_build (VirtualMachine_new 4 4160) [AddRegion 0 16 0; AddVCpu 0; AddRegion 4096 8 0]
      (sim_world (sim_vcpu []) ∅ tt) = Ok (vm', w') /\
    vm_nextSlot vm' = 2 /\ regions_ok (vm_memoryRegions vm') (h_mem (w_host w')).
Proof.
  destruct (vm_build_slots (K := SimK) 4 4160 [AddRegion 0 16 0; AddVCpu 0; AddRegion 4096 8 0]
              (sim_world (sim_vcpu []) ∅ tt)) as (vm' & w' & Hb & _ & _ & Hr).
  - intros a. cbn. rewrite lookup_empty. by intros [].
  - by repeat constructor.
  - done.
  - exists vm', w'. split; [exact Hb|]. split; [|exact Hr].
    vm_compute in Hb. injection Hb as <- <-. reflexivity.
Defined.
