(* ===== verification/System.v ===== *)
(** * The KVM subsystem handle (KvmSystem.h, KvmSystem.cpp) *)

From S2P Require Import Prelude Host SimKvm Memory Vcpu Machine.
From stdpp Require Import base list gmap strings.
From Stdlib Require Import ZArith Lia.
Open Scope Z_scope.
Open Scope hv_scope.

Record KvmSystem := mk_KvmSystem {
  ks_fd : Z;
  ks_apiVersion : Z;
  ks_vcpuMmapSize : Z }.

Definition KvmSystem_new (fd api_version vcpu_mmap_size : Z) : KvmSystem :=
  mk_KvmSystem fd api_version vcpu_mmap_size.

Section KvmSystemModel.

Context {K : Type} `{Kernel K} {E : Type}.
Implicit Types (s : KvmSystem) (w : World K E).

Definition KvmSystem_open (kvm_device : string) : M (World K E) (expected KvmSystem) :=
  let* fd := sys_open kvm_device in
  if fd <? 0 then
    let* e := errno in ret (Unexpected e)
  else
    let* (version, _) := ioctl fd KVM_GET_API_VERSION in
    if version <? 0 then
      sys_close fd ;;;
      let* e := errno in ret (Unexpected e)
    else if negb (version =? KVM_API_VERSION) then
      sys_close fd ;;;
      ret (Unexpected ENOTSUP)
    else
      let* (mmapSize, _) := ioctl fd KVM_GET_VCPU_MMAP_SIZE in
      if mmapSize <? 0 then
        sys_close fd ;;;
        let* e := errno in ret (Unexpected e)
      else
        ret (Value (KvmSystem_new fd version mmapSize)).

Definition KvmSystem_destroy s : M (World K E) unit :=
  if 0 <=? ks_fd s then sys_close (ks_fd s) else ret tt.

Definition KvmSystem_move (other : KvmSystem) : KvmSystem * KvmSystem :=
  (mk_KvmSystem (ks_fd other) (ks_apiVersion other) (ks_vcpuMmapSize other),
   mk_KvmSystem (-1) (ks_apiVersion other) (ks_vcpuMmapSize other)).

(** The move assignment: the transfer is inside the test of the old handle. *)
Definition KvmSystem_assign (same : bool) (this other : KvmSystem)
  : M (World K E) (KvmSystem * KvmSystem) :=
  if same then ret (this, other)
  else if 0 <=? ks_fd this then
    sys_close (ks_fd this) ;;;
    ret (KvmSystem_move other)
  else ret (this, other).

Definition createVm s : M (World K E) (expected VirtualMachine) :=
  let* (fd, _) := ioctl (ks_fd s) KVM_CREATE_VM in
  if fd <? 0 then let* e := errno in ret (Unexpected e)
  else ret (Value (VirtualMachine_new fd (ks_vcpuMmapSize s))).

Definition checkExtension s (capability : Z) : M (World K E) bool :=
  let* (r, _) := ioctl (ks_fd s) (KVM_CHECK_EXTENSION capability) in
  ret (0 <? r).

Definition vcpuMmapSize s : Z := ks_vcpuMmapSize s.
Definition KvmSystem_fd s : Z := ks_fd s.
Definition apiVersion s : Z := ks_apiVersion s.

End KvmSystemModel.

(** ** Properties *)

(** [KvmSystem::open] always returns, and it either hands out the
    descriptor it opened, with API version 12 and a non-negative mapping size,
    having closed nothing, or returns an error and has closed the descriptor if
    it got one: a failed open leaks nothing.  A version other than 12 is
    reported as ENOTSUP. *)
Lemma open_no_leak {K} `{Kernel K} {E} path (w : World K E) :
  let r0 := k_syscall (Sys_open path) (h_kern (w_host w)) in
  exists res w', KvmSystem_open path w = Ok (res, w') /\
  exists calls, h_trace (w_host w') = h_trace (w_host w) ++ Sys_open path :: calls /\
  match res with
  | Value s =>
      ks_fd s = kr_ret r0 /\ 0 <= ks_fd s /\ ks_apiVersion s = KVM_API_VERSION /\
      0 <= ks_vcpuMmapSize s /\ Sys_close (kr_ret r0) ∉ calls
  | Unexpected e =>
      if kr_ret r0 <? 0 then calls = [] /\ e = kr_errno r0
      else (exists cs, calls = cs ++ [Sys_close (kr_ret r0)] /\ Sys_close (kr_ret r0) ∉ cs) /\
           (let r1 := k_syscall (Sys_ioctl (kr_ret r0) KVM_GET_API_VERSION) (kr_kern r0) in
            0 <= kr_ret r1 -> kr_ret r1 <> KVM_API_VERSION -> e = ENOTSUP)
  end.
Proof.
  intros r0. unfold KvmSystem_open, sys_open, sys_close, ioctl, errno, bind, do_syscall, ret.
  cbn. fold r0. destruct (kr_ret r0 <? 0) eqn:E0.
  { do 2 eexists. split; [reflexivity|]. exists []. cbn. by rewrite E0. }
  cbn. set (r1 := k_syscall (Sys_ioctl (kr_ret r0) KVM_GET_API_VERSION) (kr_kern r0)).
  destruct (kr_ret r1 <? 0) eqn:E1; [|destruct (Z.eqb_spec (kr_ret r1) KVM_API_VERSION) as [E2|E2]; cbn].
  - do 2 eexists. split; [reflexivity|]. eexists. cbn. rewrite <-!app_assoc.
    split; [reflexivity|]. split; [|intros ?; boolify; lia].
    by exists [Sys_ioctl (kr_ret r0) KVM_GET_API_VERSION]; split; [|set_solver].
  - set (r2 := k_syscall (Sys_ioctl (kr_ret r0) KVM_GET_VCPU_MMAP_SIZE) (kr_kern r1)).
    destruct (kr_ret r2 <? 0) eqn:E3.
    + do 2 eexists. split; [reflexivity|]. eexists. cbn. rewrite <-!app_assoc.
      split; [reflexivity|]. split; [|done].
      by exists [Sys_ioctl (kr_ret r0) KVM_GET_API_VERSION;
                 Sys_ioctl (kr_ret r0) KVM_GET_VCPU_MMAP_SIZE]; split; [|set_solver].
    + do 2 eexists. split; [reflexivity|]. eexists. cbn. rewrite <-!app_assoc.
      split; [reflexivity|]. boolify. cbn. split_and!; try lia; try done. set_solver.
  - do 2 eexists. split; [reflexivity|]. eexists. cbn. rewrite <-!app_assoc.
    split; [reflexivity|]. split; [|done].
    by exists [Sys_ioctl (kr_ret r0) KVM_GET_API_VERSION]; split; [|set_solver].
Qed.

(** Move-assigning into a handle that holds no descriptor (a moved-from
    one) transfers nothing: the target stays empty and the source keeps its
    descriptor.  Into a handle that holds one, the assignment closes it and
    takes over the source's. *)
Lemma assign_into_empty_is_lost {K} `{Kernel K} {E} this other (w : World K E) :
  (ks_fd this < 0 -> KvmSystem_assign false this other w = Ok ((this, other), w)) /\
  (0 <= ks_fd this -> exists w', KvmSystem_assign false this other w = Ok (KvmSystem_move other, w') /\
     h_trace (w_host w') = h_trace (w_host w) ++ [Sys_close (ks_fd this)]).
Proof.
  unfold KvmSystem_assign. split; intros Hfd.
  - by rewrite (proj2 (Z.leb_gt _ _)) by lia.
  - rewrite (proj2 (Z.leb_le _ _)) by lia. eexists. split; reflexivity.
Qed.

Lemma assign_into_empty_is_lost_witness :
  KvmSystem_assign false (snd (KvmSystem_move (mk_KvmSystem 3 12 4160))) (mk_KvmSystem 7 12 4160)
    (sim_world (sim_vcpu []) ∅ tt)
  = Ok ((mk_KvmSystem (-1) 12 4160, mk_KvmSystem 7 12 4160), sim_world (sim_vcpu []) ∅ tt).
Proof. apply assign_into_empty_is_lost. done. Defined.
