(* ===== verification/Ownership.v ===== *)
(** * Who owns what: the handles of the program

    Every class that stands for descriptors or mappings gets its holdings
    ([held]) and every operation on it a specification of what it consumes and
    yields, on every branch. *)

From S2P Require Import Prelude Host SimKvm Resource Memory Vcpu Machine System.
From stdpp Require Import base list gmap gmultiset strings.
From Stdlib Require Import ZArith Lia.
Open Scope Z_scope.
Open Scope hv_scope.

(** ** Holdings *)

Class Holder (T : Type) := held : T -> resources.

(** The holdings of a list of objects. *)
Fixpoint all_held {T} `{Holder T} (l : list T) : resources :=
  match l with
  | [] => ∅
  | o :: l' => held o ⊎ all_held l'
  end.

Lemma all_held_app {T} `{Holder T} (l1 l2 : list T) : all_held (l1 ++ l2) = all_held l1 ⊎ all_held l2.
Proof. induction l1 as [|o l1 IH]; cbn [app all_held]; [by rewrite (left_id_L ∅ (⊎))|]. by rewrite IH, (assoc_L (⊎)). Qed.

Lemma all_held_perm {T} `{Holder T} (l1 l2 : list T) : l1 ≡ₚ l2 -> all_held l1 = all_held l2.
Proof. induction 1; cbn [all_held]; try multiset_solver; congruence. Qed.

Definition fd_held (fd : Z) : resources := if 0 <=? fd then {[+ RFd fd +]} else ∅.
Definition map_held (addr : Z) : resources :=
  if negb (addr =? nullptr) && negb (addr =? MAP_FAILED) then {[+ RMap addr +]} else ∅.

#[export] Instance region_holder : Holder MemoryRegion := fun r => map_held (mr_hostAddr r).
#[export] Instance vcpu_holder : Holder VCpu := fun v => map_held (vc_runPage v) ⊎ fd_held (vc_fd v).
#[export] Instance vm_holder : Holder VirtualMachine := fun vm =>
  fd_held (vm_fd vm) ⊎ all_held (vm_vcpus vm) ⊎ all_held (vm_memoryRegions vm).
#[export] Instance system_holder : Holder KvmSystem := fun s => fd_held (ks_fd s).

(** What an error-or-object result holds. *)
Definition result_held {T} `{Holder T} (e : expected T) : resources :=
  match e with Value o => held o | Unexpected _ => ∅ end.

Section Operations.

Context {K : Type} `{Kernel K} `{!MmapLaws K} `{!FdLaws K} `{!PageLaws K} {E : Type}.
Implicit Types (w : World K E) (X F G : resources) (P R : World K E -> Prop).

(** A fact about the resources [G] that no other operation can change. *)
Definition stable G (R : World K E -> Prop) : Prop := forall w w', kept G w w' -> R w -> R w'.

Abbreviation Tr := (fun _ : World K E => True).

Lemma stable_true G : stable G (fun _ => True).
Proof. done. Qed.

Lemma stable_mem G a l :
  RMap a ∈ G -> stable G (fun w => h_mem (w_host w) !! a = Some l).
Proof. intros Ha w w' Hk Hl. by rewrite (kp_mem _ _ _ Hk). Qed.

Lemma stable_page G fd a :
  RFd fd ∈ G -> RMap a ∈ G -> stable G (fun w => k_page (h_kern (w_host w)) fd a).
Proof. intros Hf Ha w w' Hkp Hk. by apply (kp_page _ _ _ Hkp). Qed.

Lemma stable_and G (R1 R2 : World K E -> Prop) : stable G R1 -> stable G R2 -> stable G (fun w => R1 w /\ R2 w).
Proof. intros H1 H2 w w' Hk [? ?]. split; [by eapply H1|by eapply H2]. Qed.

(** Running [m] next to the resources [G] and the fact [R] about them. *)
Lemma spec_beside {A} P X (m : M (World K E) A) Y Q G R :
  spec P X m Y Q -> stable G R ->
  spec (fun w => P w /\ R w) (X ⊎ G) m (fun a => Y a ⊎ G) (fun a w => Q a w /\ R w).
Proof.
  intros Hm HR F w Ho [HP Hr].
  destruct (Hm (G ⊎ F) w) as (a & w1 & E1 & Ho1 & Hk1 & HQ); [|done|].
  { replace (X ⊎ (G ⊎ F)) with (X ⊎ G ⊎ F) by multiset_solver. done. }
  exists a, w1. split; [done|]. split; [|split; [|split; [done|]]].
  - replace (Y a ⊎ G ⊎ F) with (Y a ⊎ (G ⊎ F)) by multiset_solver. done.
  - eapply kept_sub; [|exact Hk1]. multiset_solver.
  - eapply HR; [|exact Hr]. eapply kept_sub; [|exact Hk1]. multiset_solver.
Qed.

(** A step that needs no resources. *)
Lemma spec_step {A B} (m : M (World K E) A) (k : A -> M (World K E) B) R G Z T :
  spec Tr ∅ m (fun _ => ∅) (fun _ _ => True) -> stable G R ->
  (forall a, spec R G (k a) Z T) -> spec R G (bind m k) Z T.
Proof.
  intros Hm HR Hk. eapply (spec_bind _ _ _ (fun _ => G) (fun _ => R)); [|done].
  eapply (spec_conseq _ (fun w => True /\ R w) _ (∅ ⊎ G) _ _ (fun _ => ∅ ⊎ G) _ (fun _ w => True /\ R w)).
  - by apply spec_beside.
  - done.
  - multiset_solver.
  - multiset_solver.
  - by intros ? ? [_ ?].
Qed.

Lemma spec_errno : spec Tr ∅ errno (fun _ => ∅) (fun _ _ => True).
Proof. intros F w Ho _. exists (h_errno (w_host w)), w. eauto using kept_refl. Qed.

Lemma spec_ioctl fd req :
  yields_fd (Sys_ioctl fd req) = false ->
  spec Tr ∅ (ioctl fd req) (fun _ => ∅) (fun _ _ => True).
Proof. intros Hy. by apply spec_neutral. Qed.

Lemma spec_madvise a len : spec Tr ∅ (sys_madvise a len) (fun _ => ∅) (fun _ _ => True).
Proof.
  apply spec_step; [by apply spec_neutral|by apply stable_true|].
  intros []. apply (spec_ret tt (fun _ => ∅) (fun _ _ => True)).
Qed.

(** [ret] with what it needs. *)
Lemma spec_done {A} (a : A) (R : World K E -> Prop) X (Y : A -> resources) Q :
  X = Y a -> (forall w, R w -> Q a w) -> spec R X (ret a) Y Q.
Proof. intros -> HQ F w Ho Hr. exists a, w. eauto using kept_refl. Qed.

(** Releasing what [X] lists, with a unit operation, next to [G]. *)
Lemma spec_release (m : M (World K E) unit) X G :
  spec Tr X m (fun _ => ∅) (fun _ _ => True) ->
  spec Tr (X ⊎ G) m (fun _ => G) (fun _ _ => True).
Proof.
  intros Hm. eapply spec_conseq; [exact (spec_frame _ _ _ _ _ G Hm)|done|done| |done].
  intros []. multiset_solver.
Qed.

Lemma spec_seq {B} (m : M (World K E) unit) (k : unit -> M (World K E) B) X G Z T :
  spec Tr X m (fun _ => ∅) (fun _ _ => True) -> spec Tr G (k tt) Z T ->
  spec Tr (X ⊎ G) (bind m k) Z T.
Proof. intros Hm Hk. eapply spec_bind; [by apply spec_release|]. by intros []. Qed.

(** ** Regions *)

Lemma map_held_pos a : 0 < a -> map_held a = {[+ RMap a +]}.
Proof.
  intros Ha. unfold map_held, nullptr, MAP_FAILED. by rewrite !(proj2 (Z.eqb_neq _ _)) by lia.
Qed.

Lemma fd_held_pos fd : 0 <= fd -> fd_held fd = {[+ RFd fd +]}.
Proof. intros Hf. unfold fd_held. by rewrite (proj2 (Z.leb_le _ _)). Qed.

(** The mapping of a new region: zeroed and of its size. *)
Definition fresh_region fd slot gpa size (e : expected MemoryRegion) w : Prop :=
  match e with
  | Unexpected _ => True
  | Value r =>
      r = mk_MemoryRegion fd slot gpa size (mr_hostAddr r) /\ 0 < mr_hostAddr r /\
      h_mem (w_host w) !! mr_hostAddr r = Some (replicate (Z.to_nat size) 0)
  end.

Lemma spec_region_create fd slot gpa size flags :
  spec Tr ∅ (MemoryRegion_create fd slot gpa size flags) result_held (fresh_region fd slot gpa size).
Proof.
  unfold MemoryRegion_create. eapply spec_bind; [apply spec_mmap|]. intros a. cbn beta.
  destruct (a =? MAP_FAILED) eqn:Ea; boolify.
  - apply spec_step; [apply spec_errno|by intros ?|]. intros e. by apply spec_done.
  - set (R := fun w : World K E => 0 < a /\ h_mem (w_host w) !! a = Some (replicate (Z.to_nat size) 0)).
    assert (stable {[+ RMap a +]} R) as HR.
    { intros w w' Hk [? Hl]. split; [done|]. rewrite (kp_mem _ _ _ Hk); [done|multiset_solver]. }
    eapply (spec_conseq _ R); [| |done|done|done]; [|intros w Hw; destruct (Hw Ea) as (?&?&_); done].
    apply spec_step; [apply spec_madvise|done|]. intros [].
    apply spec_step; [by apply spec_ioctl|done|]. intros [r o]. destruct (r <? 0).
    + apply spec_step; [apply spec_errno|done|]. intros err.
      eapply spec_bind; [eapply spec_conseq; [apply spec_munmap|done|done|done|done]|].
      intros []. by apply spec_done.
    + intros F w Ho [Hpos Hl]. do 2 eexists. split; [reflexivity|].
      split; [|split; [apply kept_refl|done]]. cbn. unfold held, region_holder. cbn.
      by rewrite map_held_pos.
Qed.

Lemma spec_region_destroy r :
  spec Tr (held r) (MemoryRegion_destroy r) (fun _ => ∅) (fun _ _ => True).
Proof.
  unfold MemoryRegion_destroy, MemoryRegion_release, held, region_holder, map_held, MemoryRegion_owns.
  destruct (_ && _); [|by apply spec_done].
  apply spec_step; [by apply spec_ioctl|by intros ?|]. intros _. apply spec_munmap.
Qed.

Lemma region_move_held r :
  held (fst (MemoryRegion_move r)) = held r /\ held (snd (MemoryRegion_move r)) = ∅.
Proof. done. Qed.

Lemma spec_region_assign a b :
  spec Tr (held a ⊎ held b) (MemoryRegion_assign false a b) (fun p => held p.1 ⊎ held p.2)
       (fun _ _ => True).
Proof.
  unfold MemoryRegion_assign. eapply spec_seq; [apply (spec_region_destroy a)|].
  apply spec_done; [|done]. cbn beta. destruct (region_move_held b) as [-> ->]. multiset_solver.
Qed.

(** ** vCPUs *)

(** A new vCPU: a zeroed page that is the kernel's run structure of it. *)
Definition fresh_vcpu id size (e : expected VCpu) w : Prop :=
  match e with
  | Unexpected _ => True
  | Value v =>
      v = mk_VCpu (vc_fd v) id (vc_runPage v) (u64 size) /\ 0 <= vc_fd v /\ 0 < vc_runPage v /\
      h_mem (w_host w) !! vc_runPage v = Some (replicate (Z.to_nat (u64 size)) 0) /\
      k_page (h_kern (w_host w)) (vc_fd v) (vc_runPage v)
  end.

Lemma spec_vcpu_create vm_fd id size :
  spec Tr ∅ (VCpu_create vm_fd id size) result_held (fresh_vcpu id size).
Proof.
  unfold VCpu_create. eapply spec_bind; [by apply spec_yield|]. intros [fd o]. cbn [fst].
  destruct (fd <? 0) eqn:Ef; boolify.
  - apply spec_step; [apply spec_errno|done|]. intros e. by apply spec_done.
  - eapply spec_bind.
    { eapply spec_conseq; [exact (spec_frame _ _ _ _ _ {[+ RFd fd +]} (spec_mmap _ _))|done| |done|].
      - multiset_solver.
      - intros a w Hw. exact Hw. }
    intros a. cbn beta. destruct (a =? MAP_FAILED) eqn:Ea; boolify.
    + apply spec_step; [apply spec_errno|by intros ? ? ? ?|]. intros e.
      eapply spec_bind; [eapply spec_conseq; [apply spec_close|done| |done|done]|].
      * multiset_solver.
      * intros []. by apply spec_done.
    + intros F w Ho Hw. destruct (Hw Ea) as (Hpos & Hl & Hp). do 2 eexists. split; [reflexivity|].
      split; [|split; [apply kept_refl|by cbn]]. cbn. unfold held, vcpu_holder. cbn.
      by rewrite map_held_pos, fd_held_pos by lia.
Qed.

Lemma spec_vcpu_destroy v :
  spec Tr (held v) (VCpu_destroy v) (fun _ => ∅) (fun _ _ => True).
Proof.
  unfold VCpu_destroy, VCpu_release, held, vcpu_holder. apply spec_seq.
  - unfold map_held. destruct (_ && _); [apply spec_munmap|by apply spec_done].
  - unfold fd_held. destruct (0 <=? _); [apply spec_close|by apply spec_done].
Qed.

Lemma vcpu_move_held v : held (fst (VCpu_move v)) = held v /\ held (snd (VCpu_move v)) = ∅.
Proof. done. Qed.

Lemma spec_vcpu_assign a b :
  spec Tr (held a ⊎ held b) (VCpu_assign false a b) (fun p => held p.1 ⊎ held p.2) (fun _ _ => True).
Proof.
  unfold VCpu_assign. eapply spec_seq; [apply (spec_vcpu_destroy a)|].
  apply spec_done; [|done]. cbn beta. destruct (vcpu_move_held b) as [-> ->]. multiset_solver.
Qed.

(** ** Machines *)

Lemma spec_all_destroy {T} `{Holder T} (destroy : T -> M (World K E) unit) l :
  (forall o, spec Tr (held o) (destroy o) (fun _ => ∅) (fun _ _ => True)) ->
  spec Tr (all_held l) (mapM_ destroy l) (fun _ => ∅) (fun _ _ => True).
Proof.
  intros Hd. induction l as [|o l IH]; cbn; [by apply spec_done|]. by apply spec_seq.
Qed.

Lemma spec_close_vm fd : spec Tr (fd_held fd) (close_vm_fd fd) (fun _ => ∅) (fun _ _ => True).
Proof.
  unfold close_vm_fd, fd_held. destruct (0 <=? fd); [apply spec_close|by apply spec_done].
Qed.

Lemma vm_held_eq vm :
  held vm = fd_held (vm_fd vm) ⊎ all_held (vm_vcpus vm) ⊎ all_held (vm_memoryRegions vm).
Proof. done. Qed.

Lemma spec_vm_destroy vm : spec Tr (held vm) (VirtualMachine_destroy vm) (fun _ => ∅) (fun _ _ => True).
Proof.
  unfold VirtualMachine_destroy. rewrite vm_held_eq, <-(assoc_L (⊎)).
  apply spec_seq; [apply spec_close_vm|].
  apply spec_seq; apply spec_all_destroy; [apply spec_vcpu_destroy|apply spec_region_destroy].
Qed.

Lemma vm_move_held vm :
  held (fst (VirtualMachine_move vm)) = held vm /\ held (snd (VirtualMachine_move vm)) = ∅.
Proof. split; [done|]. by unfold held, vm_holder. Qed.

Lemma spec_vm_assign a b :
  spec Tr (held a ⊎ held b) (VirtualMachine_assign false a b) (fun p => held p.1 ⊎ held p.2)
       (fun _ _ => True).
Proof.
  unfold VirtualMachine_assign.
  replace (held a ⊎ held b) with
    (fd_held (vm_fd a) ⊎ (all_held (vm_memoryRegions a) ⊎ (all_held (vm_vcpus a) ⊎ held b)))
    by (rewrite (vm_held_eq a); multiset_solver).
  apply spec_seq; [apply spec_close_vm|].
  apply spec_seq; [apply spec_all_destroy, spec_region_destroy|].
  apply spec_seq; [apply spec_all_destroy, spec_vcpu_destroy|].
  apply spec_done; [|done]. cbn [fst snd]. destruct (vm_move_held b) as [-> ->]. multiset_solver.
Qed.

(** The machine after a call that adds a region or a vCPU. *)
Definition added_region vm gpa size (p : expected nat * VirtualMachine) w : Prop :=
  match p.1 with
  | Unexpected _ => p.2 = vm
  | Value i =>
      exists r, i = length (vm_memoryRegions vm) /\
        fresh_region (vm_fd vm) (vm_nextSlot vm) gpa size (Value r) w /\
        p.2 = mk_VirtualMachine (vm_fd vm) (vm_vcpuMmapSize vm) (u32 (vm_nextSlot vm + 1))
                                (vm_memoryRegions vm ++ [r]) (vm_vcpus vm)
  end.

Definition added_vcpu vm id (p : expected nat * VirtualMachine) w : Prop :=
  match p.1 with
  | Unexpected _ => p.2 = vm
  | Value i =>
      exists v, i = length (vm_vcpus vm) /\ fresh_vcpu id (vm_vcpuMmapSize vm) (Value v) w /\
        p.2 = mk_VirtualMachine (vm_fd vm) (vm_vcpuMmapSize vm) (vm_nextSlot vm)
                                (vm_memoryRegions vm) (vm_vcpus vm ++ [v])
  end.

Lemma spec_add_region vm gpa size flags :
  spec Tr (held vm) (addMemoryRegion vm gpa size flags) (fun p => held p.2) (added_region vm gpa size).
Proof.
  unfold addMemoryRegion. eapply spec_bind.
  { eapply spec_conseq; [exact (spec_frame _ _ _ _ _ (held vm) (spec_region_create _ _ _ _ _))|done| |done|].
    - multiset_solver.
    - intros a w Hw. exact Hw. }
  intros [r|ec]; cbn beta.
  - set (moved := fst (MemoryRegion_move r)).
    intros F w Ho Hw. eexists _, w. split; [reflexivity|]. split; [|split; [apply kept_refl|]].
    + cbn [snd]. rewrite vm_held_eq. cbn [vm_fd vm_vcpus vm_memoryRegions].
      rewrite all_held_app. cbn [result_held all_held] in Ho |- *. rewrite vm_held_eq in Ho.
      change (held (mk_MemoryRegion (mr_vmFd r) (mr_slot r) (mr_guestPhysAddr r) (mr_size r) (mr_hostAddr r)))
        with (held r).
      eapply owned_eq; [exact Ho|]. multiset_solver.
    + exists r. split; [done|]. split; [done|]. by destruct r.
  - apply spec_done; [cbn [fst snd result_held]; multiset_solver|done].
Qed.

(** Also next to a fact about what the machine already holds. *)
Lemma spec_add_vcpu_beside vm id (R : World K E -> Prop) :
  stable (held vm) R ->
  spec R (held vm) (addVCpu vm id) (fun p => held p.2) (fun p w => added_vcpu vm id p w /\ R w).
Proof.
  intros HR. unfold addVCpu. eapply spec_bind.
  { eapply spec_conseq; [exact (spec_beside _ _ _ _ _ (held vm) R (spec_vcpu_create _ _ _) HR)|done| |done|].
    - multiset_solver.
    - intros a w Hw. exact Hw. }
  intros [v|ec]; cbn beta.
  - intros F w Ho [Hw HRw]. eexists _, w. split; [reflexivity|]. split; [|split; [apply kept_refl|]].
    + cbn [snd]. rewrite vm_held_eq. cbn [vm_fd vm_vcpus vm_memoryRegions].
      rewrite all_held_app. cbn [result_held all_held] in Ho |- *. rewrite vm_held_eq in Ho.
      change (held (mk_VCpu (vc_fd v) (vc_id v) (vc_runPage v) (vc_mmapSize v))) with (held v).
      eapply owned_eq; [exact Ho|]. multiset_solver.
    + split; [|done]. exists v. split; [done|]. split; [done|]. by destruct v.
  - apply spec_done; [cbn [fst snd result_held]; multiset_solver|by intros w [_ ?]].
Qed.

Lemma spec_add_vcpu vm id :
  spec Tr (held vm) (addVCpu vm id) (fun p => held p.2) (added_vcpu vm id).
Proof.
  eapply spec_conseq; [exact (spec_add_vcpu_beside vm id (fun _ => True) (stable_true _))|done|done|done|].
  by intros p w [? _].
Qed.

(** ** The KVM handle *)

(** What a handle that was opened keeps of the calls that opened it. *)
Definition opened_system (e : expected KvmSystem) w : Prop :=
  match e with
  | Unexpected _ => True
  | Value s => 0 <= ks_fd s /\ 0 <= ks_vcpuMmapSize s
  end.

Lemma spec_system_open path :
  spec Tr ∅ (KvmSystem_open path) result_held opened_system.
Proof.
  unfold KvmSystem_open, sys_open. eapply spec_bind.
  { eapply spec_bind; [by apply spec_yield|]. intros [r o]. cbn [fst].
    apply (spec_ret r (fun r => if r <? 0 then ∅ else {[+ RFd r +]}) (fun _ _ => True)). }
  intros fd. cbn beta. destruct (fd <? 0) eqn:Ef; boolify.
  { apply spec_step; [apply spec_errno|done|]. intros e. by apply spec_done. }
  apply spec_step; [by apply spec_ioctl|done|]. intros [version ?]. destruct (version <? 0).
  { eapply spec_bind; [apply spec_close|]. intros []. cbn beta.
    apply spec_step; [apply spec_errno|done|]. intros e. by apply spec_done. }
  destruct (negb _).
  { eapply spec_bind; [apply spec_close|]. intros []. by apply spec_done. }
  apply spec_step; [by apply spec_ioctl|done|]. intros [size ?]. destruct (size <? 0) eqn:Es; boolify.
  { eapply spec_bind; [apply spec_close|]. intros []. cbn beta.
    apply spec_step; [apply spec_errno|done|]. intros e. by apply spec_done. }
  apply spec_done; [|done]. cbn. unfold held, system_holder. by rewrite fd_held_pos.
Qed.

Lemma spec_system_destroy s : spec Tr (held s) (KvmSystem_destroy s) (fun _ => ∅) (fun _ _ => True).
Proof. apply spec_close_vm. Qed.

Lemma system_move_held s : held (fst (KvmSystem_move s)) = held s /\ held (snd (KvmSystem_move s)) = ∅.
Proof. done. Qed.

(** Also where the assignment transfers nothing, nothing is lost. *)
Lemma spec_system_assign a b :
  spec Tr (held a ⊎ held b) (KvmSystem_assign false a b) (fun p => held p.1 ⊎ held p.2) (fun _ _ => True).
Proof.
  unfold KvmSystem_assign. destruct (0 <=? ks_fd a) eqn:Ea.
  - assert (held a = {[+ RFd (ks_fd a) +]}) as -> by (unfold held, system_holder, fd_held; by rewrite Ea).
    apply spec_seq; [apply spec_close|]. apply spec_done; [|done]. cbn [fst snd].
    destruct (system_move_held b) as [-> ->]. multiset_solver.
  - by apply spec_done.
Qed.

Lemma spec_create_vm s :
  spec Tr ∅ (createVm s) result_held
       (fun e _ => forall vm, e = Value vm ->
          vm = VirtualMachine_new (vm_fd vm) (ks_vcpuMmapSize s) /\ 0 <= vm_fd vm).
Proof.
  unfold createVm. eapply spec_bind; [by apply spec_yield|]. intros [fd o]. cbn [fst].
  destruct (fd <? 0) eqn:Ef; boolify.
  - apply spec_step; [apply spec_errno|done|]. intros e. by apply spec_done.
  - apply spec_done; [|by intros ? ? ? [= <-]]. cbn. unfold held, vm_holder. cbn.
    rewrite fd_held_pos by done. multiset_solver.
Qed.

End Operations.

(** ** What the process held at the start *)

Section Initial.

Context {K : Type} `{Kernel K} `{!MmapLaws K} `{!FdLaws K} {E : Type}.
Implicit Types (w : World K E).

(** The kernel agrees that what the process holds is in use, and memory is made
    of bytes. *)
Definition sound w : Prop :=
  (forall x, present w x = true -> in_use w x) /\ mem_bytes (h_mem (w_host w)).

Definition initial w : gset resource :=
  set_map RFd (h_fds (w_host w)) ∪ set_map RMap (dom (h_mem (w_host w))).

Lemma initial_present w x : x ∈ initial w <-> present w x = true.
Proof.
  unfold initial. rewrite elem_of_union, !elem_of_map. destruct x as [fd|a].
  - rewrite present_fd. naive_solver.
  - rewrite present_map, <-elem_of_dom. naive_solver.
Qed.

Lemma multiplicity_of_NoDup (l : list resource) x :
  NoDup l -> multiplicity x (list_to_set_disj l : resources) = if decide (x ∈ l) then 1%nat else 0%nat.
Proof.
  induction 1 as [|y l Hy _ IH]; cbn [list_to_set_disj].
  - by rewrite multiplicity_empty, decide_False by set_solver.
  - rewrite multiplicity_disj_union, multiplicity_singleton, IH.
    destruct (decide (x = y)) as [->|Hne].
    + by rewrite decide_False, decide_True by set_solver.
    + destruct (decide (x ∈ l)); [by rewrite decide_True by set_solver|].
      by rewrite decide_False by set_solver.
Qed.

Lemma owned_initial w : sound w -> exists L, owned w L /\ forall x, x ∈ L <-> present w x = true.
Proof.
  intros [Hs Hb]. set (L := list_to_set_disj (elements (initial w)) : resources).
  assert (owned w L) as Ho.
  { split; [|exact Hs|exact Hb]. intros x. unfold L. rewrite multiplicity_of_NoDup by apply NoDup_elements.
    destruct (present w x) eqn:Ep.
    - rewrite decide_True; [done|]. by apply elem_of_elements, initial_present.
    - rewrite decide_False; [done|]. rewrite elem_of_elements, initial_present. congruence. }
  exists L. split; [exact Ho|]. intros x. by apply owned_elem.
Qed.

(** The same holdings in two worlds: the same descriptors and mappings. *)
Lemma owned_same w w' L :
  owned w L -> owned w' L ->
  h_fds (w_host w') = h_fds (w_host w) /\ dom (h_mem (w_host w')) = dom (h_mem (w_host w)).
Proof.
  intros Ho Ho'. assert (forall x, present w' x = true <-> present w x = true) as Hp
    by (intros x; by rewrite <-(owned_elem w L x Ho), <-(owned_elem w' L x Ho')).
  split; apply set_eq; intros z.
  - rewrite <-!present_fd. apply Hp.
  - rewrite !elem_of_dom, <-!present_map. apply Hp.
Qed.

End Initial.
