(* ===== verification/Handles.v ===== *)
(** * Programs over handles

    A store of objects of the four classes that own descriptors or mappings
    (MemoryRegion, VCpu, VirtualMachine, KvmSystem) and the commands a program
    can issue on it: creations, moves, assignments, destructions, additions to
    a machine.  A command whose objects are not there (or are of another class,
    or whose target name is taken) is not a program and is skipped; a creation
    that fails leaves the store as it is. *)

From S2P Require Import Prelude Host SimKvm Resource Memory Vcpu Machine System Ownership.
From stdpp Require Import base list gmap gmultiset strings.
From Stdlib Require Import ZArith Lia.
Open Scope Z_scope.
Open Scope hv_scope.

Inductive object :=
| ORegion (r : MemoryRegion)
| OVcpu (v : VCpu)
| OVm (vm : VirtualMachine)
| OSystem (s : KvmSystem).

#[export] Instance object_holder : Holder object := fun o =>
  match o with ORegion r => held r | OVcpu v => held v | OVm vm => held vm | OSystem s => held s end.

Abbreviation store := (gmap nat object).

Inductive command :=
| NewRegion (x : nat) (fd slot gpa size flags : Z)
| NewVcpu (x : nat) (fd id size : Z)
| Open (x : nat) (path : string)
| CreateVm (x s : nat)
| AddRegion (x : nat) (gpa size flags : Z)
| AddVcpu (x : nat) (id : Z)
| Move (x y : nat)
| Assign (x y : nat)
| Destroy (x : nat).

Definition move_object (o : object) : object * object :=
  match o with
  | ORegion r => (ORegion (fst (MemoryRegion_move r)), ORegion (snd (MemoryRegion_move r)))
  | OVcpu v => (OVcpu (fst (VCpu_move v)), OVcpu (snd (VCpu_move v)))
  | OVm vm => (OVm (fst (VirtualMachine_move vm)), OVm (snd (VirtualMachine_move vm)))
  | OSystem s => (OSystem (fst (KvmSystem_move s)), OSystem (snd (KvmSystem_move s)))
  end.

Section Programs.

Context {K : Type} `{Kernel K} {E : Type}.

Definition destroy_object (o : object) : M (World K E) unit :=
  match o with
  | ORegion r => MemoryRegion_destroy r
  | OVcpu v => VCpu_destroy v
  | OVm vm => VirtualMachine_destroy vm
  | OSystem s => KvmSystem_destroy s
  end.

(** Assignment between distinct objects of one class. *)
Definition assign_object (a b : object) : M (World K E) (object * object) :=
  match a, b with
  | ORegion a, ORegion b => let* (a', b') := MemoryRegion_assign false a b in ret (ORegion a', ORegion b')
  | OVcpu a, OVcpu b => let* (a', b') := VCpu_assign false a b in ret (OVcpu a', OVcpu b')
  | OVm a, OVm b => let* (a', b') := VirtualMachine_assign false a b in ret (OVm a', OVm b')
  | OSystem a, OSystem b => let* (a', b') := KvmSystem_assign false a b in ret (OSystem a', OSystem b')
  | _, _ => ret (a, b)
  end.

(** [create]'s object goes into the store under a free name. *)
Definition put_new {T} (st : store) (x : nat) (con : T -> object) (create : M (World K E) (expected T))
  : M (World K E) store :=
  match st !! x with
  | Some _ => ret st
  | None =>
      let* e := create in
      ret (match e with Value o => <[x := con o]> st | Unexpected _ => st end)
  end.

Definition exec (st : store) (c : command) : M (World K E) store :=
  match c with
  | NewRegion x fd slot gpa size flags => put_new st x ORegion (MemoryRegion_create fd slot gpa size flags)
  | NewVcpu x fd id size => put_new st x OVcpu (VCpu_create fd id size)
  | Open x path => put_new st x OSystem (KvmSystem_open path)
  | CreateVm x s =>
      match st !! s with Some (OSystem k) => put_new st x OVm (createVm k) | _ => ret st end
  | AddRegion x gpa size flags =>
      match st !! x with
      | Some (OVm vm) => let* (_, vm') := addMemoryRegion vm gpa size flags in ret (<[x := OVm vm']> st)
      | _ => ret st
      end
  | AddVcpu x id =>
      match st !! x with
      | Some (OVm vm) => let* (_, vm') := addVCpu vm id in ret (<[x := OVm vm']> st)
      | _ => ret st
      end
  | Move x y =>
      match st !! x, st !! y with
      | None, Some o => ret (<[x := fst (move_object o)]> (<[y := snd (move_object o)]> st))
      | _, _ => ret st
      end
  | Assign x y =>
      match st !! x, st !! y with
      | Some a, Some b =>
          if bool_decide (x = y) then ret st
          else let* (a', b') := assign_object a b in ret (<[y := b']> (<[x := a']> st))
      | _, _ => ret st
      end
  | Destroy x =>
      match st !! x with
      | Some o => destroy_object o ;;; ret (delete x st)
      | None => ret st
      end
  end.

Fixpoint run (cmds : list command) (st : store) : M (World K E) store :=
  match cmds with
  | [] => ret st
  | c :: rest => let* st' := exec st c in run rest st'
  end.

End Programs.

(** The holdings of a store. *)
Definition store_held (st : store) : resources := all_held (map_to_list st).*2.

Lemma store_held_insert st x o : st !! x = None -> store_held (<[x := o]> st) = held o ⊎ store_held st.
Proof.
  intros Hx. unfold store_held.
  by rewrite (all_held_perm _ _ (fmap_Permutation snd _ _ (map_to_list_insert st x o Hx))).
Qed.

Lemma store_held_delete st x o : st !! x = Some o -> store_held st = held o ⊎ store_held (delete x st).
Proof.
  intros Hx. rewrite <-(store_held_insert _ x) by apply lookup_delete_eq.
  by rewrite insert_delete_id.
Qed.

Lemma store_held_update st x o : store_held (<[x := o]> st) = held o ⊎ store_held (delete x st).
Proof. by rewrite <-(store_held_insert _ x), insert_delete_eq by apply lookup_delete_eq. Qed.

Lemma store_held_pair st x y a b a' b' :
  x <> y -> st !! x = Some a -> st !! y = Some b ->
  store_held st = held a ⊎ held b ⊎ store_held (delete y (delete x st)) /\
  store_held (<[y := b']> (<[x := a']> st)) = held a' ⊎ held b' ⊎ store_held (delete y (delete x st)).
Proof.
  intros Hne Ha Hb. split.
  - rewrite (store_held_delete st x a Ha), (store_held_delete (delete x st) y b).
    + by rewrite (assoc_L (⊎)).
    + by rewrite lookup_delete_ne.
  - rewrite store_held_update, delete_insert_ne, store_held_update, delete_delete by done.
    multiset_solver.
Qed.

Section History.

Context {K : Type} `{Kernel K} `{!MmapLaws K} `{!FdLaws K} `{!PageLaws K} {E : Type}.
Abbreviation Tr := (fun _ : World K E => True).

Lemma spec_put_new {T} `{Holder T} st x (con : T -> object) (m : M (World K E) (expected T)) Q :
  (forall o, held (con o) = held o) -> spec Tr ∅ m result_held Q ->
  spec Tr (store_held st) (put_new st x con m) store_held (fun _ _ => True).
Proof.
  intros Hcon Hm. unfold put_new. destruct (st !! x) as [o|] eqn:Hx; [by apply spec_done|].
  eapply spec_bind.
  { eapply spec_conseq; [exact (spec_frame _ _ _ _ _ (store_held st) Hm)|done| |done|].
    - multiset_solver.
    - intros a w Hq. exact Hq. }
  intros [o|ec]; cbn beta; apply spec_done; try done; cbn [result_held].
  - by rewrite store_held_insert, Hcon.
  - multiset_solver.
Qed.

(** A command that turns the object at [x] into another. *)
Lemma spec_update st x (o : object) {A} (m : M (World K E) A) k (f : A -> object) Q :
  st !! x = Some o -> spec Tr (held o) m (fun a => held (f a)) Q ->
  (forall a, k a = ret (<[x := f a]> st)) ->
  spec Tr (store_held st) (bind m k) store_held (fun _ _ => True).
Proof.
  intros Hx Hm Hk. eapply spec_bind.
  { eapply spec_conseq; [exact (spec_frame _ _ _ _ _ (store_held (delete x st)) Hm)|done| |done|].
    - by apply store_held_delete.
    - intros a w Hq. exact Hq. }
  intros a. rewrite Hk. apply spec_done; [|done]. by rewrite store_held_update.
Qed.

Lemma move_object_held o : held (fst (move_object o)) = held o /\ held (snd (move_object o)) = ∅.
Proof. by destruct o. Qed.

Lemma spec_destroy_object o : spec Tr (held o) (destroy_object o) (fun _ => ∅) (fun _ _ => True).
Proof.
  destruct o; [apply spec_region_destroy|apply spec_vcpu_destroy|apply spec_vm_destroy|
               apply spec_system_destroy].
Qed.

Lemma spec_assign_object a b :
  spec Tr (held a ⊎ held b) (assign_object a b) (fun p => held p.1 ⊎ held p.2) (fun _ _ => True).
Proof.
  destruct a as [a|a|a|a], b as [b|b|b|b]; try (by apply spec_done); cbn [assign_object];
    (eapply spec_bind; [first [apply (spec_region_assign a b)|apply (spec_vcpu_assign a b)
                              |apply (spec_vm_assign a b)|apply (spec_system_assign a b)]|]);
    intros [a' b']; by apply spec_done.
Qed.

Lemma spec_exec st c : spec Tr (store_held st) (exec st c) store_held (fun _ _ => True).
Proof.
  destruct c as [x fd slot gpa size flags|x fd id size|x path|x s|x gpa size flags|x id|x y|x y|x];
    cbn [exec].
  - by eapply spec_put_new; [|apply spec_region_create].
  - by eapply spec_put_new; [|apply spec_vcpu_create].
  - by eapply spec_put_new; [|apply spec_system_open].
  - destruct (st !! s) as [[]|]; try by apply spec_done. by eapply spec_put_new; [|apply spec_create_vm].
  - destruct (st !! x) as [[| |vm|]|] eqn:Hx; try by apply spec_done.
    apply (spec_update st x (OVm vm) _ _ (fun p => OVm p.2) _ Hx (spec_add_region vm gpa size flags)).
    by intros [].
  - destruct (st !! x) as [[| |vm|]|] eqn:Hx; try by apply spec_done.
    apply (spec_update st x (OVm vm) _ _ (fun p => OVm p.2) _ Hx (spec_add_vcpu vm id)).
    by intros [].
  - destruct (st !! x) eqn:Hx; [by apply spec_done|]. destruct (st !! y) as [o|] eqn:Hy; [|by apply spec_done].
    apply spec_done; [|done]. destruct (move_object_held o) as [Hf Hs].
    rewrite store_held_insert by (rewrite lookup_insert_ne; congruence).
    rewrite store_held_update, Hf, Hs, (store_held_delete st y o Hy). multiset_solver.
  - destruct (st !! x) as [a|] eqn:Hx; [|by apply spec_done].
    destruct (st !! y) as [b|] eqn:Hy; [|by apply spec_done].
    case_bool_decide as Hxy; [by apply spec_done|].
    destruct (store_held_pair st x y a b a b Hxy Hx Hy) as [Hst _].
    eapply spec_bind.
    { eapply spec_conseq; [exact (spec_frame _ _ _ _ _ (store_held (delete y (delete x st))) (spec_assign_object a b))
                          |done|exact Hst|done|]. intros p w Hq. exact Hq. }
    intros [a' b']. apply spec_done; [|done].
    by destruct (store_held_pair st x y a b a' b' Hxy Hx Hy) as [_ ->].
  - destruct (st !! x) as [o|] eqn:Hx; [|by apply spec_done].
    rewrite (store_held_delete st x o Hx). eapply spec_seq; [apply spec_destroy_object|]. by apply spec_done.
Qed.

Lemma spec_run cmds st : spec Tr (store_held st) (run cmds st) store_held (fun _ _ => True).
Proof.
  revert st. induction cmds as [|c cmds IH]; intros st; [by apply spec_done|]. cbn [run].
  eapply spec_bind; [apply spec_exec|]. intros st'. apply IH.
Qed.

Lemma store_held_elem st x : x ∈ store_held st <-> exists i o, st !! i = Some o /\ x ∈ held o.
Proof.
  induction st as [|i o st Hi IH] using map_ind.
  - split; [by intros ?%gmultiset_elem_of_empty|]. intros (i & o & Hi & _). by rewrite lookup_empty in Hi.
  - rewrite store_held_insert, gmultiset_elem_of_disj_union, IH by done. split.
    + intros [Hx|(j & o' & Hj & Hx)]; [exists i, o; by rewrite lookup_insert_eq|].
      exists j, o'. rewrite lookup_insert_ne by congruence. done.
    + intros (j & o' & Hj & Hx). apply lookup_insert_Some in Hj as [[<- <-]|[_ Hj]]; [by left|right; eauto].
Qed.

End History.


(** C4. Along any program over handles (creations that succeed or fail, moves,
    move assignments, additions to machines, destructions, in any order) no
    operation faults, and at every point each descriptor and each mapping the
    process has beyond those it started with is held by exactly one object, and
    once: nothing leaks and nothing is released twice.  What the process had at
    the start stays, with its contents, and when every object is gone that is
    all it has. *)
Theorem handles_own {K} `{Kernel K} `{!MmapLaws K} `{!FdLaws K} `{!PageLaws K} {E}
    cmds (w : World K E) :
  sound w ->
  exists st w', run cmds ∅ w = Ok (st, w') /\
    (forall x, present w' x = true <->
       present w x = true \/ exists i o, st !! i = Some o /\ x ∈ held o) /\
    (forall i o x, st !! i = Some o -> x ∈ held o ->
       multiplicity x (held o) = 1%nat /\ present w x = false /\
       forall j o', st !! j = Some o' -> x ∈ held o' -> i = j) /\
    (forall a, is_Some (h_mem (w_host w) !! a) -> h_mem (w_host w') !! a = h_mem (w_host w) !! a) /\
    (st = ∅ -> h_fds (w_host w') = h_fds (w_host w) /\ h_mem (w_host w') = h_mem (w_host w)).
Proof.
  intros Hs. destruct (owned_initial w Hs) as (L & Ho & HL).
  destruct (spec_run cmds ∅ L w) as (st & w' & Hr & Ho' & Hk & _); [|done|].
  { eapply owned_eq; [exact Ho|]. unfold store_held. rewrite map_to_list_empty. multiset_solver. }
  exists st, w'. split; [exact Hr|]. assert (forall a, is_Some (h_mem (w_host w) !! a) -> h_mem (w_host w') !! a = h_mem (w_host w) !! a) as Hmem.
  { intros a Ha. apply (kp_mem _ _ _ Hk). by apply HL, present_map. }
  split_and!.
  - intros x. rewrite <-(owned_elem _ _ x Ho'), gmultiset_elem_of_disj_union, store_held_elem, HL. tauto.
  - intros i o x Hi Hx. pose proof (ow_holds _ _ Ho' x) as Hone.
    rewrite (store_held_delete st i o Hi), !multiplicity_disj_union in Hone.
    pose proof Hx as Hm. rewrite elem_of_multiplicity in Hm.
    assert (multiplicity x (held o) = 1%nat /\ multiplicity x (store_held (delete i st)) = 0%nat /\
            multiplicity x L = 0%nat) as (H1 & H2 & H3) by (destruct (present w' x); lia).
    split; [done|]. split.
    + apply not_true_is_false. rewrite <-HL, elem_of_multiplicity. lia.
    + intros j o' Hj Hx'. destruct (decide (i = j)) as [->|Hne]; [done|].
      assert (x ∈ store_held (delete i st)) as Hin.
      { apply store_held_elem. exists j, o'. by rewrite lookup_delete_ne. }
      rewrite elem_of_multiplicity in Hin. lia.
  - exact Hmem.
  - intros ->. assert (owned w' L) as Hob.
    { eapply owned_eq; [exact Ho'|]. unfold store_held. rewrite map_to_list_empty. multiset_solver. }
    destruct (owned_same w w' L Ho Hob) as [Hf Hd]. split; [exact Hf|].
    apply map_eq. intros a. destruct (h_mem (w_host w) !! a) eqn:Ea; [by rewrite Hmem by eauto|].
    apply not_elem_of_dom. by rewrite Hd, not_elem_of_dom.
Qed.

(** Two handles and two machines are made, moved and assigned onto each other
    (one assignment into an empty handle, which transfers nothing), and all are
    destroyed. *)
Definition demo_commands : list command :=
  [Open 0 "/dev/kvm"; CreateVm 1 0; AddRegion 1 0 16 0; AddVcpu 1 0; Move 2 1; AddVcpu 2 1;
   CreateVm 3 0; AddRegion 3 4096 8 0; Assign 3 2; NewRegion 4 7 0 0 32 0; Move 5 4; Assign 4 5;
   Open 6 "/dev/kvm"; Move 7 0; Assign 0 6; Assign 7 6; Destroy 2; Destroy 0; Destroy 1; Destroy 3;
   Destroy 4; Destroy 5; Destroy 6; Destroy 7].

Lemma handles_own_witness :
  exists w', run demo_commands ∅ (sim_world (sim_init []) {[7 := [1; 2]]} tt) = Ok (∅, w') /\
    h_fds (w_host w') = ∅ /\ h_mem (w_host w') = {[7 := [1; 2]]}.
Proof.
  destruct (handles_own demo_commands (sim_world (sim_init []) {[7 := [1; 2]]} tt))
    as (st & w' & Hr & _ & _ & _ & He).
  - split.
    + intros [fd|a] Hp; [apply present_fd in Hp; by apply elem_of_empty in Hp|].
      apply present_map in Hp. cbn in Hp. apply lookup_singleton_is_Some in Hp as <-. vm_compute. reflexivity.
    + apply map_Forall_singleton, bytesb_ok. reflexivity.
  - assert (st = ∅) as ->.
    { assert (Some st = match run demo_commands ∅ (sim_world (sim_init []) {[7 := [1; 2]]} tt) with
                        | Ok (s, _) => Some s | Fault _ => None end) as Hs by (by rewrite Hr).
      vm_compute in Hs. by injection Hs. }
    exists w'. split; [exact Hr|]. by apply He.
Defined.
