(* ===== verification/Trapper.v ===== *)
(** * The run loop (InstructionTrapper.h, InstructionTrapper.cpp)

    The trapper points to the vCPU and, possibly, to the handlers and to the
    dispatcher; those objects are reached through it only while the loop runs,
    so they are fields of its state here and a null pointer is [None]. *)

From S2P Require Import Prelude Host SimKvm Vcpu PortIo MmioDev Cpuid Msr Dispatcher.
From stdpp Require Import base list gmap strings.
From Stdlib Require Import ZArith Lia.
Open Scope Z_scope.
Open Scope hv_scope.

Inductive RunResult := Continue | Halt | RShutdown | RError.

#[export] Instance RunResult_eq_dec : EqDecision RunResult.
Proof. solve_decision. Defined.

Record InstructionTrapper (K E : Type) := mk_InstructionTrapper {
  it_vcpu : VCpu;
  it_cpuid : option (CpuidHandler K E);
  it_io : option (IoPortHandler K E);
  it_msr : option (MsrHandler K E);
  it_mmio : option (MmioHandler K E);
  it_dispatch : option (EventDispatcher K E);
  it_exitCount : Z }.
Arguments mk_InstructionTrapper {K E} _ _ _ _ _ _ _.
Arguments it_vcpu {K E} _.
Arguments it_cpuid {K E} _.
Arguments it_io {K E} _.
Arguments it_msr {K E} _.
Arguments it_mmio {K E} _.
Arguments it_dispatch {K E} _.
Arguments it_exitCount {K E} _.

(** The payload a value-initialised event has: the first alternative. *)
Definition default_payload : EventPayload := PCpuid (mk_CpuidEvent 0 0 0 0 0 0).

Section TrapperModel.

Context {K : Type} `{Kernel K} {E : Type}.
Implicit Types (t : InstructionTrapper K E) (w : World K E).

Definition InstructionTrapper_new vcpu cpuid io msr mmio dispatch : InstructionTrapper K E :=
  mk_InstructionTrapper vcpu cpuid io msr mmio dispatch 0.

Definition set_cpuid (c : CpuidHandler K E) t : InstructionTrapper K E :=
  mk_InstructionTrapper (it_vcpu t) (Some c) (it_io t) (it_msr t) (it_mmio t) (it_dispatch t)
                        (it_exitCount t).
Definition set_io (i : IoPortHandler K E) t : InstructionTrapper K E :=
  mk_InstructionTrapper (it_vcpu t) (it_cpuid t) (Some i) (it_msr t) (it_mmio t) (it_dispatch t)
                        (it_exitCount t).
Definition set_mmio (m : MmioHandler K E) t : InstructionTrapper K E :=
  mk_InstructionTrapper (it_vcpu t) (it_cpuid t) (it_io t) (it_msr t) (Some m) (it_dispatch t)
                        (it_exitCount t).
Definition set_dispatch (d : EventDispatcher K E) t : InstructionTrapper K E :=
  mk_InstructionTrapper (it_vcpu t) (it_cpuid t) (it_io t) (it_msr t) (it_mmio t) (Some d)
                        (it_exitCount t).
Definition bump_exit t : InstructionTrapper K E :=
  mk_InstructionTrapper (it_vcpu t) (it_cpuid t) (it_io t) (it_msr t) (it_mmio t) (it_dispatch t)
                        (u64 (it_exitCount t + 1)).

(** [m_h && !m_h->handle(...)] : the handler's verdict, [true] without one. *)
Definition call_cpuid t : M (World K E) (bool * InstructionTrapper K E) :=
  match it_cpuid t with
  | None => ret (true, t)
  | Some c => let* (b, c') := CpuidHandler_handle c (it_vcpu t) in ret (b, set_cpuid c' t)
  end.

Definition call_io t : M (World K E) (bool * InstructionTrapper K E) :=
  match it_io t with
  | None => ret (true, t)
  | Some i =>
      let* (b, i') := IoPortHandler_handle i (it_vcpu t) (vc_runPage (it_vcpu t)) in
      ret (b, set_io i' t)
  end.

Definition call_mmio t : M (World K E) (bool * InstructionTrapper K E) :=
  match it_mmio t with
  | None => ret (true, t)
  | Some m =>
      let* (b, m') := MmioHandler_handle m (vc_runPage (it_vcpu t)) in ret (b, set_mmio m' t)
  end.

(** [ev.rip] of an event: the guest's, or 0 when the registers cannot be read. *)
Definition event_rip t : M (World K E) Z :=
  let* regs := VCpu_getRegs (it_vcpu t) in
  ret (match regs with Value r => rip r | Unexpected _ => 0 end).

Definition publish_to t (d : EventDispatcher K E) (ev : HvEvent)
  : M (World K E) (InstructionTrapper K E) :=
  let* d' := publish d ev in ret (set_dispatch d' t).

Definition publish_halt t : M (World K E) (InstructionTrapper K E) :=
  match it_dispatch t with
  | None => ret t
  | Some d =>
      let* now := steady_now in
      let* rip := event_rip t in
      publish_to t d (mk_HvEvent GuestHalt (vc_id (it_vcpu t)) rip now PMono)
  end.

Definition publish_shutdown t : M (World K E) (InstructionTrapper K E) :=
  match it_dispatch t with
  | None => ret t
  | Some d =>
      let* now := steady_now in
      publish_to t d (mk_HvEvent GuestShutdown (vc_id (it_vcpu t)) 0 now default_payload)
  end.

Definition io_payload (page : list Z) (data : list Z) : IoEvent :=
  mk_IoEvent (io_port page) (io_size page) (le_decode data)
             (io_direction page =? KVM_EXIT_IO_OUT).

Definition publish_io t : M (World K E) (InstructionTrapper K E) :=
  match it_dispatch t with
  | None => ret t
  | Some d =>
      let* page := kvm_run_at (vc_runPage (it_vcpu t)) in
      let* data := lift (load_bytes page (io_data_offset page) (Z.min (io_size page) 4)) in
      let payload := io_payload page data in
      let* now := steady_now in
      let* rip := event_rip t in
      publish_to t d (mk_HvEvent (if ie_isWrite payload then IoWrite else IoRead)
                                 (vc_id (it_vcpu t)) rip now (PIo payload))
  end.

Definition publish_mmio t : M (World K E) (InstructionTrapper K E) :=
  match it_dispatch t with
  | None => ret t
  | Some d =>
      let* page := kvm_run_at (vc_runPage (it_vcpu t)) in
      let* data := lift (load_bytes page mmio_data_off (Z.min (u8 (mmio_len page)) 8)) in
      let payload := mk_MmioEvent (mmio_phys_addr page) (u8 (mmio_len page)) (le_decode data)
                                  (negb (mmio_is_write page =? 0)) in
      let* now := steady_now in
      let* rip := event_rip t in
      publish_to t d (mk_HvEvent MemAccess (vc_id (it_vcpu t)) rip now (PMmio payload))
  end.

(** The payload is read from the registers after the handler has run. *)
Definition cpuid_payload (regs : expected kvm_regs) : CpuidEvent :=
  match regs with
  | Value r => mk_CpuidEvent (u32 (rax r)) (u32 (rcx r))
                             (u32 (rax r)) (u32 (rbx r)) (u32 (rcx r)) (u32 (rdx r))
  | Unexpected _ => mk_CpuidEvent 0 0 0 0 0 0
  end.

Definition publish_cpuid t : M (World K E) (InstructionTrapper K E) :=
  match it_dispatch t with
  | None => ret t
  | Some d =>
      let* regs := VCpu_getRegs (it_vcpu t) in
      let* now := steady_now in
      let* rip := event_rip t in
      publish_to t d (mk_HvEvent CpuidAccess (vc_id (it_vcpu t)) rip now
                                 (PCpuid (cpuid_payload regs)))
  end.

Definition dispatchExit t (reason : ExitReason) : M (World K E) (RunResult * InstructionTrapper K E) :=
  match reason with
  | Hlt => let* t' := publish_halt t in ret (Halt, t')
  | Shutdown => let* t' := publish_shutdown t in ret (RShutdown, t')
  | Io =>
      let* (ok, t1) := call_io t in
      if negb ok then ret (RError, t1)
      else let* t2 := publish_io t1 in ret (Continue, t2)
  | Unknown =>
      let* page := kvm_run_at (vc_runPage (it_vcpu t)) in
      if hw_hardware_exit_reason page =? 0 then
        let* (ok, t1) := call_cpuid t in
        if negb ok then ret (RError, t1) else ret (Continue, t1)
      else ret (Continue, t)
  | Intr => ret (Continue, t)
  | Mmio =>
      let* (ok, t1) := call_mmio t in
      if negb ok then ret (RError, t1)
      else let* t2 := publish_mmio t1 in ret (Continue, t2)
  | InternalError =>
      let* page := kvm_run_at (vc_runPage (it_vcpu t)) in
      if internal_suberror page =? KVM_INTERNAL_ERROR_EMULATION then
        let* (ok, t1) := call_cpuid t in
        if negb ok then ret (RError, t1)
        else let* t2 := publish_cpuid t1 in ret (Continue, t2)
      else ret (RError, t)
  | _ => ret (Continue, t)
  end.

Definition step t : M (World K E) (RunResult * InstructionTrapper K E) :=
  let* exitResult := VCpu_run (it_vcpu t) in
  match exitResult with
  | Unexpected _ => ret (RError, t)
  | Value reason => dispatchExit (bump_exit t) reason
  end.

(** The loop, for at most [fuel] passes: [None] says it is still running. *)
Fixpoint runLoop_fuel (fuel : nat) (max_iterations iterations : Z) t
  : M (World K E) (option RunResult * InstructionTrapper K E) :=
  match fuel with
  | O => ret (None, t)
  | S fuel' =>
      if (max_iterations =? 0) || (iterations <? max_iterations) then
        let* (result, t') := step t in
        if bool_decide (result <> Continue) then ret (Some result, t')
        else runLoop_fuel fuel' max_iterations (u64 (iterations + 1)) t'
      else ret (Some Continue, t)
  end.

Definition runLoop (fuel : nat) (max_iterations : Z) t
  : M (World K E) (option RunResult * InstructionTrapper K E) :=
  runLoop_fuel fuel max_iterations 0 t.

Definition exitCount t : Z := it_exitCount t.

(** ** Sequences of passes that continue *)

Inductive continues : nat -> InstructionTrapper K E * World K E ->
                      InstructionTrapper K E * World K E -> Prop :=
| cont_0 s : continues 0 s s
| cont_S n t w t1 w1 s : step t w = Ok ((Continue, t1), w1) -> continues n (t1, w1) s ->
    continues (S n) (t, w) s.

Lemma loop_continues n fuel max i t w t1 w1 :
  continues n (t, w) (t1, w1) -> 0 <= i -> i + Z.of_nat n < 2 ^ 64 ->
  max = 0 \/ i + Z.of_nat n <= max ->
  runLoop_fuel (n + fuel) max i t w = runLoop_fuel fuel max (i + Z.of_nat n) t1 w1.
Proof.
  revert i t w. induction n as [|n IH]; intros i t w Hc Hi Hu Hm.
  { inversion Hc; subst. f_equal. lia. }
  inversion Hc as [|? ? ? t2 w2 ? Hs Hc']; subst. cbn [Nat.add runLoop_fuel].
  assert ((max =? 0) || (i <? max) = true) as ->.
  { apply orb_true_iff. rewrite Z.eqb_eq, Z.ltb_lt. lia. }
  rewrite (bind_Ok _ _ _ _ _ Hs). rewrite bool_decide_eq_false_2 by auto.
  rewrite u64_small by (unfold is_u64; lia). rewrite IH by (done || lia). f_equal. lia.
Qed.

(** Every run of the loop that gives a result decomposes into continuing
    passes and a last one. *)
Lemma loop_decompose fuel max i t w r t' w' :
  0 <= i -> i + Z.of_nat fuel < 2 ^ 64 -> max = 0 \/ i <= max ->
  runLoop_fuel fuel max i t w = Ok ((Some r, t'), w') ->
  exists n t1 w1, continues n (t, w) (t1, w1) /\ (n < fuel)%nat /\
    ((r <> Continue /\ step t1 w1 = Ok ((r, t'), w') /\ (max = 0 \/ i + Z.of_nat n < max)) \/
     (r = Continue /\ max <> 0 /\ i + Z.of_nat n = max /\ t1 = t' /\ w1 = w')).
Proof.
  revert i t w. induction fuel as [|fuel IH]; intros i t w Hi Hu Hm Hl; [done|].
  cbn [runLoop_fuel] in Hl. destruct ((max =? 0) || (i <? max)) eqn:Eg.
  - apply bind_inv in Hl as ([res t1] & w1 & Hs & Hl).
    assert (max = 0 \/ i < max) as Hg by (apply orb_true_iff in Eg; rewrite Z.eqb_eq, Z.ltb_lt in Eg; done).
    case_bool_decide as Hres.
    + injection Hl as <- <- <-. exists 0%nat, t, w. split; [constructor|]. split; [lia|].
      left. split; [done|]. split; [done|]. lia.
    + assert (res = Continue) as -> by (destruct (decide (res = Continue)); tauto).
      rewrite u64_small in Hl by (unfold is_u64; lia).
      destruct (IH (i + 1) t1 w1) as (n & t2 & w2 & Hc & Hn & Hcase); [lia|lia|lia|done|].
      exists (S n), t2, w2. split; [by econstructor|]. split; [lia|].
      destruct Hcase as [(?&?&?)|(?&?&?&?)]; [left|right]; (split; [done|]); (split; [done|]); lia || (split; [lia|done]).
  - apply orb_false_iff in Eg as [Eg1 Eg2]. boolify. injection Hl as <- <- <-.
    exists 0%nat, t, w. split; [constructor|]. split; [lia|]. right. split; [done|].
    split; [done|]. split; [lia|done].
Qed.

(** With a bound, the loop is done after that many passes. *)
Lemma loop_bounded fuel max i t w r t' w' :
  0 <= i <= max -> max <> 0 -> max < 2 ^ 64 -> max - i < Z.of_nat fuel ->
  runLoop_fuel fuel max i t w = Ok ((r, t'), w') -> is_Some r.
Proof.
  revert i t w. induction fuel as [|fuel IH]; intros i t w Hi Hm Hu Hf Hl; [lia|].
  cbn [runLoop_fuel] in Hl. destruct ((max =? 0) || (i <? max)) eqn:Eg.
  - apply orb_true_iff in Eg. rewrite Z.eqb_eq, Z.ltb_lt in Eg. assert (i < max) by tauto.
    apply bind_inv in Hl as ([res t1] & w1 & Hs & Hl).
    case_bool_decide; [by injection Hl as <- <- <-|].
    rewrite u64_small in Hl by (unfold is_u64; lia). eapply IH; [..|exact Hl]; lia.
  - by injection Hl as <- <- <-.
Qed.

(** More fuel than the passes that are left changes nothing. *)
Lemma loop_fuel_enough fuel fuel' max i t w :
  0 <= i <= max -> max <> 0 -> max < 2 ^ 64 ->
  max - i < Z.of_nat fuel -> max - i < Z.of_nat fuel' ->
  runLoop_fuel fuel max i t w = runLoop_fuel fuel' max i t w.
Proof.
  revert fuel' i t w. induction fuel as [|fuel IH]; intros fuel' i t w Hi Hm Hu Hf Hf'; [lia|].
  destruct fuel' as [|fuel']; [lia|]. cbn [runLoop_fuel].
  destruct ((max =? 0) || (i <? max)) eqn:Eg; [|done].
  apply orb_true_iff in Eg. rewrite Z.eqb_eq, Z.ltb_lt in Eg. assert (i < max) by tauto.
  unfold bind. destruct (step t w) as [[[res t1] w1]|]; [|done]. case_bool_decide; [done|].
  rewrite u64_small by (unfold is_u64; lia). apply IH; lia.
Qed.

End TrapperModel.

(** ** What a pass leaves alone, and how it is classified *)

Section Frames.

Context {K : Type} `{Kernel K} {E : Type}.
Implicit Types (t : InstructionTrapper K E) (w : World K E).

Definition same_core t t' : Prop :=
  it_vcpu t' = it_vcpu t /\ it_exitCount t' = it_exitCount t.

Ltac core_solver :=
  intros; binv;
  repeat match goal with
  | x : (_ * _)%type |- _ => destruct x
  | H : ret _ _ = Ok _ |- _ => injection H as ? ?; subst
  end; try done.

Lemma publish_to_core t d ev w t' w' : publish_to t d ev w = Ok (t', w') -> same_core t t'.
Proof. unfold publish_to. core_solver. Qed.

Lemma publish_core (p : InstructionTrapper K E -> M (World K E) (InstructionTrapper K E)) t w t' w' :
  p ∈ [publish_halt; publish_shutdown; publish_io; publish_mmio; publish_cpuid] ->
  p t w = Ok (t', w') -> same_core t t'.
Proof.
  intros Hp. apply list_elem_of_In in Hp as [<-|[<-|[<-|[<-|[<-|[]]]]]];
    unfold publish_halt, publish_shutdown, publish_io, publish_mmio, publish_cpuid;
    destruct (it_dispatch t); intros Hq; binv; eauto using publish_to_core;
    by injection Hq as <- <-.
Qed.

Lemma call_core (c : InstructionTrapper K E -> M (World K E) (bool * InstructionTrapper K E)) t w b t' w' :
  c ∈ [call_cpuid; call_io; call_mmio] -> c t w = Ok ((b, t'), w') -> same_core t t'.
Proof.
  intros Hc. apply list_elem_of_In in Hc as [<-|[<-|[<-|[]]]];
    unfold call_cpuid, call_io, call_mmio; case_match; core_solver;
    unfold ret in *; by simplify_eq.
Qed.

(** The verdict on an exit. *)
Definition verdict (reason : ExitReason) (r : RunResult) : Prop :=
  match r with
  | Halt => reason = Hlt
  | RShutdown => reason = Shutdown
  | RError => reason ∈ [Io; Unknown; Mmio; InternalError]
  | Continue => reason <> Hlt /\ reason <> Shutdown
  end.

Lemma dispatch_facts t reason w r t' w' :
  dispatchExit t reason w = Ok ((r, t'), w') -> same_core t t' /\ verdict reason r.
Proof.
  unfold dispatchExit. intros Hd.
  assert (forall a b c, same_core a b -> same_core b c -> same_core a c) as Htrans
    by (unfold same_core; intuition congruence).
  destruct reason; binv;
    repeat match goal with
    | x : (_ * _)%type |- _ => destruct x
    | H : context [if ?b then _ else _] |- _ => destruct b eqn:?
    | _ => progress binv
    end;
    unfold ret in *; simplify_eq/=;
    repeat match goal with
    | H : ?p _ _ = Ok (_, _) |- _ =>
        first [ apply (publish_core p) in H; [|set_solver]
              | apply (call_core p) in H; [|set_solver] ]
    end;
    (split; [eauto || (by split) | set_solver || done]).
Qed.

End Frames.

Section Counting.

Context {K : Type} `{Kernel K} {E : Type}.
Implicit Types (t : InstructionTrapper K E) (w : World K E).

Lemma step_facts t w r t' w' :
  step t w = Ok ((r, t'), w') ->
  it_vcpu t' = it_vcpu t /\
  (it_exitCount t' = u64 (it_exitCount t + 1) \/ r = RError /\ t' = t).
Proof.
  unfold step. intros Hs. apply bind_inv in Hs as ([reason|ec] & w1 & _ & Hs).
  - apply dispatch_facts in Hs as [[-> ->] _]. cbn. auto.
  - injection Hs as <- <- <-. auto.
Qed.

Lemma continues_count n t w t' w' :
  is_u64 (it_exitCount t) -> continues n (t, w) (t', w') ->
  it_vcpu t' = it_vcpu t /\ it_exitCount t' = u64 (it_exitCount t + Z.of_nat n).
Proof.
  revert t w. induction n as [|n IH]; intros t w Hu Hc.
  { inversion Hc; subst. rewrite Z.add_0_r, u64_small; done. }
  inversion Hc as [|? ? ? t1 w1 ? Hs Hc']; subst.
  apply step_facts in Hs as [Hv [Hn|[[=] _]]].
  destruct (IH t1 w1) as [-> ->]; [rewrite Hn; apply u64_range | done |].
  split; [done|]. rewrite Hn. unfold u64. rewrite Zplus_mod_idemp_l. f_equal. lia.
Qed.

End Counting.

(** ** Properties *)

(** C2. [runLoop] returns [r] exactly when, after some number of passes that
    all said to continue, either the next pass said [r] and that is not
    "continue", or the limit has been reached and [r] is "continue"; the limit
    is never exceeded, the same vCPU is driven throughout, and every pass is
    counted as one exit except one whose KVM_RUN failed. *)
Theorem runLoop_result {K} `{Kernel K} {E} fuel max (t : InstructionTrapper K E) w r t' w' :
  Z.of_nat fuel < 2 ^ 64 -> 0 <= max -> is_u64 (exitCount t) ->
  (runLoop fuel max t w = Ok ((Some r, t'), w') <->
   exists n t1 w1, continues n (t, w) (t1, w1) /\ (n < fuel)%nat /\
     it_vcpu t1 = it_vcpu t /\ exitCount t1 = u64 (exitCount t + Z.of_nat n) /\
     ((r <> Continue /\ step t1 w1 = Ok ((r, t'), w') /\ (max = 0 \/ Z.of_nat n < max) /\
       (exitCount t' = u64 (exitCount t + Z.of_nat n + 1) \/ r = RError /\ t' = t1)) \/
      (r = Continue /\ max <> 0 /\ Z.of_nat n = max /\ t1 = t' /\ w1 = w'))).
Proof.
  intros Hf Hmax Hu. split.
  - intros Hl. destruct (loop_decompose fuel max 0 t w r t' w') as (n & t1 & w1 & Hc & Hn & Hcase);
      [lia|lia|lia|done|].
    destruct (continues_count n t w t1 w1 Hu Hc) as [Hv Hcnt].
    exists n, t1, w1. split_and!; [done|done|done|done|].
    destruct Hcase as [(Hr & Hs & Hlt)|Hcase]; [left|right; tauto].
    split; [done|]. split; [done|]. split; [lia|].
    apply step_facts in Hs as [_ [Hn'|?]]; [left|by right]. unfold exitCount in *.
    rewrite Hn', Hcnt. unfold u64. by rewrite Zplus_mod_idemp_l.
  - intros (n & t1 & w1 & Hc & Hn & _ & _ & Hcase). unfold runLoop.
    replace fuel with (n + (fuel - n))%nat by lia.
    rewrite (loop_continues n (fuel - n) max 0 t w t1 w1 Hc) by lia.
    destruct (fuel - n)%nat as [|m] eqn:Em; [lia|]. cbn [runLoop_fuel].
    destruct Hcase as [(Hr & Hs & Hlt & _)|(-> & Hm0 & Hnm & -> & ->)].
    + assert ((max =? 0) || (0 + Z.of_nat n <? max) = true) as ->.
      { apply orb_true_iff. rewrite Z.eqb_eq, Z.ltb_lt. lia. }
      rewrite (bind_Ok _ _ _ _ _ Hs). by rewrite bool_decide_eq_true_2.
    + assert ((max =? 0) || (0 + Z.of_nat n <? max) = false) as ->; [|done].
      apply orb_false_iff. rewrite Z.eqb_neq, Z.ltb_ge. lia.
Qed.

(** Two exits: an interrupted KVM_RUN, then HLT. *)
Definition hlt_page : list Z := replicate 8 0 ++ le_encode 4 5 ++ replicate 276 0.
Definition loop_world (script : list sim_exit) : World SimK unit :=
  sim_world (sim_vcpu script) {[8192 := hlt_page]} tt.
Definition plain_trapper : InstructionTrapper SimK unit :=
  InstructionTrapper_new (mk_VCpu 5 0 8192 288) None None None None None.

Lemma runLoop_result_witness :
  exists t' w', runLoop 10 0 plain_trapper (loop_world [mk_exit (-1) EINTR []; mk_exit 0 0 []])
                = Ok ((Some Halt, t'), w') /\ exitCount t' = 2.
Proof.
  destruct (runLoop 10 0 plain_trapper (loop_world [mk_exit (-1) EINTR []; mk_exit 0 0 []]))
    as [[[r t'] w']|] eqn:Hl; [|by vm_compute in Hl].
  assert (r = Some Halt) as -> by (vm_compute in Hl; by injection Hl).
  exists t', w'. split; [reflexivity|].
  apply (runLoop_result 10 0 plain_trapper _ Halt) in Hl; [|done|done|done].
  destruct Hl as (n & t1 & w1 & Hc & _ & _ & _ & [(_ & Hs & _ & [Hn|[? _]])|(? & _)]); try done.
  rewrite Hn. assert (n = 1%nat) as ->; [|reflexivity].
  destruct n as [|[|n]]; [| done |].
  - inversion Hc; subst. vm_compute in Hs. discriminate.
  - inversion Hc as [|? ? ? ? ? ? Hs1 Hc1]; subst. vm_compute in Hs1. injection Hs1 as <- <-.
    inversion Hc1 as [|? ? ? ? ? ? Hs2 Hc2]; subst. vm_compute in Hs2. discriminate.
Defined.

(** C21. With a limit, [runLoop] terminates: once there is fuel for that many
    passes and one more to notice, the loop never runs out of it whatever the
    guest does, and more fuel gives the same outcome. *)
Theorem runLoop_terminates {K} `{Kernel K} {E} fuel fuel' max (t : InstructionTrapper K E) w :
  0 < max < 2 ^ 64 -> max < Z.of_nat fuel -> max < Z.of_nat fuel' ->
  (forall t' w', runLoop fuel max t w <> Ok ((None, t'), w')) /\
  runLoop fuel max t w = runLoop fuel' max t w.
Proof.
  intros Hm Hf Hf'. split; [|apply loop_fuel_enough; lia].
  intros t' w' Hl. destruct (loop_bounded fuel max 0 t w None t' w') as [r' Hr]; [lia..|done|done].
Qed.

Lemma runLoop_terminates_witness :
  runLoop 3 2 plain_trapper
    (loop_world [mk_exit (-1) EINTR []; mk_exit (-1) EINTR []; mk_exit (-1) EINTR []])
  = runLoop 100 2 plain_trapper
    (loop_world [mk_exit (-1) EINTR []; mk_exit (-1) EINTR []; mk_exit (-1) EINTR []]).
Proof. apply (runLoop_terminates 3 100 2 plain_trapper); lia. Defined.

(** Every exit is classified: only HLT ends the loop normally, only
    SHUTDOWN as a shutdown, and an error can only come from the four exits with
    a handler or an unhandled internal error; every other exit, the ones no
    enumerator names and entry failures included, re-enters the guest. *)
Lemma exit_verdicts {K} `{Kernel K} {E} (t : InstructionTrapper K E) reason w r t' w' :
  dispatchExit t reason w = Ok ((r, t'), w') ->
  (r = Halt <-> reason = Hlt) /\ (r = RShutdown <-> reason = Shutdown) /\
  (r = RError -> reason ∈ [Io; Unknown; Mmio; InternalError]) /\
  (reason ∉ [Hlt; Shutdown; Io; Unknown; Mmio; InternalError] ->
     r = Continue /\ t' = t /\ w' = w).
Proof.
  intros Hd. pose proof (dispatch_facts _ _ _ _ _ _ Hd) as [_ Hv]. split_and!.
  - split; [by intros ->|]. intros ->. destruct r; cbn in Hv; try done; [tauto|set_solver].
  - split; [by intros ->|]. intros ->. destruct r; cbn in Hv; try done; [tauto|set_solver].
  - by intros ->.
  - intros Hn. destruct reason; try (exfalso; set_solver); by injection Hd as <- <- <-.
Qed.

Lemma exit_verdicts_witness :
  dispatchExit plain_trapper FailEntry (loop_world []) = Ok ((Continue, plain_trapper), loop_world []).
Proof.
  destruct (dispatchExit plain_trapper FailEntry (loop_world [])) as [[[r t'] w']|] eqn:Hd;
    [|by vm_compute in Hd].
  destruct (exit_verdicts plain_trapper FailEntry (loop_world []) r t' w' Hd)
    as (_ & _ & _ & Hc).
  destruct Hc as (-> & -> & ->); [set_solver | reflexivity].
Defined.

(** A host whose KVM_RUN on a vCPU only ever is interrupted, or reports an exit
    the loop has no case for. *)
Definition only_unhandled {K} `{Kernel K} (fd run : Z) : Prop :=
  forall (k : K) m, let '(r, m') := k_run fd k m in
    (kr_ret r < 0 /\ kr_errno r = EINTR) \/
    (0 <= kr_ret r /\ run <> nullptr /\ exists page, m' !! run = Some page /\ page_ok page /\
       ExitReason_of (run_exit_reason page) ∉ [Hlt; Shutdown; Io; Unknown; Mmio; InternalError]).

Lemma step_unhandled {K} `{Kernel K} {E} (t : InstructionTrapper K E) w :
  only_unhandled (K := K) (vc_fd (it_vcpu t)) (vc_runPage (it_vcpu t)) ->
  exists w', step t w = Ok ((Continue, bump_exit t), w').
Proof.
  intros Hk. specialize (Hk (h_kern (w_host w)) (h_mem (w_host w))).
  unfold step, VCpu_run, ioctl_run, bind. destruct (k_run _ _ _) as [r m'].
  destruct Hk as [[Hneg He]|(Hpos & Hnz & page & Hp & Hok & Hr)].
  - rewrite (proj2 (Z.ltb_lt _ _) Hneg). unfold errno. cbn.
    rewrite (proj2 (Z.ltb_lt _ _) Hneg), He. cbn. eauto.
  - rewrite (proj2 (Z.ltb_ge _ _) Hpos).
    rewrite (kvm_run_at_ok _ page) by (split; [done|split; done]). cbn.
    destruct (ExitReason_of (run_exit_reason page)); try (exfalso; set_solver); cbn; eauto.
Qed.

(** C40. Without a limit the loop does not stop on exits it has no handler for:
    on a host whose KVM_RUN only ever is interrupted by a signal or reports
    such an exit (an entry failure, say), no number of passes gives a result.
    In particular a pending SIGINT does not end it. *)
Theorem runLoop_spins_on_unhandled {K} `{Kernel K} {E} (t : InstructionTrapper K E) w fuel :
  only_unhandled (K := K) (vc_fd (it_vcpu t)) (vc_runPage (it_vcpu t)) ->
  exists t' w', runLoop fuel 0 t w = Ok ((None, t'), w').
Proof.
  intros Hk. unfold runLoop. generalize 0 at 2 as i. revert t w Hk.
  induction fuel as [|fuel IH]; intros t w Hk i; [cbn; unfold ret; eauto|].
  destruct (step_unhandled t w Hk) as [w1 Hs]. cbn [runLoop_fuel Z.eqb orb].
  rewrite (bind_Ok _ _ _ _ _ Hs). rewrite bool_decide_eq_false_2 by auto. by apply IH.
Qed.

(** A host on which KVM_RUN is always interrupted. *)
Definition interrupted_kernel : Kernel unit := {|
  k_syscall _ k := KRes 0 0 OutNone k;
  k_run _ k m := (KRes (-1) EINTR OutNone k, m);
  k_clock k := (0, k);
  k_cpuid _ _ k := ((0, 0, 0, 0), k) |}.

Lemma runLoop_spins_on_unhandled_witness :
  exists t' w', @runLoop unit interrupted_kernel unit 1000 0
      (InstructionTrapper_new (mk_VCpu 5 0 8192 288) None None None None None)
      (mk_world (mk_host tt ∅ ∅ 0 [] [] []) tt) = Ok ((None, t'), w').
Proof.
  apply (@runLoop_spins_on_unhandled unit interrupted_kernel unit).
  intros k m. left. done.
Defined.

(** ** Events *)

Section Events.

Context {K : Type} `{KvmLaws K} {E : Type}.
Implicit Types (t : InstructionTrapper K E) (w : World K E).

(** The world after the clock and the registers have been read. *)
Definition after_clock_regs t w : World K E :=
  traced (Sys_ioctl (vc_fd (it_vcpu t)) KVM_GET_REGS)
         (on_host (set_kern (snd (k_clock (h_kern (w_host w))))) w).

Lemma clock_then_rip {A} t w r (f : Z -> Z -> M (World K E) A) :
  k_regs (h_kern (w_host w)) (vc_fd (it_vcpu t)) = Some r ->
  bind steady_now (fun now => bind (event_rip t) (fun rip => f now rip)) w =
  f (fst (k_clock (h_kern (w_host w)))) (rip r) (after_clock_regs t w).
Proof.
  intros Hr. unfold bind at 1, steady_now.
  destruct (k_clock (h_kern (w_host w))) as [now k] eqn:Ek. cbn.
  destruct (law_clock (h_kern (w_host w)) (vc_fd (it_vcpu t))) as [Hc _].
  rewrite Ek in Hc. cbn in Hc. unfold event_rip, after_clock_regs. rewrite Ek.
  assert (k_regs (h_kern (w_host (on_host (set_kern k) w))) (vc_fd (it_vcpu t)) = Some r) as Hk
    by (cbn; congruence).
  unfold bind at 1. by rewrite (bind_Ok _ _ _ _ _ (getRegs_ok (it_vcpu t) r _ Hk)).
Qed.

Lemma after_clock_regs_env t w :
  w_env (after_clock_regs t w) = w_env w /\
  h_mem (w_host (after_clock_regs t w)) = h_mem (w_host w).
Proof. done. Qed.

End Events.

(** C31. On an IN exit that its port answers with [v], the trapper publishes,
    after the answer is in place, one IoRead event with the vCPU's id and
    instruction pointer, the port, the operand size and the value the guest is
    going to see; then it continues. *)
Theorem io_in_event {K} `{KvmLaws K} {E} (t : InstructionTrapper K E) h d page v r w w1 :
  it_io t = Some h -> it_dispatch t = Some d ->
  page_at (vc_runPage (it_vcpu t)) page w -> io_data_ok page ->
  io_direction page <> KVM_EXIT_IO_OUT ->
  run_in h (io_port page) (mk_InContext (io_port page) (io_size page) (io_count page)) w
    = Ok (v, w1) ->
  page_at (vc_runPage (it_vcpu t)) page w1 ->
  k_regs (h_kern (w_host w1)) (vc_fd (it_vcpu t)) = Some r ->
  exists ev w2,
    dispatchExit t Io w =
      bind (publish d ev) (fun d' => ret (Continue, set_dispatch d' (set_io (io_count_in h) t))) w2 /\
    ev_type ev = IoRead /\ ev_vcpu_id ev = vc_id (it_vcpu t) /\ ev_rip ev = rip r /\
    ev_payload ev = PIo (mk_IoEvent (io_port page) (io_size page) (v mod 256 ^ io_width page) false) /\
    h_mem (w_host w2) = <[vc_runPage (it_vcpu t) := io_deliver page v]> (h_mem (w_host w1)) /\
    w_env w2 = w_env w1.
Proof.
  intros Hio Hd Hp Hdata Hdir Hv Hp1 Hr. pose proof (io_width_range page (proj2 (proj2 Hp))) as Hw.
  set (run := vc_runPage (it_vcpu t)) in *.
  set (w2 := with_page run (io_deliver page v) w1).
  destruct (io_deliver_facts page v (proj2 (proj2 Hp)) Hdata) as (Hlen & Hok & Hf & Hop & _).
  assert (page_at run (io_deliver page v) w2) as Hp2 by (by apply (page_at_with _ page)).
  eexists (mk_HvEvent IoRead (vc_id (it_vcpu t)) (rip r) (fst (k_clock (h_kern (w_host w2))))
            (PIo (mk_IoEvent (io_port page) (io_size page) (v mod 256 ^ io_width page) false))),
    (after_clock_regs (set_io (io_count_in h) t) w2).
  split; [|by cbn].
  assert (call_io t w = Ok ((true, set_io (io_count_in h) t), w2)) as Hcall.
  { unfold call_io. rewrite Hio. fold run.
    by rewrite (bind_Ok _ _ _ _ _ (handle_in h (it_vcpu t) run page v w w1 Hp Hdata Hdir Hv Hp1)). }
  unfold dispatchExit. rewrite (bind_Ok _ _ _ _ _ Hcall). cbn [negb].
  unfold publish_io. cbn [set_io it_dispatch it_vcpu]. rewrite Hd. fold run.
  unfold bind at 1. rewrite (bind_Ok _ _ _ _ _ (kvm_run_at_ok _ _ _ Hp2)).
  unfold io_data_offset, io_size, io_port, io_direction in *. unfold io_payload, io_data_offset,
    io_size, io_port, io_direction. rewrite !Hf by lia.
  destruct Hdata as [Hlo Hhi]. unfold io_width, io_data_offset, io_size, kvm_run_header in *.
  rewrite load_bytes_ok by lia.
  unfold io_operand, io_width, io_size, io_data_offset in Hop. rewrite !Hf in Hop by lia.
  rewrite Hop. unfold bind at 1. cbn [lift].
  rewrite le_decode_encode, Z2Nat.id by lia. rewrite (proj2 (Z.eqb_neq _ _) Hdir).
  cbn [ie_isWrite].
  change (it_vcpu t) with (it_vcpu (set_io (io_count_in h) t)).
  rewrite (clock_then_rip (set_io (io_count_in h) t) w2 r) by exact Hr.
  unfold publish_to, bind. cbn. by destruct (publish d _ _) as [[]|].
Qed.

(** The demo's keyboard exit, with one catch-all subscriber that records the
    event. *)
Definition event_trapper : InstructionTrapper SimK (option HvEvent) :=
  InstructionTrapper_new (mk_VCpu 5 0 8192 512) None
    (Some (registerInPort 0x60 (fun _ => ret 0x1A) IoPortHandler_new)) None None
    (Some (snd (subscribeAll (fun ev w => Ok (tt, mk_world (w_host w) (Some ev)))
                             EventDispatcher_new))).

Definition event_world {E} (page : list Z) (e : E) : World SimK E :=
  sim_world (sim_vcpu []) {[8192 := page]} e.

Lemma event_page_at {E} page (e : E) : page_ok page -> page_at 8192 page (event_world page e).
Proof. intros Hp. split; [done|]. split; [apply lookup_singleton_eq | done]. Qed.

Lemma io_in_event_witness :
  exists ev w2, ev_payload ev = PIo (mk_IoEvent 0x60 1 0x1A false) /\
    dispatchExit event_trapper Io (event_world io_page_in None) =
    bind (publish (snd (subscribeAll (fun ev w => Ok (tt, mk_world (w_host w) (Some ev)))
                                     EventDispatcher_new)) ev)
      (fun d' => ret (Continue, set_dispatch d' (set_io
         (io_count_in (registerInPort 0x60 (fun _ => ret 0x1A) IoPortHandler_new)) event_trapper))) w2.
Proof.
  destruct (io_in_event event_trapper
    (registerInPort 0x60 (fun _ => ret 0x1A) IoPortHandler_new)
    (snd (subscribeAll (fun ev w => Ok (tt, mk_world (w_host w) (Some ev))) EventDispatcher_new))
    io_page_in 0x1A (fix_rflags zero_regs) (event_world io_page_in None) (event_world io_page_in None))
    as (ev & w2 & Hd & _ & _ & _ & Hpay & _).
  - reflexivity.
  - reflexivity.
  - apply event_page_at, io_page_in_ok.
  - split; vm_compute; discriminate.
  - vm_compute; discriminate.
  - vm_compute; reflexivity.
  - apply event_page_at, io_page_in_ok.
  - vm_compute; reflexivity.
  - exists ev, w2. split; [|exact Hd]. rewrite Hpay. vm_compute. reflexivity.
Defined.

(** C32. On an MMIO read that its address answers with [v], the trapper
    publishes one MemAccess event with the address, the width and the value the
    guest is going to see, after the answer is in place, and continues. *)
Theorem mmio_read_event {K} `{KvmLaws K} {E} (t : InstructionTrapper K E) h d page v r w w1 :
  it_mmio t = Some h -> it_dispatch t = Some d ->
  page_at (vc_runPage (it_vcpu t)) page w -> 1 <= mmio_width page <= 8 ->
  mmio_is_write page = 0 ->
  run_mmio_read h (mk_ReadContext (mmio_phys_addr page) (mmio_width page)) w = Ok (v, w1) ->
  page_at (vc_runPage (it_vcpu t)) page w1 ->
  k_regs (h_kern (w_host w1)) (vc_fd (it_vcpu t)) = Some r ->
  exists ev w2,
    dispatchExit t Mmio w =
      bind (publish d ev) (fun d' => ret (Continue, set_dispatch d' (set_mmio (mmio_count_read h) t))) w2 /\
    ev_type ev = MemAccess /\ ev_vcpu_id ev = vc_id (it_vcpu t) /\ ev_rip ev = rip r /\
    ev_payload ev = PMmio (mk_MmioEvent (mmio_phys_addr page) (mmio_width page)
                                        (v mod 256 ^ mmio_width page) false) /\
    h_mem (w_host w2) = <[vc_runPage (it_vcpu t) := mmio_deliver page v]> (h_mem (w_host w1)) /\
    w_env w2 = w_env w1.
Proof.
  intros Hm Hd Hp Hw Hdir Hv Hp1 Hr.
  set (run := vc_runPage (it_vcpu t)) in *.
  set (w2 := with_page run (mmio_deliver page v) w1).
  destruct (mmio_deliver_facts page v (proj2 (proj2 Hp)) Hw) as (Hok & Hop & Hf & _).
  assert (page_at run (mmio_deliver page v) w2) as Hp2 by (by apply (page_at_with _ page)).
  eexists (mk_HvEvent MemAccess (vc_id (it_vcpu t)) (rip r) (fst (k_clock (h_kern (w_host w2))))
            (PMmio (mk_MmioEvent (mmio_phys_addr page) (mmio_width page)
                                 (v mod 256 ^ mmio_width page) false))),
    (after_clock_regs (set_mmio (mmio_count_read h) t) w2).
  split; [|by cbn].
  assert (call_mmio t w = Ok ((true, set_mmio (mmio_count_read h) t), w2)) as Hcall.
  { unfold call_mmio. rewrite Hm. fold run.
    by rewrite (bind_Ok _ _ _ _ _ (mmio_handle_read h run page v w w1 Hp Hw Hdir Hv Hp1)). }
  unfold dispatchExit. rewrite (bind_Ok _ _ _ _ _ Hcall). cbn [negb].
  unfold publish_mmio. cbn [set_mmio it_dispatch it_vcpu]. rewrite Hd. fold run.
  unfold bind at 1. rewrite (bind_Ok _ _ _ _ _ (kvm_run_at_ok _ _ _ Hp2)).
  fold (mmio_width (mmio_deliver page v)).
  assert (mmio_width (mmio_deliver page v) = mmio_width page) as Hw2
    by (unfold mmio_width, mmio_len; by rewrite Hf by lia).
  rewrite Hw2. unfold mmio_operand in Hop. rewrite Hw2 in Hop.
  unfold mmio_phys_addr, mmio_is_write in *. rewrite !Hf by lia.
  destruct Hp2 as (_ & _ & _ & Hl2). unfold kvm_run_header, mmio_data_off in *.
  rewrite Z.min_l, load_bytes_ok by lia. change (Z.to_nat 40) with 40%nat. rewrite Hop.
  unfold bind at 1. cbn [lift]. rewrite le_decode_encode, Z2Nat.id, Hdir by lia. cbn [negb Z.eqb].
  change (it_vcpu t) with (it_vcpu (set_mmio (mmio_count_read h) t)).
  rewrite (clock_then_rip (set_mmio (mmio_count_read h) t) w2 r) by exact Hr.
  unfold publish_to, bind. cbn. by destruct (publish d _ _) as [[]|].
Qed.

Lemma mmio_read_event_witness :
  let page := mmio_page 0xFEE00030 4 0 (replicate 8 0) in
  let t := InstructionTrapper_new (mk_VCpu 5 0 8192 512) None None None (Some mmio_test_reader)
             (Some EventDispatcher_new) in
  exists ev w2, ev_payload ev = PMmio (mk_MmioEvent 0xFEE00030 4 0x11223344 false) /\
    dispatchExit t Mmio (event_world page tt) =
    bind (publish EventDispatcher_new ev)
      (fun d' => ret (Continue, set_dispatch d' (set_mmio (mmio_count_read mmio_test_reader) t))) w2.
Proof.
  intros page t.
  assert (page_ok page) as Hok
    by (split; [apply bytesb_ok; vm_compute; reflexivity | vm_compute; discriminate]).
  destruct (mmio_read_event t mmio_test_reader EventDispatcher_new page 0x11223344
              (fix_rflags zero_regs) (event_world page tt) (event_world page tt))
    as (ev & w2 & Hd & _ & _ & _ & Hpay & _).
  - reflexivity.
  - reflexivity.
  - by apply event_page_at.
  - split; vm_compute; discriminate.
  - vm_compute; reflexivity.
  - vm_compute; reflexivity.
  - by apply event_page_at.
  - vm_compute; reflexivity.
  - exists ev, w2. split; [|exact Hd]. rewrite Hpay. vm_compute. reflexivity.
Defined.

(** On an emulation failure that the CPUID handler resolves, the event the
    trapper publishes names as its leaf the value the handler injected into
    EAX, and as its sub-leaf the one injected into ECX: the leaf the guest asked
    for is not in the event. *)
Lemma cpuid_event_leaf {K} `{KvmLaws K} {E} (t : InstructionTrapper K E) h d page r res w w1 :
  it_cpuid t = Some h -> it_dispatch t = Some d ->
  page_at (vc_runPage (it_vcpu t)) page w ->
  internal_suberror page = KVM_INTERNAL_ERROR_EMULATION ->
  k_regs (h_kern (w_host w)) (vc_fd (it_vcpu t)) = Some r ->
  run_leaf h (u32 (rax r)) (u32 (rcx r))
    (traced (Sys_ioctl (vc_fd (it_vcpu t)) KVM_GET_REGS) w) = Ok (res, w1) ->
  is_Some (k_regs (h_kern (w_host w1)) (vc_fd (it_vcpu t))) ->
  exists ev w2,
    dispatchExit t InternalError w =
      bind (publish d ev) (fun d' => ret (Continue, set_dispatch d' (set_cpuid (cpuid_counted h) t))) w2 /\
    ev_type ev = CpuidAccess /\ ev_rip ev = rip r /\
    ev_payload ev = PCpuid (mk_CpuidEvent (u32 (lr_eax res)) (u32 (lr_ecx res)) (u32 (lr_eax res))
                                          (u32 (lr_ebx res)) (u32 (lr_ecx res)) (u32 (lr_edx res))).
Proof.
  intros Hc Hd Hp Hsub Hr Hrun Hlive.
  destruct (cpuid_handle_ok h (it_vcpu t) r res w w1 Hr Hrun Hlive) as (k' & Hh & Hk').
  set (r' := set_abcd _ _ _ _ _) in *. set (t1 := set_cpuid (cpuid_counted h) t).
  set (w2 := traced _ _) in Hh.
  set (w3 := traced (Sys_ioctl (vc_fd (it_vcpu t)) KVM_GET_REGS) w2).
  eexists (mk_HvEvent CpuidAccess (vc_id (it_vcpu t)) (rip r') (fst (k_clock (h_kern (w_host w3))))
             (PCpuid (cpuid_payload (Value r')))), (after_clock_regs t1 w3).
  split; [|by cbn].
  assert (call_cpuid t w = Ok ((true, t1), w2)) as Hcall.
  { unfold call_cpuid. rewrite Hc. by rewrite (bind_Ok _ _ _ _ _ Hh). }
  unfold dispatchExit. rewrite (bind_Ok _ _ _ _ _ (kvm_run_at_ok _ _ _ Hp)), Hsub.
  cbn [Z.eqb KVM_INTERNAL_ERROR_EMULATION Pos.eqb].
  rewrite (bind_Ok _ _ _ _ _ Hcall). cbn [negb].
  unfold publish_cpuid. cbn [t1 set_cpuid it_dispatch it_vcpu]. rewrite Hd.
  unfold bind at 1. rewrite (bind_Ok _ _ _ _ _ (getRegs_ok (it_vcpu t) r' w2 Hk')). fold w3 t1.
  change (it_vcpu t) with (it_vcpu t1). rewrite (clock_then_rip t1 w3 r') by exact Hk'.
  unfold publish_to, bind. cbn. by destruct (publish d _ _) as [[]|].
Qed.

(** CPUID with EAX = 1 under the demo's leaf-1 callback: the event says leaf 0. *)
Definition emulation_page : list Z :=
  replicate 8 0 ++ le_encode 4 17 ++ replicate 20 0 ++ le_encode 4 1 ++ replicate 252 0.

Lemma cpuid_event_leaf_witness :
  let h := registerLeaf 1 masked_leaf CpuidHandler_new in
  let t := InstructionTrapper_new (mk_VCpu 5 0 8192 288) (Some h) None None None
             (Some EventDispatcher_new) in
  let w := sim_world (mk_simk 6 (2 ^ 32) {[5]} {[5 := cpuid_regs]} {[5 := zero_sregs]} [] [] 0)
             {[8192 := emulation_page]} tt in
  exists ev w2, ev_payload ev = PCpuid (mk_CpuidEvent 0 0 0 0 0 0) /\
    dispatchExit t InternalError w =
      bind (publish EventDispatcher_new ev)
        (fun d' => ret (Continue, set_dispatch d' (set_cpuid (cpuid_counted h) t))) w2.
Proof.
  intros h t w.
  destruct (cpuid_event_leaf t h EventDispatcher_new emulation_page cpuid_regs
    (mk_LeafResult 0 0 0 0) w (traced (Sys_ioctl 5 KVM_GET_REGS) w))
    as (ev & w2 & Hd & _ & _ & Hpay).
  - reflexivity.
  - reflexivity.
  - split; [done|]. split; [apply lookup_singleton_eq|].
    split; [apply bytesb_ok; vm_compute; reflexivity | vm_compute; discriminate].
  - vm_compute; reflexivity.
  - vm_compute; reflexivity.
  - vm_compute; reflexivity.
  - vm_compute; eauto.
  - exists ev, w2. split; [exact Hpay | exact Hd].
Defined.
