(* ===== verification/Counters.v ===== *)
(** * The books of a run

    The run loop and the objects it drives keep seven counters.  This file says
    what a run of the loop is as a sequence of exits ([looped]), what the
    counters should make of one ([tally]), and proves that the code's increments,
    spread over the trapper, the handlers and the bus, keep exactly these books,
    and that nothing else of the trapper, the handlers or the bus changes. *)

From S2P Require Import Prelude Host SimKvm Vcpu PortIo MmioDev Cpuid Msr Dispatcher Trapper.
From stdpp Require Import base list gmap strings.
From Stdlib Require Import ZArith Lia.
Open Scope Z_scope.
Open Scope hv_scope.

(** One exit: its reason, the run page as KVM_RUN left it, and what the
    dispatch of the exit said. *)
Record exit_record := mk_exit_record {
  x_reason : ExitReason;
  x_page : list Z;
  x_result : RunResult }.

(** ** What each counter counts *)

Definition served (x : exit_record) : bool :=
  match x_result x with RError => false | _ => true end.

Definition is_in (x : exit_record) : bool :=
  match x_reason x with Io => negb (io_direction (x_page x) =? KVM_EXIT_IO_OUT) | _ => false end.

Definition is_out (x : exit_record) : bool :=
  match x_reason x with Io => io_direction (x_page x) =? KVM_EXIT_IO_OUT | _ => false end.

Definition is_read (x : exit_record) : bool :=
  served x && match x_reason x with Mmio => mmio_is_write (x_page x) =? 0 | _ => false end.

Definition is_write (x : exit_record) : bool :=
  served x && match x_reason x with Mmio => negb (mmio_is_write (x_page x) =? 0) | _ => false end.

(** CPUID arrives as an exit of unknown reason, or as a failed emulation. *)
Definition is_cpuid (x : exit_record) : bool :=
  served x &&
  match x_reason x with
  | Unknown => hw_hardware_exit_reason (x_page x) =? 0
  | InternalError => internal_suberror (x_page x) =? KVM_INTERNAL_ERROR_EMULATION
  | _ => false
  end.

(** The exits that are published: those of unknown reason are not. *)
Definition is_published (x : exit_record) : bool :=
  served x &&
  match x_reason x with
  | Io | Mmio | Hlt | Shutdown | InternalError => true
  | _ => false
  end.

Definition count (p : exit_record -> bool) (xs : list exit_record) : Z :=
  Z.of_nat (length (List.filter p xs)).

Lemma count_app p xs ys : count p (xs ++ ys) = count p xs + count p ys.
Proof. unfold count. rewrite List.filter_app, length_app. lia. Qed.

Lemma count_nonneg p xs : 0 <= count p xs.
Proof. unfold count. lia. Qed.

(** No exit is counted twice: the kinds of handled exits are disjoint. *)
Definition kinds_of (x : exit_record) : list bool := [is_in x; is_out x; is_read x; is_write x; is_cpuid x].

Lemma kinds_disjoint x : (length (List.filter id (kinds_of x)) <= 1)%nat.
Proof.
  destruct x as [reason page r].
  unfold kinds_of, is_in, is_out, is_read, is_write, is_cpuid; cbn [x_reason x_page].
  destruct (served (mk_exit_record reason page r)), (io_direction page =? KVM_EXIT_IO_OUT),
    (mmio_is_write page =? 0), (hw_hardware_exit_reason page =? 0),
    (internal_suberror page =? KVM_INTERNAL_ERROR_EMULATION), reason; vm_compute; lia.
Qed.

(** So what the handlers count together is at most what the loop counts. *)
Lemma handled_at_most xs :
  count is_in xs + count is_out xs + count is_read xs + count is_write xs + count is_cpuid xs
  <= Z.of_nat (length xs).
Proof.
  induction xs as [|x xs IH]; [done|]. pose proof (kinds_disjoint x) as Hx.
  unfold count, kinds_of in *. cbn [List.filter id] in *.
  destruct (is_in x), (is_out x), (is_read x), (is_write x), (is_cpuid x); cbn [length] in *; lia.
Qed.

Section Books.

Context {K : Type} `{Kernel K} {E : Type}.
Implicit Types (t : InstructionTrapper K E) (w : World K E).

(** A counter that has been incremented [n] times; it wraps at 64 bits. *)
Definition add (n c : Z) : Z := u64 (c + n).

Lemma add_0 c : is_u64 c -> add 0 c = c.
Proof. intros Hc. unfold add. by rewrite Z.add_0_r, u64_small. Qed.

Lemma add_add n m c : add n (add m c) = add (m + n) c.
Proof. unfold add, u64. rewrite Zplus_mod_idemp_l. f_equal. lia. Qed.

Lemma add_range n c : is_u64 (add n c).
Proof. apply u64_range. Qed.

Hint Resolve add_range : core.

(** ** The trapper a sequence of exits should leave *)

Definition cpuid_tally (xs : list exit_record) (c : CpuidHandler K E) : CpuidHandler K E :=
  mk_CpuidHandler (cp_leafCallbacks c) (add (count is_cpuid xs) (cp_handledCount c)).

Definition io_tally (xs : list exit_record) (i : IoPortHandler K E) : IoPortHandler K E :=
  mk_IoPortHandler (io_inCallbacks i) (io_outCallbacks i)
                   (add (count is_in xs) (io_inCount i)) (add (count is_out xs) (io_outCount i)).

Definition mmio_tally (xs : list exit_record) (m : MmioHandler K E) : MmioHandler K E :=
  mk_MmioHandler (mm_readCallbacks m) (mm_writeCallbacks m)
                 (add (count is_read xs) (mm_readCount m)) (add (count is_write xs) (mm_writeCount m)).

Definition bus_tally (xs : list exit_record) (d : EventDispatcher K E) : EventDispatcher K E :=
  mk_EventDispatcher (ed_subscriptions d) (ed_nextId d)
                     (add (count is_published xs) (ed_publishedCount d)).

Definition tally (xs : list exit_record) t : InstructionTrapper K E :=
  mk_InstructionTrapper (it_vcpu t) (cpuid_tally xs <$> it_cpuid t) (io_tally xs <$> it_io t)
    (it_msr t) (mmio_tally xs <$> it_mmio t) (bus_tally xs <$> it_dispatch t)
    (add (Z.of_nat (length xs)) (it_exitCount t)).

(** The counters are 64-bit numbers. *)
Record counters_ok t : Prop := {
  co_exit : is_u64 (it_exitCount t);
  co_cpuid c : it_cpuid t = Some c -> is_u64 (cp_handledCount c);
  co_in i : it_io t = Some i -> is_u64 (io_inCount i);
  co_out i : it_io t = Some i -> is_u64 (io_outCount i);
  co_read m : it_mmio t = Some m -> is_u64 (mm_readCount m);
  co_write m : it_mmio t = Some m -> is_u64 (mm_writeCount m);
  co_bus d : it_dispatch t = Some d -> is_u64 (ed_publishedCount d) }.

Lemma tally_ok xs t : counters_ok (tally xs t).
Proof.
  split; cbn; eauto; intros ? Hx; apply fmap_Some in Hx as (? & _ & ->); apply u64_range.
Qed.

Lemma tally_nil t : counters_ok t -> tally [] t = t.
Proof.
  intros [H1 H2 H3 H4 H5 H6 H7]. destruct t as [v c i msr m d n]. cbn in *. unfold tally; cbn.
  rewrite add_0 by done. f_equal.
  - destruct c as [[]|]; [|done]. cbn. unfold cpuid_tally; cbn. rewrite add_0; [done|by apply (H2 _ eq_refl)].
  - destruct i as [[]|]; [|done]. cbn. unfold io_tally; cbn.
    by rewrite !add_0 by (apply (H3 _ eq_refl) || apply (H4 _ eq_refl)).
  - destruct m as [[]|]; [|done]. cbn. unfold mmio_tally; cbn.
    by rewrite !add_0 by (apply (H5 _ eq_refl) || apply (H6 _ eq_refl)).
  - destruct d as [[]|]; [|done]. cbn. unfold bus_tally; cbn. rewrite add_0; [done|by apply (H7 _ eq_refl)].
Qed.

Lemma tally_app xs ys t : tally ys (tally xs t) = tally (xs ++ ys) t.
Proof.
  destruct t as [v c i msr m d n]. unfold tally; cbn. rewrite add_add, length_app, Nat2Z.inj_add.
  f_equal.
  - destruct c; [|done]. cbn. unfold cpuid_tally; cbn. by rewrite add_add, count_app.
  - destruct i; [|done]. cbn. unfold io_tally; cbn. by rewrite !add_add, !count_app.
  - destruct m; [|done]. cbn. unfold mmio_tally; cbn. by rewrite !add_add, !count_app.
  - destruct d; [|done]. cbn. unfold bus_tally; cbn. by rewrite add_add, count_app.
Qed.

(** ** A run of the loop, as its exits *)

(** The run page of the trapper's vCPU; empty where there is none. *)
Definition page_seen t w : list Z := default [] (h_mem (w_host w) !! vc_runPage (it_vcpu t)).

(** A pass that reaches the dispatch. *)
Definition exit_of t w (x : exit_record) t' w' : Prop :=
  exists w1, VCpu_run (it_vcpu t) w = Ok (Value (x_reason x), w1) /\ x_page x = page_seen t w1 /\
    dispatchExit (bump_exit t) (x_reason x) w1 = Ok ((x_result x, t'), w').

(** [looped xs c r c']: the loop, started in [c], took the exits [xs] and
    returned [r] in [c']: an exit that ends it, a KVM_RUN that fails, or its
    limit. *)
Inductive looped : list exit_record -> InstructionTrapper K E * World K E -> RunResult ->
                   InstructionTrapper K E * World K E -> Prop :=
| looped_limit c : looped [] c Continue c
| looped_failed t w ec w1 :
    VCpu_run (it_vcpu t) w = Ok (Unexpected ec, w1) -> looped [] (t, w) RError (t, w1)
| looped_last t w x t1 w1 :
    exit_of t w x t1 w1 -> x_result x <> Continue -> looped [x] (t, w) (x_result x) (t1, w1)
| looped_more t w x t1 w1 xs r c :
    exit_of t w x t1 w1 -> x_result x = Continue -> looped xs (t1, w1) r c ->
    looped (x :: xs) (t, w) r c.

(** ** What the parts of a pass do to the books *)

Lemma kvm_run_at_page run w page w' :
  kvm_run_at run w = Ok (page, w') -> w' = w /\ default [] (h_mem (w_host w) !! run) = page.
Proof.
  unfold kvm_run_at, block_at, bind. destruct (run =? nullptr); [done|].
  destruct (h_mem (w_host w) !! run) as [l|]; [|done]. destruct (_ <=? _); [|done]. by intros [= <- <-].
Qed.

Lemma publish_to_tally t d ev w t' w' :
  publish_to t d ev w = Ok (t', w') ->
  t' = set_dispatch (mk_EventDispatcher (ed_subscriptions d) (ed_nextId d) (add 1 (ed_publishedCount d))) t.
Proof. unfold publish_to, publish. intros Hp. binv. injection E0 as <- <-. by injection Hp as <- <-. Qed.

(** A trapper with a bus that has been told one event. *)
Definition told t : InstructionTrapper K E :=
  mk_InstructionTrapper (it_vcpu t) (it_cpuid t) (it_io t) (it_msr t) (it_mmio t)
    ((fun d => mk_EventDispatcher (ed_subscriptions d) (ed_nextId d) (add 1 (ed_publishedCount d))) <$> it_dispatch t)
    (it_exitCount t).

Lemma publish_tally (p : InstructionTrapper K E -> M (World K E) (InstructionTrapper K E)) t w t' w' :
  p ∈ [publish_halt; publish_shutdown; publish_io; publish_mmio; publish_cpuid] ->
  p t w = Ok (t', w') -> t' = told t.
Proof.
  intros Hp. apply list_elem_of_In in Hp as [<-|[<-|[<-|[<-|[<-|[]]]]]];
    unfold publish_halt, publish_shutdown, publish_io, publish_mmio, publish_cpuid, told;
    destruct t as [? ? ? ? ? [d|] ?]; cbn [it_dispatch]; intros Hq; binv;
    try (apply publish_to_tally in Hq; exact Hq); by injection Hq as <- <-.
Qed.

(** One exit, counter by counter. *)
Lemma add_one (p : exit_record -> bool) x c :
  is_u64 c -> add (count p [x]) c = if p x then u64 (c + 1) else c.
Proof.
  intros Hc. unfold count. cbn [List.filter]. destruct (p x); [done|]. by apply add_0.
Qed.

Definition after_exit x t : InstructionTrapper K E :=
  mk_InstructionTrapper (it_vcpu t)
    ((fun c => if is_cpuid x then cpuid_counted c else c) <$> it_cpuid t)
    ((fun i => if is_in x then io_count_in i else if is_out x then io_count_out i else i) <$> it_io t)
    (it_msr t)
    ((fun m => if is_read x then mmio_count_read m else if is_write x then mmio_count_write m else m) <$> it_mmio t)
    ((fun d => mk_EventDispatcher (ed_subscriptions d) (ed_nextId d)
                 (if is_published x then add 1 (ed_publishedCount d) else ed_publishedCount d)) <$> it_dispatch t)
    (u64 (it_exitCount t + 1)).

Lemma tally_one x t : counters_ok t -> tally [x] t = after_exit x t.
Proof.
  intros [H1 H2 H3 H4 H5 H6 H7]. destruct t as [v c i msr m d n]. cbn in *. unfold tally, after_exit; cbn.
  f_equal.
  - destruct c as [[l k]|]; [|done]. cbn. unfold cpuid_tally; cbn. rewrite add_one by apply (H2 _ eq_refl).
    by destruct (is_cpuid x).
  - destruct i as [[l1 l2 k1 k2]|]; [|done]. cbn. unfold io_tally; cbn.
    rewrite !add_one by (apply (H3 _ eq_refl) || apply (H4 _ eq_refl)).
    unfold is_in, is_out. destruct (x_reason x), (io_direction (x_page x) =? KVM_EXIT_IO_OUT); done.
  - destruct m as [[l1 l2 k1 k2]|]; [|done]. cbn. unfold mmio_tally; cbn.
    rewrite !add_one by (apply (H5 _ eq_refl) || apply (H6 _ eq_refl)).
    unfold is_read, is_write. destruct (x_reason x), (served x), (mmio_is_write (x_page x) =? 0); done.
  - destruct d as [[]|]; [|done]. cbn. unfold bus_tally; cbn. rewrite add_one by apply (H7 _ eq_refl).
    by destruct (is_published x).
Qed.

(** The handlers, when they are there. *)
Lemma call_io_counts t w b t' w' :
  call_io t w = Ok ((b, t'), w') ->
  b = true /\ t' = mk_InstructionTrapper (it_vcpu t) (it_cpuid t)
    ((fun i => if io_direction (page_seen t w) =? KVM_EXIT_IO_OUT then io_count_out i else io_count_in i) <$> it_io t)
    (it_msr t) (it_mmio t) (it_dispatch t) (it_exitCount t).
Proof.
  unfold call_io, IoPortHandler_handle, page_seen. destruct t as [v c [i|] msr m d n]; cbn [it_io]; intros Hc;
    [|by injection Hc as <- <- _].
  apply bind_inv in Hc as ([b1 i1] & w1 & Hh & Hc). injection Hc as <- <- _.
  apply bind_inv in Hh as (page & w2 & Hp & Hh). apply kvm_run_at_page in Hp as [-> Hp]. cbn in *. rewrite Hp.
  destruct (_ =? KVM_EXIT_IO_OUT); binv; by injection Hh as <- <- _.
Qed.

Lemma call_mmio_counts t w b t' w' :
  call_mmio t w = Ok ((b, t'), w') ->
  t' = mk_InstructionTrapper (it_vcpu t) (it_cpuid t) (it_io t) (it_msr t)
    ((fun m => if b then if mmio_is_write (page_seen t w) =? 0 then mmio_count_read m else mmio_count_write m
               else m) <$> it_mmio t)
    (it_dispatch t) (it_exitCount t).
Proof.
  unfold call_mmio, MmioHandler_handle, page_seen. destruct t as [v c i msr [m|] d n]; cbn [it_mmio]; intros Hc;
    [|by injection Hc as <- <- _].
  apply bind_inv in Hc as ([b1 m1] & w1 & Hh & Hc). injection Hc as <- <- _.
  apply bind_inv in Hh as (page & w2 & Hp & Hh). apply kvm_run_at_page in Hp as [-> Hp]. cbn in *. rewrite Hp.
  destruct (_ || _); [by injection Hh as <- <- _|].
  destruct (mmio_is_write page =? 0); cbn [negb] in Hh; binv; by injection Hh as <- <- _.
Qed.

Lemma call_cpuid_counts t w b t' w' :
  call_cpuid t w = Ok ((b, t'), w') ->
  t' = mk_InstructionTrapper (it_vcpu t) ((fun c => if b then cpuid_counted c else c) <$> it_cpuid t)
    (it_io t) (it_msr t) (it_mmio t) (it_dispatch t) (it_exitCount t).
Proof.
  unfold call_cpuid, CpuidHandler_handle. destruct t as [v [c|] i msr m d n]; cbn [it_cpuid]; intros Hc;
    [|by injection Hc as <- <- _].
  apply bind_inv in Hc as ([b1 c1] & w1 & Hh & Hc). injection Hc as <- <- _.
  apply bind_inv in Hh as ([regs|ec] & w2 & _ & Hh); [|by injection Hh as <- <- _].
  binv. destruct (ec_failed _); by injection Hh as <- <- _.
Qed.

(** *** A pass *)

(** Both sides of the books, with every object of the trapper there or not. *)
Ltac books t :=
  repeat match goal with
  | H : default [] (h_mem (w_host ?w) !! vc_runPage (it_vcpu (bump_exit t))) = ?p |- _ =>
      change (page_seen t w = p) in H; subst p
  | |- context [page_seen (bump_exit t) ?w] => change (page_seen (bump_exit t) w) with (page_seen t w)
  end;
  match goal with |- context [page_seen t ?w] => generalize dependent (page_seen t w); intros page end;
  intros;
  unfold after_exit, told, bump_exit, is_cpuid, is_in, is_out, is_read, is_write, is_published, served;
  destruct t as [v [c|] [i|] msr [m|] [d|] n];
  cbn -[u64 hw_hardware_exit_reason internal_suberror io_direction mmio_is_write] in *;
  repeat match goal with
  | Hb : (_ =? _) = _ |- _ => rewrite Hb; clear Hb
  | |- context [if (?a =? ?b) then _ else _] => destruct (a =? b)
  | Hd : EventDispatcher _ _ |- _ => destruct Hd
  end; cbn -[u64]; try done.

Lemma dispatch_counts t reason w r t' w' :
  dispatchExit (bump_exit t) reason w = Ok ((r, t'), w') ->
  t' = after_exit (mk_exit_record reason (page_seen t w) r) t.
Proof.
  intros Hd. destruct reason; cbn [dispatchExit] in Hd;
    try (injection Hd as <- <- <-; books t).
  - apply bind_inv in Hd as (page & w1 & Hp & Hd). apply kvm_run_at_page in Hp as [-> Hp].
    destruct (_ =? 0) eqn:Eq; [|injection Hd as <- <- _; books t].
    apply bind_inv in Hd as ([b t1] & w1 & Hc & Hd). apply call_cpuid_counts in Hc as ->.
    destruct b; injection Hd as <- <- _; books t.
  - apply bind_inv in Hd as ([b t1] & w1 & Hc & Hd). apply call_io_counts in Hc as [-> ->]. cbn [negb] in Hd.
    apply bind_inv in Hd as (t2 & w2 & Hp & Hd). apply (publish_tally publish_io) in Hp as ->; [|set_solver].
    injection Hd as <- <- _. books t.
  - apply bind_inv in Hd as (t2 & w2 & Hp & Hd). apply (publish_tally publish_halt) in Hp as ->; [|set_solver].
    injection Hd as <- <- _. books t.
  - apply bind_inv in Hd as ([b t1] & w1 & Hc & Hd). apply call_mmio_counts in Hc as ->. destruct b; cbn [negb] in Hd.
    + apply bind_inv in Hd as (t2 & w2 & Hp & Hd). apply (publish_tally publish_mmio) in Hp as ->; [|set_solver].
      injection Hd as <- <- _. books t.
    + injection Hd as <- <- _. books t.
  - apply bind_inv in Hd as (t2 & w2 & Hp & Hd). apply (publish_tally publish_shutdown) in Hp as ->; [|set_solver].
    injection Hd as <- <- _. books t.
  - apply bind_inv in Hd as (page & w1 & Hp & Hd). apply kvm_run_at_page in Hp as [-> Hp].
    destruct (_ =? KVM_INTERNAL_ERROR_EMULATION) eqn:Eq; [|injection Hd as <- <- _; books t].
    apply bind_inv in Hd as ([b t1] & w1 & Hc & Hd). apply call_cpuid_counts in Hc as ->.
    destruct b; cbn [negb] in Hd; [|injection Hd as <- <- _; books t].
    apply bind_inv in Hd as (t2 & w2 & Hq & Hd). apply (publish_tally publish_cpuid) in Hq as ->; [|set_solver].
    injection Hd as <- <- _. books t.
Qed.

Lemma exit_counts t w x t' w' :
  counters_ok t -> exit_of t w x t' w' -> t' = tally [x] t.
Proof.
  intros Ht (w1 & _ & Hp & Hd). rewrite tally_one by done. apply dispatch_counts in Hd as ->.
  destruct x as [reason page r]. cbn in *. by subst.
Qed.

Lemma exit_vcpu t w x t' w' : exit_of t w x t' w' -> it_vcpu t' = it_vcpu t.
Proof. intros (w1 & _ & _ & Hd). by apply dispatch_counts in Hd as ->. Qed.

(** ** The books of a run *)

Lemma looped_tally xs c r c' :
  looped xs c r c' -> counters_ok c.1 -> c'.1 = tally xs c.1.
Proof.
  induction 1 as [[t w]|t w ec w1 Hr|t w x t1 w1 Hx Hn|t w x t1 w1 xs r [t2 w2] Hx Hc Hl IH];
    cbn [fst] in *; intros Ht.
  - by rewrite tally_nil.
  - by rewrite tally_nil.
  - by eapply exit_counts.
  - apply exit_counts in Hx as ->; [|done]. rewrite IH by apply tally_ok. by rewrite tally_app.
Qed.

Lemma step_exit t w r t' w' :
  step t w = Ok ((r, t'), w') ->
  (exists x, exit_of t w x t' w' /\ x_result x = r) \/
  (r = RError /\ t' = t /\ exists ec, VCpu_run (it_vcpu t) w = Ok (Unexpected ec, w')).
Proof.
  unfold step. intros Hs. apply bind_inv in Hs as ([reason|ec] & w1 & Hr & Hs).
  - left. exists (mk_exit_record reason (page_seen t w1) r). split; [|done]. by exists w1.
  - right. injection Hs as <- <- <-. eauto.
Qed.

Lemma loop_looped fuel max i t w r t' w' :
  0 <= i -> i + Z.of_nat fuel < 2 ^ 64 -> max = 0 \/ i <= max ->
  runLoop_fuel fuel max i t w = Ok ((Some r, t'), w') ->
  exists xs, looped xs (t, w) r (t', w') /\
    (max <> 0 -> i + Z.of_nat (length xs) <= max) /\
    (r = Continue -> max <> 0 /\ i + Z.of_nat (length xs) = max).
Proof.
  revert i t w. induction fuel as [|fuel IH]; intros i t w Hi Hu Hm Hl; [done|].
  cbn [runLoop_fuel] in Hl. destruct ((max =? 0) || (i <? max)) eqn:Eg.
  - apply bind_inv in Hl as ([res t1] & w1 & Hs & Hl).
    apply orb_true_iff in Eg. rewrite Z.eqb_eq, Z.ltb_lt in Eg.
    apply step_exit in Hs as [(x & Hx & <-)|(-> & -> & ec & Hr)].
    + case_bool_decide as Hres.
      * injection Hl as <- <- <-. exists [x]. split; [by apply looped_last|]. cbn. split; [lia|done].
      * assert (x_result x = Continue) as Hc by (destruct (x_result x); tauto || (destruct Hres; done)).
        rewrite u64_small in Hl by (unfold is_u64; lia).
        destruct (IH (i + 1) t1 w1) as (xs & Hx1 & H1 & H2); [lia|lia|lia|done|].
        exists (x :: xs). split; [by eapply looped_more|]. cbn [length]. split; [lia|]. intros Hr.
        destruct (H2 Hr). lia.
    + rewrite bool_decide_eq_true_2 in Hl by done. injection Hl as <- <- <-. exists [].
      split; [by eapply looped_failed|]. cbn. split; [lia|done].
  - apply orb_false_iff in Eg as [Eg1 Eg2]. boolify. injection Hl as <- <- <-.
    exists []. split; [constructor|]. cbn. lia.
Qed.

End Books.

(** C14. The books of a run are kept: whatever callbacks are registered and
    whatever the guest does, when [runLoop] returns, its exits can be told as a
    sequence (no longer than the limit, and as long as the limit when it returns
    "continue") such that the trapper is the one it was called with but for the
    counters, and each counter of the trapper, the handlers and the bus has
    advanced, modulo 2^64, by the number of exits of its kind: exits that reached
    the dispatch, IN, OUT, served MMIO reads and writes, served CPUID exits, and
    published exits.  The handlers together count no exit twice. *)
Theorem counters_account {K} `{Kernel K} {E} fuel max (t : InstructionTrapper K E) w r t' w' :
  Z.of_nat fuel < 2 ^ 64 -> 0 <= max -> counters_ok t ->
  runLoop fuel max t w = Ok ((Some r, t'), w') ->
  exists xs, looped xs (t, w) r (t', w') /\ t' = tally xs t /\
    (max <> 0 -> Z.of_nat (length xs) <= max) /\ (r = Continue -> Z.of_nat (length xs) = max) /\
    count is_in xs + count is_out xs + count is_read xs + count is_write xs + count is_cpuid xs
      <= Z.of_nat (length xs).
Proof.
  intros Hf Hm Ht Hl. destruct (loop_looped fuel max 0 t w r t' w') as (xs & Hx & H1 & H2); [lia..|done|].
  exists xs. split; [done|]. split; [by apply (looped_tally _ _ _ _ Hx)|]. split; [lia|].
  split; [intros Hr; destruct (H2 Hr); lia|]. apply handled_at_most.
Qed.

(** The keyboard is read, KVM_RUN is interrupted, the guest halts: three exits,
    one IN, two events. *)
Definition books_world : World SimK (option HvEvent) :=
  sim_world (sim_vcpu [mk_exit 0 0 [(8192, 0, io_page_in)]; mk_exit (-1) EINTR [];
                       mk_exit 0 0 [(8192, 0, hlt_page)]])
            {[8192 := io_page_in]} None.

(** How a run came out, and three of its counters. *)
Definition outcome_of {K E} (o : outcome ((option RunResult * InstructionTrapper K E) * World K E))
  : option (RunResult * Z * option Z * option Z) :=
  match o with
  | Ok ((Some r, t), _) =>
      Some (r, exitCount t, inCount <$> it_io t, publishedCount <$> it_dispatch t)
  | _ => None
  end.

Lemma outcome_of_inv {K E} (o : outcome ((option RunResult * InstructionTrapper K E) * World K E)) r n i p :
  outcome_of o = Some (r, n, i, p) ->
  exists t w, o = Ok ((Some r, t), w) /\ exitCount t = n /\ inCount <$> it_io t = i /\
    publishedCount <$> it_dispatch t = p.
Proof. destruct o as [[[[r0|] t] w]|]; [|done..]. cbn. intros [= <- <- <- <-]. eauto 6. Qed.

Lemma books_outcome :
  outcome_of (runLoop 5 0 event_trapper books_world) = Some (Halt, 3, Some 1, Some 2).
Proof. vm_compute. reflexivity. Qed.

Lemma event_trapper_counters : counters_ok event_trapper.
Proof. split; [done|..]; intros ? [= <-]; done. Qed.

Lemma counters_account_witness :
  exists xs t' w', looped xs (event_trapper, books_world) Halt (t', w') /\ t' = tally xs event_trapper /\
    exitCount t' = 3 /\ inCount <$> it_io t' = Some 1 /\ publishedCount <$> it_dispatch t' = Some 2.
Proof.
  destruct (outcome_of_inv _ _ _ _ _ books_outcome) as (t' & w' & Hl & Hc).
  destruct (counters_account 5 0 event_trapper books_world Halt t' w' eq_refl ltac:(lia) event_trapper_counters Hl)
    as (xs & Hx & Ht & _).
  exists xs, t', w'. split; [exact Hx|]. split; [exact Ht|exact Hc].
Defined.
