(* ===== verification/Events.v ===== *)
(** * What is published

    The payload of an event is a variant; subscribers read it by the event's
    type.  This file says which payloads go with which types ([payload_typed]) and
    which the program publishes ([event_published]: these, but for the shutdown), and
    proves that the run loop publishes nothing else, whatever the callbacks and
    the guest do: an invariant [J] of the world and the bus survives every pass
    as long as publishing typed events keeps it.  The rules for [carries] follow
    the structure of the code, as those of a unary program logic do. *)

From S2P Require Import Prelude Host SimKvm Vcpu PortIo MmioDev Cpuid Msr Dispatcher Trapper.
From stdpp Require Import base list gmap strings.
From Stdlib Require Import ZArith Lia.
Open Scope Z_scope.
Open Scope hv_scope.

(** The payload an event's type announces (EventDispatcher.h): each structure is
    declared as the payload of its events, and the halts and shutdowns of the guest,
    which have no structure of their own, have none. *)
Definition payload_typed (type : EventType) (payload : EventPayload) : Prop :=
  match type, payload with
  | CpuidAccess, PCpuid _ | MemAccess, PMmio _ | GuestHalt, PMono | GuestShutdown, PMono => True
  | IoRead, PIo p => ie_isWrite p = false
  | IoWrite, PIo p => ie_isWrite p = true
  | MsrRead, PMsr p => me_isWrite p = false
  | MsrWrite, PMsr p => me_isWrite p = true
  | _, _ => False
  end.

(** What the program publishes: the announced payload, except that a shutdown
    carries the payload of a value-initialised event; and nothing of an MSR type. *)
Definition payload_published (type : EventType) (payload : EventPayload) : Prop :=
  match type with
  | MsrRead | MsrWrite => False
  | GuestShutdown => payload = default_payload
  | _ => payload_typed type payload
  end.

(** Published by this program, and about vCPU [id]. *)
Definition event_published (id : Z) (ev : HvEvent) : Prop :=
  ev_vcpu_id ev = id /\ payload_published (ev_type ev) (ev_payload ev).

(** The shutdown is the one event whose payload is not the announced one. *)
Lemma published_typed type payload :
  payload_published type payload -> (payload_typed type payload <-> type <> GuestShutdown).
Proof. destruct type; cbn; intros Hp; subst; naive_solver. Qed.

(** ** Computations that touch neither the environment nor the output *)

Create HintDb silent.

Section Silence.

Context {K : Type} `{Kernel K} {E : Type}.
Implicit Types (w : World K E).

Definition silent {A} (m : M (World K E) A) : Prop :=
  forall w a w', m w = Ok (a, w') -> w_env w' = w_env w /\ h_out (w_host w') = h_out (w_host w).

Lemma silent_idle {A} (m : M (World K E) A) : idle m -> silent m.
Proof. intros Hm w a w' Ha. by destruct (Hm _ _ _ Ha) as (? & ? & _). Qed.

Lemma silent_bind {A B} (m : M (World K E) A) (k : A -> M (World K E) B) :
  silent m -> (forall a, silent (k a)) -> silent (bind m k).
Proof.
  intros Hm Hk w b w' Hb. binv. destruct (Hm _ _ _ E0) as [<- <-]. by eapply Hk.
Qed.

Lemma silent_call c : silent (do_syscall c).
Proof. by intros w a w' [= <- <-]. Qed.

Lemma silent_ioctl fd req : silent (ioctl fd req).
Proof. by intros w a w' [= <- <-]. Qed.

Lemma silent_run fd : silent (ioctl_run fd).
Proof. intros w a w'. unfold ioctl_run. destruct (k_run _ _ _). by intros [= <- <-]. Qed.

End Silence.

#[export] Hint Resolve silent_call silent_ioctl silent_run : silent.
#[export] Hint Extern 2 (silent _) => apply silent_idle; solve [eauto with idle nocore] : silent.

(** Follow the code of a computation that is built from silent ones. *)
Ltac silent :=
  repeat first
    [ solve [eauto with silent nocore]
    | apply silent_bind; [|intros ?]
    | match goal with |- silent (match ?x with _ => _ end) => destruct x end ].

Section Silent.

Context {K : Type} `{Kernel K} {E : Type}.
Implicit Types (w : World K E).

Lemma silent_getRegs v : silent (E := E) (VCpu_getRegs v).
Proof. unfold VCpu_getRegs. silent. Qed.

Lemma silent_getSregs v : silent (E := E) (VCpu_getSregs v).
Proof. unfold VCpu_getSregs. silent. Qed.

Lemma silent_setRegs v r : silent (E := E) (VCpu_setRegs v r).
Proof. unfold VCpu_setRegs. silent. Qed.

Lemma silent_vcpu_run v : silent (E := E) (VCpu_run v).
Proof. unfold VCpu_run. silent. Qed.

Lemma silent_rip (t : InstructionTrapper K E) : silent (event_rip t).
Proof. unfold event_rip. silent. Qed.

End Silent.

#[export] Hint Resolve silent_getRegs silent_getSregs silent_setRegs silent_vcpu_run silent_rip : silent.

(** ** Taking the bus along *)

Section Publishing.

Context {K : Type} `{Kernel K} {E : Type}.
Abbreviation Bus := (EventDispatcher K E).
Implicit Types (w : World K E) (o : option Bus) (t : InstructionTrapper K E).

Context (J : World K E -> Bus -> Prop) (id : Z).

(** [J] is about what the program and its user see: the environment and the
    text on standard output. *)
Hypothesis J_seen : forall w w' d,
  w_env w' = w_env w -> h_out (w_host w') = h_out (w_host w) -> J w d -> J w' d.
Hypothesis J_publish : forall w w' d d' ev,
  event_published id ev -> J w d -> publish d ev w = Ok (d', w') -> J w' d'.

(** There is a bus, and [J] holds of it. *)
Definition Jo w o : Prop := match o with Some d => J w d | None => False end.

(** [m] takes a world that goes with the bus [o] to one that goes with the bus
    [f a], and its result satisfies [Q]. *)
Definition carries {A} o (m : M (World K E) A) (f : A -> option Bus) (Q : A -> Prop) : Prop :=
  forall w a w', Jo w o -> m w = Ok (a, w') -> Jo w' (f a) /\ Q a.

(** The bus is left alone. *)
Definition calm {A} (m : M (World K E) A) : Prop := forall o, carries o m (fun _ => o) (fun _ => True).

(** ** Rules *)

Lemma carries_ret {A} o (a : A) f (Q : A -> Prop) : f a = o -> Q a -> carries o (ret a) f Q.
Proof. intros <- Ha w b w' Hj [= <- <-]. done. Qed.

Lemma carries_bind {A B} o (m : M (World K E) A) f P (k : A -> M (World K E) B) g Q :
  carries o m f P -> (forall a, P a -> carries (f a) (k a) g Q) -> carries o (bind m k) g Q.
Proof.
  intros Hm Hk w b w' Hj Hb. binv. destruct (Hm _ _ _ Hj E0) as [Hj1 Hp]. by eapply Hk.
Qed.

Lemma carries_silent {A B} o (m : M (World K E) A) (k : A -> M (World K E) B) g Q :
  silent m -> (forall a, carries o (k a) g Q) -> carries o (bind m k) g Q.
Proof.
  intros Hm Hk w b w' Hj Hb. binv. destruct (Hm _ _ _ E0) as [He Ho]. eapply Hk; [|done].
  destruct o; [|done]. by eapply J_seen.
Qed.

Lemma calm_silent {A} (m : M (World K E) A) : silent m -> calm m.
Proof. intros Hm o w a w' Hj Ha. destruct (Hm _ _ _ Ha). split; [|done]. destruct o; [|done]. by eapply J_seen. Qed.

Lemma calm_bind {A B} (m : M (World K E) A) (k : A -> M (World K E) B) :
  calm m -> (forall a, calm (k a)) -> calm (bind m k).
Proof. intros Hm Hk o. eapply carries_bind; [apply Hm|]. intros a _. apply Hk. Qed.

Lemma carries_calm {A B} o (m : M (World K E) A) (k : A -> M (World K E) B) g Q :
  calm m -> (forall a, carries o (k a) g Q) -> carries o (bind m k) g Q.
Proof. intros Hm Hk. eapply carries_bind; [apply Hm|]. intros a _. apply Hk. Qed.

Lemma carries_conseq {A} o (m : M (World K E) A) f P Q :
  carries o m f P -> (forall a, P a -> Q a) -> carries o m f Q.
Proof. intros Hm HQ w a w' Hj Ha. destruct (Hm _ _ _ Hj Ha). auto. Qed.

(** ** Handlers and trappers whose callbacks leave the bus alone *)

Definition cpuid_calm (c : CpuidHandler K E) : Prop :=
  forall leaf cb a b, cp_leafCallbacks c !! leaf = Some cb -> calm (cb a b).

Definition io_calm (i : IoPortHandler K E) : Prop :=
  (forall port cb ctx, io_inCallbacks i !! port = Some cb -> calm (cb ctx)) /\
  (forall port cb ctx, io_outCallbacks i !! port = Some cb -> calm (cb ctx)).

Definition mmio_calm (m : MmioHandler K E) : Prop :=
  (forall addr cb ctx, mm_readCallbacks m !! addr = Some cb -> calm (cb ctx)) /\
  (forall addr cb ctx, mm_writeCallbacks m !! addr = Some cb -> calm (cb ctx)).

Record trapper_calm t : Prop := {
  tc_id : vc_id (it_vcpu t) = id;
  tc_cpuid c : it_cpuid t = Some c -> cpuid_calm c;
  tc_io i : it_io t = Some i -> io_calm i;
  tc_mmio m : it_mmio t = Some m -> mmio_calm m }.

(** An operation that gives a calm trapper back and takes the bus along. *)
Definition tracks {A} t (m : M (World K E) A) (trapper_of : A -> InstructionTrapper K E) : Prop :=
  carries (it_dispatch t) m (fun a => it_dispatch (trapper_of a)) (fun a => trapper_calm (trapper_of a)).

Lemma tracks_ret {A} t (a : A) f : f a = t -> trapper_calm t -> tracks t (ret a) f.
Proof. intros <- Ht. by apply carries_ret. Qed.

Lemma tracks_bind {A B} t (m : M (World K E) A) f (k : A -> M (World K E) B) g :
  tracks t m f -> (forall a, trapper_calm (f a) -> tracks (f a) (k a) g) -> tracks t (bind m k) g.
Proof. intros Hm Hk. eapply carries_bind; [exact Hm|]. exact Hk. Qed.

Lemma tracks_silent {A B} t (m : M (World K E) A) (k : A -> M (World K E) B) g :
  silent m -> (forall a, tracks t (k a) g) -> tracks t (bind m k) g.
Proof. apply carries_silent. Qed.

Lemma tracks_publish t d ev :
  trapper_calm t -> it_dispatch t = Some d -> event_published id ev -> tracks t (publish_to t d ev) Datatypes.id.
Proof.
  intros Ht Hd Hev. unfold tracks, publish_to. rewrite Hd.
  eapply (carries_bind _ _ Some (fun _ => True)).
  - intros w d' w' Hj Hp. split; [|done]. by eapply J_publish.
  - intros d' _. apply carries_ret; [done|]. by destruct Ht.
Qed.

Lemma calm_run_leaf c leaf sub : cpuid_calm c -> calm (run_leaf c leaf sub).
Proof.
  intros Hc. unfold run_leaf. destruct (cp_leafCallbacks c !! leaf) eqn:Hl.
  - apply calm_bind; [by eapply Hc|]. intros x. apply calm_silent. silent.
  - apply calm_silent. unfold executeHostCpuid. silent.
Qed.

Lemma tracks_call_cpuid t : trapper_calm t -> tracks t (call_cpuid t) snd.
Proof.
  intros Ht. unfold call_cpuid. destruct (it_cpuid t) as [c|] eqn:Hc; [|by apply tracks_ret].
  pose proof (tc_cpuid _ Ht _ Hc) as Hq.
  eapply (carries_bind _ _ (fun _ => it_dispatch t) (fun p => cp_leafCallbacks p.2 = cp_leafCallbacks c)).
  - unfold CpuidHandler_handle. apply carries_silent; [silent|]. intros [regs|ec]; [|by apply carries_ret].
    apply carries_calm; [by apply calm_run_leaf|]. intros x.
    apply carries_silent; [silent|]. intros ec. destruct (ec_failed ec); by apply carries_ret.
  - intros [b c'] Heq. apply carries_ret; [done|]. destruct Ht. split; try done.
    intros ? [= <-]. unfold cpuid_calm. cbn in Heq. by rewrite Heq.
Qed.

Lemma tracks_call_io t : trapper_calm t -> tracks t (call_io t) snd.
Proof.
  intros Ht. unfold call_io. destruct (it_io t) as [i|] eqn:Hi; [|by apply tracks_ret].
  destruct (tc_io _ Ht _ Hi) as [Hin Hout].
  eapply (carries_bind _ _ (fun _ => it_dispatch t)
    (fun p => io_inCallbacks p.2 = io_inCallbacks i /\ io_outCallbacks p.2 = io_outCallbacks i)).
  - unfold IoPortHandler_handle. apply carries_silent; [silent|]. intros page. destruct (_ =? _).
    + apply carries_silent; [silent|]. intros data. apply carries_calm; [|intros []; by apply carries_ret].
      unfold run_out. destruct (_ !! _) eqn:Hl; [by eapply Hout|]. apply calm_silent. silent.
    + apply carries_calm.
      { unfold run_in. destruct (_ !! _) eqn:Hl; [|apply calm_silent; silent].
        apply calm_bind; [by eapply Hin|]. intros x. apply calm_silent. silent. }
      intros x. apply carries_silent; [silent|]. intros page'.
      apply carries_silent; [silent|]. intros []. by apply carries_ret.
  - intros [b i'] [Heq1 Heq2]. apply carries_ret; [done|]. destruct Ht. split; try done.
    intros ? [= <-]. unfold io_calm. cbn in *. by rewrite Heq1, Heq2.
Qed.

Lemma tracks_call_mmio t : trapper_calm t -> tracks t (call_mmio t) snd.
Proof.
  intros Ht. unfold call_mmio. destruct (it_mmio t) as [m|] eqn:Hm; [|by apply tracks_ret].
  destruct (tc_mmio _ Ht _ Hm) as [Hr Hw].
  eapply (carries_bind _ _ (fun _ => it_dispatch t)
    (fun p => mm_readCallbacks p.2 = mm_readCallbacks m /\ mm_writeCallbacks p.2 = mm_writeCallbacks m)).
  - unfold MmioHandler_handle. apply carries_silent; [silent|]. intros page.
    destruct (_ || _); [by apply carries_ret|]. destruct (negb _).
    + apply carries_silent; [silent|]. intros data. apply carries_calm; [|intros []; by apply carries_ret].
      unfold run_mmio_write. destruct (_ !! _) eqn:Hl; [by eapply Hw|]. apply calm_silent. silent.
    + apply carries_calm.
      { unfold run_mmio_read. destruct (_ !! _) eqn:Hl; [|apply calm_silent; silent].
        apply calm_bind; [by eapply Hr|]. intros x. apply calm_silent. silent. }
      intros x. apply carries_silent; [silent|]. intros []. by apply carries_ret.
  - intros [b m'] [Heq1 Heq2]. apply carries_ret; [done|]. destruct Ht. split; try done.
    intros ? [= <-]. unfold mmio_calm. cbn in *. by rewrite Heq1, Heq2.
Qed.

(** ** The five publications *)

Ltac publishes Ht :=
  match goal with |- tracks ?t (match it_dispatch ?t with _ => _ end) _ =>
    destruct (it_dispatch t) as [d|] eqn:Hd; [|by apply tracks_ret] end;
  repeat (apply tracks_silent; [solve [silent]|intros ?]);
  apply tracks_publish; [exact Ht|eassumption|split; [apply (tc_id _ Ht)|]].

Lemma tracks_halt t : trapper_calm t -> tracks t (publish_halt t) Datatypes.id.
Proof. intros Ht. unfold publish_halt. by publishes Ht. Qed.

Lemma tracks_shutdown t : trapper_calm t -> tracks t (publish_shutdown t) Datatypes.id.
Proof. intros Ht. unfold publish_shutdown. by publishes Ht. Qed.

Lemma tracks_io t : trapper_calm t -> tracks t (publish_io t) Datatypes.id.
Proof. intros Ht. unfold publish_io. publishes Ht. cbn [ev_type ev_payload].
  destruct (ie_isWrite (io_payload _ _)) eqn:Ew; exact Ew. Qed.

Lemma tracks_mmio t : trapper_calm t -> tracks t (publish_mmio t) Datatypes.id.
Proof. intros Ht. unfold publish_mmio. by publishes Ht. Qed.

Lemma tracks_cpuid t : trapper_calm t -> tracks t (publish_cpuid t) Datatypes.id.
Proof. intros Ht. unfold publish_cpuid. by publishes Ht. Qed.

(** ** Passes and runs *)

Lemma tracks_verdict t (m : M (World K E) (InstructionTrapper K E)) (r : RunResult) :
  tracks t m Datatypes.id -> tracks t (bind m (fun t' => ret (r, t'))) snd.
Proof. intros Hm. eapply tracks_bind; [exact Hm|]. intros t' Ht'. by apply tracks_ret. Qed.

Lemma tracks_dispatch t reason : trapper_calm t -> tracks t (dispatchExit t reason) snd.
Proof.
  intros Ht. assert (forall r : RunResult, tracks t (ret (r, t)) snd) as Hret by (intros r; by apply tracks_ret).
  destruct reason; try apply Hret; cbn [dispatchExit].
  - apply tracks_silent; [silent|]. intros page. destruct (_ =? 0); [|apply Hret].
    eapply tracks_bind; [by apply tracks_call_cpuid|]. intros [[] t1] Ht1; by apply tracks_ret.
  - eapply tracks_bind; [by apply tracks_call_io|]. intros [[] t1] Ht1; [|by apply tracks_ret].
    by apply tracks_verdict, tracks_io.
  - by apply tracks_verdict, tracks_halt.
  - eapply tracks_bind; [by apply tracks_call_mmio|]. intros [[] t1] Ht1; [|by apply tracks_ret].
    by apply tracks_verdict, tracks_mmio.
  - by apply tracks_verdict, tracks_shutdown.
  - apply tracks_silent; [silent|]. intros page. destruct (_ =? KVM_INTERNAL_ERROR_EMULATION); [|apply Hret].
    eapply tracks_bind; [by apply tracks_call_cpuid|]. intros [[] t1] Ht1; [|by apply tracks_ret].
    by apply tracks_verdict, tracks_cpuid.
Qed.

Lemma tracks_step t : trapper_calm t -> tracks t (step t) snd.
Proof.
  intros Ht. apply tracks_silent; [silent|]. intros [reason|ec]; [|by apply tracks_ret].
  assert (trapper_calm (bump_exit t)) as Hb by (by destruct Ht). exact (tracks_dispatch _ reason Hb).
Qed.

Lemma tracks_loop fuel max i t : trapper_calm t -> tracks t (runLoop_fuel fuel max i t) snd.
Proof.
  revert i t. induction fuel as [|fuel IH]; intros i t Ht; cbn [runLoop_fuel]; [by apply tracks_ret|].
  destruct (_ || _); [|by apply tracks_ret]. eapply tracks_bind; [by apply tracks_step|].
  intros [r t1] Ht1. destruct (bool_decide _); [by apply tracks_ret|]. by apply IH.
Qed.

End Publishing.
