(* ===== verification/Progress.v ===== *)
(** * Exits are always served

    On a kernel that behaves as documented no pass of the run loop faults: the
    page KVM_RUN leaves is read and answered inside its bounds, and a failing
    system call is a verdict of the pass.  The section is parametrised by an
    invariant [I] of the program around the loop, which the callbacks and
    subscribers have to keep, and by an order [R] on kernel states that tells
    how far the guest has come. *)

From S2P Require Import Prelude Host SimKvm Resource Vcpu PortIo MmioDev Cpuid Msr Dispatcher Trapper.
From stdpp Require Import base list gmap strings.
From Stdlib Require Import ZArith Lia.
Open Scope Z_scope.
Open Scope hv_scope.

(** ** Steps of the host that change no resource *)

Section Steady.

Context {K : Type} `{Kernel K} `{!MmapLaws K} `{!FdLaws K} `{!PageLaws K} `{!RunLaws K} {E : Type}.
Implicit Types (w : World K E).

(** The environment, the descriptors and the sizes of all blocks are the same,
    blocks of bytes stay so, and the kernel forgets nothing. *)
Record steady w w' : Prop := {
  st_env : w_env w' = w_env w;
  st_fds : h_fds (w_host w') = h_fds (w_host w);
  st_len : length <$> h_mem (w_host w') = length <$> h_mem (w_host w);
  st_bytes : mem_bytes (h_mem (w_host w)) -> mem_bytes (h_mem (w_host w'));
  st_stays : stays (h_kern (w_host w)) (h_kern (w_host w')) }.

Lemma stays_refl (k : K) : stays k k.
Proof. by repeat split. Qed.

Lemma stays_trans (k1 k2 k3 : K) : stays k1 k2 -> stays k2 k3 -> stays k1 k3.
Proof. unfold stays. naive_solver. Qed.

Lemma steady_refl w : steady w w.
Proof. by split. Qed.

Lemma steady_trans w1 w2 w3 : steady w1 w2 -> steady w2 w3 -> steady w1 w3.
Proof.
  intros [E1 F1 L1 B1 S1] [E2 F2 L2 B2 S2]. split; try congruence; [eauto|]. by eapply stays_trans.
Qed.

(** Calls that neither release nor create anything. *)
Lemma call_stays c (k : K) : neutral c -> stays k (kr_kern (k_syscall c k)).
Proof.
  intros [_ Hn]. split_and!; intros.
  - apply law_mapped_mono; [done|]. by intros len ->.
  - apply law_open_mono; [done|]. by intros ->.
  - apply law_page_mono; [done|by intros ->|by intros len ->].
Qed.

Lemma steady_call c w : neutral c -> steady w (after_call c w).
Proof.
  intros Hc. destruct (call_stays c (h_kern (w_host w)) Hc) as (?&?&?). destruct Hc as [Hy Hn].
  split; try done; by destruct c; try done; cbn in *; rewrite ?Hy.
Qed.

Lemma steady_kern k w : stays (h_kern (w_host w)) k -> steady w (on_host (set_kern k) w).
Proof. by split. Qed.

Lemma steady_printed s w : steady w (printed s w).
Proof. by split. Qed.

Lemma steady_page run page page' w :
  h_mem (w_host w) !! run = Some page -> length page' = length page -> Forall is_byte page' ->
  steady w (with_page run page' w).
Proof.
  intros Hp Hl Hb. split; try done; [|intros Hm; by apply map_Forall_insert_2].
  apply map_eq. intros a. cbn. rewrite !lookup_fmap. destruct (decide (a = run)) as [->|].
  - rewrite lookup_insert_eq, Hp. cbn. by rewrite Hl.
  - by rewrite lookup_insert_ne.
Qed.

(** The world after KVM_RUN. *)
Definition after_run fd w : World K E :=
  let '(r, m) := k_run fd (h_kern (w_host w)) (h_mem (w_host w)) in
  on_host (finish (Sys_ioctl fd KVM_RUN) r m) w.

Lemma ioctl_run_eq fd w :
  ioctl_run fd w = Ok (kr_ret (fst (k_run fd (h_kern (w_host w)) (h_mem (w_host w)))), after_run fd w).
Proof. unfold ioctl_run, after_run. by destruct (k_run _ _ _). Qed.

Lemma steady_run fd w : steady w (after_run fd w).
Proof.
  pose proof (law_run_mem (h_kern (w_host w)) fd (h_mem (w_host w))) as [Hl Hb].
  pose proof (law_run_stays (h_kern (w_host w)) fd (h_mem (w_host w))) as Hs.
  unfold after_run. by destruct (k_run _ _ _) as [r m]; split.
Qed.

(** A well-formed page behind the vCPU. *)
Record vcpu_live (v : VCpu) w : Prop := {
  vl_run : vc_runPage v <> nullptr;
  vl_page : k_page (h_kern (w_host w)) (vc_fd v) (vc_runPage v);
  vl_bytes : mem_bytes (h_mem (w_host w));
  vl_size : exists page, h_mem (w_host w) !! vc_runPage v = Some page /\
                         kvm_run_header <= Z.of_nat (length page) }.

Lemma vcpu_live_steady v w w' : vcpu_live v w -> steady w w' -> vcpu_live v w'.
Proof.
  intros [Hr Hp Hb (page & Hm & Hl)] [_ _ Hlen Hbs (_ & _ & Hs)]. split; auto.
  apply (f_equal (lookup (vc_runPage v))) in Hlen. rewrite !lookup_fmap, Hm in Hlen. cbn in Hlen.
  destruct (h_mem (w_host w') !! vc_runPage v) as [page'|] eqn:Hm'; [|done].
  exists page'. split; [done|]. cbn in Hlen. injection Hlen as ->. done.
Qed.

Lemma vcpu_live_page v w : vcpu_live v w -> exists page, page_at (vc_runPage v) page w.
Proof.
  intros [Hr _ Hb (page & Hm & Hl)]. exists page. split; [done|]. split; [done|].
  split; [by apply (Hb (vc_runPage v))|done].
Qed.

End Steady.

(** ** Quiet computations: they keep the invariant and leave memory alone *)

Section Quiet.

Context {K : Type} `{Kernel K} `{!MmapLaws K} `{!FdLaws K} `{!PageLaws K} `{!RunLaws K} {E : Type}.
Context (I : World K E -> Prop) (R : K -> K -> Prop).
Implicit Types (w : World K E).

(** Where the guest is: only setting the special registers can turn it back. *)
Class Order := {
  R_refl k : R k k;
  R_trans k1 k2 k3 : R k1 k2 -> R k2 k3 -> R k1 k3;
  R_call c k : (forall fd s, c <> Sys_ioctl fd (KVM_SET_SREGS s)) -> R k (kr_kern (k_syscall c k));
  R_run k fd m : R k (kr_kern (fst (k_run fd k m)));
  R_clock k : R k (snd (k_clock k));
  R_cpuid k leaf subleaf : R k (snd (k_cpuid leaf subleaf k)) }.

Context `{!Order}.

Hypothesis I_steady : forall w w', I w -> steady w w' -> I w'.

Definition quiet {A} (m : M (World K E) A) : Prop :=
  forall w, I w -> exists a w', m w = Ok (a, w') /\ I w' /\
    h_mem (w_host w') = h_mem (w_host w) /\ R (h_kern (w_host w)) (h_kern (w_host w')).

Lemma quiet_ret {A} (a : A) : quiet (ret a).
Proof. intros w Hw. exists a, w. split_and!; try done. apply R_refl. Qed.

Lemma quiet_bind {A B} (m : M (World K E) A) (k : A -> M (World K E) B) :
  quiet m -> (forall a, quiet (k a)) -> quiet (bind m k).
Proof.
  intros Hm Hk w Hw. destruct (Hm w Hw) as (a & w1 & E1 & H1 & M1 & R1).
  destruct (Hk a w1 H1) as (b & w2 & E2 & H2 & M2 & R2).
  exists b, w2. rewrite (bind_Ok _ _ _ _ _ E1). split_and!; try done; [congruence|by eapply R_trans].
Qed.

Lemma quiet_if {A} (b : bool) (m1 m2 : M (World K E) A) : quiet m1 -> quiet m2 -> quiet (if b then m1 else m2).
Proof. by destruct b. Qed.

Lemma quiet_ioctl fd req :
  neutral (Sys_ioctl fd req) -> (forall s, req <> KVM_SET_SREGS s) -> quiet (ioctl fd req).
Proof.
  intros Hn Hs w Hw. do 2 eexists. split; [apply do_syscall_eq|].
  split; [by eapply I_steady, steady_call|]. split; [done|].
  apply R_call. intros fd' s [= _ Heq]. by eapply Hs.
Qed.

Lemma quiet_errno : quiet errno.
Proof. intros w Hw. do 2 eexists. split; [reflexivity|]. split_and!; try done. apply R_refl. Qed.

Lemma quiet_print s : quiet (print s).
Proof.
  intros w Hw. do 2 eexists. split; [reflexivity|].
  split; [eapply I_steady; [done|apply steady_printed]|]. split; [done|]. apply R_refl.
Qed.

Lemma quiet_report s ec : quiet (report s ec).
Proof.
  intros w Hw. do 2 eexists. split; [reflexivity|]. split.
  - by eapply I_steady; [done|].
  - split; [done|]. apply R_refl.
Qed.

Lemma quiet_now : quiet steady_now.
Proof.
  intros w Hw. unfold steady_now. pose proof (law_clock_stays (h_kern (w_host w))) as Hs.
  pose proof (R_clock (h_kern (w_host w))) as Hr. destruct (k_clock _) as [t k].
  do 2 eexists. split; [reflexivity|]. split; [by eapply I_steady, steady_kern|done].
Qed.

Lemma quiet_cpuid leaf subleaf : quiet (host_cpuid leaf subleaf).
Proof.
  intros w Hw. unfold host_cpuid. pose proof (law_cpuid_stays (h_kern (w_host w)) leaf subleaf) as Hs.
  pose proof (R_cpuid (h_kern (w_host w)) leaf subleaf) as Hr. destruct (k_cpuid _ _ _) as [t k].
  do 2 eexists. split; [reflexivity|]. split; [by eapply I_steady, steady_kern|done].
Qed.

Lemma quiet_getRegs v : quiet (VCpu_getRegs v).
Proof.
  apply quiet_bind; [by apply quiet_ioctl|]. intros [r o]. apply quiet_if; [|apply quiet_ret].
  apply quiet_bind; [apply quiet_errno|]. intros e. apply quiet_ret.
Qed.

Lemma quiet_getSregs v : quiet (VCpu_getSregs v).
Proof.
  apply quiet_bind; [by apply quiet_ioctl|]. intros [r o]. apply quiet_if; [|apply quiet_ret].
  apply quiet_bind; [apply quiet_errno|]. intros e. apply quiet_ret.
Qed.

Lemma quiet_setRegs v regs : quiet (VCpu_setRegs v regs).
Proof.
  apply quiet_bind; [by apply quiet_ioctl|]. intros [r o]. apply quiet_if; [apply quiet_errno|apply quiet_ret].
Qed.

(** ** Handlers and subscribers that are quiet *)

Definition cpuid_quiet (c : CpuidHandler K E) : Prop :=
  forall leaf cb a b, cp_leafCallbacks c !! leaf = Some cb -> quiet (cb a b).

Definition io_quiet (i : IoPortHandler K E) : Prop :=
  (forall port cb ctx, io_inCallbacks i !! port = Some cb -> quiet (cb ctx)) /\
  (forall port cb ctx, io_outCallbacks i !! port = Some cb -> quiet (cb ctx)).

Definition mmio_quiet (m : MmioHandler K E) : Prop :=
  (forall addr cb ctx, mm_readCallbacks m !! addr = Some cb -> quiet (cb ctx)) /\
  (forall addr cb ctx, mm_writeCallbacks m !! addr = Some cb -> quiet (cb ctx)).

Definition subs_quiet (d : EventDispatcher K E) : Prop :=
  Forall (fun s => forall ev, quiet (sub_handler s ev)) (ed_subscriptions d).

(** The trapper drives [v], and everything it calls is quiet. *)
Record trapper_quiet (v : VCpu) (t : InstructionTrapper K E) : Prop := {
  tq_vcpu : it_vcpu t = v;
  tq_cpuid c : it_cpuid t = Some c -> cpuid_quiet c;
  tq_io i : it_io t = Some i -> io_quiet i;
  tq_mmio m : it_mmio t = Some m -> mmio_quiet m;
  tq_dispatch d : it_dispatch t = Some d -> subs_quiet d }.

Lemma quiet_executeHostCpuid leaf subleaf : quiet (executeHostCpuid leaf subleaf).
Proof. apply quiet_bind; [apply quiet_cpuid|]. intros [[[a b] c] d]. apply quiet_ret. Qed.

Lemma quiet_run_leaf c leaf subleaf : cpuid_quiet c -> quiet (run_leaf c leaf subleaf).
Proof.
  intros Hc. unfold run_leaf. destruct (cp_leafCallbacks c !! leaf) eqn:Hl; [|apply quiet_executeHostCpuid].
  apply quiet_bind; [by eapply Hc|]. intros r. apply quiet_ret.
Qed.

Lemma quiet_deliver d ev : subs_quiet d -> quiet (deliver ev (ed_subscriptions d)).
Proof.
  intros Hd. unfold subs_quiet in Hd. induction Hd as [|s subs Hs _ IH]; [apply quiet_ret|]. cbn [deliver].
  apply quiet_bind; [apply quiet_if; [apply Hs|apply quiet_ret]|]. by intros [].
Qed.

(** What an operation on the trapper gives back: a quiet trapper again. *)
Definition serves {A} (v : VCpu) (m : M (World K E) A) (trapper_of : A -> InstructionTrapper K E) : Prop :=
  forall w, I w -> exists a w', m w = Ok (a, w') /\ I w' /\
    R (h_kern (w_host w)) (h_kern (w_host w')) /\ trapper_quiet v (trapper_of a).

Lemma serves_quiet {A B} v (m : M (World K E) A) (k : A -> M (World K E) B) f :
  quiet m -> (forall a, serves v (k a) f) -> serves v (bind m k) f.
Proof.
  intros Hm Hk w Hw. destruct (Hm w Hw) as (a & w1 & E1 & H1 & _ & R1).
  destruct (Hk a w1 H1) as (b & w2 & E2 & H2 & R2 & T2).
  exists b, w2. rewrite (bind_Ok _ _ _ _ _ E1). split_and!; try done. by eapply R_trans.
Qed.

Lemma serves_bind {A B} v (m : M (World K E) A) (k : A -> M (World K E) B) f g :
  serves v m f -> (forall a, trapper_quiet v (f a) -> serves v (k a) g) -> serves v (bind m k) g.
Proof.
  intros Hm Hk w Hw. destruct (Hm w Hw) as (a & w1 & E1 & H1 & R1 & T1).
  destruct (Hk a T1 w1 H1) as (b & w2 & E2 & H2 & R2 & T2).
  exists b, w2. rewrite (bind_Ok _ _ _ _ _ E1). split_and!; try done. by eapply R_trans.
Qed.

Lemma serves_ret {A} v (a : A) f : trapper_quiet v (f a) -> serves v (ret a) f.
Proof. intros Ht w Hw. exists a, w. split_and!; try done. apply R_refl. Qed.

Lemma trapper_set_dispatch v t d : trapper_quiet v t -> subs_quiet d -> trapper_quiet v (set_dispatch d t).
Proof. intros [] Hd. split; try done. by intros ? [= <-]. Qed.

Lemma serves_publish v t d ev :
  trapper_quiet v t -> subs_quiet d -> serves v (publish_to t d ev) id.
Proof.
  intros Ht Hd. unfold publish_to, publish. cbn [ed_subscriptions].
  intros w Hw. destruct (quiet_deliver d ev Hd w Hw) as ([] & w1 & E1 & H1 & _ & R1).
  unfold bind. rewrite E1. do 2 eexists. split; [reflexivity|]. split_and!; try done.
  by apply trapper_set_dispatch.
Qed.

Lemma serves_if {A} v (b : bool) (m1 m2 : M (World K E) A) f :
  serves v m1 f -> serves v m2 f -> serves v (if b then m1 else m2) f.
Proof. by destruct b. Qed.

Lemma serves_event v t d (f : Z -> Z -> HvEvent) :
  trapper_quiet v t -> subs_quiet d ->
  serves v (bind steady_now (fun now => bind (event_rip t) (fun rip => publish_to t d (f now rip)))) id.
Proof.
  intros Ht Hd. apply serves_quiet; [apply quiet_now|]. intros now.
  apply serves_quiet; [|intros ip; by apply serves_publish].
  apply quiet_bind; [apply quiet_getRegs|]. intros e. apply quiet_ret.
Qed.

Lemma serves_publish_halt v t : trapper_quiet v t -> serves v (publish_halt t) id.
Proof.
  intros Ht. unfold publish_halt. destruct (it_dispatch t) as [d|] eqn:Hd; [|by apply serves_ret].
  apply (serves_event v t d (fun now ip => mk_HvEvent GuestHalt (vc_id (it_vcpu t)) ip now PMono)); [done|].
  by eapply tq_dispatch.
Qed.

Lemma serves_publish_shutdown v t : trapper_quiet v t -> serves v (publish_shutdown t) id.
Proof.
  intros Ht. unfold publish_shutdown. destruct (it_dispatch t) as [d|] eqn:Hd; [|by apply serves_ret].
  apply serves_quiet; [apply quiet_now|]. intros now. apply serves_publish; [done|]. by eapply tq_dispatch.
Qed.

Lemma serves_publish_cpuid v t : trapper_quiet v t -> serves v (publish_cpuid t) id.
Proof.
  intros Ht. unfold publish_cpuid. destruct (it_dispatch t) as [d|] eqn:Hd; [|by apply serves_ret].
  apply serves_quiet; [apply quiet_getRegs|]. intros regs.
  apply (serves_event v t d (fun now ip => mk_HvEvent CpuidAccess (vc_id (it_vcpu t)) ip now (PCpuid (cpuid_payload regs))));
    [done|]. by eapply tq_dispatch.
Qed.

Lemma serves_call_cpuid v t : trapper_quiet v t -> serves v (call_cpuid t) snd.
Proof.
  intros Ht. unfold call_cpuid. destruct (it_cpuid t) as [c|] eqn:Hc; [|by apply serves_ret].
  pose proof (tq_cpuid _ _ Ht c Hc) as Hq.
  assert (forall c', cp_leafCallbacks c' = cp_leafCallbacks c -> trapper_quiet v (set_cpuid c' t)) as Hset.
  { intros c' Heq. destruct Ht. split; try done. intros ? [= <-]. unfold cpuid_quiet. by rewrite Heq. }
  intros w Hw. unfold CpuidHandler_handle, bind at 1.
  destruct (quiet_getRegs (it_vcpu t) w Hw) as (regs & w1 & E1 & H1 & _ & R1).
  rewrite (bind_Ok _ _ _ _ _ E1). destruct regs as [regs|ec].
  2: { do 2 eexists. split; [reflexivity|]. split_and!; try done. by apply Hset. }
  destruct (quiet_run_leaf c (u32 (rax regs)) (u32 (rcx regs)) Hq w1 H1) as (r & w2 & E2 & H2 & _ & R2).
  rewrite (bind_Ok _ _ _ _ _ E2). set (regs' := set_abcd _ _ _ _ _).
  destruct (quiet_setRegs (it_vcpu t) regs' w2 H2) as (ec & w3 & E3 & H3 & _ & R3).
  rewrite (bind_Ok _ _ _ _ _ E3).
  destruct (ec_failed ec); (do 2 eexists; split; [reflexivity|]; split_and!; [done|by eauto using R_trans|by apply Hset]).
Qed.

(** ** Exits that are answered through the page *)

(** The vCPU the program runs. *)
Context (v : VCpu).
Hypothesis I_live : forall w, I w -> vcpu_live v w.

(** The page of an I/O exit: the data area is in place. *)
Definition io_ready w : Prop := exists page, page_at (vc_runPage v) page w /\ io_data_ok page.

Lemma page_at_mem run page w w' : page_at run page w -> h_mem (w_host w') = h_mem (w_host w) -> page_at run page w'.
Proof. intros (Hn & Hp & Hok) Hm. split; [done|]. by rewrite Hm. Qed.

Lemma I_with_page run page page' w :
  I w -> page_at run page w -> length page' = length page -> page_ok page' -> I (with_page run page' w).
Proof. intros Hw (_ & Hp & _) Hl Hok. eapply I_steady; [done|]. eapply steady_page; [done..|apply Hok]. Qed.

Lemma quiet_run_out i port ctx : io_quiet i -> quiet (run_out i port ctx).
Proof.
  intros [_ Hq]. unfold run_out. destruct (io_outCallbacks i !! port) eqn:Hl; [by eapply Hq|apply quiet_ret].
Qed.

Lemma quiet_run_in i port ctx : io_quiet i -> quiet (run_in i port ctx).
Proof.
  intros [Hq _]. unfold run_in. destruct (io_inCallbacks i !! port) eqn:Hl; [|apply quiet_ret].
  apply quiet_bind; [by eapply Hq|]. intros x. apply quiet_ret.
Qed.

Lemma trapper_set_io t i i' :
  trapper_quiet v t -> it_io t = Some i -> io_inCallbacks i' = io_inCallbacks i ->
  io_outCallbacks i' = io_outCallbacks i -> trapper_quiet v (set_io i' t).
Proof.
  intros Ht Hi Hin Hout. pose proof (tq_io _ _ Ht i Hi) as Hq. destruct Ht. split; try done.
  intros ? [= <-]. unfold io_quiet. by rewrite Hin, Hout.
Qed.

Lemma call_io_serves t w :
  trapper_quiet v t -> I w -> io_ready w ->
  exists b t' w', call_io t w = Ok ((b, t'), w') /\ I w' /\ R (h_kern (w_host w)) (h_kern (w_host w')) /\
    trapper_quiet v t' /\ io_ready w'.
Proof.
  intros Ht Hw (page & Hp & Hd). unfold call_io. destruct (it_io t) as [i|] eqn:Hi.
  2: { do 3 eexists. split; [reflexivity|]. split_and!; try done; [apply R_refl|by exists page]. }
  pose proof (tq_io _ _ Ht i Hi) as Hq. rewrite (tq_vcpu _ _ Ht). unfold bind at 1.
  destruct (decide (io_direction page = KVM_EXIT_IO_OUT)) as [Ho|Ho].
  - rewrite (handle_out i v (vc_runPage v) page w Hp Hd Ho).
    destruct (quiet_run_out i (io_port page)
      (mk_OutContext (io_port page) (io_size page) (le_decode (io_operand page)) (io_count page)) Hq w Hw)
      as ([] & w1 & E1 & H1 & M1 & R1).
    rewrite (bind_Ok _ _ _ _ _ E1). do 3 eexists. split; [reflexivity|]. split_and!; try done.
    + by eapply trapper_set_io.
    + exists page. split; [by eapply page_at_mem|done].
  - destruct (quiet_run_in i (io_port page) (mk_InContext (io_port page) (io_size page) (io_count page)) Hq w Hw)
      as (x & w1 & E1 & H1 & M1 & R1).
    assert (page_at (vc_runPage v) page w1) as Hp1 by (by eapply page_at_mem).
    rewrite (handle_in i v (vc_runPage v) page x w w1 Hp Hd Ho E1 Hp1).
    destruct (io_deliver_facts page x (proj2 (proj2 Hp)) Hd) as (Hl & Hok & Hf & _).
    do 3 eexists. split; [reflexivity|]. split_and!.
    + by eapply I_with_page.
    + done.
    + by eapply trapper_set_io.
    + exists (io_deliver page x). split; [by eapply page_at_with|].
      destruct Hd as [Hlo Hhi]. unfold io_data_ok, io_width, io_data_offset, io_size in *.
      by rewrite !Hf, Hl by lia.
Qed.

Lemma publish_io_serves t w :
  trapper_quiet v t -> I w -> io_ready w ->
  exists t' w', publish_io t w = Ok (t', w') /\ I w' /\ R (h_kern (w_host w)) (h_kern (w_host w')) /\
    trapper_quiet v t'.
Proof.
  intros Ht Hw (page & Hp & Hlo & Hhi). unfold publish_io.
  destruct (it_dispatch t) as [d|] eqn:Hd; [|exists t, w; split_and!; try done; apply R_refl].
  rewrite (tq_vcpu _ _ Ht), (bind_Ok _ _ _ _ _ (kvm_run_at_ok _ _ _ Hp)).
  pose proof (io_width_range page (proj2 (proj2 Hp))). unfold io_width, kvm_run_header in *.
  rewrite load_bytes_ok by lia. unfold bind at 1. cbn [lift].
  set (pl := io_payload page _).
  apply (serves_event v t d (fun now ip => mk_HvEvent (if ie_isWrite pl then IoWrite else IoRead)
                                             (vc_id v) ip now (PIo pl))); [done| |done].
  by eapply tq_dispatch.
Qed.

Lemma publish_mmio_serves t w :
  trapper_quiet v t -> I w ->
  exists t' w', publish_mmio t w = Ok (t', w') /\ I w' /\ R (h_kern (w_host w)) (h_kern (w_host w')) /\
    trapper_quiet v t'.
Proof.
  intros Ht Hw. destruct (vcpu_live_page v w (I_live w Hw)) as (page & Hp). unfold publish_mmio.
  destruct (it_dispatch t) as [d|] eqn:Hd; [|exists t, w; split_and!; try done; apply R_refl].
  rewrite (tq_vcpu _ _ Ht), (bind_Ok _ _ _ _ _ (kvm_run_at_ok _ _ _ Hp)).
  pose proof (u8_range (mmio_len page)) as Hr. unfold is_u8 in Hr. destruct Hp as (_ & _ & _ & Hl).
  unfold kvm_run_header, mmio_data_off in *.
  rewrite load_bytes_ok by lia. unfold bind at 1. cbn [lift].
  set (pl := mk_MmioEvent _ _ _ _).
  apply (serves_event v t d (fun now ip => mk_HvEvent MemAccess (vc_id v) ip now (PMmio pl)));
    [done| |done]. by eapply tq_dispatch.
Qed.

Lemma trapper_set_mmio t m m' :
  trapper_quiet v t -> it_mmio t = Some m -> mm_readCallbacks m' = mm_readCallbacks m ->
  mm_writeCallbacks m' = mm_writeCallbacks m -> trapper_quiet v (set_mmio m' t).
Proof.
  intros Ht Hi Hr Hwr. pose proof (tq_mmio _ _ Ht m Hi) as Hq. destruct Ht. split; try done.
  intros ? [= <-]. unfold mmio_quiet. by rewrite Hr, Hwr.
Qed.

Lemma serves_call_mmio t : trapper_quiet v t -> serves v (call_mmio t) snd.
Proof.
  intros Ht w Hw. destruct (vcpu_live_page v w (I_live w Hw)) as (page & Hp). unfold call_mmio.
  destruct (it_mmio t) as [m|] eqn:Hm; [|by apply serves_ret].
  pose proof (tq_mmio _ _ Ht m Hm) as [Hqr Hqw]. rewrite (tq_vcpu _ _ Ht). unfold bind at 1.
  destruct (decide (u8 (mmio_len page) = 0 \/ 8 < u8 (mmio_len page))) as [Hbad|Hok].
  { rewrite (proj1 (mmio_refuses m (vc_runPage v) page w Hp) Hbad). do 2 eexists. split; [reflexivity|].
    split_and!; [done|apply R_refl|by eapply trapper_set_mmio]. }
  assert (1 <= mmio_width page <= 8) as Hwd.
  { unfold mmio_width in *. pose proof (u8_range (mmio_len page)) as Hr. unfold is_u8 in Hr. lia. }
  destruct (decide (mmio_is_write page = 0)) as [Hz|Hz].
  - assert (quiet (run_mmio_read m (mk_ReadContext (mmio_phys_addr page) (mmio_width page)))) as Hq.
    { unfold run_mmio_read. destruct (mm_readCallbacks m !! _) eqn:Hcb; [|apply quiet_ret].
      apply quiet_bind; [by eapply Hqr|]. intros x. apply quiet_ret. }
    destruct (Hq w Hw) as (x & w1 & E1 & H1 & M1 & R1).
    assert (page_at (vc_runPage v) page w1) as Hp1 by (by eapply page_at_mem).
    rewrite (mmio_handle_read m (vc_runPage v) page x w w1 Hp Hwd Hz E1 Hp1).
    destruct (mmio_deliver_facts page x (proj2 (proj2 Hp)) Hwd) as (Hok' & _).
    do 2 eexists. split; [reflexivity|]. split_and!; [|done|by eapply trapper_set_mmio].
    eapply I_with_page; [done|exact Hp1| |done]. unfold mmio_deliver. apply length_splice.
    rewrite length_le_encode. destruct Hp as (_ & _ & _ & Hl). unfold kvm_run_header in Hl. lia.
  - rewrite (mmio_handle_write m (vc_runPage v) page w Hp Hwd Hz).
    set (ctx := mk_WriteContext _ _ _).
    assert (quiet (run_mmio_write m ctx)) as Hq.
    { unfold run_mmio_write. destruct (mm_writeCallbacks m !! _) eqn:Hcb; [by eapply Hqw|apply quiet_ret]. }
    destruct (Hq w Hw) as ([] & w1 & E1 & H1 & M1 & R1). rewrite (bind_Ok _ _ _ _ _ E1).
    do 2 eexists. split; [reflexivity|]. split_and!; [done..|by eapply trapper_set_mmio].
Qed.

(** ** Passes *)

(** A call on the trapper, its verdict included, is served from [w]. *)
Definition served {A} (m : M (World K E) A) (trapper_of : A -> InstructionTrapper K E) w : Prop :=
  exists a w', m w = Ok (a, w') /\ I w' /\ R (h_kern (w_host w)) (h_kern (w_host w')) /\
    trapper_quiet v (trapper_of a).

Lemma served_then {A B} (m : M (World K E) A) f (k : A -> M (World K E) B) g w :
  served m f w -> (forall a, trapper_quiet v (f a) -> serves v (k a) g) -> served (bind m k) g w.
Proof.
  intros (a & w1 & E1 & H1 & R1 & T1) Hk. destruct (Hk a T1 w1 H1) as (b & w2 & E2 & H2 & R2 & T2).
  exists b, w2. rewrite (bind_Ok _ _ _ _ _ E1). split_and!; try done. by eapply R_trans.
Qed.

Lemma serves_verdict (m : M (World K E) (InstructionTrapper K E)) (r : RunResult) :
  serves v m id -> serves v (bind m (fun t => ret (r, t))) snd.
Proof. intros Hm. apply (serves_bind v m _ id); [done|]. intros t Ht. by apply serves_ret. Qed.

Lemma dispatch_served t reason page w :
  trapper_quiet v t -> I w -> page_at (vc_runPage v) page w -> (reason = Io -> io_data_ok page) ->
  served (dispatchExit t reason) snd w.
Proof.
  intros Ht Hw Hp Hio.
  assert (forall r : RunResult, served (ret (r, t)) snd w) as Hret by (intros r; by apply serves_ret).
  assert (served (let* (ok, t1) := call_cpuid t in
                    if negb ok then ret (RError, t1) else ret (Continue, t1)) snd w) as Hcpuid.
  { eapply served_then; [by apply serves_call_cpuid|]. intros [ok t1] Ht1.
    apply serves_if; by apply serves_ret. }
  destruct reason; try apply Hret; cbn [dispatchExit].
  - unfold served. rewrite (tq_vcpu _ _ Ht), (bind_Ok _ _ _ _ _ (kvm_run_at_ok _ _ _ Hp)).
    destruct (_ =? 0); [exact Hcpuid|apply Hret].
  - destruct (call_io_serves t w Ht Hw) as (b & t1 & w1 & E1 & H1 & R1 & T1 & Hr1); [by exists page; auto|].
    unfold served. rewrite (bind_Ok _ _ _ _ _ E1). destruct b; cbn [negb].
    + destruct (publish_io_serves t1 w1 T1 H1 Hr1) as (t2 & w2 & E2 & H2 & R2 & T2).
      rewrite (bind_Ok _ _ _ _ _ E2). do 2 eexists. split; [reflexivity|].
      split_and!; try done. by eapply R_trans.
    + do 2 eexists. split; [reflexivity|]. by split_and!.
  - by apply serves_verdict; [apply serves_publish_halt|].
  - eapply served_then; [by apply serves_call_mmio|]. intros [ok t1] Ht1.
    apply serves_if; [by apply serves_ret|]. apply serves_verdict. intros w1 H1.
    destruct (publish_mmio_serves t1 w1 Ht1 H1) as (t2 & w2 & ? & ? & ? & ?). by exists t2, w2.
  - by apply serves_verdict; [apply serves_publish_shutdown|].
  - unfold served. rewrite (tq_vcpu _ _ Ht), (bind_Ok _ _ _ _ _ (kvm_run_at_ok _ _ _ Hp)).
    destruct (_ =? KVM_INTERNAL_ERROR_EMULATION); [|apply Hret].
    eapply served_then; [by apply serves_call_cpuid|]. intros [ok t1] Ht1.
    apply serves_if; [by apply serves_ret|]. by apply serves_verdict, serves_publish_cpuid.
Qed.

(** KVM_RUN came back with something the loop may continue after: an
    interruption, or an exit that is neither HLT nor SHUTDOWN. *)
Definition runs_on w : Prop :=
  let '(r, m) := k_run (vc_fd v) (h_kern (w_host w)) (h_mem (w_host w)) in
  (kr_ret r < 0 -> kr_errno r = EINTR) /\
  (0 <= kr_ret r -> exists page, m !! vc_runPage v = Some page /\
     run_exit_reason page <> KVM_EXIT_HLT /\ run_exit_reason page <> KVM_EXIT_SHUTDOWN).

Lemma trapper_bump t : trapper_quiet v t -> trapper_quiet v (bump_exit t).
Proof. by intros []. Qed.

Lemma vcpu_run_outcome w :
  I w -> vcpu_live v w ->
  exists e : expected ExitReason, VCpu_run v w = Ok (e, after_run (vc_fd v) w) /\
    match e with
    | Unexpected _ => True
    | Value reason =>
        (reason = Intr /\ runs_on w) \/
        exists page, page_at (vc_runPage v) page (after_run (vc_fd v) w) /\
          (reason = Io -> io_data_ok page) /\ (reason <> Hlt -> reason <> Shutdown -> runs_on w)
    end.
Proof.
  intros Hw [Hr Hp Hb (page & Hm & Hl)]. unfold VCpu_run. rewrite (bind_Ok _ _ _ _ _ (ioctl_run_eq _ _)).
  pose proof (law_run_page (h_kern (w_host w)) (vc_fd v) (h_mem (w_host w)) (vc_runPage v) page) as Hlaw.
  unfold after_run, runs_on in *. destruct (k_run _ _ _) as [r m] eqn:Er. cbn [fst].
  destruct (kr_ret r <? 0) eqn:Eneg; boolify.
  - unfold errno, bind. cbn. rewrite (proj2 (Z.ltb_lt _ _) Eneg).
    destruct (Z.eqb_spec (kr_errno r) EINTR) as [He|He]; eexists; (split; [reflexivity|]); [left|done].
    split; [done|]. split; [done|lia].
  - destruct (Hlaw Hp Hb Hm Eneg) as (page' & Hm' & [Hok Hio]).
    set (w1 := on_host _ w). assert (page_at (vc_runPage v) page' w1) as Hp1 by (by split).
    unfold bind. rewrite (kvm_run_at_ok _ _ _ Hp1). eexists. split; [reflexivity|]. right.
    exists page'. split; [done|]. unfold KVM_EXIT_IO, KVM_EXIT_HLT, KVM_EXIT_SHUTDOWN in *. split.
    + intros He. apply Hio. revert He. unfold ExitReason_of. by repeat case_match.
    + intros Hh Hs. split; [lia|]. intros _. exists page'. split; [done|].
      split; intros He; rewrite He in *; by cbn in *.
Qed.

Lemma step_served t w :
  trapper_quiet v t -> I w ->
  exists r t' w', step t w = Ok ((r, t'), w') /\ I w' /\
    R (h_kern (w_host (after_run (vc_fd v) w))) (h_kern (w_host w')) /\ trapper_quiet v t' /\
    (r = Continue -> runs_on w).
Proof.
  intros Ht Hw. pose proof (I_live w Hw) as Hlive. unfold step. rewrite (tq_vcpu _ _ Ht).
  destruct (vcpu_run_outcome w Hw Hlive) as (e & E1 & He). rewrite (bind_Ok _ _ _ _ _ E1).
  set (w1 := after_run (vc_fd v) w) in *.
  assert (I w1) as H1 by (by eapply I_steady, steady_run).
  destruct e as [reason|ec].
  2: { do 3 eexists. split; [reflexivity|]. split_and!; try done. apply R_refl. }
  destruct He as [[-> Hon]|(page & Hp & Hio & Hon)].
  { do 3 eexists. split; [reflexivity|]. split_and!; try done; [apply R_refl|by apply trapper_bump]. }
  destruct (dispatch_served (bump_exit t) reason page w1 (trapper_bump _ Ht) H1 Hp Hio)
    as ([r t'] & w' & E2 & H2 & R2 & T2).
  exists r, t', w'. split; [exact E2|]. split_and!; try done. intros ->.
  apply dispatch_facts in E2 as [_ [Hh Hs]]. by apply Hon.
Qed.

Lemma loop_served fuel max i t w :
  trapper_quiet v t -> I w ->
  exists r t' w', runLoop_fuel fuel max i t w = Ok ((r, t'), w') /\ I w' /\
    R (h_kern (w_host w)) (h_kern (w_host w')) /\ trapper_quiet v t'.
Proof.
  revert i t w. induction fuel as [|fuel IH]; intros i t w Ht Hw; cbn [runLoop_fuel].
  { do 3 eexists. split; [reflexivity|]. split_and!; try done. apply R_refl. }
  destruct (_ || _); [|do 3 eexists; split; [reflexivity|]; split_and!; try done; apply R_refl].
  destruct (step_served t w Ht Hw) as (r & t1 & w1 & E1 & H1 & R1 & T1 & _).
  assert (R (h_kern (w_host w)) (h_kern (w_host w1))) as Rw.
  { eapply R_trans; [|exact R1]. unfold after_run.
    pose proof (R_run (h_kern (w_host w)) (vc_fd v) (h_mem (w_host w))) as Hr. by destruct (k_run _ _ _). }
  rewrite (bind_Ok _ _ _ _ _ E1). case_bool_decide as Hres.
  - do 3 eexists. split; [reflexivity|]. by split_and!.
  - destruct (IH (u64 (i + 1)) t1 w1 T1 H1) as (r2 & t2 & w2 & E2 & H2 & R2 & T2).
    exists r2, t2, w2. split; [exact E2|]. split_and!; try done. by eapply R_trans.
Qed.

End Quiet.

(** Exits to go, as an order on kernel states. *)
Definition fewer {K} (bound : nat) `{HaltLaws K bound} (k k' : K) : Prop := (k_left k' <= k_left k)%nat.

#[export] Program Instance fewer_order {K} (bound : nat) `{HaltLaws K bound} : Order (fewer bound).
Next Obligation. unfold fewer. lia. Qed.
Next Obligation. unfold fewer. lia. Qed.
Next Obligation.
  intros K bound ? ? ? c k Hc. unfold fewer. pose proof (law_left_call k c) as Hl.
  destruct c as [| |fd [] | | |]; try lia. by exfalso; eapply Hc.
Qed.
Next Obligation. intros. apply law_left_run_le. Qed.
Next Obligation. intros. apply law_left_clock. Qed.
Next Obligation. intros. apply law_left_cpuid. Qed.

#[export] Program Instance any_order {K} `{Kernel K} : Order (fun _ _ : K => True).
Solve Obligations with done.

(** ** A guest that stops ends the loop *)

Section Halting.

Context {K : Type} (bound : nat) `{Kernel K} `{!MmapLaws K} `{!FdLaws K} `{!PageLaws K} `{!RunLaws K}
        `{!HaltLaws K bound} {E : Type}.
Context (I : World K E -> Prop).
Implicit Types (w : World K E).

Hypothesis I_steady : forall w w', I w -> steady w w' -> I w'.
Context (v : VCpu).
Hypothesis I_live : forall w, I w -> vcpu_live v w.

(** A KVM_RUN after which the loop goes on is one exit fewer to go. *)
Lemma runs_on_fewer w :
  vcpu_live v w -> runs_on v w ->
  (k_left (h_kern (w_host (after_run (vc_fd v) w))) < k_left (h_kern (w_host w)))%nat.
Proof.
  intros Hl. pose proof (vcpu_live_steady v w _ Hl (steady_run (vc_fd v) w)) as [_ _ _ (page & Hp & _)].
  pose proof (law_left_run (h_kern (w_host w)) (vc_fd v) (h_mem (w_host w)) (vc_runPage v) page) as Hlaw.
  unfold runs_on, after_run in *. destruct (k_run _ _ _) as [r m]. intros [Hn Hon].
  apply Hlaw; [apply Hl|exact Hp|exact Hn|].
  intros Hr. destruct (Hon Hr) as (page' & Hp' & Hne). cbn in Hp. congruence.
Qed.

Lemma loop_halts fuel i t w :
  trapper_quiet I (fewer bound) v t -> I w -> (k_left (h_kern (w_host w)) < fuel)%nat ->
  exists r t' w', runLoop_fuel fuel 0 i t w = Ok ((Some r, t'), w') /\ r <> Continue /\ I w' /\
    fewer bound (h_kern (w_host w)) (h_kern (w_host w')) /\ trapper_quiet I (fewer bound) v t'.
Proof.
  revert i t w. induction fuel as [|fuel IH]; intros i t w Ht Hw Hf; [lia|]. cbn [runLoop_fuel].
  destruct (step_served I (fewer bound) I_steady v I_live t w Ht Hw) as (r & t1 & w1 & E1 & H1 & R1 & T1 & Hon).
  pose proof (I_live w Hw) as Hl.
  assert (fewer bound (h_kern (w_host w)) (h_kern (w_host w1))) as Rw.
  { unfold fewer in *. pose proof (law_left_run_le (h_kern (w_host w)) (vc_fd v) (h_mem (w_host w))) as Hle.
    unfold after_run in R1. destruct (k_run _ _ _). cbn in *. lia. }
  cbn [Z.eqb orb]. rewrite (bind_Ok _ _ _ _ _ E1). case_bool_decide as Hr.
  - exists r, t1, w1. by split_and!.
  - assert (r = Continue) as -> by (destruct (decide (r = Continue)); tauto).
    pose proof (runs_on_fewer w Hl (Hon eq_refl)). unfold fewer in R1.
    destruct (IH (u64 (i + 1)) t1 w1 T1 H1) as (r2 & t2 & w2 & E2 & Hr2 & H2 & R2 & T2); [lia|].
    exists r2, t2, w2. split_and!; try done. unfold fewer in *. lia.
Qed.

End Halting.
