(* ===== verification/Loader.v ===== *)
(** * Loading a guest (GuestLoader.h, GuestLoader.cpp)

    [load] and [loadBytes] give a fresh machine its memory, copy the image in,
    add a vCPU and put it in real mode or in 64-bit mode; in 64-bit mode the
    loader also writes identity page tables into guest memory.  The section
    [LoaderModel] has the operations; [PageWalk] is the processor's 4-level
    walk, the specification the tables are checked against. *)

From S2P Require Import Prelude Host SimKvm Memory Vcpu Machine.
From stdpp Require Import base list gmap strings.
From Stdlib Require Import ZArith Lia.
Open Scope Z_scope.
Open Scope hv_scope.

Inductive GuestLoadMode := FlatBinary | RealMode16.

Record GuestLoadParams := mk_GuestLoadParams {
  gp_imagePath : string;
  gp_mode : GuestLoadMode;
  gp_loadAddress : Z;
  gp_entryPoint : Z;
  gp_memorySize : Z }.

(** ** Register files the loader installs *)

(** [setupSeg]: [avl], [unusable] and the padding keep their values. *)
Definition setupSeg (seg : kvm_segment) (selector : Z) : kvm_segment :=
  mk_segment (Z.shiftl selector 4) 0xFFFF selector 3 1 0 0 1 0 0
             (seg_avl seg) (seg_unusable seg).

Definition real_mode_sregs (s : kvm_sregs) : kvm_sregs :=
  mk_sregs (setupSeg (cs s) 0) (setupSeg (ds s) 0) (setupSeg (es s) 0)
           (setupSeg (fs s) 0) (setupSeg (gs s) 0) (setupSeg (ss s) 0)
           (tr s) (ldt s) (gdt s) (idt s)
           (Z.land (cr0 s) (u64 (Z.lnot 1))) (cr2 s) (cr3 s) (cr4 s) (cr8 s)
           (efer s) (apic_base s) (interrupt_bitmap s).

(** [kvm_regs regs{}] with RIP, RSP and RFLAGS set. *)
Definition start_regs (ip sp : Z) : kvm_regs :=
  mk_regs 0 0 0 0 0 0 sp 0 0 0 0 0 0 0 0 0 ip 0x0002.

Definition cs_seg : kvm_segment := mk_segment 0 0xFFFFFFFF 0x08 11 1 0 0 1 1 1 0 0.
Definition ds_seg : kvm_segment := mk_segment 0 0xFFFFFFFF 0x10 3 1 0 1 1 0 1 0 0.

Definition long_mode_sregs (s : kvm_sregs) (root : Z) : kvm_sregs :=
  mk_sregs cs_seg ds_seg ds_seg ds_seg ds_seg ds_seg
           (tr s) (ldt s) (gdt s) (idt s)
           0x80050033 (cr2 s) root 0x20 (cr8 s)
           0x500 (apic_base s) (interrupt_bitmap s).

(** Entries of the page tables. *)
Definition table_entry (addr : Z) : Z := Z.lor (u64 addr) 0x03.
Definition pd_entry (i : nat) : Z := Z.lor (u64 (Z.shiftl (Z.of_nat i) 21)) 0x83.

Section LoaderModel.

Context {K : Type} `{Kernel K} {E : Type}.
Implicit Types (w : World K E) (vm : VirtualMachine).

Definition setupRealModeVCpu (vcpu : VCpu) (entry_ip : Z) : M (World K E) Z :=
  let* sregsResult := VCpu_getSregs vcpu in
  match sregsResult with
  | Unexpected ec => ret ec
  | Value sregs =>
      let* ec := VCpu_setSregs vcpu (real_mode_sregs sregs) in
      if ec_failed ec then ret ec
      else VCpu_setRegs vcpu (start_regs entry_ip 0xFFF0)
  end.

Definition setup64BitVCpu (vcpu : VCpu) (rip cr3 : Z) : M (World K E) Z :=
  let* sregsResult := VCpu_getSregs vcpu in
  match sregsResult with
  | Unexpected ec => ret ec
  | Value sregs =>
      let* ec := VCpu_setSregs vcpu (long_mode_sregs sregs cr3) in
      if ec_failed ec then ret ec
      else VCpu_setRegs vcpu (start_regs rip 0x200000)
  end.

(** [std::memset(p, 0, 4096)] at a byte offset of a block. *)
Definition clear_page (ptr off : Z) : M (World K E) unit :=
  mem_store ptr off (replicate (Z.to_nat 4096) 0).

(** [table[i] = v] for a [uint64_t*] at a byte offset of a block. *)
Definition store64 (ptr off : Z) (i : nat) (v : Z) : M (World K E) unit :=
  mem_store ptr (off + 8 * Z.of_nat i) (le_encode 8 v).

(** The three tables, from a byte offset of the region that covers them. *)
Definition write_tables (ptr offset base_addr : Z) : M (World K E) unit :=
  let pml4 := offset in
  let pdpt := offset + 8 * 512 in
  let pd := offset + 8 * 1024 in
  clear_page ptr pml4 ;;;
  clear_page ptr pdpt ;;;
  clear_page ptr pd ;;;
  store64 ptr pml4 0 (table_entry (base_addr + 0x1000)) ;;;
  store64 ptr pdpt 0 (table_entry (base_addr + 0x2000)) ;;;
  mapM_ (fun i => store64 ptr pd i (pd_entry i)) (seq 0 512).

Fixpoint build_in (regions : list MemoryRegion) (base_addr : Z) : M (World K E) Z :=
  match regions with
  | [] => ret ENONET
  | region :: rest =>
      let rbase := mr_guestPhysAddr region in
      let rend := u64 (rbase + mr_size region) in
      if (base_addr <? rbase) || (rend <=? base_addr) then build_in rest base_addr
      else
        write_tables (mr_hostAddr region) (base_addr - rbase) base_addr ;;;
        ret 0
  end.

Definition buildIdentityPageTables vm (base_addr : Z) : M (World K E) Z :=
  build_in (memoryRegions vm) base_addr.

(** The file system: what reading a path to its end yields, [None] when the
    file does not open. *)
Definition readFile (files : string -> option (list Z)) (path : string) : list Z :=
  match files path with
  | None => []
  | Some bytes => bytes
  end.

Definition region_at vm (i : nat) : M (World K E) MemoryRegion :=
  match vm_memoryRegions vm !! i with
  | Some r => ret r
  | None => fail OutOfBounds
  end.

Definition pgtableBase : Z := 0x2000.

Definition load (ndebug : bool) (files : string -> option (list Z)) vm (params : GuestLoadParams)
  : M (World K E) (Z * VirtualMachine) :=
  match readFile files (gp_imagePath params) with
  | [] => ret (ENONET, vm)
  | bytes =>
      let* (regionResult, vm1) := addMemoryRegion vm 0 (gp_memorySize params) 0 in
      match regionResult with
      | Unexpected ec => ret (ec, vm1)
      | Value ri =>
          let* region := region_at vm1 ri in
          let offset := gp_loadAddress params in
          if mr_size region <? u64 (offset + Z.of_nat (length bytes)) then ret (ENOMEM, vm1)
          else
            MemoryRegion_write ndebug region offset bytes ;;;
            let* (vcpuResult, vm2) := addVCpu vm1 0 in
            match vcpuResult with
            | Unexpected ec => ret (ec, vm2)
            | Value vi =>
                let* vcpu := vcpu_at vm2 vi in
                match gp_mode params with
                | RealMode16 =>
                    let* ec := setupRealModeVCpu vcpu (u16 (Z.land (gp_entryPoint params) 0xFFFF)) in
                    ret (ec, vm2)
                | FlatBinary =>
                    let* ec := buildIdentityPageTables vm2 pgtableBase in
                    if ec_failed ec then ret (ec, vm2)
                    else
                      let* ec := setup64BitVCpu vcpu (gp_entryPoint params) pgtableBase in
                      ret (ec, vm2)
                end
            end
      end
  end.

Definition loadBytes (ndebug : bool) vm (code : list Z) (load_addr memory_size : Z)
  : M (World K E) (Z * VirtualMachine) :=
  let* (regionResult, vm1) := addMemoryRegion vm 0 memory_size 0 in
  match regionResult with
  | Unexpected ec => ret (ec, vm1)
  | Value ri =>
      let* region := region_at vm1 ri in
      if mr_size region <? u64 (load_addr + Z.of_nat (length code)) then ret (ENOMEM, vm1)
      else
        MemoryRegion_write ndebug region load_addr code ;;;
        let* (vcpuResult, vm2) := addVCpu vm1 0 in
        match vcpuResult with
        | Unexpected ec => ret (ec, vm2)
        | Value vi =>
            let* vcpu := vcpu_at vm2 vi in
            let* ec := setupRealModeVCpu vcpu (u16 (Z.land load_addr 0xFFFF)) in
            ret (ec, vm2)
        end
  end.

End LoaderModel.

(** ** Tables as words *)

(** The bytes of an array of [uint64_t]. *)
Definition words_bytes (ws : list Z) : list Z := concat (map (le_encode 8) ws).

(** What the loader is meant to leave behind: one PML4 entry, one PDPT entry,
    512 entries of 2 MiB each. *)
Definition table_words (base_addr : Z) : list Z :=
  (table_entry (base_addr + 0x1000) :: replicate 511 0) ++
  (table_entry (base_addr + 0x2000) :: replicate 511 0) ++
  (pd_entry <$> seq 0 512).

Lemma length_words_bytes ws : length (words_bytes ws) = (8 * length ws)%nat.
Proof.
  unfold words_bytes. induction ws as [|v ws IH]; [done|]. cbn [map concat].
  rewrite length_app, length_le_encode, IH. cbn. lia.
Qed.

Lemma splice_app_r {A} (h t : list A) o bs :
  splice (length h + o) bs (h ++ t) = h ++ splice o bs t.
Proof.
  unfold splice. rewrite take_app_add, <-Nat.add_assoc, drop_app_add. by rewrite <-app_assoc.
Qed.

Lemma slice_app_r {A} (h t : list A) o n : slice (length h + o) n (h ++ t) = slice o n t.
Proof. unfold slice. by rewrite drop_app_add. Qed.

Lemma words_bytes_insert ws i v :
  (i < length ws)%nat ->
  splice (8 * i) (le_encode 8 v) (words_bytes ws) = words_bytes (<[i := v]> ws).
Proof.
  revert i. induction ws as [|x ws IH]; intros i Hi; [cbn in Hi; lia|].
  unfold words_bytes in *. cbn [map concat]. destruct i as [|i]; cbn [insert list_insert map concat].
  - unfold splice. rewrite Nat.mul_0_r, take_0, length_le_encode. cbn [app Nat.add].
    by rewrite drop_app_length' by (by rewrite length_le_encode).
  - replace (8 * S i)%nat with (length (le_encode 8 x) + 8 * i)%nat
      by (rewrite length_le_encode; lia).
    rewrite splice_app_r, IH by (cbn in Hi; lia). done.
Qed.

Lemma words_bytes_lookup ws i v :
  ws !! i = Some v -> slice (8 * i) 8 (words_bytes ws) = le_encode 8 v.
Proof.
  revert i. induction ws as [|x ws IH]; intros i Hi; [done|].
  unfold words_bytes in *. cbn [map concat]. destruct i as [|i].
  - injection Hi as ->. unfold slice. rewrite Nat.mul_0_r, drop_0.
    by rewrite take_app_length' by (by rewrite length_le_encode).
  - replace (8 * S i)%nat with (length (le_encode 8 x) + 8 * i)%nat
      by (rewrite length_le_encode; lia).
    rewrite slice_app_r. by apply IH.
Qed.

Lemma words_bytes_zeros n : words_bytes (replicate n 0) = replicate (8 * n) 0.
Proof.
  induction n as [|n IH]; [done|]. unfold words_bytes in *. cbn [replicate map concat].
  rewrite IH. replace (8 * S n)%nat with (8 + 8 * n)%nat by lia. by rewrite replicate_add.
Qed.

Lemma splice_splice {A} off o (T bs l : list A) :
  (off + length T <= length l)%nat -> (o + length bs <= length T)%nat ->
  splice (off + o) bs (splice off T l) = splice off (splice o bs T) l.
Proof.
  intros Hl HT. unfold splice at 2. 
  replace (off + o)%nat with (length (take off l) + o)%nat by (rewrite length_take; lia).
  rewrite splice_app_r. unfold splice at 2. rewrite length_splice by done. f_equal.
  unfold splice. rewrite take_app_le, drop_app_le by lia. by rewrite <-!app_assoc.
Qed.

Section Tables.
Context {K : Type} `{Kernel K} {E : Type}.

Variables (ptr off : Z) (l : list Z) (w : World K E).
Hypothesis (Hptr : ptr <> nullptr) (Hoff : 0 <= off).
Hypothesis Hl : h_mem (w_host w) !! ptr = Some l.
Hypothesis Hfit : off + 12288 <= Z.of_nat (length l).

(** The world in which the three pages hold [T]. *)
Definition table_world (T : list Z) : World K E :=
  with_page ptr (splice (Z.to_nat off) T l) w.

Lemma table_store T o bs :
  Z.of_nat (length T) = 12288 -> 0 <= o -> o + Z.of_nat (length bs) <= 12288 ->
  mem_store ptr (off + o) bs (table_world T) = Ok (tt, table_world (splice (Z.to_nat o) bs T)).
Proof.
  intros HT Ho Hb.
  rewrite (mem_store_ok ptr (splice (Z.to_nat off) T l)); [| done | apply lookup_insert_eq | lia |].
  - unfold table_world, with_page, on_host. cbn. unfold set_mem. cbn. rewrite insert_insert_eq.
    replace (Z.to_nat (off + o)) with (Z.to_nat off + Z.to_nat o)%nat by lia.
    by rewrite splice_splice by lia.
  - rewrite length_splice by lia. lia.
Qed.

Lemma store64_words ws o i v :
  Z.of_nat (length ws) = 1536 -> Z.of_nat o + Z.of_nat i < 1536 ->
  store64 ptr (off + 8 * Z.of_nat o) i v (table_world (words_bytes ws))
  = Ok (tt, table_world (words_bytes (<[(o + i)%nat := v]> ws))).
Proof.
  intros Hw Hi. unfold store64. rewrite <-Z.add_assoc, table_store.
  - replace (Z.to_nat (8 * Z.of_nat o + 8 * Z.of_nat i)) with (8 * (o + i))%nat by lia.
    by rewrite words_bytes_insert by lia.
  - rewrite length_words_bytes. lia.
  - lia.
  - rewrite length_le_encode. lia.
Qed.

Lemma store64_loop f idxs ws :
  Z.of_nat (length ws) = 1536 -> Forall (fun i => Z.of_nat i < 512) idxs ->
  mapM_ (fun i => store64 ptr (off + 8 * 1024) i (f i)) idxs (table_world (words_bytes ws))
  = Ok (tt, table_world (words_bytes
          (fold_left (fun ws i => <[(Z.to_nat 1024 + i)%nat := f i]> ws) idxs ws))).
Proof.
  revert ws. induction idxs as [|i idxs IH]; intros ws Hw Hi; [done|].
  apply Forall_cons in Hi as [Hi His]. cbn [mapM_].
  pose proof (store64_words ws (Z.to_nat 1024) i (f i) Hw ltac:(lia)) as Hs.
  rewrite Z2Nat.id in Hs by lia. rewrite (bind_Ok _ _ _ _ _ Hs).
  rewrite IH; [done| by rewrite length_insert | done].
Qed.

Lemma clear_page_ok T o :
  Z.of_nat (length T) = 12288 -> 0 <= o <= 8192 ->
  clear_page ptr (off + o) (table_world T)
  = Ok (tt, table_world (splice (Z.to_nat o) (replicate (Z.to_nat 4096) 0) T)) /\
  Z.of_nat (length (splice (Z.to_nat o) (replicate (Z.to_nat 4096) 0) T)) = 12288.
Proof.
  intros HT Ho. split.
  - unfold clear_page. apply table_store; [done|lia|]. rewrite length_replicate. lia.
  - rewrite length_splice; [done|]. rewrite length_replicate. lia.
Qed.

Lemma clear_three T :
  Z.of_nat (length T) = 12288 ->
  let z := replicate (Z.to_nat 4096) 0 in
  splice (Z.to_nat 8192) z (splice (Z.to_nat 4096) z (splice (Z.to_nat 0) z T))
  = words_bytes (replicate (Z.to_nat 1536) 0).
Proof.
  intros HT z. rewrite words_bytes_zeros.
  replace (8 * Z.to_nat 1536)%nat with (Z.to_nat 12288) by lia.
  assert (length z = Z.to_nat 4096) as Hz by apply length_replicate.
  set (T1 := splice _ z T). assert (Z.of_nat (length T1) = 12288) as H1
    by (unfold T1; rewrite length_splice; lia).
  set (T2 := splice _ z T1). assert (Z.of_nat (length T2) = 12288) as H2
    by (unfold T2; rewrite length_splice; lia).
  assert (forall j, Z.of_nat j < 4096 -> z !! j = Some 0) as Hzj
    by (intros; apply lookup_replicate_2; lia).
  apply list_eq. intros i. destruct (decide (Z.of_nat i < 12288)) as [Hi|Hi].
  2:{ rewrite !lookup_ge_None_2; [done| rewrite length_replicate; lia |].
      rewrite length_splice; lia. }
  rewrite (lookup_replicate_2 (Z.to_nat 12288)) by lia.
  destruct (decide (8192 <= Z.of_nat i)).
  { replace i with (Z.to_nat 8192 + (i - Z.to_nat 8192))%nat by lia.
    rewrite lookup_splice_mid by lia. apply Hzj. lia. }
  rewrite lookup_splice_lt by lia. unfold T2. destruct (decide (4096 <= Z.of_nat i)).
  { replace i with (Z.to_nat 4096 + (i - Z.to_nat 4096))%nat by lia.
    rewrite lookup_splice_mid by lia. apply Hzj. lia. }
  rewrite lookup_splice_lt by lia. unfold T1.
  replace i with (Z.to_nat 0 + i)%nat by lia. rewrite lookup_splice_mid by lia. apply Hzj. lia.
Qed.

Lemma clear_tables :
  exists T1 T2,
    clear_page ptr off w = Ok (tt, table_world T1) /\
    clear_page ptr (off + 8 * 512) (table_world T1) = Ok (tt, table_world T2) /\
    clear_page ptr (off + 8 * 1024) (table_world T2)
    = Ok (tt, table_world (words_bytes (replicate (Z.to_nat 1536) 0))).
Proof.
  set (T := slice (Z.to_nat off) (Z.to_nat 12288) l).
  assert (Z.of_nat (length T) = 12288) as HT by (unfold T; rewrite length_slice; lia).
  assert (table_world T = w) as Hw0.
  { unfold table_world, with_page, T. rewrite splice_slice_id by lia. unfold on_host, set_mem.
    rewrite insert_id by done. by destruct w as [[]]. }
  destruct (clear_page_ok T 0 HT ltac:(lia)) as [Hc1 HT1]. rewrite Hw0, Z.add_0_r in Hc1.
  destruct (clear_page_ok _ (8 * 512) HT1 ltac:(lia)) as [Hc2 HT2].
  destruct (clear_page_ok _ (8 * 1024) HT2 ltac:(lia)) as [Hc3 HT3].
  do 2 eexists. split; [exact Hc1|]. split; [exact Hc2|]. rewrite Hc3.
  change (8 * 1024) with 8192. change (8 * 512) with 4096. rewrite clear_three by done. reflexivity.
Qed.

(** The inserts of the loop, on symbolic entries. *)
Lemma table_words_inserts a b (f : nat -> Z) :
  fold_left (fun ws i => <[(Z.to_nat 1024 + i)%nat := f i]> ws) (seq 0 512)
    (<[(Z.to_nat 512 + 0)%nat := b]> (<[(0 + 0)%nat := a]> (replicate (Z.to_nat 1536) 0)))
  = (a :: replicate 511 0) ++ (b :: replicate 511 0) ++ (f <$> seq 0 512).
Proof. vm_compute. reflexivity. Qed.

Lemma write_tables_ok base :
  write_tables ptr off base w = Ok (tt, table_world (words_bytes (table_words base))).
Proof.
  destruct clear_tables as (T1 & T2 & Hc1 & Hc2 & Hc3). unfold write_tables.
  rewrite (bind_Ok _ _ _ _ _ Hc1), (bind_Ok _ _ _ _ _ Hc2), (bind_Ok _ _ _ _ _ Hc3).
  set (ws := replicate (Z.to_nat 1536) 0).
  assert (Z.of_nat (length ws) = 1536) as Hws by (unfold ws; rewrite length_replicate; lia).
  pose proof (store64_words ws 0 0 (table_entry (base + 0x1000)) Hws ltac:(lia)) as Hs1.
  rewrite Z.mul_0_r, Z.add_0_r in Hs1. rewrite (bind_Ok _ _ _ _ _ Hs1).
  set (ws1 := <[_ := _]> ws) in *.
  assert (Z.of_nat (length ws1) = 1536) as Hws1 by (unfold ws1; by rewrite length_insert).
  pose proof (store64_words ws1 (Z.to_nat 512) 0 (table_entry (base + 0x2000)) Hws1 ltac:(lia)) as Hs2.
  rewrite Z2Nat.id in Hs2 by lia. rewrite (bind_Ok _ _ _ _ _ Hs2).
  set (ws2 := <[_ := _]> ws1) in *.
  rewrite (store64_loop pd_entry (seq 0 512)).
  - unfold ws2, ws1, ws. rewrite table_words_inserts. reflexivity.
  - unfold ws2. by rewrite length_insert.
  - apply Forall_forall. intros i Hi%elem_of_seq. lia.
Qed.

End Tables.

(** ** The processor's page walk

    4-level paging as the architecture defines it: bit 0 of an entry says that
    it is present, bit 7 of a PDPT or PD entry that it maps a large page (the
    bit is reserved in a PML4 entry), bits 12 to 51 hold the address. *)

Section PageWalk.

Variable rd : Z -> option Z.

Definition pte_addr (e : Z) : Z := Z.land e (Z.shiftl (Z.ones 40) 12).

Definition walk_index (level : nat) (va : Z) : Z :=
  Z.land (Z.shiftr va (12 + 9 * Z.of_nat level)) 511.

(** The page [e] maps at [level], and the offset of [va] in it. *)
Definition page_of (level : nat) (e va : Z) : Z :=
  let n := 12 + 9 * Z.of_nat level in
  Z.shiftl (Z.shiftr (pte_addr e) n) n + Z.land va (Z.ones n).

Fixpoint walk_from (level : nat) (table va : Z) : option Z :=
  match rd (table + 8 * walk_index level va) with
  | None => None
  | Some e =>
      if negb (Z.testbit e 0) then None
      else match level with
           | O => Some (page_of 0 e va)
           | S level' =>
               if Z.testbit e 7 then
                 (if (level <=? 2)%nat then Some (page_of level e va) else None)
               else walk_from level' (pte_addr e) va
           end
  end.

Definition walk (root va : Z) : option Z := walk_from 3 (pte_addr root) va.

End PageWalk.

(** The 64-bit word at a guest-physical address, through a region. *)
Definition guest_word (r : MemoryRegion) (l : list Z) (pa : Z) : option Z :=
  if (mr_guestPhysAddr r <=? pa) && (pa + 8 <=? mr_guestPhysAddr r + mr_size r) then
    Some (le_decode (slice (Z.to_nat (pa - mr_guestPhysAddr r)) 8 l))
  else None.

(** *** Arithmetic of entries *)

Lemma lor_disjoint a b n : 0 <= n -> 0 <= b < 2 ^ n -> Z.lor (a * 2 ^ n) b = a * 2 ^ n + b.
Proof.
  intros Hn Hb. symmetry. apply Z.add_nocarry_lor.
  apply Z.bits_inj'; intros i Hi; rewrite Z.land_spec, Z.bits_0.
  destruct (Z.lt_ge_cases i n).
  - by rewrite Z.mul_pow2_bits_low by lia.
  - rewrite <-(Z.mod_small b (2 ^ n)) by lia.
    by rewrite Z.mod_pow2_bits_high, andb_false_r by lia.
Qed.

Lemma land_ones_shift e : Z.land e (Z.shiftl (Z.ones 40) 12) = (e / 2 ^ 12) mod 2 ^ 40 * 2 ^ 12.
Proof.
  rewrite <-Z.land_ones, <-Z.shiftr_div_pow2, <-Z.shiftl_mul_pow2 by lia.
  apply Z.bits_inj'. intros n Hn. rewrite Z.land_spec. destruct (Z.lt_ge_cases n 12).
  - by rewrite !Z.shiftl_spec_low, andb_false_r by lia.
  - rewrite !Z.shiftl_spec, Z.land_spec, Z.shiftr_spec by lia. do 2 f_equal. lia.
Qed.

Lemma walk_index_div level va :
  walk_index level va = (va / 2 ^ (12 + 9 * Z.of_nat level)) mod 512.
Proof.
  unfold walk_index. change 511 with (Z.ones 9).
  by rewrite Z.land_ones, Z.shiftr_div_pow2 by lia.
Qed.

Lemma walk_index_range level va : 0 <= walk_index level va < 512.
Proof. rewrite walk_index_div. apply Z.mod_pos_bound. lia. Qed.

(** Below the reach of the level above, the index is the quotient, and it is 0
    exactly below the reach of the level itself. *)
Lemma walk_index_small level va :
  0 <= va < 2 ^ (21 + 9 * Z.of_nat level) ->
  walk_index level va = va / 2 ^ (12 + 9 * Z.of_nat level) /\
  (walk_index level va = 0 <-> va < 2 ^ (12 + 9 * Z.of_nat level)).
Proof.
  intros Hva. rewrite walk_index_div. set (n := 12 + 9 * Z.of_nat level).
  replace (21 + 9 * Z.of_nat level) with (n + 9) in Hva by lia.
  rewrite Z.pow_add_r in Hva by lia. assert (0 < 2 ^ n) by lia.
  assert (0 <= va / 2 ^ n < 512) as Hq
    by (split; [apply Z.div_pos | apply Z.div_lt_upper_bound]; lia).
  rewrite (Z.mod_small (va / 2 ^ n)) by done. split; [done|]. split; intros Hv.
  - apply Z.div_small_iff in Hv; lia.
  - apply Z.div_small. lia.
Qed.

Lemma table_entry_facts p :
  0 <= p < 2 ^ 40 ->
  let e := table_entry (p * 2 ^ 12) in
  e = p * 2 ^ 12 + 3 /\ Z.testbit e 0 = true /\ Z.testbit e 7 = false /\ pte_addr e = p * 2 ^ 12.
Proof.
  intros Hp e. assert (e = p * 2 ^ 12 + 3) as He.
  { unfold e, table_entry. rewrite u64_small by (unfold is_u64; lia). by apply lor_disjoint. }
  split; [done|]. assert (forall i, 0 <= i < 12 -> Z.testbit e i = Z.testbit 3 i) as Hbit.
  { intros i Hi. rewrite <-(Z.mod_pow2_bits_low e 12 i) by lia.
    rewrite He, Z.add_comm, Z.mod_add by lia. done. }
  rewrite !Hbit by lia. split_and!; try done.
  unfold pte_addr. rewrite land_ones_shift.
  replace (e / 2 ^ 12) with p by (rewrite He; apply (Z.div_unique_pos _ _ _ 3); lia).
  by rewrite Z.mod_small by lia.
Qed.

Lemma pd_entry_facts i va :
  0 <= i < 512 -> va / 2 ^ 21 = i -> 0 <= va ->
  let e := pd_entry (Z.to_nat i) in
  e = i * 2 ^ 21 + 0x83 /\ Z.testbit e 0 = true /\ Z.testbit e 7 = true /\ page_of 1 e va = va.
Proof.
  intros Hi Hva Hpos e. assert (e = i * 2 ^ 21 + 0x83) as He.
  { unfold e, pd_entry. rewrite Z2Nat.id, Z.shiftl_mul_pow2, u64_small by (unfold is_u64; lia).
    by apply lor_disjoint. }
  split; [done|]. assert (forall j, 0 <= j < 21 -> Z.testbit e j = Z.testbit 0x83 j) as Hbit.
  { intros j Hj. rewrite <-(Z.mod_pow2_bits_low e 21 j) by lia.
    rewrite He, Z.add_comm, Z.mod_add by lia. done. }
  rewrite !Hbit by lia. split_and!; try done.
  unfold page_of, pte_addr. change (12 + 9 * Z.of_nat 1) with 21.
  rewrite land_ones_shift, Z.shiftl_mul_pow2, Z.shiftr_div_pow2, Z.land_ones by lia.
  replace (e / 2 ^ 12) with (i * 512) by (rewrite He; apply (Z.div_unique_pos _ _ _ 0x83); lia).
  rewrite (Z.mod_small (i * 512)) by lia.
  replace (i * 512 * 2 ^ 12 / 2 ^ 21) with i by (apply (Z.div_unique_pos _ _ _ 0); lia).
  rewrite <-Hva. rewrite (Z.div_mod va (2 ^ 21)) at 3 by lia. lia.
Qed.

(** *** Walking the loader's tables *)

Lemma slice_splice_in {A} off o n (T l : list A) :
  (off <= length l)%nat -> (o + n <= length T)%nat ->
  slice (off + o) n (splice off T l) = slice o n T.
Proof.
  intros Hl HT. unfold splice.
  replace (off + o)%nat with (length (take off l) + o)%nat by (rewrite length_take; lia).
  rewrite slice_app_r. unfold slice. rewrite drop_app_le, take_app_le; [done| |lia].
  rewrite length_drop. lia.
Qed.

Lemma length_table_words base : Z.of_nat (length (table_words base)) = 1536.
Proof. reflexivity. Qed.

(** The entries of the three tables by index: only the first entry of the upper
    two is not zero. *)
Lemma table_words_upper base i :
  0 <= i < 512 ->
  table_words base !! Z.to_nat i = Some (if i =? 0 then table_entry (base + 0x1000) else 0).
Proof.
  intros Hi. unfold table_words. destruct (Z.eqb_spec i 0) as [->|Hne]; [done|].
  rewrite lookup_app_l by (cbn; lia).
  destruct (Z.to_nat i) as [|j] eqn:Ej; [lia|]. cbn [lookup list_lookup].
  apply (lookup_replicate_2 511). lia.
Qed.

Lemma table_words_middle base i :
  0 <= i < 512 ->
  table_words base !! Z.to_nat (512 + i) = Some (if i =? 0 then table_entry (base + 0x2000) else 0).
Proof.
  intros Hi. unfold table_words. set (up := _ :: replicate 511 0).
  assert (length up = 512%nat) as Hup by reflexivity.
  rewrite lookup_app_r, Hup by lia. replace (Z.to_nat (512 + i) - 512)%nat with (Z.to_nat i) by lia.
  destruct (Z.eqb_spec i 0) as [->|Hne]; [done|]. rewrite lookup_app_l by (cbn; lia).
  destruct (Z.to_nat i) as [|j] eqn:Ej; [lia|]. cbn [lookup list_lookup].
  apply (lookup_replicate_2 511). lia.
Qed.

Lemma table_words_lower base i :
  0 <= i < 512 -> table_words base !! Z.to_nat (1024 + i) = Some (pd_entry (Z.to_nat i)).
Proof.
  intros Hi. unfold table_words. rewrite app_assoc.
  set (up := (_ :: replicate 511 0) ++ (_ :: replicate 511 0)).
  assert (length up = 1024%nat) as Hup by reflexivity.
  rewrite lookup_app_r, Hup by lia.
  replace (Z.to_nat (1024 + i) - 1024)%nat with (Z.to_nat i) by lia.
  rewrite list_lookup_fmap, lookup_seq_lt by lia. done.
Qed.

Section WalkTables.

Variables (r : MemoryRegion) (l : list Z) (p : Z).
Abbreviation base := (p * 2 ^ 12).
Hypothesis Hbase : mr_guestPhysAddr r <= base.
Hypothesis Hfit : base + 12288 <= mr_guestPhysAddr r + mr_size r.
Hypothesis Hsize : Z.of_nat (length l) = mr_size r.
Hypothesis Hp : 0 <= p /\ p + 3 <= 2 ^ 40.

Definition tables_in : list Z :=
  splice (Z.to_nat (base - mr_guestPhysAddr r)) (words_bytes (table_words base)) l.

Lemma guest_word_table j v :
  0 <= j < 1536 -> table_words base !! Z.to_nat j = Some v -> 0 <= v < 2 ^ 64 ->
  guest_word r tables_in (base + 8 * j) = Some v.
Proof.
  intros Hj Hv Hb. unfold guest_word.
  rewrite (proj2 (Z.leb_le _ _)), (proj2 (Z.leb_le _ _)) by lia. cbn [andb]. f_equal.
  replace (Z.to_nat (base + 8 * j - mr_guestPhysAddr r))
    with (Z.to_nat (base - mr_guestPhysAddr r) + 8 * Z.to_nat j)%nat by lia.
  pose proof (length_table_words base). unfold tables_in.
  rewrite slice_splice_in by (rewrite ?length_words_bytes; lia).
  rewrite (words_bytes_lookup _ _ v Hv), le_decode_encode. apply Z.mod_small. done.
Qed.

Lemma walk_step level table va j e :
  0 <= j < 1536 -> table_words base !! Z.to_nat j = Some e -> 0 <= e < 2 ^ 64 ->
  table + 8 * walk_index level va = base + 8 * j ->
  guest_word r tables_in (table + 8 * walk_index level va) = Some e.
Proof. intros ??? ->. by apply guest_word_table. Qed.

Lemma pte_addr_base : pte_addr base = base.
Proof. unfold pte_addr. by rewrite land_ones_shift, Z.div_mul, Z.mod_small by lia. Qed.

(** The three levels of the walk. *)
Lemma walk_pd va :
  0 <= va < 2 ^ 30 -> walk_from (guest_word r tables_in) 1 (base + 0x2000) va = Some va.
Proof.
  intros Hva. destruct (walk_index_small 1 va Hva) as [I1 _].
  pose proof (walk_index_range 1 va) as R1.
  destruct (pd_entry_facts (walk_index 1 va) va) as (He & H0 & H7 & Ha); [lia|done|lia|].
  cbn [walk_from]. rewrite (walk_step 1 (base + 0x2000) va (1024 + walk_index 1 va) _ ltac:(lia)
    (table_words_lower base _ R1)); [| lia | lia].
  rewrite H0, H7. cbn [negb Nat.leb]. by rewrite Ha.
Qed.

Lemma walk_pdpt va :
  0 <= va < 2 ^ 39 ->
  walk_from (guest_word r tables_in) 2 (base + 0x1000) va = if va <? 2 ^ 30 then Some va else None.
Proof.
  intros Hva. destruct (walk_index_small 2 va Hva) as [_ I2].
  change (12 + 9 * Z.of_nat 2) with 30 in I2. pose proof (walk_index_range 2 va) as R2.
  destruct (table_entry_facts (p + 2)) as (He & H0 & H7 & Ha); [lia|].
  replace ((p + 2) * 2 ^ 12) with (base + 0x2000) in * by lia.
  cbn [walk_from]. rewrite (walk_step 2 (base + 0x1000) va (512 + walk_index 2 va) _ ltac:(lia)
    (table_words_middle base _ R2)); [| destruct (_ =? 0); lia | lia].
  destruct (Z.eqb_spec (walk_index 2 va) 0) as [E2|E2].
  - rewrite H0, H7, Ha. cbn [negb]. rewrite (proj2 (Z.ltb_lt _ _)) by tauto.
    apply walk_pd. split; [lia|tauto].
  - rewrite (proj2 (Z.ltb_ge _ _)) by lia. done.
Qed.

Lemma walk_tables va :
  0 <= va < 2 ^ 48 ->
  walk (guest_word r tables_in) base va = if va <? 2 ^ 30 then Some va else None.
Proof.
  intros Hva. unfold walk. rewrite pte_addr_base. destruct (walk_index_small 3 va Hva) as [_ I3].
  change (12 + 9 * Z.of_nat 3) with 39 in I3. pose proof (walk_index_range 3 va) as R3.
  destruct (table_entry_facts (p + 1)) as (He & H0 & H7 & Ha); [lia|].
  replace ((p + 1) * 2 ^ 12) with (base + 0x1000) in * by lia.
  cbn [walk_from]. rewrite (walk_step 3 base va (walk_index 3 va) _ ltac:(lia)
    (table_words_upper base _ R3)); [| destruct (_ =? 0); lia | lia].
  destruct (Z.eqb_spec (walk_index 3 va) 0) as [E3|E3].
  - rewrite H0, H7, Ha. cbn [negb]. apply walk_pdpt. split; [lia|tauto].
  - rewrite (proj2 (Z.ltb_ge _ _)) by lia. done.
Qed.

End WalkTables.

(** ** Outcomes of the loader's steps *)

Section Outcomes.

Context {K : Type} `{Kernel K} {E : Type}.
Implicit Types (w : World K E) (vm : VirtualMachine).

(** A region the search for the tables' home passes over. *)
Definition covers (base_addr : Z) (r : MemoryRegion) : bool :=
  negb ((base_addr <? mr_guestPhysAddr r) || (u64 (mr_guestPhysAddr r + mr_size r) <=? base_addr)).

Lemma build_in_skip before rest base w :
  Forall (fun r => covers base r = false) before ->
  build_in (before ++ rest) base w = build_in rest base w.
Proof.
  induction 1 as [|r before Hr _ IH]; [done|]. cbn [app build_in].
  unfold covers in Hr. boolify. by rewrite Hr.
Qed.

Lemma build_in_found r rest base w :
  covers base r = true ->
  build_in (r :: rest) base w =
  bind (write_tables (mr_hostAddr r) (base - mr_guestPhysAddr r) base) (fun _ => ret 0) w.
Proof. unfold covers. intros Hr%negb_true_iff. cbn [build_in]. by rewrite Hr. Qed.

Lemma covers_true base r :
  mr_guestPhysAddr r <= base < mr_guestPhysAddr r + mr_size r ->
  0 <= mr_guestPhysAddr r -> mr_guestPhysAddr r + mr_size r < 2 ^ 64 -> covers base r = true.
Proof.
  intros Hb H0 Hs. unfold covers. rewrite u64_small by (unfold is_u64; lia).
  by rewrite (proj2 (Z.ltb_ge _ _)), (proj2 (Z.leb_gt _ _)) by lia.
Qed.

(** A page that does not fit stops the run. *)
Lemma clear_page_oob ptr l off w :
  ptr <> nullptr -> h_mem (w_host w) !! ptr = Some l -> Z.of_nat (length l) < off + 4096 ->
  clear_page ptr off w = Fault OutOfBounds.
Proof.
  intros Hp Hl Hn. apply (mem_store_oob _ l); [done|done|]. rewrite length_replicate. lia.
Qed.

Lemma clear_page_step ptr l off w :
  ptr <> nullptr -> h_mem (w_host w) !! ptr = Some l -> 0 <= off ->
  off + 4096 <= Z.of_nat (length l) ->
  exists l', length l' = length l /\ clear_page ptr off w = Ok (tt, with_page ptr l' w).
Proof.
  intros Hp Hl Ho Hn. exists (splice (Z.to_nat off) (replicate (Z.to_nat 4096) 0) l).
  split; [apply length_splice; rewrite length_replicate; lia|].
  apply (mem_store_ok _ l); [done|done|lia|]. rewrite length_replicate. lia.
Qed.

Lemma write_tables_oob ptr l off base w :
  ptr <> nullptr -> h_mem (w_host w) !! ptr = Some l -> 0 <= off ->
  Z.of_nat (length l) < off + 12288 -> write_tables ptr off base w = Fault OutOfBounds.
Proof.
  intros Hp Hl Ho Hn. unfold write_tables.
  destruct (Z.lt_ge_cases (Z.of_nat (length l)) (off + 4096)) as [|H1].
  { unfold bind at 1. by rewrite (clear_page_oob ptr l). }
  destruct (clear_page_step ptr l off w) as (l1 & Hl1 & Hc1); [done|done|lia|lia|].
  rewrite (bind_Ok _ _ _ _ _ Hc1).
  set (w1 := with_page _ _ _). assert (h_mem (w_host w1) !! ptr = Some l1) as Hm1
    by apply lookup_insert_eq.
  destruct (Z.lt_ge_cases (Z.of_nat (length l)) (off + 8192)) as [|H2].
  { unfold bind at 1. rewrite (clear_page_oob ptr l1); [done|done|done|lia]. }
  destruct (clear_page_step ptr l1 (off + 8 * 512) w1) as (l2 & Hl2 & Hc2); [done|done|lia|lia|].
  rewrite (bind_Ok _ _ _ _ _ Hc2).
  set (w2 := with_page _ _ w1). assert (h_mem (w_host w2) !! ptr = Some l2) as Hm2
    by apply lookup_insert_eq.
  unfold bind at 1. rewrite (clear_page_oob ptr l2); [done|done|done|lia].
Qed.

End Outcomes.

(** ** Properties *)

(** C17. The loader's page tables are the identity on the first GiB: when the
    region that covers the page-aligned base has room for three pages, building
    the tables succeeds, and afterwards the processor's walk from that base
    takes every address below 2^30 to itself and finds no page for any other
    address of the lower half of the address space; the rest of the region and
    every other mapping keep their bytes. *)
Theorem identity_page_tables {K} `{Kernel K} {E} vm before r after p (w : World K E) :
  let base := p * 2 ^ 12 in
  vm_memoryRegions vm = before ++ r :: after ->
  Forall (fun r' => covers base r' = false) before ->
  region_ok r (h_mem (w_host w)) ->
  0 <= mr_guestPhysAddr r <= base -> base + 0x3000 <= mr_guestPhysAddr r + mr_size r ->
  mr_guestPhysAddr r + mr_size r < 2 ^ 64 -> p + 3 <= 2 ^ 40 ->
  exists w', buildIdentityPageTables vm base w = Ok (0, w') /\
    let l := region_bytes r (h_mem (w_host w)) in
    let l' := region_bytes r (h_mem (w_host w')) in
    (forall va, 0 <= va < 2 ^ 47 ->
       walk (guest_word r l') base va = if va <? 2 ^ 30 then Some va else None) /\
    (forall i, Z.of_nat i < base - mr_guestPhysAddr r \/
               base - mr_guestPhysAddr r + 0x3000 <= Z.of_nat i -> l' !! i = l !! i) /\
    (forall a, a <> mr_hostAddr r -> h_mem (w_host w') !! a = h_mem (w_host w) !! a).
Proof.
  intros base Hrs Hbefore Hr Hb Hfit H64 Hp.
  destruct (region_ok_bytes _ _ Hr) as [Hl Hlen]. pose proof Hr as (Hnz & Hsz & _).
  set (l := region_bytes r (h_mem (w_host w))) in *.
  exists (with_page (mr_hostAddr r) (tables_in r l p) w). split.
  - unfold buildIdentityPageTables, memoryRegions. rewrite Hrs, build_in_skip by done.
    rewrite build_in_found by (apply covers_true; lia).
    assert (base - mr_guestPhysAddr r + 12288 <= Z.of_nat (length l)) as Hroom by lia.
    by rewrite (bind_Ok _ _ _ _ _ (write_tables_ok _ (base - mr_guestPhysAddr r) l w Hnz
                                     ltac:(lia) Hl Hroom base)).
  - assert (region_bytes r (h_mem (w_host (with_page (mr_hostAddr r) (tables_in r l p) w)))
            = tables_in r l p) as -> by apply region_bytes_insert.
    assert (Z.of_nat (length (words_bytes (table_words base))) = 12288) as HT
      by (by rewrite length_words_bytes, Nat2Z.inj_mul, length_table_words).
    split; [|split].
    + intros va Hva. apply walk_tables; lia.
    + intros i Hi. unfold tables_in. fold base. destruct Hi as [Hi|Hi].
      * apply lookup_splice_lt; lia.
      * apply lookup_splice_ge; lia.
    + intros a Ha. by apply lookup_insert_ne.
Qed.

(** The loader's own base in a machine with one region of 0x6000 bytes. *)
Definition table_region : MemoryRegion := mk_MemoryRegion 4 0 0 0x6000 4096.
Definition table_vm : VirtualMachine := mk_VirtualMachine 4 4160 1 [table_region] [].
Definition table_demo : World SimK unit :=
  sim_world (sim_vcpu []) {[4096 := replicate (Z.to_nat 0x6000) 255]} tt.

Lemma table_region_ok : region_ok table_region (h_mem (w_host table_demo)).
Proof.
  split; [done|]. split; [cbn; lia|]. eexists. split; [apply lookup_singleton_eq|].
  rewrite length_replicate. cbn [mr_size table_region]. lia.
Qed.

Lemma identity_page_tables_witness :
  exists w', buildIdentityPageTables table_vm pgtableBase table_demo = Ok (0, w') /\
    walk (guest_word table_region (region_bytes table_region (h_mem (w_host w')))) 0x2000 0x1234567
    = Some 0x1234567.
Proof.
  destruct (identity_page_tables table_vm [] table_region [] 2 table_demo)
    as (w' & Hb & Hw & _).
  - reflexivity.
  - constructor.
  - apply table_region_ok.
  - cbn; lia.
  - cbn; lia.
  - cbn; lia.
  - lia.
  - exists w'. split; [exact Hb|]. apply (Hw 0x1234567). lia.
Defined.

(** The loader does not check that the three tables fit: when the region
    that covers the base ends before the third page does, building the tables
    writes past the end of the region's mapping. *)
Lemma page_tables_overrun {K} `{Kernel K} {E} vm before r after base (w : World K E) :
  vm_memoryRegions vm = before ++ r :: after ->
  Forall (fun r' => covers base r' = false) before ->
  region_ok r (h_mem (w_host w)) ->
  0 <= mr_guestPhysAddr r -> mr_guestPhysAddr r + mr_size r < 2 ^ 64 ->
  mr_guestPhysAddr r <= base < mr_guestPhysAddr r + mr_size r ->
  mr_guestPhysAddr r + mr_size r < base + 0x3000 ->
  buildIdentityPageTables vm base w = Fault OutOfBounds.
Proof.
  intros Hrs Hbefore Hr H0 H64 Hb Hshort.
  destruct (region_ok_bytes _ _ Hr) as [Hl Hlen]. pose proof Hr as (Hnz & Hsz & _).
  unfold buildIdentityPageTables, memoryRegions. rewrite Hrs, build_in_skip by done.
  rewrite build_in_found by (apply covers_true; lia).
  unfold bind. rewrite (write_tables_oob _ _ _ _ _ Hnz Hl); [done|lia|lia].
Qed.

(** 16 KiB of guest memory: the base 0x2000 is covered, the third table is not. *)
Lemma page_tables_overrun_witness :
  let r := mk_MemoryRegion 4 0 0 0x4000 4096 in
  buildIdentityPageTables (mk_VirtualMachine 4 4160 1 [r] []) pgtableBase
    (sim_world (sim_vcpu []) {[4096 := replicate (Z.to_nat 0x4000) 0]} tt) = Fault OutOfBounds.
Proof.
  intros r. apply (page_tables_overrun _ [] r []).
  - reflexivity.
  - constructor.
  - split; [done|]. split; [cbn; lia|]. eexists. split; [apply lookup_singleton_eq|].
    rewrite length_replicate. cbn [mr_size r]. lia.
  - unfold pgtableBase; cbn; lia.
  - unfold pgtableBase; cbn; lia.
  - unfold pgtableBase; cbn; lia.
  - unfold pgtableBase; cbn; lia.
Defined.

(** ** Register setup *)

Section RegisterSetup.

Context {K : Type} `{KvmLaws K} {E : Type}.
Implicit Types w : World K E.

(** Read the special registers, write them back changed by [f], then write the
    general registers: the shape both setups share. *)
Definition install (f : kvm_sregs -> kvm_sregs) (regs : kvm_regs) (vcpu : VCpu) : M (World K E) Z :=
  let* sregsResult := VCpu_getSregs vcpu in
  match sregsResult with
  | Unexpected ec => ret ec
  | Value sregs =>
      let* ec := VCpu_setSregs vcpu (f sregs) in
      if ec_failed ec then ret ec else VCpu_setRegs vcpu regs
  end.

Lemma install_ok f regs vcpu s w :
  k_sregs (h_kern (w_host w)) (vc_fd vcpu) = Some s ->
  is_Some (k_regs (h_kern (w_host w)) (vc_fd vcpu)) ->
  k_valid_sregs (f s) -> canonical_regs regs ->
  exists w', install f regs vcpu w = Ok (0, w') /\
    k_sregs (h_kern (w_host w')) (vc_fd vcpu) = Some (f s) /\
    k_regs (h_kern (w_host w')) (vc_fd vcpu) = Some regs /\
    h_mem (w_host w') = h_mem (w_host w) /\ w_env w' = w_env w.
Proof.
  intros Hs Hr Hv Hc. unfold install.
  rewrite (bind_Ok _ _ _ _ _ (getSregs_ok vcpu s w Hs)).
  set (w1 := traced _ w).
  destruct (setSregs_ok vcpu (f s) w1) as (k1 & Hset1 & Hs1 & Hr1); [by eexists|done|].
  set (w2 := traced _ _) in Hset1. rewrite (bind_Ok _ _ _ _ _ Hset1). cbn [ec_failed Z.eqb negb].
  destruct (setRegs_ok vcpu regs w2) as (k2 & Hset2 & Hr2 & Hs2);
    [cbn; rewrite Hr1; exact Hr | done |].
  eexists. split; [exact Hset2|]. cbn. rewrite Hs2. by cbn.
Qed.

End RegisterSetup.

(** The conditions under which the processor runs 64-bit code: protection,
    paging and PAE on, long mode enabled and active, a 64-bit code segment. *)
Definition runs_64bit (s : kvm_sregs) : Prop :=
  Z.testbit (cr0 s) 0 = true /\ Z.testbit (cr0 s) 31 = true /\ Z.testbit (cr4 s) 5 = true /\
  Z.testbit (efer s) 8 = true /\ Z.testbit (efer s) 10 = true /\
  seg_l (cs s) = 1 /\ seg_db (cs s) = 0 /\ seg_present (cs s) = 1.

(** Setting a vCPU up for 64-bit mode reports success and leaves special
    registers that satisfy every condition for running 64-bit code, with the
    given page-table root and with the task, descriptor-table and APIC state it
    found; the first instruction is fetched at the given RIP, and all other
    general registers are zero but RSP and RFLAGS. *)
Lemma setup64_runs_64bit {K} `{KvmLaws K} {E} vcpu ip root s (w : World K E) :
  k_sregs (h_kern (w_host w)) (vc_fd vcpu) = Some s ->
  is_Some (k_regs (h_kern (w_host w)) (vc_fd vcpu)) ->
  k_valid_sregs (long_mode_sregs s root) ->
  exists s' w', setup64BitVCpu vcpu ip root w = Ok (0, w') /\
    k_sregs (h_kern (w_host w')) (vc_fd vcpu) = Some s' /\ runs_64bit s' /\ cr3 s' = root /\
    tr s' = tr s /\ ldt s' = ldt s /\ gdt s' = gdt s /\ idt s' = idt s /\
    apic_base s' = apic_base s /\
    k_regs (h_kern (w_host w')) (vc_fd vcpu)
    = Some (mk_regs 0 0 0 0 0 0 0x200000 0 0 0 0 0 0 0 0 0 ip 2) /\
    h_mem (w_host w') = h_mem (w_host w) /\ w_env w' = w_env w.
Proof.
  intros Hs Hr Hv.
  destruct (install_ok (fun s => long_mode_sregs s root) (start_regs ip 0x200000) vcpu s w)
    as (w' & Hi & Hs' & Hr' & Hm); [done..|].
  exists (long_mode_sregs s root), w'. destruct Hm. split; [exact Hi|]. by split_and!.
Qed.

Lemma setup64_runs_64bit_witness :
  exists s' w', setup64BitVCpu (mk_VCpu 5 0 8192 4160) 0x1000 pgtableBase
      (sim_world (sim_vcpu []) ∅ tt) = Ok (0, w') /\
    sim_sregs (h_kern (w_host w')) 5 = Some s' /\ runs_64bit s' /\ cr3 s' = 0x2000.
Proof.
  destruct (setup64_runs_64bit (mk_VCpu 5 0 8192 4160) 0x1000 pgtableBase zero_sregs
              (sim_world (sim_vcpu []) ∅ tt)) as (s' & w' & Hd & Hs & Hl & Hc & _).
  - vm_compute; reflexivity.
  - vm_compute; eauto.
  - exact I.
  - exists s', w'. split; [exact Hd|]. split; [exact Hs|]. split; [exact Hl|exact Hc].
Defined.

(** Setting a vCPU up for real mode reports success and leaves protection
    off, every other bit of CR0 as it was, all six segments at base 0 with a
    64 KiB limit, so that the first instruction is fetched from linear address
    [entry_ip] and the stack starts at 0xFFF0. *)
Lemma setup_real_mode {K} `{KvmLaws K} {E} vcpu ip s (w : World K E) :
  k_sregs (h_kern (w_host w)) (vc_fd vcpu) = Some s ->
  is_Some (k_regs (h_kern (w_host w)) (vc_fd vcpu)) ->
  k_valid_sregs (real_mode_sregs s) -> is_u64 (cr0 s) ->
  exists s' w', setupRealModeVCpu vcpu ip w = Ok (0, w') /\
    k_sregs (h_kern (w_host w')) (vc_fd vcpu) = Some s' /\
    Z.testbit (cr0 s') 0 = false /\
    (forall i, 0 < i -> Z.testbit (cr0 s') i = Z.testbit (cr0 s) i) /\
    Forall (fun g => seg_base g = 0 /\ seg_limit g = 0xFFFF /\ seg_selector g = 0)
           [cs s'; ds s'; es s'; fs s'; gs s'; ss s'] /\
    k_regs (h_kern (w_host w')) (vc_fd vcpu)
    = Some (mk_regs 0 0 0 0 0 0 0xFFF0 0 0 0 0 0 0 0 0 0 ip 2) /\
    h_mem (w_host w') = h_mem (w_host w) /\ w_env w' = w_env w.
Proof.
  intros Hs Hr Hv Hcr.
  destruct (install_ok real_mode_sregs (start_regs ip 0xFFF0) vcpu s w)
    as (w' & Hi & Hs' & Hr' & Hm); [done..|].
  exists (real_mode_sregs s), w'. split; [exact Hi|]. split; [exact Hs'|].
  cbn [cr0 real_mode_sregs]. split; [by rewrite Z.land_spec, andb_false_r|]. split.
  - intros i Hi0. rewrite Z.land_spec. destruct (Z.lt_ge_cases i 64).
    + unfold u64. rewrite Z.mod_pow2_bits_low, Z.lnot_spec by lia.
      destruct i; [lia| |lia]. by rewrite (Z.bits_above_log2 1), andb_true_r by (cbn; lia).
    + rewrite <-(Z.mod_small (cr0 s) (2 ^ 64)) by exact Hcr.
      by rewrite Z.mod_pow2_bits_high by lia.
  - split; [by repeat constructor|]. split; [exact Hr'|exact Hm].
Qed.

Lemma setup_real_mode_witness :
  exists s' w', setupRealModeVCpu (mk_VCpu 5 0 8192 4160) 0x1000
      (sim_world (sim_vcpu []) ∅ tt) = Ok (0, w') /\
    sim_sregs (h_kern (w_host w')) 5 = Some s' /\ Z.testbit (cr0 s') 0 = false.
Proof.
  destruct (setup_real_mode (mk_VCpu 5 0 8192 4160) 0x1000 zero_sregs
              (sim_world (sim_vcpu []) ∅ tt)) as (s' & w' & Hd & Hs & Hp & _).
  - vm_compute; reflexivity.
  - vm_compute; eauto.
  - exact I.
  - split; cbn; lia.
  - exists s', w'. split; [exact Hd|]. split; [exact Hs|exact Hp].
Defined.

(** ** Whole loads *)

Section Placing.

Context {K : Type} `{Kernel K} `{!KvmLaws K} `{!VcpuLaws K} `{!MmapLaws K} {E : Type}.
Implicit Types (w : World K E) (vm : VirtualMachine).

(** The part the two entry points share: memory, image, vCPU. *)
Definition place (ndebug : bool) vm (size addr : Z) (bytes : list Z)
  (k : VCpu -> VirtualMachine -> M (World K E) (Z * VirtualMachine))
  : M (World K E) (Z * VirtualMachine) :=
  let* (regionResult, vm1) := addMemoryRegion vm 0 size 0 in
  match regionResult with
  | Unexpected ec => ret (ec, vm1)
  | Value ri =>
      let* region := region_at vm1 ri in
      if mr_size region <? u64 (addr + Z.of_nat (length bytes)) then ret (ENOMEM, vm1)
      else
        MemoryRegion_write ndebug region addr bytes ;;;
        let* (vcpuResult, vm2) := addVCpu vm1 0 in
        match vcpuResult with
        | Unexpected ec => ret (ec, vm2)
        | Value vi => let* vcpu := vcpu_at vm2 vi in k vcpu vm2
        end
  end.

Lemma new_vcpu_regs vm id w i vm' w' :
  addVCpu vm id w = Ok ((Value i, vm'), w') ->
  exists v, vm_vcpus vm' = vm_vcpus vm ++ [v] /\
    is_Some (k_regs (h_kern (w_host w')) (vc_fd v)) /\
    is_Some (k_sregs (h_kern (w_host w')) (vc_fd v)).
Proof.
  unfold addVCpu, VCpu_create, sys_mmap, sys_close, ioctl, errno, bind, do_syscall, ret. cbn.
  set (r0 := k_syscall (Sys_ioctl _ _) _). destruct (kr_ret r0 <? 0) eqn:E0; [done|].
  set (r1 := k_syscall (Sys_mmap _ _) _). destruct (kr_ret r1 =? MAP_FAILED); [done|].
  boolify. intros [= _ <- <-]. eexists. split; [reflexivity|]. cbn.
  destruct (law_mmap_regs (kr_kern r0) (u64 (vm_vcpuMmapSize vm)) (kr_ret r0) (kr_ret r0))
    as [Hk1 Hk2].
  unfold r1. cbn [on_host w_host finish h_kern]. rewrite Hk1, Hk2. by apply law_create_vcpu.
Qed.

Lemma place_outcome ndebug vm size addr bytes k w :
  mapped_inv w -> vm_memoryRegions vm = [] -> vm_vcpus vm = [] ->
  0 <= addr -> addr + Z.of_nat (length bytes) <= size -> size < 2 ^ 64 ->
  (exists ec vm' w', place ndebug vm size addr bytes k w = Ok ((ec, vm'), w') /\ vm_vcpus vm' = []) \/
  (exists r v vm2 w2, place ndebug vm size addr bytes k w = k v vm2 w2 /\
     vm_memoryRegions vm2 = [r] /\ vm_vcpus vm2 = [v] /\
     mr_guestPhysAddr r = 0 /\ mr_size r = size /\ region_ok r (h_mem (w_host w2)) /\
     region_bytes r (h_mem (w_host w2)) = splice (Z.to_nat addr) bytes (replicate (Z.to_nat size) 0) /\
     is_Some (k_regs (h_kern (w_host w2)) (vc_fd v)) /\
     is_Some (k_sregs (h_kern (w_host w2)) (vc_fd v))).
Proof.
  intros Hm Hrs Hvs Ha Hfit Hsz. 
  remember (place ndebug vm size addr bytes k w) as P eqn:HP. unfold place in HP.
  destruct (add_region_total vm 0 size 0 w) as (res & vm1 & w1 & Har).
  rewrite (bind_Ok _ _ _ _ _ Har) in HP.
  destruct (add_region_effect _ _ _ _ _ _ _ _ Hm Har) as (Hm1 & Heff). destruct res as [ri|ec].
  2:{ left. destruct Heff as [-> _]. by eexists _, _, _. }
  destruct Heff as (a & -> & Hnz & _ & Hmem & ->). rewrite Hrs in *. cbn [app length] in *.
  set (r := mk_MemoryRegion _ _ 0 size a) in *. set (vm1 := mk_VirtualMachine _ _ _ _ _) in *.
  unfold region_at in HP. cbn [vm1 vm_memoryRegions lookup list_lookup] in HP.
  rewrite bind_ret_l in HP. cbn [r mr_size] in HP.
  rewrite u64_small in HP by (unfold is_u64; lia).
  rewrite (proj2 (Z.ltb_ge _ _)) in HP by lia.
  assert (region_ok r (h_mem (w_host w1))) as Hr.
  { split; [done|]. split; [cbn; lia|]. eexists. rewrite Hmem. cbn. rewrite lookup_insert_eq.
    split; [done|]. rewrite length_replicate. lia. }
  assert (region_bytes r (h_mem (w_host w1)) = replicate (Z.to_nat size) 0) as Hb1
    by (rewrite Hmem; apply region_bytes_insert).
  pose proof (write_outcome ndebug r addr bytes w1 Hr) as Hw.
  rewrite (proj2 (Z.leb_le _ _)) in Hw by (cbn; lia). rewrite Hb1 in Hw.
  rewrite (bind_Ok _ _ _ _ _ (Hw ltac:(unfold is_u64; lia) ltac:(unfold is_u64; lia))) in HP.
  set (l1 := splice _ bytes _) in *. set (w2 := with_bytes r l1 w1) in *.
  assert (region_ok r (h_mem (w_host w2))) as Hr2.
  { apply region_ok_insert; [done|]. unfold l1. rewrite length_splice; rewrite length_replicate;
      cbn [r mr_size]; lia. }
  assert (mapped_inv w2) as Hm2.
  { intros x. cbn. rewrite lookup_insert_is_Some. intros [<-|[_ Hx]]; [|by apply Hm1].
    apply Hm1. destruct Hr as (_ & _ & l & Hl & _). by exists l. }
  destruct (add_vcpu_total vm1 0 w2) as (vres & vm2 & w3 & Hav).
  rewrite (bind_Ok _ _ _ _ _ Hav) in HP.
  destruct (add_vcpu_effect _ _ _ _ _ _ Hm2 Hav) as (_ & Hkeep & Heff). destruct vres as [vi|ec].
  2:{ left. eexists _, _, _. split; [done|]. by rewrite Heff. }
  destruct Heff as (v & -> & _ & Hvm2). right.
  destruct (new_vcpu_regs _ _ _ _ _ _ Hav) as (v' & Hv' & Hregs).
  assert (vm_vcpus vm2 = [v] /\ vm_memoryRegions vm2 = [r]) as [Hv2 Hr2'].
  { rewrite Hvm2. cbn [vm_vcpus vm_memoryRegions vm1]. by rewrite Hvs. }
  assert (v' = v) as ->. { rewrite Hv2 in Hv'. cbn [vm1 vm_vcpus] in Hv'. rewrite Hvs in Hv'. by injection Hv'. }
  exists r, v, vm2, w3. split.
  { rewrite HP. cbv beta iota. unfold vcpu_at. rewrite Hv2. cbn [vm1 vm_vcpus]. rewrite Hvs. done. }
  destruct Hr2 as (? & ? & l2 & Hl2 & Hlen2). split_and!; try done; [|unfold region_bytes|apply Hregs..].
  - split; [done|]. split; [done|]. eauto.
  - assert (h_mem (w_host w2) !! mr_hostAddr r = Some l1) as Hl1 by apply lookup_insert_eq.
    by rewrite (Hkeep _ _ Hl1).
Qed.

(** What follows in the flat-binary case. *)
Definition flat_start (entry : Z) (vcpu : VCpu) vm : M (World K E) (Z * VirtualMachine) :=
  let* ec := buildIdentityPageTables vm pgtableBase in
  if ec_failed ec then ret (ec, vm)
  else let* ec := setup64BitVCpu vcpu entry pgtableBase in ret (ec, vm).

Lemma flat_start_ok entry r v vm s image w :
  vm_memoryRegions vm = [r] -> mr_guestPhysAddr r = 0 -> region_ok r (h_mem (w_host w)) ->
  0x5000 <= mr_size r < 2 ^ 64 -> region_bytes r (h_mem (w_host w)) = image ->
  k_sregs (h_kern (w_host w)) (vc_fd v) = Some s ->
  is_Some (k_regs (h_kern (w_host w)) (vc_fd v)) ->
  k_valid_sregs (long_mode_sregs s pgtableBase) ->
  exists w', flat_start entry v vm w = Ok ((0, vm), w') /\
    region_bytes r (h_mem (w_host w')) = tables_in r image 2 /\
    (forall va, 0 <= va < 2 ^ 30 -> walk (guest_word r (tables_in r image 2)) 0x2000 va = Some va) /\
    k_sregs (h_kern (w_host w')) (vc_fd v) = Some (long_mode_sregs s pgtableBase) /\
    k_regs (h_kern (w_host w')) (vc_fd v) = Some (start_regs entry 0x200000).
Proof.
  intros Hrs Hg Hok Hsz Hb Hs Hr Hv.
  destruct (region_ok_bytes _ _ Hok) as [Hl Hlen]. rewrite Hb in Hl, Hlen. destruct Hok as (Hnz & _).
  set (w3 := with_page (mr_hostAddr r) (tables_in r image 2) w).
  assert (buildIdentityPageTables vm pgtableBase w = Ok (0, w3)) as Htab.
  { unfold buildIdentityPageTables, memoryRegions. rewrite Hrs.
    rewrite build_in_found by (apply covers_true; unfold pgtableBase; lia).
    rewrite Hg. unfold w3, tables_in. rewrite Hg. by rewrite (bind_Ok _ _ _ _ _
      (write_tables_ok _ (pgtableBase - 0) image w Hnz ltac:(done) Hl ltac:(unfold pgtableBase; lia)
                       pgtableBase)). }
  destruct (install_ok (fun s => long_mode_sregs s pgtableBase) (start_regs entry 0x200000) v s w3)
    as (w4 & Hi & Hs4 & Hr4 & Hm4 & _); [done..|].
  exists w4. split.
  { unfold flat_start. rewrite (bind_Ok _ _ _ _ _ Htab). cbn [ec_failed Z.eqb negb].
    by rewrite (bind_Ok _ _ _ _ _ Hi). }
  split; [rewrite Hm4; apply region_bytes_insert|]. split; [|done].
  intros va Hva. change 0x2000 with (2 * 2 ^ 12). rewrite walk_tables by lia.
  by rewrite (proj2 (Z.ltb_lt _ _)) by lia.
Qed.

End Placing.

(** C19. Loading a flat binary into an empty machine never faults when the
    image fits in memory and memory has room for the page tables, and if the
    kernel grants the vCPU the load succeeds: memory is zero but for the image
    at its load address, with the page tables written over it at 0x2000 (image
    bytes that fall into [0x2000, 0x5000) are replaced), the first GiB is
    identity-mapped, and the vCPU runs 64-bit code from the entry point with
    those tables. *)
Theorem load_flat_image {K} `{Kernel K} `{!KvmLaws K} `{!VcpuLaws K} `{!MmapLaws K} {E}
    ndebug files vm params bytes (w : World K E) :
  mapped_inv w -> vm_memoryRegions vm = [] -> vm_vcpus vm = [] ->
  files (gp_imagePath params) = Some bytes -> bytes <> [] -> gp_mode params = FlatBinary ->
  0 <= gp_loadAddress params ->
  gp_loadAddress params + Z.of_nat (length bytes) <= gp_memorySize params ->
  0x5000 <= gp_memorySize params < 2 ^ 64 ->
  (forall s, k_valid_sregs s -> k_valid_sregs (long_mode_sregs s pgtableBase)) ->
  exists ec vm' w', load ndebug files vm params w = Ok ((ec, vm'), w') /\
    forall v, vm_vcpus vm' = [v] ->
      ec = 0 /\ exists r s, vm_memoryRegions vm' = [r] /\ mr_guestPhysAddr r = 0 /\
      let zeros := replicate (Z.to_nat (gp_memorySize params)) 0 in
      let image := splice (Z.to_nat (gp_loadAddress params)) bytes zeros in
      let l := region_bytes r (h_mem (w_host w')) in
      l = splice (Z.to_nat 0x2000) (words_bytes (table_words 0x2000)) image /\
      (forall va, 0 <= va < 2 ^ 30 -> walk (guest_word r l) 0x2000 va = Some va) /\
      k_sregs (h_kern (w_host w')) (vc_fd v) = Some s /\ runs_64bit s /\ cr3 s = 0x2000 /\
      k_regs (h_kern (w_host w')) (vc_fd v) = Some (start_regs (gp_entryPoint params) 0x200000).
Proof.
  intros Hm Hrs Hvs Hf Hne Hmode Ha Hfit Hsz Hvalid.
  assert (load ndebug files vm params w = place ndebug vm (gp_memorySize params)
            (gp_loadAddress params) bytes (flat_start (gp_entryPoint params)) w) as ->.
  { unfold load, readFile. rewrite Hf, Hmode. by destruct bytes. }
  destruct (place_outcome ndebug vm (gp_memorySize params) (gp_loadAddress params) bytes
              (flat_start (gp_entryPoint params)) w)
    as [(ec & vm' & w' & -> & Hnil)
       |(r & v & vm2 & w2 & -> & Hr2 & Hv2 & Hg & Hs & Hok & Hb & Hreg & [s Hsreg])];
    try done; [lia|..].
  { exists ec, vm', w'. split; [done|]. intros v Hv. by rewrite Hnil in Hv. }
  destruct (flat_start_ok (gp_entryPoint params) r v vm2 s _ w2 Hr2 Hg Hok ltac:(lia) Hb Hsreg Hreg)
    as (w3 & -> & Hb3 & Hw & Hs3 & Hr3); [apply Hvalid; by apply law_sregs_valid in Hsreg|].
  exists 0, vm2, w3. split; [done|]. intros v' Hv'. rewrite Hv2 in Hv'. injection Hv' as <-.
  split; [done|]. exists r, (long_mode_sregs s pgtableBase). rewrite Hb3. cbv zeta.
  split_and!; try done. unfold tables_in. by rewrite Hg.
Qed.

(** A 4-byte image at 0x1000 in 24 KiB of memory. *)
Definition flat_params : GuestLoadParams := mk_GuestLoadParams "guest.bin" FlatBinary 0x1000 0x1000 0x6000.
Definition flat_files (path : string) : option (list Z) :=
  if decide (path = "guest.bin") then Some [0xF4; 0x90; 0x90; 0x90] else None.
Definition load_world : World SimK unit := sim_world (sim_vcpu []) ∅ tt.

Lemma load_world_mapped : mapped_inv load_world.
Proof. intros a. cbn. rewrite lookup_empty. by intros []. Qed.

Lemma load_flat_image_witness :
  exists vm' w', load false flat_files (VirtualMachine_new 4 4160) flat_params load_world
    = Ok ((0, vm'), w') /\
    (exists r, vm_memoryRegions vm' = [r] /\
       walk (guest_word r (region_bytes r (h_mem (w_host w')))) 0x2000 0x1000 = Some 0x1000).
Proof.
  destruct (load_flat_image false flat_files (VirtualMachine_new 4 4160) flat_params
              [0xF4; 0x90; 0x90; 0x90] load_world) as (ec & vm' & w' & Hload & Hv).
  - apply load_world_mapped.
  - reflexivity.
  - reflexivity.
  - reflexivity.
  - discriminate.
  - reflexivity.
  - cbn; lia.
  - cbn; lia.
  - cbn; lia.
  - intros s _. exact I.
  - assert (exists v, vm_vcpus vm' = [v]) as [v Hv'].
    { assert (match load false flat_files (VirtualMachine_new 4 4160) flat_params load_world with
              | Ok ((_, vm), _) => length (vm_vcpus vm) = 1%nat | _ => False end) as Hn
        by (vm_compute; reflexivity).
      rewrite Hload in Hn. destruct (vm_vcpus vm') as [|v []]; [discriminate|by exists v|discriminate]. }
    destruct (Hv v Hv') as (-> & r & s & Hr & _ & _ & Hw & _). exists vm', w'.
    split; [exact Hload|]. exists r. split; [exact Hr|]. apply Hw. lia.
Defined.

(** C25. Loading bytes into an empty machine never faults when they fit, and if
    the kernel grants the vCPU the load succeeds: memory is zero but for the
    code at its load address, the vCPU is in real mode, and it starts at the
    load address modulo 2^16, which is the first byte of the code exactly when
    the load address is below 64 KiB. *)
Theorem loadBytes_starts_code {K} `{Kernel K} `{!KvmLaws K} `{!VcpuLaws K} `{!MmapLaws K} {E}
    ndebug vm code addr size (w : World K E) :
  mapped_inv w -> vm_memoryRegions vm = [] -> vm_vcpus vm = [] ->
  0 <= addr -> addr + Z.of_nat (length code) <= size -> size < 2 ^ 64 ->
  (forall s, k_valid_sregs s -> k_valid_sregs (real_mode_sregs s)) ->
  exists ec vm' w', loadBytes ndebug vm code addr size w = Ok ((ec, vm'), w') /\
    forall v, vm_vcpus vm' = [v] ->
      ec = 0 /\ exists r s g, vm_memoryRegions vm' = [r] /\ mr_guestPhysAddr r = 0 /\
      region_bytes r (h_mem (w_host w')) =
        splice (Z.to_nat addr) code (replicate (Z.to_nat size) 0) /\
      k_sregs (h_kern (w_host w')) (vc_fd v) = Some s /\
      Z.testbit (cr0 s) 0 = false /\
      k_regs (h_kern (w_host w')) (vc_fd v) = Some g /\
      seg_base (cs s) + rip g = addr mod 2 ^ 16 /\
      (addr < 2 ^ 16 -> code <> [] ->
       region_bytes r (h_mem (w_host w')) !! Z.to_nat (seg_base (cs s) + rip g) = code !! 0%nat).
Proof.
  intros Hm Hrs Hvs Ha Hfit Hsz Hvalid.
  set (ip := u16 (Z.land addr 0xFFFF)).
  set (k := fun vcpu (vm2 : VirtualMachine) => bind (setupRealModeVCpu (E := E) vcpu ip) (fun ec => ret (ec, vm2))).
  assert (loadBytes ndebug vm code addr size w = place ndebug vm size addr code k w) as -> by done.
  destruct (place_outcome ndebug vm size addr code k w)
    as [(ec & vm' & w' & -> & Hnil)
       |(r & v & vm2 & w2 & -> & Hr2 & Hv2 & Hg & Hs & Hok & Hb & Hreg & [s Hsreg])]; try done.
  { exists ec, vm', w'. split; [done|]. intros v Hv. by rewrite Hnil in Hv. }
  destruct (install_ok real_mode_sregs (start_regs ip 0xFFF0) v s w2)
    as (w3 & Hi & Hs3 & Hr3 & Hm3 & _); [done|done| |done|].
  { apply Hvalid. by apply law_sregs_valid in Hsreg. }
  exists 0, vm2, w3. split; [unfold k; by rewrite (bind_Ok _ _ _ _ _ Hi)|].
  intros v' Hv'. rewrite Hv2 in Hv'. injection Hv' as <-. split; [done|].
  assert (ip = addr mod 2 ^ 16) as Hip.
  { unfold ip. change 0xFFFF with (Z.ones 16). rewrite Z.land_ones by lia.
    apply u16_small, Z.mod_pos_bound. lia. }
  exists r, (real_mode_sregs s), (start_regs ip 0xFFF0). rewrite Hm3, Hb.
  split_and!; try done.
  - cbn [cr0 real_mode_sregs]. by rewrite Z.land_spec, andb_false_r.
  - intros Hlow Hne. cbn [cs real_mode_sregs setupSeg seg_base start_regs rip Z.shiftl Z.add].
    rewrite Hip, Z.mod_small by lia. destruct code as [|b code]; [done|].
    replace (Z.to_nat (Z.shiftl 0 4 + addr)) with (Z.to_nat addr + 0)%nat
      by (rewrite Z.shiftl_0_l; lia).
    apply lookup_splice_mid; [rewrite length_replicate; cbn [length] in *; lia | cbn; lia].
Qed.

Lemma loadBytes_starts_code_witness :
  exists vm' w', loadBytes false (VirtualMachine_new 4 4160) [0xE4; 0x60; 0xF4] 0x1000 0x2000 load_world
    = Ok ((0, vm'), w') /\ exists r, vm_memoryRegions vm' = [r].
Proof.
  destruct (loadBytes_starts_code false (VirtualMachine_new 4 4160) [0xE4; 0x60; 0xF4] 0x1000 0x2000
              load_world) as (ec & vm' & w' & Hload & Hv).
  - apply load_world_mapped.
  - reflexivity.
  - reflexivity.
  - lia.
  - cbn; lia.
  - lia.
  - intros s _. exact I.
  - assert (exists v, vm_vcpus vm' = [v]) as [v Hv'].
    { assert (match loadBytes false (VirtualMachine_new 4 4160) [0xE4; 0x60; 0xF4] 0x1000 0x2000
                      load_world with
              | Ok ((_, vm), _) => length (vm_vcpus vm) = 1%nat | _ => False end) as Hn
        by (vm_compute; reflexivity).
      rewrite Hload in Hn. destruct (vm_vcpus vm') as [|v []]; [discriminate|by exists v|discriminate]. }
    destruct (Hv v Hv') as (-> & r & s & g & Hr & _). exists vm', w'.
    split; [exact Hload|]. by exists r.
Defined.
