(* ===== verification/Text.v ===== *)
(** * Text output: numbers, hexadecimal dumps, and JSON

    What [operator<<] of an output stream writes for the integers the sources
    print, under the manipulators they use, and the JSON texts the event log is
    meant to be: a lexer that runs as a state machine over the characters, and
    the token sequence of a JSON value. *)

From S2P Require Import Prelude.
From stdpp Require Import base list gmap strings.
From Stdlib Require Import ZArith Lia Ascii.
Open Scope Z_scope.
Open Scope hv_scope.

(** ** Printing integers *)

Definition digit_char (upper : bool) (d : Z) : ascii :=
  ascii_of_N (Z.to_N (if d <? 10 then 48 + d else if upper then 55 + d else 87 + d)).

Fixpoint print_digits (upper : bool) (base : Z) (fuel : nat) (z : Z) (acc : string) : string :=
  match fuel with
  | O => acc
  | S fuel' =>
      let acc' := String (digit_char upper (z mod base)) acc in
      if z <? base then acc' else print_digits upper base fuel' (z / base) acc'
  end.

(** 64 digits are enough for a 64-bit value in any base from 2 on. *)
Definition print_num (upper : bool) (base z : Z) : string := print_digits upper base 64 z "".

(** [std::hex], [std::hex << std::uppercase], [std::dec] of an unsigned value,
    [std::dec] of a signed one. *)
Definition hex (z : Z) : string := print_num false 16 z.
Definition HEX (z : Z) : string := print_num true 16 z.
Definition dec (z : Z) : string := print_num false 10 z.
Definition sdec (z : Z) : string :=
  if z <? 0 then String.append "-" (dec (- z)) else dec z.

(** ["{:0nx}"] of [std::format]: hexadecimal, padded with zeros to [n] digits. *)
Definition zeros (n : nat) : string := Nat.iter n (String "0"%char) EmptyString.
Definition hex0 (n : nat) (z : Z) : string :=
  String.append (zeros (n - String.length (hex z))) (hex z).

(** [std::hex << std::setw(2) << std::setfill('0')] of a byte. *)
Definition hex2 (b : Z) : string := if b <? 16 then String "0" (hex b) else hex b.

Fixpoint hexdump (bs : list Z) : string :=
  match bs with
  | [] => EmptyString
  | b :: bs' => String.append (hex2 b) (hexdump bs')
  end.

(** ** Reading them back *)

Definition digit_value (c : ascii) : option Z :=
  let n := Z.of_N (N_of_ascii c) in
  if (48 <=? n) && (n <=? 57) then Some (n - 48)
  else if (65 <=? n) && (n <=? 70) then Some (n - 55)
  else if (97 <=? n) && (n <=? 102) then Some (n - 87)
  else None.

Fixpoint read_digits (base : Z) (s : string) (v : Z) : option Z :=
  match s with
  | EmptyString => Some v
  | String c s' =>
      match digit_value c with
      | Some d => if d <? base then read_digits base s' (v * base + d) else None
      | None => None
      end
  end.

Fixpoint read_hexdump (s : string) : option (list Z) :=
  match s with
  | EmptyString => Some []
  | String c1 (String c2 s') =>
      match digit_value c1, digit_value c2, read_hexdump s' with
      | Some a, Some b, Some bs => Some (16 * a + b :: bs)
      | _, _, _ => None
      end
  | String _ EmptyString => None
  end.

Lemma digit_char_range upper d :
  0 <= d < 16 ->
  N_of_ascii (digit_char upper d) =
  Z.to_N (if d <? 10 then 48 + d else if upper then 55 + d else 87 + d).
Proof.
  intros Hd. unfold digit_char. apply N_ascii_embedding.
  destruct (d <? 10) eqn:E; boolify; destruct upper; lia.
Qed.

Lemma digit_value_char upper d : 0 <= d < 16 -> digit_value (digit_char upper d) = Some d.
Proof.
  intros Hd. unfold digit_value. rewrite digit_char_range by done.
  destruct (d <? 10) eqn:E; boolify.
  - rewrite Z2N.id by lia. rewrite (proj2 (Z.leb_le 48 _)), (proj2 (Z.leb_le _ 57)) by lia.
    cbn [andb]. f_equal. lia.
  - destruct upper; rewrite Z2N.id by lia.
    + rewrite (proj2 (Z.leb_gt _ 57)), andb_false_r by lia.
      rewrite (proj2 (Z.leb_le 65 _)), (proj2 (Z.leb_le _ 70)) by lia. cbn [andb]. f_equal. lia.
    + rewrite (proj2 (Z.leb_gt _ 57)), andb_false_r by lia.
      rewrite (proj2 (Z.leb_gt _ 70)), andb_false_r by lia.
      rewrite (proj2 (Z.leb_le 97 _)), (proj2 (Z.leb_le _ 102)) by lia. cbn [andb]. f_equal. lia.
Qed.

(** Printed digits are consumed from the front: any reader that accumulates
    [v * base + d] over them ends with the number. *)
Lemma print_digits_read {A} (rd : string -> Z -> A) upper base :
  2 <= base <= 16 ->
  (forall d s v, 0 <= d < base -> rd (String (digit_char upper d) s) v = rd s (v * base + d)) ->
  forall fuel z acc, (0 < fuel)%nat -> 0 <= z < base ^ Z.of_nat fuel ->
  rd (print_digits upper base fuel z acc) 0 = rd acc z.
Proof.
  intros Hb Hrd. induction fuel as [|fuel IH]; intros z acc Hf Hz; [lia|]. cbn [print_digits].
  destruct (z <? base) eqn:E; boolify.
  - by rewrite Z.mod_small, Hrd by lia.
  - pose proof (Z.mod_pos_bound z base). rewrite Nat2Z.inj_succ, Z.pow_succ_r in Hz by lia.
    assert (0 <= z / base < base ^ Z.of_nat fuel) as Hq
      by (split; [apply Z.div_pos | apply Z.div_lt_upper_bound]; lia).
    destruct fuel as [|fuel]; [cbn in Hq|]; [assert (z / base = 0) as Hq0 by lia;
      apply Z.div_small_iff in Hq0; lia|].
    rewrite IH, Hrd by lia. f_equal. rewrite (Z.div_mod z base) at 3 by lia. lia.
Qed.

Lemma fuel_enough base z : 2 <= base -> is_u64 z -> 0 <= z < base ^ Z.of_nat 64.
Proof.
  intros Hb [H0 Hz]. split; [done|]. eapply Z.lt_le_trans; [exact Hz|].
  apply Z.pow_le_mono_l. lia.
Qed.

Lemma read_print upper base z :
  2 <= base <= 16 -> is_u64 z -> read_digits base (print_num upper base z) 0 = Some z.
Proof.
  intros Hb Hz. unfold print_num.
  apply (print_digits_read (read_digits base) upper base);
    [done | | lia | apply fuel_enough; [lia|done]].
  intros d s v Hd. cbn [read_digits]. rewrite digit_value_char by lia.
  by rewrite (proj2 (Z.ltb_lt _ _)) by lia.
Qed.

Lemma read_hexdump_dump bs : Forall is_byte bs -> read_hexdump (hexdump bs) = Some bs.
Proof.
  induction 1 as [|b bs Hb _ IH]; [done|]. unfold is_byte in Hb. cbn [hexdump].
  assert (exists d1 d2, hex2 b = String (digit_char false d1) (String (digit_char false d2) "") /\
          0 <= d1 < 16 /\ 0 <= d2 < 16 /\ 16 * d1 + d2 = b) as (d1 & d2 & -> & H1 & H2 & Hd).
  { unfold hex2, hex, print_num. destruct (b <? 16) eqn:E; boolify.
    - exists 0, b. split; [|lia]. cbn [print_digits].
      rewrite (proj2 (Z.ltb_lt _ _)), Z.mod_small by lia. done.
    - exists (b / 16), (b mod 16). pose proof (Z.mod_pos_bound b 16). pose proof (Z.div_mod b 16).
      assert (0 <= b / 16 < 16) by (split; [apply Z.div_pos|apply Z.div_lt_upper_bound]; lia).
      split; [|lia]. cbn [print_digits].
      rewrite (proj2 (Z.ltb_ge _ _)) by lia. rewrite (proj2 (Z.ltb_lt (b / 16) _)) by lia.
      by rewrite (Z.mod_small (b / 16)) by lia. }
  change (read_hexdump _) with
    (match digit_value (digit_char false d1), digit_value (digit_char false d2),
           read_hexdump (hexdump bs) with
     | Some a, Some b, Some bs => Some (16 * a + b :: bs) | _, _, _ => None end).
  rewrite !digit_value_char, IH by done. by rewrite Hd.
Qed.

(** ** JSON *)

#[warnings="-register-all"]
Inductive json :=
| JNum (z : Z)
| JStr (s : string)
| JObj (fields : list (string * json))
| JArr (items : list json).

Inductive token :=
| TLBrack | TRBrack | TLBrace | TRBrace | TComma | TColon
| TNum (z : Z)
| TStr (s : string).

(** The tokens of a list, separated by commas. *)
Fixpoint commas (l : list (list token)) : list token :=
  match l with
  | [] => []
  | [x] => x
  | x :: l' => x ++ TComma :: commas l'
  end.

(** The token sequence of a value. *)
Fixpoint tokens (j : json) : list token :=
  match j with
  | JNum z => [TNum z]
  | JStr s => [TStr s]
  | JObj fields =>
      TLBrace :: commas (map (fun f => TStr f.1 :: TColon :: tokens f.2) fields) ++ [TRBrace]
  | JArr items => TLBrack :: commas (map tokens items) ++ [TRBrack]
  end.

Definition dquote : ascii := "034".
Definition newline : ascii := "010".

(** A character that stands for itself inside a JSON string. *)
Definition plain_char (c : ascii) : bool :=
  (32 <=? N_of_ascii c)%N && (N_of_ascii c <? 127)%N &&
  negb (Ascii.eqb c dquote) && negb (Ascii.eqb c "092").

Fixpoint plain (s : string) : bool :=
  match s with
  | EmptyString => true
  | String c s' => plain_char c && plain s'
  end.

(** The lexer's states: between tokens, in a number, in a string (with the
    characters read, last one first). *)
Inductive lex_state :=
| LNormal
| LNum (neg : bool) (v : Z)
| LStr (rev_chars : list ascii).

Definition signed (neg : bool) (v : Z) : Z := if neg then - v else v.

Definition string_of (l : list ascii) : string := foldr String EmptyString l.

Definition dec_digit (c : ascii) : option Z :=
  let n := Z.of_N (N_of_ascii c) in
  if (48 <=? n) && (n <=? 57) then Some (n - 48) else None.

Definition punct (c : ascii) : option (lex_state * list token) :=
  if Ascii.eqb c "[" then Some (LNormal, [TLBrack])
  else if Ascii.eqb c "]" then Some (LNormal, [TRBrack])
  else if Ascii.eqb c "{" then Some (LNormal, [TLBrace])
  else if Ascii.eqb c "}" then Some (LNormal, [TRBrace])
  else if Ascii.eqb c "," then Some (LNormal, [TComma])
  else if Ascii.eqb c ":" then Some (LNormal, [TColon])
  else if Ascii.eqb c " " || Ascii.eqb c newline then Some (LNormal, [])
  else if Ascii.eqb c dquote then Some (LStr [], [])
  else if Ascii.eqb c "-" then Some (LNum true 0, [])
  else None.

Definition lex_step (st : lex_state) (c : ascii) : option (lex_state * list token) :=
  match st with
  | LNormal =>
      match dec_digit c with
      | Some d => Some (LNum false d, [])
      | None => punct c
      end
  | LNum neg v =>
      match dec_digit c with
      | Some d => Some (LNum neg (v * 10 + d), [])
      | None =>
          match punct c with
          | Some (st', ts) => Some (st', TNum (signed neg v) :: ts)
          | None => None
          end
      end
  | LStr acc =>
      if Ascii.eqb c dquote then Some (LNormal, [TStr (string_of (rev acc))])
      else if plain_char c then Some (LStr (c :: acc), [])
      else None
  end.

Fixpoint lex_run (st : lex_state) (s : string) : option (lex_state * list token) :=
  match s with
  | EmptyString => Some (st, [])
  | String c s' =>
      match lex_step st c with
      | None => None
      | Some (st', ts) =>
          match lex_run st' s' with
          | None => None
          | Some (st'', ts') => Some (st'', ts ++ ts')
          end
      end
  end.

(** A whole text: its tokens, if it ends between tokens. *)
Definition lex (s : string) : option (list token) :=
  match lex_run LNormal s with
  | Some (LNormal, ts) => Some ts
  | _ => None
  end.

Definition is_json (s : string) (j : json) : Prop := lex s = Some (tokens j).

(** *** Parsing: a recursive-descent reader of one value

    The fuel bounds the depth of the calls; a value's own tokens are enough. *)

Fixpoint parse_value (fuel : nat) (ts : list token) : option (json * list token) :=
  match fuel with
  | O => None
  | S fuel' =>
      match ts with
      | TNum z :: ts' => Some (JNum z, ts')
      | TStr s :: ts' => Some (JStr s, ts')
      | TLBrack :: TRBrack :: ts' => Some (JArr [], ts')
      | TLBrack :: ts' =>
          match parse_items fuel' ts' with Some (l, rest) => Some (JArr l, rest) | None => None end
      | TLBrace :: TRBrace :: ts' => Some (JObj [], ts')
      | TLBrace :: ts' =>
          match parse_fields fuel' ts' with Some (l, rest) => Some (JObj l, rest) | None => None end
      | _ => None
      end
  end
with parse_items (fuel : nat) (ts : list token) : option (list json * list token) :=
  match fuel with
  | O => None
  | S fuel' =>
      match parse_value fuel' ts with
      | Some (j, TRBrack :: rest) => Some ([j], rest)
      | Some (j, TComma :: rest) =>
          match parse_items fuel' rest with Some (l, rest') => Some (j :: l, rest') | None => None end
      | _ => None
      end
  end
with parse_fields (fuel : nat) (ts : list token) : option (list (string * json) * list token) :=
  match fuel with
  | O => None
  | S fuel' =>
      match ts with
      | TStr name :: TColon :: ts' =>
          match parse_value fuel' ts' with
          | Some (j, TRBrace :: rest) => Some ([(name, j)], rest)
          | Some (j, TComma :: rest) =>
              match parse_fields fuel' rest with
              | Some (l, rest') => Some ((name, j) :: l, rest') | None => None end
          | _ => None
          end
      | _ => None
      end
  end.

(** The value a text denotes: all of it is one value. *)
Definition parse_json (s : string) : option json :=
  match lex s with
  | None => None
  | Some ts => match parse_value (length ts) ts with Some (j, []) => Some j | _ => None end
  end.

(** Induction over values, through the lists inside them. *)
Lemma json_nested_ind (P : json -> Prop) :
  (forall z, P (JNum z)) -> (forall s, P (JStr s)) ->
  (forall fields, Forall (fun f => P f.2) fields -> P (JObj fields)) ->
  (forall items, Forall P items -> P (JArr items)) -> forall j, P j.
Proof.
  intros Hn Hs Ho Ha. fix IH 1. intros [z|s|fields|items]; [apply Hn|apply Hs|apply Ho|apply Ha].
  - induction fields as [|f fields IHf]; constructor; [apply IH|exact IHf].
  - induction items as [|i items IHi]; constructor; [apply IH|exact IHi].
Qed.

(** What a value's tokens are read back as, whatever follows them. *)
Definition reads_back (j : json) : Prop :=
  forall fuel rest, (length (tokens j) <= fuel)%nat -> parse_value fuel (tokens j ++ rest) = Some (j, rest).

Lemma tokens_head j : exists t ts, tokens j = t :: ts /\ t <> TRBrack /\ t <> TRBrace.
Proof. destruct j; cbn [tokens]; by do 2 eexists. Qed.

Lemma commas_cons x l : commas (x :: l) = x ++ match l with [] => [] | _ => TComma :: commas l end.
Proof. destruct l; cbn [commas]; [by rewrite app_nil_r|done]. Qed.

Lemma parse_items_back items fuel rest :
  Forall reads_back items -> items <> [] -> (S (length (commas (map tokens items))) <= fuel)%nat ->
  parse_items fuel (commas (map tokens items) ++ TRBrack :: rest) = Some (items, rest).
Proof.
  intros Hall. revert fuel. induction Hall as [|j items Hj Hall IH]; intros fuel Hne Hf; [done|].
  destruct fuel as [|fuel]; [lia|]. cbn [parse_items map]. cbn [map] in Hf.
  rewrite commas_cons in Hf |- *. rewrite length_app in Hf. rewrite <-app_assoc.
  destruct items as [|j' items]; cbn [map] in Hf |- *.
  - by rewrite (Hj fuel) by lia.
  - cbn [length] in Hf. rewrite (Hj fuel) by lia. cbn [app].
    pose proof (IH fuel ltac:(done)) as IHf. cbn [map] in IHf. by rewrite IHf by lia.
Qed.

Lemma parse_fields_back fields fuel rest :
  Forall (fun f => reads_back f.2) fields -> fields <> [] ->
  (S (length (commas (map (fun f => TStr f.1 :: TColon :: tokens f.2) fields))) <= fuel)%nat ->
  parse_fields fuel (commas (map (fun f => TStr f.1 :: TColon :: tokens f.2) fields) ++ TRBrace :: rest)
  = Some (fields, rest).
Proof.
  intros Hall. revert fuel. induction Hall as [|[name j] fields Hj Hall IH]; intros fuel Hne Hf; [done|].
  destruct fuel as [|fuel]; [lia|]. cbn [map fst snd] in *.
  rewrite commas_cons in Hf |- *. rewrite length_app in Hf. rewrite <-app_assoc. cbn [length app] in *.
  cbn [parse_fields]. destruct fields as [|f fields]; cbn [map] in Hf |- *.
  - by rewrite (Hj fuel) by lia.
  - cbn [length] in Hf. rewrite (Hj fuel) by lia. cbn [app].
    pose proof (IH fuel ltac:(done)) as IHf. cbn [map] in IHf. by rewrite IHf by lia.
Qed.

(** Every value is read back from its tokens. *)
Lemma parse_tokens j : reads_back j.
Proof.
  induction j as [z|s|fields Hall|items Hall] using json_nested_ind; intros fuel rest Hf;
    (destruct fuel as [|fuel]; [cbn in Hf; lia|]); cbn [parse_value tokens]; try done.
  - cbn [tokens] in Hf. destruct fields as [|[name j] fields]; [done|]. cbn [length] in Hf. rewrite length_app in Hf. cbn [length] in Hf.
    cbn [app]. rewrite <-app_assoc. cbn [app].
    pose proof (parse_fields_back _ fuel rest Hall ltac:(done) ltac:(lia)) as ->.
    cbn [map fst]. by rewrite commas_cons.
  - cbn [tokens] in Hf. destruct items as [|j items]; [done|]. cbn [length] in Hf. rewrite length_app in Hf. cbn [length] in Hf.
    cbn [app]. rewrite <-app_assoc. cbn [app].
    pose proof (parse_items_back _ fuel rest Hall ltac:(done) ltac:(lia)) as ->.
    cbn [map]. rewrite commas_cons. destruct (tokens_head j) as (t & ts & -> & Hb & _). cbn [app]. by destruct t.
Qed.

Lemma parse_is_json s j : is_json s j -> parse_json s = Some j.
Proof.
  unfold is_json, parse_json. intros ->. pose proof (parse_tokens j (length (tokens j)) [] (Nat.le_refl _)) as Hp.
  rewrite app_nil_r in Hp. by rewrite Hp.
Qed.

(** *** The lexer on pieces of a text *)

Lemma lex_app st a b st1 t1 st2 t2 :
  lex_run st a = Some (st1, t1) -> lex_run st1 b = Some (st2, t2) ->
  lex_run st (String.append a b) = Some (st2, t1 ++ t2).
Proof.
  revert st t1. induction a as [|c a IH]; intros st t1 Ha Hb.
  { by injection Ha as <- <-. }
  change (String.append (String c a) b) with (String c (String.append a b)). cbn [lex_run] in *.
  destruct (lex_step st c) as [[st' ts]|]; [|done].
  destruct (lex_run st' a) as [[st'' ts']|] eqn:Er; [|done]. injection Ha as <- <-.
  rewrite (IH st' ts' Er Hb). by rewrite app_assoc.
Qed.

Lemma dec_digit_char d : 0 <= d < 10 -> dec_digit (digit_char false d) = Some d.
Proof.
  intros Hd. unfold dec_digit. rewrite digit_char_range by lia.
  rewrite (proj2 (Z.ltb_lt _ _)), Z2N.id by lia.
  rewrite (proj2 (Z.leb_le 48 _)), (proj2 (Z.leb_le _ 57)) by lia. cbn [andb]. f_equal. lia.
Qed.

Lemma lex_run_nil st ts :
  match lex_run st "" with Some (st', ts') => Some (st', ts ++ ts') | None => None end = Some (st, ts).
Proof. cbn. by rewrite app_nil_r. Qed.

Lemma lex_digits neg z : is_u64 z -> lex_run (LNum neg 0) (dec z) = Some (LNum neg z, []).
Proof.
  intros Hz. unfold dec, print_num.
  rewrite (print_digits_read (fun s v => lex_run (LNum neg v) s) false 10);
    [done | lia | | lia | apply fuel_enough; [lia|done]].
  intros d s v Hd. cbn [lex_run lex_step]. rewrite dec_digit_char by lia.
  by destruct (lex_run _ s) as [[]|].
Qed.

(** A number starts with a digit, so it can be entered from between tokens. *)
Lemma lex_run_digit_first fuel z acc :
  (0 < fuel)%nat -> 0 <= z ->
  lex_run LNormal (print_digits false 10 fuel z acc)
  = lex_run (LNum false 0) (print_digits false 10 fuel z acc).
Proof.
  assert (forall d s, 0 <= d < 10 -> lex_run LNormal (String (digit_char false d) s)
          = lex_run (LNum false 0) (String (digit_char false d) s)) as Hd.
  { intros d s Hd. cbn [lex_run lex_step]. by rewrite dec_digit_char by lia. }
  revert z acc. induction fuel as [|fuel IH]; intros z acc Hf Hz; [lia|]. cbn [print_digits].
  pose proof (Z.mod_pos_bound z 10). destruct (z <? 10); [apply Hd; lia|].
  destruct fuel as [|fuel]; [apply Hd; lia|]. apply IH; [lia|]. apply Z.div_pos; lia.
Qed.

Lemma lex_dec z : is_u64 z -> lex_run LNormal (dec z) = Some (LNum false z, []).
Proof.
  intros Hz. unfold dec, print_num. rewrite lex_run_digit_first by (destruct Hz; lia).
  by apply lex_digits.
Qed.

Lemma lex_sdec z :
  - 2 ^ 63 <= z < 2 ^ 63 -> exists neg v, lex_run LNormal (sdec z) = Some (LNum neg v, []) /\ signed neg v = z.
Proof.
  intros Hz. unfold sdec. destruct (z <? 0) eqn:E; boolify.
  - exists true, (- z). split; [|cbn; lia].
    apply (lex_app _ "-" _ (LNum true 0) []); [done|]. apply lex_digits. unfold is_u64. lia.
  - exists false, z. split; [|done]. apply lex_dec. unfold is_u64. lia.
Qed.

Lemma plain_char_lex acc c : plain_char c = true -> lex_step (LStr acc) c = Some (LStr (c :: acc), []).
Proof.
  intros Hc. cbn [lex_step]. rewrite Hc.
  assert (Ascii.eqb c dquote = false) as -> by (unfold plain_char in Hc; by boolify). done.
Qed.

Fixpoint chars (s : string) : list ascii :=
  match s with EmptyString => [] | String c s' => c :: chars s' end.

Lemma string_of_chars s : string_of (chars s) = s.
Proof. induction s as [|c s IH]; [done|]. cbn. unfold string_of in IH. by rewrite IH. Qed.

Lemma lex_plain acc s :
  plain s = true -> lex_run (LStr acc) s = Some (LStr (rev (chars s) ++ acc), []).
Proof.
  revert acc. induction s as [|c s IH]; intros acc Hs; [done|]. cbn [plain] in Hs. boolify.
  cbn [lex_run]. rewrite plain_char_lex, IH by done. cbn [chars rev app]. by rewrite <-app_assoc.
Qed.

(** A plain text between quotes is one string token. *)
Lemma lex_quoted s rest st ts :
  plain s = true -> lex_run LNormal rest = Some (st, ts) ->
  lex_run (LStr []) (String.append s (String dquote rest)) = Some (st, TStr s :: ts).
Proof.
  intros Hs Hr. apply (lex_app _ _ _ _ [] _ (TStr s :: ts) (lex_plain [] s Hs)).
  cbn [lex_run lex_step]. change (Ascii.eqb dquote dquote) with true. cbn match. rewrite Hr.
  by rewrite app_nil_r, rev_involutive, string_of_chars.
Qed.

(** *** What the printers write is plain *)

Lemma plain_app a b : plain (String.append a b) = plain a && plain b.
Proof.
  induction a as [|c a IH]; [done|].
  change (String.append (String c a) b) with (String c (String.append a b)). cbn [plain].
  by rewrite IH, andb_assoc.
Qed.

Lemma plain_digit_char upper d : 0 <= d < 16 -> plain_char (digit_char upper d) = true.
Proof.
  intros Hd. assert (d ∈ seqZ 0 16) as Hin by (apply elem_of_seqZ; lia).
  assert (Forall (fun d => plain_char (digit_char upper d) = true) (seqZ 0 16)) as Hall
    by (destruct upper; repeat constructor).
  rewrite Forall_forall in Hall. by apply Hall.
Qed.

Lemma plain_digits upper base fuel z acc :
  2 <= base <= 16 -> plain acc = true -> plain (print_digits upper base fuel z acc) = true.
Proof.
  intros Hb. revert z acc. induction fuel as [|fuel IH]; intros z acc Ha; [done|].
  cbn [print_digits].
  assert (plain (String (digit_char upper (z mod base)) acc) = true) as Ha'.
  { cbn [plain]. pose proof (Z.mod_pos_bound z base). by rewrite plain_digit_char, Ha by lia. }
  destruct (z <? base); [done|]. by apply IH.
Qed.

Lemma plain_num upper base z : 2 <= base <= 16 -> plain (print_num upper base z) = true.
Proof. intros Hb. by apply plain_digits. Qed.

Lemma plain_hex z : plain (hex z) = true. Proof. apply plain_num. lia. Qed.
Lemma plain_HEX z : plain (HEX z) = true. Proof. apply plain_num. lia. Qed.
Lemma plain_dec z : plain (dec z) = true. Proof. apply plain_num. lia. Qed.

Lemma plain_hexdump bs : plain (hexdump bs) = true.
Proof.
  induction bs as [|b bs IH]; [done|]. cbn [hexdump]. rewrite plain_app, IH, andb_true_r.
  unfold hex2. destruct (b <? 16); [|apply plain_hex]. cbn [plain]. by rewrite plain_hex.
Qed.
