(* ===== verification/Boot.v ===== *)
(** * Bringing a machine up

    What [GuestLoader::loadBytes] does with the resources of the process: on
    every branch the machine holds what was acquired for it, and after a load
    that reports success it has one region of RAM and one vCPU that can be
    run. *)

From S2P Require Import Prelude Host SimKvm Resource Memory Vcpu Machine System Ownership Progress Loader.
From stdpp Require Import base list gmap gmultiset strings.
From Stdlib Require Import ZArith Lia.
Open Scope Z_scope.
Open Scope hv_scope.

Section Boot.

Context {K : Type} `{Kernel K} `{!MmapLaws K} `{!FdLaws K} `{!PageLaws K} `{!ErrnoLaws K} {E : Type}.
Implicit Types (w : World K E) (vm : VirtualMachine).

Abbreviation Tr := (fun _ : World K E => True).

(** A fact about the result, proved of the computation itself. *)
Lemma spec_fact {A} P X (m : M (World K E) A) Y Q (T : A -> Prop) :
  spec P X m Y Q -> (forall w a w', m w = Ok (a, w') -> T a) ->
  spec P X m Y (fun a w => Q a w /\ T a).
Proof.
  intros Hm HT F w Ho HP. destruct (Hm F w Ho HP) as (a & w1 & E1 & Ho1 & Hk1 & HQ).
  exists a, w1. split_and!; eauto.
Qed.

(** An error is an error: its code is not 0. *)
Definition real_error {T} (e : expected T) : Prop :=
  match e with Value _ => True | Unexpected ec => 0 < ec end.

Lemma region_create_error fd slot gpa size flags w e w' :
  MemoryRegion_create fd slot gpa size flags w = Ok (e, w') -> real_error e.
Proof.
  unfold MemoryRegion_create, sys_mmap, sys_madvise, sys_munmap, ioctl, errno, bind, do_syscall, ret.
  cbn -[k_syscall].
  set (r0 := k_syscall (Sys_mmap _ _) _). destruct (kr_ret r0 =? MAP_FAILED) eqn:E0; boolify.
  - intros [= <- _]. cbn. rewrite E0. cbn. apply law_errno. fold r0. by rewrite E0.
  - set (r1 := k_syscall (Sys_madvise _ _) _). set (r2 := k_syscall (Sys_ioctl _ _) _).
    destruct (kr_ret r2 <? 0) eqn:E2; intros [= <- _]; [|done]. cbn.
    rewrite E2. apply law_errno. boolify. done.
Qed.

Lemma vcpu_create_error vm_fd id size w e w' :
  VCpu_create vm_fd id size w = Ok (e, w') -> real_error e.
Proof.
  unfold VCpu_create, sys_mmap, sys_close, ioctl, errno, bind, do_syscall, ret. cbn -[k_syscall].
  set (r0 := k_syscall (Sys_ioctl _ _) _). destruct (kr_ret r0 <? 0) eqn:E0; boolify.
  - intros [= <- _]. cbn. rewrite (proj2 (Z.ltb_lt _ _)) by done. by apply law_errno.
  - set (r1 := k_syscall (Sys_mmap _ _) _). destruct (kr_ret r1 =? MAP_FAILED) eqn:E1; intros [= <- _]; [|done].
    boolify. cbn. rewrite E1. cbn. apply law_errno. fold r1. by rewrite E1.
Qed.

Lemma add_region_error vm gpa size flags w e vm' w' :
  addMemoryRegion vm gpa size flags w = Ok ((e, vm'), w') -> real_error e.
Proof.
  unfold addMemoryRegion. intros Ha. binv. apply region_create_error in E0.
  destruct a; [|by injection Ha as <- _ _].
  cbn in Ha. binv. by injection Ha as <- _ _.
Qed.

Lemma add_vcpu_error vm id w e vm' w' :
  addVCpu vm id w = Ok ((e, vm'), w') -> real_error e.
Proof.
  unfold addVCpu. intros Ha. binv. apply vcpu_create_error in E0.
  destruct a; [|by injection Ha as <- _ _].
  cbn in Ha. binv. by injection Ha as <- _ _.
Qed.

(** ** Stores into a block the process holds *)

Definition block_of (a n : Z) w : Prop :=
  a <> nullptr /\ exists l, h_mem (w_host w) !! a = Some l /\ Z.of_nat (length l) = n.

Lemma stable_block G a n : RMap a ∈ G -> stable G (block_of a n).
Proof. intros Ha w w' Hk (Hn & l & Hl & Hs). split; [done|]. exists l. by rewrite (kp_mem _ _ _ Hk). Qed.

Lemma owned_store w L a l l' :
  owned w L -> h_mem (w_host w) !! a = Some l -> Forall is_byte l' ->
  owned (on_host (fun h => set_mem (<[a := l']> (h_mem h)) h) w) L.
Proof.
  intros [Hh Hu Hb] Hl Hl'. set (w' := on_host _ w).
  assert (forall x, present w' x = present w x) as Hp.
  { intros [fd|b]; [done|]. cbn. apply bool_decide_ext. destruct (decide (b = a)) as [->|].
    - rewrite lookup_insert_eq, Hl. split; eauto.
    - by rewrite lookup_insert_ne. }
  split; [intros x; rewrite Hp; apply Hh| |by apply map_Forall_insert_2].
  intros x. rewrite Hp. intros Hx. exact (Hu x Hx).
Qed.

Lemma spec_store a n off bs :
  0 <= off -> off + Z.of_nat (length bs) <= n -> Forall is_byte bs ->
  spec (block_of a n) {[+ RMap a +]} (mem_store a off bs) (fun _ => {[+ RMap a +]})
       (fun _ => block_of a n).
Proof.
  intros Hoff Hfit Hbs F w Ho (Hn & l & Hl & Hs).
  do 2 eexists. split; [apply (mem_store_ok _ l); (done || lia)|].
  pose proof (ow_bytes _ _ Ho a l Hl) as Hlb.
  split; [by eapply owned_store; [..|apply Forall_splice]|]. split.
  - split; [constructor|done| |done]. intros b Hb. cbn. rewrite lookup_insert_ne; [done|].
    intros <-. by apply (owned_unique w (RMap a) F) in Ho.
  - split; [done|]. eexists. split; [apply lookup_insert_eq|]. rewrite length_splice; lia.
Qed.

(** ** Loading a flat image in real mode *)

(** What the machine is after a load that reports success. *)
Definition booted vm size (vm' : VirtualMachine) w : Prop :=
  exists v r, vm_vcpus vm' = [v] /\ vm_memoryRegions vm' = [r] /\
    mr_size r = size /\ block_of (mr_hostAddr r) size w /\
    vc_runPage v <> nullptr /\ k_page (h_kern (w_host w)) (vc_fd v) (vc_runPage v) /\
    exists page, h_mem (w_host w) !! vc_runPage v = Some page /\
      Z.of_nat (length page) = u64 (vm_vcpuMmapSize vm).

Lemma ioctl_neutral fd req :
  yields_fd (Sys_ioctl fd req) = false -> neutral (Sys_ioctl fd req).
Proof. by split. Qed.

(** A call whose result is returned as an error code. *)
Lemma spec_ioctl_code X (P : World K E -> Prop) fd req :
  yields_fd (Sys_ioctl fd req) = false -> stable X P ->
  spec P X (let* (r, _) := ioctl fd req in if r <? 0 then errno else ret 0) (fun _ => X)
       (fun _ => P).
Proof.
  intros Hy HP. apply spec_step; [by apply spec_ioctl|done|]. intros [r o]. destruct (r <? 0).
  - intros F w Ho Hw. do 2 eexists. split; [reflexivity|]. split; [done|]. split; [apply kept_refl|done].
  - by apply spec_done.
Qed.

Lemma spec_setup_real_mode X (P : World K E -> Prop) v ip :
  stable X P ->
  spec P X (setupRealModeVCpu v ip) (fun _ => X) (fun _ => P).
Proof.
  intros HP. unfold setupRealModeVCpu, VCpu_getSregs.
  apply (spec_bind _ _ _ (fun _ => X) (fun _ => P)).
  - apply spec_step; [by apply spec_ioctl|done|]. intros [r o]. destruct (r <? 0).
    + apply spec_step; [apply spec_errno|done|]. intros e. by apply spec_done.
    + by apply spec_done.
  - intros [s|e]; [|by apply spec_done].
    eapply spec_bind; [by apply (spec_ioctl_code X P)|]. intros ec. cbn beta.
    destruct (ec_failed ec); [by apply spec_done|]. by apply spec_ioctl_code.
Qed.

Lemma spec_pre {A} P P' X (m : M (World K E) A) Y Q :
  spec P' X m Y Q -> (forall w, P w -> P' w) -> spec P X m Y Q.
Proof. intros Hm HP. by eapply spec_conseq. Qed.

Lemma spec_exists {A T} (P : T -> World K E -> Prop) X (m : M (World K E) A) Y Q :
  (forall x, spec (P x) X m Y Q) -> spec (fun w => exists x, P x w) X m Y Q.
Proof. intros Hm F w Ho [x Hx]. by eapply Hm. Qed.

Lemma spec_pure {A} (T : Prop) P X (m : M (World K E) A) Y Q :
  (T -> spec P X m Y Q) -> spec (fun w => T /\ P w) X m Y Q.
Proof. intros Hm F w Ho [Ht Hw]. by apply Hm. Qed.

Lemma real_error_failed ec : 0 < ec -> ec_failed ec = true.
Proof. intros Hec. unfold ec_failed. by rewrite (proj2 (Z.eqb_neq _ _)) by lia. Qed.

(** The copy of the image into the region. *)
Lemma spec_region_write ndebug r off bs :
  0 <= off -> off + Z.of_nat (length bs) <= mr_size r < 2 ^ 64 -> Forall is_byte bs ->
  spec (block_of (mr_hostAddr r) (mr_size r)) {[+ RMap (mr_hostAddr r) +]}
       (MemoryRegion_write ndebug r off bs) (fun _ => {[+ RMap (mr_hostAddr r) +]})
       (fun _ => block_of (mr_hostAddr r) (mr_size r)).
Proof.
  intros Hoff Hfit Hbs. unfold MemoryRegion_write, cassert.
  rewrite u64_small by (unfold is_u64; lia). rewrite (proj2 (Z.leb_le _ _)), orb_true_r by lia.
  apply spec_store; [done|lia|done].
Qed.

Lemma stable_fresh_vcpu G id sz v :
  0 <= vc_fd v -> 0 < vc_runPage v -> held v ⊆ G -> stable (E := E) G (fresh_vcpu id sz (Value v)).
Proof.
  intros Hfd Hrun HG w w' Hk (E1 & ? & ? & Hm & Hp).
  assert (held v = {[+ RMap (vc_runPage v) +]} ⊎ {[+ RFd (vc_fd v) +]}) as Hheld.
  { unfold held, vcpu_holder. by rewrite map_held_pos, fd_held_pos. }
  rewrite Hheld in HG. split_and!; try done.
  - rewrite (kp_mem _ _ _ Hk); [done|]. multiset_solver.
  - apply (kp_page _ _ _ Hk); [multiset_solver..|done].
Qed.

(** The vCPU part of the load: a machine with one region [r] gets its vCPU. *)
Lemma spec_boot_vcpu vm r size ip :
  vm_memoryRegions vm = [r] -> vm_vcpus vm = [] -> mr_size r = size -> 0 < mr_hostAddr r ->
  spec (block_of (mr_hostAddr r) size) (held vm)
       (let* (vcpuResult, vm2) := addVCpu vm 0 in
        match vcpuResult with
        | Unexpected ec => ret (ec, vm2)
        | Value vi =>
            let* vcpu := vcpu_at vm2 vi in
            let* ec := setupRealModeVCpu vcpu ip in
            ret (ec, vm2)
        end)
       (fun p => held p.2) (fun p w => ec_failed p.1 = false -> booted vm size p.2 w).
Proof.
  intros Hr Hv Hs Ha.
  assert (stable (held vm) (block_of (mr_hostAddr r) size)) as Hst.
  { apply stable_block. rewrite vm_held_eq, Hr. cbn [all_held].
    assert (held r = {[+ RMap (mr_hostAddr r) +]}) as -> by (by apply map_held_pos). multiset_solver. }
  eapply spec_bind.
  { eapply (spec_fact _ _ _ _ _ (fun p => real_error p.1)); [by apply spec_add_vcpu_beside|].
    intros w [e vm'] w' E1. by eapply add_vcpu_error. }
  intros [[vi|ec] vm2]; cbn beta.
  2: { apply spec_done; [done|]. intros w [_ He]. cbn [fst]. by rewrite real_error_failed. }
  eapply spec_pre with (P' := fun w => exists v, (vi = 0%nat /\ vm2 = mk_VirtualMachine (vm_fd vm) (vm_vcpuMmapSize vm) (vm_nextSlot vm) [r] [v]) /\
       (fresh_vcpu 0 (vm_vcpuMmapSize vm) (Value v) w /\ block_of (mr_hostAddr r) size w)).
  2: { intros w [[Hadd Hb] _]. unfold added_vcpu in Hadd. cbn [fst snd] in Hadd.
       rewrite Hv, Hr in Hadd. destruct Hadd as (v & -> & Hf & ->). by exists v. }
  apply spec_exists. intros v. apply spec_pure. intros [-> ->].
  set (vm2 := mk_VirtualMachine _ _ _ _ _).
  assert (held vm2 = held vm ⊎ held v) as Heq.
  { rewrite !vm_held_eq, Hr, Hv. cbn [vm2 vm_fd vm_vcpus vm_memoryRegions all_held]. multiset_solver. }
  match goal with |- spec ?P ?X _ ?Y ?Q =>
    change (spec P X (bind (setupRealModeVCpu (E := E) v ip) (fun ec => ret (ec, vm2))) Y Q) end.
  set (R := fun w : World K E => fresh_vcpu 0 (vm_vcpuMmapSize vm) (Value v) w /\ block_of (mr_hostAddr r) size w).
  eapply spec_pre with (P' := fun w => (0 <= vc_fd v /\ 0 < vc_runPage v) /\ R w).
  2: { intros w Hw. split; [|exact Hw]. destruct Hw as [(_ & ? & ? & _) _]. done. }
  apply spec_pure. intros [Hfd Hrun].
  assert (stable (held vm2) R) as HR.
  { rewrite Heq. apply stable_and; [apply stable_fresh_vcpu; (done || multiset_solver)|].
    intros w w' Hk. apply Hst. eapply kept_sub; [|exact Hk]. multiset_solver. }
  eapply spec_bind; [by apply (spec_setup_real_mode (held vm2) R)|].
  intros ec. apply spec_done; [done|]. intros w [(E1 & _ & _ & Hm & Hp) Hb] _.
  exists v, r. split_and!; try done; [unfold nullptr; lia|]. eexists. split; [exact Hm|].
  rewrite length_replicate. pose proof (u64_range (vm_vcpuMmapSize vm)) as Hrg. unfold is_u64 in Hrg. lia.
Qed.

Lemma spec_load_bytes ndebug vm code addr size :
  vm_memoryRegions vm = [] -> vm_vcpus vm = [] ->
  0 <= addr -> addr + Z.of_nat (length code) < 2 ^ 64 -> 0 <= size < 2 ^ 64 -> Forall is_byte code ->
  spec Tr (held vm) (loadBytes ndebug vm code addr size) (fun p => held p.2)
       (fun p w => ec_failed p.1 = false -> booted vm size p.2 w).
Proof.
  intros Hr Hv Ha Hlen Hsz Hcode. unfold loadBytes. eapply spec_bind.
  { eapply (spec_fact _ _ _ _ _ (fun p => real_error p.1)); [by apply spec_add_region|].
    intros w [e vm'] w' E1. by eapply add_region_error. }
  intros [[ri|ec] vm1]; cbn beta.
  2: { apply spec_done; [done|]. intros w [_ He]. cbn [fst]. by rewrite real_error_failed. }
  eapply spec_pre with (P' := fun w => exists r, (ri = 0%nat /\ mr_size r = size /\ 0 < mr_hostAddr r /\
       vm1 = mk_VirtualMachine (vm_fd vm) (vm_vcpuMmapSize vm) (u32 (vm_nextSlot vm + 1)) [r] []) /\
       block_of (mr_hostAddr r) size w).
  2: { intros w [Hadd _]. unfold added_region in Hadd. cbn [fst snd] in Hadd.
       rewrite Hv, Hr in Hadd. destruct Hadd as (r & -> & (E1 & Hpos & Hm) & ->). exists r.
       split; [by rewrite E1|]. split; [unfold nullptr; lia|]. eexists. split; [exact Hm|].
       rewrite length_replicate. lia. }
  apply spec_exists. intros r. apply spec_pure. intros (-> & Hs & Hpos & ->).
  set (vm1 := mk_VirtualMachine _ _ _ _ _).
  match goal with |- spec ?P ?X (bind _ ?k) ?Y ?Q => change (spec P X (k r) Y Q) end. cbn beta.
  rewrite u64_small by (unfold is_u64; lia). rewrite Hs.
  destruct (size <? addr + _) eqn:Efit; boolify.
  { by apply spec_done. }
  assert (held vm1 = {[+ RMap (mr_hostAddr r) +]} ⊎ fd_held (vm_fd vm)) as Heq.
  { rewrite vm_held_eq. cbn [vm1 vm_fd vm_vcpus vm_memoryRegions all_held].
    assert (held r = {[+ RMap (mr_hostAddr r) +]}) as -> by (by apply map_held_pos). multiset_solver. }
  apply (spec_bind _ _ _ (fun _ => held vm1) (fun _ => block_of (mr_hostAddr r) size)).
  - cbn [snd]. rewrite Heq, <-Hs. apply spec_frame, spec_region_write; [done|lia|done].
  - intros []. eapply spec_conseq; [by apply (spec_boot_vcpu vm1 r size)|done..].
Qed.

End Boot.
