(* ===== verification/Plans.v ===== *)
(** * What a load asks of the kernel

    A plan is a sequence of system calls in which each call depends on the
    answers before it: one whose failure is ignored ([Tell]), or one whose failure
    is taken care of ([Call]).  Run on a kernel it says which calls are made, how
    they end and in which state they leave the kernel.  The plan of a load is
    written from what a load is to do (memory, then a vCPU, then its registers,
    each failure reported with the error of the call that failed, after what that
    call had prepared is given back); this file proves that the parts of the
    loader follow it. *)

From S2P Require Import Prelude Host SimKvm Resource Memory Vcpu Machine Loader.
From stdpp Require Import base list gmap strings.
From Stdlib Require Import ZArith Lia.
Open Scope Z_scope.
Open Scope hv_scope.

Inductive plan (A : Type) :=
| Done (a : A)
| Tell (c : syscall) (p : plan A)
| Call (c : syscall) (failed : Z -> plan A) (next : Z -> sys_out -> plan A).
Arguments Done {A} _.
Arguments Tell {A} _ _.
Arguments Call {A} _ _ _.

(** The end of a plan: its result, the calls that were made, the kernel. *)
Fixpoint plan_end {A K} `{Kernel K} (p : plan A) (k : K) : A * list syscall * K :=
  match p with
  | Done a => (a, [], k)
  | Tell c p' =>
      let '(a, cs, k') := plan_end p' (kr_kern (k_syscall c k)) in (a, c :: cs, k')
  | Call c failed next =>
      let r := k_syscall c k in
      let '(a, cs, k') :=
        if kr_ret r <? 0 then plan_end (failed (kr_errno r)) (kr_kern r)
        else plan_end (next (kr_ret r) (kr_out r)) (kr_kern r) in
      (a, c :: cs, k')
  end.

(** ** The plan of a load *)

(** How far a load gets, with the address of the memory and the descriptor and
    run page of the vCPU as far as there are any. *)
Inductive load_stage :=
| NoMemory
| TooLarge (ram : Z)
| NoVCpu (ram : Z)
| Started (ram fd page : Z)
| Overrun.

Definition ram_plan vm (size : Z) (next : Z -> plan (load_stage * Z)) : plan (load_stage * Z) :=
  Call (Sys_mmap size (-1)) (fun e => Done (NoMemory, e)) (fun a _ =>
  Tell (Sys_madvise a size)
  (Call (Sys_ioctl (vm_fd vm) (KVM_SET_USER_MEMORY_REGION (mk_umr (vm_nextSlot vm) 0 0 size a)))
    (fun e => Tell (Sys_munmap a size) (Done (NoMemory, e)))
    (fun _ _ => next a))).

Definition vcpu_plan vm (ram : Z) (next : Z -> Z -> plan (load_stage * Z)) : plan (load_stage * Z) :=
  Call (Sys_ioctl (vm_fd vm) (KVM_CREATE_VCPU 0)) (fun e => Done (NoVCpu ram, e)) (fun fd _ =>
  Call (Sys_mmap (u64 (vm_vcpuMmapSize vm)) fd)
    (fun e => Tell (Sys_close fd) (Done (NoVCpu ram, e)))
    (fun page _ => next fd page)).

(** The registers: read the special ones, set them changed by [mode], set the
    general ones. *)
Definition registers_plan (st : load_stage) (fd : Z) (mode : kvm_sregs -> kvm_sregs) (regs : kvm_regs) : plan (load_stage * Z) :=
  let stop e := Done (st, e) in
  Call (Sys_ioctl fd KVM_GET_SREGS) stop (fun _ o =>
  Call (Sys_ioctl fd (KVM_SET_SREGS (mode (match o with OutSregs s => s | _ => zero_sregs end)))) stop (fun _ _ =>
  Call (Sys_ioctl fd (KVM_SET_REGS regs)) stop (fun _ _ => Done (st, 0)))).

(** The load of an image of [len] bytes, and what comes after the vCPU. *)
Definition load_plan vm (size addr len : Z) (start : Z -> Z -> Z -> plan (load_stage * Z)) : plan (load_stage * Z) :=
  ram_plan vm size (fun a =>
    if size <? addr + len then Done (TooLarge a, ENOMEM)
    else vcpu_plan vm a (fun fd page => start a fd page)).

Definition real_plan (ip a fd page : Z) : plan (load_stage * Z) :=
  registers_plan (Started a fd page) fd real_mode_sregs (start_regs ip 0xFFF0).

(** A flat binary: with memory up to 0x2000 there is no place for the page
    tables, with less than 0x5000 they do not fit. *)
Definition flat_plan (size entry a fd page : Z) : plan (load_stage * Z) :=
  if size <=? 0x2000 then Done (Started a fd page, ENONET)
  else if size <? 0x5000 then Done (Overrun, 0)
  else registers_plan (Started a fd page) fd (fun s => long_mode_sregs s pgtableBase) (start_regs entry 0x200000).

(** ** Following a plan *)

Section Following.

Context {K : Type} `{Kernel K} {E : Type}.
Implicit Types (w : World K E).

(** From the plan [p] at [w] to what is left of it, [p'], at [w']: the calls in
    between are those of the plan. *)
Definition leads {A} (p : plan A) w (p' : plan A) w' : Prop :=
  exists cs, h_trace (w_host w') = h_trace (w_host w) ++ cs /\
    plan_end p (h_kern (w_host w)) =
    let '(a, cs', k) := plan_end p' (h_kern (w_host w')) in (a, cs ++ cs', k).

Lemma leads_refl {A} (p : plan A) w : leads p w p w.
Proof.
  exists []. split; [by rewrite app_nil_r|]. by destruct (plan_end p _) as [[a cs] k].
Qed.

Lemma leads_trans {A} (p p1 p2 : plan A) w w1 w2 : leads p w p1 w1 -> leads p1 w1 p2 w2 -> leads p w p2 w2.
Proof.
  intros (cs1 & Ht1 & E1) (cs2 & Ht2 & E2). exists (cs1 ++ cs2). split; [by rewrite Ht2, Ht1, app_assoc|].
  rewrite E1, E2. destruct (plan_end p2 _) as [[a cs] k]. by rewrite app_assoc.
Qed.

(** A step that makes no call. *)
Lemma leads_same {A} (p : plan A) w w' :
  h_kern (w_host w') = h_kern (w_host w) -> h_trace (w_host w') = h_trace (w_host w) -> leads p w p w'.
Proof.
  intros Hk Ht. exists []. rewrite Hk, Ht, app_nil_r. split; [done|]. by destruct (plan_end p _) as [[a cs] k].
Qed.

Lemma leads_tell {A} c (p : plan A) w : leads (Tell c p) w p (after_call c w).
Proof. exists [c]. split; [done|]. cbn. by destruct (plan_end p _) as [[a cs] k]. Qed.

Lemma leads_fails {A} c failed (next : Z -> sys_out -> plan A) w :
  let r := k_syscall c (h_kern (w_host w)) in
  kr_ret r < 0 -> leads (Call c failed next) w (failed (kr_errno r)) (after_call c w).
Proof.
  intros r Hr. exists [c]. split; [done|]. cbn. fold r. rewrite (proj2 (Z.ltb_lt _ _) Hr).
  by destruct (plan_end _ _) as [[a cs] k].
Qed.

Lemma leads_works {A} c failed (next : Z -> sys_out -> plan A) w :
  let r := k_syscall c (h_kern (w_host w)) in
  0 <= kr_ret r -> leads (Call c failed next) w (next (kr_ret r) (kr_out r)) (after_call c w).
Proof.
  intros r Hr. exists [c]. split; [done|]. cbn. fold r. rewrite (proj2 (Z.ltb_ge _ _) Hr).
  by destruct (plan_end _ _) as [[a cs] k].
Qed.

(** A plan followed to its end. *)
Lemma leads_end {A} (p : plan A) a w w' :
  leads p w (Done a) w' ->
  exists cs, plan_end p (h_kern (w_host w)) = (a, cs, h_kern (w_host w')) /\
    h_trace (w_host w') = h_trace (w_host w) ++ cs.
Proof. intros (cs & Ht & E1). exists cs. split; [|done]. by rewrite E1; cbn; rewrite app_nil_r. Qed.

End Following.

(** ** The parts of the loader *)

(** The region and the vCPU a load adds. *)
Definition guest_ram vm (size a : Z) : MemoryRegion := mk_MemoryRegion (vm_fd vm) (vm_nextSlot vm) 0 size a.

Definition new_vcpu vm (fd page : Z) : VCpu := mk_VCpu fd 0 page (u64 (vm_vcpuMmapSize vm)).

Definition with_region vm (r : MemoryRegion) : VirtualMachine :=
  mk_VirtualMachine (vm_fd vm) (vm_vcpuMmapSize vm) (u32 (vm_nextSlot vm + 1))
                    (vm_memoryRegions vm ++ [r]) (vm_vcpus vm).

Definition with_vcpu vm (v : VCpu) : VirtualMachine :=
  mk_VirtualMachine (vm_fd vm) (vm_vcpuMmapSize vm) (vm_nextSlot vm)
                    (vm_memoryRegions vm) (vm_vcpus vm ++ [v]).

Section Parts.

Context {K : Type} `{Kernel K} `{!MmapLaws K} `{!ErrnoLaws K} {E : Type}.
Implicit Types (w : World K E).

(** The calls as the wrappers make them. *)
Lemma mmap_after len fd w :
  let c := Sys_mmap len fd in
  sys_mmap len fd w = Ok (kr_ret (k_syscall c (h_kern (w_host w))), after_call c w).
Proof. done. Qed.

Lemma ioctl_after fd req w :
  let c := Sys_ioctl fd req in
  ioctl fd req w = Ok ((kr_ret (k_syscall c (h_kern (w_host w))), kr_out (k_syscall c (h_kern (w_host w)))), after_call c w).
Proof. done. Qed.

(** [errno] after a call that failed. *)
Lemma errno_after c w :
  let r := k_syscall c (h_kern (w_host w)) in
  kr_ret r < 0 -> errno (after_call c w) = Ok (kr_errno r, after_call c w) /\ 0 < kr_errno r.
Proof.
  intros r Hr. split; [|by apply law_errno]. unfold errno, after_call. cbn. fold r.
  by rewrite (proj2 (Z.ltb_lt _ _) Hr).
Qed.

(** [mmap] fails with MAP_FAILED, and with nothing else that is negative. *)
Lemma mmap_failed len fd (k : K) :
  let r := kr_ret (k_syscall (Sys_mmap len fd) k) in
  r = MAP_FAILED /\ r < 0 \/ (r =? MAP_FAILED) = false /\ 0 <= r.
Proof.
  intros r. destruct (law_mmap k len fd) as [Hr|[Hr _]]; fold r in Hr.
  - left. split; [done|]. by rewrite Hr.
  - right. split; [apply Z.eqb_neq; unfold MAP_FAILED; lia|lia].
Qed.

(** The world [w'] is one call, or two, after [w]. *)
Ltac call_ok E := rewrite (bind_Ok _ _ _ _ _ E); cbn iota beta.

Lemma create_leads vm size next w :
  exists res w', MemoryRegion_create (vm_fd vm) (vm_nextSlot vm) 0 size 0 w = Ok (res, w') /\
  match res with
  | Unexpected ec => 0 < ec /\ leads (ram_plan vm size next) w (Done (NoMemory, ec)) w'
  | Value r => exists a, r = guest_ram vm size a /\ leads (ram_plan vm size next) w (next a) w'
  end.
Proof.
  unfold MemoryRegion_create, ram_plan. set (c1 := Sys_mmap size (-1)). call_ok (mmap_after size (-1) w). fold c1.
  destruct (mmap_failed size (-1) (h_kern (w_host w))) as [[Hm Hlt]|[Hm Hge]]; fold c1 in Hm.
  { rewrite (proj2 (Z.eqb_eq _ _) Hm). destruct (errno_after c1 w Hlt) as [Ee Hpos]. call_ok Ee.
    do 2 eexists. split; [reflexivity|]. split; [done|]. exact (leads_fails c1 _ _ w Hlt). }
  rewrite Hm. fold c1 in Hge. set (a := kr_ret (k_syscall c1 _)) in *. 
  set (c3 := Sys_ioctl (vm_fd vm) (KVM_SET_USER_MEMORY_REGION (mk_umr (vm_nextSlot vm) 0 0 size a))).
  set (w2 := after_call (Sys_madvise a size) (after_call c1 w)).
  match goal with |- exists res w', _ /\ _ => set (p := Call c1 _ _) end.
  assert (leads p w (Call c3 (fun e => Tell (Sys_munmap a size) (Done (NoMemory, e))) (fun _ _ => next a)) w2) as L2.
  { eapply leads_trans; [exact (leads_works c1 _ _ w Hge)|apply leads_tell]. }
  assert (sys_madvise a size (after_call c1 w) = Ok (tt, w2)) as E2 by done. call_ok E2.
  call_ok (ioctl_after (vm_fd vm) (KVM_SET_USER_MEMORY_REGION (mk_umr (vm_nextSlot vm) 0 0 size a)) w2). fold c3.
  destruct (kr_ret (k_syscall c3 (h_kern (w_host w2))) <? 0) eqn:E3; boolify.
  - destruct (errno_after c3 w2 E3) as [Ee Hpos]. call_ok Ee.
    exists (Unexpected (kr_errno (k_syscall c3 (h_kern (w_host w2))))), (after_call (Sys_munmap a size) (after_call c3 w2)).
    split; [done|]. split; [done|]. eapply leads_trans; [exact L2|].
    eapply leads_trans; [exact (leads_fails c3 _ _ w2 E3)|apply leads_tell].
  - do 2 eexists. split; [reflexivity|]. exists a. split; [done|]. eapply leads_trans; [exact L2|].
    exact (leads_works c3 _ _ w2 E3).
Qed.

Lemma region_leads vm size next w :
  exists res vm' w', addMemoryRegion vm 0 size 0 w = Ok ((res, vm'), w') /\
  match res with
  | Unexpected ec => 0 < ec /\ vm' = vm /\ leads (ram_plan vm size next) w (Done (NoMemory, ec)) w'
  | Value i =>
      exists a, i = length (vm_memoryRegions vm) /\ vm' = with_region vm (guest_ram vm size a) /\
        leads (ram_plan vm size next) w (next a) w'
  end.
Proof.
  destruct (create_leads vm size next w) as ([r|ec] & w' & E1 & Hres); unfold addMemoryRegion; call_ok E1.
  - destruct Hres as (a & -> & L). do 3 eexists. split; [reflexivity|]. by exists a.
  - do 3 eexists. split; [reflexivity|]. naive_solver.
Qed.

Lemma vcpu_leads vm a next w :
  exists res vm' w', addVCpu vm 0 w = Ok ((res, vm'), w') /\
  match res with
  | Unexpected ec => 0 < ec /\ vm' = vm /\ leads (vcpu_plan vm a next) w (Done (NoVCpu a, ec)) w'
  | Value i =>
      exists fd page, i = length (vm_vcpus vm) /\ vm' = with_vcpu vm (new_vcpu vm fd page) /\
        leads (vcpu_plan vm a next) w (next fd page) w'
  end.
Proof.
  unfold addVCpu, vcpu_plan. set (c1 := Sys_ioctl (vm_fd vm) (KVM_CREATE_VCPU 0)).
  match goal with |- context [leads ?q w _ _] => set (p := q) end.
  enough (exists res w', VCpu_create (vm_fd vm) 0 (vm_vcpuMmapSize vm) w = Ok (res, w') /\
    match res with
    | Unexpected ec => 0 < ec /\ leads p w (Done (NoVCpu a, ec)) w'
    | Value v => exists fd page, v = new_vcpu vm fd page /\ leads p w (next fd page) w'
    end) as (res & w' & E1 & Hres).
  { call_ok E1. destruct res as [v|ec].
    - destruct Hres as (fd & page & -> & L). do 3 eexists. split; [reflexivity|]. by exists fd, page.
    - do 3 eexists. split; [reflexivity|]. naive_solver. }
  unfold VCpu_create. call_ok (ioctl_after (vm_fd vm) (KVM_CREATE_VCPU 0) w). fold c1.
  set (fd := kr_ret (k_syscall c1 _)). destruct (fd <? 0) eqn:E1; boolify.
  { destruct (errno_after c1 w E1) as [Ee Hpos]. call_ok Ee. do 2 eexists. split; [reflexivity|]. split; [done|].
    exact (leads_fails c1 _ _ w E1). }
  set (c2 := Sys_mmap (u64 (vm_vcpuMmapSize vm)) fd). set (w1 := after_call c1 w).
  assert (leads p w (Call c2 (fun e => Tell (Sys_close fd) (Done (NoVCpu a, e))) (fun page _ => next fd page)) w1) as L1
    by exact (leads_works c1 _ _ w E1).
  call_ok (mmap_after (u64 (vm_vcpuMmapSize vm)) fd w1). fold c2.
  destruct (mmap_failed (u64 (vm_vcpuMmapSize vm)) fd (h_kern (w_host w1))) as [[Hm Hlt]|[Hm Hge]]; fold c2 in Hm.
  - rewrite (proj2 (Z.eqb_eq _ _) Hm). destruct (errno_after c2 w1 Hlt) as [Ee Hpos]. call_ok Ee.
    exists (Unexpected (kr_errno (k_syscall c2 (h_kern (w_host w1))))), (after_call (Sys_close fd) (after_call c2 w1)).
    split; [done|]. split; [done|]. eapply leads_trans; [exact L1|].
    eapply leads_trans; [exact (leads_fails c2 _ _ w1 Hlt)|apply leads_tell].
  - rewrite Hm. do 2 eexists. split; [reflexivity|]. do 2 eexists. split; [reflexivity|].
    eapply leads_trans; [exact L1|exact (leads_works c2 _ _ w1 Hge)].
Qed.

(** A register call whose failure is returned. *)
Lemma code_leads fd req stop (next : plan (load_stage * Z)) w :
  exists ec w', bind (ioctl fd req) (fun '(r, _) => if r <? 0 then errno else ret 0) w = Ok (ec, w') /\
    h_mem (w_host w') = h_mem (w_host w) /\
    (0 < ec /\ leads (Call (Sys_ioctl fd req) stop (fun _ _ => next)) w (stop ec) w' \/
     ec = 0 /\ leads (Call (Sys_ioctl fd req) stop (fun _ _ => next)) w next w').
Proof.
  call_ok (ioctl_after fd req w). set (c := Sys_ioctl fd req). destruct (kr_ret (k_syscall c _) <? 0) eqn:E1; boolify.
  - destruct (errno_after c w E1) as [Ee Hpos]. do 2 eexists. split; [exact Ee|]. split; [done|]. left.
    split; [done|]. exact (leads_fails c _ _ w E1).
  - do 2 eexists. split; [reflexivity|]. split; [done|]. right. split; [done|]. exact (leads_works c _ _ w E1).
Qed.

(** Both register set-ups are an [install]. *)
Lemma install_leads st v mode regs w :
  exists ec w', install mode regs v w = Ok (ec, w') /\ h_mem (w_host w') = h_mem (w_host w) /\
    leads (registers_plan st (vc_fd v) mode regs) w (Done (st, ec)) w'.
Proof.
  unfold install, registers_plan. set (c1 := Sys_ioctl (vc_fd v) KVM_GET_SREGS).
  match goal with |- context [leads ?q w _ _] => set (p := q) end.
  set (s := match kr_out (k_syscall c1 (h_kern (w_host w))) with OutSregs s => s | _ => zero_sregs end).
  assert (VCpu_getSregs v w = if kr_ret (k_syscall c1 (h_kern (w_host w))) <? 0
            then bind errno (fun e => ret (Unexpected e)) (after_call c1 w) else Ok (Value s, after_call c1 w)) as E0.
  { unfold VCpu_getSregs. call_ok (ioctl_after (vc_fd v) KVM_GET_SREGS w). fold c1. by destruct (_ <? 0). }
  destruct (kr_ret (k_syscall c1 _) <? 0) eqn:E1; boolify.
  { destruct (errno_after c1 w E1) as [Ee _]. rewrite (bind_Ok _ _ _ _ _ Ee) in E0. call_ok E0.
    do 2 eexists. split; [reflexivity|]. split; [done|]. exact (leads_fails c1 _ _ w E1). }
  call_ok E0.
  set (w1 := after_call c1 w). set (last := Call (Sys_ioctl (vc_fd v) (KVM_SET_REGS regs)) (fun e => Done (st, e)) (fun _ _ => Done (st, 0))).
  assert (leads p w (Call (Sys_ioctl (vc_fd v) (KVM_SET_SREGS (mode s))) (fun e => Done (st, e)) (fun _ _ => last)) w1)
    as L1 by exact (leads_works c1 _ _ w E1).
  destruct (code_leads (vc_fd v) (KVM_SET_SREGS (mode s)) (fun e => Done (st, e)) last w1)
    as (ec & w2 & E2 & M2 & Hcase). unfold VCpu_setSregs. call_ok E2.
  destruct Hcase as [[Hec L2]|[-> L2]].
  { unfold ec_failed. rewrite (proj2 (Z.eqb_neq _ _)) by lia. do 2 eexists. split; [reflexivity|].
    split; [done|]. by eapply leads_trans. }
  cbn [ec_failed Z.eqb negb].
  destruct (code_leads (vc_fd v) (KVM_SET_REGS regs) (fun e => Done (st, e)) (Done (st, 0)) w2)
    as (ec & w3 & E3 & M3 & Hcase). exists ec, w3. split; [exact E3|]. split; [by rewrite M3, M2|].
  eapply leads_trans; [exact L1|]. eapply leads_trans; [exact L2|]. by destruct Hcase as [[_ L3]|[-> L3]].
Qed.

End Parts.
