(* ===== verification/LoadErrors.v ===== *)
(** * Every exit of the two loads

    A load can fail at several points, and each leaves the machine and the
    memory of the process in a state of its own ([load_exit]).  Which one it is,
    the calls made until then and the error code are those of the plan of the load
    (Plans).  The one guard of
    the functions, on the size of the image, is computed modulo 2^64: without
    the assumption that the end of the image does not pass 2^64 it accepts
    images that do not fit. *)

From S2P Require Import Prelude Host SimKvm Memory Vcpu Machine Loader Plans.
From stdpp Require Import base list gmap strings.
From Stdlib Require Import ZArith Lia.
Open Scope Z_scope.
Open Scope hv_scope.

(** The memory of the process: every block there was, and the region's bytes. *)
Definition ram_holds (m m' : memory) (a : Z) (bytes : list Z) : Prop :=
  a <> nullptr /\ m !! a = None /\ m' !! a = Some bytes /\
  forall b l, m !! b = Some l -> m' !! b = Some l.

(** What a load of [code] at [addr] leaves, by how far it got: the machine and the
    memory.  Which stage is reached, with which addresses and descriptors and with
    which error code, is what the plan says.  With a vCPU, [final] relates the image in
    memory, the error code and the memory the set-up leaves. *)
Inductive load_exit vm (code : list Z) (addr size : Z) (m : memory)
  (final : list Z -> Z -> list Z -> Prop) : load_stage -> Z -> VirtualMachine -> memory -> Prop :=
| exit_no_memory ec :
    0 < ec -> load_exit vm code addr size m final NoMemory ec vm m
| exit_too_large a m' :
    size < addr + Z.of_nat (length code) ->
    ram_holds m m' a (replicate (Z.to_nat size) 0) ->
    load_exit vm code addr size m final (TooLarge a) ENOMEM (with_region vm (guest_ram vm size a)) m'
| exit_no_vcpu a m' ec :
    addr + Z.of_nat (length code) <= size -> 0 < ec ->
    ram_holds m m' a (splice (Z.to_nat addr) code (replicate (Z.to_nat size) 0)) ->
    load_exit vm code addr size m final (NoVCpu a) ec (with_region vm (guest_ram vm size a)) m'
| exit_vcpu a fd page m' ec bytes :
    addr + Z.of_nat (length code) <= size ->
    final (splice (Z.to_nat addr) code (replicate (Z.to_nat size) 0)) ec bytes ->
    ram_holds m m' a bytes ->
    load_exit vm code addr size m final (Started a fd page) ec
      (with_vcpu (with_region vm (guest_ram vm size a)) (new_vcpu vm fd page)) m'.

(** Without page tables memory holds the image. *)
Definition image_only (image : list Z) (_ : Z) (bytes : list Z) : Prop := bytes = image.

(** With page tables: no region has an address 0x2000, or the tables are
    written over the image. *)
Definition image_and_tables (size : Z) (image : list Z) (ec : Z) (bytes : list Z) : Prop :=
  (size <= 0x2000 /\ ec = ENONET /\ bytes = image) \/
  (0x5000 <= size /\ bytes = splice (Z.to_nat 0x2000) (words_bytes (table_words 0x2000)) image).

Definition final_of (params : GuestLoadParams) : list Z -> Z -> list Z -> Prop :=
  match gp_mode params with
  | FlatBinary => image_and_tables (gp_memorySize params)
  | RealMode16 => image_only
  end.

(** An exit before there is a vCPU. *)
Lemma early_exit vm code addr size m final st ec vm' m' :
  load_exit vm code addr size m (fun _ _ _ => False) st ec vm' m' ->
  load_exit vm code addr size m final st ec vm' m'.
Proof. intros []; [by apply exit_no_memory|by apply exit_too_large|by apply exit_no_vcpu|done]. Qed.

(** The end of the image passes 2^64, and what is left of it lies in memory. *)
Definition image_wraps (code : list Z) (addr size : Z) : Prop :=
  2 ^ 64 <= addr + Z.of_nat (length code) /\ u64 (addr + Z.of_nat (length code)) <= size.

Section Exits.

Context {K : Type} `{Kernel K} `{!MmapLaws K} `{!ErrnoLaws K} {E : Type}.
Implicit Types (w : World K E).

Lemma ram_holds_keep m m1 m2 a bytes :
  ram_holds m m1 a bytes -> (forall b l, m1 !! b = Some l -> m2 !! b = Some l) -> ram_holds m m2 a bytes.
Proof. intros (Hz & Hn & Hb & Hk) Hk2. split; [done|]. split; [done|]. split; auto. Qed.

(** The region and the copy. *)
Lemma after_region vm size a w w1 code addr ndebug :
  0 <= addr -> addr + Z.of_nat (length code) <= size < 2 ^ 64 ->
  ram_holds (h_mem (w_host w)) (h_mem (w_host w1)) a (replicate (Z.to_nat size) 0) ->
  exists w2, MemoryRegion_write ndebug (guest_ram vm size a) addr code w1 = Ok (tt, w2) /\
    h_kern (w_host w2) = h_kern (w_host w1) /\ h_trace (w_host w2) = h_trace (w_host w1) /\
    dom (h_mem (w_host w2)) = dom (h_mem (w_host w1)) /\
    ram_holds (h_mem (w_host w)) (h_mem (w_host w2)) a (splice (Z.to_nat addr) code (replicate (Z.to_nat size) 0)).
Proof.
  intros Ha Hfit (Hnz & Hn & Hb & Hk). set (r := guest_ram vm size a).
  assert (region_ok r (h_mem (w_host w1))) as Hok.
  { split; [done|]. split; [cbn; lia|]. eexists. split; [exact Hb|]. rewrite length_replicate. cbn. lia. }
  pose proof (write_outcome ndebug r addr code w1 Hok) as Hw.
  rewrite (proj2 (Z.leb_le _ _)) in Hw by (cbn; lia).
  eexists. split; [apply Hw; unfold is_u64; lia|]. split; [done|]. split; [done|]. split.
  - cbn. apply dom_insert_lookup_L. by eexists.
  - unfold region_bytes. cbn [r guest_ram mr_hostAddr]. rewrite Hb. split; [done|]. split; [done|]. split; [apply lookup_insert_eq|].
    intros b l Hl. cbn. rewrite lookup_insert_ne; [by apply Hk|]. intros <-. congruence.
Qed.

(** Both functions: an exit before there is a vCPU, or what comes after it. *)
Lemma place_exits ndebug vm size addr code k start w :
  mapped_inv w -> 0 <= addr -> addr + Z.of_nat (length code) < 2 ^ 64 -> 0 <= size < 2 ^ 64 ->
  let p := load_plan vm size addr (Z.of_nat (length code)) start in
  (exists st ec vm' w', place ndebug vm size addr code k w = Ok ((ec, vm'), w') /\
     leads p w (Done (st, ec)) w' /\
     load_exit vm code addr size (h_mem (w_host w)) (fun _ _ _ => False) st ec vm' (h_mem (w_host w'))) \/
  (exists a fd page w', let v := new_vcpu vm fd page in
     place ndebug vm size addr code k w = k v (with_vcpu (with_region vm (guest_ram vm size a)) v) w' /\
     leads p w (start a fd page) w' /\ addr + Z.of_nat (length code) <= size /\
     ram_holds (h_mem (w_host w)) (h_mem (w_host w')) a (splice (Z.to_nat addr) code (replicate (Z.to_nat size) 0))).
Proof.
  intros Hm Ha Hlen Hsz p. remember (place ndebug vm size addr code k w) as P eqn:HP. unfold place in HP.
  set (rest := fun a => if size <? addr + Z.of_nat (length code) then Done (TooLarge a, ENOMEM)
                        else vcpu_plan vm a (fun fd page => start a fd page)).
  destruct (region_leads vm size rest w) as (res & vm1 & w1 & E1 & Hl1). fold p in Hl1.
  change (ram_plan vm size rest) with p in Hl1.
  destruct (add_region_effect _ _ _ _ _ _ _ _ Hm E1) as (Hm1 & Heff).
  rewrite (bind_Ok _ _ _ _ _ E1) in HP. cbn iota beta in HP. destruct res as [ri|ec].
  2: { left. destruct Heff as [_ Hmem], Hl1 as (Hec & -> & L1). exists NoMemory. do 3 eexists.
       split; [exact HP|]. split; [exact L1|]. rewrite Hmem. by constructor. }
  destruct Hl1 as (a & -> & -> & L1).
  destruct Heff as (a' & _ & Hnz & Hnone & Hmem & Heq). injection Heq as Heq.
  apply app_inj_tail in Heq as [_ [= <-]].
  unfold region_at in HP. cbn [with_region vm_memoryRegions] in HP.
  rewrite lookup_app_r, Nat.sub_diag in HP by lia. cbn [lookup list_lookup] in HP. rewrite bind_ret_l in HP.
  assert (ram_holds (h_mem (w_host w)) (h_mem (w_host w1)) a (replicate (Z.to_nat size) 0)) as Hh1.
  { split; [done|]. split; [done|]. rewrite Hmem. split; [apply lookup_insert_eq|]. intros b l Hl.
    rewrite lookup_insert_ne; [done|]. intros <-. congruence. }
  rewrite u64_small in HP by (unfold is_u64; lia). cbn [mr_size guest_ram] in HP. fold (guest_ram vm size a) in HP.
  unfold rest in L1. destruct (size <? addr + _) eqn:Efit; boolify.
  { left. do 4 eexists. split; [exact HP|]. split; [exact L1|]. by apply exit_too_large. }
  destruct (after_region vm size a w w1 code addr ndebug) as (w2 & E2 & Hk2 & Ht2 & Hd2 & Hh2); try done; [lia|].
  rewrite (bind_Ok _ _ _ _ _ E2) in HP.
  assert (mapped_inv w2) as Hm2.
  { intros x Hx. rewrite Hk2. apply Hm1, elem_of_dom. rewrite <-Hd2. by apply elem_of_dom. }
  set (vm1 := with_region vm (guest_ram vm size a)) in *.
  destruct (vcpu_leads vm1 a (fun fd page => start a fd page) w2) as (vres & vm2 & w3 & E3 & Hl3).
  destruct (add_vcpu_effect _ _ _ _ _ _ Hm2 E3) as (_ & Hkeep & _).
  pose proof (ram_holds_keep _ _ _ _ _ Hh2 Hkeep) as Hh3.
  assert (leads p w (vcpu_plan vm1 a (fun fd page => start a fd page)) w2) as L2
    by (eapply leads_trans; [exact L1|by apply leads_same]).
  rewrite (bind_Ok _ _ _ _ _ E3) in HP. cbn iota beta in HP. destruct vres as [vi|ec].
  2: { left. destruct Hl3 as (Hec & -> & L3). do 4 eexists. split; [exact HP|].
       split; [by eapply leads_trans|]. by apply exit_no_vcpu. }
  destruct Hl3 as (fd & page & -> & -> & L3). right. exists a, fd, page, w3. cbn zeta.
  unfold vcpu_at in HP. cbn [with_vcpu vm_vcpus] in HP. rewrite lookup_app_r, Nat.sub_diag in HP by lia.
  cbn [lookup list_lookup] in HP. rewrite bind_ret_l in HP. split; [exact HP|].
  split; [by eapply leads_trans|]. by split.
Qed.

Definition real_start (ip : Z) (v : VCpu) vm : M (World K E) (Z * VirtualMachine) :=
  let* ec := setupRealModeVCpu v ip in ret (ec, vm).

Lemma real_exits ndebug vm size addr code ip w :
  mapped_inv w -> 0 <= addr -> addr + Z.of_nat (length code) < 2 ^ 64 -> 0 <= size < 2 ^ 64 ->
  exists st ec vm' w', place ndebug vm size addr code (real_start ip) w = Ok ((ec, vm'), w') /\
    leads (load_plan vm size addr (Z.of_nat (length code)) (real_plan ip)) w (Done (st, ec)) w' /\
    load_exit vm code addr size (h_mem (w_host w)) image_only st ec vm' (h_mem (w_host w')).
Proof.
  intros Hm Ha Hlen Hsz.
  destruct (place_exits ndebug vm size addr code (real_start ip) (real_plan ip) w Hm Ha Hlen Hsz)
    as [(st & ec & vm' & w' & E1 & L1 & He)|(a & fd & page & w3 & -> & L3 & Hfit & Hh)].
  { exists st, ec, vm', w'. split; [done|]. split; [done|]. by apply early_exit. }
  destruct (install_leads (Started a fd page) (new_vcpu vm fd page) real_mode_sregs (start_regs ip 0xFFF0) w3)
    as (ec & w4 & E4 & Hm4 & L4).
  change (install real_mode_sregs (start_regs ip 0xFFF0)) with (fun v => setupRealModeVCpu (E := E) v ip) in E4.
  unfold real_start. rewrite (bind_Ok _ _ _ _ _ E4). do 4 eexists. split; [reflexivity|].
  split; [eapply leads_trans; [exact L3|exact L4]|]. rewrite Hm4. by eapply exit_vcpu.
Qed.

(** ** The page tables of a region at guest address 0 *)

Lemma build_in_none regions base w :
  Forall (fun r => covers base r = false) regions -> build_in regions base w = Ok (ENONET, w).
Proof. intros Hf. rewrite <-(app_nil_r regions), build_in_skip by done. done. Qed.

Lemma ram_region_ok vm size a m m' bytes :
  0 <= size < 2 ^ 64 -> ram_holds m m' a bytes -> Z.of_nat (length bytes) = size ->
  region_ok (guest_ram vm size a) m' /\ region_bytes (guest_ram vm size a) m' = bytes.
Proof.
  intros Hsz (Hnz & _ & Hb & _) Hl. unfold region_ok, region_bytes. cbn.
  rewrite Hb. split_and!; try done; [lia..|]. by exists bytes.
Qed.

(** The tables with such a region last among ones that do not cover them: where
    they go, and the two sizes of memory they do not fit into. *)
Lemma tables_exits vm vm0 regions a size m image w :
  vm_memoryRegions vm = regions ++ [guest_ram vm0 size a] -> Forall (fun r => covers pgtableBase r = false) regions ->
  0 <= size < 2 ^ 64 -> Z.of_nat (length image) = size -> ram_holds m (h_mem (w_host w)) a image ->
  (size <= 0x2000 /\ buildIdentityPageTables vm pgtableBase w = Ok (ENONET, w)) \/
  (0x2000 < size < 0x5000 /\ buildIdentityPageTables vm pgtableBase w = Fault OutOfBounds) \/
  (0x5000 <= size /\ exists w', buildIdentityPageTables vm pgtableBase w = Ok (0, w') /\
     h_kern (w_host w') = h_kern (w_host w) /\ h_trace (w_host w') = h_trace (w_host w) /\
     ram_holds m (h_mem (w_host w')) a (splice (Z.to_nat 0x2000) (words_bytes (table_words 0x2000)) image)).
Proof.
  intros Hrs Hf Hsz Hl Hh. destruct (ram_region_ok vm0 _ _ _ _ _ Hsz Hh Hl) as (Hok & Hb).
  destruct (Z.leb_spec size 0x2000) as [Hle|Hgt]; [|destruct (Z.ltb_spec size 0x5000) as [Hlt|Hge]].
  - left. split; [done|].
    unfold buildIdentityPageTables, memoryRegions. rewrite Hrs. apply build_in_none.
    apply Forall_app. split; [done|]. constructor; [|done]. unfold covers, pgtableBase. cbn [guest_ram mr_guestPhysAddr mr_size].
    rewrite Z.add_0_l, u64_small by (unfold is_u64; lia).
    by rewrite (proj2 (Z.leb_le size _)), orb_true_r by lia.
  - right; left. split; [lia|].
    apply (page_tables_overrun vm regions (guest_ram vm0 size a) []); try done; unfold pgtableBase; cbn; lia.
  - right; right. split; [done|]. pose proof Hh as (Hnz & Hn & Hlk & Hk).
    set (bytes := splice (Z.to_nat 0x2000) (words_bytes (table_words 0x2000)) image).
    exists (with_page a bytes w). split.
    + unfold buildIdentityPageTables, memoryRegions. rewrite Hrs, build_in_skip by done.
      rewrite build_in_found by (apply covers_true; unfold pgtableBase; cbn; lia).
      change (mr_guestPhysAddr (guest_ram vm0 size a)) with 0.
      by rewrite (bind_Ok _ _ _ _ _ (write_tables_ok _ (pgtableBase - 0) image w Hnz ltac:(done) Hlk
                        ltac:(unfold pgtableBase; lia) pgtableBase)).
    + split; [done|]. split; [done|]. split; [done|]. split; [done|]. split; [apply lookup_insert_eq|].
      intros b l Hal. cbn. rewrite lookup_insert_ne; [by apply Hk|]. intros <-. congruence.
Qed.

Lemma flat_exits ndebug vm size addr code entry w :
  mapped_inv w -> 0 <= addr -> addr + Z.of_nat (length code) < 2 ^ 64 -> 0 <= size < 2 ^ 64 ->
  Forall (fun r => covers pgtableBase r = false) (vm_memoryRegions vm) ->
  let p := load_plan vm size addr (Z.of_nat (length code)) (flat_plan size entry) in
  (exists st ec vm' w', place ndebug vm size addr code (flat_start entry) w = Ok ((ec, vm'), w') /\
     leads p w (Done (st, ec)) w' /\
     load_exit vm code addr size (h_mem (w_host w)) (image_and_tables size) st ec vm' (h_mem (w_host w'))) \/
  (place ndebug vm size addr code (flat_start entry) w = Fault OutOfBounds /\
   (exists w', leads p w (Done (Overrun, 0)) w') /\
   addr + Z.of_nat (length code) <= size /\ 0x2000 < size < 0x5000).
Proof.
  intros Hm Ha Hlen Hsz Hf p.
  destruct (place_exits ndebug vm size addr code (flat_start entry) (flat_plan size entry) w Hm Ha Hlen Hsz)
    as [(st & ec & vm' & w' & -> & L1 & He)|(a & fd & page & w3 & -> & L3 & Hfit & Hh)].
  { left. exists st, ec, vm', w'. split; [done|]. split; [exact L1|]. by apply early_exit. }
  fold p in L3. set (v := new_vcpu vm fd page) in *. set (vm2 := with_vcpu (with_region vm (guest_ram vm size a)) v).
  set (image := splice _ code _) in *.
  assert (Z.of_nat (length image) = size) as Hl
    by (unfold image; rewrite length_splice; rewrite length_replicate; lia).
  unfold flat_start, flat_plan in *.
  destruct (tables_exits vm2 vm (vm_memoryRegions vm) a size (h_mem (w_host w)) image w3 eq_refl Hf Hsz Hl Hh)
    as [[Hle E4]|[[Hr E4]|[Hge (w4 & E4 & Hk4 & Ht4 & Hh4)]]].
  - left. rewrite (bind_Ok _ _ _ _ _ E4). cbn. rewrite (proj2 (Z.leb_le _ _)) in L3 by done.
    do 4 eexists. split; [reflexivity|]. split; [exact L3|]. eapply exit_vcpu; try done. by left.
  - right. unfold bind at 1. rewrite E4. split; [done|]. split; [|done].
    rewrite (proj2 (Z.leb_gt _ _)), (proj2 (Z.ltb_lt _ _)) in L3 by lia. by exists w3.
  - left. rewrite (bind_Ok _ _ _ _ _ E4). cbn [ec_failed Z.eqb negb].
    rewrite (proj2 (Z.leb_gt _ _)), (proj2 (Z.ltb_ge _ _)) in L3 by lia.
    destruct (install_leads (Started a fd page) v (fun s => long_mode_sregs s pgtableBase) (start_regs entry 0x200000) w4)
      as (ec & w5 & E5 & Hm5 & L5).
    change (install (fun s => long_mode_sregs s pgtableBase) (start_regs entry 0x200000))
      with (fun v => setup64BitVCpu (E := E) v entry pgtableBase) in E5.
    rewrite (bind_Ok _ _ _ _ _ E5). do 4 eexists. split; [reflexivity|].
    split; [|rewrite Hm5; eapply exit_vcpu; try done; by right].
    eapply leads_trans; [exact L3|]. eapply leads_trans; [by apply (leads_same _ _ w4)|exact L5].
Qed.

End Exits.

(** The two masks of an entry point. *)
Lemma entry_mask x : u16 (Z.land x 0xFFFF) = x mod 2 ^ 16.
Proof. change 0xFFFF with (Z.ones 16). rewrite Z.land_ones by lia. unfold u16. by rewrite Z.mod_mod. Qed.

(** C15. When the end of the image does not pass 2^64, [loadBytes] does not fault,
    and it carries out its plan: memory, then the vCPU, then its registers.  The
    calls it makes, the state of the kernel after them and the error code are the
    plan's: a call that fails ends the load with the error of that call, after
    what the call had prepared is given back; an image that does not fit ends it
    with ENOMEM; and the code is 0 when every call has worked.  What was finished
    before stays: nothing without memory, a zeroed region when the image does not
    fit, the region with the image when there is no vCPU, and region, image and
    vCPU, with whatever registers were set, in the end. *)
Theorem loadBytes_errors {K} `{Kernel K} `{!MmapLaws K} `{!ErrnoLaws K} {E} ndebug vm code addr size
    (w : World K E) :
  mapped_inv w -> 0 <= addr -> addr + Z.of_nat (length code) < 2 ^ 64 -> 0 <= size < 2 ^ 64 ->
  let '((st, ec), calls, k') :=
    plan_end (load_plan vm size addr (Z.of_nat (length code)) (real_plan (addr mod 2 ^ 16))) (h_kern (w_host w)) in
  exists vm' w', loadBytes ndebug vm code addr size w = Ok ((ec, vm'), w') /\
    h_kern (w_host w') = k' /\ h_trace (w_host w') = h_trace (w_host w) ++ calls /\
    load_exit vm code addr size (h_mem (w_host w)) image_only st ec vm' (h_mem (w_host w')) /\
    (ec = 0 -> exists a fd page, st = Started a fd page /\
       vm' = with_vcpu (with_region vm (guest_ram vm size a)) (new_vcpu vm fd page) /\
       h_mem (w_host w') !! a = Some (splice (Z.to_nat addr) code (replicate (Z.to_nat size) 0))).
Proof.
  intros Hm Ha Hlen Hsz.
  destruct (real_exits ndebug vm size addr code (u16 (Z.land addr 0xFFFF)) w Hm Ha Hlen Hsz)
    as (st & ec & vm' & w' & E1 & L1 & He).
  rewrite entry_mask in L1. destruct (leads_end _ _ _ _ L1) as (calls & -> & Ht).
  exists vm', w'. split; [exact E1|]. split; [done|]. split; [done|]. split; [done|]. intros ->.
  inversion He as [?|? ? ?|?|a fd page m' ec bytes Hfit -> (_ & _ & Hb & _)]; try lia; try done. by exists a, fd, page.
Qed.

(** Five bytes of code for four bytes of memory: the memory stays registered. *)
Lemma loadBytes_errors_witness :
  exists a vm' w', loadBytes false (VirtualMachine_new 4 4160) (replicate 5 0x90) 0 4 load_world
      = Ok ((ENOMEM, vm'), w') /\
    h_trace (w_host w') = [Sys_mmap 4 (-1); Sys_madvise a 4;
      Sys_ioctl 4 (KVM_SET_USER_MEMORY_REGION (mk_umr 0 0 0 4 a))] /\
    load_exit (VirtualMachine_new 4 4160) (replicate 5 0x90) 0 4 ∅ image_only (TooLarge a) ENOMEM vm' (h_mem (w_host w')).
Proof.
  pose proof (loadBytes_errors false (VirtualMachine_new 4 4160) (replicate 5 0x90) 0 4 load_world
                load_world_mapped ltac:(lia) ltac:(cbn; lia) ltac:(lia)) as Ht.
  assert (exists a k', plan_end (load_plan (VirtualMachine_new 4 4160) 4 0 5 (real_plan 0)) (h_kern (w_host load_world))
    = ((TooLarge a, ENOMEM), [Sys_mmap 4 (-1); Sys_madvise a 4;
        Sys_ioctl 4 (KVM_SET_USER_MEMORY_REGION (mk_umr 0 0 0 4 a))], k')) as (a & k' & Hp)
    by (do 2 eexists; vm_compute; reflexivity).
  change (Z.of_nat (length (replicate 5 0x90))) with 5 in Ht. change (0 mod 2 ^ 16) with 0 in Ht. rewrite Hp in Ht.
  destruct Ht as (vm' & w' & E1 & _ & Htr & He & _). exists a, vm', w'. split; [exact E1|]. split; [exact Htr|exact He].
Defined.

(** What comes after the vCPU in each mode. *)
Definition start_plan (params : GuestLoadParams) : Z -> Z -> Z -> plan (load_stage * Z) :=
  match gp_mode params with
  | FlatBinary => flat_plan (gp_memorySize params) (gp_entryPoint params)
  | RealMode16 => real_plan (gp_entryPoint params mod 2 ^ 16)
  end.

(** C16. Every outcome of [load], for an image whose end does not pass 2^64 and a
    machine none of whose regions has the address 0x2000 yet.  Without an image,
    ENONET and nothing has happened.  Otherwise the load carries out its plan: the
    calls, the kernel they leave, the stage that is reached and the error code (that
    of the call that failed) are the plan's, and the machine and memory are those of
    the stage, where with a vCPU a real-mode guest has its image in memory, and
    a flat binary has the page tables over it from 0x2000 on, or, when memory ends
    at or below 0x2000, no tables and ENONET.  The only fault is the write of page
    tables that do not fit: it happens exactly when the plan gets as far as the
    vCPU of a flat binary with more than 0x2000 and fewer than 0x5000 bytes of
    memory. *)
Theorem load_errors {K} `{Kernel K} `{!MmapLaws K} `{!ErrnoLaws K} {E} ndebug files vm params
    (w : World K E) :
  let bytes := readFile files (gp_imagePath params) in
  let addr := gp_loadAddress params in
  let size := gp_memorySize params in
  mapped_inv w -> 0 <= addr -> addr + Z.of_nat (length bytes) < 2 ^ 64 -> 0 <= size < 2 ^ 64 ->
  Forall (fun r => covers pgtableBase r = false) (vm_memoryRegions vm) ->
  let '((st, ec), calls, k') :=
    plan_end (load_plan vm size addr (Z.of_nat (length bytes)) (start_plan params)) (h_kern (w_host w)) in
  match load ndebug files vm params w with
  | Ok ((ec', vm'), w') =>
      (bytes = [] /\ ec' = ENONET /\ vm' = vm /\ w' = w) \/
      (bytes <> [] /\ ec' = ec /\ h_kern (w_host w') = k' /\ h_trace (w_host w') = h_trace (w_host w) ++ calls /\
       load_exit vm bytes addr size (h_mem (w_host w)) (final_of params) st ec vm' (h_mem (w_host w')))
  | Fault f =>
      f = OutOfBounds /\ st = Overrun /\ bytes <> [] /\ gp_mode params = FlatBinary /\
      addr + Z.of_nat (length bytes) <= size /\ 0x2000 < size < 0x5000
  end.
Proof.
  intros bytes addr size Hm Ha Hlen Hsz Hf. unfold load, final_of, start_plan. fold bytes size.
  destruct bytes as [|b0 bs] eqn:Eb; [destruct (plan_end _ _) as [[[]]]; by left|]. rewrite <-Eb in *.
  assert (bytes <> []) as Hne by (by rewrite Eb). destruct (gp_mode params).
  - pose proof (flat_exits ndebug vm size addr bytes (gp_entryPoint params) w Hm Ha Hlen Hsz Hf) as He.
    unfold place in He. fold addr. unfold flat_start in He.
    destruct He as [(st & ec & vm' & w' & E1 & L1 & He)|(E1 & (w' & L1) & Hr)];
      destruct (leads_end _ _ _ _ L1) as (calls & -> & Ht); rewrite E1; [by right|done].
  - destruct (real_exits ndebug vm size addr bytes (u16 (Z.land (gp_entryPoint params) 0xFFFF)) w Hm Ha Hlen Hsz)
      as (st & ec & vm' & w' & E1 & L1 & He).
    rewrite entry_mask in L1. destruct (leads_end _ _ _ _ L1) as (calls & -> & Ht).
    unfold place, real_start in E1. fold addr. rewrite E1. by right.
Qed.

(** 16 KiB of memory for a flat binary: the page tables do not fit. *)
Lemma load_errors_witness :
  let params := mk_GuestLoadParams "guest.bin" FlatBinary 0x1000 0x1000 0x4000 in
  load false flat_files (VirtualMachine_new 4 4160) params load_world = Fault OutOfBounds /\
  (gp_mode params = FlatBinary /\ 0x2000 < gp_memorySize params < 0x5000).
Proof.
  intros params.
  pose proof (load_errors false flat_files (VirtualMachine_new 4 4160) params load_world) as Ht.
  assert (match load false flat_files (VirtualMachine_new 4 4160) params load_world with
          | Fault _ => true | _ => false end = true) as Hfault by (vm_compute; reflexivity).
  cbv zeta in Ht. specialize (Ht load_world_mapped ltac:(cbn; lia) ltac:(vm_compute; reflexivity) ltac:(cbn; lia)
    (List.Forall_nil _)).
  destruct (plan_end _ _) as [[[st ec] calls] k'].
  destruct (load false flat_files (VirtualMachine_new 4 4160) params load_world) as [[[]]|f]; [done|].
  destruct Ht as (-> & _ & _ & Hmode & _ & Hrange).
  split; [reflexivity|]. split; [exact Hmode|exact Hrange].
Defined.

(** C39. The size check of the load wraps around: an image whose end passes 2^64
    and whose wrapped end lies in the region is accepted, and the copy writes
    outside the mapping, whether or not assertions are compiled in, since the
    assertion of [MemoryRegion::write] wraps in the same way. *)
Theorem load_size_check_wraps {K} `{Kernel K} `{!MmapLaws K} {E} ndebug vm code addr size ri vm1
    (w w1 : World K E) :
  mapped_inv w -> is_u64 addr -> is_u64 (Z.of_nat (length code)) -> 0 <= size < 2 ^ 63 ->
  image_wraps code addr size ->
  addMemoryRegion vm 0 size 0 w = Ok ((Value ri, vm1), w1) ->
  loadBytes ndebug vm code addr size w = Fault OutOfBounds.
Proof.
  intros Hm Ha Hl Hsz [Hwrap Hfit] E1. unfold loadBytes. rewrite (bind_Ok _ _ _ _ _ E1). cbn iota beta.
  destruct (add_region_effect _ _ _ _ _ _ _ _ Hm E1) as (_ & a & -> & Hnz & _ & Hmem & ->).
  set (r := mk_MemoryRegion _ _ 0 size a) in *. unfold region_at at 1. cbn [vm_memoryRegions].
  rewrite lookup_app_r, Nat.sub_diag by lia. cbn [lookup list_lookup]. rewrite bind_ret_l.
  change (mr_size r) with size. rewrite (proj2 (Z.ltb_ge _ _)) by done.
  assert (region_ok r (h_mem (w_host w1))) as Hok.
  { split; [done|]. split; [cbn; lia|]. rewrite Hmem. eexists. split; [apply lookup_insert_eq|].
    rewrite length_replicate. cbn. lia. }
  unfold bind at 1. rewrite (write_outcome ndebug r addr code w1 Hok Ha Hl).
  rewrite (proj2 (Z.leb_gt _ _)) by (cbn; lia).
  rewrite (proj2 (Z.ltb_ge _ _)), andb_false_r by done. done.
Qed.

Lemma load_size_check_wraps_witness :
  loadBytes false (VirtualMachine_new 4 4160) [0x90; 0xF4] (2 ^ 64 - 1) 4 load_world = Fault OutOfBounds.
Proof.
  destruct (addMemoryRegion (VirtualMachine_new 4 4160) 0 4 0 load_world) as [[[[ri|ec] vm1] w1]|] eqn:E1;
    [|vm_compute in E1; discriminate..].
  apply (load_size_check_wraps false (VirtualMachine_new 4 4160) [0x90; 0xF4] (2 ^ 64 - 1) 4 ri vm1 load_world w1).
  - apply load_world_mapped.
  - split; lia.
  - split; cbn; lia.
  - lia.
  - split; [cbn; lia|vm_compute; discriminate].
  - exact E1.
Defined.
