(* ===== verification/Vmi.v ===== *)
(** * The introspection agent (VmiAgent.h, VmiAgent.cpp)

    An agent points to a machine and to a dispatcher and is itself captured by
    address in the handler it subscribes, so agents and machines are objects of
    a store, keyed by address, that is part of the environment the handlers run
    in ([VmiEnv]); the callbacks a user registers with an agent run in the rest
    of the environment.  Dispatchers hold the handlers, so they are a store of
    their own ([dispatchers]) that the operations pass along. *)

From S2P Require Import Prelude Host SimKvm Memory Vcpu Dispatcher Machine Text.
From stdpp Require Import base list gmap strings.
From Stdlib Require Import ZArith Lia Ascii.
Open Scope Z_scope.
Open Scope hv_scope.

Record GuestSnapshot := mk_GuestSnapshot {
  gs_rip : Z; gs_rsp : Z; gs_rax : Z; gs_rbx : Z; gs_rcx : Z; gs_rdx : Z;
  gs_rsi : Z; gs_rdi : Z; gs_r8 : Z; gs_r9 : Z; gs_r10 : Z; gs_r11 : Z;
  gs_r12 : Z; gs_r13 : Z; gs_r14 : Z; gs_r15 : Z;
  gs_rflags : Z; gs_cr0 : Z; gs_cr3 : Z; gs_cr4 : Z;
  gs_timestamp : Z }.

(** [GuestSnapshot snap{}]: the clock's epoch is 0. *)
Definition empty_snapshot : GuestSnapshot :=
  mk_GuestSnapshot 0 0 0 0 0 0 0 0 0 0 0 0 0 0 0 0 0 0 0 0 0.

Record IntrospectionEvent := mk_IntrospectionEvent {
  nv_base : HvEvent;
  nv_snapshot : GuestSnapshot;
  nv_memDump : option (list Z);
  nv_summary : string }.

Abbreviation IntrospectionCallback K U := (IntrospectionEvent -> M (World K U) unit).

Record VmiAgent (K U : Type) := mk_VmiAgent {
  va_vm : Z;
  va_dispatch : Z;
  va_callbacks : list (IntrospectionCallback K U);
  va_eventLog : list IntrospectionEvent;
  va_subId : Z;
  va_memDumpEnabled : bool;
  va_memDumpAddr : Z;
  va_memDumpSize : Z }.
Arguments mk_VmiAgent {K U} _ _ _ _ _ _ _ _.
Arguments va_vm {K U} _.
Arguments va_dispatch {K U} _.
Arguments va_callbacks {K U} _.
Arguments va_eventLog {K U} _.
Arguments va_subId {K U} _.
Arguments va_memDumpEnabled {K U} _.
Arguments va_memDumpAddr {K U} _.
Arguments va_memDumpSize {K U} _.

Record VmiEnv (K U : Type) := mk_VmiEnv {
  ve_vms : gmap Z VirtualMachine;
  ve_agents : gmap Z (VmiAgent K U);
  ve_user : U }.
Arguments mk_VmiEnv {K U} _ _ _.
Arguments ve_vms {K U} _.
Arguments ve_agents {K U} _.
Arguments ve_user {K U} _.

(** ** Summaries *)

Declare Scope text_scope.
Notation "a <+ b" := (String.append a b) (at level 60, right associativity) : text_scope.
Open Scope text_scope.

Definition summary_payload (type : EventType) (payload : EventPayload) : string :=
  match payload with
  | PCpuid p =>
      "CPUID leaf=0x" <+ HEX (ce_leaf p) <+ " sub=0x" <+ HEX (ce_subleaf p)
      <+ " => EAX=0x" <+ HEX (ce_eax p) <+ " EBX=0x" <+ HEX (ce_ebx p)
      <+ " ECX=0x" <+ HEX (ce_ecx p) <+ " EDX=0x" <+ HEX (ce_edx p)
  | PIo p =>
      (if ie_isWrite p then "OUT" else "IN") <+ " port=0x" <+ HEX (ie_port p)
      <+ " size=" <+ dec (ie_size p) <+ "B" <+ " value=0x" <+ HEX (ie_value p)
  | PMsr p =>
      (if me_isWrite p then "WRMSR" else "RDMSR") <+ " index=0x" <+ HEX (me_index p)
      <+ " value=0x" <+ HEX (me_value p)
  | PMmio p =>
      (if xe_isWrite p then "MMIO-WR" else "MMIO-RD") <+ " gpa=0x" <+ HEX (xe_guest_phys_addr p)
      <+ " size=" <+ dec (xe_size p) <+ "B" <+ " value=0x" <+ HEX (xe_value p)
  | PMono =>
      match type with
      | GuestHalt => "HLT"
      | GuestShutdown => "SHUTDOWN"
      | _ => "EVENT"
      end
  end.

(** The stream is in uppercase hexadecimal from the start. *)
Definition buildSummary (event : HvEvent) (snap : GuestSnapshot) : string :=
  "[VCPU" <+ HEX (ev_vcpu_id event) <+ "] RIP=0x" <+ HEX (gs_rip snap) <+ " | "
  <+ summary_payload (ev_type event) (ev_payload event).

(** ** The event log *)

Definition quoted (s : string) : string := String dquote (s <+ String dquote "").
Definition nl : string := String newline "".

(** [duration_cast<milliseconds>] of nanoseconds: towards zero. *)
Definition to_ms (ns : Z) : Z := Z.quot ns 1000000.

Definition dump_event (ie : IntrospectionEvent) (last : bool) : string :=
  "  {" <+ nl
  <+ "    " <+ quoted "timestamp" <+ ": " <+ sdec (to_ms (gs_timestamp (nv_snapshot ie))) <+ "," <+ nl
  <+ "    " <+ quoted "vcpu_id" <+ ": " <+ dec (ev_vcpu_id (nv_base ie)) <+ "," <+ nl
  <+ "    " <+ quoted "rip" <+ ": " <+ quoted ("0x" <+ hex (gs_rip (nv_snapshot ie))) <+ "," <+ nl
  <+ "    " <+ quoted "summary" <+ ": " <+ quoted (nv_summary ie)
  <+ (match nv_memDump ie with
      | None => ""
      | Some bytes => "," <+ nl <+ "    " <+ quoted "mem_dump" <+ ": " <+ quoted (hexdump bytes)
      end)
  <+ nl <+ "  }" <+ (if last then "" else ",") <+ nl.

Fixpoint dump_events (log : list IntrospectionEvent) : string :=
  match log with
  | [] => ""
  | ie :: rest => dump_event ie (match rest with [] => true | _ => false end) <+ dump_events rest
  end.

Section AgentModel.

Context {K : Type} `{Kernel K} {U : Type}.
Abbreviation Env := (VmiEnv K U).
Abbreviation dispatchers := (gmap Z (EventDispatcher K Env)).
Implicit Types (a : VmiAgent K U) (w : World K Env) (ds : dispatchers).

(** Objects by address. *)
Definition agent_at (this : Z) : M (World K Env) (VmiAgent K U) :=
  fun w => match ve_agents (w_env w) !! this with
           | Some a => Ok (a, w)
           | None => Fault UseAfterFree
           end.

Definition set_agent (this : Z) a : M (World K Env) unit :=
  fun w => let e := w_env w in
           Ok (tt, mk_world (w_host w)
                     (mk_VmiEnv (ve_vms e) (<[this := a]> (ve_agents e)) (ve_user e))).

Definition free_agent (this : Z) : M (World K Env) unit :=
  fun w => let e := w_env w in
           Ok (tt, mk_world (w_host w)
                     (mk_VmiEnv (ve_vms e) (delete this (ve_agents e)) (ve_user e))).

Definition vm_at (p : Z) : M (World K Env) VirtualMachine :=
  fun w => match ve_vms (w_env w) !! p with
           | Some vm => Ok (vm, w)
           | None => Fault UseAfterFree
           end.

Definition dispatcher_at (p : Z) ds : M (World K Env) (EventDispatcher K Env) :=
  match ds !! p with
  | Some d => ret d
  | None => fail UseAfterFree
  end.

(** Run a computation of the user's part of the environment. *)
Definition in_user {A} (m : M (World K U) A) : M (World K Env) A :=
  fun w => let e := w_env w in
           match m (mk_world (w_host w) (ve_user e)) with
           | Ok (x, w') => Ok (x, mk_world (w_host w')
                                   (mk_VmiEnv (ve_vms e) (ve_agents e) (w_env w')))
           | Fault f => Fault f
           end.

(** The largest [std::vector<uint8_t>]: a bigger size throws. *)
Definition max_vector_size : Z := 2 ^ 63 - 1.

Definition region_end (r : MemoryRegion) : Z := u64 (mr_guestPhysAddr r + mr_size r).

Definition phys_check (addr size : Z) (r : MemoryRegion) : bool :=
  (mr_guestPhysAddr r <=? addr) && (u64 (addr + size) <=? region_end r).

Fixpoint read_in (regions : list MemoryRegion) (addr size : Z) : M (World K Env) (list Z) :=
  match regions with
  | [] => ret []
  | r :: rest =>
      if phys_check addr size r then
        if max_vector_size <? size then fail LengthError
        else mem_load (mr_hostAddr r) (addr - mr_guestPhysAddr r) size
      else read_in rest addr size
  end.

Definition readGuestPhysMemory a (addr size : Z) : M (World K Env) (list Z) :=
  if va_vm a =? nullptr then ret []
  else
    let* vm := vm_at (va_vm a) in
    read_in (memoryRegions vm) addr size.

Definition snapshot_of (r : kvm_regs) (sr : kvm_sregs) (now : Z) : GuestSnapshot :=
  mk_GuestSnapshot (rip r) (rsp r) (rax r) (rbx r) (rcx r) (rdx r) (rsi r) (rdi r)
    (r8 r) (r9 r) (r10 r) (r11 r) (r12 r) (r13 r) (r14 r) (r15 r) (rflags r)
    (cr0 sr) (cr3 sr) (cr4 sr) now.

Definition snapshotRegisters a (vcpu_index : Z) : M (World K Env) (option GuestSnapshot) :=
  if va_vm a =? nullptr then ret None
  else
    let* vm := vm_at (va_vm a) in
    if Z.of_nat (length (vcpus vm)) <=? vcpu_index then ret None
    else
      let* vcpu := vcpu_at vm (Z.to_nat vcpu_index) in
      let* regsResult := VCpu_getRegs vcpu in
      let* sregsResult := VCpu_getSregs vcpu in
      match regsResult, sregsResult with
      | Value r, Value sr => let* now := steady_now in ret (Some (snapshot_of r sr now))
      | _, _ => ret None
      end.

Definition set_log a (log : list IntrospectionEvent) : VmiAgent K U :=
  mk_VmiAgent (va_vm a) (va_dispatch a) (va_callbacks a) log (va_subId a)
              (va_memDumpEnabled a) (va_memDumpAddr a) (va_memDumpSize a).

(** The event the agent builds. *)
Definition enrich a (event : HvEvent) : M (World K Env) IntrospectionEvent :=
  let* snap := snapshotRegisters a (ev_vcpu_id event) in
  let snapshot := default empty_snapshot snap in
  let* dump := (if va_memDumpEnabled a then
                  let* dump := readGuestPhysMemory a (va_memDumpAddr a) (va_memDumpSize a) in
                  ret (match dump with [] => None | _ => Some dump end)
                else ret None) in
  ret (mk_IntrospectionEvent event snapshot dump (buildSummary event snapshot)).

Definition handleHvEvent (this : Z) (event : HvEvent) : M (World K Env) unit :=
  let* a := agent_at this in
  let* ie := enrich a event in
  set_agent this (set_log a (va_eventLog a ++ [ie])) ;;;
  mapM_ (fun cb => in_user (cb ie)) (va_callbacks a).

Definition VmiAgent_new (this vm dispatcher : Z) ds : M (World K Env) dispatchers :=
  if dispatcher =? nullptr then
    set_agent this (mk_VmiAgent vm dispatcher [] [] 0 false 0 0) ;;;
    ret ds
  else
    let* d := dispatcher_at dispatcher ds in
    let '(id, d') := subscribeAll (handleHvEvent this) d in
    set_agent this (mk_VmiAgent vm dispatcher [] [] id false 0 0) ;;;
    ret (<[dispatcher := d']> ds).

Definition VmiAgent_destroy (this : Z) ds : M (World K Env) dispatchers :=
  let* a := agent_at this in
  let* ds' := (if negb (va_dispatch a =? nullptr) && negb (va_subId a =? 0) then
                 let* d := dispatcher_at (va_dispatch a) ds in
                 ret (<[va_dispatch a := unsubscribe (va_subId a) d]> ds)
               else ret ds) in
  free_agent this ;;;
  ret ds'.

(** The defaulted moves: pointers, the subscription id and the dump settings
    are copied, the vectors are moved out. *)
Definition moved_from a : VmiAgent K U :=
  mk_VmiAgent (va_vm a) (va_dispatch a) [] [] (va_subId a)
              (va_memDumpEnabled a) (va_memDumpAddr a) (va_memDumpSize a).

Definition VmiAgent_move (this other : Z) : M (World K Env) unit :=
  let* a := agent_at other in
  set_agent this a ;;;
  set_agent other (moved_from a).

(** Move assignment between distinct objects. *)
Definition VmiAgent_assign (this other : Z) : M (World K Env) unit :=
  agent_at this ;;; VmiAgent_move this other.

Definition onEvent (this : Z) (cb : IntrospectionCallback K U) : M (World K Env) unit :=
  let* a := agent_at this in
  set_agent this (mk_VmiAgent (va_vm a) (va_dispatch a) (va_callbacks a ++ [cb]) (va_eventLog a)
                    (va_subId a) (va_memDumpEnabled a) (va_memDumpAddr a) (va_memDumpSize a)).

Definition set_dump a (enabled : bool) (addr size : Z) : VmiAgent K U :=
  mk_VmiAgent (va_vm a) (va_dispatch a) (va_callbacks a) (va_eventLog a) (va_subId a)
              enabled addr size.

Definition enableMemoryDump (this guest_phys_addr size : Z) : M (World K Env) unit :=
  let* a := agent_at this in set_agent this (set_dump a true guest_phys_addr size).

Definition disableMemoryDump (this : Z) : M (World K Env) unit :=
  let* a := agent_at this in
  set_agent this (set_dump a false (va_memDumpAddr a) (va_memDumpSize a)).

(** The text written to the file, [None] when it cannot be opened. *)
Definition dumpEventLog a (opened : bool) : option string :=
  if opened then Some ("[" <+ nl <+ dump_events (va_eventLog a) <+ "]" <+ nl) else None.

Definition eventLog a : list IntrospectionEvent := va_eventLog a.

End AgentModel.

(** ** Reading guest memory *)

Section ReadProofs.

Context {K : Type} `{Kernel K} {U : Type}.
Implicit Types (a : VmiAgent K U) (w : World K (VmiEnv K U)).

(** A region that does not reach the top of the address space. *)
Definition region_low (r : MemoryRegion) : Prop :=
  0 <= mr_guestPhysAddr r /\ mr_guestPhysAddr r + mr_size r < 2 ^ 64.

(** The bytes of the first region that passes the check. *)
Definition phys_bytes (regions : list MemoryRegion) (m : memory) (addr size : Z) : list Z :=
  match List.find (phys_check addr size) regions with
  | None => []
  | Some r => slice (Z.to_nat (addr - mr_guestPhysAddr r)) (Z.to_nat size) (region_bytes r m)
  end.

(** A range that passes the check of a region lies in it unless its end has
    wrapped around. *)
Lemma phys_check_fits addr size r :
  region_low r -> 0 <= mr_size r -> is_u64 addr -> 0 <= size ->
  phys_check addr size r = true -> addr + size < 2 ^ 64 ->
  mr_guestPhysAddr r <= addr /\ addr + size <= mr_guestPhysAddr r + mr_size r.
Proof.
  intros [Hg Hr] Hsz [Ha _] Hs Hc Hlt. unfold phys_check, region_end in Hc. boolify.
  rewrite !u64_small in * by (unfold is_u64; lia). lia.
Qed.

Lemma read_in_outcome regions addr size w :
  Forall (fun r => region_ok r (h_mem (w_host w)) /\ region_low r) regions ->
  is_u64 addr -> 0 <= size <= max_vector_size ->
  read_in regions addr size w =
  if (2 ^ 64 <=? addr + size) && existsb (phys_check addr size) regions then Fault OutOfBounds
  else Ok (phys_bytes regions (h_mem (w_host w)) addr size, w).
Proof.
  intros Hrs Ha Hs. unfold phys_bytes.
  induction Hrs as [|r rs [Hok Hlow] _ IH]; [by rewrite andb_false_r|].
  cbn [read_in List.find existsb]. destruct (phys_check addr size r) eqn:Ec.
  - rewrite (proj2 (Z.ltb_ge _ _)) by lia. cbn [orb]. rewrite andb_true_r.
    destruct (region_ok_bytes _ _ Hok) as [Hl Hn]. pose proof Hok as (Hnz & Hsz & _).
    destruct (2 ^ 64 <=? addr + size) eqn:Ew; boolify.
    + unfold region_low in Hlow. apply (mem_load_oob _ _ _ _ _ Hnz Hl). lia.
    + destruct (phys_check_fits addr size r) as [? ?]; [done|lia|done|lia|done|lia|].
      rewrite (mem_load_ok _ _ _ _ _ Hnz Hl) by lia. done.
  - cbn [orb]. exact IH.
Qed.

End ReadProofs.

(** C24. Reading guest-physical memory returns exactly the bytes of the first
    region that contains the range, and the empty vector when none does; the
    one exception is a range whose end passes 2^64: the wrapped sum can pass a
    region's check, and then the copy reads outside its mapping. *)
Theorem read_guest_phys {K} `{Kernel K} {U} (a : VmiAgent K U) vm addr size (w : World K (VmiEnv K U)) :
  va_vm a <> nullptr -> ve_vms (w_env w) !! va_vm a = Some vm ->
  Forall (fun r => region_ok r (h_mem (w_host w)) /\ region_low r) (vm_memoryRegions vm) ->
  is_u64 addr -> 0 <= size <= max_vector_size ->
  readGuestPhysMemory a addr size w =
    (if (2 ^ 64 <=? addr + size) && existsb (phys_check addr size) (vm_memoryRegions vm)
     then Fault OutOfBounds
     else Ok (phys_bytes (vm_memoryRegions vm) (h_mem (w_host w)) addr size, w)) /\
  (forall r, addr + size < 2 ^ 64 -> List.find (phys_check addr size) (vm_memoryRegions vm) = Some r ->
     mr_guestPhysAddr r <= addr /\ addr + size <= mr_guestPhysAddr r + mr_size r) /\
  (addr + size < 2 ^ 64 -> List.find (phys_check addr size) (vm_memoryRegions vm) = None ->
     Forall (fun r => addr < mr_guestPhysAddr r \/ mr_guestPhysAddr r + mr_size r < addr + size)
            (vm_memoryRegions vm)).
Proof.
  intros Hp Hvm Hrs Ha Hs. split; [|split].
  - unfold readGuestPhysMemory. rewrite (proj2 (Z.eqb_neq _ _) Hp). unfold bind, vm_at.
    rewrite Hvm. by apply read_in_outcome.
  - intros r Hlt Hf. apply List.find_some in Hf as [Hin Hc].
    rewrite List.Forall_forall in Hrs. destruct (Hrs _ Hin) as [(_ & Hsz & _) Hlow].
    apply phys_check_fits; try done; lia.
  - intros Hlt Hf. rewrite List.Forall_forall in *. intros r Hin.
    pose proof (List.find_none _ _ Hf r Hin) as Hc. destruct (Hrs _ Hin) as [(_ & Hsz & _) [Hg Hr]].
    destruct Ha. unfold phys_check, region_end in Hc.
    rewrite !u64_small in Hc by (unfold is_u64; lia).
    apply andb_false_iff in Hc as [Hc|Hc]; boolify; lia.
Qed.

Definition vmi_region : MemoryRegion := mk_MemoryRegion 4 0 0x1000 4 4096.
Definition vmi_agent (log : list IntrospectionEvent) : VmiAgent SimK unit :=
  mk_VmiAgent 7 9 [] log 1 true 0x1001 2.
Definition vmi_machine : VirtualMachine :=
  mk_VirtualMachine 4 4160 1 [vmi_region] [mk_VCpu 5 0 8192 4160].
Definition vmi_world (agents : gmap Z (VmiAgent SimK unit)) : World SimK (VmiEnv SimK unit) :=
  sim_world (sim_vcpu []) {[4096 := [10; 20; 30; 40]]} (mk_VmiEnv {[7 := vmi_machine]} agents tt).

Lemma vmi_region_ok agents :
  Forall (fun r => region_ok r (h_mem (w_host (vmi_world agents))) /\ region_low r)
         (vm_memoryRegions vmi_machine).
Proof.
  constructor; [|constructor]. split; [|split; cbn; lia]. split; [done|]. split; [cbn; lia|].
  eexists. split; [apply lookup_singleton_eq|]. done.
Qed.

Lemma read_guest_phys_witness :
  readGuestPhysMemory (vmi_agent []) 0x1001 2 (vmi_world ∅) = Ok ([20; 30], vmi_world ∅) /\
  readGuestPhysMemory (vmi_agent []) (2 ^ 64 - 1) 2 (vmi_world ∅) = Fault OutOfBounds.
Proof.
  split.
  - destruct (read_guest_phys (vmi_agent []) vmi_machine 0x1001 2 (vmi_world ∅)) as [Hr _].
    + vm_compute; discriminate.
    + vm_compute; reflexivity.
    + apply vmi_region_ok.
    + split; lia.
    + unfold max_vector_size; lia.
    + rewrite Hr. vm_compute. reflexivity.
  - destruct (read_guest_phys (vmi_agent []) vmi_machine (2 ^ 64 - 1) 2 (vmi_world ∅)) as [Hr _].
    + vm_compute; discriminate.
    + vm_compute; reflexivity.
    + apply vmi_region_ok.
    + split; lia.
    + unfold max_vector_size; lia.
    + rewrite Hr. vm_compute. reflexivity.
Defined.

(** ** Handling an event *)

Section HandleProofs.

Context {K : Type} `{KvmLaws K} {U : Type}.
Implicit Types (a : VmiAgent K U) (w : World K (VmiEnv K U)).

(** What the agent is expected to record of an event. *)
Definition recorded a vm (m : memory) (event : HvEvent) (snap : GuestSnapshot) : IntrospectionEvent :=
  mk_IntrospectionEvent event snap
    (if va_memDumpEnabled a then
       match phys_bytes (vm_memoryRegions vm) m (va_memDumpAddr a) (va_memDumpSize a) with
       | [] => None
       | bytes => Some bytes
       end
     else None)
    (buildSummary event snap).

(** The world after the registers and the clock have been read. *)
Definition after_snapshot v w : World K (VmiEnv K U) :=
  let w1 := traced (Sys_ioctl (vc_fd v) KVM_GET_SREGS) (traced (Sys_ioctl (vc_fd v) KVM_GET_REGS) w) in
  on_host (set_kern (snd (k_clock (h_kern (w_host w))))) w1.

Lemma snapshot_ok a vm v i r s w :
  va_vm a <> nullptr -> ve_vms (w_env w) !! va_vm a = Some vm ->
  0 <= i -> vm_vcpus vm !! Z.to_nat i = Some v ->
  k_regs (h_kern (w_host w)) (vc_fd v) = Some r ->
  k_sregs (h_kern (w_host w)) (vc_fd v) = Some s ->
  snapshotRegisters a i w =
  Ok (Some (snapshot_of r s (fst (k_clock (h_kern (w_host w))))), after_snapshot v w).
Proof.
  intros Hp Hvm Hi Hv Hr Hs. unfold snapshotRegisters. rewrite (proj2 (Z.eqb_neq _ _) Hp).
  unfold bind at 1, vm_at. rewrite Hvm.
  pose proof (lookup_lt_Some _ _ _ Hv) as Hlt. unfold vcpus.
  rewrite (proj2 (Z.leb_gt _ _)) by lia. unfold bind at 1, vcpu_at. rewrite Hv. unfold ret at 1.
  rewrite (bind_Ok _ _ _ _ _ (getRegs_ok v r w Hr)).
  rewrite (bind_Ok _ _ _ _ _ (getSregs_ok v s (traced _ w) Hs)).
  unfold bind, steady_now, after_snapshot. cbn.
  by destruct (k_clock (h_kern (w_host w))).
Qed.

Lemma enrich_ok a vm v ev r s w :
  va_vm a <> nullptr -> ve_vms (w_env w) !! va_vm a = Some vm ->
  0 <= ev_vcpu_id ev -> vm_vcpus vm !! Z.to_nat (ev_vcpu_id ev) = Some v ->
  k_regs (h_kern (w_host w)) (vc_fd v) = Some r ->
  k_sregs (h_kern (w_host w)) (vc_fd v) = Some s ->
  Forall (fun r => region_ok r (h_mem (w_host w)) /\ region_low r) (vm_memoryRegions vm) ->
  is_u64 (va_memDumpAddr a) -> 0 <= va_memDumpSize a <= max_vector_size ->
  va_memDumpAddr a + va_memDumpSize a < 2 ^ 64 ->
  enrich a ev w =
  Ok (recorded a vm (h_mem (w_host w)) ev (snapshot_of r s (fst (k_clock (h_kern (w_host w))))),
      after_snapshot v w).
Proof.
  intros Hp Hvm Hi Hv Hr Hs Hrs Ha Hsz Hlt. unfold enrich.
  rewrite (bind_Ok _ _ _ _ _ (snapshot_ok a vm v _ r s w Hp Hvm Hi Hv Hr Hs)). cbn [default].
  set (w1 := after_snapshot v w). unfold recorded. destruct (va_memDumpEnabled a); [|done].
  assert (readGuestPhysMemory a (va_memDumpAddr a) (va_memDumpSize a) w1 =
          Ok (phys_bytes (vm_memoryRegions vm) (h_mem (w_host w)) (va_memDumpAddr a)
                         (va_memDumpSize a), w1)) as Hread.
  { unfold readGuestPhysMemory. rewrite (proj2 (Z.eqb_neq _ _) Hp). unfold bind, vm_at.
    cbn [w1 after_snapshot on_host traced w_env]. rewrite Hvm.
    unfold memoryRegions. rewrite read_in_outcome by done.
    by rewrite (proj2 (Z.leb_gt _ _)) by lia. }
  unfold bind at 1. rewrite (bind_Ok _ _ _ _ _ Hread). by destruct (phys_bytes _ _ _ _).
Qed.

End HandleProofs.

(** C22. When an event reaches the agent, the agent appends exactly one record
    to its log: the event itself, the registers of the vCPU the event names, as
    they are then, the configured memory range if dumping is on and the range
    is not empty, and the summary; then it calls its callbacks with that
    record, in the order they were registered.  Machines and other agents are
    untouched. *)
Theorem vmi_records_event {K} `{KvmLaws K} {U} this (a : VmiAgent K U) vm v ev r s
    (w : World K (VmiEnv K U)) :
  ve_agents (w_env w) !! this = Some a ->
  va_vm a <> nullptr -> ve_vms (w_env w) !! va_vm a = Some vm ->
  0 <= ev_vcpu_id ev -> vm_vcpus vm !! Z.to_nat (ev_vcpu_id ev) = Some v ->
  k_regs (h_kern (w_host w)) (vc_fd v) = Some r ->
  k_sregs (h_kern (w_host w)) (vc_fd v) = Some s ->
  Forall (fun r => region_ok r (h_mem (w_host w)) /\ region_low r) (vm_memoryRegions vm) ->
  is_u64 (va_memDumpAddr a) -> 0 <= va_memDumpSize a <= max_vector_size ->
  va_memDumpAddr a + va_memDumpSize a < 2 ^ 64 ->
  exists now w1,
    let ie := recorded a vm (h_mem (w_host w)) ev (snapshot_of r s now) in
    handleHvEvent this ev w = mapM_ (fun cb => in_user (cb ie)) (va_callbacks a) w1 /\
    h_mem (w_host w1) = h_mem (w_host w) /\
    ve_agents (w_env w1) = <[this := set_log a (va_eventLog a ++ [ie])]> (ve_agents (w_env w)) /\
    ve_vms (w_env w1) = ve_vms (w_env w) /\ ve_user (w_env w1) = ve_user (w_env w).
Proof.
  intros Ha Hp Hvm Hi Hv Hr Hs Hrs Hda Hds Hlt.
  exists (fst (k_clock (h_kern (w_host w)))). eexists. cbv zeta. split.
  - unfold handleHvEvent. unfold bind at 1, agent_at. rewrite Ha.
    rewrite (bind_Ok _ _ _ _ _ (enrich_ok a vm v ev r s w Hp Hvm Hi Hv Hr Hs Hrs Hda Hds Hlt)).
    unfold bind, set_agent. reflexivity.
  - by cbn.
Qed.

Definition vmi_event : HvEvent :=
  mk_HvEvent IoRead 0 0x1000 0 (PIo (mk_IoEvent 0x60 1 0x1A false)).

Lemma vmi_records_event_witness :
  exists now w1,
    let ie := recorded (vmi_agent []) vmi_machine {[4096 := [10; 20; 30; 40]]} vmi_event
                       (snapshot_of (fix_rflags zero_regs) zero_sregs now) in
    handleHvEvent 1 vmi_event (vmi_world {[1 := vmi_agent []]}) = Ok (tt, w1) /\
    nv_memDump ie = Some [20; 30] /\
    nv_summary ie = "[VCPU0] RIP=0x0 | IN port=0x60 size=1B value=0x1A"%string /\
    ve_agents (w_env w1) !! 1 = Some (vmi_agent [ie]).
Proof.
  destruct (vmi_records_event 1 (vmi_agent []) vmi_machine (mk_VCpu 5 0 8192 4160) vmi_event
              (fix_rflags zero_regs) zero_sregs (vmi_world {[1 := vmi_agent []]}))
    as (now & w1 & Hh & _ & Hag & _).
  - vm_compute; reflexivity.
  - vm_compute; discriminate.
  - vm_compute; reflexivity.
  - vm_compute; discriminate.
  - reflexivity.
  - vm_compute; reflexivity.
  - vm_compute; reflexivity.
  - apply vmi_region_ok.
  - split; cbn; lia.
  - unfold max_vector_size; cbn; lia.
  - cbn; lia.
  - exists now, w1. split; [exact Hh|]. split; [vm_compute; reflexivity|].
    split; [vm_compute; reflexivity|]. rewrite Hag. apply lookup_insert_eq.
Defined.

(** ** Lifetime *)

Section Lifetime.

Context {K : Type} `{Kernel K} {E : Type}.

Lemma deliver_app ev (l1 l2 : list (Subscription K E)) w :
  deliver ev (l1 ++ l2) w = bind (deliver ev l1) (fun _ => deliver ev l2) w.
Proof.
  revert w. induction l1 as [|s l1 IH]; intros w; [done|]. cbn [app deliver]. unfold bind in *.
  destruct ((if sub_matches ev s then sub_handler s ev else ret tt) w) as [[[] w1]|]; [apply IH|done].
Qed.

(** Subscribing and unsubscribing again leaves the subscriptions as they were. *)
Lemma subscribe_undo f handler (d : EventDispatcher K E) :
  dispatcher_ok d ->
  ed_subscriptions (unsubscribe (ed_nextId d) (snd (add_subscription f handler d)))
  = ed_subscriptions d.
Proof.
  intros (_ & Hf & _). cbn. rewrite List.filter_app. cbn. rewrite Z.eqb_refl. cbn.
  rewrite app_nil_r. apply filter_keep_all. eapply Forall_impl; [exact Hf|]. cbn. lia.
Qed.

End Lifetime.

(** Constructing an agent subscribes it last: every event published after
    it is delivered to the earlier subscribers and then handled by the agent.
    Destroying it takes exactly its subscription away again, so no event
    reaches the destroyed object. *)
Lemma vmi_lifetime {K} `{Kernel K} {U} this vm p (d : EventDispatcher K (VmiEnv K U)) ds w :
  p <> nullptr -> ds !! p = Some d -> dispatcher_ok d ->
  exists d1 w1,
    VmiAgent_new this vm p ds w = Ok (<[p := d1]> ds, w1) /\
    ve_agents (w_env w1) !! this = Some (mk_VmiAgent vm p [] [] (ed_nextId d) false 0 0) /\
    (forall ev w', deliver ev (ed_subscriptions d1) w' =
       bind (deliver ev (ed_subscriptions d)) (fun _ => handleHvEvent this ev) w') /\
    (forall a w2, ve_agents (w_env w2) !! this = Some a -> va_dispatch a = p ->
       va_subId a = ed_nextId d ->
       exists d2 w3, VmiAgent_destroy this (<[p := d1]> ds) w2 = Ok (<[p := d2]> ds, w3) /\
         ve_agents (w_env w3) = delete this (ve_agents (w_env w2)) /\
         (forall ev w', deliver ev (ed_subscriptions d2) w' = deliver ev (ed_subscriptions d) w')).
Proof.
  intros Hp Hd Hok. exists (snd (subscribeAll (handleHvEvent this) d)). eexists. split_and!.
  - unfold VmiAgent_new. rewrite (proj2 (Z.eqb_neq _ _) Hp).
    unfold bind at 1, dispatcher_at. rewrite Hd. reflexivity.
  - cbn. apply lookup_insert_eq.
  - intros ev w'. cbn [subscribeAll add_subscription snd ed_subscriptions]. rewrite deliver_app.
    unfold bind. destruct (deliver ev (ed_subscriptions d) w') as [[[] w1]|]; [|done].
    cbn. unfold bind. by destruct (handleHvEvent this ev w1) as [[[] ?]|].
  - intros a w2 Ha Hdisp Hsub.
    exists (unsubscribe (ed_nextId d) (snd (subscribeAll (handleHvEvent this) d))). eexists. split_and!.
    + unfold VmiAgent_destroy. unfold bind at 1, agent_at. rewrite Ha, Hdisp, Hsub.
      rewrite (proj2 (Z.eqb_neq _ _) Hp).
      assert ((ed_nextId d =? 0) = false) as -> by (destruct Hok as (_ & _ & ?); apply Z.eqb_neq; lia).
      cbn [negb andb]. unfold bind, dispatcher_at. rewrite lookup_insert_eq.
      cbn [ret]. rewrite insert_insert_eq. reflexivity.
    + done.
    + intros ev w'. unfold subscribeAll. by rewrite subscribe_undo.
Qed.

Lemma vmi_lifetime_witness :
  exists d1 w1, VmiAgent_new 1 7 9 {[9 := EventDispatcher_new]} (vmi_world ∅)
      = Ok (<[9 := d1]> {[9 := EventDispatcher_new]}, w1) /\
    ve_agents (w_env w1) !! 1 = Some (mk_VmiAgent 7 9 [] [] 1 false 0 0).
Proof.
  destruct (vmi_lifetime (K := SimK) (U := unit) 1 7 9 EventDispatcher_new
              {[9 := EventDispatcher_new]} (vmi_world ∅)) as (d1 & w1 & Hn & Ha & _).
  - vm_compute; discriminate.
  - apply lookup_singleton_eq.
  - apply dispatcher_new_ok.
  - exists d1, w1. split; [exact Hn|exact Ha].
Defined.

(** Moving an agent breaks its subscription: the defaulted move copies the
    subscription id and leaves the handler bound to the old address, so
    destroying the moved-from object unsubscribes, and from then on no event
    reaches the agent at its new address. *)
Lemma vmi_move_unsubscribes {K} `{Kernel K} {U} old new p a (d : EventDispatcher K (VmiEnv K U)) ds w :
  old <> new -> p <> nullptr -> dispatcher_ok d ->
  ve_agents (w_env w) !! old = Some a -> va_dispatch a = p -> va_subId a = ed_nextId d ->
  ds !! p = Some (snd (subscribeAll (handleHvEvent old) d)) ->
  exists d2 w2,
    bind (VmiAgent_move new old) (fun _ => VmiAgent_destroy old ds) w = Ok (<[p := d2]> ds, w2) /\
    ve_agents (w_env w2) !! new = Some a /\
    ed_subscriptions d2 = ed_subscriptions d.
Proof.
  intros Hne Hp Hok Ha Hdisp Hsub Hds.
  exists (unsubscribe (ed_nextId d) (snd (subscribeAll (handleHvEvent old) d))). eexists.
  split; [|split].
  - unfold VmiAgent_move, VmiAgent_destroy, agent_at, set_agent, free_agent, bind. rewrite Ha.
    cbn. rewrite lookup_insert_eq. cbn [moved_from va_dispatch va_subId]. rewrite Hdisp, Hsub.
    rewrite (proj2 (Z.eqb_neq _ _) Hp).
    assert ((ed_nextId d =? 0) = false) as -> by (destruct Hok as (_ & _ & ?); apply Z.eqb_neq; lia).
    cbn [negb andb]. unfold dispatcher_at. rewrite Hds. cbn. reflexivity.
  - cbn. rewrite lookup_delete_ne, lookup_insert_ne, lookup_insert_eq by done. done.
  - unfold subscribeAll. by apply subscribe_undo.
Qed.

Lemma vmi_move_unsubscribes_witness :
  let d := EventDispatcher_new in
  let ds := {[9 := snd (subscribeAll (handleHvEvent 1) d)]} in
  exists d2 w2, bind (VmiAgent_move 2 1) (fun _ => VmiAgent_destroy 1 ds)
      (vmi_world {[1 := vmi_agent []]}) = Ok (<[9 := d2]> ds, w2) /\ ed_subscriptions d2 = [].
Proof.
  intros d ds.
  destruct (vmi_move_unsubscribes (K := SimK) 1 2 9 (vmi_agent []) d ds
              (vmi_world {[1 := vmi_agent []]})) as (d2 & w2 & Hm & _ & Hs).
  - done.
  - vm_compute; discriminate.
  - apply dispatcher_new_ok.
  - vm_compute; reflexivity.
  - reflexivity.
  - reflexivity.
  - apply lookup_singleton_eq.
  - exists d2, w2. split; [exact Hm|exact Hs].
Defined.

(** ** The event log as JSON *)

Definition event_json (ie : IntrospectionEvent) : json :=
  JObj ([("timestamp"%string, JNum (to_ms (gs_timestamp (nv_snapshot ie))));
         ("vcpu_id"%string, JNum (ev_vcpu_id (nv_base ie)));
         ("rip"%string, JStr ("0x" <+ hex (gs_rip (nv_snapshot ie))));
         ("summary"%string, JStr (nv_summary ie))] ++
        match nv_memDump ie with
        | None => []
        | Some bytes => [("mem_dump"%string, JStr (hexdump bytes))]
        end).

(** What a reader gets back from one entry of the file. *)
Definition read_hex (s : string) : option Z :=
  match s with
  | String "0"%char (String "x"%char digits) => read_digits 16 digits 0
  | _ => None
  end.

Definition read_event (j : json) : option (Z * Z * Z * string * option (list Z)) :=
  match j with
  | JObj ((_, JNum ts) :: (_, JNum id) :: (_, JStr rip) :: (_, JStr summary) :: rest) =>
      match read_hex rip, rest with
      | Some ip, [] => Some (ts, id, ip, summary, None)
      | Some ip, [(_, JStr dump)] =>
          match read_hexdump dump with
          | Some bytes => Some (ts, id, ip, summary, Some bytes)
          | None => None
          end
      | _, _ => None
      end
  | _ => None
  end.

Definition event_view (ie : IntrospectionEvent) : Z * Z * Z * string * option (list Z) :=
  (to_ms (gs_timestamp (nv_snapshot ie)), ev_vcpu_id (nv_base ie), gs_rip (nv_snapshot ie),
   nv_summary ie, nv_memDump ie).

(** A record the agent can have made: the summary is the one it builds, and the
    numbers are of their C++ types. *)
Record loggable (ie : IntrospectionEvent) : Prop := {
  lg_summary : nv_summary ie = buildSummary (nv_base ie) (nv_snapshot ie);
  lg_id : is_u32 (ev_vcpu_id (nv_base ie));
  lg_rip : is_u64 (gs_rip (nv_snapshot ie));
  lg_time : - 2 ^ 63 <= gs_timestamp (nv_snapshot ie) < 2 ^ 63;
  lg_dump : Forall is_byte (default [] (nv_memDump ie)) }.

(** What the agent records of an event is loggable. *)
Lemma recorded_loggable {K U} (a : VmiAgent K U) vm m ev r s now :
  is_u32 (ev_vcpu_id ev) -> is_u64 (rip r) -> - 2 ^ 63 <= now < 2 ^ 63 ->
  Forall (fun reg => Forall is_byte (region_bytes reg m)) (vm_memoryRegions vm) ->
  loggable (recorded a vm m ev (snapshot_of r s now)).
Proof.
  intros Hid Hrip Hnow Hb. split; try done.
  assert (Forall is_byte (phys_bytes (vm_memoryRegions vm) m (va_memDumpAddr a) (va_memDumpSize a)))
    as Hp.
  { unfold phys_bytes. destruct (List.find _ _) as [reg|] eqn:Ef; [|constructor].
    apply List.find_some in Ef as [Hin _]. rewrite List.Forall_forall in Hb.
    by apply Forall_slice, Hb. }
  cbn [recorded nv_memDump]. destruct (va_memDumpEnabled a); [|constructor].
  by destruct (phys_bytes _ _ _ _).
Qed.

Lemma plain_append a b : plain a = true -> plain b = true -> plain (a <+ b) = true.
Proof. intros Ha Hb. by rewrite plain_app, Ha, Hb. Qed.

Ltac plain_pieces :=
  repeat match goal with
  | |- plain (String.append _ _) = true => apply plain_append
  | |- plain (HEX _) = true => apply plain_HEX
  | |- plain (hex _) = true => apply plain_hex
  | |- plain (dec _) = true => apply plain_dec
  | |- plain (if ?b then _ else _) = true => destruct b
  end; try reflexivity.

Lemma plain_summary ev snap : plain (buildSummary ev snap) = true.
Proof.
  unfold buildSummary, summary_payload. plain_pieces.
  destruct (ev_payload ev) as [p|p|p|p|]; plain_pieces. by destruct (ev_type ev).
Qed.

Lemma lex_q s : plain s = true -> lex_run LNormal (quoted s) = Some (LNormal, [TStr s]).
Proof.
  intros Hs. unfold quoted. cbn [lex_run]. change (lex_step LNormal dquote) with (Some (LStr [], @nil token)).
  cbn match. by rewrite (lex_quoted s "" LNormal [] Hs eq_refl).
Qed.

Lemma to_ms_range t : - 2 ^ 63 <= t < 2 ^ 63 -> - 2 ^ 63 <= to_ms t < 2 ^ 63.
Proof.
  intros Ht. unfold to_ms. pose proof (Z.quot_rem' t 1000000) as Hq.
  destruct (Z.le_gt_cases 0 t).
  - pose proof (Z.rem_bound_pos t 1000000 ltac:(lia) ltac:(lia)). lia.
  - pose proof (Z.rem_bound_pos_neg t 1000000 ltac:(lia) ltac:(lia)). lia.
Qed.

(** Lex a concatenation piece by piece: a literal by computation, a number or a
    quoted text by its lemma. *)
Ltac lex_piece :=
  first [ eassumption | apply lex_q; (eassumption || apply plain_hexdump || reflexivity)
        | reflexivity ].
Ltac lex_pieces :=
  lazymatch goal with
  | |- lex_run _ (String.append _ _) = _ => eapply lex_app; [lex_pieces|lex_pieces]
  | _ => lex_piece
  end.

(** One entry: its text is the tokens of its JSON value, and a comma when
    another entry follows. *)
Lemma lex_event ie last :
  loggable ie ->
  lex_run LNormal (dump_event ie last)
  = Some (LNormal, tokens (event_json ie) ++ (if last then [] else [TComma])).
Proof.
  intros [Hsum Hid Hrip Ht _]. unfold dump_event.
  destruct (lex_sdec _ (to_ms_range _ Ht)) as (neg & v & Hts & Hv).
  assert (is_u64 (ev_vcpu_id (nv_base ie))) as Hid64 by (unfold is_u32, is_u64 in *; lia).
  pose proof (lex_dec _ Hid64) as Hids.
  assert (plain (nv_summary ie) = true) as Hpl by (rewrite Hsum; apply plain_summary).
  assert (plain ("0x" <+ hex (gs_rip (nv_snapshot ie))) = true) as Hph
    by plain_pieces.
  destruct (nv_memDump ie) as [bytes|] eqn:Hd; destruct last;
    (etrans; [lex_pieces|]); unfold event_json; rewrite Hd, <-Hv; reflexivity.
Qed.


Lemma lex_events log :
  Forall loggable log ->
  lex_run LNormal (dump_events log) = Some (LNormal, commas (map (fun ie => tokens (event_json ie)) log)).
Proof.
  induction 1 as [|ie log Hie Hlog IH]; [done|]. cbn [dump_events map].
  rewrite (lex_app _ _ _ _ _ _ _ (lex_event ie _ Hie) IH).
  destruct log as [|ie' log]; [cbn [map commas]; by rewrite !app_nil_r|].
  cbn [map commas]. by rewrite <-app_assoc.
Qed.

Lemma read_event_view ie : loggable ie -> read_event (event_json ie) = Some (event_view ie).
Proof.
  intros [_ _ Hrip _ Hd]. unfold event_json, event_view, read_event.
  assert (read_hex ("0x" <+ hex (gs_rip (nv_snapshot ie))) = Some (gs_rip (nv_snapshot ie))) as Hh.
  { change (read_hex _) with (read_digits 16 (hex (gs_rip (nv_snapshot ie))) 0).
    apply read_print; [lia|done]. }
  cbn [app]. rewrite Hh. destruct (nv_memDump ie) as [bytes|]; [|done].
  by rewrite read_hexdump_dump.
Qed.

(** The whole text of a log. *)
Lemma dump_lexes log :
  Forall loggable log ->
  is_json ("[" <+ nl <+ dump_events log <+ "]" <+ nl) (JArr (map event_json log)).
Proof.
  intros Hlog. unfold is_json, lex.
  assert (lex_run LNormal ("[" <+ nl <+ dump_events log <+ "]" <+ nl)
          = Some (LNormal, [TLBrack] ++ [] ++
              commas (map (fun ie => tokens (event_json ie)) log) ++ [TRBrack])) as ->.
  { do 2 (eapply lex_app; [reflexivity|]). eapply lex_app; [by apply lex_events|reflexivity]. }
  cbn [tokens app]. by rewrite map_map.
Qed.

(** The file [dumpEventLog] writes is JSON, and nothing of the log is lost
    in it: a JSON parser reads the whole text as one array with one object per
    record, in the order of the log, and reading the objects back (the
    instruction pointer and the memory dump from their hexadecimal strings)
    gives the time in milliseconds, the vCPU, the instruction pointer, the
    summary and the dumped bytes of every record. *)
Lemma dump_is_json {K} `{Kernel K} {U} (a : VmiAgent K U) :
  Forall loggable (va_eventLog a) ->
  exists text items, dumpEventLog a true = Some text /\
    parse_json text = Some (JArr items) /\
    mapM read_event items = Some (map event_view (va_eventLog a)).
Proof.
  intros Hlog. eexists _, (map event_json (va_eventLog a)). split; [reflexivity|]. split.
  - by apply parse_is_json, dump_lexes.
  - apply mapM_Some. induction Hlog as [|ie log Hie _ IH]; constructor; [|exact IH].
    by apply read_event_view.
Qed.

Definition dumped_regs : kvm_regs := mk_regs 0 0 0 0 0 0 0 0 0 0 0 0 0 0 0 0 0x1abc 2.

Lemma dump_is_json_witness :
  let snap := snapshot_of (fix_rflags dumped_regs) zero_sregs 5000000 in
  let ie := mk_IntrospectionEvent vmi_event snap (Some [20; 0; 255]) (buildSummary vmi_event snap) in
  exists text items, dumpEventLog (vmi_agent [ie; ie]) true = Some text /\
    parse_json text = Some (JArr items) /\
    mapM read_event items
    = Some [(5, 0, 0x1abc, buildSummary vmi_event snap, Some [20; 0; 255]);
            (5, 0, 0x1abc, buildSummary vmi_event snap, Some [20; 0; 255])].
Proof.
  intros snap ie.
  destruct (dump_is_json (vmi_agent [ie; ie])) as (text & items & Hd & Hp & Hr).
  - assert (loggable ie) as Hie.
    { split; [reflexivity|split; cbn; lia|split; cbn; lia|split; cbn; lia|].
      apply bytesb_ok. reflexivity. }
    by repeat constructor.
  - exists text, items. split; [exact Hd|]. split; [exact Hp|]. etrans; [exact Hr|]. vm_compute. reflexivity.
Defined.
