(* ===== verification/Agents.v ===== *)
(** * Agents on a bus

    An agent is found by the bus through its address: the handler it subscribes
    captures [this].  This file looks at whole programs over agents: any number
    of them, constructed, moved, assigned, destroyed, told to call back and to
    dump memory, with other subscribers on the same bus and events published in
    between.  A roll of the agents ([roll]) says who is to hear what; the class
    refines it, faults included, for every sequence of commands whose objects
    are there. *)

From S2P Require Import Prelude Host SimKvm Memory Vcpu Dispatcher Machine Vmi.
From stdpp Require Import base list gmap strings.
From Stdlib Require Import ZArith Lia.
Open Scope Z_scope.
Open Scope hv_scope.

(** ** Programs *)

Section Programs.

Context {K : Type} `{Kernel K} {U : Type}.
Abbreviation Env := (VmiEnv K U).
Abbreviation dispatchers := (gmap Z (EventDispatcher K Env)).

Inductive agent_cmd :=
| Construct (x : Z)
| Destruct (x : Z)
| MoveTo (y x : Z)                                  (* y is constructed from x *)
| AssignTo (y x : Z)                                (* y = std::move(x) *)
| CallBack (x : Z) (cb : IntrospectionCallback K U)
| DumpOn (x addr size : Z)
| DumpOff (x : Z)
| Listen (f : option EventType) (h : Handler K Env)  (* another subscriber *)
| Publish (ev : HvEvent).

Context (vm_p bus_p : Z).

Definition exec_agent (c : agent_cmd) (ds : dispatchers) : M (World K Env) dispatchers :=
  match c with
  | Construct x => VmiAgent_new x vm_p bus_p ds
  | Destruct x => VmiAgent_destroy x ds
  | MoveTo y x => VmiAgent_move y x ;;; ret ds
  | AssignTo y x => VmiAgent_assign y x ;;; ret ds
  | CallBack x cb => onEvent x cb ;;; ret ds
  | DumpOn x addr size => enableMemoryDump x addr size ;;; ret ds
  | DumpOff x => disableMemoryDump x ;;; ret ds
  | Listen f h =>
      let* d := dispatcher_at bus_p ds in ret (<[bus_p := snd (add_subscription f h d)]> ds)
  | Publish ev =>
      let* d := dispatcher_at bus_p ds in let* d' := publish d ev in ret (<[bus_p := d']> ds)
  end.

Fixpoint run_agents (cmds : list agent_cmd) (ds : dispatchers) : M (World K Env) dispatchers :=
  match cmds with
  | [] => ret ds
  | c :: rest => let* ds' := exec_agent c ds in run_agents rest ds'
  end.

End Programs.
Arguments agent_cmd K U : clear implicits.

(** ** The roll *)

(** Who listens, by subscription id, an agent by its address; and of each agent
    the id it will give back and the events it has heard. *)
Record roll := mk_roll {
  rl_bus : list (Z * option Z);
  rl_next : Z;
  rl_agents : gmap Z (Z * list HvEvent) }.

Definition roll_new : roll := mk_roll [] 1 ∅.

(** Everyone who listens hears the event, in the order of the bus; one who is
    gone is a use after free. *)
Fixpoint tell (ev : HvEvent) (bus : list (Z * option Z)) (agents : gmap Z (Z * list HvEvent))
  : option (gmap Z (Z * list HvEvent)) :=
  match bus with
  | [] => Some agents
  | (_, None) :: rest => tell ev rest agents
  | (_, Some x) :: rest =>
      match agents !! x with
      | Some (i, heard) => tell ev rest (<[x := (i, heard ++ [ev])]> agents)
      | None => None
      end
  end.

Section Roll.

Context {K U : Type}.
Implicit Types (c : agent_cmd K U) (s : roll).

(** What becomes of the roll; [None] is a use after free. *)
Definition roll_step c s : option roll :=
  let 'mk_roll bus next agents := s in
  match c with
  | Construct x => Some (mk_roll (bus ++ [(next, Some x)]) (next + 1) (<[x := (next, [])]> agents))
  | Destruct x =>
      match agents !! x with
      | Some (i, _) => Some (mk_roll (List.filter (fun e => negb (e.1 =? i)) bus) next (delete x agents))
      | None => None
      end
  | MoveTo y x | AssignTo y x =>
      match agents !! x with
      | Some (i, heard) => Some (mk_roll bus next (<[x := (i, [])]> (<[y := (i, heard)]> agents)))
      | None => None
      end
  | CallBack _ _ | DumpOn _ _ _ | DumpOff _ => Some s
  | Listen _ _ => Some (mk_roll (bus ++ [(next, None)]) (next + 1) agents)
  | Publish ev => mk_roll bus next <$> tell ev bus agents
  end.

(** The commands of a C++ program: an object is constructed where there is
    none and used where there is one. *)
Definition is_live (x : Z) s : bool := bool_decide (is_Some (rl_agents s !! x)).

Definition legal c s : bool :=
  match c with
  | Construct x => negb (is_live x s)
  | MoveTo y x => negb (is_live y s) && is_live x s
  | AssignTo y x => is_live y s && is_live x s && negb (y =? x)
  | Destruct x | CallBack x _ | DumpOn x _ _ | DumpOff x => is_live x s
  | Listen _ _ | Publish _ => true
  end.

Fixpoint roll_run (cmds : list (agent_cmd K U)) s : option roll :=
  match cmds with
  | [] => Some s
  | c :: rest => match roll_step c s with Some s' => roll_run rest s' | None => None end
  end.

(** Legal up to the use after free, if there is one. *)
Fixpoint legal_run (cmds : list (agent_cmd K U)) s : bool :=
  match cmds with
  | [] => true
  | c :: rest => legal c s && match roll_step c s with Some s' => legal_run rest s' | None => true end
  end.

Lemma is_live_spec x s : is_live x s = true <-> is_Some (rl_agents s !! x).
Proof. unfold is_live. by rewrite bool_decide_eq_true. Qed.

Lemma not_live x s : negb (is_live x s) = true -> rl_agents s !! x = None.
Proof.
  unfold is_live. intros Hx%negb_true_iff. apply bool_decide_eq_false in Hx. by apply eq_None_not_Some.
Qed.

End Roll.

(** ** The refinement *)

Section Refinement.

Context {K : Type} `{Kernel K} {U : Type}.
Abbreviation Env := (VmiEnv K U).
Context (vm_p bus_p : Z) (vm : VirtualMachine).
Hypothesis vm_p_ok : vm_p <> nullptr.
Hypothesis bus_p_ok : bus_p <> nullptr.
Hypothesis vm_low : Forall region_low (vm_memoryRegions vm).
Implicit Types (w : World K Env) (d : EventDispatcher K Env) (a : VmiAgent K U).

(** The machine's RAM is mapped, and the machine is where the agents look. *)
Definition ram {E} (u : World K E) : Prop :=
  Forall (fun r => region_ok r (h_mem (w_host u))) (vm_memoryRegions vm).

Definition machine_there w : Prop := ve_vms (w_env w) !! vm_p = Some vm /\ ram w.

(** Callbacks and subscribers that return, and leave RAM and the agents alone. *)
Definition polite_callback (cb : IntrospectionCallback K U) : Prop :=
  forall ie u, ram u -> exists u', cb ie u = Ok (tt, u') /\ ram u'.

Definition polite_handler (h : Handler K Env) : Prop :=
  forall ev w, machine_there w ->
    exists w', h ev w = Ok (tt, w') /\ machine_there w' /\ ve_agents (w_env w') = ve_agents (w_env w).

Definition dump_ok (addr size : Z) : Prop :=
  is_u64 addr /\ 0 <= size <= max_vector_size /\ addr + size < 2 ^ 64.

Definition cmd_ok (c : agent_cmd K U) : Prop :=
  match c with
  | CallBack _ cb => polite_callback cb
  | DumpOn _ addr size => dump_ok addr size
  | Listen _ h => polite_handler h
  | Publish ev => 0 <= ev_vcpu_id ev
  | _ => True
  end.

Record agent_rel (e : Z * list HvEvent) a : Prop := {
  ar_vm : va_vm a = vm_p;
  ar_dispatch : va_dispatch a = bus_p;
  ar_id : va_subId a = e.1;
  ar_live : 1 <= e.1;
  ar_log : map nv_base (va_eventLog a) = e.2;
  ar_callbacks : Forall polite_callback (va_callbacks a);
  ar_dump : dump_ok (va_memDumpAddr a) (va_memDumpSize a) }.

Definition entry_rel (e : Z * option Z) (s : Subscription K Env) : Prop :=
  sub_id s = e.1 /\
  match e.2 with
  | Some x => sub_filter s = None /\ sub_handler s = handleHvEvent x
  | None => polite_handler (sub_handler s)
  end.

Definition agents_rel (agents : gmap Z (Z * list HvEvent)) w : Prop :=
  map_Forall2 (fun _ => agent_rel) agents (ve_agents (w_env w)).

Record roll_rel (s : roll) d w : Prop := {
  rr_bus : Forall2 entry_rel (rl_bus s) (ed_subscriptions d);
  rr_next : ed_nextId d = rl_next s;
  rr_low : 1 <= rl_next s;
  rr_agents : agents_rel (rl_agents s) w;
  rr_machine : machine_there w }.

(** *** What an agent reads, it reads without a fault *)

Definition unfaulting {A} (m : M (World K Env) A) : Prop :=
  forall w, exists x w', m w = Ok (x, w') /\ w_env w' = w_env w /\ h_mem (w_host w') = h_mem (w_host w).

Lemma unfaulting_ret {A} (x : A) : unfaulting (ret x).
Proof. intros w. by exists x, w. Qed.

Lemma unfaulting_bind {A B} (m : M (World K Env) A) (k : A -> M (World K Env) B) :
  unfaulting m -> (forall x, unfaulting (k x)) -> unfaulting (bind m k).
Proof.
  intros Hm Hk w. destruct (Hm w) as (a & w1 & E1 & He1 & Hm1). destruct (Hk a w1) as (b & w2 & E2 & He2 & Hm2).
  exists b, w2. rewrite (bind_Ok _ _ _ _ _ E1). split_and!; [done|congruence..].
Qed.

Lemma unfaulting_errno : unfaulting errno.
Proof. intros w. by do 2 eexists. Qed.

Lemma unfaulting_now : unfaulting steady_now.
Proof. intros w. unfold steady_now. destruct (k_clock _). by do 2 eexists. Qed.

Lemma unfaulting_ioctl fd req : unfaulting (ioctl fd req).
Proof. intros w. by do 2 eexists. Qed.

Lemma unfaulting_regs v : unfaulting (VCpu_getRegs v).
Proof.
  unfold VCpu_getRegs. apply unfaulting_bind; [apply unfaulting_ioctl|]. intros [r o].
  destruct (_ <? _); [|apply unfaulting_ret]. apply unfaulting_bind; [apply unfaulting_errno|].
  intros e. apply unfaulting_ret.
Qed.

Lemma unfaulting_sregs v : unfaulting (VCpu_getSregs v).
Proof.
  unfold VCpu_getSregs. apply unfaulting_bind; [apply unfaulting_ioctl|]. intros [r o].
  destruct (_ <? _); [|apply unfaulting_ret]. apply unfaulting_bind; [apply unfaulting_errno|].
  intros e. apply unfaulting_ret.
Qed.

Lemma snapshot_there a i w :
  va_vm a = vm_p -> machine_there w -> 0 <= i ->
  exists snap w', snapshotRegisters a i w = Ok (snap, w') /\ w_env w' = w_env w /\ h_mem (w_host w') = h_mem (w_host w).
Proof.
  intros Hp [Hvm _] Hi. unfold snapshotRegisters. rewrite Hp, (proj2 (Z.eqb_neq _ _) vm_p_ok).
  assert (vm_at vm_p w = Ok (vm, w)) as E0 by (unfold vm_at; by rewrite Hvm). rewrite (bind_Ok _ _ _ _ _ E0).
  unfold vcpus. destruct (_ <=? i) eqn:Ei; boolify; [apply unfaulting_ret|].
  destruct (lookup_lt_is_Some_2 (vm_vcpus vm) (Z.to_nat i)) as [v Hv]; [lia|].
  unfold bind at 1, vcpu_at. rewrite Hv. unfold ret at 1. revert w Hvm E0.
  match goal with |- forall w, _ -> _ -> exists x w', ?m w = _ /\ _ => enough (unfaulting m) by auto end.
  apply unfaulting_bind; [apply unfaulting_regs|]. intros regs.
  apply unfaulting_bind; [apply unfaulting_sregs|]. intros sregs.
  destruct regs, sregs; try apply unfaulting_ret. apply unfaulting_bind; [apply unfaulting_now|].
  intros now. apply unfaulting_ret.
Qed.

Lemma machine_same w w' :
  w_env w' = w_env w -> h_mem (w_host w') = h_mem (w_host w) -> machine_there w -> machine_there w'.
Proof. unfold machine_there, ram. by intros -> ->. Qed.

Lemma dump_there a w :
  va_vm a = vm_p -> machine_there w -> dump_ok (va_memDumpAddr a) (va_memDumpSize a) ->
  exists bytes, readGuestPhysMemory a (va_memDumpAddr a) (va_memDumpSize a) w = Ok (bytes, w).
Proof.
  intros Hp [Hvm Hram] (Ha & Hs & Hlt). eexists. unfold readGuestPhysMemory.
  rewrite Hp, (proj2 (Z.eqb_neq _ _) vm_p_ok). unfold bind, vm_at. rewrite Hvm. unfold memoryRegions.
  rewrite read_in_outcome; [|by apply Forall_and|done..]. by rewrite (proj2 (Z.leb_gt _ _)) by lia.
Qed.

Lemma enrich_there e a ev w :
  agent_rel e a -> machine_there w -> 0 <= ev_vcpu_id ev ->
  exists ie w', enrich a ev w = Ok (ie, w') /\ nv_base ie = ev /\ w_env w' = w_env w /\ machine_there w'.
Proof.
  intros [Hp _ _ _ _ _ Hd] Hw Hi. destruct (snapshot_there a _ w Hp Hw Hi) as (snap & w1 & E1 & He & Hm).
  pose proof (machine_same _ _ He Hm Hw) as Hw1. unfold enrich. rewrite (bind_Ok _ _ _ _ _ E1).
  destruct (va_memDumpEnabled a); [|by do 2 eexists].
  destruct (dump_there a w1 Hp Hw1 Hd) as (bytes & E2). unfold bind at 1. rewrite (bind_Ok _ _ _ _ _ E2).
  by do 2 eexists.
Qed.

(** *** Looking up and replacing agents *)

Lemma agents_some agents w x e :
  agents_rel agents w -> agents !! x = Some e ->
  exists a, ve_agents (w_env w) !! x = Some a /\ agent_rel e a.
Proof. intros Ha Hx. specialize (Ha x). rewrite Hx in Ha. inversion Ha; subst. eauto. Qed.

Lemma agents_none agents w x : agents_rel agents w -> agents !! x = None -> ve_agents (w_env w) !! x = None.
Proof. intros Ha Hx. specialize (Ha x). rewrite Hx in Ha. by inversion Ha. Qed.

Definition with_agents (m : gmap Z (VmiAgent K U)) w : World K Env :=
  mk_world (w_host w) (mk_VmiEnv (ve_vms (w_env w)) m (ve_user (w_env w))).

Lemma agent_at_ok x a w : ve_agents (w_env w) !! x = Some a -> agent_at x w = Ok (a, w).
Proof. intros Ha. unfold agent_at. by rewrite Ha. Qed.

Lemma agents_same agents w w' :
  ve_agents (w_env w') = ve_agents (w_env w) -> agents_rel agents w -> agents_rel agents w'.
Proof. unfold agents_rel. by intros ->. Qed.

Lemma agents_set agents x e a w :
  agents_rel agents w -> agent_rel e a ->
  agents_rel (<[x := e]> agents) (with_agents (<[x := a]> (ve_agents (w_env w))) w).
Proof. intros Ha Hr. by apply map_Forall2_insert_2. Qed.

(** *** An event *)

Lemma callbacks_there ie cbs w :
  Forall polite_callback cbs -> machine_there w ->
  exists w', mapM_ (fun cb => in_user (cb ie)) cbs w = Ok (tt, w') /\ machine_there w' /\
    ve_agents (w_env w') = ve_agents (w_env w).
Proof.
  intros Hcbs. revert w. induction Hcbs as [|cb cbs Hcb _ IH]; intros w Hw; [by exists w|]. cbn [mapM_].
  destruct (Hcb ie (mk_world (w_host w) (ve_user (w_env w))) (proj2 Hw)) as (u & E1 & Hu).
  set (w1 := mk_world (w_host u) (mk_VmiEnv (ve_vms (w_env w)) (ve_agents (w_env w)) (w_env u))).
  assert (in_user (cb ie) w = Ok (tt, w1)) as E2 by (unfold in_user; by rewrite E1).
  destruct (IH w1) as (w2 & E3 & Hw2 & Ha); [split; [exact (proj1 Hw)|exact Hu]|].
  exists w2. rewrite (bind_Ok _ _ _ _ _ E2). done.
Qed.

Lemma set_log_rel i heard a ie :
  agent_rel (i, heard) a -> agent_rel (i, heard ++ [nv_base ie]) (set_log a (va_eventLog a ++ [ie])).
Proof. intros [? ? ? ? Hl ? ?]. split; try done. cbn in *. by rewrite map_app, Hl. Qed.

(** An agent that is there hears the event; one that is not is a fault. *)
Lemma handler_there agents x ev w :
  agents_rel agents w -> machine_there w -> 0 <= ev_vcpu_id ev ->
  match agents !! x with
  | Some (i, heard) =>
      exists w', handleHvEvent x ev w = Ok (tt, w') /\ machine_there w' /\
        agents_rel (<[x := (i, heard ++ [ev])]> agents) w'
  | None => handleHvEvent x ev w = Fault UseAfterFree
  end.
Proof.
  intros Ha Hw Hi. unfold handleHvEvent. destruct (agents !! x) as [[i heard]|] eqn:Hx.
  2: { unfold bind, agent_at. by rewrite (agents_none _ _ _ Ha Hx). }
  destruct (agents_some _ _ _ _ Ha Hx) as (a & Hl & Hr). rewrite (bind_Ok _ _ _ _ _ (agent_at_ok _ _ _ Hl)).
  destruct (enrich_there _ _ ev w Hr Hw Hi) as (ie & w1 & E1 & <- & He & Hw1). rewrite (bind_Ok _ _ _ _ _ E1).
  set (a' := set_log a (va_eventLog a ++ [ie])).
  destruct (callbacks_there ie (va_callbacks a) (with_agents (<[x := a']> (ve_agents (w_env w1))) w1)
              (ar_callbacks _ _ Hr) Hw1) as (w2 & E2 & Hw2 & Ha2).
  exists w2. split; [exact E2|]. split; [done|]. eapply agents_same; [exact Ha2|].
  apply agents_set; [|by apply set_log_rel]. eapply agents_same; [by rewrite He|done].
Qed.

Lemma deliver_there ev bus subs agents w :
  Forall2 entry_rel bus subs -> agents_rel agents w -> machine_there w -> 0 <= ev_vcpu_id ev ->
  match tell ev bus agents with
  | Some agents' => exists w', deliver ev subs w = Ok (tt, w') /\ machine_there w' /\ agents_rel agents' w'
  | None => deliver ev subs w = Fault UseAfterFree
  end.
Proof.
  intros Hb. revert agents w. induction Hb as [|[id who] sub bus subs [_ He] _ IH]; intros agents w Ha Hw Hi.
  { by exists w. }
  cbn [tell deliver]. destruct who as [x|].
  - destruct He as [Hf Hh]. unfold sub_matches. rewrite Hf, Hh. cbn [negb].
    pose proof (handler_there agents x ev w Ha Hw Hi) as Hx. destruct (agents !! x) as [[i heard]|].
    + destruct Hx as (w1 & E1 & Hw1 & Ha1). unfold bind. rewrite E1. by apply IH.
    + unfold bind. by rewrite Hx.
  - destruct (sub_matches ev sub); [|by apply IH].
    destruct (He ev w Hw) as (w1 & E1 & Hw1 & Ha1). unfold bind. rewrite E1. apply IH; [|done..].
    by eapply agents_same.
Qed.

(** *** The commands *)

(** What [exec_agent] does, given what becomes of the roll. *)
Definition refines (r : option roll) (o : outcome (gmap Z (EventDispatcher K Env) * World K Env)) : Prop :=
  match r with
  | Some s' => exists d' w', o = Ok ({[bus_p := d']}, w') /\ roll_rel s' d' w'
  | None => o = Fault UseAfterFree
  end.

(** A command that changes an agent's settings. *)
Lemma setting_refines s d w x (f : VmiAgent K U -> VmiAgent K U) :
  roll_rel s d w -> is_live x s = true ->
  (forall e a, agent_rel e a -> agent_rel e (f a)) ->
  refines (Some s) (bind (bind (agent_at x) (fun a => set_agent x (f a))) (fun _ => ret {[bus_p := d]}) w).
Proof.
  intros [Hb Hn Hl Ha Hw] Hx Hf. apply is_live_spec in Hx as [e Hx].
  destruct (agents_some _ _ _ _ Ha Hx) as (a & Hl2 & Hr).
  exists d, (with_agents (<[x := f a]> (ve_agents (w_env w))) w). split.
  - unfold bind at 1. by rewrite (bind_Ok _ _ _ _ _ (agent_at_ok _ _ _ Hl2)).
  - split; try done. rewrite <-(insert_id _ _ _ Hx). by apply agents_set, Hf.
Qed.

Lemma construct_refines s d w x :
  roll_rel s d w -> legal (Construct (K := K) (U := U) x) s = true -> rl_next s + 1 < 2 ^ 32 ->
  refines (roll_step (Construct (K := K) (U := U) x) s) (exec_agent vm_p bus_p (Construct x) {[bus_p := d]} w).
Proof.
  intros [Hb Hn Hl Ha Hw] Hx Hlt. destruct s as [bus next agents]. cbn in *. unfold VmiAgent_new.
  rewrite (proj2 (Z.eqb_neq _ _) bus_p_ok). unfold bind at 1, dispatcher_at. rewrite lookup_singleton_eq.
  cbn -[insert singletonM map_singleton]. rewrite insert_singleton_eq. do 2 eexists. split; [reflexivity|]. split; cbn -[insert].
  - apply Forall2_app; [done|]. constructor; [|constructor]. by split.
  - rewrite Hn. apply u32_small. unfold is_u32. lia.
  - lia.
  - apply agents_set; [done|]. split; cbn; (done || unfold dump_ok, is_u64, max_vector_size; lia).
  - exact Hw.
Qed.

Lemma filter_entries i bus subs :
  Forall2 entry_rel bus subs ->
  Forall2 entry_rel (List.filter (fun e => negb (e.1 =? i)) bus) (List.filter (fun s => negb (sub_id s =? i)) subs).
Proof.
  induction 1 as [|e sub bus subs [He Hr] _ IH]; [constructor|]. cbn [List.filter]. rewrite He.
  destruct (negb _); [|done]. constructor; [by split|done].
Qed.

Lemma destruct_refines s d w x :
  roll_rel s d w -> legal (Destruct (K := K) (U := U) x) s = true ->
  refines (roll_step (Destruct (K := K) (U := U) x) s) (exec_agent vm_p bus_p (Destruct x) {[bus_p := d]} w).
Proof.
  intros [Hb Hn Hl Ha Hw] Hx. apply is_live_spec in Hx as [[i heard] Hx]. destruct s as [bus next agents].
  cbn -[delete] in *. rewrite Hx. destruct (agents_some _ _ _ _ Ha Hx) as (a & Hl2 & [_ Hd Hi Hlo _ _ _]).
  unfold VmiAgent_destroy. rewrite (bind_Ok _ _ _ _ _ (agent_at_ok _ _ _ Hl2)). rewrite Hd, Hi.
  cbn [fst] in *. rewrite (proj2 (Z.eqb_neq _ _) bus_p_ok), (proj2 (Z.eqb_neq i 0)) by lia. cbn [negb andb].
  unfold bind, dispatcher_at. rewrite lookup_singleton_eq. cbn -[insert singletonM map_singleton delete].
  rewrite insert_singleton_eq. do 2 eexists. split; [reflexivity|]. split; cbn -[delete]; try done.
  - by apply filter_entries.
  - by apply map_Forall2_delete.
Qed.

Lemma move_rel i heard a : agent_rel (i, heard) a -> agent_rel (i, []) (moved_from a).
Proof. intros [? ? ? ? ? ? ?]. by split. Qed.

Lemma move_refines s d w y x (c : agent_cmd K U) :
  roll_rel s d w -> is_live x s = true -> c = MoveTo y x ->
  refines (roll_step c s) (bind (VmiAgent_move y x) (fun _ => ret {[bus_p := d]}) w).
Proof.
  intros [Hb Hn Hl Ha Hw] Hx ->. apply is_live_spec in Hx as [[i heard] Hx]. destruct s as [bus next agents].
  cbn -[insert] in *. rewrite Hx. destruct (agents_some _ _ _ _ Ha Hx) as (a & Hl2 & Hr).
  exists d. eexists. split.
  - unfold VmiAgent_move. unfold bind at 1. rewrite (bind_Ok _ _ _ _ _ (agent_at_ok _ _ _ Hl2)). reflexivity.
  - split; try done. cbn -[insert]. apply map_Forall2_insert_2; [by eapply move_rel|].
    by apply map_Forall2_insert_2.
Qed.

Lemma assign_refines s d w y x :
  roll_rel s d w -> is_live y s = true -> is_live x s = true ->
  refines (roll_step (AssignTo (K := K) (U := U) y x) s) (exec_agent vm_p bus_p (AssignTo y x) {[bus_p := d]} w).
Proof.
  intros Hs Hy Hx. apply is_live_spec in Hy as [e Hy].
  destruct (agents_some _ _ _ _ (rr_agents _ _ _ Hs) Hy) as (a & Hl & _).
  pose proof (move_refines s d w y x (MoveTo y x) Hs Hx eq_refl) as Hm.
  cbn [exec_agent]. unfold VmiAgent_assign, bind at 1, bind at 1. rewrite (agent_at_ok _ _ _ Hl). exact Hm.
Qed.

Lemma listen_refines s d w f h :
  roll_rel s d w -> polite_handler h -> rl_next s + 1 < 2 ^ 32 ->
  refines (roll_step (Listen f h) s) (exec_agent vm_p bus_p (Listen f h) {[bus_p := d]} w).
Proof.
  intros [Hb Hn Hl Ha Hw] Hh Hlt. destruct s as [bus next agents]. cbn in *.
  unfold bind, dispatcher_at. rewrite lookup_singleton_eq. cbn -[insert singletonM map_singleton].
  rewrite insert_singleton_eq. do 2 eexists. split; [reflexivity|]. split; cbn; try done.
  - apply Forall2_app; [done|]. constructor; [|constructor]. by split.
  - rewrite Hn. apply u32_small. unfold is_u32. lia.
  - lia.
Qed.

Lemma publish_refines s d w ev :
  roll_rel s d w -> 0 <= ev_vcpu_id ev ->
  refines (roll_step (Publish (K := K) (U := U) ev) s) (exec_agent vm_p bus_p (Publish ev) {[bus_p := d]} w).
Proof.
  intros [Hb Hn Hl Ha Hw] Hi. destruct s as [bus next agents]. cbn [rl_bus rl_next rl_agents roll_step] in *.
  pose proof (deliver_there ev bus _ agents w Hb Ha Hw Hi) as Hd. cbn [exec_agent].
  unfold bind at 1, dispatcher_at. rewrite lookup_singleton_eq. cbn [ret]. unfold publish. cbn [ed_subscriptions].
  destruct (tell ev bus agents) as [agents'|]; cbn [fmap option_fmap option_map refines].
  - destruct Hd as (w' & E1 & Hw' & Ha'). unfold bind at 1. rewrite (bind_Ok _ _ _ _ _ E1).
    unfold ret. rewrite insert_singleton_eq. do 2 eexists. split; [reflexivity|]. by split.
  - unfold bind at 1. unfold bind at 1. by rewrite Hd.
Qed.

Lemma step_refines c s d w :
  roll_rel s d w -> legal c s = true -> cmd_ok c -> rl_next s + 1 < 2 ^ 32 ->
  refines (roll_step c s) (exec_agent vm_p bus_p c {[bus_p := d]} w).
Proof.
  intros Hs Hc Hok Hlt. destruct c as [x|x|y x|y x|x cb|x addr size|x|f h|ev].
  - by apply construct_refines.
  - by apply destruct_refines.
  - cbn [legal] in Hc. apply andb_true_iff in Hc as [_ Hx]. exact (move_refines s d w y x _ Hs Hx eq_refl).
  - cbn [legal] in Hc. apply andb_true_iff in Hc as [[Hy Hx]%andb_true_iff _]. by apply assign_refines.
  - destruct s. apply (setting_refines _ d w x (fun a => mk_VmiAgent (va_vm a) (va_dispatch a) (va_callbacks a ++ [cb])
      (va_eventLog a) (va_subId a) (va_memDumpEnabled a) (va_memDumpAddr a) (va_memDumpSize a))); try done.
    intros e a []. split; try done. apply Forall_app. by split; [|constructor].
  - destruct s. apply (setting_refines _ d w x (fun a => set_dump a true addr size)); try done. intros e a []. by split.
  - destruct s. apply (setting_refines _ d w x (fun a => set_dump a false (va_memDumpAddr a) (va_memDumpSize a))); try done.
    intros e a []. by split.
  - by apply listen_refines.
  - by apply publish_refines.
Qed.

Lemma roll_next_step (c : agent_cmd K U) s s' : roll_step c s = Some s' -> rl_next s' <= rl_next s + 1.
Proof.
  destruct s as [bus next agents]. unfold roll_step.
  destruct c; try (intros [= <-]; cbn; lia);
    repeat case_match; intros Hs; simplify_option_eq; lia.
Qed.

Lemma run_refines cmds s d w :
  roll_rel s d w -> legal_run cmds s = true -> Forall cmd_ok cmds ->
  rl_next s + Z.of_nat (length cmds) < 2 ^ 32 ->
  refines (roll_run cmds s) (run_agents vm_p bus_p cmds {[bus_p := d]} w).
Proof.
  intros Hs Hc Hok. revert s d w Hs Hc. induction Hok as [|c cmds Hc Hok IH]; intros s d w Hs Hl Hlt; [by exists d, w|].
  cbn [legal_run roll_run run_agents length] in *. apply andb_true_iff in Hl as [Hl Hr].
  pose proof (step_refines c s d w Hs Hl Hc) as Hstep. destruct (roll_step c s) as [s'|] eqn:Es.
  - destruct Hstep as (d' & w' & E1 & Hs'); [lia|]. rewrite (bind_Ok _ _ _ _ _ E1). apply IH; [done..|].
    pose proof (roll_next_step c s s' Es). lia.
  - unfold bind. rewrite Hstep by lia. done.
Qed.

End Refinement.

(** ** What the roll says of programs without move assignments *)

Section Rolls.

Context {K U : Type}.
Implicit Types (c : agent_cmd K U) (s : roll) (agents : gmap Z (Z * list HvEvent)).

Definition assigns c : bool := match c with AssignTo _ _ => true | _ => false end.
Definition moves c : bool := match c with MoveTo _ _ => true | _ => false end.

(** Every agent on the bus is there, and holds the id of its entry. *)
Definition anchored (bus : list (Z * option Z)) agents : Prop :=
  forall i x, (i, Some x) ∈ bus -> exists heard, agents !! x = Some (i, heard).

Lemma anchored_tail e bus agents : anchored (e :: bus) agents -> anchored bus agents.
Proof. intros Ha i x Hx. apply Ha. by constructor. Qed.

Lemma anchored_ids bus agents agents' :
  (forall x, fst <$> agents' !! x = fst <$> agents !! x) -> anchored bus agents -> anchored bus agents'.
Proof.
  intros He Ha i x Hx. destruct (Ha i x Hx) as [heard Hl]. specialize (He x). rewrite Hl in He.
  destruct (agents' !! x) as [[j h]|]; [|done]. cbn in He. injection He as ->. by exists h.
Qed.

Lemma append_ids agents x i heard ev y :
  agents !! x = Some (i, heard) ->
  fst <$> <[x := (i, heard ++ [ev])]> agents !! y = fst <$> agents !! y.
Proof.
  intros Hx. destruct (decide (x = y)) as [<-|Hne]; [by rewrite lookup_insert_eq, Hx|by rewrite lookup_insert_ne].
Qed.

(** So an event is heard without a fault. *)
Lemma tell_anchored ev bus agents :
  anchored bus agents ->
  exists agents', tell ev bus agents = Some agents' /\ (forall x, fst <$> agents' !! x = fst <$> agents !! x).
Proof.
  revert agents. induction bus as [|[i who] bus IH]; intros agents Ha; [by exists agents|]. cbn [tell].
  pose proof (anchored_tail _ _ _ Ha) as Ht. destruct who as [x|]; [|by apply IH].
  destruct (Ha i x) as [heard Hx]; [by constructor|]. rewrite Hx.
  pose proof (fun y => append_ids agents x i heard ev y Hx) as He.
  destruct (IH _ (anchored_ids _ _ _ He Ht)) as (agents' & -> & Hids). exists agents'. split; [done|].
  intros y. by rewrite Hids.
Qed.

Lemma anchored_step c s s' :
  anchored (rl_bus s) (rl_agents s) -> legal c s = true -> assigns c = false ->
  roll_step c s = Some s' -> anchored (rl_bus s') (rl_agents s').
Proof.
  destruct s as [bus next agents]. intros Ha Hl Hc Hs. cbn [rl_bus rl_agents] in Ha.
  destruct c as [x|x|y x|y x|x cb|x addr size|x|f h|ev]; cbn [legal] in Hl; try done; cbn [roll_step] in Hs;
    try (injection Hs as <-; exact Ha).
  - injection Hs as <-. intros i z Hz. cbn. apply not_live in Hl. cbn in Hl.
    apply list_elem_of_In, in_app_or in Hz as [Hz|[[= <- <-]|[]]]; [|rewrite lookup_insert_eq; eauto].
    apply list_elem_of_In in Hz. destruct (Ha i z Hz) as [heard Hh].
    rewrite lookup_insert_ne; [eauto|]. intros ->. congruence.
  - destruct (agents !! x) as [[i heard]|] eqn:Hx; [|done]. injection Hs as <-. intros j z Hz. cbn.
    apply list_elem_of_In, List.filter_In in Hz as [Hz Hne]. apply list_elem_of_In in Hz.
    destruct (Ha j z Hz) as [h Hh]. rewrite lookup_delete_ne; [eauto|]. intros ->.
    rewrite Hx in Hh. injection Hh as -> _. cbn in Hne. by rewrite Z.eqb_refl in Hne.
  - apply andb_true_iff in Hl as [Hy _]. apply not_live in Hy. cbn in Hy.
    destruct (agents !! x) as [[i heard]|] eqn:Hx; [|done]. injection Hs as <-. intros j z Hz. cbn.
    destruct (Ha j z Hz) as [h Hh]. destruct (decide (x = z)) as [<-|Hne].
    { rewrite lookup_insert_eq. rewrite Hx in Hh. injection Hh as -> _. eauto. }
    rewrite !lookup_insert_ne; [eauto| |done]. intros ->. congruence.
  - injection Hs as <-. intros i z Hz. cbn. apply list_elem_of_In, in_app_or in Hz as [Hz|[[= _]|[]]].
    by apply Ha, list_elem_of_In.
  - destruct (tell_anchored ev bus agents Ha) as (agents' & Ht & Hids). rewrite Ht in Hs. injection Hs as <-.
    by eapply anchored_ids.
Qed.

(** No step is a use after free. *)
Lemma anchored_total c s :
  anchored (rl_bus s) (rl_agents s) -> legal c s = true -> is_Some (roll_step c s).
Proof.
  destruct s as [bus next agents]. intros Ha Hl.
  assert (forall x, is_live x (mk_roll bus next agents) = true -> exists e, agents !! x = Some e) as Hlive
    by (intros x [e Hx]%is_live_spec; by exists e).
  destruct c as [x|x|y x|y x|x cb|x addr size|x|f h|ev]; cbn [legal] in Hl; cbn [roll_step]; try by eexists.
  - destruct (Hlive x Hl) as [[i h] ->]. by eexists.
  - apply andb_true_iff in Hl as [_ Hx]. destruct (Hlive x Hx) as [[i h] ->]. by eexists.
  - apply andb_true_iff in Hl as [[_ Hx]%andb_true_iff _]. destruct (Hlive x Hx) as [[i h] ->]. by eexists.
  - destruct (tell_anchored ev bus agents Ha) as (agents' & -> & _). by eexists.
Qed.

Lemma anchored_run cmds s :
  anchored (rl_bus s) (rl_agents s) -> legal_run cmds s = true -> forallb (fun c => negb (assigns c)) cmds = true ->
  is_Some (roll_run cmds s).
Proof.
  revert s. induction cmds as [|c cmds IH]; intros s Ha Hl Hc; [by eexists|].
  cbn [legal_run roll_run forallb] in *. apply andb_true_iff in Hl as [Hl Hr], Hc as [Hc Hcs].
  destruct (anchored_total c s Ha Hl) as [s' Hs]. rewrite Hs in *. apply IH; [|done..].
  eapply anchored_step; [exact Ha|exact Hl| |exact Hs]. by destruct (assigns c).
Qed.

(** *** Without moves, the roll is the history *)

(** What the agents have heard, from the commands alone: there is no bus here,
    and no id. *)
Definition hear c (m : gmap Z (list HvEvent)) : gmap Z (list HvEvent) :=
  match c with
  | Construct x => <[x := []]> m
  | Destruct x => delete x m
  | Publish ev => (fun heard => heard ++ [ev]) <$> m
  | _ => m
  end.

Definition heard (cmds : list (agent_cmd K U)) : gmap Z (list HvEvent) := fold_left (fun m c => hear c m) cmds ∅.

(** The entries of an agent. *)
Definition ears (x : Z) (bus : list (Z * option Z)) : list (Z * option Z) :=
  List.filter (fun e => bool_decide (e.2 = Some x)) bus.

(** Every agent has one entry, under the id it holds; ids are given once. *)
Record settled s : Prop := {
  st_ids : NoDup (rl_bus s).*1;
  st_low : Forall (fun i => i < rl_next s) (rl_bus s).*1;
  st_ears x : ears x (rl_bus s) = match rl_agents s !! x with Some (i, _) => [(i, Some x)] | None => [] end }.

Lemma in_ears i x bus : (i, Some x) ∈ ears x bus <-> (i, Some x) ∈ bus.
Proof.
  rewrite !list_elem_of_In. unfold ears. rewrite List.filter_In. cbn. rewrite bool_decide_eq_true. tauto.
Qed.

Lemma settled_anchored s : settled s -> anchored (rl_bus s) (rl_agents s).
Proof.
  intros [_ _ He] i x Hx. apply in_ears in Hx. rewrite He in Hx. destruct (rl_agents s !! x) as [[j h]|].
  - apply list_elem_of_singleton in Hx as [= ->]. by exists h.
  - by apply not_elem_of_nil in Hx.
Qed.

(** Telling an event appends it once per entry. *)
Lemma tell_ears ev bus agents agents' :
  tell ev bus agents = Some agents' ->
  forall x, agents' !! x = (fun e => (e.1, e.2 ++ replicate (length (ears x bus)) ev)) <$> agents !! x.
Proof.
  revert agents. induction bus as [|[i who] bus IH]; intros agents; cbn [tell].
  { intros [= <-] x. cbn. destruct (agents !! x) as [[j h]|]; cbn; [by rewrite app_nil_r|done]. }
  destruct who as [z|]; [|intros Ht x; by rewrite (IH _ Ht)].
  destruct (agents !! z) as [[j h]|] eqn:Hz; [|done]. intros Ht x. rewrite (IH _ Ht). cbn [ears List.filter snd].
  destruct (decide (z = x)) as [<-|Hne].
  - rewrite lookup_insert_eq, Hz, bool_decide_eq_true_2 by done. cbn. by rewrite <-app_assoc.
  - rewrite lookup_insert_ne, bool_decide_eq_false_2 by congruence. done.
Qed.

Lemma filter_swap {A} (p q : A -> bool) (l : list A) : List.filter p (List.filter q l) = List.filter q (List.filter p l).
Proof. induction l as [|a l IH]; [done|]. cbn. destruct (p a) eqn:Ep, (q a) eqn:Eq; cbn; rewrite ?Ep, ?Eq, IH; done. Qed.

Lemma ears_app x bus1 bus2 : ears x (bus1 ++ bus2) = ears x bus1 ++ ears x bus2.
Proof. apply List.filter_app. Qed.

(** A new entry takes an id that is not in use. *)
Lemma settled_fresh s who :
  settled s -> NoDup (rl_bus s ++ [(rl_next s, who)]).*1 /\
  Forall (fun i => i < rl_next s + 1) (rl_bus s ++ [(rl_next s, who)]).*1.
Proof.
  intros [Hn Hl _]. rewrite fmap_app. cbn. split.
  - apply NoDup_app. split; [done|]. split; [|apply NoDup_singleton]. intros i Hi ->%list_elem_of_singleton.
    rewrite Forall_forall in Hl. specialize (Hl _ Hi). cbn in Hl. lia.
  - apply Forall_app. split; [eapply Forall_impl; [exact Hl|]; cbn; lia|]. constructor; [lia|constructor].
Qed.

Lemma settled_same_id s i x y h h' :
  settled s -> rl_agents s !! x = Some (i, h) -> rl_agents s !! y = Some (i, h') -> x = y.
Proof.
  intros [Hn _ He] Hx Hy.
  assert (forall z k, rl_agents s !! z = Some (i, k) -> (i, Some z) ∈ rl_bus s) as Hin.
  { intros z k Hz. apply in_ears. rewrite He, Hz. by constructor. }
  apply Hin in Hx, Hy. apply list_elem_of_lookup in Hx as [a Ha], Hy as [b Hb].
  assert (a = b) as ->.
  { eapply (NoDup_lookup (rl_bus s).*1); [exact Hn| |]; rewrite list_lookup_fmap, ?Ha, ?Hb; done. }
  congruence.
Qed.

Lemma settled_construct s x :
  settled s -> rl_agents s !! x = None ->
  settled (mk_roll (rl_bus s ++ [(rl_next s, Some x)]) (rl_next s + 1) (<[x := (rl_next s, [])]> (rl_agents s))).
Proof.
  intros Hs Hx. destruct (settled_fresh s (Some x) Hs) as [H1 H2]. split; cbn [rl_bus rl_next rl_agents]; [done..|].
  intros z. rewrite ears_app, (st_ears _ Hs). cbn [ears List.filter snd]. destruct (decide (x = z)) as [<-|Hne].
  - by rewrite Hx, lookup_insert_eq, bool_decide_eq_true_2.
  - by rewrite lookup_insert_ne, bool_decide_eq_false_2, app_nil_r by congruence.
Qed.

Lemma settled_destruct s x i h :
  settled s -> rl_agents s !! x = Some (i, h) ->
  settled (mk_roll (List.filter (fun e => negb (e.1 =? i)) (rl_bus s)) (rl_next s) (delete x (rl_agents s))).
Proof.
  intros Hs Hx. pose proof Hs as [Hn Hl He]. split; cbn [rl_bus rl_next rl_agents].
  - clear -Hn. induction (rl_bus s) as [|e bus IH]; [constructor|]. cbn in Hn |- *. apply NoDup_cons in Hn as [Hi Hn].
    destruct (negb _); [|by apply IH]. cbn. apply NoDup_cons. split; [|by apply IH]. intros Hin. apply Hi.
    apply list_elem_of_fmap in Hin as (e' & -> & Hin). apply list_elem_of_In, List.filter_In in Hin as [Hin _].
    apply list_elem_of_fmap. exists e'. split; [done|]. by apply list_elem_of_In.
  - clear -Hl. induction (rl_bus s) as [|e bus IH]; [constructor|]. cbn in Hl |- *. apply Forall_cons in Hl as [Hi Hl].
    destruct (negb _); [|by apply IH]. constructor; [done|by apply IH].
  - intros z. unfold ears in *. rewrite filter_swap, He. destruct (decide (x = z)) as [<-|Hne].
    + rewrite Hx, lookup_delete_eq. cbn. by rewrite Z.eqb_refl.
    + rewrite lookup_delete_ne by done. destruct (rl_agents s !! z) as [[j k]|] eqn:Hz; [|done]. cbn.
      destruct (Z.eqb_spec j i) as [->|]; [|done]. by destruct (Hne (settled_same_id s i x z h k Hs Hx Hz)).
Qed.

Lemma settled_publish s ev agents' :
  settled s -> tell ev (rl_bus s) (rl_agents s) = Some agents' ->
  settled (mk_roll (rl_bus s) (rl_next s) agents') /\
  snd <$> agents' = (fun heard => heard ++ [ev]) <$> (snd <$> rl_agents s).
Proof.
  intros [Hn Hl He] Ht. pose proof (tell_ears _ _ _ _ Ht) as Hx. split.
  - split; cbn [rl_bus rl_next rl_agents]; [done..|]. intros x. rewrite Hx, He.
    by destruct (rl_agents s !! x) as [[i h]|].
  - apply map_eq. intros x. rewrite !lookup_fmap, Hx, He. by destruct (rl_agents s !! x) as [[i h]|].
Qed.

(** The roll and the history go together. *)
Lemma settled_step c s s' :
  settled s -> legal c s = true -> assigns c = false -> moves c = false -> roll_step c s = Some s' ->
  settled s' /\ snd <$> rl_agents s' = hear c (snd <$> rl_agents s).
Proof.
  intros Hs Hl Ha Hm Hstep. destruct s as [bus next agents] eqn:Es. rewrite <-Es in Hs, Hl. 
  destruct c as [x|x|y x|y x|x cb|x addr size|x|f h|ev]; try done; cbn [roll_step hear legal] in *;
    try (injection Hstep as <-; by subst).
  - injection Hstep as <-. apply not_live in Hl. pose proof (settled_construct s x Hs Hl) as Hc. subst s.
    split; [exact Hc|]. cbn. by rewrite fmap_insert.
  - destruct (agents !! x) as [[i k]|] eqn:Hx; [|done]. injection Hstep as <-.
    assert (rl_agents s !! x = Some (i, k)) as Hx' by (by subst s).
    pose proof (settled_destruct s x i k Hs Hx') as Hc. subst s. split; [exact Hc|]. cbn. by rewrite fmap_delete.
  - injection Hstep as <-. destruct (settled_fresh s None Hs) as [H1 H2]. subst s. split; [|done].
    split; cbn [rl_bus rl_next rl_agents] in *; [done..|]. intros z. rewrite ears_app, (st_ears _ Hs). cbn.
    apply app_nil_r.
  - destruct (tell ev bus agents) as [agents'|] eqn:Ht; [|done]. injection Hstep as <-. subst s.
    exact (settled_publish _ ev agents' Hs Ht).
Qed.

Lemma settled_run cmds s s' :
  settled s -> legal_run cmds s = true ->
  forallb (fun c => negb (assigns c)) cmds = true -> forallb (fun c => negb (moves c)) cmds = true ->
  roll_run cmds s = Some s' ->
  snd <$> rl_agents s' = fold_left (fun m c => hear c m) cmds (snd <$> rl_agents s).
Proof.
  revert s. induction cmds as [|c cmds IH]; intros s Hs Hl Ha Hm Hr; [by injection Hr as <-|].
  cbn [legal_run roll_run forallb fold_left] in *.
  apply andb_true_iff in Hl as [Hl Hls], Ha as [Ha Has], Hm as [Hm Hms].
  destruct (roll_step c s) as [s1|] eqn:Es; [|done].
  destruct (settled_step c s s1 Hs Hl) as [Hs1 <-]; [by destruct (assigns c)|by destruct (moves c)|done|].
  by apply IH.
Qed.

Lemma settled_new : settled roll_new.
Proof. split; cbn; [constructor..|]. intros x. by rewrite lookup_empty. Qed.

End Rolls.

(** ** Properties *)

(** What can be seen of the agents: the events in the logs. *)
Definition agent_logs {K U} (w : World K (VmiEnv K U)) : gmap Z (list HvEvent) :=
  (fun a => map nv_base (va_eventLog a)) <$> ve_agents (w_env w).

Section Start.

Context {K : Type} `{Kernel K} {U : Type}.
Context (vm_p bus_p : Z) (vm : VirtualMachine).
Implicit Types (w : World K (VmiEnv K U)).

(** Where a program over agents starts: an empty bus, a machine, no agents. *)
Record agents_start w : Prop := {
  as_vm_p : vm_p <> nullptr;
  as_bus_p : bus_p <> nullptr;
  as_low : Forall region_low (vm_memoryRegions vm);
  as_agents : ve_agents (w_env w) = ∅;
  as_machine : machine_there vm_p vm w }.

Lemma roll_rel_new w : agents_start w -> roll_rel vm_p bus_p vm roll_new EventDispatcher_new w.
Proof.
  intros [_ _ _ Ha Hm]. split; cbn; try done. unfold agents_rel. rewrite Ha. apply map_Forall2_empty.
Qed.

Lemma rel_logs agents w : agents_rel vm_p bus_p vm agents w -> agent_logs w = snd <$> agents.
Proof.
  intros Ha. apply map_eq. intros x. unfold agent_logs. rewrite !lookup_fmap. specialize (Ha x).
  inversion Ha as [e a Hr|]; [|done]. cbn. f_equal. apply Hr.
Qed.

Lemma rel_ids s d w : roll_rel vm_p bus_p vm s d w -> sub_ids d = (rl_bus s).*1.
Proof.
  intros [Hb _ _ _ _]. unfold sub_ids. induction Hb as [|e sub bus subs [He _] _ IH]; [done|]. cbn. by rewrite He, IH.
Qed.

(** The run of a program, as the roll tells it. *)
Lemma run_as_roll (cmds : list (agent_cmd K U)) w :
  agents_start w -> Forall (cmd_ok vm_p vm) cmds -> legal_run cmds roll_new = true ->
  Z.of_nat (length cmds) < 2 ^ 32 - 1 ->
  match roll_run cmds roll_new with
  | Some s => exists d w', run_agents vm_p bus_p cmds {[bus_p := EventDispatcher_new]} w = Ok ({[bus_p := d]}, w') /\
      sub_ids d = (rl_bus s).*1 /\ agent_logs w' = snd <$> rl_agents s
  | None => run_agents vm_p bus_p cmds {[bus_p := EventDispatcher_new]} w = Fault UseAfterFree
  end.
Proof.
  intros Hw Hok Hl Hlen. pose proof Hw as [Hv Hb Hlow _ _].
  pose proof (run_refines vm_p bus_p vm Hv Hb Hlow cmds roll_new EventDispatcher_new w (roll_rel_new w Hw) Hl Hok) as Hr.
  destruct (roll_run cmds roll_new) as [s|]; [|apply Hr; cbn [roll_new rl_next]; lia].
  destruct Hr as (d & w' & E1 & Hs); [cbn [roll_new rl_next]; lia|]. exists d, w'.
  split; [exact E1|]. split; [by eapply rel_ids|by apply rel_logs, Hs].
Qed.

End Start.

(** C37. Programs over agents on a shared bus refine the roll of the agents: for
    every sequence of constructions, destructions, move constructions and
    assignments, callbacks, dump settings, other subscriptions and published
    events in which objects are constructed where there are none and used where
    there are some, with callbacks and subscribers that return, the class does
    what the roll says.  The agents that are there have exactly the logs on the
    roll, the bus holds exactly the entries on the roll, and the program is a use
    after free exactly when an event reaches an entry whose agent is gone. *)
Theorem agents_refine_roll {K} `{Kernel K} {U} vm_p bus_p vm (cmds : list (agent_cmd K U)) w :
  agents_start vm_p bus_p vm w -> Forall (cmd_ok vm_p vm) cmds -> legal_run cmds roll_new = true ->
  Z.of_nat (length cmds) < 2 ^ 32 - 1 ->
  let o := run_agents vm_p bus_p cmds {[bus_p := EventDispatcher_new]} w in
  (forall s, roll_run cmds roll_new = Some s ->
     exists d w', o = Ok ({[bus_p := d]}, w') /\
       sub_ids d = (rl_bus s).*1 /\ agent_logs w' = snd <$> rl_agents s) /\
  (roll_run cmds roll_new = None <-> o = Fault UseAfterFree).
Proof.
  intros Hw Hok Hl Hlen o. pose proof (run_as_roll vm_p bus_p vm cmds w Hw Hok Hl Hlen) as Hr. fold o in Hr.
  destruct (roll_run cmds roll_new) as [s|].
  - split; [by intros ? [= <-]|]. destruct Hr as (d & w' & -> & _). done.
  - by split.
Qed.

(** C10. No event reaches an agent that is gone, and no agent misses one, unless
    agents are moved: a program without move assignments never faults, and
    without moves each agent that is there at the end has logged exactly the
    events published since its construction, in order, whatever the other
    agents and subscribers did. *)
Theorem agents_hear_since_construction {K} `{Kernel K} {U} vm_p bus_p vm (cmds : list (agent_cmd K U)) w :
  agents_start vm_p bus_p vm w -> Forall (cmd_ok vm_p vm) cmds -> legal_run cmds roll_new = true ->
  Z.of_nat (length cmds) < 2 ^ 32 - 1 -> forallb (fun c => negb (assigns c)) cmds = true ->
  exists d w', run_agents vm_p bus_p cmds {[bus_p := EventDispatcher_new]} w = Ok ({[bus_p := d]}, w') /\
    (forallb (fun c => negb (moves c)) cmds = true -> agent_logs w' = heard cmds).
Proof.
  intros Hw Hok Hl Hlen Ha. pose proof (run_as_roll vm_p bus_p vm cmds w Hw Hok Hl Hlen) as Hr.
  destruct (anchored_run cmds roll_new) as [s Hs]; [by apply settled_anchored, settled_new|done..|].
  rewrite Hs in Hr. destruct Hr as (d & w' & E1 & _ & Hlogs). exists d, w'. split; [done|]. intros Hm.
  rewrite Hlogs. by rewrite (settled_run cmds roll_new s settled_new Hl Ha Hm Hs).
Qed.

(** Two agents, one of which comes later and one of which goes. *)
Definition hlt_event : HvEvent := mk_HvEvent GuestHalt 0 0x1010 0 PMono.

Definition agents_program : list (agent_cmd SimK unit) :=
  [Construct 1; DumpOn 1 0x1001 2; Publish vmi_event; Construct 2; Publish hlt_event; Destruct 1; Publish vmi_event].

(** Move assignment: agent 1 takes over what agent 2 has, also its
    subscription id, and forgets its own; so its own entry outlives it. *)
Definition assign_program : list (agent_cmd SimK unit) :=
  [Construct 1; Construct 2; AssignTo 1 2; Destruct 1; Publish vmi_event].

Lemma vmi_world_starts : agents_start 7 9 vmi_machine (vmi_world ∅).
Proof.
  split; [done|done| |done|].
  - constructor; [split; cbn; lia|constructor].
  - split; [apply lookup_singleton_eq|]. pose proof (vmi_region_ok ∅) as Hr. apply Forall_and in Hr as [Hr _]. exact Hr.
Qed.

Lemma agents_program_ok : Forall (cmd_ok 7 vmi_machine) agents_program.
Proof.
  repeat constructor; unfold cmd_ok, dump_ok, is_u64, max_vector_size; cbn; try lia; done.
Qed.

Lemma assign_program_ok : Forall (cmd_ok 7 vmi_machine) assign_program.
Proof. repeat constructor; cbn; try lia; done. Qed.

Lemma agents_refine_roll_witness :
  run_agents 7 9 assign_program {[9 := EventDispatcher_new]} (vmi_world ∅) = Fault UseAfterFree /\
  exists d w', run_agents 7 9 agents_program {[9 := EventDispatcher_new]} (vmi_world ∅) = Ok ({[9 := d]}, w') /\
    sub_ids d = [2] /\ agent_logs w' = {[2 := [hlt_event; vmi_event]]}.
Proof.
  split.
  - apply (agents_refine_roll 7 9 vmi_machine assign_program (vmi_world ∅) vmi_world_starts assign_program_ok);
      vm_compute; reflexivity.
  - destruct (agents_refine_roll 7 9 vmi_machine agents_program (vmi_world ∅) vmi_world_starts agents_program_ok
                ltac:(vm_compute; reflexivity) ltac:(vm_compute; reflexivity)) as [Hr _].
    edestruct Hr as (d & w' & E1 & Hi & Hlogs); [vm_compute; reflexivity|].
    exists d, w'. split; [exact E1|]. split; [exact Hi|]. rewrite Hlogs. vm_compute. reflexivity.
Defined.

Lemma agents_hear_since_construction_witness :
  exists d w', run_agents 7 9 agents_program {[9 := EventDispatcher_new]} (vmi_world ∅) = Ok ({[9 := d]}, w') /\
    agent_logs w' = {[2 := [hlt_event; vmi_event]]}.
Proof.
  destruct (agents_hear_since_construction 7 9 vmi_machine agents_program (vmi_world ∅) vmi_world_starts agents_program_ok
              ltac:(vm_compute; reflexivity) ltac:(vm_compute; reflexivity) ltac:(vm_compute; reflexivity))
    as (d & w' & E1 & Hlogs).
  exists d, w'. split; [exact E1|]. rewrite Hlogs by (vm_compute; reflexivity). vm_compute. reflexivity.
Defined.

(** ** The bound on the subscriptions is needed

    Ids are 32 bits wide and 0 means that there is no subscription: the agent
    that subscribes after 2^32 - 1 others is given the id 0, does not unsubscribe,
    and is called by the bus after it is gone. *)
Section Wrapped.

Context {K : Type} `{Kernel K} {U : Type}.
Abbreviation Env := (VmiEnv K U).

(** A subscriber that comes and goes. *)
Definition come_and_go (f : option EventType) (h : Handler K Env) (d : EventDispatcher K Env) : EventDispatcher K Env :=
  let '(id, d') := add_subscription f h d in unsubscribe id d'.

Lemma ids_wrap f h n :
  Nat.iter n (come_and_go f h) EventDispatcher_new = mk_EventDispatcher [] (u32 (1 + Z.of_nat n)) 0.
Proof.
  induction n as [|n IH]; [reflexivity|]. rewrite Nat.iter_succ, IH. unfold come_and_go, unsubscribe. cbn.
  rewrite Z.eqb_refl. cbn. f_equal. unfold u32. rewrite Zplus_mod_idemp_l. f_equal. lia.
Qed.

Lemma wrapped_agent_dangles f h n vm_p bus_p x ev w :
  1 + Z.of_nat n = 2 ^ 32 -> bus_p <> nullptr ->
  run_agents vm_p bus_p [Construct x; Destruct x; Publish ev]
    {[bus_p := Nat.iter n (come_and_go f h) EventDispatcher_new]} w = Fault UseAfterFree.
Proof.
  intros Hn Hb. rewrite ids_wrap, Hn. change (u32 (2 ^ 32)) with 0. cbn [run_agents exec_agent].
  unfold VmiAgent_new, VmiAgent_destroy, dispatcher_at. rewrite (proj2 (Z.eqb_neq _ _) Hb), lookup_singleton_eq.
  unfold bind at 1 2 3. cbn. unfold bind, agent_at. cbn [ve_agents w_env]. rewrite lookup_insert_eq.
  cbn [va_dispatch va_subId]. rewrite andb_false_r. cbn. rewrite lookup_insert_eq. cbn.
  unfold publish, bind. cbn. unfold handleHvEvent, bind, agent_at. cbn [ve_agents w_env]. by rewrite lookup_delete_eq.
Qed.

End Wrapped.
