(* ===== verification/Summary.v ===== *)
(** * Reading summaries back

    The agent turns every event into a line of text for humans and for the log
    ([buildSummary]).  This file reads such a line: what it says of the vCPU, of
    RIP and of the payload is all recovered, so no two events that differ in one
    of them have the same summary. *)

From S2P Require Import Prelude Host SimKvm Dispatcher Text Vmi.
From stdpp Require Import base list strings.
From Stdlib Require Import ZArith Lia Ascii.
Open Scope Z_scope.
Open Scope text_scope.

(** ** A reader *)

(** The literal [l], removed from the front. *)
Fixpoint lit (l s : string) : option string :=
  match l, s with
  | EmptyString, _ => Some s
  | String c l', String c' s' => if Ascii.eqb c c' then lit l' s' else None
  | String _ _, EmptyString => None
  end.

(** The digits at the front, and the rest. *)
Fixpoint digits (base : Z) (s : string) (v : Z) : Z * string :=
  match s with
  | EmptyString => (v, EmptyString)
  | String c s' =>
      match digit_value c with
      | Some d => if d <? base then digits base s' (v * base + d) else (v, s)
      | None => (v, s)
      end
  end.

(** The literal [l] and a number after it. *)
Definition labelled (l : string) (base : Z) (s : string) : option (Z * string) :=
  match lit l s with
  | Some s' => Some (digits base s' 0)
  | None => None
  end.

Definition read_cpuid (s : string) : option (EventPayload * string) :=
  '(leaf, s) ← labelled " leaf=0x" 16 s; '(sub, s) ← labelled " sub=0x" 16 s;
  '(a, s) ← labelled " => EAX=0x" 16 s; '(b, s) ← labelled " EBX=0x" 16 s;
  '(c, s) ← labelled " ECX=0x" 16 s; '(d, s) ← labelled " EDX=0x" 16 s;
  Some (PCpuid (mk_CpuidEvent leaf sub a b c d), s).

Definition read_io (w : bool) (s : string) : option (EventPayload * string) :=
  '(port, s) ← labelled " port=0x" 16 s; '(size, s) ← labelled " size=" 10 s;
  '(value, s) ← labelled "B value=0x" 16 s;
  Some (PIo (mk_IoEvent port size value w), s).

Definition read_msr (w : bool) (s : string) : option (EventPayload * string) :=
  '(index, s) ← labelled " index=0x" 16 s; '(value, s) ← labelled " value=0x" 16 s;
  Some (PMsr (mk_MsrEvent index value w), s).

Definition read_mmio (w : bool) (s : string) : option (EventPayload * string) :=
  '(gpa, s) ← labelled " gpa=0x" 16 s; '(size, s) ← labelled " size=" 10 s;
  '(value, s) ← labelled "B value=0x" 16 s;
  Some (PMmio (mk_MmioEvent gpa size value w), s).

(** What a summary tells: a payload, or, of an event without one, whether the
    guest halted or shut down. *)
Inductive tale :=
| Tells (p : EventPayload)
| TellsHalt
| TellsShutdown
| TellsNothing.

Definition told_payload (r : string -> option (EventPayload * string)) (s : string) : option (tale * string) :=
  '(p, s) ← r s; Some (Tells p, s).

Definition keywords : list (string * (string -> option (tale * string))) :=
  [("CPUID", told_payload read_cpuid);
   ("OUT", told_payload (read_io true)); ("IN", told_payload (read_io false));
   ("WRMSR", told_payload (read_msr true)); ("RDMSR", told_payload (read_msr false));
   ("MMIO-WR", told_payload (read_mmio true)); ("MMIO-RD", told_payload (read_mmio false));
   ("HLT", fun s => Some (TellsHalt, s)); ("SHUTDOWN", fun s => Some (TellsShutdown, s));
   ("EVENT", fun s => Some (TellsNothing, s))].

(** The first keyword that fits. *)
Fixpoint dispatch_on (ks : list (string * (string -> option (tale * string)))) (s : string)
  : option (tale * string) :=
  match ks with
  | [] => None
  | (k, r) :: ks' =>
      match lit k s with
      | Some s' => r s'
      | None => dispatch_on ks' s
      end
  end.

(** The whole line: the vCPU, RIP, the tale, and nothing after it. *)
Definition read_summary (s : string) : option (Z * Z * tale) :=
  '(id, s) ← labelled "[VCPU" 16 s; '(ip, s) ← labelled "] RIP=0x" 16 s;
  s ← lit " | " s; '(t, s) ← dispatch_on keywords s;
  match s with EmptyString => Some (id, ip, t) | _ => None end.

(** What it should tell. *)
Definition tale_of (type : EventType) (payload : EventPayload) : tale :=
  match payload with
  | PMono =>
      match type with
      | GuestHalt => TellsHalt
      | GuestShutdown => TellsShutdown
      | _ => TellsNothing
      end
  | p => Tells p
  end.

(** The members of a payload hold what their types can. *)
Definition payload_ok (payload : EventPayload) : Prop :=
  match payload with
  | PCpuid p => Forall is_u64 [ce_leaf p; ce_subleaf p; ce_eax p; ce_ebx p; ce_ecx p; ce_edx p]
  | PIo p => Forall is_u64 [ie_port p; ie_size p; ie_value p]
  | PMsr p => Forall is_u64 [me_index p; me_value p]
  | PMmio p => Forall is_u64 [xe_guest_phys_addr p; xe_size p; xe_value p]
  | PMono => True
  end.

(** ** Literals and numbers are read back *)

Lemma lit_app l s : lit l (l <+ s) = Some s.
Proof.
  induction l as [|c l IH]; [done|]. change (String c l <+ s) with (String c (l <+ s)). cbn [lit].
  rewrite Ascii.eqb_refl. exact IH.
Qed.

Lemma print_digits_acc upper base fuel z acc :
  print_digits upper base fuel z acc = print_digits upper base fuel z "" <+ acc.
Proof.
  assert (forall a b, print_digits upper base fuel z (a <+ b) = print_digits upper base fuel z a <+ b) as Hgen.
  { revert z. induction fuel as [|fuel IH]; intros z a b; [done|]. cbn [print_digits].
    destruct (z <? base); [done|]. apply (IH (z / base) (String _ a) b). }
  apply (Hgen "" acc).
Qed.

(** A text that does not go on with a digit. *)
Definition stops (base : Z) (s : string) : bool :=
  match s with
  | EmptyString => true
  | String c _ => match digit_value c with Some d => base <=? d | None => true end
  end.

Lemma digits_stop base s v : stops base s = true -> digits base s v = (v, s).
Proof.
  destruct s as [|c s]; [done|]. cbn. destruct (digit_value c) as [d|]; [|done].
  intros Hd. boolify. by rewrite (proj2 (Z.ltb_ge _ _)).
Qed.

Lemma digits_print upper base z s :
  2 <= base <= 16 -> is_u64 z -> stops base s = true ->
  digits base (print_num upper base z <+ s) 0 = (z, s).
Proof.
  intros Hb Hz Hs. unfold print_num. rewrite <-print_digits_acc.
  rewrite (print_digits_read (digits base) upper base); [by apply digits_stop|done| |lia|apply fuel_enough; [lia|done]].
  intros d s' v Hd. cbn [digits]. rewrite digit_value_char by lia. by rewrite (proj2 (Z.ltb_lt _ _)) by lia.
Qed.

Lemma labelled_HEX l z s : is_u64 z -> stops 16 s = true -> labelled l 16 (l <+ HEX z <+ s) = Some (z, s).
Proof. intros Hz Hs. unfold labelled, HEX. rewrite lit_app. by rewrite digits_print. Qed.

Lemma labelled_dec l z s : is_u64 z -> stops 10 s = true -> labelled l 10 (l <+ dec z <+ s) = Some (z, s).
Proof. intros Hz Hs. unfold labelled, dec. rewrite lit_app. by rewrite digits_print. Qed.

Lemma app_empty (s : string) : s <+ "" = s.
Proof.
  induction s as [|c s IH]; [done|]. change (String c s <+ "") with (String c (s <+ "")). by rewrite IH.
Qed.

Lemma labelled_HEX_end l z : is_u64 z -> labelled l 16 (l <+ HEX z) = Some (z, "").
Proof. intros Hz. rewrite <-(app_empty (HEX z)). by apply labelled_HEX. Qed.

(** ** Summaries are read back *)

(** Reading one field after the other of a concatenation. *)
Ltac fields :=
  repeat first
    [ rewrite labelled_HEX by (done || eassumption); cbn [mbind option_bind]
    | rewrite labelled_dec by (done || eassumption); cbn [mbind option_bind]
    | rewrite labelled_HEX_end by eassumption; cbn [mbind option_bind] ].

Ltac members := repeat match goal with H : Forall is_u64 (_ :: _) |- _ => apply Forall_cons in H as [? H] end.

Lemma read_cpuid_back p :
  payload_ok (PCpuid p) ->
  read_cpuid (" leaf=0x" <+ HEX (ce_leaf p) <+ " sub=0x" <+ HEX (ce_subleaf p)
      <+ " => EAX=0x" <+ HEX (ce_eax p) <+ " EBX=0x" <+ HEX (ce_ebx p)
      <+ " ECX=0x" <+ HEX (ce_ecx p) <+ " EDX=0x" <+ HEX (ce_edx p)) = Some (PCpuid p, "").
Proof. intros Hp. cbn in Hp. members. unfold read_cpuid. fields. by destruct p. Qed.

Lemma read_io_back p :
  payload_ok (PIo p) ->
  read_io (ie_isWrite p) (" port=0x" <+ HEX (ie_port p) <+ " size=" <+ dec (ie_size p) <+ "B"
      <+ " value=0x" <+ HEX (ie_value p)) = Some (PIo p, "").
Proof.
  intros Hp. cbn in Hp. members. unfold read_io.
  change ("B" <+ " value=0x" <+ HEX (ie_value p)) with ("B value=0x" <+ HEX (ie_value p)).
  fields. by destruct p.
Qed.

Lemma read_msr_back p :
  payload_ok (PMsr p) ->
  read_msr (me_isWrite p) (" index=0x" <+ HEX (me_index p) <+ " value=0x" <+ HEX (me_value p)) = Some (PMsr p, "").
Proof. intros Hp. cbn in Hp. members. unfold read_msr. fields. by destruct p. Qed.

Lemma read_mmio_back p :
  payload_ok (PMmio p) ->
  read_mmio (xe_isWrite p) (" gpa=0x" <+ HEX (xe_guest_phys_addr p) <+ " size=" <+ dec (xe_size p) <+ "B"
      <+ " value=0x" <+ HEX (xe_value p)) = Some (PMmio p, "").
Proof.
  intros Hp. cbn in Hp. members. unfold read_mmio.
  change ("B" <+ " value=0x" <+ HEX (xe_value p)) with ("B value=0x" <+ HEX (xe_value p)).
  fields. by destruct p.
Qed.

Lemma read_payload type payload :
  payload_ok payload ->
  dispatch_on keywords (summary_payload type payload) = Some (tale_of type payload, "").
Proof.
  intros Hp. destruct payload as [p|p|p|p|]; cbn [summary_payload tale_of].
  - match goal with |- dispatch_on keywords ("CPUID leaf=0x" <+ ?x) = _ =>
      change (told_payload read_cpuid (" leaf=0x" <+ x) = Some (Tells (PCpuid p), "")) end.
    unfold told_payload. by rewrite read_cpuid_back.
  - transitivity (told_payload (read_io (ie_isWrite p)) (" port=0x" <+ HEX (ie_port p) <+ " size=" <+ dec (ie_size p) <+ "B"
      <+ " value=0x" <+ HEX (ie_value p))); [by destruct (ie_isWrite p)|].
    unfold told_payload. by rewrite read_io_back.
  - transitivity (told_payload (read_msr (me_isWrite p)) (" index=0x" <+ HEX (me_index p) <+ " value=0x" <+ HEX (me_value p)));
      [by destruct (me_isWrite p)|].
    unfold told_payload. by rewrite read_msr_back.
  - transitivity (told_payload (read_mmio (xe_isWrite p)) (" gpa=0x" <+ HEX (xe_guest_phys_addr p) <+ " size=" <+ dec (xe_size p)
      <+ "B" <+ " value=0x" <+ HEX (xe_value p))); [by destruct (xe_isWrite p)|].
    unfold told_payload. by rewrite read_mmio_back.
  - by destruct type.
Qed.

(** From the text [buildSummary] writes, the number of the vCPU, the snapshot's
    RIP and the tale of the event are read back. *)
Lemma summary_reads_back (ev : HvEvent) (snap : GuestSnapshot) :
  is_u32 (ev_vcpu_id ev) -> is_u64 (gs_rip snap) -> payload_ok (ev_payload ev) ->
  read_summary (buildSummary ev snap) =
  Some (ev_vcpu_id ev, gs_rip snap, tale_of (ev_type ev) (ev_payload ev)).
Proof.
  intros Hid Hrip Hp. assert (is_u64 (ev_vcpu_id ev)) by (unfold is_u32, is_u64 in *; lia).
  unfold read_summary, buildSummary. fields. rewrite lit_app. cbn [mbind option_bind].
  by rewrite read_payload.
Qed.

(** ** The event log *)

(** One entry of the log: the time in milliseconds, the vCPU, RIP, the tale and
    the dumped bytes. *)
Definition log_line : Type := Z * Z * Z * tale * option (list Z).

Definition line_of (ie : IntrospectionEvent) : log_line :=
  (to_ms (gs_timestamp (nv_snapshot ie)), ev_vcpu_id (nv_base ie), gs_rip (nv_snapshot ie),
   tale_of (ev_type (nv_base ie)) (ev_payload (nv_base ie)), nv_memDump ie).

(** An entry of the JSON text: its members and its summary have to agree. *)
Definition read_line (j : json) : option log_line :=
  '(ts, id, ip, summary, dump) ← read_event j;
  '(id', ip', t) ← read_summary summary;
  if (id =? id') && (ip =? ip') then Some (ts, id, ip, t, dump) else None.

Definition read_log (text : string) : option (list log_line) :=
  match parse_json text with
  | Some (JArr items) => mapM read_line items
  | _ => None
  end.

Lemma read_line_back ie :
  loggable ie -> payload_ok (ev_payload (nv_base ie)) -> read_line (event_json ie) = Some (line_of ie).
Proof.
  intros Hl Hp. unfold read_line. rewrite read_event_view by done. unfold event_view. cbn [mbind option_bind].
  rewrite (lg_summary _ Hl), summary_reads_back by (apply Hl || done). cbn [mbind option_bind].
  by rewrite !Z.eqb_refl.
Qed.

(** ** Properties *)

(** C18. The file [dumpEventLog] writes tells the events it is a log of: the
    whole text is JSON, one object per record in the order of the log, and from
    it every record's time in milliseconds, vCPU, instruction pointer, dumped
    bytes and, out of the summary, every member of its payload (of an event
    without one, whether it is a halt or a shutdown) are read back; the summary
    and the other members agree. *)
Theorem log_tells_events {K} `{Kernel K} {U} (a : VmiAgent K U) :
  Forall (fun ie => loggable ie /\ payload_ok (ev_payload (nv_base ie))) (va_eventLog a) ->
  exists text, dumpEventLog a true = Some text /\ read_log text = Some (map line_of (va_eventLog a)).
Proof.
  intros Hlog. eexists. split; [reflexivity|]. unfold read_log.
  rewrite (parse_is_json _ (JArr (map event_json (va_eventLog a)))).
  2: { apply dump_lexes. eapply Forall_impl; [exact Hlog|]. by intros ie [? _]. }
  apply mapM_Some. induction Hlog as [|ie log [Hl Hp] _ IH]; constructor; [|exact IH].
  by apply read_line_back.
Qed.

(** An OUT of 0x41 to port 0x3F8 and a halt. *)
Definition out_event : HvEvent := mk_HvEvent IoWrite 0 0 0 (PIo (mk_IoEvent 0x3F8 1 0x41 true)).
Definition stop_event : HvEvent := mk_HvEvent GuestHalt 0 0 0 PMono.
Definition log_snapshot (ip : Z) : GuestSnapshot :=
  snapshot_of (mk_regs 0 0 0 0 0 0 0 0 0 0 0 0 0 0 0 0 ip 2) zero_sregs 5000000.
Definition log_entry (ev : HvEvent) (ip : Z) (dump : option (list Z)) : IntrospectionEvent :=
  mk_IntrospectionEvent ev (log_snapshot ip) dump (buildSummary ev (log_snapshot ip)).

Example out_summary : nv_summary (log_entry out_event 0x1003 None) = "[VCPU0] RIP=0x1003 | OUT port=0x3F8 size=1B value=0x41".
Proof. vm_compute. reflexivity. Qed.

Lemma log_tells_events_witness :
  exists text, dumpEventLog (vmi_agent [log_entry out_event 0x1003 (Some [20; 255]); log_entry stop_event 0x1004 None]) true = Some text /\
    read_log text = Some [(5, 0, 0x1003, Tells (PIo (mk_IoEvent 0x3F8 1 0x41 true)), Some [20; 255]);
                          (5, 0, 0x1004, TellsHalt, None)].
Proof.
  destruct (log_tells_events (vmi_agent [log_entry out_event 0x1003 (Some [20; 255]); log_entry stop_event 0x1004 None]))
    as (text & Hd & Hr).
  - apply List.Forall_cons; [|apply List.Forall_cons; [|constructor]]; (split; [|repeat constructor; done]).
    + split; [reflexivity|split; cbn; lia|split; cbn; lia|split; cbn; lia|]. apply bytesb_ok. reflexivity.
    + split; [reflexivity|split; cbn; lia|split; cbn; lia|split; cbn; lia|]. constructor.
  - exists text. split; [exact Hd|]. etrans; [exact Hr|]. vm_compute. reflexivity.
Defined.
