(* ===== verification/Main.v ===== *)
(** * The demo program (main.cpp)

    [main] opens KVM, builds a machine with one vCPU, wires the handlers, the
    event bus and the agent, installs a CPUID table, takes a snapshot, and runs
    the guest three times from it with a different input byte.  Its local
    objects are values here, except the machine and the agent, which other
    objects point to: they are in the stores of [VmiEnv].  What [main] writes on
    standard output is [print]ed, piece by piece; the diagnostics on standard
    error are [report]ed. *)

From S2P Require Import Prelude Host SimKvm Memory Vcpu PortIo MmioDev Cpuid Msr Dispatcher Machine System Trapper Loader Text Vmi.
From stdpp Require Import base list gmap strings.
From Stdlib Require Import ZArith Lia.
Open Scope Z_scope.
Open Scope hv_scope.

Definition k_mmio_base : Z := 0x80000.
Definition k_reg_magic : Z := k_mmio_base + 0x00.
Definition k_reg_input : Z := k_mmio_base + 0x08.
Definition k_reg_status : Z := k_mmio_base + 0x10.

(** The guest that is compiled in; [main] reads its guest from a file instead. *)
Definition k_guestCode : list Z := [0xE4; 0x60; 0x31; 0xC0; 0x0F; 0xA2; 0xF4; 0x00].

Record MmioDeviceState := mk_MmioDeviceState { last_write_value : Z; write_count : Z }.

(** What the callbacks of [main] capture, and the flag of the signal handler. *)
Record MainEnv := mk_MainEnv { g_running : bool; mmio_state : MmioDeviceState }.

Definition main_env0 : MainEnv := mk_MainEnv true (mk_MmioDeviceState 0 0).

(** Where the machine, the agent and the dispatcher of [main] live. *)
Definition vm_ptr : Z := 1.
Definition agent_ptr : Z := 2.
Definition dispatcher_ptr : Z := 3.

Definition fuzzInput : list Z := [0x41; 0x42; 0x43].
Definition cpuid_leaves : list Z :=
  [0x00; 0x01; 0x02; 0x07; 0x80000000; 0x80000001; 0x80000002; 0x80000003; 0x80000004].

(** [std::println]: the text and a newline. *)
Definition line (s : string) : string := s <+ nl.

Section MainModel.

Context {K : Type} `{Kernel K}.
Abbreviation Env := (VmiEnv K MainEnv).
Implicit Types w : World K Env.

Definition get_main : M (World K Env) MainEnv := fun w => Ok (ve_user (w_env w), w).
Definition put_main (e : MainEnv) : M (World K Env) unit :=
  fun w => Ok (tt, mk_world (w_host w) (mk_VmiEnv (ve_vms (w_env w)) (ve_agents (w_env w)) e)).
Definition put_vm (p : Z) (vm : VirtualMachine) : M (World K Env) unit :=
  fun w => Ok (tt, mk_world (w_host w)
                     (mk_VmiEnv (<[p := vm]> (ve_vms (w_env w))) (ve_agents (w_env w))
                                (ve_user (w_env w)))).

Definition sigint_handler : M (World K Env) unit :=
  let* e := get_main in put_main (mk_MainEnv false (mmio_state e)).

(** The callback for CPUID leaf 1: CPUID is executed, its results are not used. *)
Definition leaf1_callback (leaf sub : Z) : M (World K Env) LeafResult :=
  host_cpuid leaf sub ;;;
  ret (mk_LeafResult 0 0 (Z.land 0 (u32 (Z.lnot (2 ^ 31)))) 0).

Definition keyboard_callback (_ : InContext) : M (World K Env) Z :=
  print (line "  [IO] Guest read from port 0x60 (keyboard)") ;;;
  ret 0x1A.

Definition magic_callback (_ : ReadContext) : M (World K Env) Z := ret 0x4D4D494F.

Definition input_line (value size : Z) : string :=
  line ("  [MMIO] write input=0x" <+ hex value <+ " (size=" <+ dec size <+ ")").

Definition input_callback (ctx : WriteContext) : M (World K Env) unit :=
  let* e := get_main in
  put_main (mk_MainEnv (g_running e)
              (mk_MmioDeviceState (wc_value ctx) (u64 (write_count (mmio_state e) + 1)))) ;;;
  print (input_line (wc_value ctx) (wc_size ctx)).

Definition status_callback (_ : ReadContext) : M (World K Env) Z :=
  let* e := get_main in
  let count := u64 (Z.shiftl (Z.land (write_count (mmio_state e)) 0xFFFFFFFF) 32) in
  let last := Z.land (last_write_value (mmio_state e)) 0xFFFFFFFF in
  ret (Z.lor count last).

Definition main_cpuid : CpuidHandler K Env := registerLeaf 0x01 leaf1_callback CpuidHandler_new.

Definition main_io : IoPortHandler K Env := registerInPort 0x60 keyboard_callback IoPortHandler_new.

Definition main_mmio : MmioHandler K Env :=
  MmioHandler_registerRead k_reg_status status_callback
    (MmioHandler_registerWrite k_reg_input input_callback
      (MmioHandler_registerRead k_reg_magic magic_callback MmioHandler_new)).

(** The agent's callback and the event logger. *)
Definition vmi_line (ie : IntrospectionEvent) : string := line ("  [VMI] " <+ nv_summary ie).
Definition vmi_printer : IntrospectionCallback K MainEnv := fun ie => print (vmi_line ie).

Definition event_tag (type : EventType) : string :=
  match type with
  | CpuidAccess => "  [CPUID] "
  | IoRead => "  [IN]    "
  | IoWrite => "  [OUT]   "
  | MsrRead => "  [RDMSR] "
  | MsrWrite => "  [WRMSR] "
  | MemAccess => "  [MMIO]  "
  | GuestHalt => "  [HLT]   "
  | GuestShutdown => "  [SHUT]  "
  end.

(** The instruction pointer is printed as 0 for an event with a CPUID payload. *)
Definition logger_line (ev : HvEvent) : string :=
  line ("vcpu=" <+ dec (ev_vcpu_id ev) <+ " rip=0x" <+
        hex (match ev_payload ev with PCpuid _ => 0 | _ => ev_rip ev end)).

Definition logger : Handler K Env := fun ev =>
  print (event_tag (ev_type ev)) ;;;
  print (logger_line ev).

(** ** The CPUID table *)

Definition host_entry (leaf : Z) (r : LeafResult) : kvm_cpuid_entry2 :=
  mk_cpuid_entry2 leaf 0 0 (lr_eax r) (lr_ebx r) (lr_ecx r) (lr_edx r) (0, 0, 0).

(** The changes made to the local copy of an entry. *)
Definition masked_entry (e : kvm_cpuid_entry2) : kvm_cpuid_entry2 :=
  let ecx := if e_function e =? 0x01 then Z.land (e_ecx e) (u32 (Z.lnot (2 ^ 31))) else e_ecx e in
  let eax := if e_function e =? 0x00 then Z.min (e_eax e) 0x0B else e_eax e in
  mk_cpuid_entry2 (e_function e) (e_index e) (e_flags e) eax (e_ebx e) ecx (e_edx e) (e_padding e).

Definition table_event (e : kvm_cpuid_entry2) (now : Z) : HvEvent :=
  mk_HvEvent CpuidAccess 0 0 now
    (PCpuid (mk_CpuidEvent (e_function e) 0 (e_eax e) (e_ebx e) (e_ecx e) (e_edx e))).

Definition table_line (e : kvm_cpuid_entry2) : string :=
  line ("[+] CPUID leaf=0x" <+ hex0 8 (e_function e) <+ " => EAX=0x" <+ hex0 8 (e_eax e)
        <+ " EBX=0x" <+ hex0 8 (e_ebx e) <+ " ECX=0x" <+ hex0 8 (e_ecx e)
        <+ " EDX=0x" <+ hex0 8 (e_edx e)).

(** The loop: the entry is pushed, then changed, then printed and published. *)
Fixpoint build_table (leaves : list Z) (entries : list kvm_cpuid_entry2) (d : EventDispatcher K Env)
  : M (World K Env) (list kvm_cpuid_entry2 * EventDispatcher K Env) :=
  match leaves with
  | [] => ret (entries, d)
  | leaf :: rest =>
      let* r := executeHostCpuid leaf 0 in
      let e := host_entry leaf r in
      let entries' := entries ++ [e] in
      let e' := masked_entry e in
      print (table_line e') ;;;
      let* now := steady_now in
      let* d' := publish d (table_event e' now) in
      build_table rest entries' d'
  end.

(** ** The fuzzing loop *)

(** Everything one run does before the guest is entered. *)
Definition begin_run (i : nat) (vm : VirtualMachine) (snapshot : VmSnapShot) : M (World K Env) unit :=
  (if (0 <? i)%nat then
     restoreSnapshot vm snapshot ;;;
     print (line ("[+] VM snapshot restored, starting run #" <+ dec (Z.of_nat i)))
   else ret tt) ;;;
  let* region := region_at vm 0 in
  mem_store (mr_hostAddr region) 0x2000 [nth (i mod length fuzzInput) fuzzInput 0] ;;;
  let* injected := mem_load (mr_hostAddr region) 0x2000 1 in
  print (line ("[+] Injected scancode 0x" <+ hex0 2 (le_decode injected) <+ " at GPA 0x2000")) ;;;
  print (line ("[+] Starting guest execution loop #" <+ dec (Z.of_nat i) <+ " …")).

Definition exits_line (exits : Z) : string :=
  line ("[+] Guest stopped after " <+ dec exits <+ " exits.").

(** What a run that does not end the program prints about its result. *)
Definition print_result (result : RunResult) : M (World K Env) unit :=
  match result with
  | Halt => print (line "[+] Guest halted normally.")
  | RShutdown => print (line "[+] Guest requested shutdown.")
  | _ => ret tt
  end.

(** The runs [i], [i+1], ...: an exit code when one of them ends the program,
    [None] inside when the guest is still running after [fuel] exits. *)
Fixpoint fuzz_loop (fuel : nat) (left i : nat) (vm : VirtualMachine) (snapshot : VmSnapShot)
  (trapper : InstructionTrapper K Env) : M (World K Env) (option (option Z) * InstructionTrapper K Env) :=
  match left with
  | O => ret (Some None, trapper)
  | S left' =>
      begin_run i vm snapshot ;;;
      let* (result, trapper') := runLoop fuel 0 trapper in
      match result with
      | None => ret (None, trapper')
      | Some RError =>
          print (exits_line (exitCount trapper')) ;;;
          report "Hypervisor error during guest run." 0 ;;;
          ret (Some (Some 1), trapper')
      | Some r =>
          print (exits_line (exitCount trapper')) ;;;
          print_result r ;;;
          fuzz_loop fuel left' (S i) vm snapshot trapper'
      end
  end.

(** ** The program *)

(** After the last run: the totals, the event log, and the end of the scope. *)
Definition main_end (opened : bool) (trapper : InstructionTrapper K Env) (dispatcher : EventDispatcher K Env)
  : M (World K Env) (option (Z * option string)) :=
  print (exits_line (exitCount trapper)) ;;;
  let* a := agent_at agent_ptr in
  let log := dumpEventLog a opened in
  print (line "[+] VMI event log written to vmi_events.json") ;;;
  print (line ("[+] Total events dispatched: " <+ dec (publishedCount dispatcher))) ;;;
  VmiAgent_destroy agent_ptr {[dispatcher_ptr := dispatcher]} ;;;
  ret (Some (0, log)).

(** From the construction of the handlers on: [None] says the guest is still
    running; otherwise the exit code and the text of the event log. *)
Definition main_wired (fuel : nat) (opened : bool) : M (World K Env) (option (Z * option string)) :=
  let* vm := vm_at vm_ptr in
  let* vcpu := vcpu_at vm 0 in
  let* ds := VmiAgent_new agent_ptr vm_ptr dispatcher_ptr {[dispatcher_ptr := EventDispatcher_new]} in
  onEvent agent_ptr vmi_printer ;;;
  let* d := dispatcher_at dispatcher_ptr ds in
  let '(_, d) := subscribeAll logger d in
  let* (entries, d) := build_table cpuid_leaves [] d in
  let* ec := VCpu_installCpuid vcpu entries in
  if ec_failed ec then
    report "KVM_SET_CPUID2 failed" ec ;;;
    VmiAgent_destroy agent_ptr {[dispatcher_ptr := d]} ;;;
    ret (Some (1, None))
  else
    print (line ("[+] CPUID table installed (" <+ dec (Z.of_nat (length entries)) <+ " leaves)")) ;;;
    let* snapshot := takeSnapShot vm in
    print (line ("[+] VM snapshot taken (" <+ dec (Z.of_nat (length (sn_memoryRegions snapshot)))
                 <+ " memory regions)")) ;;;
    let trapper := InstructionTrapper_new vcpu (Some main_cpuid) (Some main_io)
                     (Some MsrHandler_new) (Some main_mmio) (Some d) in
    let* (code, trapper') := fuzz_loop fuel 3 0 vm snapshot trapper in
    let d := default EventDispatcher_new (it_dispatch trapper') in
    match code with
    | None => ret None
    | Some (Some c) =>
        VmiAgent_destroy agent_ptr {[dispatcher_ptr := d]} ;;;
        ret (Some (c, None))
    | Some None => main_end opened trapper' d
    end.

(** With a machine: the guest is read and loaded; the machine is destroyed when
    the scope is left. *)
Definition main_with_vm (ndebug : bool) (files : string -> option (list Z)) (fuel : nat)
  (opened : bool) (kvm_sys : KvmSystem) (vm : VirtualMachine)
  : M (World K Env) (option (Z * option string)) :=
  let* ext := checkExtension kvm_sys KVM_CAP_EXIT_ON_EMULATION_FAILURE in
  (if ext then
     let* ec := enableEmulationExits vm in
     (if ec_failed ec then report "Failed to enable emulation failure exits" ec
      else print (line "[+] Enabled KVM_CAP_EXIT_ON_EMULATION_FAILURE, CPUID will trap to userspace"))
   else
     print (line "[!] KVM_CAP_EXIT_ON_EMULATION_FAILURE not supported, CPUID exits may be handled in-kernel") ;;;
     print (line "    (This may cause CPUID exit counts to be inaccurate and some leaf handlers to not work.)")) ;;;
  match readFile files "simpleGuest.bin" with
  | [] =>
      report "Failed to read guest code from simpleGuest.bin" 0 ;;;
      VirtualMachine_destroy vm ;;;
      ret (Some (1, None))
  | guestCodeBytes =>
      let* (ec, vm') := loadBytes ndebug vm guestCodeBytes 0x1000 (Z.shiftl 1 19) in
      put_vm vm_ptr vm' ;;;
      if ec_failed ec then
        report "GuestLoader::loadBytes failed" ec ;;;
        VirtualMachine_destroy vm' ;;;
        ret (Some (1, None))
      else
        print (line "[+] Guest code loaded at GPA 0x1000") ;;;
        let* code := main_wired fuel opened in
        match code with
        | None => ret None
        | Some c => VirtualMachine_destroy vm' ;;; ret (Some c)
        end
  end.

Definition main (ndebug : bool) (files : string -> option (list Z)) (fuel : nat) (opened : bool)
  : M (World K Env) (option (Z * option string)) :=
  let* kvm_result := KvmSystem_open "/dev/kvm" in
  match kvm_result with
  | Unexpected ec => report "Failed to open /dev/kvm" ec ;;; ret (Some (1, None))
  | Value kvm_sys =>
      print (line ("[+] KVM API version: " <+ sdec (apiVersion kvm_sys))) ;;;
      let* vm_result := createVm kvm_sys in
      match vm_result with
      | Unexpected ec =>
          report "KVM_CREATE_VM failed" ec ;;;
          KvmSystem_destroy kvm_sys ;;;
          ret (Some (1, None))
      | Value vm =>
          print (line ("[+] VM created (fd=" <+ sdec (VirtualMachine_fd vm) <+ ")")) ;;;
          let* code := main_with_vm ndebug files fuel opened kvm_sys vm in
          match code with
          | None => ret None
          | Some c => KvmSystem_destroy kvm_sys ;;; ret (Some c)
          end
      end
  end.

(** What is registered with the handlers. *)

Lemma main_leaf leaf cb : cp_leafCallbacks main_cpuid !! leaf = Some cb -> leaf = 0x01 /\ cb = leaf1_callback.
Proof.
  cbn. intros Hl. apply lookup_insert_Some in Hl as [[<- <-]|[_ Hl]]; [done|by rewrite lookup_empty in Hl].
Qed.

Lemma main_in port cb : io_inCallbacks main_io !! port = Some cb -> port = 0x60 /\ cb = keyboard_callback.
Proof.
  cbn. intros Hl. apply lookup_insert_Some in Hl as [[<- <-]|[_ Hl]]; [done|by rewrite lookup_empty in Hl].
Qed.

Lemma main_out port : io_outCallbacks main_io !! port = None.
Proof. apply lookup_empty. Qed.

Lemma main_read addr cb :
  mm_readCallbacks main_mmio !! addr = Some cb ->
  (addr = k_reg_status /\ cb = status_callback) \/ (addr = k_reg_magic /\ cb = magic_callback).
Proof.
  cbn. intros Hl. apply lookup_insert_Some in Hl as [[<- <-]|[_ Hl]]; [by left|].
  apply lookup_insert_Some in Hl as [[<- <-]|[_ Hl]]; [by right|by rewrite lookup_empty in Hl].
Qed.

Lemma main_write addr cb :
  mm_writeCallbacks main_mmio !! addr = Some cb -> addr = k_reg_input /\ cb = input_callback.
Proof.
  cbn. intros Hl. apply lookup_insert_Some in Hl as [[<- <-]|[_ Hl]]; [done|by rewrite lookup_empty in Hl].
Qed.

End MainModel.

(** ** The device behind the MMIO registers *)

Section Device.

Context {K : Type} `{Kernel K}.
Abbreviation Env := (VmiEnv K MainEnv).
Implicit Types w : World K Env.

(** One MMIO exit after the other: the kernel fills the page, the handler
    serves it. *)
Fixpoint serve (h : MmioHandler K Env) (run : Z) (pages : list (list Z)) : M (World K Env) (MmioHandler K Env) :=
  match pages with
  | [] => ret h
  | page :: rest =>
      (fun w => Ok (tt, with_page run page w)) ;;;
      let* (_, h') := MmioHandler_handle h run in
      serve h' run rest
  end.

(** The page of a write to the input register. *)
Definition input_page (page : list Z) : Prop :=
  page_ok page /\ 1 <= mmio_width page <= 8 /\ mmio_is_write page <> 0 /\
  mmio_phys_addr page = k_reg_input.

(** The page of an 8-byte read of the status register. *)
Definition status_page (page : list Z) : Prop :=
  page_ok page /\ mmio_width page = 8 /\ mmio_is_write page = 0 /\
  mmio_phys_addr page = k_reg_status.

Definition device (w : World K Env) : MmioDeviceState := mmio_state (ve_user (w_env w)).

(** The device after a write. *)
Definition after_write (s : MmioDeviceState) (page : list Z) : MmioDeviceState :=
  mk_MmioDeviceState (le_decode (mmio_operand page)) (u64 (write_count s + 1)).

Definition with_device (s : MmioDeviceState) w : World K Env :=
  let e := w_env w in
  mk_world (w_host w) (mk_VmiEnv (ve_vms e) (ve_agents e) (mk_MainEnv (g_running (ve_user e)) s)).

Definition main_callbacks (h : MmioHandler K Env) : Prop :=
  mm_readCallbacks h = mm_readCallbacks (main_mmio (K := K)) /\
  mm_writeCallbacks h = mm_writeCallbacks (main_mmio (K := K)).

Lemma page_at_fresh run page w : run <> nullptr -> page_ok page -> page_at run page (with_page run page w).
Proof. intros Hr Hp. split; [done|]. split; [apply lookup_insert_eq|done]. Qed.

Lemma serve_write h run page w :
  run <> nullptr -> main_callbacks h -> input_page page ->
  MmioHandler_handle h run (with_page run page w)
  = Ok ((true, mmio_count_write h),
        printed (input_line (le_decode (mmio_operand page)) (mmio_width page))
                (with_device (after_write (device w) page) (with_page run page w))).
Proof.
  intros Hr [_ Hh] (Hp & Hw & Hd & Ha).
  rewrite (mmio_handle_write h run page _ (page_at_fresh run page w Hr Hp) Hw Hd).
  unfold run_mmio_write. cbn [wc_addr]. rewrite Ha, Hh.
  change (mm_writeCallbacks main_mmio !! k_reg_input) with (Some (input_callback (K := K))).
  reflexivity.
Qed.

Lemma serve_writes pages h run w :
  run <> nullptr -> main_callbacks h -> Forall input_page pages ->
  exists h' w', serve h run pages w = Ok (h', w') /\ main_callbacks h' /\
    device w' = fold_left after_write pages (device w) /\
    writeCount h' = fold_left (fun c _ => u64 (c + 1)) pages (writeCount h) /\
    readCount h' = readCount h.
Proof.
  intros Hr Hh Hps. revert h w Hh. induction Hps as [|page pages Hp _ IH]; intros h w Hh.
  { exists h, w. done. }
  cbn [serve fold_left]. unfold bind at 1. rewrite (bind_Ok _ _ _ _ _ (serve_write h run page w Hr Hh Hp)).
  apply (IH (mmio_count_write h) (printed _ (with_device (after_write (device w) page) (with_page run page w)))).
  exact Hh.
Qed.

Lemma serve_app h run l1 l2 w :
  serve h run (l1 ++ l2) w = bind (serve h run l1) (fun h' => serve h' run l2) w.
Proof.
  revert h w. induction l1 as [|page l1 IH]; intros h w; [done|]. cbn [app serve]. unfold bind in *.
  destruct (MmioHandler_handle h run (with_page run page w)) as [[[b h'] w']|]; [apply IH|done].
Qed.

Definition status_value (s : MmioDeviceState) : Z :=
  (write_count s mod 2 ^ 32) * 2 ^ 32 + last_write_value s mod 2 ^ 32.

Lemma status_callback_ok ctx w :
  status_callback ctx w = Ok (status_value (device w), w).
Proof.
  unfold status_callback, bind, get_main, ret, status_value. fold (device w). do 2 f_equal.
  change 0xFFFFFFFF with (Z.ones 32). rewrite !Z.land_ones, Z.shiftl_mul_pow2 by lia.
  pose proof (Z.mod_pos_bound (write_count (device w)) (2 ^ 32)).
  pose proof (Z.mod_pos_bound (last_write_value (device w)) (2 ^ 32)).
  rewrite u64_small by (unfold is_u64; lia). apply lor_disjoint; lia.
Qed.

Lemma write_counts pages s :
  0 <= write_count s ->
  write_count (fold_left after_write pages s) mod 2 ^ 32
  = (write_count s + Z.of_nat (length pages)) mod 2 ^ 32.
Proof.
  revert s. induction pages as [|page pages IH]; intros s Hs; [by rewrite Z.add_0_r|].
  cbn [fold_left length]. rewrite IH by (cbn; apply u64_range). cbn [after_write write_count].
  unfold u64. rewrite Z.add_mod, Z.mod_mod_divide, <-Z.add_mod by
    (lia || (exists (2 ^ 32); lia)). f_equal. lia.
Qed.

Lemma last_written pages page s :
  last_write_value (fold_left after_write (pages ++ [page]) s) = le_decode (mmio_operand page).
Proof. by rewrite fold_left_app. Qed.

End Device.

(** The demo's device keeps its protocol: after any sequence of writes of
    1 to 8 bytes to the input register, a read of the status register gives the
    guest the number of writes so far, modulo 2^32, in its upper half, and the
    low 32 bits of the last value written in its lower half. *)
Lemma device_status {K} `{Kernel K} run pages page last (w : World K (VmiEnv K MainEnv)) :
  run <> nullptr -> Forall input_page (pages ++ [last]) -> status_page page ->
  0 <= write_count (device w) ->
  exists h' w' page', serve main_mmio run (pages ++ [last] ++ [page]) w = Ok (h', w') /\
    h_mem (w_host w') !! run = Some page' /\
    le_decode (mmio_operand page')
    = ((write_count (device w) + Z.of_nat (length pages) + 1) mod 2 ^ 32) * 2 ^ 32
      + le_decode (mmio_operand last) mod 2 ^ 32 /\
    readCount h' = 1.
Proof.
  intros Hr Hps (Hp & Hw & Hd & Ha) Hc. rewrite app_assoc, serve_app.
  destruct (serve_writes (pages ++ [last]) main_mmio run w Hr) as (h1 & w1 & Hs & Hcb & Hdev & _ & Hrc);
    [done..|].
  rewrite (bind_Ok _ _ _ _ _ Hs). set (s := device w1) in *.
  assert (MmioHandler_handle h1 run (with_page run page w1) =
          Ok ((true, mmio_count_read h1),
              with_page run (mmio_deliver page (status_value s)) (with_page run page w1))) as Hread.
  { apply mmio_handle_read; [by apply page_at_fresh | lia | done | | by apply page_at_fresh].
    unfold run_mmio_read. cbn [rc_addr]. rewrite Ha, (proj1 Hcb).
    change (mm_readCallbacks main_mmio !! k_reg_status) with (Some (status_callback (K := K))).
    cbn match. rewrite (bind_Ok _ _ _ _ _ (status_callback_ok _ _)). unfold ret. do 2 f_equal. apply u64_small.
    unfold status_value, is_u64. fold s. 
    pose proof (Z.mod_pos_bound (write_count s) (2 ^ 32)).
    pose proof (Z.mod_pos_bound (last_write_value s) (2 ^ 32)). lia. }
  exists (mmio_count_read h1). eexists. exists (mmio_deliver page (status_value s)). split_and!.
  - cbn [serve]. unfold bind at 1. rewrite (bind_Ok _ _ _ _ _ Hread). reflexivity.
  - apply lookup_insert_eq.
  - destruct (mmio_deliver_facts page (status_value s) Hp ltac:(lia)) as (_ & -> & _).
    rewrite Hw, le_decode_encode. unfold status_value. rewrite Hdev, write_counts, last_written by done.
    rewrite length_app, Nat2Z.inj_add. change (Z.of_nat (length [last])) with 1. rewrite Z.add_assoc.
    set (c := (_ + _ + 1)). pose proof (Z.mod_pos_bound c (2 ^ 32)).
    pose proof (Z.mod_pos_bound (le_decode (mmio_operand last)) (2 ^ 32)).
    apply Z.mod_small. change (256 ^ Z.of_nat (Z.to_nat 8)) with (2 ^ 64). lia.
  - cbn. unfold readCount in Hrc. rewrite Hrc. reflexivity.
Qed.

Definition main_world (m : memory) : World SimK (VmiEnv SimK MainEnv) :=
  sim_world (sim_vcpu []) m (mk_VmiEnv ∅ ∅ main_env0).

Lemma device_status_witness :
  let wr v := mmio_page k_reg_input 4 1 (le_encode 8 v) in
  exists h' w' page', serve main_mmio 8192
      [wr 7; wr 0x41; mmio_page k_reg_status 8 0 (replicate 8 0)] (main_world ∅) = Ok (h', w') /\
    h_mem (w_host w') !! 8192 = Some page' /\
    le_decode (mmio_operand page') = 0x0000000200000041.
Proof.
  intros wr.
  assert (forall v, bytesb (wr v) = true -> kvm_run_header <= Z.of_nat (length (wr v)) ->
          mmio_width (wr v) = 4 -> mmio_is_write (wr v) = 1 -> mmio_phys_addr (wr v) = k_reg_input ->
          input_page (wr v)) as Hwr.
  { intros v Hb Hl Hw Hd Ha. split; [split; [by apply bytesb_ok|done]|].
    split; [lia|]. split; [lia|done]. }
  destruct (device_status (K := SimK) 8192 [wr 7] (mmio_page k_reg_status 8 0 (replicate 8 0)) (wr 0x41)
              (main_world ∅)) as (h' & w' & page' & Hs & Hm & Hv & _).
  - done.
  - cbn [app]. do 2 (apply List.Forall_cons; [apply Hwr; vm_compute; (reflexivity || discriminate)|]).
    constructor.
  - split; [split; [apply bytesb_ok; vm_compute; reflexivity | vm_compute; discriminate]|].
    split; [vm_compute; reflexivity|]. split; vm_compute; reflexivity.
  - vm_compute; discriminate.
  - exists h', w', page'. split; [exact Hs|]. split; [exact Hm|]. rewrite Hv. vm_compute. reflexivity.
Defined.

(** ** The table that is installed *)

Section Table.

Context {K : Type} `{Kernel K}.
Abbreviation Env := (VmiEnv K MainEnv).
Implicit Types (w : World K Env) (d : EventDispatcher K Env).

(** A bus none of whose subscribers faults. *)
Definition quiet_bus d : Prop :=
  Forall (fun s => forall ev w, exists w', sub_handler s ev w = Ok (tt, w')) (ed_subscriptions d).

Lemma publish_total d ev w :
  quiet_bus d -> exists d' w', publish d ev w = Ok (d', w') /\ ed_subscriptions d' = ed_subscriptions d.
Proof.
  intros Hq. unfold publish. cbn [ed_subscriptions].
  assert (exists w', deliver ev (ed_subscriptions d) w = Ok (tt, w')) as [w' Hd].
  { revert w. induction Hq as [|s subs Hs _ IH]; intros w; [by eexists|]. cbn [deliver].
    destruct (sub_matches ev s); [|apply IH]. destruct (Hs ev w) as [w1 H1].
    rewrite (bind_Ok _ _ _ _ _ H1). apply IH. }
  rewrite (bind_Ok _ _ _ _ _ Hd). by eexists _, _.
Qed.

(** What the processor's CPUID gives for a leaf, sub-leaf 0. *)
Definition host_leaf (cpuid : Z -> Z -> Z * Z * Z * Z) (leaf : Z) : LeafResult :=
  let '(a, b, c, e) := cpuid leaf 0 in leaf_u32 (mk_LeafResult a b c e).

Lemma build_table_ok (cpuid : Z -> Z -> Z * Z * Z * Z) leaves entries d w :
  (forall k leaf sub, fst (k_cpuid leaf sub k) = cpuid leaf sub) -> quiet_bus d ->
  exists d' w', build_table leaves entries d w =
    Ok ((entries ++ map (fun leaf => host_entry leaf (host_leaf cpuid leaf)) leaves, d'), w').
Proof.
  intros Hc. revert entries d w. induction leaves as [|leaf leaves IH]; intros entries d w Hq.
  { exists d, w. by rewrite app_nil_r. }
  cbn [build_table map].
  assert (exists w1, executeHostCpuid leaf 0 w = Ok (host_leaf cpuid leaf, w1)) as (w1 & He).
  { unfold executeHostCpuid, bind, host_cpuid, host_leaf.
    specialize (Hc (h_kern (w_host w)) leaf 0).
    destruct (k_cpuid leaf 0 (h_kern (w_host w))) as [[[[a b] c] e] k]. cbn in Hc. rewrite <-Hc.
    by eexists. }
  rewrite (bind_Ok _ _ _ _ _ He). unfold bind at 1, print.
  set (w1' := printed _ w1). unfold bind at 1, steady_now.
  destruct (k_clock (h_kern (w_host w1'))) as [now k].
  destruct (publish_total d (table_event (masked_entry (host_entry leaf (host_leaf cpuid leaf))) now)
              (on_host (set_kern k) w1') Hq) as (d' & w2 & Hp & Hd).
  rewrite (bind_Ok _ _ _ _ _ Hp).
  destruct (IH (entries ++ [host_entry leaf (host_leaf cpuid leaf)]) d' w2) as (d2 & w3 & ->).
  { unfold quiet_bus. by rewrite Hd. }
  exists d2, w3. by rewrite <-app_assoc.
Qed.

End Table.

(** The CPUID table the demo installs is the host's, unmasked: the loop
    runs to its end without a fault (as long as no subscriber faults) and its
    nine entries hold exactly what the host's CPUID returns, for leaf 1
    including the hypervisor-present bit, and for leaf 0 including the largest
    leaf; the changes are made to a copy that only the published event sees. *)
Lemma table_is_unmasked {K} `{Kernel K} cpuid d (w : World K (VmiEnv K MainEnv)) :
  (forall k leaf sub, fst (k_cpuid leaf sub k) = cpuid leaf sub) -> quiet_bus d ->
  exists entries d' w', build_table cpuid_leaves [] d w = Ok ((entries, d'), w') /\
    map e_function entries = cpuid_leaves /\
    (forall i e, entries !! i = Some e ->
       e = host_entry (e_function e) (host_leaf cpuid (e_function e))) /\
    (forall e, e ∈ entries -> e_function e = 0x01 ->
       Z.testbit (e_ecx e) 31 = Z.testbit (lr_ecx (host_leaf cpuid 0x01)) 31 /\
       Z.testbit (e_ecx (masked_entry e)) 31 = false).
Proof.
  intros Hc Hq. destruct (build_table_ok cpuid cpuid_leaves [] d w Hc Hq) as (d' & w' & Hb).
  do 3 eexists. split; [exact Hb|].
  cbn [app]. split; [|split].
  - reflexivity.
  - intros i e (leaf & -> & _)%list_lookup_fmap_Some. done.
  - intros e (leaf & -> & _)%list_elem_of_fmap. cbn [host_entry e_function]. intros ->.
    split; [done|]. cbn [masked_entry host_entry e_function e_ecx Z.eqb Pos.eqb].
    rewrite Z.land_spec. by rewrite andb_false_r.
Qed.

Lemma table_is_unmasked_witness :
  exists entries d' w', build_table cpuid_leaves []
      (snd (subscribeAll logger EventDispatcher_new)) (main_world ∅) = Ok ((entries, d'), w') /\
    map e_function entries = cpuid_leaves.
Proof.
  destruct (table_is_unmasked (K := SimK) (fun leaf sub => (u32 (leaf + 22), u32 (sub + 1), 2 ^ 31 + 3, 5))
              (snd (subscribeAll logger EventDispatcher_new)) (main_world ∅))
    as (entries & d' & w' & Hb & Hm & _).
  - reflexivity.
  - apply List.Forall_cons; [|constructor]. intros ev w. by eexists.
  - exists entries, d', w'. split; [exact Hb|exact Hm].
Defined.

(** ** Every run starts from the snapshot *)

(** C38. However a run has left the machine, as long as its vCPU answers and
    its memory is still mapped, the next run starts from the registers, special
    registers and memory of the snapshot with only the input byte at 0x2000
    replaced by the run's own; the device state and the agents' logs are not
    rewound. *)
Theorem run_starts_from_snapshot {K} `{KvmLaws K} i vm v vs reg r s saved
    (w : World K (VmiEnv K MainEnv)) :
  (0 < i)%nat -> vm_vcpus vm = v :: vs -> vm_memoryRegions vm = [reg] ->
  canonical_regs r -> k_valid_sregs s -> Z.of_nat (length saved) = mr_size reg ->
  0x2000 < mr_size reg ->
  is_Some (k_regs (h_kern (w_host w)) (vc_fd v)) ->
  is_Some (k_sregs (h_kern (w_host w)) (vc_fd v)) ->
  regions_ok [reg] (h_mem (w_host w)) ->
  exists w', begin_run i vm (mk_VmSnapShot r s [saved]) w = Ok (tt, w') /\
    k_regs (h_kern (w_host w')) (vc_fd v) = Some r /\
    k_sregs (h_kern (w_host w')) (vc_fd v) = Some s /\
    region_bytes reg (h_mem (w_host w'))
    = splice (Z.to_nat 0x2000) [nth (i mod 3) fuzzInput 0] saved /\
    w_env w' = w_env w.
Proof.
  intros Hi Hv Hrs Hc Hs Hlen Hsz Hr Hsr Hok.
  destruct (restoreSnapshot_ok vm v vs r s [saved] w) as
    (w1 & Hres & Hr1 & Hs1 & Hf & Hok1 & _ & Henv & _); rewrite ?Hrs; try done.
  { by repeat constructor. }
  rewrite Hrs in Hf, Hok1. apply Forall2_cons in Hf as [[Hz|Hm] _]; [lia|].
  destruct Hok1 as [[Hreg _]%Forall_cons _]. destruct Hreg as (Hnz & _).
  eexists. split.
  - unfold begin_run. rewrite (proj2 (Nat.ltb_lt _ _)) by lia. unfold bind at 1.
    rewrite (bind_Ok _ _ _ _ _ Hres).
    unfold region_at, print. rewrite Hrs. cbn [lookup list_lookup]. rewrite bind_ret_l.
    unfold bind at 1. rewrite (mem_store_ok _ saved) by (done || cbn [length]; lia).
    set (bytes := splice _ _ _). unfold bind at 1.
    rewrite (mem_load_ok _ bytes) by
      (done || apply lookup_insert_eq || (subst bytes; rewrite length_splice; cbn [length]; lia) || lia).
    reflexivity.
  - split; [exact Hr1|]. split; [exact Hs1|]. split; [|exact Henv].
    apply (region_bytes_insert reg).
Qed.

Lemma run_starts_from_snapshot_witness :
  let reg := mk_MemoryRegion 4 0 0 0x3000 4096 in
  let vm := mk_VirtualMachine 4 4160 1 [reg] [mk_VCpu 5 0 8192 4160] in
  exists w', begin_run 1 vm
      (mk_VmSnapShot (fix_rflags zero_regs) zero_sregs [replicate (Z.to_nat 0x3000) 7])
      (main_world {[4096 := replicate (Z.to_nat 0x3000) 0]}) = Ok (tt, w') /\
    region_bytes reg (h_mem (w_host w'))
    = splice (Z.to_nat 0x2000) [0x42] (replicate (Z.to_nat 0x3000) 7).
Proof.
  intros reg vm.
  destruct (run_starts_from_snapshot 1 vm (mk_VCpu 5 0 8192 4160) [] reg (fix_rflags zero_regs) zero_sregs
              (replicate (Z.to_nat 0x3000) 7) (main_world {[4096 := replicate (Z.to_nat 0x3000) 0]}))
    as (w' & Hb & _ & _ & Hm & _).
  - lia.
  - reflexivity.
  - reflexivity.
  - apply fix_rflags_canonical.
  - exact I.
  - rewrite length_replicate. cbn [mr_size reg]. lia.
  - cbn [mr_size reg]. lia.
  - vm_compute; eauto.
  - vm_compute; eauto.
  - split; [|apply NoDup_singleton]. constructor; [|constructor].
    split; [done|]. split; [cbn [mr_size reg]; lia|]. eexists. split; [apply lookup_singleton_eq|].
    rewrite length_replicate. cbn [mr_size reg]. lia.
  - exists w'. split; [exact Hb|]. rewrite Hm. reflexivity.
Defined.
