(* ===== verification/MainSafe.v ===== *)
(** * The program as a whole

    On a kernel that behaves as documented [main] never faults: whatever the
    calls return and whatever the guest does, the program comes back with an
    exit code, or is still running the guest, and when it comes back the
    process holds exactly the descriptors and mappings it started with.  If the
    guest stops by itself, it does come back.  The proof follows the program:
    an invariant for the time the guest is being run ([running]), and the
    specifications of the handles ([Ownership], [Boot]) around it. *)

From S2P Require Import Prelude Host SimKvm Resource Memory Vcpu PortIo MmioDev Cpuid Msr Dispatcher Machine System Ownership Trapper Progress Loader Text Boot Vmi Main.
From stdpp Require Import base list gmap gmultiset strings.
From Stdlib Require Import ZArith Lia.
Open Scope Z_scope.
Open Scope hv_scope.

(** ** The invariant while the guest runs *)

Section Running.

Context {K : Type} `{Kernel K} `{!MmapLaws K} `{!FdLaws K} `{!PageLaws K} `{!RunLaws K}.
Abbreviation Env := (VmiEnv K MainEnv).
Implicit Types (w : World K Env).

Lemma owned_steady w w' L : owned w L -> steady w w' -> owned w' L.
Proof.
  intros [Hh Hu Hb] [_ Hf Hl Hbs (Hm & Ho & _)].
  assert (forall x, present w' x = present w x) as Hp.
  { intros [fd|a]; cbn; apply bool_decide_ext; [by rewrite Hf|].
    apply (f_equal (lookup a)) in Hl. rewrite !lookup_fmap in Hl.
    destruct (h_mem (w_host w') !! a), (h_mem (w_host w) !! a); try done. }
  split; [intros x; by rewrite Hp| |auto]. intros x. rewrite Hp. intros Hx. specialize (Hu x Hx).
  destruct x; cbn in *; auto.
Qed.

Lemma block_steady a n w w' : block_of a n w -> steady w w' -> block_of a n w'.
Proof.
  intros (Hn & l & Hl & Hs) [_ _ Hlen _ _]. split; [done|].
  apply (f_equal (lookup a)) in Hlen. rewrite !lookup_fmap, Hl in Hlen. cbn in Hlen.
  destruct (h_mem (w_host w') !! a) as [l'|]; [|done]. injection Hlen as Hlen. exists l'. by rewrite Hlen.
Qed.

(** The machine while it runs: one vCPU [v], one region [r]. *)
Record machine_ok (vm : VirtualMachine) (v : VCpu) (r : MemoryRegion) : Prop := {
  mo_vcpus : vm_vcpus vm = [v];
  mo_regions : vm_memoryRegions vm = [r] }.

(** The environment: the machine where [main] put it, and the agent wired to it. *)
Definition agent_wired (a : VmiAgent K MainEnv) : Prop :=
  va_vm a = vm_ptr /\ va_dispatch a = dispatcher_ptr /\ va_subId a = 1 /\
  va_callbacks a = [vmi_printer] /\ va_memDumpEnabled a = false.

Definition wired (vm : VirtualMachine) (e : Env) : Prop :=
  ve_vms e !! vm_ptr = Some vm /\
  exists a, ve_agents e !! agent_ptr = Some a /\ agent_wired a.

(** What the process holds, a vCPU that can be run, RAM that can be written. *)
Record running (L : resources) (v : VCpu) (r : MemoryRegion) (A : Env -> Prop) w : Prop := {
  ru_owned : owned w L;
  ru_live : vcpu_live v w;
  ru_ram : block_of (mr_hostAddr r) (mr_size r) w;
  ru_env : A (w_env w) }.

Lemma running_steady L v r A w w' : running L v r A w -> steady w w' -> running L v r A w'.
Proof.
  intros [Ho Hl Hr He] Hs. split.
  - by eapply owned_steady.
  - by eapply vcpu_live_steady.
  - by eapply block_steady.
  - by rewrite (st_env _ _ Hs).
Qed.

(** Another environment around the same host. *)
Lemma running_env L v r (A B : Env -> Prop) w e :
  running L v r A w -> B e -> running L v r B (mk_world (w_host w) e).
Proof. intros [[Hh Hu Hb] [? ? ? ?] Hr He] HB. by split. Qed.

(** ** The callbacks of [main] are quiet *)

Context (R : K -> K -> Prop) `{!Order R}.
Context (L : resources) (v : VCpu) (r : MemoryRegion) (vm : VirtualMachine).
Hypothesis Hvm : machine_ok vm v r.

Abbreviation I := (running L v r (wired vm)).
Abbreviation quiet := (quiet I R).

Lemma I_steady w w' : I w -> steady w w' -> I w'.
Proof. apply running_steady. Qed.

Hint Resolve I_steady : core.

(** Reading the environment, and changing it within [wired]. *)
Lemma quiet_get {A} (f : World K Env -> A) : quiet (fun w => Ok (f w, w)).
Proof. intros w Hw. do 2 eexists. split; [reflexivity|]. split_and!; try done. apply (R_refl R). Qed.

Lemma quiet_put (f : Env -> Env) :
  (forall e, wired vm e -> wired vm (f e)) ->
  quiet (fun w => Ok (tt, mk_world (w_host w) (f (w_env w)))).
Proof.
  intros Hf w Hw. do 2 eexists. split; [reflexivity|]. split_and!; [|done|apply (R_refl R)].
  eapply running_env; [exact Hw|]. apply Hf, Hw.
Qed.

Lemma quiet_put_main e : quiet (put_main e).
Proof. by apply (quiet_put (fun e0 => mk_VmiEnv (ve_vms e0) (ve_agents e0) e)). Qed.

Lemma cpuid_quiet_main : cpuid_quiet I R main_cpuid.
Proof.
  intros leaf cb a b [_ ->]%main_leaf.
  apply (quiet_bind I R); [apply (quiet_cpuid I R); eauto|]. intros x. apply (quiet_ret I R).
Qed.

Lemma io_quiet_main : io_quiet I R main_io.
Proof.
  split; intros port cb ctx Hl; [|by rewrite main_out in Hl]. apply main_in in Hl as [_ ->].
  apply (quiet_bind I R); [apply (quiet_print I R); eauto|]. intros []. apply (quiet_ret I R).
Qed.

Lemma mmio_quiet_main : mmio_quiet I R main_mmio.
Proof.
  split; intros addr cb ctx Hl.
  - apply main_read in Hl as [[_ ->]|[_ ->]]; [|apply (quiet_ret I R)].
    apply (quiet_bind I R); [apply quiet_get|]. intros e. apply (quiet_ret I R).
  - apply main_write in Hl as [_ ->]. apply (quiet_bind I R); [apply quiet_get|]. intros e.
    apply (quiet_bind I R); [apply quiet_put_main|]. intros []. apply (quiet_print I R). eauto.
Qed.

Lemma quiet_logger ev : quiet (logger ev).
Proof.
  apply (quiet_bind I R); [apply (quiet_print I R); eauto|]. intros []. apply (quiet_print I R). eauto.
Qed.

(** *** The agent *)

Lemma quiet_agent_at {A} (k : VmiAgent K MainEnv -> M (World K Env) A) :
  (forall a, agent_wired a -> quiet (k a)) -> quiet (bind (agent_at agent_ptr) k).
Proof.
  intros Hk w Hw. destruct (ru_env _ _ _ _ _ Hw) as (_ & a & Ha & Hwired).
  destruct (Hk a Hwired w Hw) as (x & w1 & E1 & ?). exists x, w1. split; [|done].
  unfold bind, agent_at. by rewrite Ha.
Qed.

Lemma quiet_set_agent a : agent_wired a -> quiet (set_agent agent_ptr a).
Proof.
  intros Ha. apply (quiet_put (fun e => mk_VmiEnv (ve_vms e) (<[agent_ptr := a]> (ve_agents e)) (ve_user e))).
  intros e [Hv _]. split; [done|]. exists a. split; [apply lookup_insert_eq|done].
Qed.

Lemma quiet_snapshotRegisters a i : agent_wired a -> quiet (snapshotRegisters a i).
Proof.
  intros (Hp & _). unfold snapshotRegisters. rewrite Hp. cbn [Z.eqb vm_ptr nullptr].
  intros w Hw. destruct (ru_env _ _ _ _ _ Hw) as (Hv & _).
  assert (vm_at vm_ptr w = Ok (vm, w)) as E0 by (unfold vm_at; by rewrite Hv).
  rewrite (bind_Ok _ _ _ _ _ E0). revert w Hw Hv E0. unfold vcpus. rewrite (mo_vcpus _ _ _ Hvm).
  cbn [length]. destruct (_ <=? i) eqn:Ei; boolify; intros w Hw _ _; [by apply (quiet_ret I R)|].
  unfold vcpu_at. rewrite (mo_vcpus _ _ _ Hvm). replace (Z.to_nat i) with 0%nat by lia.
  revert w Hw. change (quiet (let* regsResult := VCpu_getRegs v in
    let* sregsResult := VCpu_getSregs v in
    match regsResult, sregsResult with
    | Value rr, Value sr => let* now := steady_now in ret (Some (snapshot_of rr sr now))
    | _, _ => ret None
    end)).
  apply (quiet_bind I R); [apply (quiet_getRegs I R); eauto|]. intros regs.
  apply (quiet_bind I R); [apply (quiet_getSregs I R); eauto|]. intros sregs.
  destruct regs, sregs; try apply (quiet_ret I R).
  apply (quiet_bind I R); [apply (quiet_now I R); eauto|]. intros now. apply (quiet_ret I R).
Qed.

Lemma quiet_handler ev : quiet (handleHvEvent agent_ptr ev).
Proof.
  apply quiet_agent_at. intros a Ha. unfold enrich. pose proof Ha as (_ & _ & _ & Hcb & Hd). rewrite Hd, Hcb.
  apply (quiet_bind I R).
  { apply (quiet_bind I R); [by apply quiet_snapshotRegisters|]. intros snap.
    apply (quiet_bind I R); [apply (quiet_ret I R)|]. intros dump. apply (quiet_ret I R). }
  intros ie. apply (quiet_bind I R).
  { apply quiet_set_agent. by destruct Ha as (?&?&?&?&?). }
  intros []. apply (quiet_bind I R).
  - intros w Hw. destruct (quiet_print I R I_steady (vmi_line ie) w Hw) as ([] & w1 & E1 & H1 & M1 & R1).
    exists tt, w1. split; [|done]. cbn in E1 |- *. injection E1 as <-. by destruct w as [[] []].
  - intros []. apply (quiet_ret I R).
Qed.

(** The bus of [main]: the agent and the logger. *)
Definition main_subs : list (Subscription K Env) :=
  [mk_Subscription 1 None (handleHvEvent agent_ptr); mk_Subscription 2 None logger].

Lemma main_subs_quiet d : ed_subscriptions d = main_subs -> subs_quiet I R d.
Proof.
  intros Hd. unfold subs_quiet. rewrite Hd. unfold main_subs.
  apply List.Forall_cons; [intros ev; apply quiet_handler|].
  apply List.Forall_cons; [intros ev; apply quiet_logger|constructor].
Qed.

(** The trapper [main] builds. *)
Definition main_trapper (d : EventDispatcher K Env) : InstructionTrapper K Env :=
  InstructionTrapper_new v (Some main_cpuid) (Some main_io) (Some MsrHandler_new) (Some main_mmio) (Some d).

Lemma main_trapper_quiet d : ed_subscriptions d = main_subs -> trapper_quiet I R v (main_trapper d).
Proof.
  intros Hd. split; cbn.
  - done.
  - intros ? [= <-]. apply cpuid_quiet_main.
  - intros ? [= <-]. apply io_quiet_main.
  - intros ? [= <-]. apply mmio_quiet_main.
  - intros ? [= <-]. by apply main_subs_quiet.
Qed.

(** ** The phases of the run *)

(** The kernel is in [G] throughout: a set of states no call and no exit leaves. *)
Context (G : K -> Prop).
Hypothesis G_call : forall c k, G k -> G (kr_kern (k_syscall c k)).
Hypothesis G_R : forall k k', R k k' -> G k -> G k'.

Definition Inv w : Prop := I w /\ G (h_kern (w_host w)).

(** Runs without a fault within the invariant; [Q] holds of the result. *)
Definition safe {A} (m : M (World K Env) A) (Q : A -> Prop) : Prop :=
  triple Inv m (fun a w => Q a /\ Inv w).

Lemma safe_bind {A B} (m : M (World K Env) A) (k : A -> M (World K Env) B) P Q :
  safe m P -> (forall a, P a -> safe (k a) Q) -> safe (bind m k) Q.
Proof. intros Hm Hk. eapply triple_bind; [exact Hm|]. intros a. by apply triple_pure, Hk. Qed.

Lemma safe_ret {A} (a : A) (Q : A -> Prop) : Q a -> safe (ret a) Q.
Proof. intros Ha. eapply triple_pre; [apply triple_ret|]. done. Qed.

Lemma safe_quiet {A} (m : M (World K Env) A) : quiet m -> safe m (fun _ => True).
Proof.
  intros Hm w [Hw Hg]. destruct (Hm w Hw) as (a & w1 & E1 & H1 & _ & R1).
  exists a, w1. split; [done|]. split; [done|]. split; [done|]. by eapply G_R.
Qed.

Lemma safe_then {A B} (m : M (World K Env) A) (k : A -> M (World K Env) B) Q :
  quiet m -> (forall a, safe (k a) Q) -> safe (bind m k) Q.
Proof. intros Hm Hk. eapply safe_bind; [by apply safe_quiet|]. eauto. Qed.

Lemma safe_print {B} s (k : unit -> M (World K Env) B) Q :
  safe (k tt) Q -> safe (bind (print s) k) Q.
Proof. intros Hk. apply safe_then; [apply (quiet_print I R); eauto|]. by intros []. Qed.

Lemma quiet_say s : quiet (print s).
Proof. apply (quiet_print I R). eauto. Qed.

Lemma quiet_warn s ec : quiet (report s ec).
Proof. apply (quiet_report I R). eauto. Qed.

Lemma safe_set_sregs s : safe (VCpu_setSregs v s) (fun _ => True).
Proof.
  apply (safe_bind _ _ (fun _ => True)).
  - intros w [Hw Hg]. do 2 eexists. split; [apply do_syscall_eq|]. split; [done|].
    split; [by eapply I_steady, steady_call|]. by apply G_call.
  - intros [x o] _. apply safe_quiet, (quiet_if I R); [apply (quiet_errno I R)|apply (quiet_ret I R)].
Qed.

(** Memory accesses to RAM. *)
Lemma safe_store off bs :
  0 <= off -> off + Z.of_nat (length bs) <= mr_size r -> Forall is_byte bs ->
  safe (mem_store (mr_hostAddr r) off bs) (fun _ => True).
Proof.
  intros Hoff Hfit Hb w [Hw Hg]. destruct (ru_ram _ _ _ _ _ Hw) as (Hn & l & Hl & Hs).
  do 2 eexists. split; [apply (mem_store_ok _ l); (done || lia)|]. split; [done|]. split; [|done].
  eapply I_steady; [done|]. apply (steady_page (mr_hostAddr r) l); [done|rewrite length_splice; lia|].
  apply Forall_splice; [done|]. by apply (ow_bytes _ _ (ru_owned _ _ _ _ _ Hw) (mr_hostAddr r)).
Qed.

Lemma safe_load off n :
  0 <= off -> 0 <= n -> off + n <= mr_size r ->
  safe (mem_load (mr_hostAddr r) off n) (fun bs => Z.of_nat (length bs) = n /\ Forall is_byte bs).
Proof.
  intros Hoff Hn Hfit w [Hw Hg]. destruct (ru_ram _ _ _ _ _ Hw) as (Hnz & l & Hl & Hs).
  do 2 eexists. split; [apply (mem_load_ok _ l); (done || lia)|]. split; [|done]. split.
  - rewrite length_slice; lia.
  - apply Forall_slice. by apply (ow_bytes _ _ (ru_owned _ _ _ _ _ Hw) (mr_hostAddr r)).
Qed.

(** *** Snapshots *)

Definition snapshot_ok (s : VmSnapShot) : Prop :=
  exists bytes, sn_memoryRegions s = [bytes] /\ Z.of_nat (length bytes) = mr_size r /\ Forall is_byte bytes.

Lemma vcpu_at_0 {A} (k : VCpu -> M (World K Env) A) : bind (vcpu_at vm 0) k = k v.
Proof. unfold vcpu_at. by rewrite (mo_vcpus _ _ _ Hvm). Qed.

Lemma region_at_0 {A} (k : MemoryRegion -> M (World K Env) A) : bind (region_at vm 0) k = k r.
Proof. unfold region_at. by rewrite (mo_regions _ _ _ Hvm). Qed.

Lemma safe_ram {A} (m : M (World K Env) A) Q :
  (mr_hostAddr r <> nullptr -> 0 <= mr_size r -> safe m Q) -> safe m Q.
Proof.
  intros Hm w Hw. destruct (ru_ram _ _ _ _ _ (proj1 Hw)) as (Hn & l & _ & Hs).
  apply Hm; [done|lia|done].
Qed.

Lemma safe_takeSnapShot : safe (takeSnapShot vm) snapshot_ok.
Proof.
  apply safe_ram. intros Hn Hs. unfold takeSnapShot. rewrite vcpu_at_0.
  apply safe_then; [apply (quiet_getRegs I R); eauto|]. intros regs.
  apply safe_then; [apply (quiet_getSregs I R); eauto|]. intros sregs.
  rewrite (mo_regions _ _ _ Hvm). cbn [snapshot_regions]. rewrite (proj2 (Z.eqb_neq _ _) Hn).
  eapply (safe_bind _ _ (fun mem => exists bytes, mem = [bytes] /\ Z.of_nat (length bytes) = mr_size r /\ Forall is_byte bytes)).
  - eapply safe_bind; [apply safe_load; lia|]. intros bytes [Hl Hb]. cbn beta.
    apply (safe_ret [bytes]). by exists bytes.
  - intros mem (bytes & -> & Hl & Hb). apply safe_ret. by exists bytes.
Qed.

Lemma safe_restoreSnapshot s : snapshot_ok s -> safe (restoreSnapshot vm s) (fun _ => True).
Proof.
  intros (bytes & Hm & Hl & Hb). apply safe_ram. intros Hn Hs. unfold restoreSnapshot. rewrite vcpu_at_0.
  apply safe_then; [apply (quiet_setRegs I R); eauto|]. intros ec1.
  apply safe_then; [apply (quiet_if I R); [apply quiet_warn|apply (quiet_ret I R)]|]. intros _.
  eapply safe_bind; [apply safe_set_sregs|]. intros ec2 _.
  apply safe_then; [apply (quiet_if I R); [apply quiet_warn|apply (quiet_ret I R)]|]. intros _.
  rewrite (mo_regions _ _ _ Hvm), Hm. cbn [restore_regions]. rewrite (proj2 (Z.eqb_neq _ _) Hn). cbn [orb].
  eapply (safe_bind _ _ (fun _ => True)); [|intros [] _; by apply safe_ret].
  destruct bytes as [|b bytes]; [by apply safe_ret|].
  rewrite load_bytes_ok by lia. unfold bind at 1. cbn [lift].
  apply safe_store; [done| |by apply Forall_slice].
  rewrite length_slice by lia. lia.
Qed.

Lemma is_byte_input i : is_byte (nth (i mod length fuzzInput) fuzzInput 0).
Proof.
  pose proof (Nat.mod_upper_bound i (length fuzzInput) ltac:(done)) as Hi.
  destruct (i mod length fuzzInput)%nat as [|[|[|n]]]; cbn in *; unfold is_byte; lia.
Qed.

Lemma safe_begin_run i s :
  0x2000 < mr_size r -> snapshot_ok s -> safe (begin_run i vm s) (fun _ => True).
Proof.
  intros Hsz Hs. unfold begin_run.
  eapply (safe_bind _ _ (fun _ => True)).
  { destruct (0 <? i)%nat; [|by apply safe_ret]. eapply safe_bind; [by apply safe_restoreSnapshot|].
    intros [] _. apply safe_quiet, quiet_say. }
  intros [] _. rewrite region_at_0.
  eapply safe_bind.
  { apply safe_store; [done|cbn [length]; lia|]. repeat constructor; apply is_byte_input. }
  intros [] _. eapply safe_bind; [apply safe_load; lia|]. intros injected _.
  apply safe_print, safe_quiet, quiet_say.
Qed.

(** *** The CPUID table *)

Lemma safe_build_table leaves entries d :
  ed_subscriptions d = main_subs ->
  safe (build_table leaves entries d) (fun p => ed_subscriptions p.2 = main_subs).
Proof.
  revert entries d. induction leaves as [|leaf leaves IH]; intros entries d Hd; [by apply safe_ret|].
  cbn [build_table]. apply safe_then; [apply (quiet_executeHostCpuid I R); eauto|]. intros x.
  apply safe_print. apply safe_then; [apply (quiet_now I R); eauto|]. intros now.
  apply (safe_bind _ _ (fun d' => ed_subscriptions d' = main_subs)); [|intros d' Hd'; by apply IH].
  unfold publish. cbn [ed_subscriptions]. apply safe_then; [|intros []; by apply safe_ret].
  apply (quiet_deliver I R). by apply main_subs_quiet.
Qed.

(** *** The runs *)

Context (fuel : nat) (ends : bool).

(** What the run loop guarantees ([Progress]): no fault, and if the guest stops
    by itself, an end. *)
Hypothesis loop_ok : forall t w,
  trapper_quiet I R v t -> Inv w ->
  exists x t' w', runLoop fuel 0 t w = Ok ((x, t'), w') /\ I w' /\
    R (h_kern (w_host w)) (h_kern (w_host w')) /\ trapper_quiet I R v t' /\
    (ends = true -> x <> None).

Lemma safe_runLoop t :
  trapper_quiet I R v t ->
  safe (runLoop fuel 0 t) (fun p => trapper_quiet I R v p.2 /\ (ends = true -> p.1 <> None)).
Proof.
  intros Ht w Hw. destruct (loop_ok t w Ht Hw) as (x & t' & w' & E1 & H1 & R1 & T1 & He).
  exists (x, t'), w'. split; [done|]. split; [done|]. split; [done|]. eapply G_R; [done|]. apply Hw.
Qed.

(** How a series of runs ends: still running, an exit code, or to its end. *)
Definition runs_end (code : option (option Z)) : Prop :=
  match code with
  | None => ends = false
  | Some None => True
  | Some (Some c) => c = 1
  end.

Lemma quiet_print_result x : quiet (print_result x).
Proof. destruct x; cbn; (apply quiet_say || apply (quiet_ret I R)). Qed.

Lemma safe_fuzz_loop left i s t :
  0x2000 < mr_size r -> snapshot_ok s -> trapper_quiet I R v t ->
  safe (fuzz_loop fuel left i vm s t) (fun p => runs_end p.1).
Proof.
  intros Hsz Hs. revert i t. induction left as [|left IH]; intros i t Ht; [by apply safe_ret|].
  cbn [fuzz_loop]. eapply safe_bind; [by apply safe_begin_run|]. intros [] _.
  eapply safe_bind; [by apply safe_runLoop|]. intros [x t'] [Ht' He]. cbn [fst snd] in *.
  destruct x as [x|].
  2: { apply safe_ret. cbn. destruct ends; [by specialize (He eq_refl)|done]. }
  destruct x; try (apply safe_print; apply safe_then; [apply quiet_print_result|]; intros []; by apply IH).
  apply safe_print. apply safe_then; [apply quiet_warn|]. intros []. by apply safe_ret.
Qed.

(** *** From the wiring to the end *)

(** The agent after its construction and the registration of the printer. *)
Definition main_agent : VmiAgent K MainEnv :=
  mk_VmiAgent vm_ptr dispatcher_ptr [vmi_printer] [] 1 false 0 0.

Definition with_agent w : World K Env :=
  let e := w_env w in
  mk_world (w_host w) (mk_VmiEnv (ve_vms e) (<[agent_ptr := main_agent]> (ve_agents e)) (ve_user e)).

Definition agent_bus : EventDispatcher K Env :=
  mk_EventDispatcher [mk_Subscription 1 None (handleHvEvent agent_ptr)] 2 0.

Lemma wiring {A} (k : gmap Z (EventDispatcher K Env) -> M (World K Env) A) w :
  bind (VmiAgent_new agent_ptr vm_ptr dispatcher_ptr {[dispatcher_ptr := EventDispatcher_new]})
       (fun ds => onEvent agent_ptr vmi_printer ;;; k ds) w
  = k {[dispatcher_ptr := agent_bus]} (with_agent w).
Proof.
  unfold VmiAgent_new, onEvent, agent_at, set_agent, dispatcher_at, bind. cbn -[insert lookup].
  rewrite lookup_singleton_eq. cbn -[insert lookup]. rewrite lookup_insert_eq. cbn -[insert lookup].
  rewrite insert_insert_eq. unfold with_agent. f_equal.
Qed.

Lemma with_agent_ok w :
  running L v r (fun e => ve_vms e !! vm_ptr = Some vm) w -> I (with_agent w).
Proof.
  intros Hw. eapply running_env; [exact Hw|]. split; [apply Hw|].
  exists main_agent. split; [apply lookup_insert_eq|done].
Qed.

Lemma destroy_agent d :
  triple Inv (VmiAgent_destroy agent_ptr {[dispatcher_ptr := d]}) (fun _ w => owned w L).
Proof.
  intros w [Hw _]. destruct (ru_env _ _ _ _ _ Hw) as (_ & a & Ha & Hwired).
  destruct Hwired as (_ & Hd & Hs & _). unfold VmiAgent_destroy, agent_at, free_agent, bind. rewrite Ha, Hd, Hs.
  unfold dispatcher_at. cbn -[lookup insert delete]. rewrite lookup_singleton_eq. cbn -[lookup insert delete].
  do 2 eexists. split; [reflexivity|]. by destruct (ru_owned _ _ _ _ _ Hw).
Qed.

(** How the program may end, holding [L] when it exits. *)
Definition exit_state {T} (code : option (Z * T)) w : Prop :=
  match code with
  | None => ends = false
  | Some (c, _) => (c = 0 \/ c = 1) /\ owned w L
  end.

Lemma leave {T} (c : Z) (log : T) d :
  c = 0 \/ c = 1 ->
  triple Inv (VmiAgent_destroy agent_ptr {[dispatcher_ptr := d]} ;;; ret (Some (c, log))) exit_state.
Proof.
  intros Hc. eapply triple_bind; [apply destroy_agent|]. intros ds.
  eapply triple_pre; [apply triple_ret|]. done.
Qed.

Lemma safe_triple {A B} (m : M (World K Env) A) (k : A -> M (World K Env) B) P Q :
  safe m P -> (forall a, P a -> triple Inv (k a) Q) -> triple Inv (bind m k) Q.
Proof. intros Hm Hk. eapply triple_bind; [exact Hm|]. intros a. by apply triple_pure, Hk. Qed.

Lemma say_triple {B} s (k : unit -> M (World K Env) B) Q :
  triple Inv (k tt) Q -> triple Inv (bind (print s) k) Q.
Proof. intros Hk. eapply safe_triple; [apply safe_quiet, quiet_say|]. by intros []. Qed.

Lemma quiet_installCpuid entries : quiet (VCpu_installCpuid v entries).
Proof.
  apply (quiet_bind I R); [by apply (quiet_ioctl I R); eauto|]. intros [x o].
  apply (quiet_if I R); [apply (quiet_errno I R)|apply (quiet_ret I R)].
Qed.

Lemma wired_triple opened :
  0x2000 < mr_size r ->
  triple (fun w => running L v r (fun e => ve_vms e !! vm_ptr = Some vm) w /\ G (h_kern (w_host w)))
         (main_wired fuel opened) exit_state.
Proof.
  intros Hsz w [Hw Hg]. unfold main_wired.
  assert (vm_at vm_ptr w = Ok (vm, w)) as E0 by (unfold vm_at; by rewrite (ru_env _ _ _ _ _ Hw)).
  rewrite (bind_Ok _ _ _ _ _ E0), vcpu_at_0, wiring.
  assert (Inv (with_agent w)) as Hi by (split; [by apply with_agent_ok|done]).
  revert Hi. generalize (with_agent w). clear w Hw Hg E0. 
  match goal with |- forall w, _ -> exists a s', ?m w = _ /\ _ => change (triple Inv m exit_state) end.
  unfold dispatcher_at. rewrite lookup_singleton_eq.
  set (bus := snd (subscribeAll logger agent_bus)).
  match goal with |- triple _ (bind (ret ?a) ?k) _ => change (triple Inv (k a) exit_state) end.
  change (subscribeAll logger agent_bus) with (2, bus). cbn iota beta.
  eapply safe_triple; [by apply (safe_build_table cpuid_leaves [] bus)|]. intros [entries d] Hd. cbn [snd] in Hd.
  eapply safe_triple; [apply safe_quiet, quiet_installCpuid|]. intros ec _. destruct (ec_failed ec).
  { eapply safe_triple; [apply safe_quiet, quiet_warn|]. intros [] _. apply leave. by right. }
  apply say_triple. eapply safe_triple; [apply safe_takeSnapShot|]. intros snapshot Hsn. apply say_triple.
  eapply safe_triple; [by apply safe_fuzz_loop; [..|apply main_trapper_quiet]|].
  intros [[[c|]|] t'] Hend; cbn [fst] in Hend.
  - apply leave. by right.
  - unfold main_end. apply say_triple. intros w Hw. destruct (ru_env _ _ _ _ _ (proj1 Hw)) as (_ & a & Ha & _).
    assert (agent_at agent_ptr w = Ok (a, w)) as E0 by (unfold agent_at; by rewrite Ha).
    rewrite (bind_Ok _ _ _ _ _ E0). revert w Hw Ha E0. intros w Hw _ _. revert w Hw.
    apply say_triple, say_triple, leave. by left.
  - intros w _. by exists None, w.
Qed.

End Running.

(** ** The agent of [main] at work *)

Section AgentWired.

Context {K : Type} `{Kernel K}.
Abbreviation Env := (VmiEnv K MainEnv).
Implicit Types (w : World K Env) (a : VmiAgent K MainEnv).

Definition with_record a (ie : IntrospectionEvent) w : World K Env :=
  let e := w_env w in
  mk_world (w_host w) (mk_VmiEnv (ve_vms e) (<[agent_ptr := set_log a (va_eventLog a ++ [ie])]> (ve_agents e)) (ve_user e)).

(** Its handler reads the registers, appends one record and prints its line. *)
Lemma handler_wired ev a w u w' :
  ve_agents (w_env w) !! agent_ptr = Some a -> agent_wired a ->
  handleHvEvent agent_ptr ev w = Ok (u, w') ->
  exists ie snap w1, snapshotRegisters a (ev_vcpu_id ev) w = Ok (snap, w1) /\ nv_base ie = ev /\
    w' = printed (vmi_line ie) (with_record a ie w1).
Proof.
  intros Ha (_ & _ & _ & Hcb & Hd) Hh. unfold handleHvEvent in Hh. apply bind_inv in Hh as (a' & w1 & E1 & Hh).
  unfold agent_at in E1. rewrite Ha in E1. injection E1 as <- <-.
  apply bind_inv in Hh as (ie & w1 & E1 & Hh). unfold enrich in E1. rewrite Hd in E1.
  apply bind_inv in E1 as (snap & w2 & E2 & E1). rewrite bind_ret_l in E1.
  assert (nv_base ie = ev /\ w2 = w1) as [Hb ->] by (by injection E1 as <- <-).
  rewrite Hcb in Hh. unfold bind, set_agent, mapM_, in_user, vmi_printer, print in Hh. cbn in Hh.
  injection Hh as _ <-. exists ie, snap, w1. split; [exact E2|]. split; [exact Hb|]. by destruct w1 as [[] []].
Qed.

End AgentWired.

(** ** The whole program *)

Section Whole.

Context {K : Type} `{Kernel K} `{!MmapLaws K} `{!FdLaws K} `{!PageLaws K} `{!RunLaws K} `{!ErrnoLaws K}.
Abbreviation Env := (VmiEnv K MainEnv).
Implicit Types (w : World K Env) (L F : resources) (vm : VirtualMachine).

Context (R : K -> K -> Prop) `{!Order R} (G : K -> Prop).
Hypothesis G_call : forall c k, G k -> G (kr_kern (k_syscall c k)).
Hypothesis G_R : forall k k', R k k' -> G k -> G k'.

Context (fuel : nat) (ends : bool).

Hypothesis loop_ok : forall (I : World K Env -> Prop) v t w,
  (forall w w', I w -> steady w w' -> I w') ->
  (forall w, I w -> vcpu_live v w) ->
  trapper_quiet I R v t -> I w -> G (h_kern (w_host w)) ->
  exists x t' w', runLoop fuel 0 t w = Ok ((x, t'), w') /\ I w' /\
    R (h_kern (w_host w)) (h_kern (w_host w')) /\ trapper_quiet I R v t' /\
    (ends = true -> x <> None).

(** What the process holds outside the runs. *)
Definition at_rest L w : Prop := owned w L /\ G (h_kern (w_host w)).

Lemma spec_triple {A} X (m : M (World K Env) A) Y Q F :
  spec (fun _ => True) X m Y Q ->
  triple (at_rest (X ⊎ F)) m (fun a w => at_rest (Y a ⊎ F) w /\ Q a w).
Proof.
  intros Hm w [Ho Hg]. destruct (Hm F w Ho I) as (a & w1 & E1 & Ho1 & Hk1 & HQ).
  exists a, w1. split; [done|]. split; [|done]. split; [done|].
  eapply calls_keep; [exact G_call|apply (kp_calls _ _ _ Hk1)|done].
Qed.

(** A call that needs and yields nothing. *)
Lemma call_triple {A B} (m : M (World K Env) A) Q (k : A -> M (World K Env) B) L T :
  spec (fun _ => True) ∅ m (fun _ => ∅) Q -> (forall a, triple (at_rest L) (k a) T) ->
  triple (at_rest L) (bind m k) T.
Proof.
  intros Hm Hk. eapply triple_bind.
  - eapply triple_pre; [exact (spec_triple _ _ _ _ L Hm)|]. intros w. by rewrite (left_id_L ∅ (⊎)).
  - intros a. eapply triple_pre; [exact (Hk a)|]. intros w. rewrite (left_id_L ∅ (⊎)). by intros [? _].
Qed.

(** Releasing [X] at the end. *)
Lemma release_triple {B} X (m : M (World K Env) unit) (k : unit -> M (World K Env) B) L T :
  spec (fun _ => True) X m (fun _ => ∅) (fun _ _ => True) ->
  triple (fun w => owned w L) (k tt) T ->
  triple (fun w => owned w (X ⊎ L)) (bind m k) T.
Proof.
  intros Hm Hk. eapply triple_bind.
  - intros w Ho. destruct (Hm L w Ho I) as (a & w1 & E1 & Ho1 & _ & _).
    exists a, w1. split; [done|]. cbn beta in Ho1. rewrite (left_id_L ∅ (⊎)) in Ho1.
    instantiate (1 := fun _ w => owned w L). done.
  - by intros [].
Qed.

Lemma rest_print {B} s (k : unit -> M (World K Env) B) L T :
  triple (at_rest L) (k tt) T -> triple (at_rest L) (bind (print s) k) T.
Proof. intros Hk w [[Hh Hu Hb] Hg]. by apply (Hk (printed s w)). Qed.

Lemma rest_report {B} s ec (k : unit -> M (World K Env) B) L T :
  triple (at_rest L) (k tt) T -> triple (at_rest L) (bind (report s ec) k) T.
Proof. intros Hk w [[Hh Hu Hb] Hg]. by apply (Hk (on_host (log_diag (s, ec)) w)). Qed.

Lemma done_triple {T} (c : Z) (log : T) L :
  c = 0 \/ c = 1 -> triple (fun w => owned w L) (ret (Some (c, log))) (exit_state L ends).
Proof. intros Hc. eapply triple_pre; [apply triple_ret|]. done. Qed.

(** An early exit: what is left of the scope is released. *)
Lemma quit_triple {T} (m : M (World K Env) unit) (log : T) X L :
  spec (fun _ => True) X m (fun _ => ∅) (fun _ _ => True) ->
  triple (at_rest (X ⊎ L)) (m ;;; ret (Some (1, log))) (exit_state L ends).
Proof.
  intros Hm. eapply triple_pre with (P' := fun w => owned w (X ⊎ L)); [|by intros w [? _]].
  eapply release_triple; [exact Hm|]. apply done_triple. by right.
Qed.

(** *** The calls of the set-up *)

Lemma spec_code fd req :
  yields_fd (Sys_ioctl fd req) = false ->
  spec (E := Env) (fun _ => True) ∅ (let* (r, _) := ioctl fd req in if r <? 0 then errno else ret 0)
       (fun _ => ∅) (fun _ _ => True).
Proof. intros Hy. by apply spec_ioctl_code. Qed.

Lemma spec_checkExtension s cap :
  spec (E := Env) (fun _ => True) ∅ (checkExtension s cap) (fun _ => ∅) (fun _ _ => True).
Proof. apply spec_step; [by apply spec_ioctl|done|]. intros [x o]. by apply spec_done. Qed.

(** The size of the run page KVM reports is at least that of its fixed part. *)
Lemma open_size path w s w' :
  KvmSystem_open path w = Ok (Value s, w') -> kvm_run_header <= ks_vcpuMmapSize s < 2 ^ 31.
Proof.
  unfold KvmSystem_open, sys_open, sys_close, ioctl, errno, bind, do_syscall, ret. cbn -[k_syscall].
  set (r0 := k_syscall (Sys_open _) _). destruct (kr_ret r0 <? 0); [done|].
  set (r1 := k_syscall (Sys_ioctl _ KVM_GET_API_VERSION) _). destruct (kr_ret r1 <? 0); [done|].
  destruct (negb _); [done|]. pose proof (law_mmap_size (kr_kern r1) (kr_ret r0)) as Hsz. cbn zeta in Hsz.
  set (r2 := k_syscall (Sys_ioctl _ KVM_GET_VCPU_MMAP_SIZE) _) in *.
  destruct (kr_ret r2 <? 0) eqn:Es; [done|]. intros [= <- _]. boolify. cbn. lia.
Qed.

(** *** From the load on *)

(** After the load: the machine is stored; if the load failed it is destroyed
    again, otherwise it is run. *)
Lemma loaded_triple opened vm vm' ec L :
  kvm_run_header <= vm_vcpuMmapSize vm < 2 ^ 31 ->
  triple (fun w => at_rest (held vm' ⊎ L) w /\ (ec_failed ec = false -> booted vm (Z.shiftl 1 19) vm' w))
    (put_vm vm_ptr vm' ;;;
     if ec_failed ec then
       report "GuestLoader::loadBytes failed" ec ;;;
       VirtualMachine_destroy vm' ;;;
       ret (Some (1, None))
     else
       print (line "[+] Guest code loaded at GPA 0x1000") ;;;
       let* code := main_wired fuel opened in
       match code with
       | None => ret None
       | Some c => VirtualMachine_destroy vm' ;;; ret (Some c)
       end)
    (exit_state L ends).
Proof.
  intros Hsz w [[Ho Hg] Hb]. unfold put_vm, bind at 1. set (w1 := mk_world _ _).
  assert (owned w1 (held vm' ⊎ L)) as Ho1 by (by destruct Ho).
  destruct (ec_failed ec).
  { by apply (rest_report _ _ _ _ _ (quit_triple _ (None : option string) _ L (spec_vm_destroy vm'))). }
  destruct (Hb eq_refl) as (v & r & Hv & Hr & Hs & Hram & Hrun & Hp & page & Hm & Hl).
  assert (running (held vm' ⊎ L) v r (fun e => ve_vms e !! vm_ptr = Some vm') w1) as Hru.
  { split; [done| |by rewrite Hs|apply lookup_insert_eq].
    split; [done|done|apply Ho|]. exists page. split; [done|]. rewrite Hl, u64_small by (unfold is_u64, kvm_run_header in *; lia). lia. }
  unfold bind at 1, print.
  destruct (wired_triple R (held vm' ⊎ L) v r vm' (Build_machine_ok _ _ _ Hv Hr) G G_call G_R fuel ends) 
    with (opened := opened) (s := printed (line "[+] Guest code loaded at GPA 0x1000") w1) as (code & w2 & E2 & H2).
  - intros t w3 Ht [Hi Hg3]. eapply loop_ok; try done; [apply running_steady|intros w4 Hw4; apply Hw4].
  - rewrite Hs. done.
  - split; [|done]. eapply running_steady; [done|apply steady_printed].
  - rewrite (bind_Ok _ _ _ _ _ E2). destruct code as [[c log]|]; [|by exists None, w2].
    destruct H2 as [Hc Ho2].
    by apply (release_triple _ _ _ _ _ (spec_vm_destroy vm') (done_triple c log L Hc)).
Qed.

Lemma main_with_vm_triple ndebug files opened s vm L :
  vm_memoryRegions vm = [] -> vm_vcpus vm = [] -> kvm_run_header <= vm_vcpuMmapSize vm < 2 ^ 31 ->
  (forall path bytes, files path = Some bytes -> Forall is_byte bytes /\ Z.of_nat (length bytes) < 2 ^ 63) ->
  triple (at_rest (held vm ⊎ L)) (main_with_vm ndebug files fuel opened s vm) (exit_state L ends).
Proof.
  intros Hr Hv Hsz Hfiles. unfold main_with_vm.
  eapply call_triple; [apply spec_checkExtension|]. intros ext.
  eapply (triple_bind _ _ (fun _ => at_rest (held vm ⊎ L))).
  { destruct ext.
    - eapply call_triple; [by apply spec_code|]. intros ec. destruct (ec_failed ec).
      + intros w [[Hh Hu Hb] Hg]. by do 2 eexists.
      + intros w [[Hh Hu Hb] Hg]. by do 2 eexists.
    - apply rest_print. intros w [[Hh Hu Hb] Hg]. by do 2 eexists. }
  intros _. destruct (readFile files "simpleGuest.bin") as [|b bytes] eqn:Ef.
  { apply rest_report, quit_triple, spec_vm_destroy. }
  assert (Forall is_byte (b :: bytes) /\ Z.of_nat (length (b :: bytes)) < 2 ^ 63) as [Hb Hl].
  { unfold readFile in Ef. destruct (files "simpleGuest.bin") as [l|] eqn:El; [|done]. subst l. by eapply Hfiles. }
  set (code := b :: bytes) in *.
  eapply triple_bind.
  { eapply spec_triple. apply (spec_load_bytes ndebug vm code 0x1000 (Z.shiftl 1 19)); try done; lia. }
  intros [ec vm']. by apply loaded_triple.
Qed.

Lemma main_triple ndebug files opened L :
  (forall path bytes, files path = Some bytes -> Forall is_byte bytes /\ Z.of_nat (length bytes) < 2 ^ 63) ->
  triple (at_rest L) (main ndebug files fuel opened) (exit_state L ends).
Proof.
  intros Hfiles. unfold main.
  eapply triple_bind.
  { eapply triple_pre; [eapply (spec_triple ∅ _ _ _ L)|intros w; by rewrite (left_id_L ∅ (⊎))].
    eapply (spec_fact _ _ _ _ _ (fun e => forall s, e = Value s -> kvm_run_header <= ks_vcpuMmapSize s < 2 ^ 31));
      [apply spec_system_open|]. intros w e w' E1 s ->. by eapply open_size. }
  intros [s|ec]; cbn [result_held].
  2: { eapply triple_pre with (P' := at_rest L).
       - apply rest_report. eapply triple_pre; [apply triple_ret|]. intros w [? _]. by split; [right|].
       - intros w [Hr _]. by rewrite (left_id_L ∅ (⊎)) in Hr. }
  eapply triple_pre with (P' := fun w => (kvm_run_header <= ks_vcpuMmapSize s < 2 ^ 31) /\ at_rest (held s ⊎ L) w).
  2: { intros w [? [_ Hs]]. split; [by apply Hs|done]. }
  apply triple_pure. intros Hsz. apply rest_print.
  eapply triple_bind.
  { eapply triple_pre; [eapply (spec_triple ∅ _ _ _ (held s ⊎ L)), (spec_create_vm s)|].
    intros w; by rewrite (left_id_L ∅ (⊎)). }
  intros [vm|ec]; cbn [result_held].
  2: { eapply triple_pre with (P' := at_rest (held s ⊎ L)).
       - apply rest_report, quit_triple, spec_system_destroy.
       - intros w [Hr _]. by rewrite (left_id_L ∅ (⊎)) in Hr. }
  eapply triple_pre with (P' := fun w => (vm = VirtualMachine_new (vm_fd vm) (ks_vcpuMmapSize s)) /\
                                         at_rest (held vm ⊎ (held s ⊎ L)) w).
  2: { intros w [? Hvm]. split; [by destruct (Hvm vm eq_refl)|done]. }
  apply triple_pure. intros Hvm. apply rest_print. eapply triple_bind.
  { apply main_with_vm_triple; try rewrite Hvm; done. }
  intros [[c log]|]; [|intros w Hw; by exists None, w].
  intros w [Hc Ho]. by apply (release_triple _ _ _ _ _ (spec_system_destroy s) (done_triple c log L Hc)).
Qed.

End Whole.

(** Files of bytes, of a size a program can hold. *)
Definition byte_files (files : string -> option (list Z)) : Prop :=
  forall path bytes, files path = Some bytes -> Forall is_byte bytes /\ Z.of_nat (length bytes) < 2 ^ 63.

(** The descriptors and mappings of the process. *)
Definition same_holdings {K E} `{Kernel K} (w w' : World K E) : Prop :=
  h_fds (w_host w') = h_fds (w_host w) /\ dom (h_mem (w_host w')) = dom (h_mem (w_host w)).

(** C5. The program never faults and never leaks: on any kernel that behaves as
    documented, whatever its calls return, whatever the guest does and whatever
    is in the guest's file, [main] runs to an exit code of 0 or 1 or is still
    running the guest; and when it exits, the process holds exactly the
    descriptors and mappings it held before. *)
Theorem main_safe {K} `{Kernel K} `{!MmapLaws K} `{!FdLaws K} `{!PageLaws K} `{!RunLaws K} `{!ErrnoLaws K}
    ndebug files fuel opened (w : World K (VmiEnv K MainEnv)) :
  sound w -> byte_files files ->
  exists code w', main ndebug files fuel opened w = Ok (code, w') /\
    match code with
    | None => True
    | Some (c, _) => (c = 0 \/ c = 1) /\ same_holdings w w'
    end.
Proof.
  intros Hs Hf. destruct (owned_initial w Hs) as (L & Ho & _).
  destruct (main_triple (fun _ _ => True) (fun _ => True) ltac:(done) ltac:(done) fuel false) 
    with (ndebug := ndebug) (files := files) (opened := opened) (L := L) (s := w) as (code & w' & E1 & H1);
    [|done|done|].
  - intros I v t w1 Hst Hl Ht Hw _. unfold runLoop.
    destruct (loop_served I (fun _ _ => True) Hst v Hl fuel 0 0 t w1 Ht Hw) as (x & t' & w' & ?&?&?&?).
    by exists x, t', w'.
  - exists code, w'. split; [done|]. destruct code as [[c log]|]; [|done].
    destruct H1 as [Hc Ho']. split; [done|]. by apply (owned_same w w' L).
Qed.

(** C6. A guest that stops by itself brings the program to an end: if at most
    [bound] exits are left from any start of the guest until it halts, shuts
    down or fails, [main] returns an exit code (each of its three run loops
    ends within [bound] + 1 passes), and nothing is leaked. *)
Theorem main_returns {K} (bound : nat) `{Kernel K} `{!MmapLaws K} `{!FdLaws K} `{!PageLaws K} `{!RunLaws K}
    `{!ErrnoLaws K} `{!HaltLaws K bound} ndebug files fuel opened (w : World K (VmiEnv K MainEnv)) :
  sound w -> byte_files files ->
  (k_left (h_kern (w_host w)) <= bound)%nat -> (bound < fuel)%nat ->
  exists c log w', main ndebug files fuel opened w = Ok (Some (c, log), w') /\
    (c = 0 \/ c = 1) /\ same_holdings w w'.
Proof.
  intros Hs Hf Hk Hb. destruct (owned_initial w Hs) as (L & Ho & _).
  destruct (main_triple (fewer bound) (fun k => k_left k <= bound)%nat) 
    with (fuel := fuel) (ends := true) (ndebug := ndebug) (files := files) (opened := opened) (L := L) (s := w) as (code & w' & E1 & H1);
    try done.
  - intros c k Hc. pose proof (law_left_call k c) as Hl. repeat case_match; lia.
  - unfold fewer. lia.
  - intros I v t w1 Hst Hl Ht Hw Hle. unfold runLoop.
    destruct (loop_halts bound I Hst v Hl fuel 0 t w1 Ht Hw) as (x & t' & w' & ?&?&?&?&?); [lia|].
    by exists (Some x), t', w'.
  - destruct code as [[c log]|]; [|done]. exists c, log, w'.
    destruct H1 as [Hc Ho']. split; [done|]. split; [done|]. by apply (owned_same w w' L).
Qed.

(** A run of the demo: three guests that halt at once. *)
Definition halt_exit : sim_exit := mk_exit 0 0 [(2 ^ 33, 0, hlt_page)].
Definition demo_file (path : string) : option (list Z) :=
  if decide (path = "simpleGuest.bin") then Some [0xF4] else None.
Definition demo_start : World SimK (VmiEnv SimK MainEnv) :=
  sim_world (sim_init [halt_exit; halt_exit; halt_exit]) ∅ (mk_VmiEnv ∅ ∅ main_env0).

Lemma demo_sound : sound demo_start.
Proof.
  split; [|apply map_Forall_empty]. intros [fd|a] Hx.
  - apply present_fd in Hx. cbn in Hx. by apply elem_of_empty in Hx.
  - apply present_map in Hx. cbn in Hx. rewrite lookup_empty in Hx. by destruct Hx.
Qed.

Lemma demo_file_bytes : byte_files demo_file.
Proof.
  intros path bytes. unfold demo_file. destruct (decide _); [|done]. intros [= <-].
  split; [|cbn; lia]. repeat constructor; unfold is_byte; lia.
Qed.

Lemma main_safe_witness :
  exists code w', main false demo_file 1 true demo_start = Ok (code, w') /\
    match code with
    | None => True
    | Some (c, _) => (c = 0 \/ c = 1) /\ same_holdings demo_start w'
    end.
Proof. apply (main_safe false demo_file 1 true demo_start); [apply demo_sound|apply demo_file_bytes]. Defined.

Lemma main_returns_witness :
  exists c log w', main false demo_file 4 true demo_start = Ok (Some (c, log), w') /\
    (c = 0 \/ c = 1) /\ same_holdings demo_start w'.
Proof.
  apply (main_returns 3 false demo_file 4 true demo_start).
  - apply demo_sound.
  - apply demo_file_bytes.
  - reflexivity || (vm_compute; lia).
  - lia.
Defined.
