(* ===== verification/Protocol.v ===== *)
(** * The order of the system calls

    KVM does not say what a call made out of turn does: a vCPU that is run
    before its registers and its CPUID table are set, a region that is given to a
    machine after its memory is gone.  This file writes the order the API
    prescribes as an automaton over system calls ([next]), which learns the
    descriptors from the calls themselves, and proves that the trace of [main]
    is one of its runs, on any kernel, on every path of the program. *)

From S2P Require Import Prelude Host SimKvm Memory Vcpu PortIo MmioDev Cpuid Msr Dispatcher Machine System Trapper Counters Loader Text Vmi Main MainSafe.
From stdpp Require Import base list gmap strings.
From Stdlib Require Import ZArith Lia.
Open Scope Z_scope.
Open Scope hv_scope.

(** ** The automaton *)

Inductive stage :=
| Start
| Opened                                  (* the device has been opened, or it could not *)
| Querying (sys : Z)                      (* the API version has been asked *)
| Sized (sys : Z)                         (* the size of the run page has been asked *)
| MachineAsked (sys : Z) (vm : option Z)  (* a machine has been asked for; its descriptor once used *)
| Backed (vm : option Z)                  (* memory for the guest has been mapped *)
| Furnished (vm : Z)                      (* and given to the machine *)
| VcpuAsked (vm : Z)
| Fresh (vcpu : Z)                        (* the run page of the vCPU is mapped *)
| ModeSet (vcpu : Z)                      (* its special registers are set *)
| EntrySet (vcpu : Z)                     (* its registers are set *)
| Ready (vcpu : Z)                        (* its CPUID table is installed *)
| Teardown
| Violation.

#[export] Instance stage_eq_dec : EqDecision stage.
Proof. solve_decision. Defined.

(** Calls that give something back to the kernel. *)
Definition releases (c : syscall) : bool :=
  match c with
  | Sys_close _ | Sys_munmap _ _ => true
  | _ => false
  end.

(** A region of size 0 is a slot being emptied. *)
Definition unregisters (c : syscall) : bool :=
  match c with
  | Sys_ioctl _ (KVM_SET_USER_MEMORY_REGION r) => umr_memory_size r =? 0
  | _ => false
  end.

(** What a vCPU may be asked at any time. *)
Definition reads_regs (req : ioctl_req) : bool :=
  match req with
  | KVM_GET_REGS | KVM_GET_SREGS => true
  | _ => false
  end.

(** And once it is ready. *)
Definition drives_vcpu (req : ioctl_req) : bool :=
  reads_regs req ||
  match req with
  | KVM_RUN | KVM_SET_REGS _ | KVM_SET_SREGS _ => true
  | _ => false
  end.

Definition known (vm : option Z) (fd : Z) : bool :=
  match vm with None => true | Some m => m =? fd end.

(** The stage after a call that is not a release. *)
Definition forward (s : stage) (c : syscall) : stage :=
  match s, c with
  | Start, Sys_open _ => Opened
  | Opened, Sys_ioctl fd KVM_GET_API_VERSION => Querying fd
  | Querying sys, Sys_ioctl fd KVM_GET_VCPU_MMAP_SIZE => if sys =? fd then Sized sys else Violation
  | Sized sys, Sys_ioctl fd KVM_CREATE_VM => if sys =? fd then MachineAsked sys None else Violation
  | MachineAsked sys vm, Sys_ioctl fd (KVM_CHECK_EXTENSION _) =>
      if sys =? fd then s else Violation
  | MachineAsked sys vm, Sys_ioctl fd (KVM_ENABLE_CAP _ _) =>
      if known vm fd then MachineAsked sys (Some fd) else Violation
  | MachineAsked sys vm, Sys_mmap _ fd => if fd =? -1 then Backed vm else Violation
  | Backed _, Sys_madvise _ _ => s
  | Backed vm, Sys_ioctl fd (KVM_SET_USER_MEMORY_REGION _) => if known vm fd then Furnished fd else Violation
  | Furnished vm, Sys_ioctl fd (KVM_CREATE_VCPU _) => if vm =? fd then VcpuAsked vm else Violation
  | VcpuAsked _, Sys_mmap _ fd => Fresh fd
  | Fresh v, Sys_ioctl fd req =>
      if v =? fd then
        if reads_regs req then s else
        match req with KVM_SET_SREGS _ => ModeSet v | _ => Violation end
      else Violation
  | ModeSet v, Sys_ioctl fd req =>
      if v =? fd then
        if reads_regs req then s else
        match req with KVM_SET_REGS _ => EntrySet v | _ => Violation end
      else Violation
  | EntrySet v, Sys_ioctl fd req =>
      if v =? fd then
        if reads_regs req then s else
        match req with KVM_SET_CPUID2 _ => Ready v | _ => Violation end
      else Violation
  | Ready v, Sys_ioctl fd req => if (v =? fd) && drives_vcpu req then s else Violation
  | _, _ => Violation
  end.

Definition next (s : stage) (c : syscall) : stage :=
  match s with
  | Start => forward s c
  | Violation => Violation
  | Teardown => if releases c || unregisters c then Teardown else Violation
  | _ => if releases c then Teardown else forward s c
  end.

Definition play (tr : list syscall) : stage := fold_left next tr Start.

Lemma play_snoc tr c : play (tr ++ [c]) = next (play tr) c.
Proof. apply fold_left_app. Qed.

Lemma play_violation tr : fold_left next tr Violation = Violation.
Proof. by induction tr. Qed.

(** Nothing happened that the automaton forbids: no prefix is a violation
    either. *)
Lemma play_prefix tr1 tr2 : play (tr1 ++ tr2) <> Violation -> play tr1 <> Violation.
Proof.
  unfold play. rewrite fold_left_app. intros Hn Hv. rewrite Hv in Hn. by rewrite play_violation in Hn.
Qed.

(** ** What a stage says of the calls before it *)

(** [passed ps tr]: calls of the kinds [ps] occur in [tr], in that order. *)
Inductive passed : list (syscall -> bool) -> list syscall -> Prop :=
| passed_nil : passed [] []
| passed_skip ps tr c : passed ps tr -> passed ps (tr ++ [c])
| passed_call ps p tr c : p c = true -> passed ps tr -> passed (ps ++ [p]) (tr ++ [c]).

Definition opens (c : syscall) : bool := match c with Sys_open _ => true | _ => false end.
Definition maps (fd : Z) (c : syscall) : bool := match c with Sys_mmap _ f => fd =? f | _ => false end.
Definition asks (fd : Z) (kind : ioctl_req -> bool) (c : syscall) : bool :=
  match c with Sys_ioctl f req => (fd =? f) && kind req | _ => false end.
Definition to_version req := match req with KVM_GET_API_VERSION => true | _ => false end.
Definition to_create_vm req := match req with KVM_CREATE_VM => true | _ => false end.
Definition to_set_region req := match req with KVM_SET_USER_MEMORY_REGION _ => true | _ => false end.
Definition to_create_vcpu req := match req with KVM_CREATE_VCPU _ => true | _ => false end.
Definition to_set_sregs req := match req with KVM_SET_SREGS _ => true | _ => false end.
Definition to_set_regs req := match req with KVM_SET_REGS _ => true | _ => false end.
Definition to_set_cpuid req := match req with KVM_SET_CPUID2 _ => true | _ => false end.

(** The calls up to the creation of a vCPU, and those that make it ready. *)
Definition until_sized (sys : Z) : list (syscall -> bool) := [opens] ++ [asks sys to_version].
Definition until_asked (sys : Z) : list (syscall -> bool) := until_sized sys ++ [asks sys to_create_vm].
Definition until_backed (sys : Z) : list (syscall -> bool) := until_asked sys ++ [maps (-1)].
Definition until_furnished (sys vm : Z) : list (syscall -> bool) := until_backed sys ++ [asks vm to_set_region].
Definition until_vcpu (sys vm : Z) : list (syscall -> bool) := until_furnished sys vm ++ [asks vm to_create_vcpu].
Definition until_fresh (sys vm v : Z) : list (syscall -> bool) := until_vcpu sys vm ++ [maps v].
Definition until_mode (sys vm v : Z) : list (syscall -> bool) := until_fresh sys vm v ++ [asks v to_set_sregs].
Definition until_entry (sys vm v : Z) : list (syscall -> bool) := until_mode sys vm v ++ [asks v to_set_regs].
Definition until_ready (sys vm v : Z) : list (syscall -> bool) := until_entry sys vm v ++ [asks v to_set_cpuid].

Definition milestones (s : stage) (tr : list syscall) : Prop :=
  match s with
  | Start => tr = []
  | Opened => passed [opens] tr
  | Querying sys | Sized sys => passed (until_sized sys) tr
  | MachineAsked sys _ => passed (until_asked sys) tr
  | Backed _ => exists sys, passed (until_backed sys) tr
  | Furnished vm => exists sys, passed (until_furnished sys vm) tr
  | VcpuAsked vm => exists sys, passed (until_vcpu sys vm) tr
  | Fresh v => exists sys vm, passed (until_fresh sys vm v) tr
  | ModeSet v => exists sys vm, passed (until_mode sys vm v) tr
  | EntrySet v => exists sys vm, passed (until_entry sys vm v) tr
  | Ready v => exists sys vm, passed (until_ready sys vm v) tr
  | Teardown | Violation => True
  end.

(** Nothing has been given back before the teardown. *)
Definition unreleased (s : stage) (tr : list syscall) : Prop :=
  match s with
  | Teardown | Violation => True
  | _ => Forall (fun c => releases c = false) tr
  end.

Lemma milestones_next s c tr : milestones s tr -> milestones (next s c) (tr ++ [c]).
Proof.
  intros Hm. destruct s; cbn [next] in *;
    try (destruct (releases c || unregisters c); done);
    try (destruct (releases c); [done|]);
    destruct c as [path|fd|fd req|len fd|addr len|addr len]; cbn [forward]; try done;
    try destruct req; cbn [reads_regs drives_vcpu orb andb] in *; rewrite ?andb_true_r, ?andb_false_r;
    repeat match goal with
    | |- context [if ?a =? ?b then _ else _] => destruct (Z.eqb_spec a b); subst
    | |- context [if known ?o ?b then _ else _] => destruct (known o b)
    end; cbn [milestones] in *; try done;
    repeat match goal with H : exists _, _ |- _ => destruct H end; subst;
    try solve [repeat eexists; apply passed_skip; eassumption].
  1: exact (passed_call [] opens [] (Sys_open path) eq_refl passed_nil).
  all: repeat eexists;
    first [ unfold until_sized | unfold until_asked | unfold until_backed | unfold until_furnished | unfold until_vcpu
          | unfold until_fresh | unfold until_mode | unfold until_entry | unfold until_ready ];
    apply passed_call; [cbn; rewrite ?Z.eqb_refl; reflexivity|eassumption].
Qed.

Lemma play_milestones tr : milestones (play tr) tr.
Proof.
  induction tr as [|c tr IH] using rev_ind; [done|]. rewrite play_snoc. by apply milestones_next.
Qed.

Lemma next_releases s c :
  releases c = true -> next s c = Teardown \/ next s c = Violation.
Proof. intros Hc. destruct s; cbn [next]; rewrite ?Hc; auto. destruct c; try done; by right. Qed.

Lemma next_done s c : s = Teardown \/ s = Violation -> next s c = Teardown \/ next s c = Violation.
Proof. intros [->| ->]; cbn [next]; [destruct (_ || _)|]; auto. Qed.

Lemma play_unreleased tr : unreleased (play tr) tr.
Proof.
  induction tr as [|c tr IH] using rev_ind; [constructor|]. rewrite play_snoc.
  destruct (decide (play tr = Teardown \/ play tr = Violation)) as [Hd|Hd].
  { by destruct (next_done _ c Hd) as [-> | ->]. }
  destruct (releases c) eqn:Ec; [by destruct (next_releases (play tr) c Ec) as [-> | ->]|].
  assert (Forall (fun c => releases c = false) (tr ++ [c])) as Hall; [|by destruct (next (play tr) c)].
  apply Forall_app. split; [|by constructor]. destruct (play tr); try done; exfalso; tauto.
Qed.

(** The guest is only entered when the vCPU is ready. *)
Lemma next_run s v : next s (Sys_ioctl v KVM_RUN) <> Violation -> s = Ready v.
Proof.
  destruct s; cbn; try done; repeat match goal with
  | |- context [if ?a =? ?b then _ else _] => destruct (Z.eqb_spec a b); subst; try done
  | |- context [if (?a =? ?b) && _ then _ else _] => destruct (Z.eqb_spec a b); subst; try done
  end.
Qed.

(** [v] was made ready before, and nothing has been given back since. *)
Definition prepared (v : Z) (tr : list syscall) : Prop :=
  (exists sys vm, passed (until_ready sys vm v) tr) /\ Forall (fun c => releases c = false) tr.

Lemma play_run tr pre v post :
  play tr <> Violation -> tr = pre ++ Sys_ioctl v KVM_RUN :: post -> prepared v pre.
Proof.
  intros Hp ->. rewrite cons_middle, app_assoc in Hp. apply play_prefix in Hp. rewrite play_snoc in Hp.
  apply next_run in Hp. pose proof (play_milestones pre) as Hm. pose proof (play_unreleased pre) as Hu.
  rewrite Hp in Hm, Hu. by split.
Qed.

(** ** A logic for traces

    [drives P m Q]: from a world that satisfies [P], if [m] returns, it returns a
    result and a world that satisfy [Q]. *)

Section Drives.

Context {K : Type} `{Kernel K} {E : Type}.
Implicit Types (w : World K E) (P : World K E -> Prop).

Definition drives {A} P (m : M (World K E) A) (Q : A -> World K E -> Prop) : Prop :=
  forall w a w', P w -> m w = Ok (a, w') -> Q a w'.

Lemma drives_ret {A} (a : A) (Q : A -> World K E -> Prop) : drives (Q a) (ret a) Q.
Proof. by intros w b w' Hw [= <- <-]. Qed.

Lemma drives_done {A} P (a : A) (Q : A -> World K E -> Prop) : (forall w, P w -> Q a w) -> drives P (ret a) Q.
Proof. intros HQ w b w' Hw [= <- <-]. auto. Qed.

Lemma drives_bind {A B} P (m : M (World K E) A) Q (k : A -> M (World K E) B) R :
  drives P m Q -> (forall a, drives (Q a) (k a) R) -> drives P (bind m k) R.
Proof. intros Hm Hk w b w' Hw Hb. binv. eapply Hk; [|exact Hb]. by eapply Hm. Qed.

Lemma drives_conseq {A} P P' (m : M (World K E) A) Q Q' :
  drives P' m Q' -> (forall w, P w -> P' w) -> (forall a w, Q' a w -> Q a w) -> drives P m Q.
Proof. intros Hm HP HQ w a w' Hw Ha. eauto. Qed.

Lemma drives_pre {A} P P' (m : M (World K E) A) Q :
  drives P' m Q -> (forall w, P w -> P' w) -> drives P m Q.
Proof. intros Hm HP. by eapply drives_conseq. Qed.

Lemma drives_post {A} P (m : M (World K E) A) Q Q' :
  drives P m Q' -> (forall a w, Q' a w -> Q a w) -> drives P m Q.
Proof. intros Hm HQ. by eapply drives_conseq. Qed.

Lemma drives_pure {A} (X : Prop) P (m : M (World K E) A) Q :
  (X -> drives P m Q) -> drives (fun w => X /\ P w) m Q.
Proof. intros Hm w a w' [Hx Hw]. by apply Hm. Qed.

(** Computations that issue no call. *)
Definition mute {A} (m : M (World K E) A) : Prop :=
  forall w a w', m w = Ok (a, w') -> h_trace (w_host w') = h_trace (w_host w) /\ w_env w' = w_env w.

Lemma mute_idle {A} (m : M (World K E) A) : idle m -> mute m.
Proof. intros Hm w a w' Ha. by destruct (Hm _ _ _ Ha) as (? & _ & ?). Qed.
Lemma mute_bind {A B} (m : M (World K E) A) (k : A -> M (World K E) B) :
  mute m -> (forall a, mute (k a)) -> mute (bind m k).
Proof.
  intros Hm Hk w b w' Hb. binv. destruct (Hm _ _ _ E0) as [H1 H2]. destruct (Hk _ _ _ _ Hb) as [H3 H4].
  split; congruence.
Qed.
Lemma mute_print s : mute (print s).
Proof. by intros w a w' [= <- <-]. Qed.

End Drives.

Create HintDb mute.

#[export] Hint Resolve mute_print : mute.
#[export] Hint Extern 2 (mute _) => apply mute_idle; solve [eauto with idle nocore] : mute.

(** Follow the code of a computation that is built from mute ones. *)
Ltac mute :=
  repeat first
    [ solve [eauto with mute nocore]
    | apply mute_bind; [|intros ?]
    | match goal with |- mute (match ?x with _ => _ end) => destruct x end ].

(** ** Stages of a world *)

Section Staged.

Context {K : Type} `{Kernel K} {E : Type} (base : list syscall).
Implicit Types (w : World K E) (F : E -> Prop).

(** The calls since [base] have reached [s]; [F] is what is known of the
    environment. *)
Definition staged F (s : stage) w : Prop :=
  (exists tr, h_trace (w_host w) = base ++ tr /\ play tr = s) /\ F (w_env w).

(** A stage from which the process can tear down. *)
Definition live F w : Prop := exists s, staged F s w /\ s <> Start /\ s <> Violation.

Lemma staged_same F s w w' :
  h_trace (w_host w') = h_trace (w_host w) -> w_env w' = w_env w -> staged F s w -> staged F s w'.
Proof. unfold staged. by intros -> ->. Qed.

Lemma staged_env (F F' : E -> Prop) s w w' :
  h_trace (w_host w') = h_trace (w_host w) -> F' (w_env w') -> staged F s w -> staged F' s w'.
Proof. unfold staged. intros -> Hf [Htr _]. by split. Qed.

Lemma staged_call F s c w w' :
  h_trace (w_host w') = h_trace (w_host w) ++ [c] -> w_env w' = w_env w ->
  staged F s w -> staged F (next s c) w'.
Proof.
  unfold staged. intros -> -> [(tr & -> & <-) Hf]. split; [|done]. exists (tr ++ [c]).
  by rewrite app_assoc, play_snoc.
Qed.

Lemma staged_live F s w : staged F s w -> s <> Start -> s <> Violation -> live F w.
Proof. intros Hs H1 H2. by exists s. Qed.

Lemma drives_mute {A} F s (m : M (World K E) A) : mute m -> drives (staged F s) m (fun _ => staged F s).
Proof. intros Hm w a w' Hw Ha. destruct (Hm _ _ _ Ha). by eapply staged_same. Qed.

Lemma drives_mute_bind {A B} F s (m : M (World K E) A) (k : A -> M (World K E) B) Q :
  mute m -> (forall a, drives (staged F s) (k a) Q) -> drives (staged F s) (bind m k) Q.
Proof. intros Hm Hk. eapply drives_bind; [by apply drives_mute|exact Hk]. Qed.

Lemma drives_syscall F s s' c :
  next s c = s' -> drives (staged F s) (do_syscall c) (fun _ => staged F s').
Proof. intros <- w a w' Hw [= <- <-]. by eapply staged_call. Qed.

Lemma drives_kvm_run F s s' fd :
  next s (Sys_ioctl fd KVM_RUN) = s' -> drives (staged F s) (ioctl_run fd) (fun _ => staged F s').
Proof.
  intros <- w a w' Hw. unfold ioctl_run. destruct (k_run _ _ _) as [r m]. intros [= <- <-]. by eapply staged_call.
Qed.

Lemma drives_ioctl_bind {B} F s s' fd req (k : Z * sys_out -> M (World K E) B) Q :
  next s (Sys_ioctl fd req) = s' -> (forall r, drives (staged F s') (k r) Q) ->
  drives (staged F s) (bind (ioctl fd req) k) Q.
Proof. intros Hn Hk. eapply drives_bind; [by apply drives_syscall|exact Hk]. Qed.

Lemma drives_open_bind {B} F s s' path (k : Z -> M (World K E) B) Q :
  next s (Sys_open path) = s' -> (forall r, drives (staged F s') (k r) Q) ->
  drives (staged F s) (bind (sys_open path) k) Q.
Proof.
  intros Hn Hk. eapply drives_bind; [|exact Hk]. eapply drives_bind; [by apply drives_syscall|].
  intros [r o]. by apply drives_done.
Qed.

Lemma drives_mmap_bind {B} F s s' len fd (k : Z -> M (World K E) B) Q :
  next s (Sys_mmap len fd) = s' -> (forall r, drives (staged F s') (k r) Q) ->
  drives (staged F s) (bind (sys_mmap len fd) k) Q.
Proof.
  intros Hn Hk. eapply drives_bind; [|exact Hk]. eapply drives_bind; [by apply drives_syscall|].
  intros [r o]. by apply drives_done.
Qed.

Lemma drives_madvise_bind {B} F s s' addr len (k : unit -> M (World K E) B) Q :
  next s (Sys_madvise addr len) = s' -> (forall r, drives (staged F s') (k r) Q) ->
  drives (staged F s) (bind (sys_madvise addr len) k) Q.
Proof.
  intros Hn Hk. eapply drives_bind; [|exact Hk]. eapply drives_bind; [by apply drives_syscall|].
  intros ?. by apply drives_done.
Qed.

(** Giving something back leads to the teardown from every live stage. *)
Lemma next_live s c : s <> Start -> s <> Violation -> releases c = true -> next s c = Teardown.
Proof. intros H1 H2 Hc. destruct s; try done; cbn [next]; by rewrite Hc. Qed.

Lemma drives_release {B} F c (b : B) :
  releases c = true -> drives (live F) (do_syscall c ;;; ret b) (fun _ => staged F Teardown).
Proof.
  intros Hc w a w' (s & Hs & H1 & H2) Hr.
  assert (drives (staged F s) (do_syscall c ;;; ret b) (fun _ => staged F Teardown)) as Hd; [|by eapply Hd].
  eapply drives_bind; [by apply drives_syscall, next_live|]. intros x. by apply drives_done.
Qed.

Lemma drives_close F fd : drives (live F) (sys_close fd) (fun _ => staged F Teardown).
Proof. by apply drives_release. Qed.

Lemma drives_munmap F addr len : drives (live F) (sys_munmap addr len) (fun _ => staged F Teardown).
Proof. by apply drives_release. Qed.

Lemma torn_live F w : staged F Teardown w -> live F w.
Proof. intros Hw. by eapply staged_live. Qed.

Lemma drives_close_torn F fd : drives (staged F Teardown) (sys_close fd) (fun _ => staged F Teardown).
Proof. eapply drives_pre; [apply drives_close|apply torn_live]. Qed.

Lemma drives_munmap_torn F addr len : drives (staged F Teardown) (sys_munmap addr len) (fun _ => staged F Teardown).
Proof. eapply drives_pre; [apply drives_munmap|apply torn_live]. Qed.

End Staged.

(** The stage a call leads to, by computation. *)
Ltac next_stage := cbn; rewrite ?Z.eqb_refl; cbn; reflexivity.

(** Follow straight-line code: calls move the stage, the rest is mute. *)
Ltac drive :=
  repeat first
    [ eapply drives_ioctl_bind; [next_stage|intros [? ?]]
    | eapply drives_mmap_bind; [next_stage|intros ?]
    | eapply drives_madvise_bind; [next_stage|intros []]
    | eapply drives_mute_bind; [solve [mute]|intros ?]
    | match goal with |- drives _ (if ?b then _ else _) _ => destruct b eqn:? end ].

(** ** The operations of the classes *)

Section Operations.

Context {K : Type} `{Kernel K} `{!ErrnoLaws K} {E : Type} (base : list syscall) (F : E -> Prop).
Implicit Types (w : World K E) (vm : VirtualMachine) (v : VCpu).
Abbreviation staged := (staged base F).
Abbreviation live := (live base F).

(** A call that sets [errno] when it fails. *)
Lemma drives_ioctl_errno {B} s s' fd req kf ks (Q : B -> World K E -> Prop) :
  next s (Sys_ioctl fd req) = s' ->
  (forall e, 0 < e -> drives (staged s') (kf e) Q) ->
  (forall r o, 0 <= r -> drives (staged s') (ks r o) Q) ->
  drives (staged s) (let* (r, o) := ioctl fd req in if r <? 0 then bind errno kf else ks r o) Q.
Proof.
  intros Hn Hf Hs w b w' Hw. unfold bind at 1, ioctl, do_syscall.
  set (r := k_syscall _ _). set (w1 := on_host _ _).
  assert (staged s' w1) as H1 by (subst s'; by eapply staged_call).
  pose proof (law_errno (h_kern (w_host w)) (Sys_ioctl fd req)) as He. fold r in He.
  destruct (kr_ret r <? 0) eqn:Er; boolify; [|by eapply Hs].
  apply Hf; [|done]. cbn. rewrite (proj2 (Z.ltb_lt _ _) Er). auto.
Qed.

Lemma drives_mmap_errno {B} s s' len fd kf ks (Q : B -> World K E -> Prop) :
  next s (Sys_mmap len fd) = s' ->
  (forall e, 0 < e -> drives (staged s') (kf e) Q) ->
  (forall r, drives (staged s') (ks r) Q) ->
  drives (staged s) (let* r := sys_mmap len fd in if r =? MAP_FAILED then bind errno kf else ks r) Q.
Proof.
  intros Hn Hf Hs w b w' Hw. unfold sys_mmap, do_syscall. unfold bind at 1 2, ret at 1.
  set (r := k_syscall _ _). set (w1 := on_host _ _).
  assert (staged s' w1) as H1 by (subst s'; by eapply staged_call).
  pose proof (law_errno (h_kern (w_host w)) (Sys_mmap len fd)) as He. fold r in He.
  destruct (kr_ret r =? MAP_FAILED) eqn:Er; boolify; [|by eapply Hs].
  apply Hf; [|done]. cbn. rewrite Er in *. cbn. apply He. done.
Qed.

Definition over w : Prop := staged Opened w \/ staged Teardown w.

Lemma drives_system_open path :
  drives (staged Start) (KvmSystem_open path)
    (fun e w => match e with
                | Value s => 0 <= ks_fd s /\ staged (Sized (ks_fd s)) w
                | Unexpected _ => over w
                end).
Proof.
  unfold KvmSystem_open. eapply drives_open_bind; [next_stage|]. intros fd.
  destruct (fd <? 0) eqn:Ef.
  { drive. apply drives_done. by left. }
  boolify. assert (forall e, drives (staged Teardown) (ret (@Unexpected KvmSystem e))
    (fun e w => match e with Value s => 0 <= ks_fd s /\ staged (Sized (ks_fd s)) w | Unexpected _ => over w end)) as Hend
    by (intros e; apply drives_done; by right).
  assert (forall s, s <> Start -> s <> Violation -> drives (staged s) (sys_close (K := K) (E := E) fd) (fun _ => staged Teardown)) as Hclose.
  { intros s H1 H2. eapply drives_pre; [apply drives_close|]. intros w Hw. by eapply staged_live. }
  drive.
  - eapply drives_bind; [by apply Hclose|]. intros ?. drive. apply Hend.
  - eapply drives_bind; [by apply Hclose|]. intros ?. apply Hend.
  - eapply drives_bind; [by apply Hclose|]. intros ?. drive. apply Hend.
  - by apply drives_done.
Qed.

Lemma drives_system_destroy s :
  0 <= ks_fd s -> drives live (KvmSystem_destroy s) (fun _ => staged Teardown).
Proof. intros Hs. unfold KvmSystem_destroy. rewrite (proj2 (Z.leb_le _ _) Hs). apply drives_close. Qed.

(** A machine as [createVm] hands it out. *)
Definition new_vm vm : Prop := 0 <= vm_fd vm /\ vm_vcpus vm = [] /\ vm_memoryRegions vm = [].

Lemma drives_createVm s :
  drives (staged (Sized (ks_fd s))) (createVm s)
    (fun e w => staged (MachineAsked (ks_fd s) None) w /\
                match e with Value vm => new_vm vm | Unexpected _ => True end).
Proof.
  unfold createVm. drive; apply drives_done; [done|]. boolify. intros w Hw. split; [done|]. done.
Qed.

Lemma drives_checkExtension s o cap :
  drives (staged (MachineAsked (ks_fd s) o)) (checkExtension s cap)
    (fun _ => staged (MachineAsked (ks_fd s) o)).
Proof. unfold checkExtension. drive. by apply drives_done. Qed.

Lemma drives_enable sys vm :
  drives (staged (MachineAsked sys None)) (enableEmulationExits vm)
    (fun _ => staged (MachineAsked sys (Some (vm_fd vm)))).
Proof.
  unfold enableEmulationExits, vm_ioctl. drive; [|by apply drives_done].
  apply drives_mute; mute.
Qed.

(** Memory for the guest, from a machine whose descriptor is [o] if it has been
    used. *)
Lemma drives_region_create sys o fd slot gpa size flags :
  known o fd = true ->
  drives (staged (MachineAsked sys o)) (MemoryRegion_create fd slot gpa size flags)
    (fun e w => match e with
                | Value _ => staged (Furnished fd) w
                | Unexpected ec => 0 < ec /\ live w
                end).
Proof.
  intros Ho. unfold MemoryRegion_create.
  eapply drives_mmap_errno; [next_stage|..].
  - intros e He. apply drives_done. intros w Hw. split; [done|]. by eapply staged_live.
  - intros addr. eapply drives_madvise_bind; [next_stage|intros []]. eapply (drives_ioctl_errno _ (Furnished fd)).
    + cbn -[known]. by rewrite Ho.
    + intros e He. eapply drives_bind.
      * eapply drives_pre; [apply drives_munmap|]. intros w Hw. by eapply staged_live.
      * intros ?. apply drives_done. intros w Hw. split; [done|]. by apply torn_live.
    + intros r o' _. by apply drives_done.
Qed.

Lemma drives_addRegion sys o vm gpa size flags :
  known o (vm_fd vm) = true ->
  drives (staged (MachineAsked sys o)) (addMemoryRegion vm gpa size flags)
    (fun p w => (vm_fd p.2 = vm_fd vm /\ vm_vcpus p.2 = vm_vcpus vm) /\
                match p.1 with
                | Value _ => staged (Furnished (vm_fd vm)) w
                | Unexpected ec => 0 < ec /\ live w
                end).
Proof.
  intros Ho. unfold addMemoryRegion. eapply drives_bind; [by apply drives_region_create|].
  intros [r|ec]; [|by apply drives_done].
  unfold MemoryRegion_move, MemoryRegion_destroy, MemoryRegion_release, MemoryRegion_owns. cbn.
  apply drives_done. intros w Hw. done.
Qed.

(** A vCPU of a machine that has memory. *)
Lemma drives_vcpu_create fd id size :
  drives (staged (Furnished fd)) (VCpu_create fd id size)
    (fun e w => match e with
                | Value v => staged (Fresh (vc_fd v)) w
                | Unexpected ec => 0 < ec /\ live w
                end).
Proof.
  unfold VCpu_create. eapply drives_ioctl_errno; [next_stage|..].
  - intros e He. apply drives_done. intros w Hw. split; [done|]. by eapply staged_live.
  - intros v _ _. eapply drives_mmap_errno; [next_stage|..].
    + intros e He. eapply drives_bind.
      * eapply drives_pre; [apply drives_close|]. intros w Hw. by eapply staged_live.
      * intros ?. apply drives_done. intros w Hw. split; [done|]. by apply torn_live.
    + intros r. by apply drives_done.
Qed.

Lemma drives_addVCpu vm id :
  vm_vcpus vm = [] ->
  drives (staged (Furnished (vm_fd vm))) (addVCpu vm id)
    (fun p w => vm_fd p.2 = vm_fd vm /\
                match p.1 with
                | Value i => i = 0%nat /\ exists v, vm_vcpus p.2 = [v] /\ staged (Fresh (vc_fd v)) w
                | Unexpected ec => 0 < ec /\ live w
                end).
Proof.
  intros Hv. unfold addVCpu. eapply drives_bind; [by apply drives_vcpu_create|].
  intros [v|ec]; [|by apply drives_done].
  unfold VCpu_move, VCpu_destroy, VCpu_release. cbn.
  apply drives_done. intros w Hw. split; [done|]. rewrite Hv. split; [done|]. by eexists.
Qed.

(** *** Loading *)

Lemma drives_setup v ip :
  drives (staged (Fresh (vc_fd v))) (setupRealModeVCpu v ip)
    (fun ec w => live w /\ (ec_failed ec = false -> staged (EntrySet (vc_fd v)) w)).
Proof.
  unfold setupRealModeVCpu, VCpu_getSregs.
  eapply (drives_bind _ _ (fun e w => match e with
     | Value _ => staged (Fresh (vc_fd v)) w | Unexpected ec => 0 < ec /\ staged (Fresh (vc_fd v)) w end)).
  { eapply drives_ioctl_errno; [next_stage|..].
    - intros e He. by apply drives_done.
    - intros r o _. by apply drives_done. }
  intros [sregs|ec].
  2: { apply drives_done. intros w [He Hw]. split; [by eapply staged_live|]. unfold ec_failed. intros Hz. boolify. lia. }
  unfold VCpu_setSregs. eapply (drives_bind _ _ (fun _ => staged (ModeSet (vc_fd v)))).
  { drive; [apply drives_mute; mute|by apply drives_done]. }
  intros ec. destruct (ec_failed ec) eqn:Ee.
  { apply drives_done. intros w Hw. split; [by eapply staged_live|congruence]. }
  unfold VCpu_setRegs. eapply (drives_post _ _ _ (fun _ => staged (EntrySet (vc_fd v)))).
  - drive; [apply drives_mute; mute|by apply drives_done].
  - intros ec' w Hw. split; [by eapply staged_live|done].
Qed.

Lemma mute_write ndebug r off bs : mute (K := K) (E := E) (MemoryRegion_write ndebug r off bs).
Proof. unfold MemoryRegion_write, cassert. mute. Qed.

Lemma mute_region_at vm i : mute (K := K) (E := E) (region_at vm i).
Proof. unfold region_at. mute. Qed.

(** [loadBytes] leaves a live process, and, when it succeeds, a machine with one
    vCPU whose registers are set. *)
Lemma drives_loadBytes ndebug sys o vm code addr size :
  known o (vm_fd vm) = true -> vm_vcpus vm = [] ->
  drives (staged (MachineAsked sys o)) (loadBytes ndebug vm code addr size)
    (fun p w => vm_fd p.2 = vm_fd vm /\ live w /\
       (ec_failed p.1 = false -> exists v, vm_vcpus p.2 = [v] /\ staged (EntrySet (vc_fd v)) w)).
Proof.
  intros Ho Hv. assert (forall ec, 0 < ec -> ec_failed ec = false -> False) as Hec
    by (unfold ec_failed; intros ec Hp Hf; boolify; lia).
  unfold loadBytes. eapply drives_bind; [by apply drives_addRegion|].
  intros [[ri|ec] vm1]; cbn [fst snd]; apply drives_pure; intros [Hfd Hv1].
  2: { apply drives_done. intros w [He Hw]. split_and!; [done|done|]. intros Hf. by destruct (Hec ec). }
  rewrite <-Hfd in *. rewrite Hv in Hv1.
  eapply drives_mute_bind; [apply mute_region_at|]. intros region.
  destruct (_ <? _).
  { apply drives_done. intros w Hw. split_and!; [done|by eapply staged_live|done]. }
  eapply drives_mute_bind; [apply mute_write|]. intros [].
  eapply drives_bind; [by apply drives_addVCpu|].
  intros [[vi|ec] vm2]; cbn [fst snd]; apply drives_pure; intros Hfd2.
  2: { apply drives_done. intros w [He Hw]. split; [exact Hfd2|]. split; [done|]. intros Hf. by destruct (Hec ec). }
  intros w b w' (-> & v & Hvs & Hw) Hrun. unfold vcpu_at in Hrun. rewrite Hvs in Hrun.
  apply bind_inv in Hrun as (v' & w1 & E1 & Hrun). injection E1 as <- <-.
  apply bind_inv in Hrun as (ec & w1 & E1 & Hrun). injection Hrun as <- <-.
  destruct (drives_setup v _ w ec w1 Hw E1) as [Hl He].
  split; [exact Hfd2|]. split; [done|]. intros Hf. exists v. auto.
Qed.

(** *** Destruction *)

Lemma drives_mapM {A} (P : World K E -> Prop) (f : A -> M (World K E) unit) xs :
  (forall x, drives P (f x) (fun _ => P)) -> drives P (mapM_ f xs) (fun _ => P).
Proof.
  intros Hf. induction xs as [|x xs IH]; [by apply drives_done|].
  cbn [mapM_]. eapply drives_bind; [apply Hf|]. intros ?. exact IH.
Qed.

Lemma drives_vcpu_destroy v : drives (staged Teardown) (VCpu_destroy v) (fun _ => staged Teardown).
Proof.
  unfold VCpu_destroy, VCpu_release. eapply drives_bind with (Q := fun _ => staged Teardown).
  - destruct (_ && _); [apply drives_munmap_torn|by apply drives_done].
  - intros ?. destruct (0 <=? _); [apply drives_close_torn|by apply drives_done].
Qed.

(** The slot is emptied through a descriptor that is closed by then: the
    automaton allows it, since it can only fail. *)
Lemma drives_region_destroy r : drives (staged Teardown) (MemoryRegion_destroy r) (fun _ => staged Teardown).
Proof.
  unfold MemoryRegion_destroy, MemoryRegion_release. destruct (MemoryRegion_owns r); [|by apply drives_done].
  eapply drives_ioctl_bind; [next_stage|]. intros ?. apply drives_munmap_torn.
Qed.

Lemma drives_vm_destroy vm :
  0 <= vm_fd vm -> drives live (VirtualMachine_destroy vm) (fun _ => staged Teardown).
Proof.
  intros Hf. unfold VirtualMachine_destroy, close_vm_fd. rewrite (proj2 (Z.leb_le _ _) Hf).
  eapply drives_bind; [apply drives_close|]. intros ?.
  eapply drives_bind; [apply drives_mapM, drives_vcpu_destroy|]. intros ?.
  apply drives_mapM, drives_region_destroy.
Qed.

End Operations.

(** ** The run loop stays ready *)

Section Keeping.

Context {K : Type} `{Kernel K} {E : Type} (base : list syscall) (F : E -> Prop) (s : stage) (v : VCpu).
Implicit Types (w : World K E) (t : InstructionTrapper K E).

(** Keeps the stage and what is known of the environment. *)
Definition keeps {A} (m : M (World K E) A) : Prop := drives (staged base F s) m (fun _ => staged base F s).

Lemma keeps_mute {A} (m : M (World K E) A) : mute m -> keeps m.
Proof. apply drives_mute. Qed.

Lemma keeps_ret {A} (a : A) : keeps (ret a).
Proof. apply keeps_mute; mute. Qed.

Lemma keeps_bind {A B} (m : M (World K E) A) (k : A -> M (World K E) B) :
  keeps m -> (forall a, keeps (k a)) -> keeps (bind m k).
Proof. intros Hm Hk. by eapply drives_bind. Qed.

Lemma keeps_then {A B} (m : M (World K E) A) (k : A -> M (World K E) B) :
  mute m -> (forall a, keeps (k a)) -> keeps (bind m k).
Proof. intros Hm. apply keeps_bind. by apply keeps_mute. Qed.

(** A fact about the result can be used afterwards. *)
Lemma keeps_known {A B} (m : M (World K E) A) (k : A -> M (World K E) B) (X : A -> Prop) :
  keeps m -> (forall w a w', m w = Ok (a, w') -> X a) -> (forall a, X a -> keeps (k a)) -> keeps (bind m k).
Proof.
  intros Hm HX Hk w b w' Hw Hb. binv. eapply Hk; [by eapply HX|by eapply Hm|done].
Qed.

Lemma keeps_ioctl fd req : next s (Sys_ioctl fd req) = s -> keeps (ioctl fd req).
Proof. apply drives_syscall. Qed.

(** A bus whose subscribers keep the stage. *)
Definition bus_keeps (d : EventDispatcher K E) : Prop :=
  Forall (fun sub => forall ev, keeps (sub_handler sub ev)) (ed_subscriptions d).

Lemma keeps_deliver ev subs :
  Forall (fun sub : Subscription K E => forall ev, keeps (sub_handler sub ev)) subs -> keeps (deliver ev subs).
Proof.
  induction 1 as [|sub subs Hs _ IH]; cbn [deliver]; [apply keeps_ret|].
  apply keeps_bind; [destruct (sub_matches ev sub); [apply Hs|apply keeps_ret]|]. intros ?. exact IH.
Qed.

Lemma keeps_publish d ev : bus_keeps d -> keeps (publish d ev).
Proof. intros Hd. apply keeps_bind; [by apply keeps_deliver|]. intros ?. apply keeps_ret. Qed.

Lemma publish_keeps_bus d ev w d' w' : bus_keeps d -> publish d ev w = Ok (d', w') -> bus_keeps d'.
Proof. unfold publish, bus_keeps. intros Hd Hp. binv. by injection Hp as <- <-. Qed.

(** A trapper of [v] whose callbacks and subscribers keep the stage. *)
Record trapper_keeps t : Prop := {
  tk_vcpu : it_vcpu t = v;
  tk_leaf c leaf cb a b : it_cpuid t = Some c -> cp_leafCallbacks c !! leaf = Some cb -> keeps (cb a b);
  tk_in i port cb ctx : it_io t = Some i -> io_inCallbacks i !! port = Some cb -> keeps (cb ctx);
  tk_out i port cb ctx : it_io t = Some i -> io_outCallbacks i !! port = Some cb -> keeps (cb ctx);
  tk_read m addr cb ctx : it_mmio t = Some m -> mm_readCallbacks m !! addr = Some cb -> keeps (cb ctx);
  tk_write m addr cb ctx : it_mmio t = Some m -> mm_writeCallbacks m !! addr = Some cb -> keeps (cb ctx);
  tk_bus d : it_dispatch t = Some d -> bus_keeps d }.

(** The calls the loop makes on its vCPU. *)
Hypothesis s_run : next s (Sys_ioctl (vc_fd v) KVM_RUN) = s.
Hypothesis s_get : next s (Sys_ioctl (vc_fd v) KVM_GET_REGS) = s.
Hypothesis s_set : forall r, next s (Sys_ioctl (vc_fd v) (KVM_SET_REGS r)) = s.

Lemma keeps_getRegs : keeps (VCpu_getRegs v).
Proof.
  apply keeps_bind; [by apply keeps_ioctl|]. intros [r o]. apply keeps_mute. mute.
Qed.

Lemma keeps_setRegs r : keeps (VCpu_setRegs v r).
Proof.
  apply keeps_bind; [by apply keeps_ioctl|]. intros [x o]. apply keeps_mute. mute.
Qed.

Lemma keeps_run : keeps (VCpu_run v).
Proof.
  apply keeps_bind; [by apply drives_kvm_run|]. intros r. apply keeps_mute.
  mute.
Qed.

Lemma keeps_call_cpuid t : trapper_keeps t -> keeps (call_cpuid t).
Proof.
  intros Ht. unfold call_cpuid. destruct (it_cpuid t) as [c|] eqn:Hc; [|apply keeps_ret].
  rewrite (tk_vcpu _ Ht). apply keeps_bind; [|intros []; apply keeps_ret].
  apply keeps_bind; [apply keeps_getRegs|]. intros [regs|ec]; [|apply keeps_ret].
  apply keeps_bind.
  { unfold run_leaf. destruct (_ !! _) eqn:Hl; [|unfold executeHostCpuid; apply keeps_mute; mute].
    apply keeps_bind; [by eapply tk_leaf|]. intros x. apply keeps_mute. mute. }
  intros x. apply keeps_bind; [apply keeps_setRegs|]. intros ec. destruct (ec_failed ec); apply keeps_ret.
Qed.

Lemma keeps_call_io t : trapper_keeps t -> keeps (call_io t).
Proof.
  intros Ht. unfold call_io. destruct (it_io t) as [i|] eqn:Hi; [|apply keeps_ret].
  apply keeps_bind; [|intros []; apply keeps_ret]. unfold IoPortHandler_handle.
  apply keeps_then; [mute|]. intros page. destruct (_ =? _).
  - apply keeps_then; [mute|]. intros data. apply keeps_bind; [|intros ?; apply keeps_ret].
    unfold run_out. destruct (_ !! _) eqn:Hl; [by eapply tk_out|apply keeps_ret].
  - apply keeps_bind.
    { unfold run_in. destruct (_ !! _) eqn:Hl; [|apply keeps_ret].
      apply keeps_bind; [by eapply tk_in|]. intros x. apply keeps_ret. }
    intros x. apply keeps_mute. mute.
Qed.

Lemma keeps_call_mmio t : trapper_keeps t -> keeps (call_mmio t).
Proof.
  intros Ht. unfold call_mmio. destruct (it_mmio t) as [m|] eqn:Hm; [|apply keeps_ret].
  apply keeps_bind; [|intros []; apply keeps_ret]. unfold MmioHandler_handle.
  apply keeps_then; [mute|]. intros page. destruct (_ || _); [apply keeps_ret|]. destruct (negb _).
  - apply keeps_then; [mute|]. intros data. apply keeps_bind; [|intros ?; apply keeps_ret].
    unfold run_mmio_write. destruct (_ !! _) eqn:Hl; [by eapply tk_write|apply keeps_ret].
  - apply keeps_bind.
    { unfold run_mmio_read. destruct (_ !! _) eqn:Hl; [|apply keeps_ret].
      apply keeps_bind; [by eapply tk_read|]. intros x. apply keeps_ret. }
    intros x. apply keeps_mute. mute.
Qed.

(** *** What a pass changes is none of the wiring *)

Definition same_wiring t t' : Prop :=
  it_vcpu t' = it_vcpu t /\
  cp_leafCallbacks <$> it_cpuid t' = cp_leafCallbacks <$> it_cpuid t /\
  io_inCallbacks <$> it_io t' = io_inCallbacks <$> it_io t /\
  io_outCallbacks <$> it_io t' = io_outCallbacks <$> it_io t /\
  mm_readCallbacks <$> it_mmio t' = mm_readCallbacks <$> it_mmio t /\
  mm_writeCallbacks <$> it_mmio t' = mm_writeCallbacks <$> it_mmio t /\
  ed_subscriptions <$> it_dispatch t' = ed_subscriptions <$> it_dispatch t.

Lemma fmap_back {A B} (f : A -> B) (o o' : option A) a' :
  f <$> o' = f <$> o -> o' = Some a' -> exists a, o = Some a /\ f a = f a'.
Proof. intros Hf ->. destruct o as [a|]; [|done]. exists a. cbn in Hf. split; [done|congruence]. Qed.

Lemma wiring_keeps t t' : same_wiring t t' -> trapper_keeps t -> trapper_keeps t'.
Proof.
  intros (W1 & W2 & W3 & W4 & W5 & W6 & W7) [T1 T2 T3 T4 T5 T6 T7]. split.
  - congruence.
  - intros c leaf cb a b Hc Hl. destruct (fmap_back _ _ _ _ W2 Hc) as (c0 & H0 & He). eapply T2; [exact H0|by rewrite He].
  - intros c x cb ctx Hc Hl. destruct (fmap_back _ _ _ _ W3 Hc) as (c0 & H0 & He). eapply T3; [exact H0|by rewrite He].
  - intros c x cb ctx Hc Hl. destruct (fmap_back _ _ _ _ W4 Hc) as (c0 & H0 & He). eapply T4; [exact H0|by rewrite He].
  - intros c x cb ctx Hc Hl. destruct (fmap_back _ _ _ _ W5 Hc) as (c0 & H0 & He). eapply T5; [exact H0|by rewrite He].
  - intros c x cb ctx Hc Hl. destruct (fmap_back _ _ _ _ W6 Hc) as (c0 & H0 & He). eapply T6; [exact H0|by rewrite He].
  - intros d Hd. destruct (fmap_back _ _ _ _ W7 Hd) as (d0 & H0 & He). unfold bus_keeps. rewrite <-He. by apply T7.
Qed.

Ltac wiring t := destruct t as [? [?|] [?|] ? [?|] [?|] ?]; repeat split; cbn; repeat case_match; done.

Lemma call_wiring (c : InstructionTrapper K E -> M (World K E) (bool * InstructionTrapper K E)) t w b t' w' :
  c ∈ [call_cpuid; call_io; call_mmio] -> c t w = Ok ((b, t'), w') -> same_wiring t t'.
Proof.
  intros Hc Hr. apply list_elem_of_In in Hc as [<-|[<-|[<-|[]]]].
  - apply call_cpuid_counts in Hr as ->. wiring t.
  - apply call_io_counts in Hr as [_ ->]. wiring t.
  - apply call_mmio_counts in Hr as ->. wiring t.
Qed.

Lemma dispatch_wiring t reason w r t' w' :
  dispatchExit (bump_exit t) reason w = Ok ((r, t'), w') -> same_wiring t t'.
Proof.
  intros Hd. apply dispatch_counts in Hd as ->. generalize (mk_exit_record reason (page_seen t w) r). intros x.
  repeat split; cbn; [destruct (it_cpuid t)|destruct (it_io t)|destruct (it_io t)|destruct (it_mmio t)|destruct (it_mmio t)|
    destruct (it_dispatch t)]; cbn; repeat case_match; done.
Qed.

Lemma bump_keeps t : trapper_keeps t -> trapper_keeps (bump_exit t).
Proof. apply wiring_keeps. wiring t. Qed.

(** *** Events *)

Lemma keeps_rip t : trapper_keeps t -> keeps (event_rip t).
Proof.
  intros Ht. unfold event_rip. rewrite (tk_vcpu _ Ht). apply keeps_bind; [apply keeps_getRegs|].
  intros e. apply keeps_ret.
Qed.

Lemma keeps_publish_to t d ev : trapper_keeps t -> it_dispatch t = Some d -> keeps (publish_to t d ev).
Proof.
  intros Ht Hd. apply keeps_bind; [apply keeps_publish; by eapply tk_bus|]. intros d'. apply keeps_ret.
Qed.

Lemma keeps_event (p : InstructionTrapper K E -> M (World K E) (InstructionTrapper K E)) t :
  p ∈ [publish_halt; publish_shutdown; publish_io; publish_mmio; publish_cpuid] ->
  trapper_keeps t -> keeps (p t).
Proof.
  intros Hp Ht. pose proof (keeps_rip t Ht) as Hrip. pose proof keeps_getRegs as Hget.
  pose proof (fun d ev => keeps_publish_to t d ev Ht) as Hpub.
  apply list_elem_of_In in Hp as [<-|[<-|[<-|[<-|[<-|[]]]]]];
    unfold publish_halt, publish_shutdown, publish_io, publish_mmio, publish_cpuid;
    destruct (it_dispatch t) as [d|] eqn:Hd; try apply keeps_ret;
    repeat first [ by apply Hpub | apply keeps_bind; [rewrite ?(tk_vcpu _ Ht); solve [eauto using keeps_mute with mute]|intros ?] ].
Qed.

(** *** Passes and runs *)

Lemma keeps_verdict t (p : InstructionTrapper K E -> M (World K E) (InstructionTrapper K E)) (r : RunResult) :
  p ∈ [publish_halt; publish_shutdown; publish_io; publish_mmio; publish_cpuid] ->
  trapper_keeps t -> keeps (let* t' := p t in ret (r, t')).
Proof. intros Hp Ht. apply keeps_bind; [by apply keeps_event|]. intros t'. apply keeps_ret. Qed.

Lemma keeps_served t (c : InstructionTrapper K E -> M (World K E) (bool * InstructionTrapper K E)) k :
  c ∈ [call_cpuid; call_io; call_mmio] -> trapper_keeps t ->
  (forall t', trapper_keeps t' -> keeps (k t')) ->
  keeps (let* (ok, t1) := c t in if negb ok then ret (RError, t1) else k t1).
Proof.
  intros Hc Ht Hk. apply keeps_known with (X := fun p => trapper_keeps p.2).
  - apply list_elem_of_In in Hc as [<-|[<-|[<-|[]]]];
      [by apply keeps_call_cpuid|by apply keeps_call_io|by apply keeps_call_mmio].
  - intros w [b t1] w' Hr. cbn. eapply wiring_keeps; [by eapply call_wiring|done].
  - intros [b t1] Ht1. cbn in Ht1. destruct b; cbn [negb]; [by apply Hk|apply keeps_ret].
Qed.

Lemma keeps_dispatch t reason : trapper_keeps t -> keeps (dispatchExit t reason).
Proof.
  intros Ht. destruct reason; cbn [dispatchExit]; try apply keeps_ret.
  - apply keeps_then; [mute|]. intros page. destruct (_ =? 0); [|apply keeps_ret].
    apply (keeps_served t call_cpuid); [set_solver|done|]. intros t1 _. apply keeps_ret.
  - apply (keeps_served t call_io); [set_solver|done|]. intros t1 Ht1. apply keeps_verdict; [set_solver|done].
  - apply keeps_verdict; [set_solver|done].
  - apply (keeps_served t call_mmio); [set_solver|done|]. intros t1 Ht1. apply keeps_verdict; [set_solver|done].
  - apply keeps_verdict; [set_solver|done].
  - apply keeps_then; [mute|]. intros page.
    destruct (_ =? KVM_INTERNAL_ERROR_EMULATION); [|apply keeps_ret].
    apply (keeps_served t call_cpuid); [set_solver|done|]. intros t1 Ht1. apply keeps_verdict; [set_solver|done].
Qed.

Lemma keeps_step t : trapper_keeps t -> keeps (step t).
Proof.
  intros Ht. apply keeps_bind; [rewrite (tk_vcpu _ Ht); apply keeps_run|].
  intros [reason|ec]; [|apply keeps_ret]. by apply keeps_dispatch, bump_keeps.
Qed.

Lemma step_wiring t w r t' w' : step t w = Ok ((r, t'), w') -> same_wiring t t'.
Proof.
  unfold step. intros Hs. apply bind_inv in Hs as ([reason|ec] & w1 & _ & Hs).
  - by eapply dispatch_wiring.
  - injection Hs as <- <- <-. wiring t.
Qed.

Lemma keeps_loop fuel max i t : trapper_keeps t -> keeps (runLoop_fuel fuel max i t).
Proof.
  revert i t. induction fuel as [|fuel IH]; intros i t Ht; cbn [runLoop_fuel]; [apply keeps_ret|].
  destruct (_ || _); [|apply keeps_ret].
  apply keeps_known with (X := fun p => trapper_keeps p.2).
  - by apply keeps_step.
  - intros w [r t1] w' Hs. eapply wiring_keeps; [by eapply step_wiring|done].
  - intros [r t1] Ht1. cbn in Ht1. destruct (bool_decide _); [apply keeps_ret|]. by apply IH.
Qed.

Lemma loop_keeps_trapper fuel max i t w r t' w' :
  trapper_keeps t -> runLoop_fuel fuel max i t w = Ok ((r, t'), w') -> trapper_keeps t'.
Proof.
  revert i t w. induction fuel as [|fuel IH]; intros i t w Ht Hl; cbn [runLoop_fuel] in Hl; [by injection Hl as _ <- _|].
  destruct (_ || _); [|by injection Hl as _ <- _].
  apply bind_inv in Hl as ([r1 t1] & w1 & Hs & Hl).
  assert (trapper_keeps t1) as Ht1 by (eapply wiring_keeps; [by eapply step_wiring|done]).
  destruct (bool_decide _); [by injection Hl as _ <- _|]. by eapply IH.
Qed.

End Keeping.

(** ** The program *)

Section Program.

Context {K : Type} `{Kernel K} (base : list syscall).
Abbreviation Env := (VmiEnv K MainEnv).
Implicit Types (w : World K Env) (vm : VirtualMachine) (t : InstructionTrapper K Env).

(** *** The agent and the callbacks *)

Section Machine.

Context (vm : VirtualMachine) (v : VCpu) (s : stage).
Hypothesis Hvm : vm_vcpus vm = [v].
Hypothesis s_regs : next s (Sys_ioctl (vc_fd v) KVM_GET_REGS) = s.
Hypothesis s_sregs : next s (Sys_ioctl (vc_fd v) KVM_GET_SREGS) = s.

Abbreviation wired := (wired (K := K) vm).
Abbreviation keeps := (keeps base wired s).

(** A change of the environment that leaves it wired. *)
Lemma keeps_put (f : Env -> Env) :
  (forall e, wired e -> wired (f e)) -> keeps (fun w => Ok (tt, mk_world (w_host w) (f (w_env w)))).
Proof. intros Hf w a w' Hw [= <- <-]. split; [exact (proj1 Hw)|exact (Hf _ (proj2 Hw))]. Qed.

Lemma keeps_put_main e : keeps (put_main e).
Proof. by apply (keeps_put (fun e0 => mk_VmiEnv (ve_vms e0) (ve_agents e0) e)). Qed.

Lemma keeps_get_main : keeps get_main.
Proof. by intros w a w' Hw [= <- <-]. Qed.

Lemma keeps_main_getRegs : keeps (VCpu_getRegs v).
Proof. by apply keeps_getRegs. Qed.

Lemma keeps_main_getSregs : keeps (VCpu_getSregs v).
Proof.
  apply keeps_bind; [by apply keeps_ioctl|]. intros [r o]. apply keeps_mute. mute.
Qed.

Lemma keeps_snapshotRegisters a i : agent_wired a -> keeps (snapshotRegisters a i).
Proof.
  intros (Hp & _). unfold snapshotRegisters. rewrite Hp. cbn [Z.eqb vm_ptr nullptr].
  intros w b w' Hw Hb. apply bind_inv in Hb as (vm' & w1 & E1 & Hb).
  unfold vm_at in E1. rewrite (proj1 (proj2 Hw)) in E1. injection E1 as <- <-.
  unfold vcpus in Hb. rewrite Hvm in Hb. destruct (_ <=? i); [by injection Hb as <- <-|].
  apply bind_inv in Hb as (v' & w1 & E1 & Hb).
  assert (v' = v /\ w1 = w) as [-> ->].
  { unfold vcpu_at in E1. rewrite Hvm in E1. destruct (Z.to_nat i) as [|n]; [by injection E1 as <- <-|done]. }
  revert w b w' Hw Hb E1. intros w b w' Hw Hb _. revert w b w' Hw Hb.
  change (keeps (let* regsResult := VCpu_getRegs v in let* sregsResult := VCpu_getSregs v in
    match regsResult, sregsResult with
    | Value rr, Value sr => let* now := steady_now in ret (Some (snapshot_of rr sr now))
    | _, _ => ret None
    end)).
  apply keeps_bind; [apply keeps_main_getRegs|]. intros regs.
  apply keeps_bind; [apply keeps_main_getSregs|]. intros sregs. apply keeps_mute. mute.
Qed.

Lemma keeps_handler ev : keeps (handleHvEvent agent_ptr ev).
Proof.
  intros w b w' Hw Hb. apply bind_inv in Hb as (a & w1 & E1 & Hb).
  pose proof (proj2 Hw) as (_ & a0 & Ha & Hwired). unfold agent_at in E1. rewrite Ha in E1. injection E1 as <- <-.
  pose proof Hwired as (_ & _ & _ & Hcb & Hd). unfold enrich in Hb. rewrite Hd, Hcb in Hb. revert w b w' Hw Hb Ha.
  intros w b w' Hw Hb _. revert w b w' Hw Hb.
  match goal with |- forall w b w', _ -> ?m w = _ -> _ => change (keeps m) end.
  apply keeps_bind.
  { apply keeps_bind; [by apply keeps_snapshotRegisters|]. intros snap. apply keeps_mute. mute. }
  intros ie. apply keeps_bind.
  { apply (keeps_put (fun e => mk_VmiEnv (ve_vms e) (<[agent_ptr := set_log a0 (va_eventLog a0 ++ [ie])]> (ve_agents e)) (ve_user e))).
    intros e [Hv _]. split; [done|]. eexists. split; [apply lookup_insert_eq|]. by destruct Hwired as (?&?&?&?&?). }
  intros []. apply keeps_bind; [|intros ?; apply keeps_ret].
  intros w b w' Hw [= <- <-]. by destruct w as [? []].
Qed.

Lemma main_bus_keeps d : ed_subscriptions d = main_subs -> bus_keeps base wired s d.
Proof.
  intros Hd. unfold bus_keeps. rewrite Hd. unfold main_subs.
  apply List.Forall_cons; [intros ev; apply keeps_handler|].
  apply List.Forall_cons; [|constructor]. intros ev. apply keeps_mute. unfold logger. mute.
Qed.

Lemma main_trapper_keeps d :
  ed_subscriptions d = main_subs -> trapper_keeps base wired s v (main_trapper v d).
Proof.
  intros Hd. split; cbn.
  - done.
  - intros c leaf cb a b [= <-] [_ ->]%main_leaf.
    apply keeps_mute. unfold leaf1_callback. mute.
  - intros i port cb ctx [= <-] [_ ->]%main_in.
    apply keeps_mute. unfold keyboard_callback. mute.
  - intros i port cb ctx [= <-] Hl. by rewrite main_out in Hl.
  - intros m addr cb ctx [= <-] [[_ ->]|[_ ->]]%main_read; [|apply keeps_ret].
    apply keeps_bind; [apply keeps_get_main|]. intros e. apply keeps_ret.
  - intros m addr cb ctx [= <-] [_ ->]%main_write.
    apply keeps_bind; [apply keeps_get_main|]. intros e.
    apply keeps_bind; [apply keeps_put_main|]. intros ?. apply keeps_mute. mute.
  - intros d' [= <-]. by apply main_bus_keeps.
Qed.

(** *** The CPUID table *)

Lemma keeps_build_table leaves entries d :
  ed_subscriptions d = main_subs -> keeps (build_table leaves entries d).
Proof.
  revert entries d. induction leaves as [|leaf leaves IH]; intros entries d Hd; [apply keeps_ret|].
  cbn [build_table]. apply keeps_then; [unfold executeHostCpuid; mute|]. intros x.
  apply keeps_then; [apply mute_print|]. intros []. apply keeps_then; [mute|]. intros now.
  eapply (keeps_known _ _ _ _ _ (fun d' => ed_subscriptions d' = main_subs)).
  - by apply keeps_publish, main_bus_keeps.
  - unfold publish. intros w d' w' Hp. binv. by injection Hp as <- <-.
  - intros d' Hd'. by apply IH.
Qed.

Lemma table_bus leaves entries d w p w' :
  ed_subscriptions d = main_subs -> build_table leaves entries d w = Ok (p, w') ->
  ed_subscriptions p.2 = main_subs.
Proof.
  revert entries d w. induction leaves as [|leaf leaves IH]; intros entries d w Hd Hb.
  - by injection Hb as <- <-.
  - cbn [build_table] in Hb. binv. eapply IH; [|exact Hb]. unfold publish in *. binv.
    match goal with H : ret _ _ = Ok (?x, _) |- ed_subscriptions ?x = _ => by injection H as <- <- end.
Qed.

(** *** Snapshots *)

Lemma mute_regions regions : mute (K := K) (E := Env) (snapshot_regions regions).
Proof. induction regions; cbn [snapshot_regions]; mute. Qed.

Lemma mute_restore regions : forall saved, mute (K := K) (E := Env) (restore_regions regions saved).
Proof. induction regions; intros []; cbn [restore_regions]; mute. Qed.

Lemma first_vcpu {A} (k : VCpu -> M (World K Env) A) : bind (vcpu_at vm 0) k = k v.
Proof. unfold vcpu_at. by rewrite Hvm. Qed.

Lemma keeps_takeSnapShot : keeps (takeSnapShot vm).
Proof.
  unfold takeSnapShot. rewrite first_vcpu.
  apply keeps_bind; [apply keeps_main_getRegs|]. intros regs.
  apply keeps_bind; [apply keeps_main_getSregs|]. intros sregs.
  apply keeps_then; [apply mute_regions|]. intros mem. apply keeps_ret.
Qed.

End Machine.

(** *** The runs *)

Section Runs.

Context (vm : VirtualMachine) (v : VCpu).
Hypothesis Hvm : vm_vcpus vm = [v].

Abbreviation keeps := (keeps base (wired (K := K) vm) (Ready (vc_fd v))).
Abbreviation ready := (staged base (wired (K := K) vm) (Ready (vc_fd v))).

Lemma ready_call req : drives_vcpu req = true -> next (Ready (vc_fd v)) (Sys_ioctl (vc_fd v) req) = Ready (vc_fd v).
Proof. intros Hr. cbn. by rewrite Z.eqb_refl, Hr. Qed.

Lemma keeps_ready_code req :
  drives_vcpu req = true ->
  keeps (let* (r, _) := ioctl (vc_fd v) req in if r <? 0 then errno else ret 0).
Proof.
  intros Hr. apply keeps_bind; [by apply keeps_ioctl, ready_call|]. intros [r o]. apply keeps_mute. mute.
Qed.

Lemma keeps_restore snapshot : keeps (restoreSnapshot vm snapshot).
Proof.
  unfold restoreSnapshot. rewrite (first_vcpu vm v Hvm).
  apply keeps_bind; [by apply keeps_ready_code|]. intros ec1.
  apply keeps_then; [mute|]. intros ?.
  apply keeps_bind; [by apply keeps_ready_code|]. intros ec2.
  apply keeps_then; [mute|]. intros ?. apply keeps_mute, mute_restore.
Qed.

Lemma keeps_begin_run i snapshot : keeps (begin_run i vm snapshot).
Proof.
  unfold begin_run. apply keeps_bind.
  { destruct (0 <? i)%nat; [|apply keeps_ret]. apply keeps_bind; [apply keeps_restore|].
    intros ?. apply keeps_mute. mute. }
  intros ?. apply keeps_then; [apply mute_region_at|]. intros region. apply keeps_mute. mute.
Qed.

Lemma keeps_fuzz_loop fuel left i snapshot t :
  trapper_keeps base (wired vm) (Ready (vc_fd v)) v t -> keeps (fuzz_loop fuel left i vm snapshot t).
Proof.
  revert i t. induction left as [|left IH]; intros i t Ht; [apply keeps_ret|].
  cbn [fuzz_loop]. apply keeps_bind; [apply keeps_begin_run|]. intros ?.
  apply keeps_known with (X := fun p => trapper_keeps base (wired vm) (Ready (vc_fd v)) v p.2).
  - apply (keeps_loop base (wired vm) (Ready (vc_fd v)) v); try done; intros; by apply ready_call.
  - intros w [x t'] w' Hr. by eapply loop_keeps_trapper.
  - intros [x t'] Ht'. cbn in Ht'. destruct x as [x|]; [|apply keeps_ret].
    destruct x; try (apply keeps_then; [apply mute_print|]; intros ?;
                     apply keeps_then; [unfold print_result; mute|]; intros ?; by apply IH).
    apply keeps_mute. mute.
Qed.

(** *** From the wiring to the end *)

(** What is known when the scope is left: only the stage matters then. *)
Abbreviation alive := (live base (fun _ : Env => True)).

Lemma ready_alive w : ready w -> alive w.
Proof. intros [Hw _]. exists (Ready (vc_fd v)). split; [by split|done]. Qed.

Lemma drives_agent_destroy ds :
  drives ready (VmiAgent_destroy agent_ptr ds) (fun _ => alive).
Proof.
  intros w b w' Hw Hd. unfold VmiAgent_destroy, agent_at, free_agent, dispatcher_at in Hd.
  destruct (ready_alive w Hw) as (s & [Hs _] & H12). exists s. split; [|done]. split; [|done].
  destruct (ve_agents (w_env w) !! agent_ptr) as [a|] eqn:Ha; unfold bind in Hd; rewrite Ha in Hd; [|done].
  destruct (_ && _); [destruct (ds !! _); [|done]|]; injection Hd as _ <-; exact Hs.
Qed.

(** The program after the guest has been loaded. *)
Definition wired_post (code : option (Z * option string)) w : Prop :=
  match code with
  | None => ready w
  | Some _ => alive w
  end.

Lemma drives_leave c log ds :
  drives ready (VmiAgent_destroy agent_ptr ds ;;; ret (Some (c, log))) wired_post.
Proof. eapply drives_bind; [apply drives_agent_destroy|]. intros ?. by apply drives_done. Qed.

Lemma drives_end opened t d : drives ready (main_end opened t d) wired_post.
Proof.
  unfold main_end. eapply drives_mute_bind; [apply mute_print|]. intros ?.
  eapply (drives_bind _ _ (fun _ => ready)).
  { intros w x w' Hw Ha. unfold agent_at in Ha. destruct (_ !! _); [|done]. by injection Ha as _ <-. }
  intros agent. eapply drives_mute_bind; [apply mute_print|]. intros ?.
  eapply drives_mute_bind; [apply mute_print|]. intros ?. apply drives_leave.
Qed.

Lemma drives_install entries :
  drives (staged base (wired (K := K) vm) (EntrySet (vc_fd v))) (VCpu_installCpuid v entries) (fun _ => ready).
Proof.
  unfold VCpu_installCpuid. eapply drives_ioctl_bind; [next_stage|]. intros [r o].
  apply drives_mute. mute.
Qed.

Lemma drives_main_wired fuel opened :
  drives (staged base (fun e : Env => ve_vms e !! vm_ptr = Some vm) (EntrySet (vc_fd v)))
         (main_wired fuel opened) wired_post.
Proof.
  intros w code w' Hw. unfold main_wired.
  assert (vm_at vm_ptr w = Ok (vm, w)) as E0 by (unfold vm_at; by rewrite (proj2 Hw)).
  rewrite (bind_Ok _ _ _ _ _ E0), (first_vcpu vm v Hvm), wiring.
  assert (staged base (wired vm) (EntrySet (vc_fd v)) (with_agent w)) as Hi.
  { split; [exact (proj1 Hw)|]. split; [exact (proj2 Hw)|]. exists main_agent. split; [apply lookup_insert_eq|done]. }
  intros Hr. set (w1 := with_agent w) in *. clearbody w1. clear w Hw E0. revert w1 code w' Hi Hr.
  match goal with |- forall w code w', _ -> ?m w = _ -> _ =>
    change (drives (staged base (wired vm) (EntrySet (vc_fd v))) m wired_post) end.
  unfold dispatcher_at. rewrite lookup_singleton_eq.
  set (bus := snd (subscribeAll logger agent_bus)).
  match goal with |- drives _ (bind (ret ?a) ?k) _ => change (drives (staged base (wired vm) (EntrySet (vc_fd v))) (k a) wired_post) end.
  change (subscribeAll logger agent_bus) with (2, bus). cbn iota beta.
  intros w code w' Hw Hb. apply bind_inv in Hb as ([entries d] & w1 & E1 & Hb).
  pose proof (table_bus _ _ bus _ _ _ eq_refl E1) as Hd. cbn [snd] in Hd.
  apply (keeps_build_table vm v (EntrySet (vc_fd v)) Hvm) in E1; [|cbn; by rewrite Z.eqb_refl..|done|done].
  revert w1 code w' E1 Hb. clear w Hw.
  match goal with |- forall w code w', _ -> ?m w = _ -> _ =>
    change (drives (staged base (wired vm) (EntrySet (vc_fd v))) m wired_post) end.
  eapply drives_bind; [apply drives_install|]. intros ec. destruct (ec_failed ec).
  { eapply drives_mute_bind; [mute|]. intros ?. apply drives_leave. }
  eapply drives_mute_bind; [apply mute_print|]. intros ?.
  eapply drives_bind; [apply (keeps_takeSnapShot vm v (Ready (vc_fd v)) Hvm); by apply ready_call|].
  intros snapshot. eapply drives_mute_bind; [apply mute_print|]. intros ?.
  eapply drives_bind.
  { apply (keeps_fuzz_loop fuel 3 0 snapshot).
    by apply (main_trapper_keeps vm v (Ready (vc_fd v)) Hvm); [apply ready_call..|]. }
  intros [[[c|]|] t']; [apply drives_leave|apply drives_end|by apply drives_done].
Qed.

End Runs.

(** *** The whole program *)

Context `{!ErrnoLaws K}.

Abbreviation anything := (fun _ : Env => True).
Abbreviation staged := (staged base anything).
Abbreviation alive := (live base anything).

Definition machine_post (code : option (Z * option string)) w : Prop :=
  match code with
  | None => exists v, staged (Ready v) w
  | Some _ => staged Teardown w
  end.

(** An early exit of the scope that has the machine. *)
Lemma drives_quit vm code : 0 <= vm_fd vm ->
  drives alive (VirtualMachine_destroy vm ;;; ret (Some code)) machine_post.
Proof. intros Hf. eapply drives_bind; [by apply drives_vm_destroy|]. intros ?. by apply drives_done. Qed.

Lemma drives_report_quit vm msg ec code : 0 <= vm_fd vm ->
  drives alive (report msg ec ;;; VirtualMachine_destroy vm ;;; ret (Some code)) machine_post.
Proof.
  intros Hf w a w' (s & Hw & H12) Ha. apply bind_inv in Ha as (u & w1 & E1 & Ha).
  eapply (drives_quit vm code Hf); [|exact Ha]. exists s. split; [|done]. injection E1 as _ <-. exact Hw.
Qed.

(** The scope with a loaded guest. *)
Lemma drives_entered fuel opened vm v :
  0 <= vm_fd vm -> vm_vcpus vm = [v] ->
  drives (Protocol.staged base (fun e : Env => ve_vms e !! vm_ptr = Some vm) (EntrySet (vc_fd v)))
    (print (line "[+] Guest code loaded at GPA 0x1000") ;;;
     let* code := main_wired fuel opened in
     match code with
     | None => ret None
     | Some c => VirtualMachine_destroy vm ;;; ret (Some c)
     end)
    machine_post.
Proof.
  intros Hf Hv. eapply drives_mute_bind; [apply mute_print|]. intros ?.
  eapply drives_bind; [by apply drives_main_wired|]. intros [c|]; cbn [wired_post].
  - by apply drives_quit.
  - apply drives_done. intros w [Hw _]. exists (vc_fd v). by split.
Qed.

(** From the load on. *)
Lemma drives_loaded fuel opened vm ec :
  0 <= vm_fd vm ->
  drives (fun w => alive w /\ (ec_failed ec = false -> exists v, vm_vcpus vm = [v] /\ staged (EntrySet (vc_fd v)) w))
    (put_vm vm_ptr vm ;;;
     if ec_failed ec then
       report "GuestLoader::loadBytes failed" ec ;;;
       VirtualMachine_destroy vm ;;;
       ret (Some (1, None))
     else
       print (line "[+] Guest code loaded at GPA 0x1000") ;;;
       let* code := main_wired fuel opened in
       match code with
       | None => ret None
       | Some c => VirtualMachine_destroy vm ;;; ret (Some c)
       end)
    machine_post.
Proof.
  intros Hf w code w' [(s & [Hs _] & H12) Hw] Hb. apply bind_inv in Hb as (u & w1 & E1 & Hb).
  injection E1 as _ <-. destruct (ec_failed ec).
  - eapply drives_report_quit; [exact Hf| |exact Hb]. exists s. by split.
  - destruct (Hw eq_refl) as (v & Hv & [Htr _]). eapply drives_entered; [exact Hf|exact Hv| |exact Hb].
    split; [exact Htr|apply lookup_insert_eq].
Qed.

Lemma drives_extension s vm :
  drives (staged (MachineAsked (ks_fd s) None))
    (let* ext := checkExtension s KVM_CAP_EXIT_ON_EMULATION_FAILURE in
     if ext then
       let* ec := enableEmulationExits vm in
       (if ec_failed ec then report "Failed to enable emulation failure exits" ec
        else print (line "[+] Enabled KVM_CAP_EXIT_ON_EMULATION_FAILURE, CPUID will trap to userspace"))
     else
       print (line "[!] KVM_CAP_EXIT_ON_EMULATION_FAILURE not supported, CPUID exits may be handled in-kernel") ;;;
       print (line "    (This may cause CPUID exit counts to be inaccurate and some leaf handlers to not work.)"))
    (fun _ w => exists o, known o (vm_fd vm) = true /\ staged (MachineAsked (ks_fd s) o) w).
Proof.
  eapply drives_bind; [apply drives_checkExtension|]. intros [].
  - eapply drives_bind; [apply drives_enable|]. intros ec.
    eapply drives_post; [apply drives_mute; mute|]. intros ? w Hw. exists (Some (vm_fd vm)).
    split; [apply Z.eqb_refl|exact Hw].
  - eapply drives_post; [apply drives_mute; mute|]. intros ? w Hw. by exists None.
Qed.

Lemma drives_with_vm ndebug files fuel opened s vm :
  new_vm vm ->
  drives (staged (MachineAsked (ks_fd s) None)) (main_with_vm ndebug files fuel opened s vm) machine_post.
Proof.
  intros (Hf & Hv & _) w code w' Hw Hb. unfold main_with_vm in Hb.
  apply bind_inv in Hb as (ext & w1 & E1 & Hb). apply bind_inv in Hb as (u & w2 & E2 & Hb).
  destruct (drives_extension s vm w u w2 Hw) as (o & Ho & H2); [by rewrite (bind_Ok _ _ _ _ _ E1)|].
  destruct (readFile files "simpleGuest.bin") as [|b bytes].
  { eapply drives_report_quit; [exact Hf| |exact Hb]. by eapply staged_live. }
  apply bind_inv in Hb as ([ec vm'] & w3 & E3 & Hb).
  destruct (drives_loadBytes base anything ndebug (ks_fd s) o vm _ _ _ Ho Hv w2 _ w3 H2 E3) as (Hf' & Ha & He).
  cbn [fst snd] in *. eapply (drives_loaded fuel opened vm' ec); [by rewrite Hf'| |exact Hb]. by split.
Qed.

(** The stages in which [main] may stop. *)
Definition main_post (code : option (Z * option string)) w : Prop :=
  match code with
  | None => exists v, staged (Ready v) w
  | Some _ => staged Opened w \/ staged Teardown w
  end.

Lemma drives_main ndebug files fuel opened :
  drives (staged Start) (main ndebug files fuel opened) main_post.
Proof.
  unfold main. eapply drives_bind; [apply drives_system_open|]. intros [s|ec].
  2: { intros w c w' Hw Hb. apply bind_inv in Hb as (u & w1 & E1 & Hb). injection E1 as _ <-.
       injection Hb as <- <-. exact Hw. }
  apply drives_pure. intros Hs. eapply drives_mute_bind; [apply mute_print|]. intros ?.
  eapply drives_bind; [apply drives_createVm|]. intros [vm|ec].
  - intros w c w' [Hw Hvm] Hb. apply bind_inv in Hb as (u & w1 & E1 & Hb). injection E1 as _ <-.
    apply bind_inv in Hb as (code & w2 & E2 & Hb).
    apply (drives_with_vm ndebug files fuel opened s vm Hvm) in E2; [|exact Hw].
    destruct code as [code|]; [|by injection Hb as <- <-].
    apply bind_inv in Hb as (x & w3 & E3 & Hb). injection Hb as <- <-. right.
    eapply (drives_system_destroy base anything s Hs); [|exact E3]. by apply torn_live.
  - intros w c w' [Hw _] Hb. apply bind_inv in Hb as (u & w1 & E1 & Hb). injection E1 as _ <-.
    apply bind_inv in Hb as (x & w3 & E3 & Hb). injection Hb as <- <-. right.
    eapply (drives_system_destroy base anything s Hs); [|exact E3]. by eapply staged_live.
Qed.

End Program.

(** C13. [main] keeps the order the KVM API prescribes: on any kernel whose
    failing calls set [errno], whatever the calls return, the guest does and the
    guest's file holds, the calls [main] issues are a run of the automaton
    [next], which ends in the teardown (or right after a failed open) when the
    program has exited, and with a ready vCPU when it is still running.  So
    every KVM_RUN is issued on a vCPU for which, in this order, the device was
    opened, its version asked, a machine created, memory mapped and given to the
    machine, the vCPU created, its page mapped, its special registers, its
    registers and its CPUID table set, and before which nothing was unmapped or
    closed. *)
Theorem main_protocol {K} `{Kernel K} `{!ErrnoLaws K} ndebug files fuel opened
    (w : World K (VmiEnv K MainEnv)) code w' :
  main ndebug files fuel opened w = Ok (code, w') ->
  exists tr, h_trace (w_host w') = h_trace (w_host w) ++ tr /\
    (match code with
     | None => exists v, play tr = Ready v
     | Some _ => play tr = Opened \/ play tr = Teardown
     end) /\
    (forall pre v post, tr = pre ++ Sys_ioctl v KVM_RUN :: post -> prepared v pre).
Proof.
  intros Hm. assert (staged (h_trace (w_host w)) (fun _ => True) Start w) as Hw.
  { split; [|done]. exists []. by rewrite app_nil_r. }
  apply (drives_main _ ndebug files fuel opened w code w' Hw) in Hm.
  assert (exists tr, h_trace (w_host w') = h_trace (w_host w) ++ tr /\
    match code with
    | None => exists v, play tr = Ready v
    | Some _ => play tr = Opened \/ play tr = Teardown
    end) as (tr & Htr & Hp).
  { destruct code as [code|]; cbn in Hm.
    - destruct Hm as [[(tr & Htr & Hp) _]|[(tr & Htr & Hp) _]]; exists tr; auto.
    - destruct Hm as (v & (tr & Htr & Hp) & _). exists tr. eauto. }
  exists tr. split; [done|]. split; [done|]. intros pre v post. apply play_run.
  destruct code; [destruct Hp as [-> | ->]; done|destruct Hp as [v0 ->]; done].
Qed.

(** The demo with guests that halt at once: it exits with 0, and runs the vCPU
    three times. *)
Definition runs_in (tr : list syscall) : nat :=
  length (List.filter (fun c => match c with Sys_ioctl _ KVM_RUN => true | _ => false end) tr).

Definition calls_of {T} (o : outcome (option (Z * T) * World SimK (VmiEnv SimK MainEnv))) : option (Z * nat) :=
  match o with
  | Ok (Some (c, _), w) => Some (c, runs_in (h_trace (w_host w)))
  | _ => None
  end.

Lemma calls_of_inv {T} (o : outcome (option (Z * T) * World SimK (VmiEnv SimK MainEnv))) c n :
  calls_of o = Some (c, n) ->
  exists log w, o = Ok (Some (c, log), w) /\ runs_in (h_trace (w_host w)) = n.
Proof. destruct o as [[[[c0 log]|] w]|]; [|done..]. cbn. intros [= -> <-]. eauto. Qed.

Lemma demo_calls : calls_of (main false demo_file 4 true demo_start) = Some (0, 3%nat).
Proof. vm_compute. reflexivity. Qed.

Lemma main_protocol_witness :
  exists tr, runs_in tr = 3%nat /\ (play tr = Opened \/ play tr = Teardown) /\
    (forall pre v post, tr = pre ++ Sys_ioctl v KVM_RUN :: post -> prepared v pre).
Proof.
  destruct (calls_of_inv _ _ _ demo_calls) as (log & w & Hm & Hn).
  destruct (main_protocol false demo_file 4 true demo_start (Some (0, log)) w Hm) as (tr & Htr & Hp & Hr).
  exists tr. split; [|exact (conj Hp Hr)]. rewrite Htr in Hn. exact Hn.
Defined.
