(* ===== verification/Report.v ===== *)
(** * What the program reports

    The demo tells its user the same story three times: the lines the agent's
    callback prints, the event log it writes to a file, and the number of
    events it prints at the end.  They agree, and every record is of an event
    whose payload goes with its type.  No assumption on the kernel is needed. *)

From S2P Require Import Prelude Host SimKvm Memory Vcpu PortIo MmioDev Cpuid Msr Dispatcher Machine System Trapper Events Loader Text Vmi Main MainSafe.
From stdpp Require Import base list gmap strings.
From Stdlib Require Import ZArith Lia Ascii.
Open Scope Z_scope.
Open Scope hv_scope.

(** The lines of the agent's callback, by how they start. *)
Definition is_vmi (s : string) : bool :=
  match s with
  | String " " (String " " (String "[" (String "V" (String "M" (String "I" (String "]" _)))))) => true
  | _ => false
  end.

Definition vmi_lines {K E} (w : World K E) : list string := List.filter is_vmi (h_out (w_host w)).

Section Report.

Context {K : Type} `{Kernel K}.
Abbreviation Env := (VmiEnv K MainEnv).
Abbreviation Bus := (EventDispatcher K Env).
Implicit Types (w : World K Env) (d : Bus).

(** The agent, its bus and the output agree, from the output [before] on. *)
Definition logged (before : list string) w d : Prop :=
  exists a, ve_agents (w_env w) !! agent_ptr = Some a /\ agent_wired a /\
    ed_subscriptions d = main_subs /\
    ed_publishedCount d = u64 (Z.of_nat (length (va_eventLog a))) /\
    Forall (fun ie => event_published 0 (nv_base ie)) (va_eventLog a) /\
    vmi_lines w = before ++ map vmi_line (va_eventLog a).

Lemma logged_seen before w w' d :
  w_env w' = w_env w -> h_out (w_host w') = h_out (w_host w) -> logged before w d -> logged before w' d.
Proof. intros He Ho. unfold logged, vmi_lines. by rewrite He, Ho. Qed.

Lemma vmi_line_is_vmi ie : is_vmi (vmi_line ie) = true.
Proof. reflexivity. Qed.

Lemma vmi_lines_print s w : vmi_lines (printed s w) = vmi_lines w ++ (if is_vmi s then [s] else []).
Proof. unfold vmi_lines. cbn. by rewrite List.filter_app. Qed.

Lemma tag_not_vmi type : is_vmi (event_tag type) = false.
Proof. by destruct type. Qed.

Lemma silent_snapshotRegisters (a : VmiAgent K MainEnv) i : silent (snapshotRegisters a i).
Proof.
  unfold snapshotRegisters. destruct (_ =? _); [silent|].
  apply silent_bind. { intros w vm w'. unfold vm_at. destruct (_ !! _); [|done]. by intros [= <- <-]. }
  intros vm. destruct (_ <=? _); [silent|]. apply silent_bind; [unfold vcpu_at; silent|]. intros v. silent.
Qed.

(** The handler of the agent: one more record and its line. *)
Lemma handler_logs ev a w w' :
  ve_agents (w_env w) !! agent_ptr = Some a -> agent_wired a ->
  handleHvEvent agent_ptr ev w = Ok (tt, w') ->
  exists ie, nv_base ie = ev /\
    ve_agents (w_env w') !! agent_ptr = Some (set_log a (va_eventLog a ++ [ie])) /\
    vmi_lines w' = vmi_lines w ++ [vmi_line ie].
Proof.
  intros Ha Hw Hh. destruct (handler_wired _ _ _ _ _ Ha Hw Hh) as (ie & snap & w1 & E1 & Hb & ->).
  destruct (silent_snapshotRegisters _ _ _ _ _ E1) as [He Ho]. exists ie. split; [done|].
  split; [cbn; rewrite He; apply lookup_insert_eq|]. rewrite vmi_lines_print, vmi_line_is_vmi.
  unfold vmi_lines. cbn [with_record w_host]. by rewrite Ho.
Qed.

Lemma logged_publish before w w' d d' ev :
  event_published 0 ev -> logged before w d -> publish d ev w = Ok (d', w') -> logged before w' d'.
Proof.
  intros Hev (a & Ha & Hw & Hs & Hc & Ht & Hl) Hp. unfold publish in Hp. cbn [ed_subscriptions] in Hp. rewrite Hs in Hp.
  apply bind_inv in Hp as ([] & w1 & E1 & Hp). injection Hp as <- <-.
  cbn [deliver main_subs] in E1. apply bind_inv in E1 as ([] & w2 & E2 & E1).
  cbn [sub_matches sub_filter sub_handler] in E2.
  destruct (handler_logs ev a w w2 Ha Hw E2) as (ie & Hb & Ha2 & Hl2).
  cbn [sub_matches sub_filter sub_handler] in E1. 
  change (Ok (tt, printed (logger_line ev) (printed (event_tag (ev_type ev)) w2)) = Ok (tt, w1)) in E1.
  injection E1 as <-.
  exists (set_log a (va_eventLog a ++ [ie])). cbn [set_log va_eventLog ed_subscriptions ed_publishedCount].
  split; [exact Ha2|]. split; [by destruct Hw as (?&?&?&?&?)|]. split; [done|]. split; [|split].
  - rewrite length_app, Hc. cbn [length]. unfold u64. rewrite Zplus_mod_idemp_l. f_equal. lia.
  - apply Forall_app. split; [done|]. constructor; [by rewrite Hb|constructor].
  - rewrite !vmi_lines_print, tag_not_vmi. change (is_vmi (logger_line ev)) with false. cbn match.
    by rewrite !app_nil_r, Hl2, Hl, map_app, <-app_assoc.
Qed.

(** ** The callbacks and the phases of [main] leave the log alone *)

Abbreviation calm before := (calm (logged before)).
Abbreviation carries before := (carries (logged before)).

Lemma calm_print before s : is_vmi s = false -> calm before (print s).
Proof.
  intros Hs o w a w' Hj [= <- <-]. split; [|done]. destruct o as [d|]; [|done].
  destruct Hj as (a & ? & ? & ? & ? & ? & Hl). exists a. split_and!; try done.
  by rewrite vmi_lines_print, Hs, app_nil_r.
Qed.

Lemma calm_quiet_line before s : is_vmi (line s) = false -> calm before (print (line s)).
Proof. apply calm_print. Qed.

Lemma calm_of_silent {A} before (m : M (World K Env) A) : silent m -> calm before m.
Proof. apply calm_silent. intros ???. apply logged_seen. Qed.

(** Changing what is the user's part of the environment. *)
Lemma calm_put_main before e : calm before (put_main e).
Proof. intros [d|] w a w' Hj [= <- <-]; [|done]. split; [exact Hj|done]. Qed.

Lemma main_calm before v d :
  vc_id v = 0 -> trapper_calm (logged before) 0 (main_trapper v d).
Proof.
  intros Hv. split; cbn; [done|..].
  - intros ? [= <-] leaf cb a b [_ ->]%main_leaf.
    apply calm_of_silent. unfold leaf1_callback. silent.
  - intros ? [= <-]. split; intros port cb ctx Hl; [|by rewrite main_out in Hl]. apply main_in in Hl as [_ ->].
    apply calm_bind; [by apply calm_print|]. intros []. apply calm_of_silent. silent.
  - intros ? [= <-]. split; intros addr cb ctx Hl.
    + apply calm_of_silent. apply main_read in Hl as [[_ ->]|[_ ->]]; [|unfold magic_callback; silent].
      unfold status_callback. apply silent_bind; [by intros w a w' [= <- <-]|]. intros e. silent.
    + apply main_write in Hl as [_ ->]. unfold input_callback. apply calm_bind; [apply calm_of_silent; by intros w a w' [= <- <-]|].
      intros e. apply calm_bind; [apply calm_put_main|]. intros []. by apply calm_print.
Qed.

Lemma silent_snapshot_regions rs : silent (K := K) (E := Env) (snapshot_regions rs).
Proof.
  induction rs as [|r rs IH]; cbn [snapshot_regions]; [silent|].
  apply silent_bind; [unfold mem_load; silent|]. intros bytes. apply silent_bind; [exact IH|]. silent.
Qed.

Lemma silent_takeSnapShot vm : silent (K := K) (E := Env) (takeSnapShot vm).
Proof.
  unfold takeSnapShot, vcpu_at. apply silent_bind; [silent|]. intros v. apply silent_bind; [silent|]. intros r.
  apply silent_bind; [silent|]. intros s. apply silent_bind; [apply silent_snapshot_regions|]. silent.
Qed.

Lemma silent_restore_regions rs saved : silent (K := K) (E := Env) (restore_regions rs saved).
Proof.
  revert saved. induction rs as [|r rs IH]; intros saved; cbn [restore_regions]; [silent|].
  destruct saved as [|s ss]; [apply IH|]. apply silent_bind; [|intros _; apply IH]. silent.
Qed.

Lemma silent_restoreSnapshot vm s : silent (K := K) (E := Env) (restoreSnapshot vm s).
Proof.
  unfold restoreSnapshot, vcpu_at. apply silent_bind; [silent|]. intros v.
  apply silent_bind; [silent|]. intros ec1. apply silent_bind; [silent|].
  intros _. apply silent_bind; [unfold VCpu_setSregs; silent|]. intros ec2.
  apply silent_bind; [silent|].
  intros _. apply silent_restore_regions.
Qed.

Lemma calm_begin_run before i vm s : calm before (begin_run i vm s).
Proof.
  unfold begin_run. apply calm_bind.
  { destruct (0 <? i)%nat; [|apply calm_of_silent; silent].
    apply calm_bind; [apply calm_of_silent, silent_restoreSnapshot|]. intros []. by apply calm_print. }
  intros []. apply calm_bind; [apply calm_of_silent; unfold region_at; silent|]. intros r.
  apply calm_bind; [apply calm_of_silent; silent|]. intros [].
  apply calm_bind; [apply calm_of_silent; unfold mem_load; silent|]. intros b.
  apply calm_bind; [by apply calm_print|]. intros []. by apply calm_print.
Qed.

Lemma carries_build_table before leaves entries d :
  carries before (Some d) (build_table leaves entries d) (fun p => Some p.2) (fun _ => True).
Proof.
  revert entries d. induction leaves as [|leaf leaves IH]; intros entries d; cbn [build_table].
  { by apply carries_ret. }
  apply carries_silent; [apply logged_seen|unfold executeHostCpuid; silent|]. intros r.
  apply carries_calm; [by apply calm_print|]. intros [].
  apply carries_silent; [apply logged_seen|silent|]. intros now.
  eapply (carries_bind _ _ _ Some (fun _ => True)); [|intros d' _; apply IH].
  intros w d' w' Hj Hp. split; [|done]. eapply logged_publish; [|exact Hj|exact Hp]. done.
Qed.

Lemma calm_print_result before r : calm before (print_result r).
Proof. destruct r; cbn; (by apply calm_print) || (apply calm_of_silent; silent). Qed.

Lemma tracks_fuzz_loop before fuel left i vm s t :
  trapper_calm (logged before) 0 t ->
  tracks (logged before) 0 t (fuzz_loop fuel left i vm s t) snd.
Proof.
  revert i t. induction left as [|left IH]; intros i t Ht; cbn [fuzz_loop]; [by apply tracks_ret|].
  apply carries_calm; [apply calm_begin_run|]. intros [].
  eapply tracks_bind.
  { apply tracks_loop; [intros ???; apply logged_seen|intros ?????; apply logged_publish|done]. }
  intros [x t'] Ht'. cbn [snd] in Ht'. unfold tracks.
  destruct x as [[]|]; try (by apply carries_ret);
    (apply carries_calm; [by apply calm_print|]; intros []);
    first [ apply carries_calm; [apply calm_of_silent; silent|]; intros []; by apply carries_ret
          | apply carries_calm; [apply calm_print_result|]; intros []; by apply IH ].
Qed.

(** A run that ends the program early does so with exit code 1. *)
Lemma fuzz_loop_code fuel left i vm s t w c t' w' :
  fuzz_loop fuel left i vm s t w = Ok ((Some (Some c), t'), w') -> c = 1.
Proof.
  revert i t w. induction left as [|left IH]; intros i t w; cbn [fuzz_loop]; [done|].
  intros Hrun. apply bind_inv in Hrun as (? & w1 & _ & Hrun). apply bind_inv in Hrun as ([res t1] & w2 & _ & Hrun).
  destruct res as [[]|]; [..|done];
    apply bind_inv in Hrun as (? & w3 & _ & Hrun); apply bind_inv in Hrun as (? & w4 & _ & Hrun);
    first [exact (IH _ _ _ Hrun) | by injection Hrun as <- _ _].
Qed.

(** ** The end of the program *)

Definition total_line (n : nat) : string :=
  line ("[+] Total events dispatched: " <+ dec (u64 (Z.of_nat n))).

Definition log_text (opened : bool) (records : list IntrospectionEvent) : option string :=
  if opened then Some ("[" <+ nl <+ dump_events records <+ "]" <+ nl) else None.

(** What a program that ends with exit code 0 has told its user. *)
Definition reported (before : list string) (opened : bool) (log : option string) w : Prop :=
  exists records,
    log = log_text opened records /\
    Forall (fun ie => event_published 0 (nv_base ie)) records /\
    vmi_lines w = before ++ map vmi_line records /\
    last (h_out (w_host w)) = Some (total_line (length records)).

Lemma logged_start w d :
  d = snd (subscribeAll logger agent_bus) -> logged (vmi_lines w) (with_agent w) d.
Proof.
  intros ->. exists main_agent. split; [apply lookup_insert_eq|]. split_and!; try done.
  cbn [main_agent va_eventLog map]. by rewrite app_nil_r.
Qed.

Lemma silent_destroy_agent (ds : gmap Z Bus) w ds' w' :
  VmiAgent_destroy agent_ptr ds w = Ok (ds', w') -> h_out (w_host w') = h_out (w_host w).
Proof.
  unfold VmiAgent_destroy, dispatcher_at, agent_at, free_agent, bind. intros Hd.
  repeat (case_match; try discriminate); simplify_eq/=; unfold ret, fail in *; simplify_eq/=; done.
Qed.

Lemma printed_last {A} s (k : unit -> M (World K Env) A) w : bind (print s) k w = k tt (printed s w).
Proof. reflexivity. Qed.

(** The last steps of a program that has run the guest to the end. *)
Lemma finish_reports before opened t d w log w' :
  logged before w d -> main_end opened t d w = Ok (Some (0, log), w') -> reported before opened log w'.
Proof.
  intros (a & Ha & Hw & Hs & Hc & Ht & Hl) Hrun. unfold main_end in Hrun.
  rewrite printed_last in Hrun. apply bind_inv in Hrun as (a' & w1 & E1 & Hrun).
  unfold agent_at in E1. cbn [w_env printed on_host] in E1. rewrite Ha in E1. injection E1 as <- <-.
  rewrite !printed_last in Hrun. apply bind_inv in Hrun as (ds & w1 & E1 & Hrun).
  apply silent_destroy_agent in E1. injection Hrun as <- <-.
  exists (va_eventLog a). split; [done|]. split; [done|]. split.
  - unfold vmi_lines at 1. rewrite E1. 
    match goal with |- List.filter is_vmi (h_out (w_host ?x)) = _ => change (vmi_lines x = before ++ map vmi_line (va_eventLog a)) end.
    rewrite !vmi_lines_print. 
    rewrite Hl, <-!app_assoc. cbn [app]. change (is_vmi (exits_line (exitCount t))) with false.
    change (is_vmi (line "[+] VMI event log written to vmi_events.json")) with false.
    change (is_vmi (line ("[+] Total events dispatched: " <+ dec (publishedCount d)))) with false.
    cbn match. by rewrite !app_nil_r.
  - rewrite E1. cbn [printed on_host w_host log_out h_out]. rewrite last_snoc. unfold total_line, publishedCount. by rewrite Hc.
Qed.

Lemma wired_reports fuel opened w log w' :
  (forall vm, ve_vms (w_env w) !! vm_ptr = Some vm -> Forall (fun v => vc_id v = 0) (vm_vcpus vm)) ->
  main_wired fuel opened w = Ok (Some (0, log), w') -> reported (vmi_lines w) opened log w'.
Proof.
  intros Hid Hrun. unfold main_wired in Hrun.
  apply bind_inv in Hrun as (vm & w1 & E1 & Hrun). unfold vm_at in E1.
  destruct (ve_vms (w_env w) !! vm_ptr) as [vm'|] eqn:Hvm; [|done]. injection E1 as <- <-.
  apply bind_inv in Hrun as (v & w1 & E1 & Hrun). unfold vcpu_at in E1.
  destruct (vm_vcpus vm' !! 0%nat) as [v'|] eqn:Hv; [|done]. injection E1 as <- <-.
  assert (vc_id v' = 0) as Hv0 by (by eapply (Forall_lookup_1 (fun v => vc_id v = 0)); [apply Hid|]).
  rewrite wiring in Hrun. unfold dispatcher_at in Hrun. rewrite lookup_singleton_eq in Hrun.
  rewrite bind_ret_l in Hrun. set (bus := snd (subscribeAll logger agent_bus)).
  change (subscribeAll logger agent_bus) with (2, bus) in Hrun. cbn iota beta in Hrun.
  pose proof (logged_start w bus eq_refl) as Hj.
  apply bind_inv in Hrun as ([entries d] & w1 & E1 & Hrun).
  apply (carries_build_table (vmi_lines w) _ _ _ _ _ _ Hj) in E1 as [Hj1 _]. cbn [snd Jo] in Hj1.
  apply bind_inv in Hrun as (ec & w2 & E2 & Hrun).
  assert (logged (vmi_lines w) w2 d) as Hj2.
  { eapply (calm_of_silent (vmi_lines w) _ _ (Some d)); [exact Hj1|exact E2]. 
    Unshelve. unfold VCpu_installCpuid. silent. }
  destruct (ec_failed ec).
  { apply bind_inv in Hrun as (? & ? & _ & Hrun). apply bind_inv in Hrun as (? & ? & _ & Hrun). done. }
  rewrite printed_last in Hrun. apply bind_inv in Hrun as (snapshot & w3 & E3 & Hrun).
  rewrite printed_last in Hrun. apply bind_inv in Hrun as ([code t'] & w4 & E4 & Hrun).
  set (s1 := line _) in E3. set (s2 := line _) in E4.
  assert (logged (vmi_lines w) (printed s1 w2) d) as Hj3
    by (by destruct (calm_print (vmi_lines w) s1 eq_refl (Some d) w2 tt _ Hj2 eq_refl)).
  assert (logged (vmi_lines w) w3 d) as Hj4
    by (by destruct (calm_of_silent (vmi_lines w) _ (silent_takeSnapShot vm') (Some d) _ _ _ Hj3 E3)).
  assert (logged (vmi_lines w) (printed s2 w3) d) as Hj5
    by (by destruct (calm_print (vmi_lines w) s2 eq_refl (Some d) w3 tt _ Hj4 eq_refl)).
  pose proof (fuzz_loop_code fuel 3 0 vm' snapshot (main_trapper v' d) (printed s2 w3)) as Hcode.
  apply (tracks_fuzz_loop (vmi_lines w) fuel 3 0 vm' snapshot (main_trapper v' d) (main_calm _ _ _ Hv0)
           (printed s2 w3) (code, t') w4 Hj5) in E4 as Hj6.
  destruct Hj6 as [Hj6 _]. destruct code as [[c|]|]; [|..|done].
  - specialize (Hcode c t' w4 E4) as ->. apply bind_inv in Hrun as (? & ? & _ & Hrun). done.
  - eapply finish_reports; [|exact Hrun]. cbn [snd] in Hj6. by destruct (it_dispatch t').
Qed.

(** ** The set-up says nothing *)

Lemma silent_mapM {A} (f : A -> M (World K Env) unit) l : (forall a, silent (f a)) -> silent (mapM_ f l).
Proof. intros Hf. induction l as [|a l IH]; cbn; [silent|]. by apply silent_bind. Qed.

Lemma silent_open path : silent (K := K) (E := Env) (KvmSystem_open path).
Proof. unfold KvmSystem_open, sys_open, sys_close. silent. Qed.

Lemma silent_createVm s : silent (K := K) (E := Env) (createVm s).
Proof. unfold createVm. silent. Qed.

Lemma silent_region_destroy r : silent (K := K) (E := Env) (MemoryRegion_destroy r).
Proof. unfold MemoryRegion_destroy, MemoryRegion_release, sys_munmap. silent. Qed.

Lemma silent_vcpu_destroy v : silent (K := K) (E := Env) (VCpu_destroy v).
Proof. unfold VCpu_destroy, VCpu_release, sys_munmap, sys_close. silent. Qed.

Lemma silent_vm_destroy vm : silent (K := K) (E := Env) (VirtualMachine_destroy vm).
Proof.
  unfold VirtualMachine_destroy, close_vm_fd, sys_close. apply silent_bind; [silent|]. intros _.
  apply silent_bind; intros; apply silent_mapM; [apply silent_vcpu_destroy|apply silent_region_destroy].
Qed.

Lemma silent_system_destroy s : silent (K := K) (E := Env) (KvmSystem_destroy s).
Proof. unfold KvmSystem_destroy, sys_close. silent. Qed.

Lemma silent_add_region vm gpa size flags : silent (K := K) (E := Env) (addMemoryRegion vm gpa size flags).
Proof.
  unfold addMemoryRegion. apply silent_bind.
  { unfold MemoryRegion_create, sys_mmap, sys_madvise, sys_munmap. silent. }
  intros [r|ec]; [|silent]. cbn [MemoryRegion_move]. apply silent_bind; [apply silent_region_destroy|]. silent.
Qed.

Lemma silent_add_vcpu vm id : silent (K := K) (E := Env) (addVCpu vm id).
Proof.
  unfold addVCpu. apply silent_bind; [unfold VCpu_create, sys_mmap, sys_close; silent|].
  intros [v|ec]; [|silent]. cbn [VCpu_move]. apply silent_bind; [apply silent_vcpu_destroy|]. silent.
Qed.

Lemma silent_loadBytes ndebug vm code addr size : silent (K := K) (E := Env) (loadBytes ndebug vm code addr size).
Proof.
  unfold loadBytes. apply silent_bind; [apply silent_add_region|]. intros [[ri|ec] vm1]; [|silent].
  apply silent_bind; [unfold region_at; silent|]. intros r. destruct (_ <? _); [silent|].
  apply silent_bind; [unfold MemoryRegion_write, cassert; silent|]. intros _.
  apply silent_bind; [apply silent_add_vcpu|]. intros [[vi|ec] vm2]; [|silent].
  apply silent_bind; [unfold vcpu_at; silent|]. intros v. apply silent_bind; [|silent].
  unfold setupRealModeVCpu, VCpu_setSregs. silent.
Qed.

(** The vCPUs of a machine [loadBytes] has filled are numbered 0. *)
Definition zero_ids vm : Prop := Forall (fun v => vc_id v = 0) (vm_vcpus vm).

Lemma vcpu_create_id vm_fd id size w v w' :
  VCpu_create (K := K) (E := Env) vm_fd id size w = Ok (Value v, w') -> vc_id v = id.
Proof.
  unfold VCpu_create. intros Hc. binv. destruct a as [fd o]. destruct (fd <? 0); [by binv|].
  binv. destruct (a =? MAP_FAILED); [by binv|]. by injection Hc as <- _.
Qed.

Lemma add_region_vcpus vm gpa size flags w e vm' w' :
  addMemoryRegion (K := K) (E := Env) vm gpa size flags w = Ok ((e, vm'), w') -> vm_vcpus vm' = vm_vcpus vm.
Proof.
  unfold addMemoryRegion. intros Ha. apply bind_inv in Ha as ([r|ec] & w1 & _ & Ha); [|by injection Ha as _ <- _].
  cbn [MemoryRegion_move] in Ha. apply bind_inv in Ha as (? & ? & _ & Ha). by injection Ha as _ <- _.
Qed.

Lemma add_vcpu_ids vm w e vm' w' :
  addVCpu (K := K) (E := Env) vm 0 w = Ok ((e, vm'), w') -> zero_ids vm -> zero_ids vm'.
Proof.
  unfold addVCpu. intros Ha Hz. apply bind_inv in Ha as ([v|ec] & w1 & E1 & Ha); [|by injection Ha as _ <- _].
  apply vcpu_create_id in E1. cbn [VCpu_move] in Ha. apply bind_inv in Ha as (? & ? & _ & Ha).
  injection Ha as _ <- _. apply Forall_app. split; [done|]. by constructor.
Qed.

Lemma loadBytes_ids ndebug vm code addr size w ec vm' w' :
  loadBytes (K := K) (E := Env) ndebug vm code addr size w = Ok ((ec, vm'), w') -> zero_ids vm -> zero_ids vm'.
Proof.
  unfold loadBytes. intros Hl Hz. apply bind_inv in Hl as ([[ri|e] vm1] & w1 & E1 & Hl);
    apply add_region_vcpus in E1; assert (zero_ids vm1) as Hz1 by (unfold zero_ids; by rewrite E1);
    [|by injection Hl as _ <- _].
  apply bind_inv in Hl as (r & w2 & _ & Hl). destruct (_ <? _); [by injection Hl as _ <- _|].
  apply bind_inv in Hl as (? & w3 & _ & Hl). apply bind_inv in Hl as ([[vi|e] vm2] & w4 & E4 & Hl);
    apply add_vcpu_ids in E4; try done; [|by injection Hl as _ <- _].
  apply bind_inv in Hl as (v & w5 & _ & Hl). apply bind_inv in Hl as (? & w6 & _ & Hl). by injection Hl as _ <- _.
Qed.

(** Computations that print no line of the agent. *)
Definition hushed {A} (m : M (World K Env) A) : Prop :=
  forall w a w', m w = Ok (a, w') -> vmi_lines w' = vmi_lines w.

Lemma hushed_silent {A} (m : M (World K Env) A) : silent m -> hushed m.
Proof. intros Hm w a w' Ha. unfold vmi_lines. by destruct (Hm _ _ _ Ha) as [_ ->]. Qed.

Lemma hushed_print s : is_vmi s = false -> hushed (print s).
Proof. intros Hs w a w' [= <- <-]. by rewrite vmi_lines_print, Hs, app_nil_r. Qed.

Lemma hushed_bind {A B} (m : M (World K Env) A) (k : A -> M (World K Env) B) :
  hushed m -> (forall a, hushed (k a)) -> hushed (bind m k).
Proof.
  intros Hm Hk w b w' Hb. apply bind_inv in Hb as (a & w1 & E1 & Hb). rewrite <-(Hm _ _ _ E1). by eapply Hk.
Qed.

Lemma hushed_setup s vm :
  hushed (let* ext := checkExtension s KVM_CAP_EXIT_ON_EMULATION_FAILURE in
          if ext : bool then
            let* ec := enableEmulationExits vm in
            (if ec_failed ec then report "Failed to enable emulation failure exits" ec
             else print (line "[+] Enabled KVM_CAP_EXIT_ON_EMULATION_FAILURE, CPUID will trap to userspace"))
          else
            print (line "[!] KVM_CAP_EXIT_ON_EMULATION_FAILURE not supported, CPUID exits may be handled in-kernel") ;;;
            print (line "    (This may cause CPUID exit counts to be inaccurate and some leaf handlers to not work.)")).
Proof.
  apply hushed_bind; [apply hushed_silent; unfold checkExtension; silent|]. intros [].
  - apply hushed_bind; [apply hushed_silent; unfold enableEmulationExits, vm_ioctl; silent|]. intros ec.
    destruct (ec_failed ec); [apply hushed_silent; silent|by apply hushed_print].
  - apply hushed_bind; [by apply hushed_print|]. intros _. by apply hushed_print.
Qed.

(** What is still to be destroyed does not print. *)
Lemma reported_silent {A} before opened log (m : M (World K Env) A) w a w' :
  silent m -> m w = Ok (a, w') -> reported before opened log w -> reported before opened log w'.
Proof.
  intros Hm Ha (records & ? & ? & ? & ?). destruct (Hm _ _ _ Ha) as [_ Ho]. exists records.
  unfold vmi_lines. rewrite Ho. by split_and!.
Qed.

Lemma with_vm_reports ndebug files fuel opened s vm w log w' :
  zero_ids vm -> main_with_vm ndebug files fuel opened s vm w = Ok (Some (0, log), w') ->
  reported (vmi_lines w) opened log w'.
Proof.
  intros Hz Hrun. unfold main_with_vm in Hrun. apply bind_inv in Hrun as (ext & w0 & E0 & Hrun).
  apply bind_inv in Hrun as ([] & w1 & E1 & Hrun).
  assert (vmi_lines w1 = vmi_lines w) as Hw1.
  { eapply (hushed_setup s vm). unfold bind at 1. rewrite E0. exact E1. }
  destruct (readFile files "simpleGuest.bin") as [|b bytes].
  { apply bind_inv in Hrun as (? & ? & _ & Hrun). apply bind_inv in Hrun as (? & ? & _ & Hrun). done. }
  apply bind_inv in Hrun as ([ec vm'] & w2 & E2 & Hrun).
  assert (vmi_lines w2 = vmi_lines w) as Hw2 by (by rewrite (hushed_silent _ (silent_loadBytes _ _ _ _ _) _ _ _ E2)).
  apply loadBytes_ids in E2; [|done]. apply bind_inv in Hrun as ([] & w3 & E3 & Hrun). injection E3 as <-.
  destruct (ec_failed ec).
  { apply bind_inv in Hrun as (? & ? & _ & Hrun). apply bind_inv in Hrun as (? & ? & _ & Hrun). done. }
  rewrite printed_last in Hrun. apply bind_inv in Hrun as (code & w4 & E4 & Hrun).
  destruct code as [[c log']|]; [|done].
  apply bind_inv in Hrun as (? & w5 & E5 & Hrun). injection Hrun as -> -> <-.
  eapply reported_silent; [apply (silent_vm_destroy vm')|exact E5|].
  apply wired_reports in E4.
  - revert E4. rewrite vmi_lines_print. change (is_vmi _) with false. cbn match. rewrite app_nil_r.
    unfold vmi_lines at 1. cbn. by fold (vmi_lines w2); rewrite Hw2.
  - intros vm2. cbn. rewrite lookup_insert_eq. by intros [= <-].
Qed.

End Report.

(** C11. The demo's reports agree: when the program ends with exit code 0, there
    is one list of records behind everything it has told its user.  The event
    log, if its file could be opened, is the dump of exactly these records; the
    lines the agent's callback printed are their summaries, in the same order;
    the number of events printed at the very end is their number (modulo 2^64).
    Every record is of an event about vCPU 0, none is of an MSR access, and a
    subscriber that reads the payload by the type reads the alternative the type
    announces, except for a shutdown of the guest: it carries the empty CPUID
    event instead of no payload. *)
Theorem main_report {K} `{Kernel K} ndebug files fuel opened log (w w' : World K (VmiEnv K MainEnv)) :
  main ndebug files fuel opened w = Ok (Some (0, log), w') ->
  exists records,
    log = log_text opened records /\
    Forall (fun ie => event_published 0 (nv_base ie)) records /\
    Forall (fun ie => payload_typed (ev_type (nv_base ie)) (ev_payload (nv_base ie)) <->
                      ev_type (nv_base ie) <> GuestShutdown) records /\
    vmi_lines w' = vmi_lines w ++ map vmi_line records /\
    last (h_out (w_host w')) = Some (total_line (length records)).
Proof.
  intros Hrun. assert (reported (vmi_lines w) opened log w') as (records & Hlog & Hp & Hl & Ht); [|exists records].
  2: { split_and!; try done. eapply Forall_impl; [exact Hp|]. intros ie [_ Hie]. by apply published_typed. }
  unfold main in Hrun. apply bind_inv in Hrun as ([s|e] & w1 & E1 & Hrun).
  2: { by apply bind_inv in Hrun as (? & ? & _ & Hrun). }
  apply (hushed_silent _ (silent_open _)) in E1 as Hw1.
  rewrite printed_last in Hrun. apply bind_inv in Hrun as ([vm|e] & w2 & E2 & Hrun).
  2: { apply bind_inv in Hrun as (? & ? & _ & Hrun). by apply bind_inv in Hrun as (? & ? & _ & Hrun). }
  apply (hushed_silent _ (silent_createVm _)) in E2 as Hw2.
  rewrite printed_last in Hrun. apply bind_inv in Hrun as ([[c log']|] & w3 & E3 & Hrun); [|done].
  apply bind_inv in Hrun as (? & w4 & E4 & Hrun). injection Hrun as -> -> <-.
  apply (reported_silent (vmi_lines w) opened log _ w3 _ w4 (silent_system_destroy s) E4).
  apply with_vm_reports in E3.
  - revert E3. rewrite vmi_lines_print. change (is_vmi _) with false. cbn match.
    by rewrite app_nil_r, Hw2, vmi_lines_print, app_nil_r, Hw1.
  - unfold createVm in E2. apply bind_inv in E2 as ([fd o] & w5 & _ & E2). destruct (fd <? 0).
    { apply bind_inv in E2 as (? & ? & _ & E2). done. }
    injection E2 as <- _. by constructor.
Qed.

(** An outcome with exit code 0. *)
Definition ends_well {S T : Type} (m : outcome (option (Z * T) * S)%type) : bool :=
  match m with Ok (Some (c, _), _) => c =? 0 | _ => false end.

Lemma ends_well_inv {S T : Type} (m : outcome (option (Z * T) * S)%type) :
  ends_well m = true -> exists log w', m = Ok (Some (0, log), w').
Proof. destruct m as [[[[c log]|] w']|]; cbn; try done. intros ->%Z.eqb_eq. eauto. Qed.

Lemma demo_ends : ends_well (main false demo_file 4 true demo_start) = true.
Proof. vm_compute. reflexivity. Qed.

Lemma main_report_witness :
  exists log w', main false demo_file 4 true demo_start = Ok (Some (0, log), w') /\
    exists records,
      log = log_text true records /\
      Forall (fun ie => event_published 0 (nv_base ie)) records /\
      Forall (fun ie => payload_typed (ev_type (nv_base ie)) (ev_payload (nv_base ie)) <->
                        ev_type (nv_base ie) <> GuestShutdown) records /\
      vmi_lines w' = vmi_lines demo_start ++ map vmi_line records /\
      last (h_out (w_host w')) = Some (total_line (length records)).
Proof.
  destruct (ends_well_inv _ demo_ends) as (log & w' & Hrun). exists log, w'. split; [exact Hrun|].
  exact (main_report false demo_file 4 true log demo_start w' Hrun).
Defined.
