(* ===== verification/Account.v ===== *)
(** * The account the program gives of its runs

    What the demo prints and logs is an account of what the kernel did: this
    file proves that it is a true one.  The runs of the guest are told as
    sequences of exits ([series]); everything the program observes of itself (the
    calls of KVM_RUN, the lines that count exits, the agent's records) is then a
    function of them.  The logic is a logic of growth: [tells m P] says what [m]
    adds to the agent's log, and [still m] that [m] adds nothing to anything. *)

From S2P Require Import Prelude Host SimKvm Memory Vcpu PortIo MmioDev Cpuid Msr Dispatcher Machine System Trapper Counters Events Loader Text Vmi Main MainSafe Protocol Report.
From stdpp Require Import base list gmap strings.
From Stdlib Require Import ZArith Lia Ascii.
Open Scope Z_scope.
Open Scope hv_scope.

(** The lines that count exits, by how they start. *)
Fixpoint starts_with (p s : string) : bool :=
  match p, s with
  | EmptyString, _ => true
  | String a p', String b s' => Ascii.eqb a b && starts_with p' s'
  | String _ _, EmptyString => false
  end.

Definition is_stop (s : string) : bool := starts_with "[+] Guest stopped after " s.

Definition is_kvm_run (req : ioctl_req) : bool := match req with KVM_RUN => true | _ => false end.

Section Account.

Context {K : Type} `{Kernel K}.
Abbreviation Env := (VmiEnv K MainEnv).
Abbreviation Bus := (EventDispatcher K Env).
Abbreviation Trapper := (InstructionTrapper K Env).
Abbreviation Records := (list IntrospectionEvent).
Implicit Types (w : World K Env) (d : Bus) (t : Trapper).

(** What an observer counts: the lines and the calls of KVM_RUN so far. *)
Definition stop_lines w : list string := List.filter is_stop (h_out (w_host w)).
Definition kvm_runs w : nat := runs_in (h_trace (w_host w)).

(** ** Computations that add nothing *)

Definition unmoved w w' : Prop :=
  ve_agents (w_env w') = ve_agents (w_env w) /\ stop_lines w' = stop_lines w /\ kvm_runs w' = kvm_runs w.

Definition still {A} (m : M (World K Env) A) : Prop := forall w a w', m w = Ok (a, w') -> unmoved w w'.

Lemma still_idle {A} (m : M (World K Env) A) : idle m -> still m.
Proof.
  intros Hm w a w' Ha. destruct (Hm _ _ _ Ha) as (He & Ho & Ht). unfold unmoved, stop_lines, kvm_runs. by rewrite He, Ho, Ht.
Qed.

Lemma still_bind {A B} (m : M (World K Env) A) (k : A -> M (World K Env) B) :
  still m -> (forall a, still (k a)) -> still (bind m k).
Proof.
  intros Hm Hk w b w' Hb. apply bind_inv in Hb as (a & w1 & E1 & Hb).
  destruct (Hm _ _ _ E1) as (H1 & H2 & H3). destruct (Hk _ _ _ _ Hb) as (H4 & H5 & H6).
  split_and!; congruence.
Qed.

Lemma runs_snoc tr c :
  runs_in (tr ++ [c]) = (runs_in tr + match c with Sys_ioctl _ KVM_RUN => 1 | _ => 0 end)%nat.
Proof.
  unfold runs_in. rewrite List.filter_app, length_app. f_equal. cbn.
  destruct c as [| |fd req| | |]; [done..| |done|done|done]. by destruct req.
Qed.

Lemma still_call c : match c with Sys_ioctl _ req => is_kvm_run req | _ => false end = false -> still (do_syscall c).
Proof.
  intros Hc w a w' [= <- <-]. split_and!; [done..|].
  change (runs_in (h_trace (w_host w) ++ [c]) = runs_in (h_trace (w_host w))). rewrite runs_snoc.
  destruct c as [| |fd req| | |]; try lia. destruct req; (done || lia).
Qed.

Lemma still_ioctl fd req : is_kvm_run req = false -> still (ioctl fd req).
Proof. apply (still_call (Sys_ioctl fd req)). Qed.

Lemma stop_lines_printed s w : stop_lines (printed s w) = stop_lines w ++ (if is_stop s then [s] else []).
Proof.
  unfold stop_lines. change (h_out (w_host (printed s w))) with (h_out (w_host w) ++ [s]). apply List.filter_app.
Qed.

Lemma still_print s : is_stop s = false -> still (print s).
Proof.
  intros Hs w a w' [= <- <-]. split_and!; [done| |done]. by rewrite stop_lines_printed, Hs, app_nil_r.
Qed.

Lemma still_get_main : still get_main.
Proof. by intros w a w' [= <- <-]. Qed.
Lemma still_put_main e : still (put_main e).
Proof. by intros w a w' [= <- <-]. Qed.
Lemma still_put_vm p vm : still (put_vm p vm).
Proof. by intros w a w' [= <- <-]. Qed.
Lemma still_vm_at p : still (vm_at p).
Proof. intros w a w'. unfold vm_at. destruct (_ !! _); [|done]. by intros [= <- <-]. Qed.
Lemma still_mapM {A} (f : A -> M (World K Env) unit) l : (forall a, still (f a)) -> still (mapM_ f l).
Proof. intros Hf. induction l as [|a l IH]; cbn; [apply still_idle, idle_ret|]. by apply still_bind. Qed.

End Account.

Create HintDb still.

#[export] Hint Resolve still_get_main still_put_main still_put_vm still_vm_at : still.
#[export] Hint Extern 2 (still _) => apply still_idle; solve [eauto with idle nocore] : still.
#[export] Hint Extern 1 (still (do_syscall _)) => apply still_call; reflexivity : still.
#[export] Hint Extern 1 (still (ioctl _ _)) => apply still_ioctl; reflexivity : still.
#[export] Hint Extern 1 (still (print _)) => apply still_print; reflexivity : still.

(** Follow the code of a computation that is built from still ones. *)
Ltac still :=
  repeat first
    [ solve [eauto with still nocore]
    | apply still_bind; [|intros ?]
    | match goal with |- still (match ?x with _ => _ end) => destruct x end ].

(** ** The program's parts that add nothing *)

Section Quiet.

Context {K : Type} `{Kernel K}.
Abbreviation Env := (VmiEnv K MainEnv).
Abbreviation still := (still (K := K)).

Lemma still_getRegs v : still (VCpu_getRegs v).
Proof. unfold VCpu_getRegs. still. Qed.
Lemma still_setRegs v r : still (VCpu_setRegs v r).
Proof. unfold VCpu_setRegs. still. Qed.
Lemma still_getSregs v : still (VCpu_getSregs v).
Proof. unfold VCpu_getSregs. still. Qed.
Lemma still_setSregs v s : still (VCpu_setSregs v s).
Proof. unfold VCpu_setSregs. still. Qed.
Lemma still_installCpuid v entries : still (VCpu_installCpuid v entries).
Proof. unfold VCpu_installCpuid. still. Qed.
Lemma still_vcpu_at vm i : still (vcpu_at vm i).
Proof. unfold vcpu_at. still. Qed.
Lemma still_region_at vm i : still (region_at vm i).
Proof. unfold region_at. still. Qed.
Lemma still_executeHostCpuid leaf sub : still (executeHostCpuid leaf sub).
Proof. unfold executeHostCpuid. still. Qed.
Lemma still_region_destroy r : still (MemoryRegion_destroy r).
Proof. unfold MemoryRegion_destroy, MemoryRegion_release, sys_munmap. still. Qed.
Lemma still_vcpu_destroy v : still (VCpu_destroy v).
Proof. unfold VCpu_destroy, VCpu_release, sys_munmap, sys_close. still. Qed.

End Quiet.

#[export] Hint Resolve still_getRegs still_setRegs still_getSregs still_setSregs still_installCpuid
  still_vcpu_at still_region_at still_executeHostCpuid still_region_destroy still_vcpu_destroy : still.

(** ** Growth *)

Section Growth.

Context {K : Type} `{Kernel K}.
Abbreviation Env := (VmiEnv K MainEnv).
Abbreviation Bus := (EventDispatcher K Env).
Abbreviation Trapper := (InstructionTrapper K Env).
Abbreviation Records := (list IntrospectionEvent).
Abbreviation still := (still (K := K)).
Implicit Types (w : World K Env) (d : Bus) (t : Trapper) (recs : Records).

(** From [w] to [w'], KVM_RUN was called [n] times, the lines [ls] were printed
    and the agent logged [recs]. *)
Definition grew w w' (n : nat) (ls : list string) recs : Prop :=
  exists a, ve_agents (w_env w) !! agent_ptr = Some a /\ agent_wired a /\
    ve_agents (w_env w') !! agent_ptr = Some (set_log a (va_eventLog a ++ recs)) /\
    stop_lines w' = stop_lines w ++ ls /\ kvm_runs w' = (kvm_runs w + n)%nat.

Definition has_agent w : Prop := exists a, ve_agents (w_env w) !! agent_ptr = Some a /\ agent_wired a.

Lemma set_log_wired (a : VmiAgent K MainEnv) recs : agent_wired a -> agent_wired (set_log a recs).
Proof. by intros (?&?&?&?&?). Qed.

Lemma set_log_id (a : VmiAgent K MainEnv) : set_log a (va_eventLog a ++ []) = a.
Proof. rewrite app_nil_r. by destruct a. Qed.

Lemma grew_unmoved w w' : has_agent w -> unmoved w w' -> grew w w' 0 [] [].
Proof.
  intros (a & Ha & Hw) (H1 & H2 & H3). exists a. rewrite H1, set_log_id, app_nil_r, Nat.add_0_r. by split_and!.
Qed.

Lemma grew_refl w : has_agent w -> grew w w 0 [] [].
Proof. intros Hw. by apply grew_unmoved. Qed.

Lemma grew_trans w1 w2 w3 n n' ls ls' recs recs' :
  grew w1 w2 n ls recs -> grew w2 w3 n' ls' recs' -> grew w1 w3 (n + n') (ls ++ ls') (recs ++ recs').
Proof.
  intros (a & Ha & Hw & Ha2 & Hs & Hn) (b & Hb & _ & Hb3 & Hs' & Hn'). rewrite Ha2 in Hb. injection Hb as <-.
  exists a. rewrite Hs', Hs, Hn', Hn, Hb3, !app_assoc, Nat.add_assoc. by split_and!.
Qed.

Lemma grew_agent w w' n ls recs : grew w w' n ls recs -> has_agent w'.
Proof. intros (a & _ & Hw & Ha & _). eexists. split; [exact Ha|]. by apply set_log_wired. Qed.

Lemma grew_from w w' n ls recs : grew w w' n ls recs -> has_agent w.
Proof. intros (a & Ha & Hw & _). by exists a. Qed.

Lemma grew_still {A} (m : M (World K Env) A) w a w' :
  still m -> has_agent w -> m w = Ok (a, w') -> grew w w' 0 [] [].
Proof. intros Hm Hw Ha. apply grew_unmoved; [done|]. by eapply Hm. Qed.

Lemma exits_line_is_stop n : is_stop (exits_line n) = true.
Proof. unfold exits_line. generalize (dec n). reflexivity. Qed.

Lemma grew_print s w x w' : print s w = Ok (x, w') -> is_stop s = false -> has_agent w -> grew w w' 0 [] [].
Proof. intros Hp Hs Hw. eapply grew_still; [by apply still_print|done|exact Hp]. Qed.

(** A line that counts exits. *)
Lemma grew_line w n : has_agent w -> grew w (printed (exits_line n) w) 0 [exits_line n] [].
Proof.
  intros (a & Ha & Hw). exists a. rewrite set_log_id, Nat.add_0_r. split_and!; try done.
  by rewrite stop_lines_printed, exits_line_is_stop.
Qed.

(** [m] adds records that satisfy [P], and nothing else. *)
Definition tells {A} (m : M (World K Env) A) (P : A -> Records -> Prop) : Prop :=
  forall w a w', has_agent w -> m w = Ok (a, w') -> exists recs, grew w w' 0 [] recs /\ P a recs.

Lemma tells_still {A} (m : M (World K Env) A) (P : A -> Records -> Prop) :
  still m -> (forall a, P a []) -> tells m P.
Proof. intros Hm HP w a w' Hw Ha. exists []. split; [by eapply grew_still|apply HP]. Qed.

Lemma tells_ret {A} (a : A) (P : A -> Records -> Prop) : P a [] -> tells (ret a) P.
Proof. intros HP w b w' Hw [= <- <-]. exists []. split; [by apply grew_refl|done]. Qed.

Lemma tells_bind {A B} (m : M (World K Env) A) (k : A -> M (World K Env) B) P (Q : B -> Records -> Prop) :
  tells m P -> (forall a recs, P a recs -> tells (k a) (fun b recs' => Q b (recs ++ recs'))) -> tells (bind m k) Q.
Proof.
  intros Hm Hk w b w' Hw Hb. apply bind_inv in Hb as (a & w1 & E1 & Hb).
  destruct (Hm _ _ _ Hw E1) as (recs & Hg & HP).
  destruct (Hk _ _ HP _ _ _ (grew_agent _ _ _ _ _ Hg) Hb) as (recs' & Hg' & HQ).
  exists (recs ++ recs'). split; [|done]. apply (grew_trans _ _ _ _ _ _ _ _ _ Hg Hg').
Qed.

Lemma tells_then {A B} (m : M (World K Env) A) (k : A -> M (World K Env) B) Q :
  still m -> (forall a, tells (k a) Q) -> tells (bind m k) Q.
Proof.
  intros Hm Hk. eapply (tells_bind _ _ (fun _ recs => recs = [])); [by apply tells_still|].
  intros a recs ->. apply Hk.
Qed.

Lemma tells_conseq {A} (m : M (World K Env) A) (P Q : A -> Records -> Prop) :
  tells m P -> (forall a recs, P a recs -> Q a recs) -> tells m Q.
Proof. intros Hm HPQ w a w' Hw Ha. destruct (Hm _ _ _ Hw Ha) as (recs & Hg & HP). eauto. Qed.

(** What is known of the result for another reason. *)
Lemma tells_known {A B} (m : M (World K Env) A) (k : A -> M (World K Env) B) (X : A -> Prop) Q :
  still m -> (forall w a w', m w = Ok (a, w') -> X a) -> (forall a, X a -> tells (k a) Q) -> tells (bind m k) Q.
Proof.
  intros Hm HX Hk w b w' Hw Hb. apply bind_inv in Hb as (a & w1 & E1 & Hb).
  pose proof (grew_still _ _ _ _ Hm Hw E1) as Hg.
  destruct (Hk a (HX _ _ _ E1) _ _ _ (grew_agent _ _ _ _ _ Hg) Hb) as (recs & Hg' & HQ).
  exists recs. split; [|done]. apply (grew_trans _ _ _ _ _ _ _ _ _ Hg Hg').
Qed.

(** ** The agent and the bus *)

Lemma still_snapshotRegisters (a : VmiAgent K MainEnv) i : still (snapshotRegisters a i).
Proof. unfold snapshotRegisters. still. Qed.

Lemma tells_handler ev : tells (handleHvEvent agent_ptr ev) (fun _ recs => exists ie, recs = [ie] /\ nv_base ie = ev).
Proof.
  intros w u w' (a & Ha & Hw) Hh. destruct (handler_wired _ _ _ _ _ Ha Hw Hh) as (ie & snap & w1 & E1 & Hb & ->).
  destruct (still_snapshotRegisters _ _ _ _ _ E1) as (He & Hs & Hn). exists [ie]. split; [|by exists ie]. exists a.
  split_and!; [done..|cbn; apply lookup_insert_eq| |by rewrite Nat.add_0_r].
  rewrite app_nil_r, stop_lines_printed. change (stop_lines w1 ++ [] = stop_lines w). by rewrite app_nil_r.
Qed.

Lemma still_logger ev : still (logger ev).
Proof. unfold logger. apply still_bind; [|intros ?; still]. destruct (ev_type ev); still. Qed.

(** The bus after one more event. *)
Definition bus_told d : Bus := mk_EventDispatcher (ed_subscriptions d) (ed_nextId d) (add 1 (ed_publishedCount d)).

Lemma tells_publish d ev :
  ed_subscriptions d = main_subs ->
  tells (publish d ev) (fun d' recs => d' = bus_told d /\ exists ie, recs = [ie] /\ nv_base ie = ev).
Proof.
  intros Hd. unfold publish. cbn [ed_subscriptions]. rewrite Hd.
  cbn [deliver main_subs sub_matches sub_filter sub_handler].
  eapply (tells_bind _ _ (fun _ recs => exists ie, recs = [ie] /\ nv_base ie = ev)).
  - eapply tells_bind; [apply tells_handler|]. intros ? recs Hrecs.
    apply tells_then; [apply still_logger|]. intros ?. apply tells_ret. rewrite app_nil_r. exact Hrecs.
  - intros ? recs Hrecs. apply tells_ret. rewrite app_nil_r. split; [|exact Hrecs]. unfold bus_told. by rewrite Hd.
Qed.

End Growth.

(** ** A pass of the loop *)

(** The event of an exit, by its type.  Which way a port access went is read
    from the run page after the handler has written to it. *)
Definition event_of_exit (x : exit_record) (ie : IntrospectionEvent) : Prop :=
  match x_reason x, ev_type (nv_base ie) with
  | Io, (IoRead | IoWrite) | Mmio, MemAccess | Hlt, GuestHalt | Shutdown, GuestShutdown
  | InternalError, CpuidAccess => True
  | _, _ => False
  end.

Definition events_of_exits (xs : list exit_record) (recs : list IntrospectionEvent) : Prop :=
  Forall2 event_of_exit (List.filter is_published xs) recs.

Section Passes.

Context {K : Type} `{Kernel K}.
Abbreviation Env := (VmiEnv K MainEnv).
Abbreviation Bus := (EventDispatcher K Env).
Abbreviation Trapper := (InstructionTrapper K Env).
Abbreviation Records := (list IntrospectionEvent).
Abbreviation still := (still (K := K)).
Implicit Types (w : World K Env) (d : Bus) (t : Trapper) (recs : Records).

(** A trapper with the wiring of the demo's. *)
Definition main_like t : Prop :=
  exists v d, ed_subscriptions d = main_subs /\ same_wiring (main_trapper v d) t.

Lemma same_wiring_trans t1 t2 t3 : same_wiring t1 t2 -> same_wiring t2 t3 -> same_wiring t1 t3.
Proof. intros (?&?&?&?&?&?&?) (?&?&?&?&?&?&?). unfold same_wiring. split_and!; congruence. Qed.

Lemma main_like_wiring t t' : same_wiring t t' -> main_like t -> main_like t'.
Proof. intros Ht (v & d & Hd & Hw). exists v, d. split; [done|]. by eapply same_wiring_trans. Qed.

Lemma bump_wiring t : same_wiring t (bump_exit t).
Proof. by split_and!. Qed.

Lemma like_bus t : main_like t -> exists d, it_dispatch t = Some d /\ ed_subscriptions d = main_subs.
Proof.
  intros (v & d & Hd & (_ & _ & _ & _ & _ & _ & Hw)). destruct (it_dispatch t) as [d'|]; [|done].
  exists d'. cbn in Hw. split; [done|congruence].
Qed.

(** *** The callbacks and the handlers *)

Lemma still_leaf leaf cb a b : cp_leafCallbacks main_cpuid !! leaf = Some cb -> still (cb a b).
Proof. intros [_ ->]%main_leaf. unfold leaf1_callback. still. Qed.

Lemma still_in port cb ctx : io_inCallbacks main_io !! port = Some cb -> still (cb ctx).
Proof. intros [_ ->]%main_in. unfold keyboard_callback. still. Qed.

Lemma still_read addr cb ctx : mm_readCallbacks main_mmio !! addr = Some cb -> still (cb ctx).
Proof. intros [[_ ->]|[_ ->]]%main_read; unfold status_callback, magic_callback; still. Qed.

Lemma still_write addr cb ctx : mm_writeCallbacks main_mmio !! addr = Some cb -> still (cb ctx).
Proof. intros [_ ->]%main_write. unfold input_callback. still. Qed.

Lemma still_call_cpuid t : main_like t -> still (call_cpuid t).
Proof.
  intros (v & d & _ & (_ & Hw & _)). unfold call_cpuid, CpuidHandler_handle.
  destruct (it_cpuid t) as [c|]; [|still]. cbn in Hw. injection Hw as Hw.
  apply still_bind; [|intros [b c']; still]. apply still_bind; [still|]. intros [regs|ec]; [|still].
  apply still_bind; [|intros ?; still]. unfold run_leaf. rewrite Hw. destruct (_ !! _) eqn:Hl; [|still].
  apply still_bind; [by eapply still_leaf|]. still.
Qed.

Lemma still_call_io t : main_like t -> still (call_io t).
Proof.
  intros (v & d & _ & (_ & _ & Hi & Ho & _)). unfold call_io, IoPortHandler_handle.
  destruct (it_io t) as [i|]; [|still]. cbn in Hi, Ho. injection Hi as Hi. injection Ho as Ho.
  apply still_bind; [|intros [b i']; still]. apply still_bind; [still|]. intros page. destruct (_ =? _).
  - apply still_bind; [still|]. intros data. apply still_bind; [|intros ?; still].
    unfold run_out. rewrite Ho. cbn. rewrite lookup_empty. still.
  - apply still_bind; [|intros ?; still]. unfold run_in. rewrite Hi. destruct (_ !! _) eqn:Hl; [|still].
    apply still_bind; [by eapply still_in|]. still.
Qed.

Lemma still_call_mmio t : main_like t -> still (call_mmio t).
Proof.
  intros (v & d & _ & (_ & _ & _ & _ & Hr & Hw & _)). unfold call_mmio, MmioHandler_handle.
  destruct (it_mmio t) as [m|]; [|still]. cbn in Hr, Hw. injection Hr as Hr. injection Hw as Hw.
  apply still_bind; [|intros [b m']; still]. apply still_bind; [still|]. intros page.
  destruct (_ || _); [still|]. destruct (negb _).
  - apply still_bind; [still|]. intros data. apply still_bind; [|intros ?; still].
    unfold run_mmio_write. rewrite Hw. destruct (_ !! _) eqn:Hl; [by eapply still_write|still].
  - apply still_bind; [|intros ?; still]. unfold run_mmio_read. rewrite Hr.
    destruct (_ !! _) eqn:Hl; [|still]. apply still_bind; [by eapply still_read|]. still.
Qed.

Lemma still_handler (c : Trapper -> M (World K Env) (bool * Trapper)) t :
  c ∈ [call_cpuid; call_io; call_mmio] -> main_like t -> still (c t).
Proof.
  intros Hc Ht. apply list_elem_of_In in Hc as [<-|[<-|[<-|[]]]];
    [by apply still_call_cpuid|by apply still_call_io|by apply still_call_mmio].
Qed.

Lemma still_rip t : still (event_rip t).
Proof. unfold event_rip. still. Qed.

(** *** The publications *)

(** [p] publishes one event, of one of the types [types]. *)
Definition announces (p : Trapper -> M (World K Env) Trapper) (types : list EventType) : Prop :=
  forall t, main_like t -> tells (p t) (fun _ recs => exists ie, recs = [ie] /\ ev_type (nv_base ie) ∈ types).

Lemma tells_publish_to t d ev (types : list EventType) :
  ed_subscriptions d = main_subs -> ev_type ev ∈ types ->
  tells (publish_to t d ev) (fun _ recs => exists ie, recs = [ie] /\ ev_type (nv_base ie) ∈ types).
Proof.
  intros Hd Hev. eapply tells_bind; [by apply tells_publish|]. intros d' recs [_ (ie & -> & <-)].
  apply tells_ret. by exists ie.
Qed.

Ltac announced :=
  intros t Ht; destruct (like_bus t Ht) as (d & Hd & Hs); rewrite Hd;
  repeat (apply tells_then; [first [apply still_rip|solve [still]]|intros ?]);
  apply tells_publish_to; [exact Hs|cbn [ev_type]].

Lemma announces_halt : announces publish_halt [GuestHalt].
Proof. unfold publish_halt, announces. announced. set_solver. Qed.

Lemma announces_shutdown : announces publish_shutdown [GuestShutdown].
Proof. unfold publish_shutdown, announces. announced. set_solver. Qed.

Lemma announces_io : announces publish_io [IoRead; IoWrite].
Proof. unfold publish_io, announces. announced. destruct (ie_isWrite _); set_solver. Qed.

Lemma announces_mmio : announces publish_mmio [MemAccess].
Proof. unfold publish_mmio, announces. announced. set_solver. Qed.

Lemma announces_cpuid : announces publish_cpuid [CpuidAccess].
Proof. unfold publish_cpuid, announces. announced. set_solver. Qed.

(** *** The dispatch *)

(** The records go with the exit, if it was served. *)
Definition tells_exit (reason : ExitReason) (p : RunResult * Trapper) recs : Prop :=
  forall page, events_of_exits [mk_exit_record reason page p.1] recs.

(** An event that is published says how the pass ends. *)
Lemma tells_verdict reason types r (p : Trapper -> M (World K Env) Trapper) t :
  announces p types -> main_like t -> r <> RError ->
  (forall ie, ev_type (nv_base ie) ∈ types -> forall page,
     events_of_exits [mk_exit_record reason page r] [ie]) ->
  tells (let* t' := p t in ret (r, t')) (tells_exit reason).
Proof.
  intros Hp Ht Hr He. eapply tells_bind; [by apply Hp|]. intros t' recs (ie & -> & Hie).
  apply tells_ret. intros page. by apply He.
Qed.

(** A handler that fails the exit keeps it from being published. *)
Lemma tells_served reason (c : Trapper -> M (World K Env) (bool * Trapper)) t k :
  c ∈ [call_cpuid; call_io; call_mmio] -> main_like t ->
  (forall t', main_like t' -> tells (k t') (tells_exit reason)) ->
  tells (let* (ok, t1) := c t in if negb ok then ret (RError, t1) else k t1) (tells_exit reason).
Proof.
  intros Hc Ht Hk. apply tells_known with (X := fun p => main_like p.2).
  - by apply still_handler.
  - intros w [b t1] w' Hr. cbn. eapply main_like_wiring; [by eapply call_wiring|done].
  - intros [[] t1] Ht1; [by apply Hk|]. apply tells_ret. intros page. constructor.
Qed.

Lemma tells_dispatch t reason : main_like t -> tells (dispatchExit t reason) (tells_exit reason).
Proof.
  intros Ht. assert (forall r, is_published (mk_exit_record reason [] r) = false ->
    tells (ret (r, t) : M (World K Env) _) (tells_exit reason)) as Hn.
  { intros r Hr. apply tells_ret. intros page. unfold events_of_exits. cbn [List.filter fst].
    change (is_published (mk_exit_record reason page r)) with (is_published (mk_exit_record reason [] r)).
    rewrite Hr. constructor. }
  destruct reason; cbn [dispatchExit]; try by apply Hn.
  - apply tells_then; [still|]. intros page. destruct (_ =? 0); [|by apply Hn].
    apply (tells_served _ call_cpuid); [set_solver|done|]. intros t1 _. by apply tells_ret; constructor.
  - apply (tells_served _ call_io); [set_solver|done|]. intros t1 Ht1.
    eapply tells_verdict; [apply announces_io|done..|]. intros ie Hie page. constructor; [|constructor].
    unfold event_of_exit. cbn. by apply list_elem_of_In in Hie as [<-|[<-|[]]].
  - eapply tells_verdict; [apply announces_halt|done..|]. intros ie Hie page. constructor; [|constructor].
    unfold event_of_exit. cbn. by apply list_elem_of_In in Hie as [<-|[]].
  - apply (tells_served _ call_mmio); [set_solver|done|]. intros t1 Ht1.
    eapply tells_verdict; [apply announces_mmio|done..|]. intros ie Hie page. constructor; [|constructor].
    unfold event_of_exit. cbn. by apply list_elem_of_In in Hie as [<-|[]].
  - eapply tells_verdict; [apply announces_shutdown|done..|]. intros ie Hie page. constructor; [|constructor].
    unfold event_of_exit. cbn. by apply list_elem_of_In in Hie as [<-|[]].
  - apply tells_then; [still|]. intros page.
    destruct (_ =? KVM_INTERNAL_ERROR_EMULATION); [|by apply Hn].
    apply (tells_served _ call_cpuid); [set_solver|done|]. intros t1 Ht1.
    eapply tells_verdict; [apply announces_cpuid|done..|]. intros ie Hie page0. constructor; [|constructor].
    unfold event_of_exit. cbn. by apply list_elem_of_In in Hie as [<-|[]].
Qed.

End Passes.

(** ** The runs of the guest *)

(** The runs [i], [i+1], ... of the program, each told as the exits it took: it
    is set up, the loop takes the exits, and the guest has halted or shut down. *)
Inductive series {K} `{Kernel K} (vm : VirtualMachine) (s : VmSnapShot) :
  nat -> list (list exit_record) ->
  InstructionTrapper K (VmiEnv K MainEnv) * World K (VmiEnv K MainEnv) ->
  InstructionTrapper K (VmiEnv K MainEnv) * World K (VmiEnv K MainEnv) -> Prop :=
| series_end i c : series vm s i [] c c
| series_run i t w w1 xs r t1 w2 w3 rest c :
    begin_run i vm s w = Ok (tt, w1) ->
    looped xs (t, w1) r (t1, w2) -> r = Halt \/ r = RShutdown ->
    print_result r (printed (exits_line (exitCount t1)) w2) = Ok (tt, w3) ->
    series vm s (S i) rest (t1, w3) c ->
    series vm s i (xs :: rest) (t, w) c.

(** The counts that are printed, from the count [n] on: one per run. *)
Fixpoint running_totals (n : Z) (runs : list (list exit_record)) : list Z :=
  match runs with
  | [] => []
  | xs :: rest => add (Z.of_nat (length xs)) n :: running_totals (add (Z.of_nat (length xs)) n) rest
  end.

Section Runs.

Context {K : Type} `{Kernel K}.
Abbreviation Env := (VmiEnv K MainEnv).
Abbreviation Bus := (EventDispatcher K Env).
Abbreviation Trapper := (InstructionTrapper K Env).
Abbreviation Records := (list IntrospectionEvent).
Abbreviation still := (still (K := K)).
Implicit Types (w : World K Env) (d : Bus) (t : Trapper) (recs : Records).

Lemma grew_run v w e w' : has_agent w -> VCpu_run v w = Ok (e, w') -> grew w w' 1 [] [].
Proof.
  intros (a & Ha & Hw) Hr. unfold VCpu_run in Hr. apply bind_inv in Hr as (r & w1 & E1 & Hr).
  assert (grew w w1 1 [] []) as Hg.
  { unfold ioctl_run in E1. destruct (k_run _ _ _) as [x m]. injection E1 as _ <-. exists a.
    rewrite set_log_id, app_nil_r. split_and!; try done.
    change (runs_in (h_trace (w_host w) ++ [Sys_ioctl (vc_fd v) KVM_RUN]) = (kvm_runs w + 1)%nat).
    by rewrite runs_snoc. }
  eapply (grew_trans _ _ _ 1 0 [] [] [] []); [exact Hg|].
  eapply grew_still; [|by eapply grew_agent|exact Hr]. still.
Qed.

Lemma grew_exit t w x t' w' :
  main_like t -> has_agent w -> exit_of t w x t' w' ->
  main_like t' /\ exists recs, grew w w' 1 [] recs /\ events_of_exits [x] recs.
Proof.
  intros Ht Hw (w1 & Hr & Hp & Hd). apply grew_run in Hr; [|done].
  assert (main_like (bump_exit t)) as Hb by (by eapply main_like_wiring; [apply bump_wiring|]).
  split; [by eapply main_like_wiring; [by eapply dispatch_wiring|]|].
  apply (tells_dispatch _ _ Hb) in Hd as (recs & Hg & He); [|by eapply grew_agent].
  exists recs. split; [apply (grew_trans _ _ _ _ _ _ _ _ _ Hr Hg)|]. destruct x. apply He.
Qed.

Lemma events_app xs ys recs recs' :
  events_of_exits xs recs -> events_of_exits ys recs' -> events_of_exits (xs ++ ys) (recs ++ recs').
Proof. unfold events_of_exits. rewrite List.filter_app. apply Forall2_app. Qed.

(** A run of the loop that ends with an exit calls KVM_RUN once per exit. *)
Lemma grew_looped xs c r c' :
  looped xs c r c' -> main_like c.1 -> has_agent c.2 -> r <> RError ->
  main_like c'.1 /\ exists recs, grew c.2 c'.2 (length xs) [] recs /\ events_of_exits xs recs.
Proof.
  induction 1 as [[t w]|t w ec w1 Hr|t w x t1 w1 Hx Hn|t w x t1 w1 xs r [t2 w2] Hx Hc Hl IH];
    cbn [fst snd] in *; intros Ht Hw Hok.
  - split; [done|]. exists []. split; [by apply grew_refl|constructor].
  - done.
  - by eapply grew_exit.
  - apply grew_exit in Hx as (Ht1 & recs & Hg & He); [|done..].
    destruct IH as (Ht2 & recs' & Hg' & He'); [done|by eapply grew_agent|done|]. split; [done|].
    exists (recs ++ recs'). split; [apply (grew_trans _ _ _ _ _ _ _ _ _ Hg Hg')|by apply (events_app [x])].
Qed.

(** *** Around the loop *)

Lemma still_takeSnapShot vm : still (takeSnapShot vm).
Proof.
  assert (forall rs, still (snapshot_regions rs)) as Hr by (induction rs; cbn [snapshot_regions]; still).
  unfold takeSnapShot. pose proof (Hr (vm_memoryRegions vm)). still.
Qed.

Lemma still_restoreSnapshot vm s : still (restoreSnapshot vm s).
Proof.
  assert (forall rs saved, still (restore_regions rs saved)) as Hr
    by (induction rs; intros []; cbn [restore_regions]; still).
  unfold restoreSnapshot. still.
Qed.

Lemma still_begin_run i vm s : still (begin_run i vm s).
Proof.
  unfold begin_run. apply still_bind; [|intros ?; still]. destruct (0 <? i)%nat; [|still].
  apply still_bind; [apply still_restoreSnapshot|]. still.
Qed.

Lemma still_print_result r : still (print_result r).
Proof. unfold print_result. still. Qed.

(** What a series of runs adds: the calls, one line per run, the records; and
    the trapper's counters. *)
Lemma grew_series vm s i runs c c' :
  series vm s i runs c c' -> main_like c.1 -> counters_ok c.1 -> has_agent c.2 ->
  c'.1 = tally (concat runs) c.1 /\
  exists recs, grew c.2 c'.2 (length (concat runs)) (map exits_line (running_totals (it_exitCount c.1) runs)) recs /\
    events_of_exits (concat runs) recs.
Proof.
  induction 1 as [i [t w]|i t w w1 xs r t1 w2 w3 rest [t' w'] Hb Hl Hr Hp Hs IH]; cbn [fst snd] in *; intros Ht Hc Hw.
  { split; [by rewrite tally_nil|]. exists []. split; [by apply grew_refl|constructor]. }
  apply (grew_still _ _ _ _ (still_begin_run i vm s) Hw) in Hb.
  pose proof (looped_tally _ _ _ _ Hl Hc) as Ht1. cbn [fst] in Ht1.
  apply grew_looped in Hl as (Hm1 & recs & Hg & He); cbn [fst snd] in *;
    [|done|by eapply grew_agent|by destruct Hr as [->| ->]].
  pose proof (grew_line w2 (exitCount t1) (grew_agent _ _ _ _ _ Hg)) as Hln.
  apply (grew_still _ _ _ _ (still_print_result r) (grew_agent _ _ _ _ _ Hln)) in Hp.
  destruct IH as (-> & recs' & Hg' & He'); [done|rewrite Ht1; apply tally_ok|by eapply grew_agent|].
  split; [by rewrite Ht1, tally_app|]. exists (recs ++ recs'). split; [|by apply events_app].
  pose proof (grew_trans _ _ _ _ _ _ _ _ _ Hb (grew_trans _ _ _ _ _ _ _ _ _ Hg
    (grew_trans _ _ _ _ _ _ _ _ _ Hln (grew_trans _ _ _ _ _ _ _ _ _ Hp Hg')))) as Hall.
  cbn [concat running_totals map app Nat.add] in *. rewrite length_app. unfold exitCount in Hall.
  rewrite Ht1 in Hall. exact Hall.
Qed.

(** The fuzzing loop is such a series. *)
Lemma fuzz_loop_series fuel left i vm s t w t' w' :
  Z.of_nat fuel < 2 ^ 64 ->
  fuzz_loop fuel left i vm s t w = Ok ((Some None, t'), w') ->
  exists runs, length runs = left /\ series vm s i runs (t, w) (t', w').
Proof.
  intros Hf. revert i t w. induction left as [|left IH]; intros i t w; cbn [fuzz_loop].
  { intros [= <- <-]. exists []. split; [done|constructor]. }
  intros Hrun. apply bind_inv in Hrun as ([] & w1 & E1 & Hrun).
  apply bind_inv in Hrun as ([res t1] & w2 & E2 & Hrun). destruct res as [r|]; [|done].
  apply loop_looped in E2 as (xs & Hx & _ & Hc); [|lia..|by left].
  destruct r; [by destruct (Hc eq_refl)| | |];
    apply bind_inv in Hrun as ([] & w3 & E3 & Hrun); apply bind_inv in Hrun as ([] & w4 & E4 & Hrun);
    injection E3 as <-; try done;
    destruct (IH _ _ _ Hrun) as (runs & Hlen & Hs); exists (xs :: runs); (split; [cbn; lia|]);
    (eapply series_run; [exact E1|exact Hx|auto|exact E4|exact Hs]).
Qed.

End Runs.

(** ** The whole program *)

(** A record of the events that tell the CPUID table. *)
Definition table_record (leaf : Z) (ie : IntrospectionEvent) : Prop :=
  exists r now, nv_base ie = table_event (masked_entry (host_entry leaf r)) now.

Section Program.

Context {K : Type} `{Kernel K}.
Abbreviation Env := (VmiEnv K MainEnv).
Abbreviation Bus := (EventDispatcher K Env).
Abbreviation Trapper := (InstructionTrapper K Env).
Abbreviation Records := (list IntrospectionEvent).
Abbreviation still := (still (K := K)).
Implicit Types (w : World K Env) (d : Bus) (t : Trapper) (recs : Records).

Lemma tells_table leaves entries d :
  ed_subscriptions d = main_subs -> is_u64 (ed_publishedCount d) ->
  tells (build_table leaves entries d) (fun p recs =>
    ed_subscriptions p.2 = main_subs /\
    ed_publishedCount p.2 = add (Z.of_nat (length leaves)) (ed_publishedCount d) /\
    Forall2 table_record leaves recs).
Proof.
  revert entries d. induction leaves as [|leaf leaves IH]; intros entries d Hd Hc; cbn [build_table].
  { apply tells_ret. split_and!; [done|by rewrite add_0|constructor]. }
  apply tells_then; [still|]. intros r. apply tells_then; [still|]. intros ?.
  apply tells_then; [still|]. intros now.
  eapply tells_bind; [by apply tells_publish|]. intros d' recs [-> (ie & -> & Hie)].
  eapply tells_conseq; [apply IH; [done|apply u64_range]|]. intros p recs (Hs & Hn & Hf). split_and!; [done| |].
  - rewrite Hn. cbn [bus_told ed_publishedCount]. rewrite add_add. f_equal. cbn [length]. lia.
  - constructor; [by exists r, now|done].
Qed.

Lemma main_trapper_counters v d : is_u64 (ed_publishedCount d) -> counters_ok (main_trapper v d).
Proof. intros Hd. split; [done|..]; intros ? [= <-]; done. Qed.

Lemma main_trapper_like v d : ed_subscriptions d = main_subs -> main_like (main_trapper v d).
Proof. intros Hd. exists v, d. by split_and!. Qed.

Lemma destroy_agent_host (ds : gmap Z Bus) w ds' w' :
  VmiAgent_destroy agent_ptr ds w = Ok (ds', w') -> w_host w' = w_host w.
Proof.
  unfold VmiAgent_destroy, dispatcher_at, agent_at, free_agent, bind. intros Hd.
  repeat (case_match; try discriminate); simplify_eq/=; unfold ret, fail in *; simplify_eq/=; done.
Qed.

Definition printed_totals (xss : list (list exit_record)) : list Z :=
  running_totals 0 xss ++ [u64 (Z.of_nat (length (concat xss)))].

(** What is known when the program has ended with exit code 0. *)
Definition accounted (opened : bool) (log : option string) w w' : Prop :=
  exists vm s v d w0 w1 runs table recs,
    length runs = 3%nat /\
    series vm s 0 runs (main_trapper v d, w0) (tally (concat runs) (main_trapper v d), w1) /\
    kvm_runs w' = (kvm_runs w + length (concat runs))%nat /\
    stop_lines w' = stop_lines w ++ map exits_line (printed_totals runs) /\
    Forall2 table_record cpuid_leaves table /\ events_of_exits (concat runs) recs /\
    log = log_text opened (table ++ recs) /\
    last (h_out (w_host w')) = Some (total_line (length (table ++ recs))).

(** The totals, the log and the end of the scope. *)
Lemma end_accounts opened t d w0 w n ls recs log w' :
  grew w0 w n ls recs -> ve_agents (w_env w0) !! agent_ptr = Some main_agent ->
  main_end opened t d w = Ok (Some (0, log), w') ->
  kvm_runs w' = (kvm_runs w0 + n)%nat /\ stop_lines w' = stop_lines w0 ++ ls ++ [exits_line (exitCount t)] /\
  log = log_text opened recs /\
  last (h_out (w_host w')) = Some (line ("[+] Total events dispatched: " <+ dec (publishedCount d))).
Proof.
  intros (a & Ha & Hw & Ha2 & Hs & Hn) H0 Hrun. rewrite H0 in Ha. injection Ha as <-. unfold main_end in Hrun.
  rewrite printed_last in Hrun. apply bind_inv in Hrun as (a' & w1 & E1 & Hrun).
  unfold agent_at in E1. cbn [w_env printed on_host] in E1. rewrite Ha2 in E1. injection E1 as <- <-.
  rewrite !printed_last in Hrun. apply bind_inv in Hrun as (ds & w1 & E1 & Hrun).
  apply destroy_agent_host in E1. injection Hrun as <- <-. unfold kvm_runs, stop_lines. rewrite E1. split_and!.
  - exact Hn.
  - match goal with |- List.filter is_stop (h_out (w_host ?x)) = _ => change (stop_lines x = stop_lines w0 ++ ls ++ [exits_line (exitCount t)]) end.
    rewrite !stop_lines_printed, exits_line_is_stop, Hs, <-!app_assoc. reflexivity.
  - done.
  - cbn [printed on_host w_host log_out h_out]. by rewrite last_snoc.
Qed.

Lemma published_events exits recs :
  events_of_exits exits recs -> count is_published exits = Z.of_nat (length recs).
Proof. intros Hf. apply Forall2_length in Hf. unfold count. by rewrite Hf. Qed.

(** The runs and what follows them. *)
Lemma runs_account fuel opened vm v s d w0 w table log w' :
  Z.of_nat fuel < 2 ^ 64 -> ed_subscriptions d = main_subs ->
  ed_publishedCount d = u64 (Z.of_nat (length table)) -> Forall2 table_record cpuid_leaves table ->
  ve_agents (w_env w0) !! agent_ptr = Some main_agent -> grew w0 w 0 [] table ->
  (let* (code, trapper') := fuzz_loop fuel 3 0 vm s (main_trapper v d) in
   let d := default EventDispatcher_new (it_dispatch trapper') in
   match code with
   | None => ret None
   | Some (Some c) => VmiAgent_destroy agent_ptr {[dispatcher_ptr := d]} ;;; ret (Some (c, None))
   | Some None => main_end opened trapper' d
   end) w = Ok (Some (0, log), w') ->
  accounted opened log w0 w'.
Proof.
  intros Hf Hd Hc Ht Ha Hg Hrun. apply bind_inv in Hrun as ([code t'] & w6 & E6 & Hrun).
  destruct code as [[c|]|]; [|..|done].
  { apply fuzz_loop_code in E6 as ->. by apply bind_inv in Hrun as (? & ? & _ & Hrun). }
  apply (fuzz_loop_series _ _ _ _ _ _ _ _ _ Hf) in E6 as (runs & Hlen & Hser).
  assert (is_u64 (ed_publishedCount d)) as Hu by (rewrite Hc; apply u64_range).
  pose proof (grew_series _ _ _ _ _ _ Hser (main_trapper_like v d Hd) (main_trapper_counters v d Hu)
    (grew_agent _ _ _ _ _ Hg)) as (Ht' & recs & G6 & He). cbn [fst snd] in Ht', G6. subst t'.
  pose proof (grew_trans _ _ _ _ _ _ _ _ _ Hg G6) as Hall. cbn [app Nat.add] in Hall.
  apply (end_accounts _ _ _ _ _ _ _ _ _ _ Hall Ha) in Hrun as (Hn' & Hs' & Hlog & Hlast).
  exists vm, s, v, d, w, w6, runs, table, recs. split_and!; try done.
  { rewrite Hs'. unfold printed_totals. by rewrite map_app. }
  rewrite Hlast. unfold total_line, publishedCount. cbn [tally main_trapper InstructionTrapper_new it_dispatch].
  cbn [fmap option_fmap option_map default Datatypes.id bus_tally ed_publishedCount].
  rewrite Hc, (published_events _ _ He), length_app, Nat2Z.inj_add. unfold add, u64.
  by rewrite Zplus_mod_idemp_l.
Qed.

Lemma accounted_before opened log w w0 w' :
  stop_lines w0 = stop_lines w -> kvm_runs w0 = kvm_runs w -> accounted opened log w0 w' -> accounted opened log w w'.
Proof. unfold accounted. by intros -> ->. Qed.

Lemma accounted_after {A} opened log (m : M (World K Env) A) w w1 a w' :
  still m -> silent m -> m w1 = Ok (a, w') -> accounted opened log w w1 -> accounted opened log w w'.
Proof.
  intros Hst Hsi Hm. destruct (Hst _ _ _ Hm) as (_ & Hs & Hn). destruct (Hsi _ _ _ Hm) as [_ Ho].
  unfold accounted. by rewrite Hs, Hn, Ho.
Qed.

Lemma wired_accounts fuel opened w log w' :
  Z.of_nat fuel < 2 ^ 64 -> main_wired fuel opened w = Ok (Some (0, log), w') -> accounted opened log w w'.
Proof.
  intros Hf Hrun. unfold main_wired in Hrun.
  apply bind_inv in Hrun as (vm & w1 & E1 & Hrun). apply still_vm_at in E1 as (_ & Hs1 & Hn1).
  apply bind_inv in Hrun as (v & w2 & E2 & Hrun). apply still_vcpu_at in E2 as (_ & Hs2 & Hn2).
  rewrite wiring in Hrun. unfold dispatcher_at in Hrun. rewrite lookup_singleton_eq, bind_ret_l in Hrun.
  set (bus := snd (subscribeAll logger agent_bus)).
  change (subscribeAll logger agent_bus) with (2, bus) in Hrun. cbn iota beta in Hrun.
  assert (ve_agents (w_env (with_agent w2)) !! agent_ptr = Some main_agent) as Ha by apply lookup_insert_eq.
  assert (has_agent (with_agent w2)) as Hw by (by exists main_agent).
  assert (accounted opened log (with_agent w2) w') as Hacc.
  2: { apply (accounted_before _ _ w) in Hacc; [done| |]; [by rewrite <-Hs1, <-Hs2|by rewrite <-Hn1, <-Hn2]. }
  set (w0 := with_agent w2) in *. clearbody w0. clear Hs1 Hn1 Hs2 Hn2 w1 w2.
  apply bind_inv in Hrun as ([entries d] & w1 & E1 & Hrun).
  apply (tells_table _ _ bus eq_refl (u64_range 0)) in E1 as (table & G1 & Hd & Hc & Ht); [|done]. cbn [snd] in Hd, Hc.
  apply bind_inv in Hrun as (ec & w2 & E2 & Hrun).
  apply (grew_still _ _ _ _ (still_installCpuid _ _) (grew_agent _ _ _ _ _ G1)) in E2 as G2.
  destruct (ec_failed ec).
  { apply bind_inv in Hrun as (? & ? & _ & Hrun). apply bind_inv in Hrun as (? & ? & _ & Hrun). done. }
  apply bind_inv in Hrun as (? & w3 & E3 & Hrun).
  pose proof (grew_print _ _ _ _ E3 eq_refl (grew_agent _ _ _ _ _ G2)) as G3.
  apply bind_inv in Hrun as (snapshot & w4 & E4 & Hrun).
  apply (grew_still _ _ _ _ (still_takeSnapShot _) (grew_agent _ _ _ _ _ G3)) in E4 as G4.
  apply bind_inv in Hrun as (? & w5 & E5 & Hrun).
  pose proof (grew_print _ _ _ _ E5 eq_refl (grew_agent _ _ _ _ _ G4)) as G5.
  pose proof (grew_trans _ _ _ _ _ _ _ _ _ G1 (grew_trans _ _ _ _ _ _ _ _ _ G2 (grew_trans _ _ _ _ _ _ _ _ _ G3
    (grew_trans _ _ _ _ _ _ _ _ _ G4 G5)))) as Hall. cbn [app Nat.add] in Hall. rewrite app_nil_r in Hall.
  eapply (runs_account fuel opened vm v snapshot d w0 w5 table); try done.
  rewrite Hc. apply Forall2_length in Ht. by rewrite <-Ht.
Qed.

(** *** Around the wiring *)

Lemma still_open path : still (KvmSystem_open path).
Proof. unfold KvmSystem_open, sys_open, sys_close. still. Qed.

Lemma still_createVm s : still (createVm s).
Proof. unfold createVm. still. Qed.

Lemma still_vm_destroy vm : still (VirtualMachine_destroy vm).
Proof.
  unfold VirtualMachine_destroy, close_vm_fd, sys_close. apply still_bind; [still|]. intros _.
  apply still_bind; intros; apply still_mapM; still.
Qed.

Lemma still_system_destroy s : still (KvmSystem_destroy s).
Proof. unfold KvmSystem_destroy, sys_close. still. Qed.

Lemma still_add_region vm gpa size flags : still (addMemoryRegion vm gpa size flags).
Proof. unfold addMemoryRegion, MemoryRegion_create, MemoryRegion_move, sys_mmap, sys_madvise, sys_munmap. still. Qed.

Lemma still_add_vcpu vm id : still (addVCpu vm id).
Proof. unfold addVCpu, VCpu_create, VCpu_move, sys_mmap, sys_close. still. Qed.

Lemma still_loadBytes ndebug vm code addr size : still (loadBytes ndebug vm code addr size).
Proof.
  unfold loadBytes, MemoryRegion_write, cassert, setupRealModeVCpu.
  pose proof still_add_region. pose proof still_add_vcpu. still.
Qed.

Lemma still_extension s vm :
  still (let* ext := checkExtension s KVM_CAP_EXIT_ON_EMULATION_FAILURE in
         if ext : bool then
           let* ec := enableEmulationExits vm in
           (if ec_failed ec then report "Failed to enable emulation failure exits" ec
            else print (line "[+] Enabled KVM_CAP_EXIT_ON_EMULATION_FAILURE, CPUID will trap to userspace"))
         else
           print (line "[!] KVM_CAP_EXIT_ON_EMULATION_FAILURE not supported, CPUID exits may be handled in-kernel") ;;;
           print (line "    (This may cause CPUID exit counts to be inaccurate and some leaf handlers to not work.)")).
Proof. unfold checkExtension, enableEmulationExits, vm_ioctl. still. Qed.

(** What comes before a part that is accounted for. *)
Lemma accounted_bind {A} opened log (m : M (World K Env) A) k w (r : option (Z * option string)) w' :
  still m -> (forall a w1, k a w1 = Ok (r, w') -> accounted opened log w1 w') ->
  bind m k w = Ok (r, w') -> accounted opened log w w'.
Proof.
  intros Hm Hk Hb. apply bind_inv in Hb as (a & w1 & E1 & Hb). destruct (Hm _ _ _ E1) as (_ & Hs & Hn).
  eapply accounted_before; [exact Hs|exact Hn|]. by eapply Hk.
Qed.

(** A computation that ends the program with exit code 1 accounts for anything. *)
Lemma accounted_failure {A B} opened log ec (m : M (World K Env) A) (m' : M (World K Env) B) w w' :
  bind m (fun _ => bind m' (fun _ => ret (Some (ec, None : option string)))) w = Ok (Some (0, log), w') -> ec <> 0 ->
  accounted opened log w w'.
Proof.
  intros Hb Hec. apply bind_inv in Hb as (? & ? & _ & Hb). apply bind_inv in Hb as (? & ? & _ & Hb).
  by injection Hb as -> _ _.
Qed.

(** A scope whose object is destroyed at its end. *)
Lemma accounted_scope {A} opened log (m : M (World K Env) (option (Z * option string))) (destroy : M (World K Env) A) w w' :
  still destroy -> silent destroy ->
  (forall w1, m w = Ok (Some (0, log), w1) -> accounted opened log w w1) ->
  (let* code := m in match code with None => ret None | Some c => destroy ;;; ret (Some c) end) w
    = Ok (Some (0, log), w') ->
  accounted opened log w w'.
Proof.
  intros Hst Hsi Hm Hb. apply bind_inv in Hb as ([c|] & w1 & E1 & Hb); [|done].
  apply bind_inv in Hb as (? & w2 & E2 & Hb). injection Hb as -> <-.
  eapply accounted_after; [exact Hst|exact Hsi|exact E2|]. by apply Hm.
Qed.

Lemma with_vm_accounts ndebug files fuel opened s vm w log w' :
  Z.of_nat fuel < 2 ^ 64 ->
  main_with_vm ndebug files fuel opened s vm w = Ok (Some (0, log), w') -> accounted opened log w w'.
Proof.
  intros Hf Hrun. unfold main_with_vm in Hrun. apply bind_inv in Hrun as (ext & w0 & E0 & Hrun).
  apply bind_inv in Hrun as (u & w1 & E1 & Hrun).
  destruct (still_extension s vm w u w1) as (_ & Hs & Hn); [unfold bind at 1; rewrite E0; exact E1|].
  apply (accounted_before _ _ _ _ _ Hs Hn). clear E0 E1 Hs Hn.
  destruct (readFile files "simpleGuest.bin") as [|b bytes]; [by eapply accounted_failure|].
  revert Hrun. apply accounted_bind; [apply still_loadBytes|]. intros [ec vm'] w2.
  apply accounted_bind; [still|]. intros _ w3. destruct (ec_failed ec); [by eauto using accounted_failure|].
  apply accounted_bind; [still|]. intros _ w4.
  apply accounted_scope; [apply still_vm_destroy|apply silent_vm_destroy|]. intros w5. by apply wired_accounts.
Qed.

End Program.

(** C12. The program's account of itself is true.  When [main] ends with exit code
    0, the guest was run three times, each run a sequence of exits that the loop
    continued after and a last one at which the guest halted or shut down; with
    these sequences of [n1], [n2] and [n3] exits, and modulo 2^64 where numbers
    are printed: KVM_RUN was called exactly once per exit; the lines that count
    exits say [n1], [n1 + n2], [n1 + n2 + n3] (the count is not reset between the
    runs) and, at the end, the total again; the trapper and its handlers have
    counted these exits; the agent's log holds a record per leaf of the CPUID
    table, then a record per published exit of all three runs, in order and of
    the exit's type, and nothing else; and the number of events printed last is
    the number of these records. *)
Theorem main_account {K} `{Kernel K} ndebug files fuel opened log (w w' : World K (VmiEnv K MainEnv)) :
  Z.of_nat fuel < 2 ^ 64 ->
  main ndebug files fuel opened w = Ok (Some (0, log), w') ->
  exists vm s v d w0 w1 xs1 xs2 xs3 table recs,
    let exits := xs1 ++ xs2 ++ xs3 in
    let n1 := Z.of_nat (length xs1) in
    let n2 := Z.of_nat (length xs2) in
    let n3 := Z.of_nat (length xs3) in
    series vm s 0 [xs1; xs2; xs3] (main_trapper v d, w0) (tally exits (main_trapper v d), w1) /\
    kvm_runs w' = (kvm_runs w + length exits)%nat /\
    stop_lines w' = stop_lines w ++ map (fun n => exits_line (u64 n)) [n1; n1 + n2; n1 + n2 + n3; n1 + n2 + n3] /\
    Forall2 table_record cpuid_leaves table /\ events_of_exits exits recs /\
    log = log_text opened (table ++ recs) /\
    last (h_out (w_host w')) = Some (total_line (length (table ++ recs))).
Proof.
  intros Hf Hrun. unfold main in Hrun. assert (accounted opened log w w') as Hacc.
  { revert Hrun. apply accounted_bind; [apply still_open|]. intros [s|e] w1.
    2: { intros Hrun. by apply bind_inv in Hrun as (? & ? & _ & Hrun). }
    apply accounted_bind; [still|]. intros _ w2. apply accounted_bind; [apply still_createVm|]. intros [vm|e] w3.
    2: { by eauto using accounted_failure. }
    apply accounted_bind; [still|]. intros _ w4.
    apply accounted_scope; [apply still_system_destroy|apply silent_system_destroy|].
    intros w5. by apply with_vm_accounts. }
  destruct Hacc as (vm & s & v & d & w0 & w1 & runs & table & recs & Hlen & Hser & Hn & Hs & Hacc).
  destruct runs as [|xs1 [|xs2 [|xs3 [|]]]]; try done. cbn [concat] in *. rewrite app_nil_r in *.
  exists vm, s, v, d, w0, w1, xs1, xs2, xs3, table, recs. cbn zeta. split; [done|]. split; [done|]. split; [|done].
  rewrite Hs. unfold printed_totals. cbn [running_totals concat map app]. rewrite !add_add, app_nil_r, !length_app.
  unfold add. by rewrite !Nat2Z.inj_add, !Z.add_0_l, !Z.add_assoc.
Qed.

(** The demo with guests that halt at once: three runs of one exit. *)
Definition account_of {T} (o : outcome (option (Z * T) * World SimK (VmiEnv SimK MainEnv)))
  : option (Z * nat * list string) :=
  match o with
  | Ok (Some (c, _), w) => Some (c, kvm_runs w, stop_lines w)
  | _ => None
  end.

Lemma account_of_inv {T} (o : outcome (option (Z * T) * World SimK (VmiEnv SimK MainEnv))) c n ls :
  account_of o = Some (c, n, ls) -> exists log w, o = Ok (Some (c, log), w) /\ kvm_runs w = n /\ stop_lines w = ls.
Proof. destruct o as [[[[c0 log]|] w]|]; [|done..]. cbn. intros [= <- <- <-]. eauto. Qed.

Lemma demo_account :
  account_of (main false demo_file 4 true demo_start) = Some (0, 3%nat, map exits_line [1; 2; 3; 3]).
Proof. vm_compute. reflexivity. Qed.

Lemma main_account_witness :
  exists log w' exits table recs,
    main false demo_file 4 true demo_start = Ok (Some (0, log), w') /\
    length exits = 3%nat /\ length table = 9%nat /\ events_of_exits exits recs /\
    log = log_text true (table ++ recs) /\ stop_lines w' = map exits_line [1; 2; 3; 3].
Proof.
  destruct (account_of_inv _ _ _ _ demo_account) as (log & w' & Hm & Hn & Hs).
  destruct (main_account false demo_file 4 true log demo_start w' eq_refl Hm)
    as (vm & s & v & d & w0 & w1 & xs1 & xs2 & xs3 & table & recs & _ & Hr & _ & Ht & He & Hl & _).
  exists log, w', (xs1 ++ xs2 ++ xs3), table, recs. split; [exact Hm|]. split.
  { rewrite Hn in Hr. exact (eq_sym Hr). }
  split; [exact (eq_sym (Forall2_length _ _ _ Ht))|]. split; [exact He|]. split; [exact Hl|exact Hs].
Defined.
