(* ===== verification/Device.v ===== *)
(** * The demo as a board of devices

    What [main] wires together (trapper, handlers, callbacks, bus and agent) is
    meant to look to the guest like a board: a keyboard port that always
    answers the same scan code, two MMIO registers that can be read and one that
    can be written, and nothing behind every other port and address.  The board
    is a transition system over its state and the I/O it has recorded, labelled
    with what the guest asked and the page it gets back; the program, pass after
    pass of the run loop, refines it. *)

From S2P Require Import Prelude Host SimKvm Resource Memory Vcpu PortIo MmioDev Cpuid Msr Dispatcher Machine Ownership Trapper Progress Events Boot Vmi Main MainSafe Report.
From stdpp Require Import base list gmap gmultiset strings.
From Stdlib Require Import ZArith Lia.
Open Scope Z_scope.
Open Scope hv_scope.

(** ** The board *)

Inductive request :=
| In (port size : Z)
| Out (port size value : Z)
| Read (addr width : Z)
| Write (addr width value : Z).

(** What the guest asks with an exit; [None] for an exit that asks nothing of
    the board. *)
Definition request_of (reason : ExitReason) (page : list Z) : option request :=
  match reason with
  | Io =>
      Some (if io_direction page =? KVM_EXIT_IO_OUT
            then Out (io_port page) (io_size page) (le_decode (io_operand page))
            else In (io_port page) (io_size page))
  | Mmio =>
      if (1 <=? mmio_width page) && (mmio_width page <=? 8) then
        Some (if mmio_is_write page =? 0
              then Read (mmio_phys_addr page) (mmio_width page)
              else Write (mmio_phys_addr page) (mmio_width page) (le_decode (mmio_operand page)))
      else None
  | _ => None
  end.

Record board := mk_board {
  b_state : MmioDeviceState;
  b_log : list (EventType * EventPayload) }.

(** The value on the wires, before it is cut to the width of the access. *)
Definition port_value (port : Z) : Z := if port =? 0x60 then 0x1A else 0xFFFFFFFF.

Definition register_value (s : MmioDeviceState) (addr : Z) : Z :=
  if addr =? k_reg_status then status_value s
  else if addr =? k_reg_magic then 0x4D4D494F
  else 0xFFFFFFFFFFFFFFFF.

(** The state after a request. *)
Definition state_after (q : request) (s : MmioDeviceState) : MmioDeviceState :=
  match q with
  | Write addr _ value =>
      if addr =? k_reg_input then mk_MmioDeviceState value (u64 (write_count s + 1)) else s
  | _ => s
  end.

(** The page the guest gets back. *)
Definition reply (q : request) (s : MmioDeviceState) (page : list Z) : list Z :=
  match q with
  | In port _ => io_deliver page (port_value port)
  | Read addr _ => mmio_deliver page (register_value s addr)
  | _ => page
  end.

(** What is recorded: for an input, the value the guest is going to see. *)
Definition record_of (q : request) (s : MmioDeviceState) : EventType * EventPayload :=
  match q with
  | In port size => (IoRead, PIo (mk_IoEvent port size (port_value port mod 256 ^ Z.min size 4) false))
  | Out port size value => (IoWrite, PIo (mk_IoEvent port size value true))
  | Read addr width =>
      (MemAccess, PMmio (mk_MmioEvent addr width (register_value s addr mod 256 ^ width) false))
  | Write addr width value => (MemAccess, PMmio (mk_MmioEvent addr width value true))
  end.

(** One exit: its reason, the page as the guest left it, the page it gets back. *)
Definition label : Type := ExitReason * list Z * list Z.

Inductive board_step : label -> board -> board -> Prop :=
| board_idle reason page b :
    request_of reason page = None -> board_step (reason, page, page) b b
| board_serve reason page q b :
    request_of reason page = Some q ->
    board_step (reason, page, reply q (b_state b) page) b
      (mk_board (state_after q (b_state b)) (b_log b ++ [record_of q (b_state b)])).

Inductive board_run : list label -> board -> board -> Prop :=
| board_nil b : board_run [] b b
| board_cons l ls b b1 b2 : board_step l b b1 -> board_run ls b1 b2 -> board_run (l :: ls) b b2.

(** ** The program, pass after pass *)

Section Demo.

Context {K : Type} `{Kernel K}.
Abbreviation Env := (VmiEnv K MainEnv).
Implicit Types (w : World K Env) (t : InstructionTrapper K Env) (b : board).

(** Passes that continue, labelled with the page KVM_RUN left and the page at
    the end of the pass. *)
Inductive passes_of : list label -> InstructionTrapper K Env * World K Env ->
                      InstructionTrapper K Env * World K Env -> Prop :=
| passes_nil c : passes_of [] c c
| passes_cons t w reason w1 page t1 w2 page2 ls c :
    VCpu_run (it_vcpu t) w = Ok (Value reason, w1) ->
    page_at (vc_runPage (it_vcpu t)) page w1 ->
    dispatchExit (bump_exit t) reason w1 = Ok ((Continue, t1), w2) ->
    page_at (vc_runPage (it_vcpu t)) page2 w2 ->
    passes_of ls (t1, w2) c ->
    passes_of ((reason, page, page2) :: ls) (t, w) c.

(** The events of the board among those the agent has recorded. *)
Definition io_record (type : EventType) (payload : EventPayload) : option (EventType * EventPayload) :=
  match type with
  | IoRead | IoWrite | MemAccess => Some (type, payload)
  | _ => None
  end.

Definition io_log (log : list IntrospectionEvent) : list (EventType * EventPayload) :=
  omap (fun ie => io_record (ev_type (nv_base ie)) (ev_payload (nv_base ie))) log.

(** The board a world of the demo stands for. *)
Definition board_at w b : Prop :=
  device w = b_state b /\
  exists a, ve_agents (w_env w) !! agent_ptr = Some a /\ agent_wired a /\ io_log (va_eventLog a) = b_log b.

(** The trapper of [main], whatever its counters. *)
Record demo_trapper (v : VCpu) t : Prop := {
  dt_vcpu : it_vcpu t = v;
  dt_cpuid : exists c, it_cpuid t = Some c /\ cp_leafCallbacks c = cp_leafCallbacks (main_cpuid (K := K));
  dt_io : exists i, it_io t = Some i /\ io_inCallbacks i = io_inCallbacks (main_io (K := K)) /\
                    io_outCallbacks i = io_outCallbacks (main_io (K := K));
  dt_mmio : exists m, it_mmio t = Some m /\ main_callbacks m;
  dt_dispatch : exists d, it_dispatch t = Some d /\ ed_subscriptions d = main_subs }.

Lemma demo_trapper_main v d : ed_subscriptions d = main_subs -> demo_trapper v (main_trapper v d).
Proof. intros Hd. split; cbn; eauto. by eexists. Qed.

Lemma board_env w w' b : w_env w' = w_env w -> board_at w b -> board_at w' b.
Proof. intros He. unfold board_at, device. by rewrite He. Qed.

(** The record an event makes on the board. *)
Definition noted (ev : HvEvent) b : board :=
  mk_board (b_state b) (b_log b ++ option_list (io_record (ev_type ev) (ev_payload ev))).

Lemma board_handler ev w w' b :
  board_at w b -> handleHvEvent agent_ptr ev w = Ok (tt, w') -> board_at w' (noted ev b).
Proof.
  intros [Hs (a & Ha & Hw & Hl)] Hh. destruct (handler_wired _ _ _ _ _ Ha Hw Hh) as (ie & snap & w1 & E1 & Hb & ->).
  destruct (silent_snapshotRegisters _ _ _ _ _ E1) as [He _]. split; [unfold device; cbn; by rewrite He|].
  eexists. cbn -[lookup insert]. rewrite He. split; [apply lookup_insert_eq|].
  split; [by destruct Hw as (?&?&?&?&?)|]. cbn [va_eventLog set_log noted b_log].
  unfold io_log in *. rewrite omap_app, Hl. cbn. rewrite Hb. by destruct (io_record _ _).
Qed.

Lemma board_publish d ev w d' w' b :
  ed_subscriptions d = main_subs -> board_at w b -> publish d ev w = Ok (d', w') ->
  ed_subscriptions d' = main_subs /\ board_at w' (noted ev b).
Proof.
  intros Hs Hb Hp. unfold publish in Hp. cbn [ed_subscriptions] in Hp. rewrite Hs in Hp.
  apply bind_inv in Hp as ([] & w1 & E1 & Hp). injection Hp as <- <-. split; [done|].
  cbn [deliver main_subs] in E1. apply bind_inv in E1 as ([] & w2 & E2 & E1).
  cbn [sub_matches sub_filter sub_handler] in E1, E2. pose proof (board_handler ev w w2 b Hb E2) as Hb2.
  change (Ok (tt, printed (logger_line ev) (printed (event_tag (ev_type ev)) w2)) = Ok (tt, w1)) in E1.
  injection E1 as <-. by eapply board_env; [|exact Hb2].
Qed.

End Demo.

(** ** Every pass is a step of the board *)

Section Refinement.

Context {K : Type} `{Kernel K} `{!MmapLaws K} `{!FdLaws K} `{!PageLaws K} `{!RunLaws K}.
Abbreviation Env := (VmiEnv K MainEnv).
Implicit Types (w : World K Env) (t : InstructionTrapper K Env) (b : board).
Context (L : resources) (v : VCpu) (r : MemoryRegion) (vm : VirtualMachine).
Hypothesis Hvm : machine_ok vm v r.

Abbreviation I := (running L v r (wired vm)).
Abbreviation R := (fun _ _ : K => True).
Abbreviation quiet := (quiet I R).
Abbreviation run := (vc_runPage v).

Lemma I_is_steady w w' : I w -> steady w w' -> I w'.
Proof. apply running_steady. Qed.

Hint Resolve I_is_steady : core.

(** What a quiet computation does, once its result is known. *)
Lemma quiet_known {A} (m : M (World K Env) A) w a w' :
  quiet m -> I w -> m w = Ok (a, w') -> I w' /\ h_mem (w_host w') = h_mem (w_host w).
Proof. intros Hm Hw E1. destruct (Hm w Hw) as (? & ? & E2 & ? & ? & _). rewrite E1 in E2. by simplify_eq. Qed.

Lemma quiet_total {A} (m : M (World K Env) A) w :
  quiet m -> I w -> exists a w', m w = Ok (a, w') /\ I w' /\ h_mem (w_host w') = h_mem (w_host w).
Proof. intros Hm Hw. destruct (Hm w Hw) as (a & w' & ? & ? & ? & _). by exists a, w'. Qed.

Lemma demo_io_quiet i :
  io_inCallbacks i = io_inCallbacks (main_io (K := K)) -> io_outCallbacks i = io_outCallbacks (main_io (K := K)) ->
  io_quiet I R i.
Proof.
  intros Hi Ho. unfold io_quiet. rewrite Hi, Ho. by eapply (io_quiet_main R L v r vm).
Qed.

Lemma demo_mmio_quiet m : main_callbacks m -> mmio_quiet I R m.
Proof.
  intros [Hr Hw]. unfold mmio_quiet. rewrite Hr, Hw. by eapply (mmio_quiet_main R L v r vm).
Qed.

Lemma demo_cpuid_quiet c :
  cp_leafCallbacks c = cp_leafCallbacks (main_cpuid (K := K)) -> cpuid_quiet I R c.
Proof. intros Hc. unfold cpuid_quiet. rewrite Hc. by eapply (cpuid_quiet_main R L v r vm). Qed.

(** *** Events *)

Lemma quiet_publish d ev : ed_subscriptions d = main_subs -> quiet (publish d ev).
Proof.
  intros Hd. unfold publish. apply (quiet_bind I R); [|intros []; apply (quiet_ret I R)].
  apply (quiet_deliver I R). by eapply (main_subs_quiet R L v r vm).
Qed.

(** The end of a pass: the clock and RIP are read and an event is published,
    whose record does not depend on them. *)
Lemma event_told t d w b (f : Z -> Z -> HvEvent) ev :
  demo_trapper v t -> it_dispatch t = Some d -> I w -> board_at w b ->
  (forall now ip, ev_type (f now ip) = ev_type ev /\ ev_payload (f now ip) = ev_payload ev) ->
  exists t' w', bind steady_now (fun now => bind (event_rip t) (fun ip => publish_to t d (f now ip))) w = Ok (t', w') /\
    I w' /\ h_mem (w_host w') = h_mem (w_host w) /\ demo_trapper v t' /\ board_at w' (noted ev b).
Proof.
  intros Ht Hd Hw Hb Hf.
  assert (ed_subscriptions d = main_subs) as Hs by (destruct (dt_dispatch _ _ Ht) as (d' & ? & ?); congruence).
  assert (silent (K := K) (E := Env) steady_now) as Hnow by silent.
  assert (silent (K := K) (event_rip t)) as Hrip by silent.
  destruct (quiet_total steady_now w) as (now & w1 & E1 & H1 & M1); [apply (quiet_now I R); eauto|done|].
  destruct (quiet_total (event_rip t) w1) as (ip & w2 & E2 & H2 & M2); [|done|].
  { apply (quiet_bind I R); [apply (quiet_getRegs I R); eauto|]. intros e. apply (quiet_ret I R). }
  destruct (quiet_total (publish d (f now ip)) w2 (quiet_publish d _ Hs) H2) as (d' & w3 & E3 & H3 & M3).
  assert (board_at w2 b) as Hb2.
  { eapply board_env; [|exact Hb]. rewrite (proj1 (Hrip _ _ _ E2)). by apply (Hnow _ _ _ E1). }
  destruct (board_publish d (f now ip) w2 d' w3 b Hs Hb2 E3) as [Hs3 Hb3].
  exists (set_dispatch d' t), w3. rewrite (bind_Ok _ _ _ _ _ E1), (bind_Ok _ _ _ _ _ E2).
  split; [unfold publish_to; by rewrite (bind_Ok _ _ _ _ _ E3)|]. split; [done|]. split; [congruence|]. split.
  - destruct Ht. split; try done. by exists d'.
  - unfold noted in *. by rewrite (proj1 (Hf now ip)), (proj2 (Hf now ip)) in Hb3.
Qed.

(** *** The I/O handler *)

Lemma demo_run_in i port ctx w :
  io_inCallbacks i = io_inCallbacks (main_io (K := K)) -> io_outCallbacks i = io_outCallbacks (main_io (K := K)) ->
  I w -> exists w1, run_in i port ctx w = Ok (port_value port, w1) /\
    I w1 /\ h_mem (w_host w1) = h_mem (w_host w) /\ w_env w1 = w_env w.
Proof.
  intros Hi Ho Hw. pose proof (quiet_run_in I R i port ctx (demo_io_quiet i Hi Ho)) as Hq.
  assert (exists w1, run_in i port ctx w = Ok (port_value port, w1) /\ w_env w1 = w_env w) as (w1 & E1 & He).
  { unfold run_in, port_value. rewrite Hi. cbn [main_io io_inCallbacks registerInPort IoPortHandler_new].
    destruct (Z.eqb_spec port 0x60) as [->|Hne].
    - rewrite lookup_insert_eq. by eexists.
    - rewrite lookup_insert_ne, lookup_empty by done. by eexists. }
  exists w1. destruct (quiet_known _ _ _ _ Hq Hw E1). done.
Qed.

Lemma demo_run_out i port ctx w :
  io_outCallbacks i = io_outCallbacks (main_io (K := K)) -> run_out i port ctx w = Ok (tt, w).
Proof. intros Ho. unfold run_out. rewrite Ho. cbn. by rewrite lookup_empty. Qed.

(** [publish_io] on a page whose data area is in place. *)
Lemma publish_io_page t d page w :
  it_vcpu t = v -> it_dispatch t = Some d -> page_at run page w -> io_data_ok page ->
  let pl := mk_IoEvent (io_port page) (io_size page) (le_decode (io_operand page))
                       (io_direction page =? KVM_EXIT_IO_OUT) in
  publish_io t w =
  bind steady_now (fun now => bind (event_rip t) (fun ip =>
    publish_to t d (mk_HvEvent (if ie_isWrite pl then IoWrite else IoRead) (vc_id v) ip now (PIo pl)))) w.
Proof.
  intros Hv Hd Hp [Hlo Hhi] pl. unfold publish_io. rewrite Hd, Hv.
  rewrite (bind_Ok _ _ _ _ _ (kvm_run_at_ok _ _ _ Hp)).
  pose proof (io_width_range page (proj2 (proj2 Hp))) as Hr. unfold io_width, kvm_run_header in *.
  rewrite load_bytes_ok by lia. reflexivity.
Qed.

(** The port, size and direction survive the answer. *)
Lemma io_deliver_same page x :
  page_ok page -> io_data_ok page ->
  io_port (io_deliver page x) = io_port page /\ io_size (io_deliver page x) = io_size page /\
  io_direction (io_deliver page x) = io_direction page /\ io_data_ok (io_deliver page x) /\
  page_ok (io_deliver page x) /\ length (io_deliver page x) = length page /\
  le_decode (io_operand (io_deliver page x)) = x mod 256 ^ Z.min (io_size page) 4.
Proof.
  intros Hp Hd. destruct (io_deliver_facts page x Hp Hd) as (Hl & Hok & Hf & Hop & _).
  pose proof (io_width_range page Hp) as Hw.
  unfold io_port, io_size, io_direction, io_data_ok, io_width, io_data_offset, io_size in *.
  rewrite !Hf by lia. rewrite Hl, Hop, le_decode_encode, Z2Nat.id by lia. done.
Qed.

Lemma demo_set_io t i i' :
  demo_trapper v t -> it_io t = Some i -> io_inCallbacks i' = io_inCallbacks i ->
  io_outCallbacks i' = io_outCallbacks i -> demo_trapper v (set_io i' t).
Proof.
  intros [Hv Hc (i0 & Hi0 & Hin0 & Hout0) Hm Hd] Hi Hin Hout. split; try done. exists i'.
  split; [done|]. rewrite Hin, Hout. by simplify_eq.
Qed.

(** What the I/O handler leaves when the request is [q]: the reply in the page,
    the board's next state, the record still to be made. *)
Definition answered_io t page w b q w1 (t1 : InstructionTrapper K Env) : Prop :=
  call_io t w = Ok ((true, t1), w1) /\ I w1 /\ demo_trapper v t1 /\
  page_at run (reply q (b_state b) page) w1 /\ io_data_ok (reply q (b_state b) page) /\
  board_at w1 (mk_board (state_after q (b_state b)) (b_log b)).

Lemma demo_call_io t page w b :
  demo_trapper v t -> I w -> board_at w b -> page_at run page w -> io_data_ok page ->
  exists q w1 t1, request_of Io page = Some q /\ answered_io t page w b q w1 t1 /\
    let page' := reply q (b_state b) page in
    record_of q (b_state b)
    = (if io_direction page' =? KVM_EXIT_IO_OUT then IoWrite else IoRead,
       PIo (mk_IoEvent (io_port page') (io_size page') (le_decode (io_operand page'))
                       (io_direction page' =? KVM_EXIT_IO_OUT))).
Proof.
  intros Ht Hw Hb Hp Hd. pose proof Ht as [Hv _ (i & Hi & Hin & Hout) _ _].
  unfold request_of, answered_io, call_io. rewrite Hi, Hv.
  destruct (Z.eqb_spec (io_direction page) KVM_EXIT_IO_OUT) as [Ho|Ho].
  - exists (Out (io_port page) (io_size page) (le_decode (io_operand page))), w, (set_io (io_count_out i) t).
    split; [done|]. cbn [reply state_after record_of]. rewrite (proj2 (Z.eqb_eq _ _) Ho).
    split; [|done]. split.
    { unfold bind at 1. rewrite (handle_out i v run page w Hp Hd Ho).
      by rewrite (bind_Ok _ _ _ _ _ (demo_run_out i _ _ w Hout)). }
    split; [done|]. split; [by eapply demo_set_io|]. by destruct b.
  - destruct (demo_run_in i (io_port page) (mk_InContext (io_port page) (io_size page) (io_count page)) w Hin Hout Hw)
      as (w1 & E1 & H1 & M1 & He).
    pose proof (page_at_mem _ _ _ _ Hp M1) as Hp1.
    destruct (io_deliver_same page (port_value (io_port page)) (proj2 (proj2 Hp)) Hd)
      as (Hport & Hsize & Hdir & Hd' & Hok & Hl & Hop).
    exists (In (io_port page) (io_size page)). eexists. exists (set_io (io_count_in i) t).
    split; [done|]. cbn [reply state_after record_of].
    rewrite Hport, Hsize, Hdir, Hop, (proj2 (Z.eqb_neq _ _) Ho). split; [|done]. split.
    { unfold bind. by rewrite (handle_in i v run page _ w w1 Hp Hd Ho E1 Hp1). }
    split; [by eapply (I_with_page I I_is_steady)|]. split; [by eapply demo_set_io|].
    split; [by apply (page_at_with _ page)|]. split; [done|].
    destruct b. by eapply board_env; [|exact Hb].
Qed.

Lemma pass_io t page w b :
  demo_trapper v t -> I w -> board_at w b -> page_at run page w -> io_data_ok page ->
  exists t' w' page' b', dispatchExit t Io w = Ok ((Continue, t'), w') /\ I w' /\ demo_trapper v t' /\
    page_at run page' w' /\ board_at w' b' /\ board_step (Io, page, page') b b'.
Proof.
  intros Ht Hw Hb Hp Hd.
  destruct (demo_call_io t page w b Ht Hw Hb Hp Hd) as (q & w1 & t1 & Hq & (E1 & H1 & T1 & P1 & D1 & B1) & Hrec).
  set (page' := reply q (b_state b) page) in *. pose proof (dt_dispatch _ _ T1) as (d & Hd1 & _).
  pose proof (publish_io_page t1 d page' w1 (dt_vcpu _ _ T1) Hd1 P1 D1) as E2. cbv zeta in E2.
  set (pl := mk_IoEvent _ _ _ _) in *.
  set (f := fun now ip => mk_HvEvent (if ie_isWrite pl then IoWrite else IoRead) (vc_id v) ip now (PIo pl)).
  destruct (event_told t1 d w1 _ f (f 0 0) T1 Hd1 H1 B1 (fun _ _ => conj eq_refl eq_refl))
    as (t2 & w2 & E3 & H2 & M2 & T2 & B2).
  exists t2, w2, page', (mk_board (state_after q (b_state b)) (b_log b ++ [record_of q (b_state b)])).
  cbn [dispatchExit]. rewrite (bind_Ok _ _ _ _ _ E1). cbn [negb].
  rewrite (bind_Ok _ _ _ _ _ (eq_trans E2 E3)). split; [done|]. split; [done|]. split; [done|].
  split; [by eapply page_at_mem|]. split; [|by constructor].
  unfold noted in B2. cbn [f ev_type ev_payload b_state b_log] in B2. rewrite Hrec. fold pl.
  change (io_direction page' =? KVM_EXIT_IO_OUT) with (ie_isWrite pl). by destruct (ie_isWrite pl).
Qed.

(** *** The MMIO handler *)

Lemma demo_set_mmio t m m' :
  demo_trapper v t -> it_mmio t = Some m -> mm_readCallbacks m' = mm_readCallbacks m ->
  mm_writeCallbacks m' = mm_writeCallbacks m -> demo_trapper v (set_mmio m' t).
Proof.
  intros [Hv Hc Hi (m0 & Hm0 & Hr0 & Hw0) Hd] Hm Hr Hw. split; try done. exists m'.
  split; [done|]. unfold main_callbacks. rewrite Hr, Hw. by simplify_eq.
Qed.

Lemma status_value_u64 s : u64 (status_value s) = status_value s.
Proof.
  apply u64_small. unfold status_value, is_u64.
  pose proof (Z.mod_pos_bound (write_count s) (2 ^ 32)).
  pose proof (Z.mod_pos_bound (last_write_value s) (2 ^ 32)). lia.
Qed.

Lemma demo_run_read m ctx w :
  main_callbacks m -> run_mmio_read m ctx w = Ok (register_value (device w) (rc_addr ctx), w).
Proof.
  intros [Hr _]. unfold run_mmio_read, register_value. rewrite Hr.
  cbn [main_mmio MmioHandler_registerRead MmioHandler_registerWrite mm_readCallbacks MmioHandler_new].
  destruct (Z.eqb_spec (rc_addr ctx) k_reg_status) as [->|Hs].
  { rewrite lookup_insert_eq, (bind_Ok _ _ _ _ _ (status_callback_ok _ _)). unfold ret.
    by rewrite status_value_u64. }
  rewrite lookup_insert_ne by done. destruct (Z.eqb_spec (rc_addr ctx) k_reg_magic) as [->|Hm].
  - by rewrite lookup_insert_eq.
  - by rewrite lookup_insert_ne, lookup_empty by done.
Qed.

Lemma demo_run_write m ctx w b :
  main_callbacks m -> I w -> board_at w b ->
  exists w1, run_mmio_write m ctx w = Ok (tt, w1) /\ I w1 /\ h_mem (w_host w1) = h_mem (w_host w) /\
    board_at w1 (mk_board (state_after (Write (wc_addr ctx) (wc_size ctx) (wc_value ctx)) (b_state b)) (b_log b)).
Proof.
  intros Hm Hw Hb. pose proof (demo_mmio_quiet m Hm) as [_ Hq].
  assert (quiet (run_mmio_write m ctx)) as Hquiet.
  { unfold run_mmio_write. destruct (mm_writeCallbacks m !! _) eqn:Hcb; [by eapply Hq|apply (quiet_ret I R)]. }
  enough (exists w1, run_mmio_write m ctx w = Ok (tt, w1) /\
    board_at w1 (mk_board (state_after (Write (wc_addr ctx) (wc_size ctx) (wc_value ctx)) (b_state b)) (b_log b)))
    as (w1 & E1 & Hb1).
  { exists w1. destruct (quiet_known _ _ _ _ Hquiet Hw E1). done. }
  destruct Hm as [_ Hwr]. unfold run_mmio_write, state_after. rewrite Hwr.
  cbn [main_mmio MmioHandler_registerRead MmioHandler_registerWrite mm_writeCallbacks MmioHandler_new].
  destruct (Z.eqb_spec (wc_addr ctx) k_reg_input) as [->|Hne].
  - rewrite lookup_insert_eq. eexists. split; [reflexivity|]. destruct Hb as [Hs Ha]. split; [|exact Ha].
    cbn. unfold device in Hs. by rewrite Hs.
  - rewrite lookup_insert_ne, lookup_empty by done. exists w. split; [done|]. by destruct b.
Qed.

(** [publish_mmio] on a page with an access of 1 to 8 bytes. *)
Lemma publish_mmio_page t d page w :
  it_vcpu t = v -> it_dispatch t = Some d -> page_at run page w -> 1 <= mmio_width page <= 8 ->
  publish_mmio t w =
  bind steady_now (fun now => bind (event_rip t) (fun ip =>
    publish_to t d (mk_HvEvent MemAccess (vc_id v) ip now
      (PMmio (mk_MmioEvent (mmio_phys_addr page) (mmio_width page) (le_decode (mmio_operand page))
                           (negb (mmio_is_write page =? 0))))))) w.
Proof.
  intros Hv Hd Hp Hw. unfold publish_mmio. rewrite Hd, Hv, (bind_Ok _ _ _ _ _ (kvm_run_at_ok _ _ _ Hp)).
  fold (mmio_width page). destruct Hp as (_ & _ & _ & Hl). unfold kvm_run_header, mmio_data_off in *.
  rewrite Z.min_l, load_bytes_ok by lia. reflexivity.
Qed.

Lemma mmio_deliver_same page x :
  page_ok page -> 1 <= mmio_width page <= 8 ->
  mmio_phys_addr (mmio_deliver page x) = mmio_phys_addr page /\
  mmio_width (mmio_deliver page x) = mmio_width page /\
  mmio_is_write (mmio_deliver page x) = mmio_is_write page /\
  page_ok (mmio_deliver page x) /\ length (mmio_deliver page x) = length page /\
  le_decode (mmio_operand (mmio_deliver page x)) = x mod 256 ^ mmio_width page.
Proof.
  intros Hp Hw. destruct (mmio_deliver_facts page x Hp Hw) as (Hok & Hop & Hf & _).
  rewrite Hop, le_decode_encode, Z2Nat.id by lia.
  unfold mmio_phys_addr, mmio_is_write, mmio_width, mmio_len in *. rewrite !Hf by lia.
  split_and!; try done. unfold mmio_deliver. apply length_splice. rewrite length_le_encode.
  destruct Hp as [_ Hl]. unfold kvm_run_header, mmio_width, mmio_len in *. lia.
Qed.

(** The same for the MMIO handler. *)
Definition answered_mmio t page w b q w1 (t1 : InstructionTrapper K Env) : Prop :=
  call_mmio t w = Ok ((true, t1), w1) /\ I w1 /\ demo_trapper v t1 /\
  page_at run (reply q (b_state b) page) w1 /\ mmio_width (reply q (b_state b) page) = mmio_width page /\
  board_at w1 (mk_board (state_after q (b_state b)) (b_log b)).

Lemma demo_call_mmio t page w b :
  demo_trapper v t -> I w -> board_at w b -> page_at run page w -> 1 <= mmio_width page <= 8 ->
  exists q w1 t1, request_of Mmio page = Some q /\ answered_mmio t page w b q w1 t1 /\
    let page' := reply q (b_state b) page in
    record_of q (b_state b)
    = (MemAccess, PMmio (mk_MmioEvent (mmio_phys_addr page') (mmio_width page') (le_decode (mmio_operand page'))
                                      (negb (mmio_is_write page' =? 0)))).
Proof.
  intros Ht Hw Hb Hp Hwd. pose proof Ht as [Hv _ _ (m & Hm & Hcb) _].
  unfold request_of, answered_mmio, call_mmio. rewrite Hm, Hv.
  rewrite (proj2 (Z.leb_le 1 _)), (proj2 (Z.leb_le _ 8)) by lia. cbn [andb].
  destruct (Z.eqb_spec (mmio_is_write page) 0) as [Hz|Hz].
  - pose proof (demo_run_read m (mk_ReadContext (mmio_phys_addr page) (mmio_width page)) w Hcb) as E1.
    cbn [rc_addr] in E1. rewrite (proj1 Hb) in E1.
    destruct (mmio_deliver_same page (register_value (b_state b) (mmio_phys_addr page)) (proj2 (proj2 Hp)) Hwd)
      as (Ha & Hwd' & Hd' & Hok & Hl & Hop).
    exists (Read (mmio_phys_addr page) (mmio_width page)). eexists. exists (set_mmio (mmio_count_read m) t).
    split; [done|]. cbn [reply state_after record_of]. rewrite Ha, Hwd', Hd', Hop, Hz. split; [|done]. split.
    { unfold bind. by rewrite (mmio_handle_read m run page _ w w Hp Hwd Hz E1 Hp). }
    split; [by eapply (I_with_page I I_is_steady)|]. split; [by eapply demo_set_mmio|].
    split; [by apply (page_at_with _ page)|]. split; [done|].
    destruct b. by eapply board_env; [|exact Hb].
  - set (ctx := mk_WriteContext (mmio_phys_addr page) (mmio_width page) (le_decode (mmio_operand page))).
    destruct (demo_run_write m ctx w b Hcb Hw Hb) as (w1 & E1 & H1 & M1 & Hb1).
    exists (Write (mmio_phys_addr page) (mmio_width page) (le_decode (mmio_operand page))), w1,
      (set_mmio (mmio_count_write m) t).
    split; [done|]. cbn [reply record_of]. rewrite (proj2 (Z.eqb_neq _ _) Hz). split; [|done]. split.
    { unfold bind at 1. rewrite (mmio_handle_write m run page w Hp Hwd Hz). fold ctx.
      by rewrite (bind_Ok _ _ _ _ _ E1). }
    split; [done|]. split; [by eapply demo_set_mmio|]. split; [by eapply page_at_mem|]. by split.
Qed.

Lemma pass_mmio t page w b :
  demo_trapper v t -> I w -> board_at w b -> page_at run page w -> 1 <= mmio_width page <= 8 ->
  exists t' w' page' b', dispatchExit t Mmio w = Ok ((Continue, t'), w') /\ I w' /\ demo_trapper v t' /\
    page_at run page' w' /\ board_at w' b' /\ board_step (Mmio, page, page') b b'.
Proof.
  intros Ht Hw Hb Hp Hwd.
  destruct (demo_call_mmio t page w b Ht Hw Hb Hp Hwd) as (q & w1 & t1 & Hq & (E1 & H1 & T1 & P1 & W1 & B1) & Hrec).
  set (page' := reply q (b_state b) page) in *. pose proof (dt_dispatch _ _ T1) as (d & Hd1 & _).
  pose proof (publish_mmio_page t1 d page' w1 (dt_vcpu _ _ T1) Hd1 P1 ltac:(lia)) as E2.
  set (pl := mk_MmioEvent _ _ _ _) in *.
  set (f := fun now ip => mk_HvEvent MemAccess (vc_id v) ip now (PMmio pl)).
  destruct (event_told t1 d w1 _ f (f 0 0) T1 Hd1 H1 B1 (fun _ _ => conj eq_refl eq_refl))
    as (t2 & w2 & E3 & H2 & M2 & T2 & B2).
  exists t2, w2, page', (mk_board (state_after q (b_state b)) (b_log b ++ [record_of q (b_state b)])).
  cbn [dispatchExit]. rewrite (bind_Ok _ _ _ _ _ E1). cbn [negb].
  rewrite (bind_Ok _ _ _ _ _ (eq_trans E2 E3)). split; [done|]. split; [done|]. split; [done|].
  split; [by eapply page_at_mem|]. split; [|by constructor].
  unfold noted in B2. cbn [f ev_type ev_payload b_state b_log io_record option_list] in B2. by rewrite Hrec.
Qed.

(** *** The exits that ask nothing of the board *)

Lemma cpuid_handle_callbacks (c : CpuidHandler K Env) u w ok c' w' :
  CpuidHandler_handle c u w = Ok ((ok, c'), w') -> cp_leafCallbacks c' = cp_leafCallbacks c.
Proof.
  unfold CpuidHandler_handle. intros Hh. apply bind_inv in Hh as ([regs|ec] & w1 & _ & Hh); [|by injection Hh as _ <- _].
  binv. by destruct (ec_failed _); injection Hh as _ <- _.
Qed.

Lemma demo_call_cpuid t w b :
  demo_trapper v t -> I w -> board_at w b ->
  exists ok t1 w1, call_cpuid t w = Ok ((ok, t1), w1) /\ I w1 /\ h_mem (w_host w1) = h_mem (w_host w) /\
    demo_trapper v t1 /\ board_at w1 b.
Proof.
  intros Ht Hw Hb. pose proof Ht as [Hv (c & Hc & Hcb) Hi Hm Hd]. unfold call_cpuid. rewrite Hc, Hv.
  pose proof (demo_cpuid_quiet c Hcb) as Hq.
  assert (quiet (CpuidHandler_handle c v)) as Hquiet.
  { apply (quiet_bind I R); [apply (quiet_getRegs I R); eauto|]. intros [regs|ec]; [|apply (quiet_ret I R)].
    apply (quiet_bind I R); [by apply (quiet_run_leaf I R); eauto|]. intros x.
    apply (quiet_bind I R); [apply (quiet_setRegs I R); eauto|]. intros ec.
    apply (quiet_if I R); apply (quiet_ret I R). }
  assert (silent (CpuidHandler_handle c v)) as Hsilent.
  { unfold CpuidHandler_handle. apply silent_bind; [silent|]. intros [regs|ec]; [|silent].
    apply silent_bind; [|intros x; silent]. unfold run_leaf. rewrite Hcb. cbn [main_cpuid registerLeaf cp_leafCallbacks CpuidHandler_new].
    destruct (decide (u32 (rax regs) = 1)) as [->|Hne].
    - rewrite lookup_insert_eq. unfold leaf1_callback. silent.
    - rewrite lookup_insert_ne, lookup_empty by done. unfold executeHostCpuid. silent. }
  destruct (quiet_total _ w Hquiet Hw) as ([ok c'] & w1 & E1 & H1 & M1).
  pose proof (cpuid_handle_callbacks _ _ _ _ _ _ E1) as Hcb'.
  exists ok, (set_cpuid c' t), w1. rewrite (bind_Ok _ _ _ _ _ E1). split; [done|]. split; [done|]. split; [done|].
  split.
  - split; try done. exists c'. by rewrite Hcb'.
  - eapply board_env; [|exact Hb]. by apply (Hsilent _ _ _ E1).
Qed.

(** The event of a CPUID exit is not the board's. *)
Lemma demo_publish_cpuid t w b :
  demo_trapper v t -> I w -> board_at w b ->
  exists t' w', publish_cpuid t w = Ok (t', w') /\ I w' /\ h_mem (w_host w') = h_mem (w_host w) /\
    demo_trapper v t' /\ board_at w' b.
Proof.
  intros Ht Hw Hb. pose proof (dt_dispatch _ _ Ht) as (d & Hd & _). unfold publish_cpuid. rewrite Hd.
  destruct (quiet_total (VCpu_getRegs (it_vcpu t)) w) as (regs & w1 & E1 & H1 & M1);
    [apply (quiet_getRegs I R); eauto|done|].
  assert (board_at w1 b) as Hb1.
  { eapply board_env; [|exact Hb]. by apply (silent_getRegs _ _ _ _ E1). }
  set (f := fun now ip => mk_HvEvent CpuidAccess (vc_id (it_vcpu t)) ip now (PCpuid (cpuid_payload regs))).
  destruct (event_told t d w1 b f (f 0 0) Ht Hd H1 Hb1 (fun _ _ => conj eq_refl eq_refl))
    as (t' & w' & E2 & H2 & M2 & T2 & B2).
  exists t', w'. rewrite (bind_Ok _ _ _ _ _ E1). split; [exact E2|]. split; [done|]. split; [congruence|].
  split; [done|]. unfold noted in B2. cbn in B2. rewrite app_nil_r in B2. by destruct b.
Qed.

Lemma pass_idle t reason page w b t' w' :
  demo_trapper v t -> I w -> board_at w b -> page_at run page w ->
  reason <> Io -> (reason = Mmio -> ~ 1 <= mmio_width page <= 8) ->
  dispatchExit t reason w = Ok ((Continue, t'), w') ->
  I w' /\ demo_trapper v t' /\ page_at run page w' /\ board_at w' b.
Proof.
  intros Ht Hw Hb Hp Hio Hmmio Hrun.
  assert (forall t1 w1 (x : RunResult), ret (x, t1) w1 = Ok ((Continue, t'), w') -> I w1 ->
            h_mem (w_host w1) = h_mem (w_host w) -> demo_trapper v t1 -> board_at w1 b ->
            I w' /\ demo_trapper v t' /\ page_at run page w' /\ board_at w' b) as Hend.
  { intros t1 w1 x [= _ <- <-] H1 M1 T1 B1. split; [done|]. split; [done|]. split; [by eapply page_at_mem|done]. }
  destruct (demo_call_cpuid t w b Ht Hw Hb) as (ok & t1 & w1 & E1 & H1 & M1 & T1 & B1).
  destruct (demo_publish_cpuid t1 w1 b T1 H1 B1) as (t2 & w2 & E2 & H2 & M2 & T2 & B2).
  pose proof (dt_vcpu _ _ Ht) as Hv.
  destruct reason; cbn [dispatchExit] in Hrun; try done; try (by eapply Hend).
  - rewrite Hv, (bind_Ok _ _ _ _ _ (kvm_run_at_ok _ _ _ Hp)) in Hrun.
    destruct (_ =? 0); [|by eapply Hend]. rewrite (bind_Ok _ _ _ _ _ E1) in Hrun. destruct ok; cbn [negb] in Hrun; by eapply Hend.
  - binv. by injection Hrun.
  - unfold call_mmio in Hrun. pose proof (dt_mmio _ _ Ht) as (m & Hm & _). rewrite Hm, Hv in Hrun.
    pose proof (u8_range (mmio_len page)) as Hu. unfold is_u8 in Hu. specialize (Hmmio eq_refl).
    unfold mmio_width in Hmmio.
    unfold bind in Hrun. rewrite (proj1 (mmio_refuses m run page w Hp)) in Hrun by lia. by injection Hrun.
  - binv. by injection Hrun.
  - rewrite Hv, (bind_Ok _ _ _ _ _ (kvm_run_at_ok _ _ _ Hp)) in Hrun.
    destruct (_ =? KVM_INTERNAL_ERROR_EMULATION); [|by eapply Hend].
    rewrite (bind_Ok _ _ _ _ _ E1) in Hrun. destruct ok; cbn [negb] in Hrun; [|by eapply Hend].
    rewrite (bind_Ok _ _ _ _ _ E2) in Hrun. eapply Hend; try done. congruence.
Qed.

(** ** Passes *)

Lemma pass_refines t reason page w b t' w' :
  demo_trapper v t -> I w -> board_at w b -> page_at run page w -> (reason = Io -> io_data_ok page) ->
  dispatchExit t reason w = Ok ((Continue, t'), w') ->
  I w' /\ demo_trapper v t' /\
  exists page' b', page_at run page' w' /\ board_at w' b' /\ board_step (reason, page, page') b b'.
Proof.
  intros Ht Hw Hb Hp Hio Hrun.
  destruct (decide (reason = Io)) as [->|Hnio];
    [|destruct (decide (reason = Mmio /\ 1 <= mmio_width page <= 8)) as [[-> Hwd]|Hn]].
  - destruct (pass_io t page w b Ht Hw Hb Hp (Hio eq_refl)) as (t1 & w1 & page' & b' & E1 & ?). rewrite E1 in Hrun.
    simplify_eq. naive_solver.
  - destruct (pass_mmio t page w b Ht Hw Hb Hp Hwd) as (t1 & w1 & page' & b' & E1 & ?). rewrite E1 in Hrun.
    simplify_eq. naive_solver.
  - destruct (pass_idle t reason page w b t' w' Ht Hw Hb Hp Hnio ltac:(tauto) Hrun) as (H1 & T1 & P1 & B1).
    split; [done|]. split; [done|]. exists page, b. split; [done|]. split; [done|]. constructor.
    destruct reason; try done. cbn. destruct (1 <=? mmio_width page) eqn:E1, (mmio_width page <=? 8) eqn:E2; boolify; try done.
    tauto.
Qed.

Lemma passes_refine n t w b t' w' :
  demo_trapper v t -> I w -> board_at w b -> continues n (t, w) (t', w') ->
  I w' /\ demo_trapper v t' /\
  exists ls b', length ls = n /\ passes_of ls (t, w) (t', w') /\ board_run ls b b' /\ board_at w' b'.
Proof.
  revert t w b. induction n as [|n IH]; intros t w b Ht Hw Hb Hc; inversion Hc as [|? ? ? t1 w1 ? Hs Hc']; subst.
  { split; [done|]. split; [done|]. exists [], b. split; [done|]. split; [constructor|]. split; [constructor|done]. }
  pose proof (dt_vcpu _ _ Ht) as Hv. unfold step in Hs. rewrite Hv in Hs.
  destruct (vcpu_run_outcome I v w Hw (ru_live _ _ _ _ _ Hw)) as (e & E1 & He).
  rewrite (bind_Ok _ _ _ _ _ E1) in Hs. destruct e as [reason|ec]; [|by injection Hs].
  set (wr := after_run (vc_fd v) w) in *.
  assert (I wr) as Hwr by (by eapply I_is_steady, steady_run).
  assert (board_at wr b) as Hbr.
  { eapply board_env; [|exact Hb]. apply (st_env _ _ (steady_run (vc_fd v) w)). }
  assert (exists page, page_at run page wr /\ (reason = Io -> io_data_ok page)) as (page & Hp & Hio).
  { destruct He as [[-> _]|(page & Hp & Hio & _)]; [|by eauto].
    destruct (vcpu_live_page v wr (ru_live _ _ _ _ _ Hwr)) as (page & Hp). by exists page. }
  assert (demo_trapper v (bump_exit t)) as Htb by (by destruct Ht).
  destruct (pass_refines (bump_exit t) reason page wr b t1 w1 Htb Hwr Hbr Hp Hio Hs)
    as (H1 & T1 & page' & b1 & P1 & B1 & Hstep).
  destruct (IH t1 w1 b1 T1 H1 B1 Hc') as (H' & T' & ls & b' & Hl & Hps & Hbs & Hb').
  split; [done|]. split; [done|]. exists ((reason, page, page') :: ls), b'. split; [cbn; by rewrite Hl|]. split; [|by split; [econstructor|]].
  by eapply passes_cons; rewrite ?Hv.
Qed.

End Refinement.

(** C7. The demo refines its board: however many passes of the run loop
    continue, and whatever the guest does in between, there is a run of the board
    with the same exits.  Every page the guest gets back is the board's reply to
    the page it left (a port or a register answers with its value, cut to the
    width of the access; every other exit leaves the page alone); the state the
    callbacks keep is the board's; and the I/O the agent has recorded is, in
    order and with the values the guest saw, what the board has recorded. *)
Theorem demo_refines_board {K} `{Kernel K} `{!MmapLaws K} `{!FdLaws K} `{!PageLaws K} `{!RunLaws K}
    L v r vm n t t' b (w w' : World K (VmiEnv K MainEnv)) :
  machine_ok vm v r -> demo_trapper v t -> running L v r (wired vm) w -> board_at w b ->
  continues n (t, w) (t', w') ->
  exists ls b', length ls = n /\ passes_of ls (t, w) (t', w') /\ board_run ls b b' /\ board_at w' b'.
Proof. intros Hvm Ht Hw Hb Hc. by destruct (passes_refine L v r vm Hvm _ _ _ _ _ _ Ht Hw Hb Hc) as (_ & _ & ?). Qed.

(** ** A guest that uses the board: it writes 7 to the input register, reads the
    status register and reads the keyboard. *)

Fixpoint after_passes {K E} `{Kernel K} (n : nat) (t : InstructionTrapper K E) (w : World K E)
  : option (InstructionTrapper K E * World K E) :=
  match n with
  | O => Some (t, w)
  | S n' => match step t w with
            | Ok ((Continue, t1), w1) => after_passes n' t1 w1
            | _ => None
            end
  end.

Lemma after_passes_continues {K E} `{Kernel K} n t (w : World K E) c :
  after_passes n t w = Some c -> continues n (t, w) c.
Proof.
  revert t w. induction n as [|n IH]; intros t w; cbn [after_passes].
  - intros [= <-]. constructor.
  - destruct (step t w) as [[[[] t1] w1]|] eqn:Hs; try done. intros Ha. by eapply cont_S, IH.
Qed.

Definition board_script : list sim_exit :=
  [mk_exit 0 0 [(8192, 0, mmio_page k_reg_input 4 1 (le_encode 4 7 ++ replicate 4 0))];
   mk_exit 0 0 [(8192, 0, mmio_page k_reg_status 8 0 (replicate 8 0))];
   mk_exit 0 0 [(8192, 0, io_page_in)]].

Definition board_vcpu : VCpu := mk_VCpu 5 0 8192 512.
Definition board_region (size : Z) : MemoryRegion := mk_MemoryRegion 4 0 0 size 16384.
Definition board_vm (size : Z) : VirtualMachine := mk_VirtualMachine 4 4160 1 [board_region size] [board_vcpu].

(** The demo wired up on a kernel whose guest plays a script of exits. *)
Definition script_world (size : Z) (script : list sim_exit) : World SimK (VmiEnv SimK MainEnv) :=
  sim_world (mk_simk 6 (2 ^ 32) {[3; 4; 5]} {[5 := zero_regs]} {[5 := zero_sregs]} [(5, 8192)] script 0)
            {[8192 := replicate 512 0; 16384 := replicate (Z.to_nat size) 0]}
            (mk_VmiEnv {[vm_ptr := board_vm size]} {[agent_ptr := main_agent]} main_env0).

Abbreviation board_world := (script_world 16 board_script).

Definition board_trapper : InstructionTrapper SimK (VmiEnv SimK MainEnv) :=
  main_trapper board_vcpu (snd (subscribeAll logger agent_bus)).

Lemma script_world_bytes size script : mem_bytes (h_mem (w_host (script_world size script))).
Proof.
  cbn. apply map_Forall_insert_2; [apply bytesb_ok; vm_compute; reflexivity|].
  apply map_Forall_singleton, Forall_replicate. by unfold is_byte.
Qed.

Lemma script_world_sound size script : sound (script_world size script).
Proof.
  split; [|apply script_world_bytes]. intros [fd|a] Hx.
  - apply present_fd in Hx. cbn in Hx. by apply elem_of_empty in Hx.
  - apply present_map in Hx. cbn in Hx |- *. rewrite lookup_insert_is_Some in Hx.
    destruct Hx as [<-|[_ Hx]]; [lia|]. rewrite lookup_singleton_is_Some in Hx. lia.
Qed.

Lemma script_world_running size script :
  0 <= size -> exists L, running L board_vcpu (board_region size) (wired (board_vm size)) (script_world size script).
Proof.
  intros Hs. destruct (owned_initial (script_world size script) (script_world_sound size script)) as (L & Ho & _). exists L. split; [done| | |].
  - split; [done| |apply script_world_bytes|].
    + cbn. by left.
    + eexists. split; [apply lookup_insert_eq|]. vm_compute. discriminate.
  - split; [done|]. exists (replicate (Z.to_nat size) 0). split; [|rewrite length_replicate; cbn; lia].
    cbn. by rewrite lookup_insert_ne, lookup_singleton_eq.
  - split; [apply lookup_singleton_eq|]. eexists. split; [apply lookup_singleton_eq|done].
Qed.

Lemma script_world_at size script : board_at (script_world size script) (mk_board (mk_MmioDeviceState 0 0) []).
Proof.
  split; [reflexivity|]. eexists. split; [apply lookup_singleton_eq|]. split; [repeat split|reflexivity].
Qed.

(** What its run leaves on the board. *)
Definition board_recorded : list (EventType * EventPayload) :=
  [(MemAccess, PMmio (mk_MmioEvent k_reg_input 4 7 true));
   (MemAccess, PMmio (mk_MmioEvent k_reg_status 8 (2 ^ 32 + 7) false));
   (IoRead, PIo (mk_IoEvent 0x60 1 0x1A false))].

Definition recorded_by {T} (c : option (T * World SimK (VmiEnv SimK MainEnv))) : list (EventType * EventPayload) :=
  match c with
  | Some (_, w) => match ve_agents (w_env w) !! agent_ptr with Some a => io_log (va_eventLog a) | None => [] end
  | None => []
  end.

Lemma board_trapper_records : recorded_by (after_passes 3 board_trapper board_world) = board_recorded.
Proof. vm_compute. reflexivity. Qed.

Lemma demo_refines_board_witness :
  exists t' w' ls b', length ls = 3%nat /\ passes_of ls (board_trapper, board_world) (t', w') /\
    board_run ls (mk_board (mk_MmioDeviceState 0 0) []) b' /\ board_at w' b' /\ b_log b' = board_recorded.
Proof.
  destruct (script_world_running 16 board_script ltac:(lia)) as [L Hr]. pose proof board_trapper_records as Hrec.
  destruct (after_passes 3 board_trapper board_world) as [[t' w']|] eqn:Ha; [|discriminate].
  apply after_passes_continues in Ha.
  destruct (demo_refines_board L board_vcpu (board_region 16) (board_vm 16) 3 board_trapper t'
              (mk_board (mk_MmioDeviceState 0 0) []) board_world w') as (ls & b' & Hl & Hp & Hb & Hb').
  - by split.
  - by apply demo_trapper_main.
  - exact Hr.
  - apply script_world_at.
  - exact Ha.
  - exists t', w', ls, b'. split_and!; try done. destruct Hb' as (_ & a & Hlk & _ & <-).
    cbn in Hrec. by rewrite Hlk in Hrec.
Defined.
