(* ===== verification/Guest.v ===== *)
(** * The guest program on the demo's board

    [main] runs guests/simpleGuest.asm: nine real-mode instructions that read
    the magic register, write 0x42 to the input register, read the status
    register and halt.  The guest is a small machine whose accesses above the end
    of its memory leave it as requests to the board of Device.v; a run of the
    guest is a list of the exits of the passes of the run loop.  Composed with the
    program, the guest always gets to the same end, whatever state the device was
    left in by an earlier run and whatever its own memory holds. *)

From S2P Require Import Prelude Host SimKvm Resource Memory Vcpu PortIo MmioDev Cpuid Msr Dispatcher Machine Ownership Trapper Progress Events Boot Vmi Main MainSafe Report Device.
From stdpp Require Import base list gmap relations strings.
From Stdlib Require Import ZArith Lia.
Open Scope Z_scope.
Open Scope hv_scope.

(** ** The instructions the guest uses *)

Inductive reg16 := AX | BX.

Inductive instr :=
| MovImm (r : reg16) (v : Z)                        (* mov r, v *)
| MovDs (r : reg16)                                 (* mov ds, r *)
| XorReg (r r' : reg16)                             (* xor r, r' *)
| Load (r base : reg16) (disp : Z)                  (* mov r, [base + disp] *)
| StoreImm (base : reg16) (disp v : Z)              (* mov word [base + disp], v *)
| CLI
| HLT.

(** The program, from its label [start]. *)
Definition start : list instr :=
  [MovImm AX 0x8000; MovDs AX; XorReg BX BX; Load AX BX 0;
   StoreImm BX 0x08 0x0042;
   Load AX BX 0x10;
   CLI; HLT].

(** The processor: there are no jumps, so what is left of the program stands for
    the instruction pointer. *)
Record cpu := mk_cpu {
  g_ax : Z;
  g_bx : Z;
  g_ds : Z;
  g_if : bool;
  g_ram : list Z;
  g_code : list instr }.

Definition reg_of (g : cpu) (r : reg16) : Z := match r with AX => g_ax g | BX => g_bx g end.

Definition set_reg (r : reg16) (v : Z) (g : cpu) : cpu :=
  match r with
  | AX => mk_cpu v (g_bx g) (g_ds g) (g_if g) (g_ram g) (g_code g)
  | BX => mk_cpu (g_ax g) v (g_ds g) (g_if g) (g_ram g) (g_code g)
  end.

Definition set_ds (v : Z) (g : cpu) : cpu :=
  mk_cpu (g_ax g) (g_bx g) v (g_if g) (g_ram g) (g_code g).
Definition clear_if (g : cpu) : cpu :=
  mk_cpu (g_ax g) (g_bx g) (g_ds g) false (g_ram g) (g_code g).
Definition set_ram (ram : list Z) (g : cpu) : cpu :=
  mk_cpu (g_ax g) (g_bx g) (g_ds g) (g_if g) ram (g_code g).
Definition set_code (code : list instr) (g : cpu) : cpu :=
  mk_cpu (g_ax g) (g_bx g) (g_ds g) (g_if g) (g_ram g) code.

(** The physical address of [ds:base+disp] in real mode. *)
Definition linear (g : cpu) (base : reg16) (disp : Z) : Z :=
  16 * g_ds g + u16 (reg_of g base + disp).

(** What the processor does next. *)
Inductive action :=
| Silent (g : cpu)
| AskRead (addr : Z) (resume : Z -> cpu)
| AskWrite (addr v : Z) (g : cpu)
| Stopped
| Stuck.

(** A word of memory, an access above its end, or one across its end, which the
    guest never makes. *)
Definition load_word (g : cpu) (addr : Z) (resume : Z -> cpu) : action :=
  if addr + 2 <=? Z.of_nat (length (g_ram g))
  then Silent (resume (le_decode (slice (Z.to_nat addr) 2 (g_ram g))))
  else if Z.of_nat (length (g_ram g)) <=? addr then AskRead addr resume
  else Stuck.

Definition store_word (g : cpu) (addr v : Z) : action :=
  if addr + 2 <=? Z.of_nat (length (g_ram g))
  then Silent (set_ram (splice (Z.to_nat addr) (le_encode 2 v) (g_ram g)) g)
  else if Z.of_nat (length (g_ram g)) <=? addr then AskWrite addr v g
  else Stuck.

Definition exec_instr (i : instr) (g : cpu) : action :=
  match i with
  | MovImm r v => Silent (set_reg r (u16 v) g)
  | MovDs r => Silent (set_ds (reg_of g r) g)
  | XorReg r r' => Silent (set_reg r (Z.lxor (reg_of g r) (reg_of g r')) g)
  | Load r base disp => load_word g (linear g base disp) (fun v => set_reg r v g)
  | StoreImm base disp v => store_word g (linear g base disp) (u16 v)
  | CLI => Silent (clear_if g)
  | HLT => Stopped
  end.

Definition act (g : cpu) : action :=
  match g_code g with
  | [] => Stuck
  | i :: code => exec_instr i (set_code code g)
  end.

(** ** Runs of the guest, by the exits it causes *)

(** An access above the end of memory is an exit whose page asks for it, and a
    read resumes with the operand of the page it gets back; exits that ask nothing
    (a signal, an entry that failed) leave the guest where it was. *)
Inductive guest_run : list label -> cpu -> cpu -> Prop :=
| guest_nil g : guest_run [] g g
| guest_silent ls g g1 g2 :
    act g = Silent g1 -> guest_run ls g1 g2 -> guest_run ls g g2
| guest_read reason page page' ls g addr resume g2 :
    act g = AskRead addr resume -> request_of reason page = Some (Read addr 2) ->
    guest_run ls (resume (le_decode (mmio_operand page'))) g2 ->
    guest_run ((reason, page, page') :: ls) g g2
| guest_write reason page page' ls g addr v g1 g2 :
    act g = AskWrite addr v g1 -> request_of reason page = Some (Write addr 2 v) ->
    guest_run ls g1 g2 ->
    guest_run ((reason, page, page') :: ls) g g2
| guest_undisturbed reason page page' ls g g2 :
    request_of reason page = None -> guest_run ls g g2 ->
    guest_run ((reason, page, page') :: ls) g g2.

(** ** The guest on the board *)

(** The abstract system: the guest's accesses answered by the board at once. *)
Definition tick (c : cpu * board) : option (cpu * board) :=
  let '(g, b) := c in
  match act g with
  | Silent g1 => Some (g1, b)
  | AskRead addr resume =>
      Some (resume (register_value (b_state b) addr mod 2 ^ 16),
            mk_board (b_state b) (b_log b ++ [record_of (Read addr 2) (b_state b)]))
  | AskWrite addr v g1 =>
      Some (g1, mk_board (state_after (Write addr 2 v) (b_state b))
                         (b_log b ++ [record_of (Write addr 2 v) (b_state b)]))
  | Stopped | Stuck => None
  end.

Abbreviation ticks := (rtc (fun c c' => tick c = Some c')).

Lemma request_read reason page addr :
  request_of reason page = Some (Read addr 2) -> mmio_width page = 2.
Proof.
  destruct reason; cbn; try done; repeat case_match; try done. by intros [= <- ->].
Qed.

(** What the guest and the board do with the same exits is a run of the two
    together. *)
Lemma run_together ls g g' b b' :
  guest_run ls g g' -> board_run ls b b' -> Forall (fun l => page_ok (l.1.2)) ls ->
  ticks (g, b) (g', b').
Proof.
  intros Hg. revert b. induction Hg as [g|ls g g1 g2 Ha Hg IH|reason page page' ls g addr k g2 Ha Hq Hg IH
    |reason page page' ls g addr v g1 g2 Ha Hq Hg IH|reason page page' ls g g2 Hq Hg IH]; intros b Hb Hok.
  - inversion Hb. constructor.
  - eapply rtc_l; [|by eapply IH]. cbn. by rewrite Ha.
  - inversion Hb as [|? ? ? b1 ? Hs Hb']; subst. apply Forall_cons in Hok as [Hp Hok]. cbn in Hp.
    pose proof (request_read _ _ _ Hq) as Hw. inversion Hs as [|? ? q ? Hq']; subst; simplify_eq.
    cbn [reply] in IH. destruct (mmio_deliver_same page (register_value (b_state b) addr) Hp ltac:(lia)) as (_ & _ & _ & _ & _ & Hop).
    rewrite Hop, Hw in IH. eapply rtc_l; [|by eapply IH]. cbn. by rewrite Ha.
  - inversion Hb as [|? ? ? b1 ? Hs Hb']; subst. apply Forall_cons in Hok as [Hp Hok].
    inversion Hs; subst; simplify_eq. eapply rtc_l; [|by eapply IH]. cbn. by rewrite Ha.
  - inversion Hb as [|? ? ? b1 ? Hs Hb']; subst. apply Forall_cons in Hok as [Hp Hok].
    inversion Hs; subst; simplify_eq. by eapply IH.
Qed.

(** The system is deterministic: a run that is not at the end gets there. *)
Lemma ticks_complete c c1 c2 :
  ticks c c1 -> ticks c c2 -> tick c2 = None -> ticks c1 c2.
Proof.
  intros H1 H2 Hend. revert H2. induction H1 as [|c d c1 Hs H1 IH]; [done|]. intros H2.
  apply rtc_inv in H2 as [->|(e & He & H2)]; [congruence|]. simplify_eq. auto.
Qed.

Lemma ticks_log c c' : ticks c c' -> b_log c.2 `prefix_of` b_log c'.2.
Proof.
  induction 1 as [|[g b] [g1 b1] c' Hs _ IH]; [done|]. etrans; [|exact IH]. unfold tick in Hs.
  destruct (act g); simplify_eq; cbn; by try apply prefix_app_r.
Qed.

(** ** What the program does *)

Definition input_state (s : MmioDeviceState) : MmioDeviceState :=
  mk_MmioDeviceState 0x42 (u64 (write_count s + 1)).

(** What a whole run of the guest puts on the board's record. *)
Definition guest_records : list (EventType * EventPayload) :=
  [(MemAccess, PMmio (mk_MmioEvent k_reg_magic 2 0x494F false));
   (MemAccess, PMmio (mk_MmioEvent k_reg_input 2 0x42 true));
   (MemAccess, PMmio (mk_MmioEvent k_reg_status 2 0x42 false))].

Definition guest_end (g : cpu) : cpu := mk_cpu 0x42 0 0x8000 false (g_ram g) [HLT].

Definition board_end (b : board) : board :=
  mk_board (input_state (b_state b)) (b_log b ++ guest_records).

Lemma load_above g addr k :
  Z.of_nat (length (g_ram g)) <= addr -> load_word g addr k = AskRead addr k.
Proof.
  intros Hl. unfold load_word. rewrite (proj2 (Z.leb_gt _ _)) by lia. by rewrite (proj2 (Z.leb_le _ _)).
Qed.

Lemma store_above g addr v :
  Z.of_nat (length (g_ram g)) <= addr -> store_word g addr v = AskWrite addr v g.
Proof.
  intros Hl. unfold store_word. rewrite (proj2 (Z.leb_gt _ _)) by lia. by rewrite (proj2 (Z.leb_le _ _)).
Qed.

Lemma status_low s : status_value (input_state s) mod 2 ^ 16 = 0x42.
Proof.
  unfold status_value, input_state. cbn [write_count last_write_value].
  set (c := u64 _ mod _). change (0x42 mod 2 ^ 32) with 0x42.
  replace (c * 2 ^ 32 + 0x42) with (0x42 + (c * 2 ^ 16) * 2 ^ 16) by lia. by rewrite Z_mod_plus_full.
Qed.

(** The two accesses of the guest, above the end of its memory. *)
Lemma tick_load ax fl ram code disp b :
  is_u16 disp -> Z.of_nat (length ram) <= k_mmio_base ->
  tick (mk_cpu ax 0 0x8000 fl ram (Load AX BX disp :: code), b)
  = Some (mk_cpu (register_value (b_state b) (k_mmio_base + disp) mod 2 ^ 16) 0 0x8000 fl ram code,
          mk_board (b_state b) (b_log b ++ [record_of (Read (k_mmio_base + disp) 2) (b_state b)])).
Proof.
  intros Hd Hl. cbn [tick act g_code exec_instr]. unfold linear. cbn [reg_of set_code g_bx g_ds].
  rewrite u16_small by done. change (16 * 0x8000 + (0 + disp)) with (k_mmio_base + disp).
  unfold is_u16 in Hd. by rewrite load_above by (cbn [set_code g_ram]; lia).
Qed.

Lemma tick_store ax fl ram code disp v b :
  is_u16 disp -> is_u16 v -> Z.of_nat (length ram) <= k_mmio_base ->
  tick (mk_cpu ax 0 0x8000 fl ram (StoreImm BX disp v :: code), b)
  = Some (mk_cpu ax 0 0x8000 fl ram code,
          mk_board (state_after (Write (k_mmio_base + disp) 2 v) (b_state b))
                   (b_log b ++ [record_of (Write (k_mmio_base + disp) 2 v) (b_state b)])).
Proof.
  intros Hd Hv Hl. cbn [tick act g_code exec_instr]. unfold linear. cbn [reg_of set_code g_bx g_ds].
  rewrite !u16_small by done. change (16 * 0x8000 + (0 + disp)) with (k_mmio_base + disp).
  unfold is_u16 in Hd. by rewrite store_above by (cbn [set_code g_ram]; lia).
Qed.

(** From its first instruction the guest gets to its last, on any board. *)
Lemma guest_halts g b :
  g_code g = start -> Z.of_nat (length (g_ram g)) <= k_mmio_base ->
  ticks (g, b) (guest_end g, board_end b).
Proof.
  destruct g as [ax bx ds fl ram code], b as [s log]. cbn [g_code g_ram]. intros -> Hl. unfold start.
  assert (forall c c1 c2, tick c = Some c1 -> ticks c1 c2 -> ticks c c2) as Hgo by (intros; by eapply rtc_l).
  do 3 (eapply Hgo; [reflexivity|]). cbn [set_reg set_ds set_code reg_of g_ax g_bx g_ds g_if g_ram g_code].
  rewrite Z.lxor_nilpotent. change (u16 0x8000) with 0x8000.
  eapply Hgo; [by apply tick_load|]. eapply Hgo; [by apply tick_store|]. eapply Hgo; [by apply tick_load|].
  eapply Hgo; [reflexivity|]. cbn [b_state b_log]. rewrite <- !app_assoc.
  change (register_value (state_after (Write (k_mmio_base + 0x08) 2 0x42) s) (k_mmio_base + 0x10))
    with (status_value (input_state s)).
  rewrite status_low. unfold guest_end, board_end, guest_records. cbn [b_state b_log g_ram].
  enough (record_of (Read (k_mmio_base + 0x10) 2) (input_state s)
          = (MemAccess, PMmio (mk_MmioEvent k_reg_status 2 0x42 false))) as <- by constructor.
  cbn [record_of]. do 3 f_equal. exact (status_low s).
Qed.

(** ** The guest's memory *)

Definition keeps_ds (i : instr) : bool := match i with MovDs _ => false | _ => true end.

(** Where the guest is while none of its accesses can fall into its memory: about
    to set DS, or with DS set and no instruction left that changes it. *)
Inductive away : cpu -> Prop :=
| away_start g : g_code g = start -> away g
| away_segment g : g_code g = drop 1 start -> g_ax g = 0x8000 -> away g
| away_mmio g : forallb keeps_ds (g_code g) = true -> g_ds g = 0x8000 -> away g.

Definition action_ram (ram : list Z) (a : action) : action :=
  match a with
  | Silent g => Silent (set_ram ram g)
  | AskRead addr resume => AskRead addr (fun v => set_ram ram (resume v))
  | AskWrite addr v g => AskWrite addr v (set_ram ram g)
  | Stopped => Stopped
  | Stuck => Stuck
  end.

(** What holds of all the states an action can lead to. *)
Definition leads_to (P : cpu -> Prop) (a : action) : Prop :=
  match a with
  | Silent g | AskWrite _ _ g => P g
  | AskRead _ resume => forall v, P (resume v)
  | Stopped | Stuck => True
  end.

Definition ram_below (g : cpu) : Prop := Z.of_nat (length (g_ram g)) <= k_mmio_base.

Lemma away_act g ram :
  away g -> ram_below g -> ram_below (set_ram ram g) ->
  act (set_ram ram g) = action_ram ram (act g) /\ leads_to (fun g1 => away g1 /\ ram_below g1) (act g).
Proof.
  unfold ram_below. cbn [set_ram g_ram]. destruct g as [ax bx ds fl old code]. cbn [g_ram g_ax g_ds g_code].
  intros Ha Hb Hb'. inversion Ha as [? Hc|? Hc Hax|? Hc Hds]; cbn in Hc; subst; cbn [g_ax g_ds] in *; subst.
  - split; [done|]. cbn. split; [by apply away_segment|done].
  - split; [done|]. cbn. split; [by apply away_mmio|done].
  - destruct code as [|i code]; [done|]. apply andb_prop in Hc as [Hi Hc].
    assert (forall g, g_code g = code -> g_ds g = 0x8000 -> g_ram g = old -> away g /\ ram_below g) as Hnext.
    { intros g Hg Hd Hr. split; [apply away_mmio; [by rewrite Hg|done]|by unfold ram_below; rewrite Hr]. }
    assert (forall base r disp, let g := mk_cpu ax bx 0x8000 fl r code in k_mmio_base <= linear g base disp) as Hlin.
    { intros base r disp g. pose proof (u16_range (reg_of g base + disp)) as Hu. unfold is_u16, linear, k_mmio_base in *.
      cbn [g_ds g] in *. lia. }
    unfold act. cbn [set_ram g_code exec_instr set_code g_ax g_bx g_ds g_if g_ram].
    destruct i as [r v|r|r r'|r base disp|base disp v| |]; try done; cbn [exec_instr].
    + destruct r; (split; [done|by apply Hnext]).
    + destruct r, r'; (split; [done|by apply Hnext]).
    + rewrite !load_above by (etrans; [|by apply Hlin]; done). destruct r, base; (split; [done|intros v; by apply Hnext]).
    + rewrite !store_above by (etrans; [|by apply Hlin]; done). destruct base; (split; [done|by apply Hnext]).
    + split; [done|by apply Hnext].
Qed.

(** So its runs are the same over any memory. *)
Lemma ram_unread ls g g' ram :
  guest_run ls g g' -> away g -> ram_below g -> ram_below (set_ram ram g) ->
  guest_run ls (set_ram ram g) (set_ram ram g').
Proof.
  intros Hg Ha Hb Hb'. induction Hg as [g|ls g g1 g2 E _ IH|reason page page' ls g addr k g2 E Hq _ IH
    |reason page page' ls g addr v g1 g2 E Hq _ IH|reason page page' ls g g2 Hq _ IH]; [constructor|..];
    try (destruct (away_act g ram Ha Hb Hb') as [Ha' Hl]; rewrite E in Ha', Hl; cbn in Ha', Hl).
  - destruct Hl. eapply guest_silent; eauto.
  - destruct (Hl (le_decode (mmio_operand page'))). eapply guest_read; eauto.
  - destruct Hl. eapply guest_write; eauto.
  - eapply guest_undisturbed; eauto.
Qed.

(** ** The passes and their labels *)

Section Labels.

Context {K : Type} `{Kernel K}.
Implicit Types (c : InstructionTrapper K (VmiEnv K MainEnv) * World K (VmiEnv K MainEnv)).

Lemma passes_continue ls c c' : passes_of ls c c' -> continues (length ls) c c'.
Proof.
  induction 1 as [|t w reason w1 page t1 w2 page2 ls c E1 _ E2 _ _ IH]; [constructor|].
  econstructor; [|exact IH]. unfold step. by rewrite (bind_Ok _ _ _ _ _ E1).
Qed.

Lemma passes_pages ls c c' : passes_of ls c c' -> Forall (fun l => page_ok l.1.2) ls.
Proof. induction 1 as [|t w reason w1 page t1 w2 page2 ls c _ (_ & _ & Hp) _ _ _ IH]; by constructor. Qed.

Lemma passes_det ls ls' c c1 c2 :
  passes_of ls c c1 -> passes_of ls' c c2 -> length ls = length ls' -> ls = ls'.
Proof.
  intros H1. revert ls' c2. induction H1 as [|t w reason w1 page t1 w2 page2 ls c E1 P1 E2 P2 H1 IH];
    intros ls' c2 H2 Hl; inversion H2 as [|? ? reason' w1' page' t1' w2' page2' ls2 ? E1' P1' E2' P2' H2']; subst;
    try done.
  rewrite E1 in E1'. simplify_eq. rewrite E2 in E2'. simplify_eq.
  destruct P1 as (_ & P1 & _), P1' as (_ & P1' & _), P2 as (_ & P2 & _), P2' as (_ & P2' & _). simplify_eq.
  f_equal. eapply IH; [exact H2'|done].
Qed.

End Labels.


(** Any passes that serve the guest run it together with the board. *)
Lemma guest_with_board {K} `{Kernel K} `{!MmapLaws K} `{!FdLaws K} `{!PageLaws K} `{!RunLaws K}
    L v r vm ls t t' b (w w' : World K (VmiEnv K MainEnv)) g g' :
  machine_ok vm v r -> demo_trapper v t -> running L v r (wired vm) w -> board_at w b ->
  passes_of ls (t, w) (t', w') -> g_code g = start -> ram_below g -> guest_run ls g g' ->
  running L v r (wired vm) w' /\ demo_trapper v t' /\
  exists b', board_at w' b' /\ ticks (g', b') (guest_end g, board_end b).
Proof.
  intros Hvm Ht Hw Hb Hp Hc Hram Hg.
  destruct (passes_refine L v r vm Hvm _ _ _ _ _ _ Ht Hw Hb (passes_continue _ _ _ Hp))
    as (H' & T' & ls' & b' & Hl & Hp' & Hr & Hb').
  rewrite (passes_det _ _ _ _ _ Hp' Hp Hl) in Hr. split; [done|]. split; [done|]. exists b'. split; [done|].
  eapply ticks_complete; [|by apply guest_halts|reflexivity]. eapply run_together; [done..|]. by eapply passes_pages.
Qed.

(** A guest at its HLT has nothing left to do. *)
Lemma ticks_stopped g b c : act g = Stopped -> ticks (g, b) c -> c = (g, b).
Proof.
  intros Hs Ht. apply rtc_inv in Ht as [Heq|(c' & Ht' & _)]; [done|]. unfold tick in Ht'. by rewrite Hs in Ht'.
Qed.

(** C9. simpleGuest.asm on the demo.  Whatever passes of the run loop serve the
    exits of the guest, started on any device state: the state of the device and
    the I/O on record are those of the guest and the board run together, which
    from there reaches exactly one end: AX holds 0x42, read back from the status
    register, the device has counted one more write, and the record has grown by
    the three accesses (the magic word as far as two bytes show it, the write, the
    status).  So a guest that has reached its HLT has left exactly this, at every
    moment the record is a prefix of it, and the guest's own memory, where [main]
    puts the scan code, plays no part: the same exits are a run over any other
    memory. *)
Theorem simple_guest_on_demo {K} `{Kernel K} `{!MmapLaws K} `{!FdLaws K} `{!PageLaws K} `{!RunLaws K}
    L v r vm ls t t' b (w w' : World K (VmiEnv K MainEnv)) g g' :
  machine_ok vm v r -> demo_trapper v t -> running L v r (wired vm) w -> board_at w b ->
  passes_of ls (t, w) (t', w') ->
  g_code g = start -> ram_below g -> guest_run ls g g' ->
  (exists b', board_at w' b' /\ ticks (g', b') (guest_end g, board_end b) /\
     b_log b' `prefix_of` b_log b ++ guest_records /\
     (act g' = Stopped -> g' = guest_end g /\ b' = board_end b)) /\
  (forall ram, ram_below (set_ram ram g) -> guest_run ls (set_ram ram g) (set_ram ram g')).
Proof.
  intros Hvm Ht Hw Hb Hp Hc Hram Hg.
  split; [|intros ram Hr; apply ram_unread; [done|by apply away_start|done|done]].
  destruct (guest_with_board L v r vm ls t t' b w w' g g') as (_ & _ & b' & Hb' & Hend); [done..|].
  exists b'. split; [done|]. split; [done|]. split; [by apply (ticks_log _ _ Hend)|]. intros Hs.
  apply ticks_stopped in Hend; [by simplify_eq|done].
Qed.

(** ** The guest's exits on the demo *)

(** The labels of the first passes, computed. *)
Definition page_in {K E} `{Kernel K} (run : Z) (w : World K E) : option (list Z) :=
  match h_mem (w_host w) !! run with
  | Some page =>
      if negb (run =? nullptr) && bytesb page && (kvm_run_header <=? Z.of_nat (length page)) then Some page else None
  | None => None
  end.

Lemma page_in_at {K E} `{Kernel K} run (w : World K E) page : page_in run w = Some page -> page_at run page w.
Proof.
  unfold page_in. destruct (h_mem (w_host w) !! run) as [page'|] eqn:Hl; [|done].
  destruct (negb _ && _ && _) eqn:Hok; [|done]. intros [= ->]. boolify. split; [done|]. split; [done|].
  split; [by apply bytesb_ok|done].
Qed.

Section Labelled.

Context {K : Type} `{Kernel K}.
Abbreviation Env := (VmiEnv K MainEnv).

Fixpoint labels_of (n : nat) (t : InstructionTrapper K Env) (w : World K Env)
  : option (list label * (InstructionTrapper K Env * World K Env)) :=
  match n with
  | O => Some ([], (t, w))
  | S n' =>
      match VCpu_run (it_vcpu t) w with
      | Ok (Value reason, w1) =>
          match page_in (vc_runPage (it_vcpu t)) w1, dispatchExit (bump_exit t) reason w1 with
          | Some page, Ok ((Continue, t1), w2) =>
              match page_in (vc_runPage (it_vcpu t)) w2, labels_of n' t1 w2 with
              | Some page2, Some (ls, c) => Some ((reason, page, page2) :: ls, c)
              | _, _ => None
              end
          | _, _ => None
          end
      | _ => None
      end
  end.

Lemma labels_of_passes n t w ls c : labels_of n t w = Some (ls, c) -> passes_of ls (t, w) c.
Proof.
  revert t w ls. induction n as [|n IH]; intros t w ls; cbn [labels_of].
  - intros [= <- <-]. constructor.
  - destruct (VCpu_run _ w) as [[[reason|?] w1]|] eqn:E1; [|done..].
    destruct (page_in _ w1) as [page|] eqn:P1; [|done].
    destruct (dispatchExit _ reason w1) as [[[[] t1] w2]|] eqn:E2; try done.
    destruct (page_in _ w2) as [page2|] eqn:P2; [|done].
    destruct (labels_of n t1 w2) as [[ls1 c1]|] eqn:E3; [|done]. intros [= <- <-].
    eapply passes_cons; eauto using page_in_at.
Qed.

End Labelled.

Definition word_page (addr is_write v : Z) : list Z := mmio_page addr 2 is_write (le_encode 2 v ++ replicate 6 0) ++ replicate 219 0.

Definition guest_script : list sim_exit :=
  [mk_exit 0 0 [(8192, 0, word_page k_reg_magic 0 0)];
   mk_exit 0 0 [(8192, 0, word_page k_reg_input 1 0x42)];
   mk_exit 0 0 [(8192, 0, word_page k_reg_status 0 0)]].

Definition guest_labels : list label :=
  [(Mmio, word_page k_reg_magic 0 0, word_page k_reg_magic 0 0x494F);
   (Mmio, word_page k_reg_input 1 0x42, word_page k_reg_input 1 0x42);
   (Mmio, word_page k_reg_status 0 0, word_page k_reg_status 0 0x42)].

Lemma guest_labels_served :
  exists c, passes_of guest_labels (board_trapper, script_world 16 guest_script) c.
Proof.
  assert (option_map fst (labels_of 3 board_trapper (script_world 16 guest_script)) = Some guest_labels) as Hl
    by (vm_compute; reflexivity).
  destruct (labels_of 3 _ _) as [[ls c]|] eqn:E1; [|done]. injection Hl as ->. exists c. by eapply labels_of_passes.
Qed.

Definition guest0 : cpu := mk_cpu 0 0 0 true (replicate 64 0) start.

Lemma guest_labels_run : guest_run guest_labels guest0 (guest_end guest0).
Proof.
  do 3 (eapply guest_silent; [reflexivity|]).
  eapply guest_read; [reflexivity|vm_compute; reflexivity|].
  eapply guest_write; [reflexivity|vm_compute; reflexivity|].
  eapply guest_read; [reflexivity|vm_compute; reflexivity|].
  eapply guest_silent; [reflexivity|]. vm_compute. constructor.
Qed.

Lemma simple_guest_on_demo_witness :
  exists (w' : World SimK (VmiEnv SimK MainEnv)) b',
    board_at w' b' /\ b_state b' = mk_MmioDeviceState 0x42 1 /\ b_log b' = guest_records.
Proof.
  destruct (script_world_running 16 guest_script ltac:(lia)) as [L Hr]. destruct guest_labels_served as [[t' w'] Hp].
  destruct (simple_guest_on_demo L board_vcpu (board_region 16) (board_vm 16) guest_labels board_trapper t'
              (mk_board (mk_MmioDeviceState 0 0) []) (script_world 16 guest_script) w' guest0 (guest_end guest0))
    as [(b' & Hb' & _ & _ & Hend) _].
  - by split.
  - by apply demo_trapper_main.
  - exact Hr.
  - apply script_world_at.
  - exact Hp.
  - reflexivity.
  - unfold ram_below. vm_compute. discriminate.
  - apply guest_labels_run.
  - exists w', b'. destruct (Hend eq_refl) as [_ ->]. split_and!; [exact Hb'|reflexivity|reflexivity].
Defined.
