(* ===== verification/Rounds.v ===== *)
(** * The runs of the guest, one after the other

    The loop of [main] puts the guest back to the snapshot, drops a scan code into
    its memory and lets it run; what the loop does not put back is the device.
    With guests/simpleGuest.asm in every run the loop comes to its end, and the
    device and the record are those of the runs one after the other, each the same
    but for the counter. *)

From S2P Require Import Prelude Host SimKvm Resource Memory Vcpu PortIo MmioDev Cpuid Msr Dispatcher Machine Ownership Trapper Progress Events Loader Boot Vmi Main MainSafe Report Device Guest.
From stdpp Require Import base list gmap relations strings.
From Stdlib Require Import ZArith Lia.
Open Scope Z_scope.
Open Scope hv_scope.

(** ** Computations that leave the environment alone *)

Section Kept.

Context {K : Type} `{Kernel K} {E : Type}.

Definition env_kept {A} (m : M (World K E) A) : Prop :=
  forall w a w', m w = Ok (a, w') -> w_env w' = w_env w.

Lemma kept_bind {A B} (m : M (World K E) A) (k : A -> M (World K E) B) :
  env_kept m -> (forall a, env_kept (k a)) -> env_kept (bind m k).
Proof.
  intros Hm Hk w b w' Hb. apply bind_inv in Hb as (a & w1 & E1 & Hb). by rewrite (Hk _ _ _ _ Hb), (Hm _ _ _ E1).
Qed.

Lemma kept_silent {A} (m : M (World K E) A) : silent m -> env_kept m.
Proof. intros Hm w a w' Ha. apply (Hm _ _ _ Ha). Qed.

Lemma kept_ret {A} (a : A) : env_kept (ret a).
Proof. by intros w b w' [= <- <-]. Qed.

Lemma kept_fail {A} f : env_kept (fail f : M (World K E) A).
Proof. by intros w a w' Ha. Qed.

Lemma kept_print s : env_kept (print s).
Proof. by intros w a w' [= <- <-]. Qed.

Lemma kept_report s ec : env_kept (report s ec).
Proof. by intros w a w' [= <- <-]. Qed.

End Kept.

Create HintDb kept.
#[export] Hint Resolve kept_silent kept_ret kept_fail kept_print kept_report : kept.

Ltac kept :=
  repeat first
    [ solve [eauto with kept silent nocore]
    | apply kept_bind; [|intros ?]
    | match goal with |- env_kept (match ?x with _ => _ end) => destruct x end ].

Section MainKept.

Context {K : Type} `{Kernel K}.
Abbreviation Env := (VmiEnv K MainEnv).

Lemma kept_vcpu_at vm i : env_kept (K := K) (E := Env) (vcpu_at vm i).
Proof. unfold vcpu_at. kept. Qed.

Lemma kept_region_at vm i : env_kept (K := K) (E := Env) (region_at vm i).
Proof. unfold region_at. kept. Qed.

Hint Resolve kept_vcpu_at kept_region_at : kept.

Lemma kept_restoreSnapshot vm s : env_kept (K := K) (E := Env) (restoreSnapshot vm s).
Proof.
  assert (forall rs saved, env_kept (K := K) (E := Env) (restore_regions rs saved)) as Hr
    by (induction rs; intros []; cbn [restore_regions]; kept).
  unfold restoreSnapshot. kept.
Qed.

Lemma kept_begin_run i vm s : env_kept (K := K) (begin_run i vm s).
Proof.
  unfold begin_run. apply kept_bind; [|intros ?; kept]. destruct (0 <? i)%nat; [|kept].
  apply kept_bind; [apply kept_restoreSnapshot|]. kept.
Qed.

Lemma kept_print_result r : env_kept (K := K) (print_result r).
Proof. unfold print_result. kept. Qed.

End MainKept.

(** ** Runs *)

(** [n] runs from the [i]th on, each set up as the program does, in each of which
    the kernel runs the guest to its HLT with fewer than [fuel] exits. *)
Inductive guest_runs {K} `{Kernel K} (fuel : nat) (vm : VirtualMachine) (s : VmSnapShot) :
  nat -> nat -> InstructionTrapper K (VmiEnv K MainEnv) * World K (VmiEnv K MainEnv) ->
  InstructionTrapper K (VmiEnv K MainEnv) * World K (VmiEnv K MainEnv) -> Prop :=
| runs_over i c : guest_runs fuel vm s i 0 c c
| runs_next i n t w w1 ls g g' t1 w2 w3 t2 w4 w5 c :
    begin_run i vm s w = Ok (tt, w1) ->
    g_code g = start -> ram_below g -> guest_run ls g g' -> act g' = Stopped ->
    passes_of ls (t, w1) (t1, w2) -> (length ls < fuel)%nat ->
    VCpu_run (it_vcpu t1) w2 = Ok (Value Hlt, w3) ->
    publish_halt (bump_exit t1) w3 = Ok (t2, w4) ->
    print_result Halt (printed (exits_line (exitCount t2)) w4) = Ok (tt, w5) ->
    guest_runs fuel vm s (S i) n (t2, w5) c ->
    guest_runs fuel vm s i (S n) (t, w) c.

(** The board after [n] runs. *)
Definition rounds_end (n : nat) (b : board) : board := Nat.iter n board_end b.

Lemma rounds_end_S n b : rounds_end (S n) b = rounds_end n (board_end b).
Proof. apply Nat.iter_succ_r. Qed.

Lemma rounds_end_is n b :
  rounds_end (S n) b
  = mk_board (mk_MmioDeviceState 0x42 (u64 (write_count (b_state b) + Z.of_nat (S n))))
             (b_log b ++ concat (replicate (S n) guest_records)).
Proof.
  revert b. induction n as [|n IH]; intros b; [reflexivity|]. rewrite rounds_end_S, IH. cbn [board_end b_state b_log].
  rewrite <- app_assoc. f_equal. f_equal. cbn [input_state write_count]. unfold u64.
  rewrite Zplus_mod_idemp_l. f_equal. lia.
Qed.

Section Rounds.

Context {K : Type} `{Kernel K} `{!MmapLaws K} `{!FdLaws K} `{!PageLaws K} `{!RunLaws K}.
Abbreviation Env := (VmiEnv K MainEnv).
Implicit Types (w : World K Env) (t : InstructionTrapper K Env) (b : board).
Context (L : resources) (v : VCpu) (r : MemoryRegion) (vm : VirtualMachine).
Hypothesis Hvm : machine_ok vm v r.

Abbreviation I := (running L v r (wired vm)).
Abbreviation R := (fun _ _ : K => True).

Hint Resolve I_is_steady : core.

(** The pass of the HLT: an event that is not the board's. *)
Lemma halt_pass t w t' w' b :
  demo_trapper v t -> I w -> board_at w b -> publish_halt t w = Ok (t', w') ->
  demo_trapper v t' /\ I w' /\ board_at w' b.
Proof.
  intros Ht Hw Hb Hp. pose proof (dt_dispatch _ _ Ht) as (d & Hd & _). unfold publish_halt in Hp. rewrite Hd in Hp.
  set (f := fun now ip => mk_HvEvent GuestHalt (vc_id (it_vcpu t)) ip now PMono).
  destruct (event_told L v r vm Hvm t d w b f (f 0 0) Ht Hd Hw Hb (fun _ _ => conj eq_refl eq_refl))
    as (t2 & w2 & E2 & H2 & _ & T2 & B2).
  assert (Ok (t', w') = Ok (t2, w2)) as [= -> ->] by exact (eq_trans (eq_sym Hp) E2). split; [done|]. split; [done|].
  unfold noted in B2. cbn in B2. rewrite app_nil_r in B2. by destruct b.
Qed.

(** Setting up a run: the device keeps its state. *)
Lemma set_up i s w w' b :
  0x2000 < mr_size r -> snapshot_ok r s -> I w -> board_at w b -> begin_run i vm s w = Ok (tt, w') ->
  I w' /\ board_at w' b.
Proof.
  intros Hsz Hs Hw Hb E1. split; [|eapply board_env; [|exact Hb]; by eapply kept_begin_run].
  destruct (safe_begin_run R L v r vm Hvm (fun _ => True) ltac:(done) ltac:(done) i s Hsz Hs w (conj Hw Logic.I))
    as ([] & w1 & E2 & _ & H1 & _).
  rewrite E1 in E2. by injection E2 as <-.
Qed.

Lemma say_keeps {A} (m : M (World K Env) A) w a w' b :
  quiet I R m -> env_kept m -> I w -> board_at w b -> m w = Ok (a, w') -> I w' /\ board_at w' b.
Proof.
  intros Hq Hk Hw Hb E1. split; [by eapply quiet_known|]. eapply board_env; [|exact Hb]. by eapply Hk.
Qed.

(** One run. *)
Lemma round_served fuel i s t w w1 ls g g' t1 w2 w3 t2 w4 w5 b :
  Z.of_nat fuel < 2 ^ 64 -> 0x2000 < mr_size r -> snapshot_ok r s ->
  demo_trapper v t -> I w -> board_at w b ->
  begin_run i vm s w = Ok (tt, w1) ->
  g_code g = start -> ram_below g -> guest_run ls g g' -> act g' = Stopped ->
  passes_of ls (t, w1) (t1, w2) -> (length ls < fuel)%nat ->
  VCpu_run (it_vcpu t1) w2 = Ok (Value Hlt, w3) ->
  publish_halt (bump_exit t1) w3 = Ok (t2, w4) ->
  print_result Halt (printed (exits_line (exitCount t2)) w4) = Ok (tt, w5) ->
  runLoop fuel 0 t w1 = Ok ((Some Halt, t2), w4) /\ demo_trapper v t2 /\ I w5 /\ board_at w5 (board_end b).
Proof.
  intros Hf Hsz Hs Ht Hw Hb Eb Hc Hram Hg Hstop Hp Hlen Er Eh Ep.
  destruct (set_up i s w w1 b Hsz Hs Hw Hb Eb) as [H1 B1].
  destruct (guest_with_board L v r vm ls t t1 b w1 w2 g g' Hvm Ht H1 B1 Hp Hc Hram Hg) as (H2 & T1 & b' & B2 & Hend).
  apply ticks_stopped in Hend; [|done]. injection Hend as <- <-.
  pose proof (dt_vcpu _ _ T1) as Hv. destruct (vcpu_run_outcome I v w2 H2 (ru_live _ _ _ _ _ H2)) as (e & E2 & _).
  rewrite Hv, E2 in Er. injection Er as -> <-.
  assert (I (after_run (vc_fd v) w2)) as H3 by (by eapply I_is_steady, steady_run).
  assert (board_at (after_run (vc_fd v) w2) (board_end b)) as B3.
  { eapply board_env; [|exact B2]. apply (st_env _ _ (steady_run (vc_fd v) w2)). }
  assert (demo_trapper v (bump_exit t1)) as Tb by (by destruct T1).
  destruct (halt_pass _ _ _ _ _ Tb H3 B3 Eh) as (T2 & H4 & B4).
  destruct (say_keeps (print (exits_line (exitCount t2))) w4 tt _ _ (quiet_say R L v r vm _) (kept_print _) H4 B4 eq_refl)
    as [H5 B5].
  destruct (say_keeps (print_result Halt) _ tt _ _ (quiet_print_result R L v r vm _) (kept_print_result _) H5 B5 Ep)
    as [H6 B6].
  split; [|done]. unfold runLoop. replace fuel with (length ls + (fuel - length ls))%nat by lia.
  rewrite (loop_continues _ _ 0 0 _ _ _ _ (passes_continue _ _ _ Hp)) by lia.
  destruct (fuel - length ls)%nat as [|m] eqn:Em; [lia|]. cbn [runLoop_fuel Z.eqb orb].
  assert (step t1 w2 = Ok ((Halt, t2), w4)) as Es.
  { unfold step. rewrite Hv, (bind_Ok _ _ _ _ _ E2). cbn [dispatchExit]. by rewrite (bind_Ok _ _ _ _ _ Eh). }
  rewrite (bind_Ok _ _ _ _ _ Es). by rewrite bool_decide_eq_true_2.
Qed.

Lemma rounds_served fuel s i n c c' b :
  Z.of_nat fuel < 2 ^ 64 -> 0x2000 < mr_size r -> snapshot_ok r s ->
  guest_runs fuel vm s i n c c' -> demo_trapper v c.1 -> I c.2 -> board_at c.2 b ->
  fuzz_loop fuel n i vm s c.1 c.2 = Ok ((Some None, c'.1), c'.2) /\ board_at c'.2 (rounds_end n b).
Proof.
  intros Hf Hsz Hs Hr. revert b. induction Hr as [i [t w]|i n t w w1 ls g g' t1 w2 w3 t2 w4 w5 c
    Eb Hc Hram Hg Hstop Hp Hlen Er Eh Ep _ IH]; intros b Ht Hw Hb; cbn [fst snd] in *; [by split|].
  destruct (round_served fuel i s t w w1 ls g g' t1 w2 w3 t2 w4 w5 b) as (El & T2 & H5 & B5); [done..|].
  destruct (IH (board_end b) T2 H5 B5) as [E1 B1]. rewrite rounds_end_S. split; [|done].
  assert (print (exits_line (exitCount t2)) w4 = Ok (tt, printed (exits_line (exitCount t2)) w4)) as Es by done.
  cbn [fuzz_loop]. rewrite (bind_Ok _ _ _ _ _ Eb), (bind_Ok _ _ _ _ _ El), (bind_Ok _ _ _ _ _ Es).
  by rewrite (bind_Ok _ _ _ _ _ Ep).
Qed.

End Rounds.

(** C8. The runs of the guest add up on the device.  When the kernel runs
    simpleGuest.asm to its HLT in each of [n + 1] runs (with whatever
    interruptions, fewer than [fuel] exits a run), the loop of [main] comes to its
    end without an exit code, and has left the device with the written word and
    its counter advanced by one per run - the snapshot does not take it back - and
    on record, once per run, the same three accesses: every run sees 0x42 in the
    status register, though the scan code dropped into its memory differs. *)
Theorem runs_add_up {K} `{Kernel K} `{!MmapLaws K} `{!FdLaws K} `{!PageLaws K} `{!RunLaws K}
    L v r vm fuel s i n t t' b (w w' : World K (VmiEnv K MainEnv)) :
  machine_ok vm v r -> demo_trapper v t -> running L v r (wired vm) w -> board_at w b ->
  0x2000 < mr_size r -> snapshot_ok r s -> Z.of_nat fuel < 2 ^ 64 ->
  guest_runs fuel vm s i (S n) (t, w) (t', w') ->
  fuzz_loop fuel (S n) i vm s t w = Ok ((Some None, t'), w') /\
  board_at w' (mk_board (mk_MmioDeviceState 0x42 (u64 (write_count (b_state b) + Z.of_nat (S n))))
                        (b_log b ++ concat (replicate (S n) guest_records))).
Proof.
  intros Hvm Ht Hw Hb Hsz Hs Hf Hr. rewrite <- rounds_end_is.
  exact (rounds_served L v r vm Hvm fuel s i (S n) _ _ b Hf Hsz Hs Hr Ht Hw Hb).
Qed.

(** ** Two runs *)

(** Set up and play [n] runs of the guest's three exits and its HLT. *)
Fixpoint play_guest (vm : VirtualMachine) (s : VmSnapShot) (i n : nat) (t : InstructionTrapper SimK (VmiEnv SimK MainEnv))
    (w : World SimK (VmiEnv SimK MainEnv))
  : option (InstructionTrapper SimK (VmiEnv SimK MainEnv) * World SimK (VmiEnv SimK MainEnv)) :=
  match n with
  | O => Some (t, w)
  | S n' =>
      match begin_run i vm s w with
      | Ok (tt, w1) =>
          match labels_of 3 t w1 with
          | Some (ls, (t1, w2)) =>
              if bool_decide (ls = guest_labels) then
                match VCpu_run (it_vcpu t1) w2 with
                | Ok (Value Hlt, w3) =>
                    match publish_halt (bump_exit t1) w3 with
                    | Ok (t2, w4) =>
                        match print_result Halt (printed (exits_line (exitCount t2)) w4) with
                        | Ok (tt, w5) => play_guest vm s (S i) n' t2 w5
                        | Fault _ => None
                        end
                    | Fault _ => None
                    end
                | _ => None
                end
              else None
          | None => None
          end
      | Fault _ => None
      end
  end.

Lemma play_runs vm s i n t w c : play_guest vm s i n t w = Some c -> guest_runs 4 vm s i n (t, w) c.
Proof.
  revert i t w. induction n as [|n IH]; intros i t w; cbn [play_guest].
  { intros [= <-]. constructor. }
  destruct (begin_run i vm s w) as [[[] w1]|] eqn:Eb; [|done].
  destruct (labels_of 3 t w1) as [[ls [t1 w2]]|] eqn:El; [|done].
  case_bool_decide as Hls; [subst ls|done].
  destruct (VCpu_run _ w2) as [[[[]|] w3]|] eqn:Er; try done.
  destruct (publish_halt _ w3) as [[t2 w4]|] eqn:Eh; [|done].
  destruct (print_result Halt _) as [[[] w5]|] eqn:Ep; [|done]. intros Hp.
  apply labels_of_passes in El. eapply (runs_next _ _ _ _ _ _ _ _ _ guest0); [exact Eb| | | | |exact El|..];
    [reflexivity|unfold ram_below; vm_compute; discriminate|apply guest_labels_run|reflexivity|cbn; lia
    |exact Er|exact Eh|exact Ep|by apply IH].
Qed.

Definition halted_page : list Z := hlt_page ++ replicate 224 0.

Definition rounds_script : list sim_exit :=
  guest_script ++ [mk_exit 0 0 [(8192, 0, halted_page)]] ++ guest_script ++ [mk_exit 0 0 [(8192, 0, halted_page)]].

Definition rounds_size : Z := 0x2008.

Definition rounds_snapshot : VmSnapShot :=
  mk_VmSnapShot zero_regs zero_sregs [replicate (Z.to_nat rounds_size) 0].

Definition rounds_played : option (InstructionTrapper SimK (VmiEnv SimK MainEnv) * World SimK (VmiEnv SimK MainEnv)) :=
  play_guest (board_vm rounds_size) rounds_snapshot 0 2 board_trapper (script_world rounds_size rounds_script).

Lemma rounds_are_played : (if rounds_played is Some _ then true else false) = true.
Proof. vm_compute. reflexivity. Qed.

Lemma runs_add_up_witness :
  exists (w' : World SimK (VmiEnv SimK MainEnv)) b',
    board_at w' b' /\ b_state b' = mk_MmioDeviceState 0x42 2 /\ b_log b' = guest_records ++ guest_records.
Proof.
  destruct (script_world_running rounds_size rounds_script ltac:(unfold rounds_size; lia)) as [L Hr].
  pose proof rounds_are_played as Hp. destruct rounds_played as [[t' w']|] eqn:Ep; [|done]. apply play_runs in Ep.
  destruct (runs_add_up L board_vcpu (board_region rounds_size) (board_vm rounds_size) 4 rounds_snapshot 0 1
              board_trapper t' (mk_board (mk_MmioDeviceState 0 0) []) (script_world rounds_size rounds_script) w')
    as [_ Hb'].
  - by split.
  - by apply demo_trapper_main.
  - exact Hr.
  - apply script_world_at.
  - reflexivity.
  - exists (replicate (Z.to_nat rounds_size) 0). split; [done|]. split; [rewrite length_replicate; by rewrite Z2Nat.id|].
    apply Forall_replicate. by unfold is_byte.
  - done.
  - exact Ep.
  - do 2 eexists. split; [exact Hb'|]. split; reflexivity.
Defined.
