(* ===== verification/Tests.v ===== *)
(** * The unit tests (tests/testHypervisor.cpp)

    Each test is a computation in a world whose environment is what its
    callbacks capture; it returns the outcomes of its expectations, in order.
    The [kvm_run] two of the tests fill in is a local object: a block of its own
    at an address [run], of which only the fixed part is accessed. *)

From S2P Require Import Prelude Host SimKvm Vcpu MmioDev Cpuid Dispatcher.
From stdpp Require Import base list gmap strings.
From Stdlib Require Import ZArith Lia.
Open Scope Z_scope.
Open Scope hv_scope.

Section Tests.

Context {K : Type} `{Kernel K}.

Definition captured {E} : M (World K E) E := fun w => Ok (w_env w, w).
Definition capture {E} (e : E) : M (World K E) unit := fun w => Ok (tt, mk_world (w_host w) e).

(** *** EventDispatcherTests *)

Definition ioReads_handler : Handler K (Z * Z) := fun _ =>
  let* (ioReads, catchAll) := captured in capture (ioReads + 1, catchAll).
Definition catchAll_handler : Handler K (Z * Z) := fun _ =>
  let* (ioReads, catchAll) := captured in capture (ioReads, catchAll + 1).

Definition PublishRoutesTypeSpecificAndCatchAllSubscribers : M (World K (Z * Z)) (list bool) :=
  capture (0, 0) ;;;
  let '(_, d) := subscribe IoRead ioReads_handler EventDispatcher_new in
  let '(_, d) := subscribeAll catchAll_handler d in
  let* now1 := steady_now in
  let ioEvent := mk_HvEvent IoRead 0 0x1000 now1 (PIo (mk_IoEvent 0x60 1 0x41 false)) in
  let* now2 := steady_now in
  let msrEvent := mk_HvEvent MsrWrite 0 0x2000 now2 (PMsr (mk_MsrEvent 0xC0000080 0 true)) in
  let* d := publish d ioEvent in
  let* d := publish d msrEvent in
  let* (ioReads, catchAll) := captured in
  ret [ioReads =? 1; catchAll =? 2; publishedCount d =? 2].

Definition UnsubscribeStopsNotifications : M (World K Z) (list bool) :=
  capture 0 ;;;
  let '(id, d) := subscribe GuestHalt (fun _ => let* calls := captured in capture (calls + 1))
                    EventDispatcher_new in
  let d := unsubscribe id d in
  let* now := steady_now in
  let* d := publish d (mk_HvEvent GuestHalt 0 0 now PMono) in
  let* calls := captured in
  ret [calls =? 0; publishedCount d =? 1].

(** *** CpuidHandlerTests *)

Definition ExecuteHostCpuidReturnsVendorLeafData : M (World K unit) (list bool) :=
  let* leaf0 := executeHostCpuid 0 0 in
  ret [0 <? lr_eax leaf0; negb (lr_ebx leaf0 =? 0); negb (lr_ecx leaf0 =? 0); negb (lr_edx leaf0 =? 0)].

(** *** MmioHandlerTests *)

(** [kvm_run run{}] and the assignments to its fields. *)
Definition mmio_run (phys_addr len is_write : Z) (data : list Z) : list Z :=
  splice 40 data
    (splice 52 [is_write]
      (splice 48 (le_encode 4 len)
        (splice 32 (le_encode 8 phys_addr)
          (splice 8 (le_encode 4 6) (replicate 288 0))))).

Definition declare_run {E} (run : Z) (page : list Z) : M (World K E) unit :=
  fun w => Ok (tt, with_page run page w).

(** The callback's own expectations are what it captures. *)
Definition ReadCallbackWritesValueBackToRunBuffer (run : Z) : M (World K (list bool)) (list bool) :=
  capture [] ;;;
  let mmio := MmioHandler_registerRead 0xFEE00030
    (fun ctx => let* seen := captured in
                capture (seen ++ [rc_addr ctx =? 0xFEE00030; rc_size ctx =? 4]) ;;;
                ret 0x11223344) MmioHandler_new in
  declare_run run (mmio_run 0xFEE00030 4 0 []) ;;;
  let* (ok, mmio) := MmioHandler_handle mmio run in
  let* seen := captured in
  if negb ok then ret (seen ++ [false])
  else
    let* data := mem_load run 40 4 in
    ret (seen ++ [true; le_decode data =? 0x11223344; readCount mmio =? 1; writeCount mmio =? 0]).

Definition WriteCallbackReceivesDecodedValue (run : Z) : M (World K (Z * Z * Z)) (list bool) :=
  capture (0, 0, 0) ;;;
  let mmio := MmioHandler_registerWrite 0xFEE00040
    (fun ctx => capture (wc_addr ctx, wc_size ctx, wc_value ctx)) MmioHandler_new in
  declare_run run (mmio_run 0xFEE00040 8 1 (le_encode 8 0xAABBCCDD11223344)) ;;;
  let* (ok, mmio) := MmioHandler_handle mmio run in
  let* (capturedAddr, capturedSize, capturedValue) := captured in
  if negb ok then ret [false]
  else ret [true; capturedAddr =? 0xFEE00040; capturedSize =? 8; capturedValue =? 0xAABBCCDD11223344;
            readCount mmio =? 0; writeCount mmio =? 1].

(** A test passes when it returns and all its expectations hold. *)
Definition passes {E} (test : M (World K E) (list bool)) : Prop :=
  forall w, exists outcomes w', test w = Ok (outcomes, w') /\ forallb Datatypes.id outcomes = true.

Lemma run_page_at {E} run page (w : World K E) :
  run <> nullptr -> bytesb page = true -> kvm_run_header <= Z.of_nat (length page) ->
  page_at run page (with_page run page w).
Proof. intros Hr Hb Hl. split; [done|]. split; [apply lookup_insert_eq|]. split; [by apply bytesb_ok|done]. Qed.

Lemma publish_test : passes (PublishRoutesTypeSpecificAndCatchAllSubscribers).
Proof.
  intros w. unfold PublishRoutesTypeSpecificAndCatchAllSubscribers, bind, capture, captured, steady_now.
  cbn. destruct (k_clock _) as [now1 k1]. cbn. destruct (k_clock _) as [now2 k2]. cbn.
  do 2 eexists. split; reflexivity.
Qed.

Lemma unsubscribe_test : passes (UnsubscribeStopsNotifications).
Proof.
  intros w. unfold UnsubscribeStopsNotifications, bind, capture, captured, steady_now.
  cbn. destruct (k_clock _) as [now k]. cbn. do 2 eexists. split; reflexivity.
Qed.

Lemma read_test run : run <> nullptr -> passes (ReadCallbackWritesValueBackToRunBuffer run).
Proof.
  intros Hr w. unfold ReadCallbackWritesValueBackToRunBuffer.
  set (mmio := MmioHandler_registerRead _ _ _). set (page := mmio_run _ _ _ _).
  unfold capture at 1, declare_run, bind at 1. set (w1 := mk_world (w_host w) []).
  unfold bind at 1. set (w2 := mk_world (w_host (with_page run page w1)) [true; true]).
  assert (page_at run page (with_page run page w1)) as Hp
    by (apply run_page_at; [done|reflexivity|vm_compute; discriminate]).
  assert (run_mmio_read mmio (mk_ReadContext (mmio_phys_addr page) (mmio_width page)) (with_page run page w1)
          = Ok (0x11223344, w2)) as Hread by reflexivity.
  assert (page_at run page w2) as Hp2 by exact Hp.
  rewrite (bind_Ok _ _ _ _ _ (mmio_handle_read mmio run page _ _ w2 Hp ltac:(split; vm_compute; discriminate) eq_refl Hread Hp2)).
  cbn beta iota. unfold captured at 1, bind at 1. cbn [negb with_page on_host w_env w2].
  unfold bind at 1. erewrite mem_load_ok; [|done|apply lookup_insert_eq|done|done|vm_compute; discriminate].
  do 2 eexists. split; [reflexivity|]. vm_compute. reflexivity.
Qed.

Lemma write_test run : run <> nullptr -> passes (WriteCallbackReceivesDecodedValue run).
Proof.
  intros Hr w. unfold WriteCallbackReceivesDecodedValue.
  set (mmio := MmioHandler_registerWrite _ _ _). set (page := mmio_run _ _ _ _).
  unfold capture at 1, declare_run, bind at 1. set (w1 := mk_world (w_host w) (0, 0, 0)).
  unfold bind at 1.
  assert (page_at run page (with_page run page w1)) as Hp
    by (apply run_page_at; [done|reflexivity|vm_compute; discriminate]).
  unfold bind at 1. rewrite (mmio_handle_write mmio run page _ Hp) by (split; vm_compute; discriminate) || (vm_compute; discriminate).
  do 2 eexists. split; [reflexivity|]. vm_compute. reflexivity.
Qed.

End Tests.

(** The five unit tests pass: on every kernel the two dispatcher tests and
    the two MMIO tests return with every expectation met, and the CPUID test
    does exactly when the host's leaf 0 has the four non-zero registers it
    expects. *)
Lemma unit_tests_pass {K} `{Kernel K} (run : Z) :
  run <> nullptr ->
  passes (PublishRoutesTypeSpecificAndCatchAllSubscribers (K := K)) /\
  passes (UnsubscribeStopsNotifications (K := K)) /\
  passes (ReadCallbackWritesValueBackToRunBuffer (K := K) run) /\
  passes (WriteCallbackReceivesDecodedValue (K := K) run) /\
  (passes (ExecuteHostCpuidReturnsVendorLeafData (K := K)) <->
   forall k, let '(a, b, c, d) := fst (k_cpuid 0 0 k) in
     u32 a <> 0 /\ u32 b <> 0 /\ u32 c <> 0 /\ u32 d <> 0).
Proof.
  intros Hr. split; [apply publish_test|]. split; [apply unsubscribe_test|].
  split; [by apply read_test|]. split; [by apply write_test|].
  unfold passes, ExecuteHostCpuidReturnsVendorLeafData, executeHostCpuid, host_cpuid, bind, ret. split.
  - intros Ht k. destruct (Ht (mk_world (mk_host k ∅ ∅ 0 [] [] []) tt)) as (outcomes & w' & E1 & Ho).
    cbn in E1. destruct (k_cpuid 0 0 k) as [[[[a b] c] d] k']. cbn in *. injection E1 as <- _.
    cbn in Ho. boolify. unfold Datatypes.id in *. boolify. lia.
  - intros Hk w. specialize (Hk (h_kern (w_host w))). cbn.
    destruct (k_cpuid 0 0 (h_kern (w_host w))) as [[[[a b] c] d] k']. cbn in *.
    do 2 eexists. split; [reflexivity|]. cbn. pose proof (u32_range a) as Hra. unfold is_u32 in Hra.
    unfold Datatypes.id. rewrite (proj2 (Z.ltb_lt _ _)) by lia. by rewrite !(proj2 (Z.eqb_neq _ _)) by tauto.
Qed.

Lemma unit_tests_pass_witness :
  passes (ReadCallbackWritesValueBackToRunBuffer (K := SimK) 8192) /\
  passes (ExecuteHostCpuidReturnsVendorLeafData (K := SimK)).
Proof.
  destruct (unit_tests_pass (K := SimK) 8192) as (_ & _ & Hread & _ & Hcpuid).
  - vm_compute; discriminate.
  - split; [exact Hread|]. apply Hcpuid. intros k. cbn. repeat split; vm_compute; discriminate.
Defined.
